(* ===== verification/_CoqProject ===== *)
-Q . S2P
Prelude.v
Double.v
PipelineController.v
Posix.v
Memory.v
ReadBuffer.v
OperationBatch.v
CType.v
LibnfsApi.v
RpcProcs.v
RpcApi.v
LibnfsPrivate.v
StateMonad.v
DispatchSource.v
OperationType.v
EventLoopState.v
EventLoop.v
Walk.v
SourceInv.v
SourceSpecs.v
RegistryInv.v
BufferInv.v
EventLoopInv.v
EventLoopSafe.v
EventLoopProps.v
EventLoopRuns.v
HandleLife.v
Provenance.v
CallSpec.v
Deadlines.v
FileHandle.v
Client.v
Extensions.v
ClientApi.v
ClientRuns.v
BufferFill.v
WriteBuffer.v
ReadData.v
Tokens.v
Helpers.v
Removal.v
RemovalRuns.v
TransferRuns.v
ReadRuns.v
Settings.v
WireTypes.v
Zdr.v
NfsWire.v
Nfs4Wire.v
WireProps.v
