(* ===== verification/Prelude.v ===== *)
(** * Verification of NFSKit

    NFSKit is a Swift package over libnfs, a C library that is shipped as a binary.
    An [NFSClient] owns one [NFSEventLoop]; the loop owns the [nfs_context], runs
    every method as a block of one serial dispatch queue, keeps the callers'
    continuations until libnfs invokes a C callback, and limits the number of
    operations in flight with two adaptive controllers, one for bulk data and one
    for metadata.  The package also carries the C headers of libnfs, which state
    what the library promises.  This library models both halves: the Swift
    code by its definitions, statement by statement, and libnfs by the contracts its
    headers document.

    ** Files

    Swift code (under src/Sources/NFSKit/):
    - PipelineController: PipelineController.swift, on the binary64 numbers of
      Double; [recordSuccess], [recordFailure], [reset], [effectiveDepth].
    - Posix: the error helpers of Extensions.swift and Darwin's error codes.
    - Memory: raw blocks and [Data] that wraps a block; ReadBuffer:
      ReadBuffer.swift on top of it.
    - OperationBatch: OperationBatch.swift, both modes.
    - OperationType: OperationType.swift.
    - EventLoopState, EventLoop: NFSEventLoop.swift.  [World] is the fields of the
      class and what surrounds them at run time: callback objects and their
      retained pointers, the outcomes of the callers' continuations, dispatch
      sources (DispatchSource), log boxes, memory, and the commands queued in
      libnfs.  Each method is a term of the state monad of StateMonad, whose [None] is
      a trap: a continuation resumed twice, an object used after its release, a
      dispatch source released while suspended, a buffer freed twice or written out
      of bounds, an integer overflow, a pointer read at the wrong type.
    - Walk: walks over the methods of the loop, for the files that follow one thing through them.
    - HandleLife: what the event loop does to open files; FileHandle:
      NFSFileHandle.swift, and the table of handles as an abstract machine; Tokens: that a
      token stands for one pointer only.
    - Provenance: where the answers of the loop come from, and monitors that follow the
      memory through a run; CallSpec: the service that callers are promised, and that the
      loop implements it; Deadlines: when answers come.
    - Client: the file transfers of NFSClient.swift; Removal: the recursive removal;
      Settings: the initialiser, [connect] and [configurePerformance] on the setters
      and getters of NFSEventLoop.swift; ClientApi: the other methods, as programs
      of requests that run while the event loop handles other events.
    - ClientRuns composes these programs with the loop; RemovalRuns, TransferRuns and ReadRuns
      do the same for the removal, [write] and the sequential read, which they also relate to
      Removal and Client.  BufferFill, WriteBuffer and ReadData: what is in the memory that
      libnfs fills, that it sends, and that callers are given.
    - Extensions, Helpers: bytes, path trimming, attributes, dates, streams, security
      modes, statistics; Parser.swift.

    C headers (src/Framework/Libnfs.xcframework/ios-arm64/Headers/nfsc/ and
    src/Sources/nfs/include/):
    - CType: C types, prototypes, and documented contracts as data, with
      [callback_allowed] and [return_allowed] reading a contract at run time.
    - LibnfsApi: libnfs.h; RpcProcs: the procedures of the rpcgen headers;
      RpcApi: libnfs-raw.h; LibnfsPrivate: libnfs-private.h as config.h configures it.
    - WireTypes: C declarations as data, and where the compiler puts the members of
      a structure; Zdr: libnfs-zdr.h; NfsWire, Nfs4Wire: the types, constants
      and codecs of the rpcgen headers; WireProps: the headers taken together.

    ** The event loop and its environment

    The class [EventLoop.Env] collects what the source does not contain: the return
    codes of asynchronous calls, poll events and descriptors, the callbacks that
    each library call delivers (any list of replies and log lines), the order in
    which a dictionary enumerates its keys, and reads through C pointers.  A
    reply is delivered only when its command is queued and the command's documented
    contract allows it; everything else is arbitrary.  [Event] lists what makes the queue
    run: a caller's request, readiness of a socket, the timer, shutdown, the release of
    a file handle, a change of log handler, a caller allocating or freeing a buffer,
    and the passing of time, which never goes back.  [event_ok] asks of a caller that it does not
    free a buffer that libnfs still uses (this is more than the API documents:
    [EventLoopRuns.late_read_into_freed_buffer]), that a destination buffer is as large as it says,
    that counts fit an [Int], that pointers come from libnfs, and that 64-bit identifiers are
    left.  [reachable] closes [init] under events.  The counts of operations in flight are
    unbounded here; in Swift they are [Int]s, which 2^63 operations would overflow.

    Four hypotheses remain.  [readable_entries], a part of [event_ok]: every entry of a directory
    to be listed has a name, and a size below 2^63, where [readdirAll] stops the program
    ([EventLoopRuns.huge_entry_traps]).  [fstat_ino_range]: the inode of a socket is below 2^63, where
    [socketIno] would stop the program.  [exports_listed]: a mount server that answers an export
    query lists at least one export; the code dereferences the list head without
    looking, and [EventLoopRuns.empty_export_list_traps] shows what happens
    otherwise.  [fstat] relies on nfs_fstat64_async delivering an [nfs_stat_64],
    where the header's comment names [struct stat]
    ([EventLoopState.contracts_as_documented] isolates this command).

    The proofs rest on one invariant.  SourceInv and SourceSpecs: dispatch sources are
    balanced.  RegistryInv: each continuation is resumed or belongs to exactly one
    callback object, and each queued command holds one retained pointer.
    BufferInv: the handler of a queued command understands its reply, and its buffer is
    allocated.  EventLoopInv proves each method of the loop against it, EventLoopSafe
    each event, EventLoopProps derives the properties, and EventLoopRuns
    instantiates them in a concrete environment.

    HandleLife, FileHandle, Provenance and ReadData walk over the methods of the loop once
    more, each with an invariant of its own.  All are a [Footprint] of StateMonad: an
    invariant, a relation between the state before and the one after, and the lemmas and the
    tactic that compose them along a method.  Walk states by two classes, [Quiet] and [Loose],
    which parts of the state such a relation may leave out, and derives the steps
    that do not touch the rest once for all.  Provenance extends the state by two tables that the program
    does not have, the calls made, each with the state in which it was made, and the operation
    made for each identifier, and relates every answer to them.  It takes a [Monitor], a condition on the memory with what each
    allocation, store, free and reply does to it; BufferFill instantiates it with a block
    that is being filled, WriteBuffer with one that must not change.  ReadData follows one
    block from its allocation for a read to the caller who is given it, and Tokens what is
    registered under one number.

    ** What the theorems show

    - Safety of the loop: [no_trap], [callback_pointers_valid],
      [sources_balanced], [pipeline_admission], [handler_understands_contract].
    - Its contract with callers: the abstract service of CallSpec answers what was asked, once, with
      an outcome that is promised for the request, and leaves nothing open when the connection
      is over; [loop_implements_service] is the refinement, event by event.
      [continuations_accounted] says that no continuation is lost, and
      [shutdown_resumes_all] that shutdown answers all of them.
      [answered_in_time]: once the timeout has passed since a call, the call is answered or the
      next tick of the timer answers it, whatever else happened.
    - What callers get: [read_returns_bytes], [write_reports_count],
      [error_reaches_caller], [timeouts_exact], [disconnected_fails],
      [full_queue_refused], [busy_submit_waits], [free_slot_submit_issues],
      [waiting_operations_issued], [io_event_issues_all],
      [export_errors_become_EIO].
    - Where answers come from: [answers_genuine] traces each answer to a reply that libnfs
      gave to the command made for this very call, or to an error that the loop raises
      itself, in the situation that the error stands for.  [method_results] lifts this to the methods of the client, whatever other
      callers do, and [attributes_from_server] says it of one.
      [parallel_reads_fill_buffer]: the parallel reads of one file, between the calls of others,
      leave the file in the buffer.  [write_buffer_intact]: as long as libnfs has the command
      of a write, the block it points to holds the caller's bytes.  [read_data_intact]: the
      data given to a reader has the bytes of the reply, and keeps them whatever happens
      later.  [token_commands]: the commands for a token work on the pointer it was given out for.
      [methods_never_stop]: the client and the loop agree on the types of results.
    - Open files: [handle_table_refined] is the refinement of the table of handles;
      [token_stays_good], [methods_reach_handle], [handles_closed_once],
      [dropped_token_closes]; [opened_file_usable] composes the client, the table and
      the loop.
    - The controller: [recordSuccess_grows], [recordFailure_halves],
      [no_slow_start_after_failure], [slow_start_ends], for every history.
    - Batches: [chunks_partitioned], [assembleData_in_order],
      [assembleData_slices], [cancel_is_final].
    - File transfers: [contents_returns_file] for [contents] with both of its paths,
      on top of [chunks_tile], [preallocated_reads_file], [legacy_reads_file];
      [preallocated_accounts_buffer], [legacy_read_terminates], [write_stores_data];
      [write_over_loop] and [write_programs_agree] for [write] on a shared connection,
      [sequential_read_over_loop], [sequential_read_goes_on] and [read_programs_agree] for
      [contentsUsingLegacyChunkedRead].  ReadRuns runs it on a machine of its own, [dsteps]: when the
      method goes on it copies the bytes of its chunk out of memory, and at some later time
      the chunk's block is freed; between these steps other callers use the loop.
    - Removal: [removeItem_removes_subtree] on a tree without symbolic links,
      [removal_stays_below] whatever the server answers; [removal_programs_agree] and
      [removal_over_loop] for the program of requests and its runs on a shared connection.
    - Settings: [connect_takes_identity], [configurePerformance_exact].
    - Bytes: [append_scan_roundtrip].
    - The headers, checked over every declaration: [async_sync_mirror],
      [task_payloads], [tasks_as_documented], [backends_agree],
      [wire_layouts_sound], [wire_enums_decode], [codecs_complete],
      [procedures_coded], [compound_arms].

    EventLoopRuns, HandleLife, Client and Removal also hold runs, as examples, in which the code does
    what its comments rule out: a successful write leaks its buffer, a late reply is
    counted twice, a timed-out operation is executed later, the timer issues nothing,
    handle operations ignore the pipeline depth, a late read is written into a freed
    buffer, a huge directory entry stops the program, a handle whose close is refused is lost, short reads and writes go
    unnoticed, a removal follows symbolic links.

    ** Fuel

    [issue_loop] takes the number of waiting operations as fuel: each iteration
    removes one or advances, and the invariant proof shows that it never runs
    out.  The sequential transfers take the number of bytes: each iteration moves
    at least one ([legacy_read_terminates]; [write_stores_data]; over the loop,
    [sequential_read_goes_on]).  [removeItem] takes
    the depth of the recursion; a number above the length of every path on the server is
    enough, since each step makes the path longer ([removeItem_removes_subtree]).
    Nothing else recurses other than structurally.

    ** Not modelled

    The collation of Foundation, which [sortedByPath] takes as an argument.  The bodies of
    libnfs, and so those of the codecs that the rpcgen headers declare.  libnfs-multithreading.h,
    which declares nothing in the configuration of config.h.  The headers that
    the library carries for the other platforms are copies of the ones modelled.

    ** This file

    Lemmas on powers of two, lists and strings, and tactics that all files share. *)

From Stdlib Require Import ZArith Lia List Bool.
From stdpp Require Import base list gmap sets strings.

Open Scope Z_scope.

(** ** Powers of two *)

Lemma pow2_pos n : 0 <= n -> 0 < 2 ^ n.
Proof. intros; apply Z.pow_pos_nonneg; lia. Qed.

Lemma pow2_split a b : 0 <= a -> 0 <= b -> 2 ^ (a + b) = 2 ^ a * 2 ^ b.
Proof. intros; apply Z.pow_add_r; lia. Qed.

Lemma pow2_le a b : 0 <= a <= b -> 2 ^ a <= 2 ^ b.
Proof. intros; apply Z.pow_le_mono_r; lia. Qed.

(** Split the conjunctions of the goal, and nothing else. *)
Ltac splits := repeat match goal with |- _ /\ _ => split end.

(** ** Decided properties of finite tables *)

Lemma forallb_In {A} (p : A -> bool) l x : forallb p l = true -> In x l -> p x = true.
Proof. intros H Hx. now apply (proj1 (forallb_forall p l) H). Qed.

Definition mem_str (s : string) (l : list string) : bool := existsb (String.eqb s) l.

Lemma mem_str_In s l : mem_str s l = true <-> In s l.
Proof.
  unfold mem_str. rewrite existsb_exists. split.
  - now intros (x & Hx & ->%String.eqb_eq).
  - intros H. exists s. now rewrite String.eqb_refl.
Qed.

(** ** Strings *)

Lemma string_app_cons x (a b : string) : (String x a +:+ b = String x (a +:+ b))%string.
Proof. reflexivity. Qed.

Lemma string_app_assoc (a b c : string) : ((a +:+ b) +:+ c = a +:+ (b +:+ c))%string.
Proof. induction a as [|x a IH]; [done|]. rewrite !string_app_cons. now f_equal. Qed.

Lemma string_app_nil (a : string) : (a +:+ "" = a)%string.
Proof. induction a as [|x a IH]; [done|]. rewrite string_app_cons. now f_equal. Qed.

Lemma string_length_app (a b : string) :
  String.length (a +:+ b) = (String.length a + String.length b)%nat.
Proof. induction a as [|x a IH]; [done|]. rewrite string_app_cons. cbn. now f_equal. Qed.

Lemma list_ascii_app (a b : string) :
  String.list_ascii_of_string (a +:+ b)
    = (String.list_ascii_of_string a ++ String.list_ascii_of_string b)%list.
Proof. induction a as [|x a IH]; [done|]. rewrite string_app_cons. cbn. now f_equal. Qed.
