(* ===== verification/Double.v ===== *)
(** IEEE 754 binary64 arithmetic, as Swift's [Double] uses it. *)

From Stdlib Require Import ZArith Lia Bool.
From Stdlib Require Import SpecFloat.
From S2P Require Import Prelude.

Open Scope Z_scope.

Definition prec : Z := 53.
Definition emax : Z := 1024.

Definition Double : Type := spec_float.

Definition dmul : Double -> Double -> Double := SFmul prec emax.
Definition ddiv : Double -> Double -> Double := SFdiv prec emax.
Definition dadd : Double -> Double -> Double := SFadd prec emax.
Definition dlt : Double -> Double -> bool := SFltb.
Definition dle : Double -> Double -> bool := SFleb.

(** [Double(n)] for an [Int]: the nearest double. *)
Definition double_of_int (n : Z) : Double := binary_normalize prec emax n 0 false.

Definition dmin (x y : Double) : Double := if dlt y x then y else x.
Definition dmax (x y : Double) : Double := if dle x y then y else x.

(** [Int(x)]: truncation towards zero; a runtime trap ([None]) for NaN,
    infinities and values outside the 64-bit range. *)
Definition int_of_double (x : Double) : option Z :=
  match x with
  | S754_zero _ => Some 0
  | S754_finite s m e =>
      let q := match e with
               | Zneg p => Z.pos m / 2 ^ Z.pos p
               | _ => Z.pos m * 2 ^ e
               end in
      let z := if s then - q else q in
      if (- 2 ^ 63 <=? z) && (z <? 2 ^ 63) then Some z else None
  | _ => None
  end.


(** ** Mantissa width *)

Lemma digits2_log2 m : Z.pos (digits2_pos m) = Z.log2 (Z.pos m) + 1.
Proof.
  induction m as [m IH|m IH|]; [| |reflexivity];
    cbn [digits2_pos]; rewrite Pos2Z.inj_succ, IH.
  - rewrite (Pos2Z.inj_xI m), Z.log2_succ_double by lia. lia.
  - rewrite (Pos2Z.inj_xO m), Z.log2_double by lia. lia.
Qed.

Lemma Zdigits2_log2 z : 0 < z -> Zdigits2 z = Z.log2 z + 1.
Proof. destruct z; try lia. intros _. apply digits2_log2. Qed.

(** ** Shifting right with round and sticky bits *)

Definition shr_exact (s : shr_record) : Prop := shr_r s = false /\ shr_s s = false.

Lemma shr_1_m s : 0 <= shr_m s -> shr_m (shr_1 s) = shr_m s / 2.
Proof.
  destruct s as [m r st]; cbn [shr_m]; intros Hm.
  destruct m as [|[p|p|]|p]; try lia; cbn [shr_1 shr_m].
  - reflexivity.
  - rewrite (Pos2Z.inj_xI p). apply Z.div_unique with 1; lia.
  - rewrite (Pos2Z.inj_xO p). apply Z.div_unique with 0; lia.
  - reflexivity.
Qed.

Lemma shr_1_exact s :
  0 <= shr_m s -> shr_exact s -> shr_m s mod 2 = 0 -> shr_exact (shr_1 s).
Proof.
  destruct s as [m r st]; unfold shr_exact; cbn [shr_m shr_r shr_s].
  intros Hm [-> ->] H2.
  destruct m as [|[p|p|]|p]; try lia; cbn [shr_1 shr_r shr_s orb]; try (split; reflexivity).
  - rewrite (Pos2Z.inj_xI p) in H2.
    assert ((2 * Z.pos p + 1) mod 2 = 1) by (symmetry; apply Z.mod_unique with (Z.pos p); lia).
    lia.
  - exfalso. vm_compute in H2. discriminate.
Qed.

(** [f] shifts the mantissa right by [a] bits, and stays exact when it can. *)
Definition shifts (a : Z) (f : shr_record -> shr_record) : Prop :=
  forall s, 0 <= shr_m s ->
    shr_m (f s) = shr_m s / 2 ^ a /\
    (shr_exact s -> shr_m s mod 2 ^ a = 0 -> shr_exact (f s)).

Lemma shifts_1 : shifts 1 shr_1.
Proof. intros s Hs. split; [now apply shr_1_m|]. intros; now apply shr_1_exact. Qed.

Lemma shifts_comp a b f g :
  0 <= a -> 0 <= b -> shifts a f -> shifts b g -> shifts (a + b) (fun s => g (f s)).
Proof.
  intros Ha Hb Hf Hg s Hs.
  pose proof (pow2_pos a Ha). pose proof (pow2_pos b Hb).
  destruct (Hf s Hs) as [Ef Xf].
  assert (Hfs : 0 <= shr_m (f s)) by (rewrite Ef; apply Z.div_pos; lia).
  destruct (Hg (f s) Hfs) as [Eg Xg].
  rewrite Eg, Ef, Z.div_div, <- pow2_split by lia.
  split; [reflexivity|].
  intros Hex Hmod. rewrite pow2_split, Z.rem_mul_r in Hmod by lia.
  pose proof (Z.mod_pos_bound (shr_m s) (2 ^ a)).
  pose proof (Z.mod_pos_bound (shr_m s / 2 ^ a) (2 ^ b)).
  assert (shr_m s mod 2 ^ a = 0) by nia.
  assert ((shr_m s / 2 ^ a) mod 2 ^ b = 0) by nia.
  apply Xg; [apply Xf; assumption|]. rewrite Ef; assumption.
Qed.

Lemma iter_shr_1 p : shifts (Z.pos p) (iter_pos shr_1 p).
Proof.
  induction p as [p IH|p IH|]; [| |exact shifts_1].
  - replace (Z.pos p~1) with (1 + Z.pos p + Z.pos p) by lia.
    refine (shifts_comp (1 + Z.pos p) (Z.pos p)
              (fun s => iter_pos shr_1 p (shr_1 s)) (iter_pos shr_1 p) _ _ _ IH); [lia|lia|].
    refine (shifts_comp 1 (Z.pos p) shr_1 (iter_pos shr_1 p) _ _ shifts_1 IH); lia.
  - replace (Z.pos p~0) with (Z.pos p + Z.pos p) by lia.
    refine (shifts_comp _ _ (iter_pos shr_1 p) (iter_pos shr_1 p) _ _ IH IH); lia.
Qed.

(** ** Rounding *)

Abbreviation dfexp := (fexp prec emax).

Lemma dfexp_normal e : -1021 <= e -> dfexp e = e - 53.
Proof. unfold fexp, emin, prec, emax; lia. Qed.

(** Normal doubles: a 53-bit mantissa with an exponent far from both ends
    of the format. *)
Definition normal (m : positive) (e : Z) : Prop :=
  2 ^ 52 <= Z.pos m < 2 ^ 53 /\ -900 <= e <= 900.

Lemma normal_digits m e : normal m e -> Z.pos (digits2_pos m) = 53.
Proof.
  intros [[H1 H2] _]. rewrite digits2_log2.
  enough (Z.log2 (Z.pos m) = 52) by lia.
  apply Z.log2_unique; lia.
Qed.

Lemma shr_fexp_normal mx ex l :
  53 <= Zdigits2 mx -> -1000 <= ex <= 1000 -> 0 < mx ->
  let n := Zdigits2 mx - 53 in
  exists mrs, shr_fexp prec emax mx ex l = (mrs, ex + n) /\
    shr_m mrs = mx / 2 ^ n /\ (l = loc_Exact -> mx mod 2 ^ n = 0 -> shr_exact mrs).
Proof.
  intros Hd He Hm n. unfold shr_fexp.
  rewrite dfexp_normal by lia.
  replace (Zdigits2 mx + ex - 53 - ex) with n by lia.
  assert (Hr : shr_m (shr_record_of_loc mx l) = mx) by (destruct l as [|[]]; reflexivity).
  assert (Hx : l = loc_Exact -> shr_exact (shr_record_of_loc mx l)) by (intros ->; split; reflexivity).
  unfold shr. destruct n as [|p|p] eqn:En; [| |lia].
  - exists (shr_record_of_loc mx l). rewrite Z.add_0_r, Hr, Z.div_1_r. auto.
  - destruct (iter_shr_1 p (shr_record_of_loc mx l)) as [E X]; [lia|].
    eexists; split; [reflexivity|]. rewrite Hr in *. auto.
Qed.

Lemma mantissa_range mx :
  0 < mx -> 53 <= Zdigits2 mx ->
  2 ^ 52 <= mx / 2 ^ (Zdigits2 mx - 53) < 2 ^ 53.
Proof.
  intros Hm Hd. rewrite Zdigits2_log2 in * by lia.
  destruct (Z.log2_spec mx Hm) as [H1 H2].
  set (n := Z.log2 mx + 1 - 53) in *.
  pose proof (pow2_pos n ltac:(lia)).
  replace (Z.log2 mx) with (52 + n) in H1 by lia.
  replace (Z.succ (Z.log2 mx)) with (53 + n) in H2 by lia.
  rewrite pow2_split in H1, H2 by lia.
  split.
  - apply Z.div_le_lower_bound; lia.
  - apply Z.div_lt_upper_bound; lia.
Qed.

(** Rounding a magnitude of at least 53 bits: the result is a normal double
    whose value is the truncation or the next multiple of the unit in the last
    place, and the truncation exactly when nothing is lost. *)
Lemma binary_round_aux_normal mx ex l :
  0 < mx -> 53 <= Zdigits2 mx -> -800 <= ex -> ex + Zdigits2 mx <= 900 ->
  let n := Zdigits2 mx - 53 in
  exists m e r,
    binary_round_aux prec emax false mx ex l = S754_finite false m e /\ normal m e /\
    (r = mx / 2 ^ n \/ r = mx / 2 ^ n + 1) /\
    (l = loc_Exact -> mx mod 2 ^ n = 0 -> r = mx / 2 ^ n) /\
    ((Z.pos m = r /\ e = ex + n) \/ (r = 2 ^ 53 /\ Z.pos m = 2 ^ 52 /\ e = ex + n + 1)).
Proof.
  intros Hm Hd He He' n.
  destruct (shr_fexp_normal mx ex l) as (mrs & E & Em & Ex); [lia..|].
  pose proof (mantissa_range mx Hm Hd) as Hk. fold n in E, Em, Ex, Hk.
  unfold binary_round_aux. rewrite E. rewrite Em.
  set (k := mx / 2 ^ n) in *.
  set (r := round_nearest_even k (loc_of_shr_record mrs)).
  assert (Hr : r = k \/ r = k + 1).
  { unfold r, round_nearest_even. destruct (loc_of_shr_record mrs) as [|[]]; try lia.
    destruct (Z.even k); lia. }
  assert (Hrx : l = loc_Exact -> mx mod 2 ^ n = 0 -> r = k).
  { intros H1 H2. destruct (Ex H1 H2) as [X1 X2]. unfold r.
    destruct mrs as [? [] []]; try discriminate. reflexivity. }
  assert (Hrd : 53 <= Zdigits2 r <= 54).
  { rewrite Zdigits2_log2 by lia.
    assert (52 <= Z.log2 r) by (apply Z.log2_le_pow2; lia).
    assert (Z.log2 r < 54) by (apply Z.log2_lt_pow2; lia). lia. }
  destruct (shr_fexp_normal r (ex + n) loc_Exact) as (mrs2 & E2 & Em2 & _); [lia..|].
  rewrite E2, Em2. clear E2 Em2.
  destruct (Z.eq_dec r (2 ^ 53)) as [Hr53|Hr53].
  - exists (Z.to_pos (2 ^ 52)), (ex + n + 1), r.
    rewrite Hr53 in *. change (Zdigits2 (2 ^ 53) - 53) with 1.
    change (2 ^ 53 / 2 ^ 1) with (Z.pos (Z.to_pos (2 ^ 52))).
    assert (Hle : (ex + n + 1 <=? emax - prec) = true) by (apply Z.leb_le; unfold emax, prec; lia).
    rewrite Hle. unfold normal.
    repeat split; try lia; auto. 
  - assert (Hrd53 : Zdigits2 r = 53).
    { rewrite Zdigits2_log2 by lia. enough (Z.log2 r = 52) by lia.
      apply Z.log2_unique; lia. }
    rewrite Hrd53. change (53 - 53) with 0. rewrite Z.add_0_r, Z.div_1_r.
    exists (Z.to_pos r), (ex + n), r.
    assert (Hle : (ex + n <=? emax - prec) = true) by (apply Z.leb_le; unfold emax, prec; lia).
    destruct r as [|p|p] eqn:Er; try lia. rewrite Hle.
    unfold normal. cbn [Z.to_pos]. repeat split; try lia; auto.
Qed.

(** ** Values

    The exact value of a normal double, as an integer count of [2^-1000]. *)
Definition dv (x : Double) : Z :=
  match x with
  | S754_finite false m e => Z.pos m * 2 ^ (e + 1000)
  | _ => 0
  end.

(** [x] is a positive normal double whose exponent lies within [b] of zero. *)
Definition dnormal (b : Z) (x : Double) : Prop :=
  exists m e, x = S754_finite false m e /\ normal m e /\ - b <= e <= b.

Lemma dnormal_weaken b b' x : b <= b' -> dnormal b x -> dnormal b' x.
Proof. intros Hb (m & e & -> & N & H). exists m, e. repeat split; try apply N; lia. Qed.

Lemma dv_pos b x : dnormal b x -> 0 < dv x.
Proof.
  intros (m & e & -> & [_ He] & _). cbn [dv].
  pose proof (pow2_pos (e + 1000) ltac:(lia)). lia.
Qed.

(** The exponent orders normal values before the mantissa does. *)
Lemma dv_exp_lt m1 e1 m2 e2 :
  normal m1 e1 -> normal m2 e2 -> e1 < e2 ->
  Z.pos m1 * 2 ^ (e1 + 1000) < Z.pos m2 * 2 ^ (e2 + 1000).
Proof.
  intros [[_ H1] ?] [[H2 _] ?] Hlt.
  assert (E : 2 ^ (53 + (e1 + 1000)) <= 2 ^ (52 + (e2 + 1000))) by (apply pow2_le; lia).
  rewrite (pow2_split 53), (pow2_split 52) in E by lia.
  pose proof (pow2_pos (e1 + 1000) ltac:(lia)). pose proof (pow2_pos (e2 + 1000) ltac:(lia)).
  apply Z.lt_le_trans with (2 ^ 53 * 2 ^ (e1 + 1000)); [now apply Z.mul_lt_mono_pos_r|].
  apply Z.le_trans with (1 := E). apply Z.mul_le_mono_nonneg_r; lia.
Qed.

Lemma compare_normal b x y :
  dnormal b x -> dnormal b y -> SFcompare x y = Some (Z.compare (dv x) (dv y)).
Proof.
  intros (m1 & e1 & -> & N1 & _) (m2 & e2 & -> & N2 & _). cbn [SFcompare dv]. f_equal.
  destruct (Z.compare_spec e1 e2) as [->|Hlt|Hlt].
  - change (Pos.compare_cont Eq m1 m2) with (Z.compare (Z.pos m1) (Z.pos m2)).
    destruct N2 as [_ ?]. pose proof (pow2_pos (e2 + 1000) ltac:(lia)).
    destruct (Z.compare_spec (Z.pos m1) (Z.pos m2)) as [E|E|E]; symmetry.
    + rewrite E. apply Z.compare_refl.
    + apply Z.compare_lt_iff, Z.mul_lt_mono_pos_r; assumption.
    + apply Z.compare_gt_iff, Z.mul_lt_mono_pos_r; assumption.
  - symmetry. apply Z.compare_lt_iff, dv_exp_lt; assumption.
  - symmetry. apply Z.compare_gt_iff, dv_exp_lt; assumption.
Qed.

Lemma dlt_normal b x y : dnormal b x -> dnormal b y -> dlt x y = (dv x <? dv y).
Proof.
  intros Hx Hy. unfold dlt, SFltb. rewrite (compare_normal b x y Hx Hy).
  unfold Z.ltb. now destruct (dv x ?= dv y).
Qed.

Lemma dle_normal b x y : dnormal b x -> dnormal b y -> dle x y = (dv x <=? dv y).
Proof.
  intros Hx Hy. unfold dle, SFleb. rewrite (compare_normal b x y Hx Hy).
  unfold Z.leb. now destruct (dv x ?= dv y).
Qed.

Lemma dmin_normal b x y : dnormal b x -> dnormal b y ->
  dnormal b (dmin x y) /\ dv (dmin x y) = Z.min (dv x) (dv y).
Proof.
  intros Hx Hy. unfold dmin. rewrite (dlt_normal b y x Hy Hx).
  destruct (Z.ltb_spec (dv y) (dv x)); split; auto; lia.
Qed.

Lemma dmax_normal b x y : dnormal b x -> dnormal b y ->
  dnormal b (dmax x y) /\ dv (dmax x y) = Z.max (dv x) (dv y).
Proof.
  intros Hx Hy. unfold dmax. rewrite (dle_normal b x y Hx Hy).
  destruct (Z.leb_spec (dv x) (dv y)); split; auto; lia.
Qed.

(** ** Exact operations *)

Definition two : Double := double_of_int 2.
Definition one : Double := double_of_int 1.

Lemma two_eq : two = S754_finite false (Z.to_pos (2 ^ 52)) (-51).
Proof. reflexivity. Qed.

Lemma one_eq : one = S754_finite false (Z.to_pos (2 ^ 52)) (-52).
Proof. reflexivity. Qed.

Lemma Zdigits2_range z n : 2 ^ (n - 1) <= z < 2 ^ n -> 1 <= n -> Zdigits2 z = n.
Proof.
  intros Hz Hn. pose proof (pow2_pos (n - 1) ltac:(lia)).
  rewrite Zdigits2_log2 by lia. enough (Z.log2 z = n - 1) by lia.
  apply Z.log2_unique; [lia|]. replace (Z.succ (n - 1)) with n by lia. lia.
Qed.

Lemma round_exact m e k ex :
  normal m e -> 0 <= k <= 100 -> ex + k = e -> -700 <= e <= 700 ->
  binary_round_aux prec emax false (Z.pos m * 2 ^ k) ex loc_Exact = S754_finite false m e.
Proof.
  intros [Hm He] Hk Hex Hb.
  pose proof (pow2_pos k ltac:(lia)).
  assert (Hd : Zdigits2 (Z.pos m * 2 ^ k) = 53 + k).
  { apply Zdigits2_range; [|lia].
    replace (53 + k - 1) with (52 + k) by lia. rewrite (pow2_split 53), (pow2_split 52) by lia.
    split; [apply Z.mul_le_mono_nonneg_r; lia | now apply Z.mul_lt_mono_pos_r]. }
  destruct (binary_round_aux_normal (Z.pos m * 2 ^ k) ex loc_Exact)
    as (m' & e' & r & -> & _ & _ & Hx & Hr); [nia|lia|lia|lia|].
  rewrite Hd in *. replace (53 + k - 53) with k in * by lia.
  rewrite Z.div_mul, Z.mod_mul in Hx by lia. specialize (Hx eq_refl eq_refl). subst r.
  destruct Hr as [[E ->]|[E _]]; [|lia].
  f_equal; [congruence|lia].
Qed.

(** Doubling and halving are exact. *)
Lemma dmul_two m e : normal m e -> -600 <= e <= 600 ->
  dmul (S754_finite false m e) two = S754_finite false m (e + 1).
Proof.
  intros N He. rewrite two_eq. unfold dmul. cbn [SFmul xorb].
  rewrite Pos2Z.inj_mul. change (Z.pos (Z.to_pos (2 ^ 52))) with (2 ^ 52).
  apply round_exact; try lia. destruct N; split; lia.
Qed.

Lemma ddiv_two m e : normal m e -> -600 <= e <= 600 ->
  ddiv (S754_finite false m e) two = S754_finite false m (e - 1).
Proof.
  intros N He. rewrite two_eq. unfold ddiv. cbn [SFdiv xorb].
  unfold SFdiv_core_binary.
  assert (Hd : Zdigits2 (Z.pos m) = 53) by (cbn [Zdigits2]; apply (normal_digits m e N)).
  rewrite Hd. change (Zdigits2 (Z.pos (Z.to_pos (2 ^ 52)))) with 53.
  rewrite dfexp_normal by lia.
  replace (Z.min (53 + e - (53 + -51) - 53) (e - -51)) with (e - 2) by lia.
  replace (e - -51 - (e - 2)) with 53 by lia.
  change (Z.pos (Z.to_pos (2 ^ 52))) with (2 ^ 52).
  rewrite Z.shiftl_mul_pow2 by lia.
  assert (Hq : Z.div_eucl (Z.pos m * 2 ^ 53) (2 ^ 52) = (Z.pos m * 2 ^ 1, 0)).
  { pose proof (Z_div_mod (Z.pos m * 2 ^ 53) (2 ^ 52) ltac:(lia)) as H.
    destruct (Z.div_eucl _ _) as [q r]. f_equal; lia. }
  rewrite Hq. change (new_location (2 ^ 52) 0) with loc_Exact.
  apply round_exact; try lia. destruct N; split; lia.
Qed.

(** ** Reciprocal and sum *)

Lemma dnormal_intro b m e : normal m e -> - b <= e <= b -> dnormal b (S754_finite false m e).
Proof. intros; exists m, e; auto. Qed.

(** The reciprocal of a normal double is a normal double. *)
Lemma dinv_normal b x : 0 <= b <= 300 -> dnormal b x -> dnormal (b + 106) (ddiv one x).
Proof.
  intros Hb (m & e & -> & N & He). rewrite one_eq. unfold ddiv. cbn [SFdiv xorb].
  unfold SFdiv_core_binary.
  assert (Hd : Zdigits2 (Z.pos m) = 53) by (cbn [Zdigits2]; apply (normal_digits m e N)).
  rewrite Hd. change (Zdigits2 (Z.pos (Z.to_pos (2 ^ 52)))) with 53.
  rewrite dfexp_normal by lia.
  replace (Z.min (53 + -52 - (53 + e) - 53) (-52 - e)) with (-105 - e) by lia.
  replace (-52 - e - (-105 - e)) with 53 by lia.
  change (Z.shiftl (Z.pos (Z.to_pos (2 ^ 52))) 53) with (2 ^ 105).
  pose proof (Z_div_mod (2 ^ 105) (Z.pos m) ltac:(lia)) as Hq.
  destruct (Z.div_eucl (2 ^ 105) (Z.pos m)) as [q r]. destruct Hq as [Hq Hr].
  destruct N as [[Hm1 Hm2] _].
  assert (H1 : 2 ^ 52 <= q).
  { change (2 ^ 105) with (2 ^ 53 * 2 ^ 52) in Hq. nia. }
  assert (H2 : q <= 2 ^ 53).
  { change (2 ^ 105) with (2 ^ 52 * 2 ^ 53) in Hq. nia. }
  assert (Hdq : 53 <= Zdigits2 q <= 54).
  { rewrite Zdigits2_log2 by lia.
    assert (52 <= Z.log2 q) by (apply Z.log2_le_pow2; lia).
    assert (Z.log2 q < 54) by (apply Z.log2_lt_pow2; lia). lia. }
  destruct (binary_round_aux_normal q (-105 - e) (new_location (Z.pos m) r))
    as (m' & e' & r' & -> & N' & _ & _ & Hr'); [lia..|].
  apply dnormal_intro; [exact N'|]. lia.
Qed.

Lemma iter_xO m p : Z.pos (Pos.iter xO m p) = Z.pos m * 2 ^ Z.pos p.
Proof.
  induction p using Pos.peano_ind; [cbn; lia|].
  rewrite Pos.iter_succ, Pos2Z.inj_succ, Z.pow_succ_r by lia.
  rewrite (Pos2Z.inj_xO (Pos.iter xO m p)), IHp. lia.
Qed.

(** Aligning to a smaller exponent keeps the value. *)
Lemma shl_align_le m e e' : e' <= e ->
  Z.pos (fst (shl_align m e e')) = Z.pos m * 2 ^ (e - e').
Proof.
  intros H. unfold shl_align. destruct (e' - e) as [|p|p] eqn:E; try lia.
  - replace (e - e') with 0 by lia. cbn [fst]. lia.
  - cbn [fst]. rewrite iter_xO. f_equal. f_equal. lia.
Qed.

Lemma binary_normalize_wide z ez :
  0 < z -> 53 <= Zdigits2 z -> -1000 <= ez <= 800 ->
  binary_normalize prec emax z ez false = binary_round_aux prec emax false z ez loc_Exact.
Proof.
  intros Hz Hd He. destruct z as [|p|p]; try lia. cbn [binary_normalize]. unfold binary_round.
  cbn [Zdigits2] in Hd. rewrite dfexp_normal by lia.
  unfold shl_align. destruct (Z.pos (digits2_pos p) + ez - 53 - ez) as [|q|q] eqn:E; try reflexivity.
  lia.
Qed.

(** A sum of normal doubles is a normal double, and never rounds below a summand. *)
Lemma dadd_normal b x y : 0 <= b <= 200 -> dnormal b x -> dnormal b y ->
  dnormal (3 * b + 3) (dadd x y) /\ dv x <= dv (dadd x y).
Proof.
  intros Hb (m1 & e1 & -> & N1 & H1) (m2 & e2 & -> & N2 & H2). unfold dadd. cbn [SFadd cond_Zopp].
  set (ez := Z.min e1 e2). rewrite !shl_align_le by lia.
  set (z := Z.pos m1 * 2 ^ (e1 - ez) + Z.pos m2 * 2 ^ (e2 - ez)).
  pose proof (pow2_pos (e1 - ez) ltac:(lia)) as P1. pose proof (pow2_pos (e2 - ez) ltac:(lia)) as P2.
  destruct N1 as [[Hm1 Hm1'] _], N2 as [[Hm2 Hm2'] _].
  assert (Hz0 : 0 < z) by nia.
  assert (Hzlo : 2 ^ 52 <= z) by nia.
  assert (Hzhi : z < 2 ^ (54 + (2 * b))).
  { assert (2 ^ (e1 - ez) <= 2 ^ (2 * b)) by (apply pow2_le; lia).
    assert (2 ^ (e2 - ez) <= 2 ^ (2 * b)) by (apply pow2_le; lia).
    rewrite pow2_split by lia. change (2 ^ 54) with (2 ^ 53 + 2 ^ 53). nia. }
  assert (Hd : 53 <= Zdigits2 z <= 54 + 2 * b).
  { rewrite Zdigits2_log2 by lia.
    assert (52 <= Z.log2 z) by (apply Z.log2_le_pow2; lia).
    assert (Z.log2 z < 54 + 2 * b) by (apply Z.log2_lt_pow2; lia). lia. }
  rewrite binary_normalize_wide by lia.
  destruct (binary_round_aux_normal z ez loc_Exact) as (m & e & r & -> & N & Hr & _ & Hme); [lia..|].
  pose proof (mantissa_range z Hz0 (proj1 Hd)) as Hk.
  set (n := Zdigits2 z - 53) in *. set (k := z / 2 ^ n) in *.
  split; [apply dnormal_intro; [exact N|lia]|]. cbn [dv].
  assert (Hres : k * 2 ^ (ez + n + 1000) <= Z.pos m * 2 ^ (e + 1000)).
  { destruct Hme as [[-> ->]|(-> & -> & ->)].
    - apply Z.mul_le_mono_nonneg_r; [apply Z.lt_le_incl, pow2_pos; lia | lia].
    - replace (ez + n + 1 + 1000) with (1 + (ez + n + 1000)) by lia. rewrite (pow2_split 1), Z.mul_assoc by lia.
      apply Z.mul_le_mono_nonneg_r; [apply Z.lt_le_incl, pow2_pos; lia | lia]. }
  etransitivity; [|exact Hres]. clear Hres.
  destruct (Z.le_gt_cases (ez + n) e1) as [Hc|Hc].
  - assert (Hle : Z.pos m1 * 2 ^ (e1 - (ez + n)) <= k).
    { apply Z.div_le_lower_bound; [apply pow2_pos; lia|].
      rewrite Z.mul_comm, <- Z.mul_assoc, <- pow2_split by lia.
      replace (e1 - (ez + n) + n) with (e1 - ez) by lia. nia. }
    replace (e1 + 1000) with (e1 - (ez + n) + (ez + n + 1000)) by lia.
    rewrite pow2_split, Z.mul_assoc by lia.
    apply Z.mul_le_mono_nonneg_r; [apply Z.lt_le_incl, pow2_pos; lia | exact Hle].
  - replace (ez + n + 1000) with ((ez + n - e1 - 1) + 1 + (e1 + 1000)) by lia.
    rewrite (pow2_split (ez + n - e1 - 1 + 1)), (pow2_split (ez + n - e1 - 1) 1) by lia.
    pose proof (pow2_pos (e1 + 1000) ltac:(lia)). pose proof (pow2_pos (ez + n - e1 - 1) ltac:(lia)).
    change (2 ^ 1) with 2. change (2 ^ 53) with (2 * 2 ^ 52) in *.
    rewrite Z.mul_assoc. apply Z.mul_le_mono_nonneg_r; [lia|]. nia.
Qed.

(** Small integers are represented exactly. *)
Lemma double_of_int_normal n : 1 <= n < 2 ^ 53 ->
  dnormal 52 (double_of_int n) /\ dv (double_of_int n) = n * 2 ^ 1000.
Proof.
  intros Hn. unfold double_of_int. destruct n as [|p|p]; try lia. cbn [binary_normalize].
  pose proof (digits2_log2 p) as Hl.
  assert (0 <= Z.log2 (Z.pos p)) by apply Z.log2_nonneg.
  assert (Z.log2 (Z.pos p) < 53) by (apply Z.log2_lt_pow2; lia).
  unfold binary_round. rewrite dfexp_normal by lia.
  set (d := Z.pos (digits2_pos p)) in *.
  replace (d + 0 - 53) with (d - 53) by lia.
  destruct (shl_align p 0 (d - 53)) as [mz ez] eqn:E.
  assert (Hez : ez = d - 53).
  { unfold shl_align in E. destruct (d - 53 - 0) eqn:E'; inversion E; lia. }
  assert (Hmz : Z.pos mz = Z.pos p * 2 ^ (53 - d)).
  { replace mz with (fst (shl_align p 0 (d - 53))) by (now rewrite E).
    rewrite shl_align_le by lia. do 2 f_equal. lia. }
  assert (N : normal mz ez).
  { split; [|lia]. rewrite Hmz.
    destruct (Z.log2_spec (Z.pos p) ltac:(lia)) as [L1 L2].
    pose proof (pow2_pos (53 - d) ltac:(lia)).
    replace 52 with (Z.log2 (Z.pos p) + (53 - d)) by lia.
    rewrite pow2_split by lia.
    replace (2 ^ 53) with (2 ^ Z.succ (Z.log2 (Z.pos p)) * 2 ^ (53 - d))
      by (rewrite <- pow2_split by lia; f_equal; lia). nia. }
  replace (Z.pos mz) with (Z.pos mz * 2 ^ 0) by lia.
  rewrite (round_exact mz ez 0 ez) by (try lia; exact N).
  split; [apply dnormal_intro; [exact N|lia]|]. cbn [dv].
  rewrite Hmz, <- Z.mul_assoc, <- pow2_split by lia. do 2 f_equal. lia.
Qed.

(** Truncation to [Int] is the integer part of the value. *)
Lemma int_of_double_normal b x : 0 <= b <= 300 -> dnormal b x -> dv x < 2 ^ 62 * 2 ^ 1000 ->
  int_of_double x = Some (dv x / 2 ^ 1000).
Proof.
  intros Hb (m & e & -> & N & He) Hlt. cbn [int_of_double dv] in *.
  assert (Hq : (match e with Zneg p => Z.pos m / 2 ^ Z.pos p | _ => Z.pos m * 2 ^ e end)
               = Z.pos m * 2 ^ (e + 1000) / 2 ^ 1000).
  { pose proof (pow2_pos 1000 ltac:(lia)).
    destruct e as [|p|p].
    - rewrite Z.add_0_l, Z.div_mul, Z.mul_1_r by lia. reflexivity.
    - rewrite pow2_split, Z.mul_assoc, Z.div_mul by lia. reflexivity.
    - assert (Hs : 2 ^ 1000 = 2 ^ Z.pos p * 2 ^ (1000 - Z.pos p))
        by (rewrite <- pow2_split by lia; f_equal; lia).
      rewrite Hs. replace (Z.neg p + 1000) with (1000 - Z.pos p) by lia.
      pose proof (pow2_pos (1000 - Z.pos p) ltac:(lia)). pose proof (pow2_pos (Z.pos p) ltac:(lia)).
      rewrite Z.div_mul_cancel_r by lia. reflexivity. }
  rewrite Hq.
  assert (0 <= Z.pos m * 2 ^ (e + 1000) / 2 ^ 1000 < 2 ^ 62).
  { pose proof (pow2_pos (e + 1000) ltac:(lia)). split.
    - apply Z.div_pos; [lia|apply pow2_pos; lia].
    - apply Z.div_lt_upper_bound; [apply pow2_pos; lia|lia]. }
  destruct (Z.leb_spec (- 2 ^ 63) (Z.pos m * 2 ^ (e + 1000) / 2 ^ 1000)); [|lia].
  destruct (Z.ltb_spec (Z.pos m * 2 ^ (e + 1000) / 2 ^ 1000) (2 ^ 63)); [|lia]. reflexivity.
Qed.
