(* ===== verification/PipelineController.v ===== *)
(** The adaptive pipeline depth controller
    (Sources/NFSKit/PipelineController.swift): its state, its AIMD operations on
    binary64 depths, the invariant they keep and the growth laws they obey. *)

From Stdlib Require Import ZArith Lia Bool List SpecFloat.
From S2P Require Import Prelude Double.

Import ListNotations.
Open Scope Z_scope.

Module Pipeline.

(** ** State *)

Inductive Phase := slowStart | steady.

Record PipelineController := mkController {
  depth : Double;
  ssthresh : Double;
  phase : Phase;
  minDepth : Z;
  maxDepth : Z
}.

Definition defaultDepth : Double := double_of_int 2.
Definition defaultSsthresh : Double := double_of_int 16.
Definition defaultPhase : Phase := slowStart.
Definition defaultMinDepth : Z := 1.
Definition defaultMaxDepth : Z := 32.

(** [PipelineController()]: every parameter at its default. *)
Definition init : PipelineController :=
  mkController defaultDepth defaultSsthresh defaultPhase defaultMinDepth defaultMaxDepth.

(** ** Operations *)

(** [effectiveDepth]; [None] is the trap of [Int(depth)]. *)
Definition effectiveDepth (c : PipelineController) : option Z :=
  match int_of_double (depth c) with
  | Some d => Some (Z.max (minDepth c) (Z.min d (maxDepth c)))
  | None => None
  end.

Definition recordSuccess (c : PipelineController) : PipelineController :=
  let '(d, p) :=
    match phase c with
    | slowStart =>
        let d := dmul (depth c) (double_of_int 2) in
        (d, if dle (ssthresh c) d then steady else slowStart)
    | steady => (dadd (depth c) (ddiv (double_of_int 1) (depth c)), steady)
    end in
  mkController (dmin d (double_of_int (maxDepth c))) (ssthresh c) p (minDepth c) (maxDepth c).

Definition recordFailure (c : PipelineController) : PipelineController :=
  let h := dmax (double_of_int (minDepth c)) (ddiv (depth c) (double_of_int 2)) in
  mkController h h steady (minDepth c) (maxDepth c).

Definition reset (c : PipelineController) : PipelineController :=
  mkController defaultDepth defaultSsthresh defaultPhase (minDepth c) (maxDepth c).

(** ** Histories: what the event loop does to a controller *)

Inductive event := Success | Failure | Reset.

Definition apply_event (c : PipelineController) (e : event) : PipelineController :=
  match e with
  | Success => recordSuccess c
  | Failure => recordFailure c
  | Reset => reset c
  end.

Definition run (c : PipelineController) (es : list event) : PipelineController :=
  fold_left apply_event es c.

(** ** The invariant *)

(** The value of an integer depth in the units of [dv]. *)
Definition units (n : Z) : Z := n * 2 ^ 1000.

Record wf (c : PipelineController) : Prop := {
  wf_min : 1 <= minDepth c;
  wf_max : minDepth c <= maxDepth c < 2 ^ 53;
  wf_depth : dnormal 52 (depth c);
  wf_ssthresh : dnormal 53 (ssthresh c);
  wf_lo : units (minDepth c) <= dv (depth c);
  wf_hi : dv (depth c) <= units (maxDepth c)
}.

#[local] Opaque Z.pow.

Lemma units_le a b : a <= b -> units a <= units b.
Proof. intros. unfold units. apply Z.mul_le_mono_nonneg_r; [apply Z.lt_le_incl, pow2_pos; lia|lia]. Qed.

(** A depth of at least one and less than [2^53] has its exponent in [-52, 0]. *)
Lemma dnormal_narrow b x lo hi :
  dnormal b x -> 1 <= lo -> hi < 2 ^ 53 -> units lo <= dv x -> dv x <= units hi -> dnormal 52 x.
Proof.
  intros (m & e & -> & N & He) Hl Hh Hlo Hhi. apply dnormal_intro; [exact N|].
  destruct N as [[Hm1 Hm2] He']. unfold units in *. cbn [dv] in *.
  pose proof (pow2_pos 1000 ltac:(lia)) as P.
  split.
  - destruct (Z.le_gt_cases (-52) e) as [|Hc]; [assumption|exfalso].
    assert (Hp : 2 ^ 53 * 2 ^ (e + 1000) <= 2 ^ 1000).
    { rewrite <- pow2_split by lia. apply pow2_le; lia. }
    assert (Z.pos m * 2 ^ (e + 1000) < 2 ^ 53 * 2 ^ (e + 1000))
      by (apply Z.mul_lt_mono_pos_r; [apply pow2_pos; lia|lia]).
    nia.
  - destruct (Z.le_gt_cases e 0) as [|Hc]; [lia|exfalso].
    assert (Hp : 2 ^ 1 * 2 ^ 1000 <= 2 ^ (e + 1000)).
    { rewrite <- pow2_split by lia. apply pow2_le; lia. }
    assert (2 ^ 53 = 2 ^ 52 * 2 ^ 1) by (rewrite <- pow2_split by lia; reflexivity).
    assert (2 ^ 52 * 2 ^ (e + 1000) <= Z.pos m * 2 ^ (e + 1000))
      by (apply Z.mul_le_mono_nonneg_r; [apply Z.lt_le_incl, pow2_pos; lia|lia]).
    pose proof (pow2_pos 52 ltac:(lia)).
    assert (2 ^ 52 * (2 ^ 1 * 2 ^ 1000) <= 2 ^ 52 * 2 ^ (e + 1000)) by (apply Z.mul_le_mono_nonneg_l; lia).
    assert (hi * 2 ^ 1000 < 2 ^ 53 * 2 ^ 1000) by (apply Z.mul_lt_mono_pos_r; lia).
    nia.
Qed.

Lemma dv_succ_exp m e : -900 <= e <= 900 ->
  dv (S754_finite false m (e + 1)) = 2 * dv (S754_finite false m e).
Proof.
  intros He. cbn [dv]. replace (e + 1 + 1000) with (1 + (e + 1000)) by lia.
  rewrite pow2_split by lia. change (2 ^ 1) with 2. lia.
Qed.

Lemma ddouble x b : 0 <= b <= 300 -> dnormal b x ->
  dnormal (b + 1) (dmul x (double_of_int 2)) /\ dv (dmul x (double_of_int 2)) = 2 * dv x.
Proof.
  intros Hb (m & e & -> & N & He). change (double_of_int 2) with two.
  rewrite dmul_two by (try assumption; lia).
  split; [|apply dv_succ_exp; lia].
  apply dnormal_intro; [|lia]. destruct N; split; lia.
Qed.

Lemma dhalf x b : 0 <= b <= 300 -> dnormal b x ->
  dnormal (b + 1) (ddiv x (double_of_int 2)) /\ 2 * dv (ddiv x (double_of_int 2)) = dv x.
Proof.
  intros Hb (m & e & -> & N & He). change (double_of_int 2) with two.
  rewrite ddiv_two by (try assumption; lia).
  split; [apply dnormal_intro; [destruct N; split|]; lia|].
  rewrite <- dv_succ_exp by lia. do 2 f_equal. lia.
Qed.

(** The depth before clamping to [maxDepth]. *)
Definition grown (c : PipelineController) : Double :=
  match phase c with
  | slowStart => dmul (depth c) (double_of_int 2)
  | steady => dadd (depth c) (ddiv (double_of_int 1) (depth c))
  end.

Lemma recordSuccess_depth c :
  depth (recordSuccess c) = dmin (grown c) (double_of_int (maxDepth c)).
Proof. unfold recordSuccess, grown. now destruct (phase c). Qed.

Lemma recordSuccess_frame c :
  ssthresh (recordSuccess c) = ssthresh c /\
  minDepth (recordSuccess c) = minDepth c /\ maxDepth (recordSuccess c) = maxDepth c.
Proof. unfold recordSuccess. now destruct (phase c). Qed.

Lemma grown_normal c : wf c -> dnormal 477 (grown c) /\ dv (depth c) <= dv (grown c).
Proof.
  intros W. pose proof (wf_depth c W) as D. unfold grown. destruct (phase c).
  - destruct (ddouble (depth c) 52 ltac:(lia) D) as [N ->].
    split; [apply (dnormal_weaken 53); [lia|exact N]|].
    pose proof (dv_pos _ _ D). lia.
  - change (double_of_int 1) with one.
    pose proof (dinv_normal 52 (depth c) ltac:(lia) D) as I.
    apply (dadd_normal 158); [lia| |exact I]. apply (dnormal_weaken 52); [lia|exact D].
Qed.

Lemma int_depth_normal n c : wf c -> minDepth c <= n <= maxDepth c ->
  dnormal 477 (double_of_int n) /\ dv (double_of_int n) = units n.
Proof.
  intros W Hn. pose proof (wf_min c W). pose proof (wf_max c W).
  destruct (double_of_int_normal n) as [N V]; [lia|].
  split; [apply (dnormal_weaken 52); [lia|exact N] | exact V].
Qed.

Lemma recordSuccess_value c : wf c ->
  dnormal 477 (depth (recordSuccess c)) /\
  dv (depth (recordSuccess c)) = Z.min (dv (grown c)) (units (maxDepth c)).
Proof.
  intros W. rewrite recordSuccess_depth. pose proof (wf_max c W).
  destruct (grown_normal c W) as [G _].
  destruct (int_depth_normal (maxDepth c) c W ltac:(lia)) as [M <-].
  apply dmin_normal; assumption.
Qed.

Lemma recordSuccess_slow c : wf c -> phase c = slowStart ->
  dv (depth (recordSuccess c)) = Z.min (2 * dv (depth c)) (units (maxDepth c)).
Proof.
  intros W Hp. destruct (recordSuccess_value c W) as [_ ->]. unfold grown. rewrite Hp.
  destruct (ddouble (depth c) 52 ltac:(lia) (wf_depth c W)) as [_ ->]. reflexivity.
Qed.

Lemma recordSuccess_wf c : wf c -> wf (recordSuccess c).
Proof.
  intros W. destruct (recordSuccess_value c W) as [N V].
  destruct (grown_normal c W) as [_ G].
  destruct (recordSuccess_frame c) as (Fs & Fm & FM). destruct W as [W1 W2 W3 W4 W5 W6].
  pose proof (units_le (minDepth c) (maxDepth c) ltac:(lia)).
  split; rewrite ?Fs, ?Fm, ?FM; try assumption; try lia.
  apply (dnormal_narrow 477 _ (minDepth c) (maxDepth c)); try assumption; lia.
Qed.

Lemma recordFailure_value c : wf c ->
  dnormal 477 (depth (recordFailure c)) /\
  exists h, 2 * h = dv (depth c) /\ dv (depth (recordFailure c)) = Z.max (units (minDepth c)) h.
Proof.
  intros W. cbn [recordFailure depth]. pose proof (wf_max c W).
  destruct (dhalf (depth c) 52 ltac:(lia) (wf_depth c W)) as [H1 H2].
  destruct (int_depth_normal (minDepth c) c W ltac:(lia)) as [M <-].
  apply (dnormal_weaken _ 477) in H1; [|lia].
  destruct (dmax_normal 477 _ _ M H1) as [N V].
  split; [exact N|]. exists (dv (ddiv (depth c) (double_of_int 2))). auto.
Qed.

Lemma recordFailure_wf c : wf c -> wf (recordFailure c).
Proof.
  intros W. destruct (recordFailure_value c W) as [N (h & Hh & V)].
  destruct W as [W1 W2 W3 W4 W5 W6].
  pose proof (units_le (minDepth c) (maxDepth c) ltac:(lia)).
  pose proof (dv_pos _ _ W3).
  assert (N52 : dnormal 52 (depth (recordFailure c)))
    by (apply (dnormal_narrow 477 _ (minDepth c) (maxDepth c)); try assumption; lia).
  split; try assumption; try (cbn [recordFailure depth minDepth maxDepth]; lia).
  - apply (dnormal_weaken 52); [lia|exact N52].
  - change (minDepth (recordFailure c)) with (minDepth c). lia.
  - change (maxDepth (recordFailure c)) with (maxDepth c). lia.
Qed.

Lemma reset_wf c : wf c -> minDepth c <= 2 <= maxDepth c -> wf (reset c).
Proof.
  intros W H. destruct W as [W1 W2 W3 W4 W5 W6].
  destruct (double_of_int_normal 2 ltac:(vm_compute; split; congruence)) as [N V].
  change (2 * 2 ^ 1000) with (units 2) in V.
  destruct (double_of_int_normal 16 ltac:(vm_compute; split; congruence)) as [N' _].
  split; cbn [reset depth ssthresh minDepth maxDepth]; try assumption.
  - apply (dnormal_weaken 52); [lia|exact N'].
  - unfold defaultDepth. rewrite V. apply units_le. lia.
  - unfold defaultDepth. rewrite V. apply units_le. lia.
Qed.

Lemma init_wf : wf init.
Proof.
  destruct (double_of_int_normal 2 ltac:(vm_compute; split; congruence)) as [N V].
  change (2 * 2 ^ 1000) with (units 2) in V.
  destruct (double_of_int_normal 16 ltac:(vm_compute; split; congruence)) as [N' _].
  split; cbn [init depth ssthresh minDepth maxDepth]; unfold defaultMinDepth, defaultMaxDepth; try assumption.
  - lia.
  - split; [lia|reflexivity].
  - apply (dnormal_weaken 52); [lia|exact N'].
  - unfold defaultDepth. rewrite V. apply units_le. lia.
  - unfold defaultDepth. rewrite V. apply units_le. lia.
Qed.

(** Every event keeps the invariant and the two bounds. *)
Lemma run_keeps c es :
  wf c -> minDepth c <= 2 <= maxDepth c ->
  wf (run c es) /\ minDepth (run c es) = minDepth c /\ maxDepth (run c es) = maxDepth c.
Proof.
  revert c. induction es as [|e es IH]; intros c W H; [cbn; auto|].
  change (run c (e :: es)) with (run (apply_event c e) es).
  assert (K : wf (apply_event c e) /\ minDepth (apply_event c e) = minDepth c /\
              maxDepth (apply_event c e) = maxDepth c).
  { destruct e; cbn [apply_event].
    - destruct (recordSuccess_frame c) as (_ & -> & ->). auto using recordSuccess_wf.
    - auto using recordFailure_wf.
    - auto using reset_wf. }
  destruct K as (W' & Em & EM). rewrite <- Em, <- EM. apply IH; [exact W'|]. rewrite Em, EM. exact H.
Qed.

Lemma effectiveDepth_wf c : wf c ->
  effectiveDepth c = Some (dv (depth c) / 2 ^ 1000) /\
  minDepth c <= dv (depth c) / 2 ^ 1000 <= maxDepth c.
Proof.
  intros W. pose proof (wf_lo c W) as Hlo. pose proof (wf_hi c W) as Hhi. unfold units in *.
  pose proof (pow2_pos 1000 ltac:(lia)) as P.
  assert (B : minDepth c <= dv (depth c) / 2 ^ 1000 <= maxDepth c).
  { split; [apply Z.div_le_lower_bound; lia|].
    apply Z.div_le_upper_bound; lia. }
  split; [|exact B]. unfold effectiveDepth.
  rewrite (int_of_double_normal 52); [f_equal; lia|lia|exact (wf_depth c W)|].
  apply Z.le_lt_trans with (1 := Hhi). apply Z.mul_lt_mono_pos_r; [lia|].
  pose proof (wf_max c W). assert (2 ^ 53 < 2 ^ 62) by (vm_compute; reflexivity). lia.
Qed.

(** ** Properties *)

(** Whatever sequence of successes, failures and resets a controller with
    the default parameters sees, its binary64 depth stays a positive normal
    number between its bounds, [Int(depth)] never traps, and the effective
    pipeline depth lies between 1 and 32. *)
Theorem effectiveDepth_bounded es :
  wf (run init es) /\ exists d, effectiveDepth (run init es) = Some d /\ 1 <= d <= 32.
Proof.
  destruct (run_keeps init es init_wf ltac:(cbn; unfold defaultMinDepth, defaultMaxDepth; lia))
    as (W & Em & EM).
  split; [exact W|]. destruct (effectiveDepth_wf _ W) as [E B].
  eexists; split; [exact E|]. rewrite Em, EM in B. exact B.
Qed.

(** C31: a success never lowers the depth: in slow start the depth is exactly
    doubled (up to [maxDepth]), in steady state the rounded sum
    [depth + 1/depth] is at least [depth]; the effective depth follows. *)
Theorem recordSuccess_grows c : wf c ->
  dv (depth c) <= dv (depth (recordSuccess c)) <= units (maxDepth c) /\
  (phase c = slowStart ->
     dv (depth (recordSuccess c)) = Z.min (2 * dv (depth c)) (units (maxDepth c))) /\
  exists d d', effectiveDepth c = Some d /\ effectiveDepth (recordSuccess c) = Some d' /\ d <= d'.
Proof.
  intros W. destruct (recordSuccess_value c W) as [_ V]. destruct (grown_normal c W) as [_ G].
  pose proof (wf_hi c W). split; [lia|]. split; [exact (recordSuccess_slow c W)|].
  destruct (effectiveDepth_wf c W) as [E _].
  destruct (effectiveDepth_wf _ (recordSuccess_wf c W)) as [E' _].
  do 2 eexists. split; [exact E|]. split; [exact E'|].
  apply Z.div_le_mono; [apply pow2_pos; lia|]. lia.
Qed.

Lemma recordSuccess_grows_witness :
  wf init /\ dv (depth (recordSuccess init)) = Z.min (2 * dv (depth init)) (units (maxDepth init)).
Proof.
  split; [exact init_wf|].
  exact (proj1 (proj2 (recordSuccess_grows init init_wf)) eq_refl).
Defined.

(** C32: a failure halves the depth exactly, but not below [minDepth]; it sets
    the slow-start threshold to the new depth and leaves slow start; the
    effective depth becomes the integer half, at least [minDepth]. *)
Theorem recordFailure_halves c : wf c ->
  let c' := recordFailure c in
  phase c' = steady /\ ssthresh c' = depth c' /\
  (exists h, 2 * h = dv (depth c) /\ dv (depth c') = Z.max (units (minDepth c)) h) /\
  exists d, effectiveDepth c = Some d /\ effectiveDepth c' = Some (Z.max (minDepth c) (d / 2)).
Proof.
  intros W c'. destruct (recordFailure_value c W) as [_ (h & Hh & V)]. fold c' in V.
  repeat split; [eauto|]. destruct (effectiveDepth_wf c W) as [E _].
  destruct (effectiveDepth_wf c' (recordFailure_wf c W)) as [E' _].
  eexists; split; [exact E|]. rewrite E', V. f_equal.
  pose proof (pow2_pos 1000 ltac:(lia)) as P.
  rewrite Z.div_div, (Z.mul_comm (2 ^ 1000) 2), <- Z.div_div, <- Hh, (Z.mul_comm 2 h), Z.div_mul by lia.
  unfold units. destruct (Z.max_spec (minDepth c * 2 ^ 1000) h) as [[Hm ->]|[Hm ->]].
  - symmetry. apply Z.max_r. apply Z.div_le_lower_bound; lia.
  - rewrite Z.div_mul by lia. symmetry. apply Z.max_l.
    apply Z.div_le_upper_bound; lia.
Qed.

Lemma recordFailure_halves_witness :
  wf (run init [Success; Success]) /\
  effectiveDepth (run init [Success; Success]) = Some 8 /\
  effectiveDepth (recordFailure (run init [Success; Success])) = Some 4.
Proof.
  assert (W : wf (run init [Success; Success])) by (apply recordSuccess_wf, recordSuccess_wf, init_wf).
  split; [exact W|]. split; [vm_compute; reflexivity|].
  destruct (recordFailure_halves _ W) as (_ & _ & _ & d & E & E').
  rewrite E'. replace (effectiveDepth (run init [Success; Success])) with (Some 8) in E by (vm_compute; reflexivity).
  injection E as <-. vm_compute. reflexivity.
Defined.

(** After a failure the controller never returns to slow start, however
    many successes and failures follow, until it is reset. *)
Theorem no_slow_start_after_failure c es :
  ~ In Reset es -> phase (run (recordFailure c) es) = steady.
Proof.
  intros H. assert (G : forall c', phase c' = steady -> phase (run c' es) = steady).
  { induction es as [|e es IH]; intros c' Hp; [exact Hp|].
    change (run c' (e :: es)) with (run (apply_event c' e) es).
    apply IH; [now intros X; apply H; right|].
    destruct e; cbn [apply_event].
    - unfold recordSuccess. now rewrite Hp.
    - reflexivity.
    - exfalso. apply H. now left. }
  now apply G.
Qed.

Lemma no_slow_start_after_failure_witness :
  phase (run (recordFailure init) [Success; Failure; Success]) = steady.
Proof.
  apply (no_slow_start_after_failure init). intros [X|[X|[X|[]]]]; discriminate X.
Defined.

(** Slow start ends: when the threshold is at most [maxDepth], it takes at
    most [n] successes to leave it as soon as [2^n * depth] reaches the
    threshold (three successes with the default parameters). *)
Theorem slow_start_ends c n :
  wf c -> phase c = slowStart -> dv (ssthresh c) <= units (maxDepth c) -> (0 < n)%nat ->
  dv (ssthresh c) <= 2 ^ Z.of_nat n * dv (depth c) ->
  phase (run c (repeat Success n)) = steady.
Proof.
  assert (G : forall n c, phase c = steady -> phase (run c (repeat Success n)) = steady).
  { induction n0 as [|n0 IH]; intros c0 Hp; [exact Hp|].
    change (run c0 (repeat Success (S n0))) with (run (recordSuccess c0) (repeat Success n0)).
    apply IH. unfold recordSuccess. now rewrite Hp. }
  revert c. induction n as [|n IH]; intros c W Hp Hs Hn Hle; [lia|].
  change (run c (repeat Success (S n))) with (run (recordSuccess c) (repeat Success n)).
  destruct (ddouble (depth c) 52 ltac:(lia) (wf_depth c W)) as [N2 V2].
  destruct (dle (ssthresh c) (dmul (depth c) (double_of_int 2))) eqn:El.
  { apply G. unfold recordSuccess. now rewrite Hp, El. }
  rewrite (dle_normal 53) in El by (try exact N2; exact (wf_ssthresh c W)).
  apply Z.leb_gt in El. rewrite V2 in El.
  replace (Z.of_nat (S n)) with (1 + Z.of_nat n) in Hle by lia.
  rewrite pow2_split in Hle by lia. change (2 ^ 1) with 2 in Hle.
  assert (Hn0 : (0 < n)%nat).
  { destruct n; [|lia]. cbn [Z.of_nat] in Hle. change (2 ^ 0) with 1 in Hle. lia. }
  destruct (recordSuccess_frame c) as (Fs & _ & FM).
  apply IH; [now apply recordSuccess_wf| | |exact Hn0|]; rewrite ?Fs, ?FM; try assumption.
  - unfold recordSuccess. rewrite Hp. 
    rewrite (dle_normal 53) by (try exact N2; exact (wf_ssthresh c W)).
    rewrite V2. now rewrite (proj2 (Z.leb_gt _ _) El).
  - rewrite (recordSuccess_slow c W Hp), Z.min_l by lia. lia.
Qed.

Lemma slow_start_ends_witness : phase (run init (repeat Success 3)) = steady.
Proof.
  apply (slow_start_ends init 3).
  - exact init_wf.
  - reflexivity.
  - vm_compute. discriminate.
  - repeat constructor.
  - vm_compute. discriminate.
Defined.

End Pipeline.
