(* ===== verification/Posix.v ===== *)
(** POSIX error values and the error helpers of Sources/NFSKit/Extensions.swift. *)

From stdpp Require Import base strings numbers.
From S2P Require Import Prelude.

Open Scope Z_scope.

(** ** Codes

    The Darwin values of the codes the program names. *)
Definition EIO : Z := 5.
Definition EBADF : Z := 9.
Definition ENOMEM : Z := 12.
Definition EBUSY : Z := 16.
Definition ENOBUFS : Z := 55.
Definition EISCONN : Z := 56.
Definition ENOTCONN : Z := 57.
Definition ETIMEDOUT : Z := 60.
Definition ECANCELED : Z := 89.
Definition ENODATA : Z := 96.

(** The raw values of [POSIXErrorCode] on Darwin: 1 ([EPERM]) to 106
    ([EQFULL], [ELAST]). *)
Definition posix_code_defined (raw : Z) : bool := (1 <=? raw) && (raw <=? 106).

(** [POSIXErrorCode.init(_ code: Int32)]: [EIO] for a value that names no code. *)
Definition POSIXErrorCode_init (code : Z) : Z :=
  if posix_code_defined code then code else EIO.

Record POSIXError := mkPOSIXError { code : Z; reason : option string }.

#[export] Instance POSIXError_eq_dec : EqDecision POSIXError.
Proof. solve_decision. Defined.

(** [POSIXError(code, description:)]. *)
Definition posix_error (c : Z) (description : string) : POSIXError :=
  mkPOSIXError c (Some description).

(** [POSIXError(code)]. *)
Definition posix_error_plain (c : Z) : POSIXError := mkPOSIXError c None.

(** [Optional.unwrap()]. *)
Definition unwrap {A} (o : option A) : POSIXError + A :=
  match o with
  | Some a => inr a
  | None => inl (posix_error ENODATA "Invalid/Empty data.")
  end.

(** ** 32-bit negation

    [Int32(-x)]: traps ([None]) when the result does not fit. *)
Definition int32_neg (x : Z) : option Z :=
  if decide (- 2 ^ 31 <= - x < 2 ^ 31) then Some (- x) else None.

Lemma int32_neg_some x : - 2 ^ 31 < x < 2 ^ 31 -> int32_neg x = Some (- x).
Proof. intros H. unfold int32_neg. now rewrite decide_True by lia. Qed.

Lemma POSIXErrorCode_init_defined c : posix_code_defined (POSIXErrorCode_init c) = true.
Proof.
  unfold POSIXErrorCode_init. destruct (posix_code_defined c) eqn:E; [exact E | reflexivity].
Qed.

Lemma POSIXErrorCode_init_neg c : c < 1 -> POSIXErrorCode_init c = EIO.
Proof.
  intros H. unfold POSIXErrorCode_init, posix_code_defined.
  now rewrite (proj2 (Z.leb_gt 1 c)) by lia.
Qed.
