(* ===== verification/Memory.v ===== *)
(** Raw memory as the Swift code uses it: [UnsafeMutableRawPointer.allocate],
    [deallocate], copies into a block, and [Data] values that wrap a block
    without copying.  Bytes that were never written are kept apart from
    written ones, and every misuse (freeing twice, touching a freed block,
    writing out of bounds) is a [None]. *)

From Stdlib Require Import Strings.Byte.
From stdpp Require Import base list gmap numbers.
From S2P Require Import Prelude.

Open Scope Z_scope.

Abbreviation byte := Byte.byte.

(** A cell is [None] until it is written. *)
Abbreviation cell := (option byte).

Record mem := mkMem {
  blocks : gmap Z (list cell);
  nextPtr : Z
}.

Definition mem_empty : mem := mkMem ∅ 1.

(** [UnsafeMutableRawPointer.allocate(byteCount: n, alignment: 1)]. *)
Definition allocate (n : Z) (m : mem) : Z * mem :=
  (nextPtr m, mkMem (<[nextPtr m := replicate (Z.to_nat n) None]> (blocks m)) (nextPtr m + 1)).

(** [ptr.deallocate()]. *)
Definition deallocate (p : Z) (m : mem) : option mem :=
  match blocks m !! p with
  | Some _ => Some (mkMem (delete p (blocks m)) (nextPtr m))
  | None => None
  end.

(** Overwrite the cells of [l] from [off] on with [bs]. *)
Definition splice (l : list cell) (off : nat) (bs : list byte) : list cell :=
  take off l ++ (Some <$> bs) ++ drop (off + length bs) l.

(** Write [bs] at [p + off]. *)
Definition store (p off : Z) (bs : list byte) (m : mem) : option mem :=
  match blocks m !! p with
  | Some l =>
      if decide (0 <= off /\ off + Z.of_nat (length bs) <= Z.of_nat (length l))
      then Some (mkMem (<[p := splice l (Z.to_nat off) bs]> (blocks m)) (nextPtr m))
      else None
  | None => None
  end.

(** Read [n] cells at [p]. *)
Definition load (p n : Z) (m : mem) : option (list cell) :=
  match blocks m !! p with
  | Some l =>
      if decide (0 <= n <= Z.of_nat (length l)) then Some (take (Z.to_nat n) l) else None
  | None => None
  end.

Definition live (p : Z) (m : mem) : Prop := is_Some (blocks m !! p).

(** Pointers handed out are never reused, and live ones were handed out. *)
Definition mem_ok (m : mem) : Prop := forall p, live p m -> p < nextPtr m.

(** A Foundation [Data]: its own bytes, or a borrowed block of [count] bytes
    whose custom deallocator frees the block when the value is released. *)
Inductive Data :=
| DataBytes (bs : list byte)
| DataNoCopy (p : Z) (count : Z).

Definition data_count (d : Data) : Z :=
  match d with
  | DataBytes bs => Z.of_nat (length bs)
  | DataNoCopy _ n => n
  end.

Definition data_cells (d : Data) (m : mem) : option (list cell) :=
  match d with
  | DataBytes bs => Some (Some <$> bs)
  | DataNoCopy p n => load p n m
  end.

(** The last reference to the value goes away. *)
Definition data_release (d : Data) (m : mem) : option mem :=
  match d with
  | DataBytes _ => Some m
  | DataNoCopy p _ => deallocate p m
  end.

(** ** Lemmas *)

Lemma mem_empty_ok : mem_ok mem_empty.
Proof. intros p [l H]. cbn in H. rewrite lookup_empty in H. discriminate. Qed.

Lemma allocate_live n m p m' : allocate n m = (p, m') ->
  blocks m' !! p = Some (replicate (Z.to_nat n) None) /\
  (mem_ok m -> mem_ok m' /\ ~ live p m).
Proof.
  intros [= <- <-]. cbn. split; [apply lookup_insert_eq|]. intros Hok. split.
  - intros q [l Hq]. cbn in Hq. destruct (decide (nextPtr m = q)) as [<-|Hne]; [cbn; lia|].
    rewrite lookup_insert_ne in Hq by exact Hne. cbn. specialize (Hok q ltac:(eexists; eauto)). lia.
  - intros Hl. specialize (Hok _ Hl). lia.
Qed.

Lemma deallocate_live p m : live p m ->
  exists m', deallocate p m = Some m' /\ ~ live p m' /\
    (forall q, q <> p -> blocks m' !! q = blocks m !! q).
Proof.
  intros [l Hl]. unfold deallocate. rewrite Hl. eexists; split; [reflexivity|]. split.
  - intros [l' H']. cbn in H'. rewrite lookup_delete_eq in H'. discriminate.
  - intros q Hq. cbn. now apply lookup_delete_ne.
Qed.

Lemma deallocate_dead p m : ~ live p m -> deallocate p m = None.
Proof. unfold live, deallocate. destruct (blocks m !! p); [intros []; eauto|done]. Qed.

Lemma length_splice (l : list cell) off bs :
  (off + length bs <= length l)%nat -> length (splice l off bs) = length l.
Proof.
  intros H. unfold splice. rewrite !length_app, length_fmap, length_take, length_drop. lia.
Qed.

Lemma store_ok p off bs m l :
  blocks m !! p = Some l -> 0 <= off -> off + Z.of_nat (length bs) <= Z.of_nat (length l) ->
  exists m', store p off bs m = Some m' /\
    blocks m' !! p = Some (splice l (Z.to_nat off) bs) /\
    (forall q, q <> p -> blocks m' !! q = blocks m !! q).
Proof.
  intros Hl H1 H2. unfold store. rewrite Hl, decide_True by lia.
  eexists; split; [reflexivity|]. cbn. split; [apply lookup_insert_eq|].
  intros q Hq. now apply lookup_insert_ne.
Qed.

(** What was stored at the start of a block is what a load from it gives. *)
Lemma load_stored p bs m m' l : blocks m !! p = Some l -> store p 0 bs m = Some m' ->
  Z.of_nat (length bs) <= Z.of_nat (length l) ->
  load p (Z.of_nat (length bs)) m' = Some (Some <$> bs).
Proof.
  intros Hl Hs Hn. destruct (store_ok p 0 bs m l Hl) as (m2 & Hm2 & Hb & _); [lia|lia|].
  rewrite Hs in Hm2. injection Hm2 as <-. unfold load. rewrite Hb, decide_True.
  - f_equal. unfold splice. change (Z.to_nat 0) with 0%nat. rewrite take_0, Nat2Z.id. cbn [app].
    apply take_app_length'. symmetry. apply (length_fmap (Some : byte -> cell)).
  - rewrite length_splice by lia. lia.
Qed.
