(* ===== verification/ReadBuffer.v ===== *)
(** The ARC-managed read buffer (Sources/NFSKit/ReadBuffer.swift). *)

From stdpp Require Import base list gmap.
From S2P Require Import Prelude Memory.

Open Scope Z_scope.

Module Buffer.

Record ReadBuffer := mkReadBuffer {
  pointer : Z;
  size : Z;
  isOwned : bool
}.

(** [ReadBuffer(byteCount:)]. *)
Definition init (byteCount : Z) (m : mem) : ReadBuffer * mem :=
  let '(p, m) := allocate byteCount m in (mkReadBuffer p byteCount true, m).

Definition disown (b : ReadBuffer) : ReadBuffer := mkReadBuffer (pointer b) (size b) false.

(** [deinit], when the last reference to the object goes away. *)
Definition deinit (b : ReadBuffer) (m : mem) : option mem :=
  if isOwned b then deallocate (pointer b) m else Some m.

End Buffer.
