(* ===== verification/OperationBatch.v ===== *)
(** Groups of related operations (Sources/NFSKit/OperationBatch.swift): the
    pending, in-flight and completed chunks of a batch, its cancellation, and the
    reassembly of the data in chunk order. *)

From Stdlib Require Import Strings.Byte.
From stdpp Require Import base list gmap sets numbers.
From S2P Require Import Prelude Posix Memory ReadBuffer.

Open Scope Z_scope.

Module Batch.

(** ** State *)

Inductive State := active | cancelled (reason : POSIXError) | completed.

(** [OperationBatch].  The slice buffer is a reference to a shared object: the
    batch holds its identity, and the object lives in the [store] below. *)
Record OperationBatch := mkBatch {
  batchID : Z;
  state : State;
  pendingChunkIndices : list Z;
  inFlightChunkIndices : gset Z;
  completedChunks : gmap Z (list byte);
  totalChunks : Z;
  sliceBuffer : option Z;
  sliceChunkSize : Z;
  completedSliceByteCounts : gmap Z Z
}.

(** The [ReadBuffer] objects and the memory they point into. *)
Record heap := mkHeap { objects : gmap Z Buffer.ReadBuffer; memory : mem }.

(** ** Operations *)

(** [Array(0..<totalChunks)] traps for a negative count. *)
Definition range0 (n : Z) : option (list Z) := if decide (0 <= n) then Some (seqZ 0 n) else None.

Definition init (id total : Z) : option OperationBatch :=
  pending ← range0 total; Some (mkBatch id active pending ∅ ∅ total None 0 ∅).

Definition init_slices (id total buffer chunkSize : Z) : option OperationBatch :=
  pending ← range0 total; Some (mkBatch id active pending ∅ ∅ total (Some buffer) chunkSize ∅).

Definition is_active (b : OperationBatch) : bool :=
  match state b with active => true | _ => false end.

Definition dequeueNextChunk (b : OperationBatch) : option Z * OperationBatch :=
  match state b, pendingChunkIndices b with
  | active, index :: rest =>
      (Some index,
       mkBatch (batchID b) (state b) rest ({[index]} ∪ inFlightChunkIndices b) (completedChunks b)
         (totalChunks b) (sliceBuffer b) (sliceChunkSize b) (completedSliceByteCounts b))
  | _, _ => (None, b)
  end.

Definition recordChunkCompletion (index : Z) (data : list byte) (b : OperationBatch) : OperationBatch :=
  if is_active b then
    mkBatch (batchID b) (state b) (pendingChunkIndices b) (inFlightChunkIndices b ∖ {[index]})
      (<[index := data]> (completedChunks b)) (totalChunks b) (sliceBuffer b) (sliceChunkSize b)
      (completedSliceByteCounts b)
  else b.

Definition recordSliceCompletion (index bytesWritten : Z) (b : OperationBatch) : OperationBatch :=
  if is_active b then
    mkBatch (batchID b) (state b) (pendingChunkIndices b) (inFlightChunkIndices b ∖ {[index]})
      (completedChunks b) (totalChunks b) (sliceBuffer b) (sliceChunkSize b)
      (<[index := bytesWritten]> (completedSliceByteCounts b))
  else b.

Definition isComplete (b : OperationBatch) : bool :=
  match state b with
  | active =>
      match sliceBuffer b with
      | Some _ => bool_decide (Z.of_nat (size (completedSliceByteCounts b)) = totalChunks b)
      | None => bool_decide (Z.of_nat (size (completedChunks b)) = totalChunks b)
      end
  | _ => false
  end.

(** [Int] addition traps on overflow. *)
Definition int_add (x y : Z) : option Z :=
  if decide (- 2 ^ 63 <= x + y < 2 ^ 63) then Some (x + y) else None.

(** The loop summing the bytes of every slice. *)
Fixpoint sum_slices (counts : gmap Z Z) (indices : list Z) (total : Z) : option Z :=
  match indices with
  | [] => Some total
  | i :: rest => total ← int_add total (default 0 (counts !! i)); sum_slices counts rest total
  end.

(** The loop appending every completed chunk. *)
Fixpoint append_chunks (chunks : gmap Z (list byte)) (indices : list Z) (result : list byte)
  : list byte :=
  match indices with
  | [] => result
  | i :: rest =>
      append_chunks chunks rest
        (match chunks !! i with Some c => result ++ c | None => result end)
  end.

Definition assembleData (b : OperationBatch) (h : heap) : option (Data * heap) :=
  match sliceBuffer b with
  | Some r =>
      totalBytesWritten ← sum_slices (completedSliceByteCounts b) (seqZ 0 (totalChunks b)) 0;
      buffer ← objects h !! r;
      Some (DataNoCopy (Buffer.pointer buffer) totalBytesWritten,
            mkHeap (<[r := Buffer.disown buffer]> (objects h)) (memory h))
  | None => Some (DataBytes (append_chunks (completedChunks b) (seqZ 0 (totalChunks b)) []), h)
  end.

Definition cancel (reason : POSIXError) (b : OperationBatch) : OperationBatch :=
  if is_active b then
    mkBatch (batchID b) (cancelled reason) [] (inFlightChunkIndices b) (completedChunks b)
      (totalChunks b) (sliceBuffer b) (sliceChunkSize b) (completedSliceByteCounts b)
  else b.

Definition isCancelled (b : OperationBatch) : bool :=
  match state b with cancelled _ => true | _ => false end.

Definition markCompleted (b : OperationBatch) : OperationBatch :=
  mkBatch (batchID b) completed (pendingChunkIndices b) (inFlightChunkIndices b) (completedChunks b)
    (totalChunks b) (sliceBuffer b) (sliceChunkSize b) (completedSliceByteCounts b).

(** ** Histories

    How the event loop drives a batch: a completion is recorded once per issued
    chunk, in the mode the batch was created in.  [chunk i] is the data the
    callback of chunk [i] delivers. *)
Section Histories.
Context (chunk : Z -> list byte).

Inductive step : OperationBatch -> OperationBatch -> Prop :=
| step_dequeue b : step b (dequeueNextChunk b).2
| step_record b i :
    i ∈ inFlightChunkIndices b -> sliceBuffer b = None ->
    step b (recordChunkCompletion i (chunk i) b)
| step_record_slice b i n r :
    i ∈ inFlightChunkIndices b -> sliceBuffer b = Some r -> 0 <= n <= sliceChunkSize b ->
    step b (recordSliceCompletion i n b)
| step_cancel b e : step b (cancel e b)
| step_complete b : step b (markCompleted b).

(** The chunks whose completion was recorded. *)
Definition recorded (b : OperationBatch) : gset Z :=
  match sliceBuffer b with
  | Some _ => dom (completedSliceByteCounts b)
  | None => dom (completedChunks b)
  end.

(** The invariant of an active batch of [n] chunks: the first [k] chunks were
    issued in order, each is in flight or recorded, the rest are pending. *)
Record batch_inv (n : Z) (b : OperationBatch) : Prop := {
  inv_total : totalChunks b = n;
  inv_nonneg : 0 <= n;
  inv_split : is_active b = true -> exists k, 0 <= k <= n /\
    pendingChunkIndices b = seqZ k (n - k) /\
    inFlightChunkIndices b ## recorded b /\
    (forall i, i ∈ inFlightChunkIndices b ∪ recorded b <-> 0 <= i < k);
  inv_data : forall i d, completedChunks b !! i = Some d -> d = chunk i;
  inv_counts : forall i c, completedSliceByteCounts b !! i = Some c -> 0 <= c <= sliceChunkSize b
}.

Lemma fresh_inv id n m cs :
  0 <= n -> batch_inv n (mkBatch id active (seqZ 0 n) ∅ ∅ n m cs ∅).
Proof.
  intros Hn. split; cbn; try done.
  intros _. exists 0. rewrite Z.sub_0_r. unfold recorded; cbn.
  destruct m; rewrite dom_empty_L; (split; [lia|]; split; [done|]; split; [set_solver|]);
    intros i; split; [set_solver|lia|set_solver|lia].
Qed.

Lemma init_inv id n b : init id n = Some b -> batch_inv n b.
Proof.
  unfold init, range0. case_decide as Hn; [|done]. intros [= <-]. by apply fresh_inv.
Qed.

Lemma init_slices_inv id n r cs b : init_slices id n r cs = Some b -> batch_inv n b.
Proof.
  unfold init_slices, range0. case_decide as Hn; [|done]. intros [= <-]. by apply fresh_inv.
Qed.

Lemma dequeue_inv n b : batch_inv n b -> batch_inv n (dequeueNextChunk b).2.
Proof.
  intros I. unfold dequeueNextChunk.
  destruct (state b) eqn:Es; [|exact I..]. pose proof I as [It In Is Id Ic].
  assert (Ha : is_active b = true) by (unfold is_active; by rewrite Es).
  destruct (Is Ha) as (k & Hk & Hp & Hd & Hi).
  destruct (pendingChunkIndices b) as [|i rest] eqn:Ep; [exact I|]. clear I.
  destruct (decide (k = n)) as [->|Hne]; [by rewrite Z.sub_diag in Hp|].
  rewrite seqZ_cons in Hp by lia. injection Hp as -> ->.
  split; try done. intros _. exists (k + 1). cbn. unfold recorded in *. cbn.
  split; [lia|]. split; [f_equal; lia|].
  assert (Hk' : k ∉ inFlightChunkIndices b ∪ recorded b) by (rewrite Hi; lia).
  unfold recorded in Hk'. split; [set_solver|].
  intros j. specialize (Hi j). destruct (decide (j = k)); set_solver by lia.
Qed.

(** Moving an index from the in-flight set to the recorded one. *)
Lemma move_index (A B : gset Z) (P : Z -> Prop) i :
  i ∈ A -> A ## B -> (forall j, j ∈ A ∪ B <-> P j) ->
  A ∖ {[i]} ## {[i]} ∪ B /\ (forall j, j ∈ A ∖ {[i]} ∪ ({[i]} ∪ B) <-> P j).
Proof.
  intros Hi Hd HP. split; [set_solver|]. intros j. rewrite <- HP.
  destruct (decide (j = i)); set_solver.
Qed.

Lemma record_inv n b i :
  batch_inv n b -> i ∈ inFlightChunkIndices b -> sliceBuffer b = None ->
  batch_inv n (recordChunkCompletion i (chunk i) b).
Proof.
  intros I Hin Hm. unfold recordChunkCompletion.
  destruct (is_active b) eqn:Ha; [|exact I]. destruct I as [It In Is Id Ic].
  destruct (Is Ha) as (k & Hk & Hp & Hd & Hi).
  split; try done; cbn.
  - intros _. exists k. unfold recorded in *; cbn. rewrite Hm in *. rewrite dom_insert_L.
    split; [done|]. split; [done|]. by apply move_index.
  - intros j d. destruct (decide (i = j)) as [<-|Hne].
    + rewrite lookup_insert_eq. by intros [= <-].
    + rewrite lookup_insert_ne by done. apply Id.
Qed.

Lemma record_slice_inv n b i c r :
  batch_inv n b -> i ∈ inFlightChunkIndices b -> sliceBuffer b = Some r ->
  0 <= c <= sliceChunkSize b -> batch_inv n (recordSliceCompletion i c b).
Proof.
  intros I Hin Hm Hc. unfold recordSliceCompletion.
  destruct (is_active b) eqn:Ha; [|exact I]. destruct I as [It In Is Id Ic].
  destruct (Is Ha) as (k & Hk & Hp & Hd & Hi).
  split; try done; cbn.
  - intros _. exists k. unfold recorded in *; cbn. rewrite Hm in *. rewrite dom_insert_L.
    split; [done|]. split; [done|]. by apply move_index.
  - intros j d. destruct (decide (i = j)) as [<-|Hne].
    + rewrite lookup_insert_eq. by intros [= <-].
    + rewrite lookup_insert_ne by done. apply Ic.
Qed.

Lemma step_inv n b b' : step b b' -> batch_inv n b -> batch_inv n b'.
Proof.
  intros [] I.
  - by apply dequeue_inv.
  - by apply record_inv.
  - by eapply record_slice_inv.
  - unfold cancel. destruct (is_active b0); [|exact I]. destruct I; split; done.
  - destruct I; split; done.
Qed.

Lemma steps_inv n b b' : rtc step b b' -> batch_inv n b -> batch_inv n b'.
Proof. induction 1; eauto using step_inv. Qed.
End Histories.

(** ** Consequences of the invariant *)

Lemma elem_of_list_to_set_seqZ k m i :
  i ∈ (list_to_set (seqZ k m) : gset Z) <-> k <= i < k + m.
Proof. rewrite elem_of_list_to_set, elem_of_seqZ. done. Qed.

Lemma size_range n : 0 <= n -> Z.of_nat (size (list_to_set (seqZ 0 n) : gset Z)) = n.
Proof. intros. rewrite size_list_to_set by apply NoDup_seqZ. rewrite length_seqZ. lia. Qed.

Lemma complete_iff_drained chunk n b : batch_inv chunk n b -> is_active b = true ->
  isComplete b = true <-> pendingChunkIndices b = [] /\ inFlightChunkIndices b = ∅.
Proof.
  intros [It In Is _ _] Ha. destruct (Is Ha) as (k & Hk & Hp & Hd & Hi).
  assert (Hc : isComplete b = bool_decide (Z.of_nat (size (recorded b)) = n)).
  { unfold isComplete, recorded. unfold is_active in Ha. destruct (state b); try done.
    rewrite It. destruct (sliceBuffer b); by rewrite size_dom. }
  rewrite Hc, bool_decide_eq_true. rewrite Hp. clear Hc.
  set (R := list_to_set (seqZ 0 n) : gset Z).
  assert (Hsub : recorded b ⊆ R).
  { intros i Hj. apply elem_of_list_to_set_seqZ. specialize (Hi i). set_solver by lia. }
  pose proof (size_range n In) as HR. fold R in HR.
  split.
  - intros Hs. assert (HE : recorded b = R) by (apply set_subseteq_size_eq; [done|lia]).
    assert (k = n) as ->.
    { destruct (decide (k = n)); [done|exfalso].
      assert (k ∈ recorded b) by (rewrite HE; apply elem_of_list_to_set_seqZ; lia).
      specialize (Hi k). set_solver by lia. }
    split; [by rewrite Z.sub_diag|]. apply elem_of_equiv_empty_L. intros i Hf.
    assert (i ∈ R) by (apply elem_of_list_to_set_seqZ; specialize (Hi i); set_solver by lia).
    rewrite <- HE in *. set_solver.
  - intros [Hz He].
    assert (k = n) as -> by (apply (f_equal length) in Hz; rewrite length_seqZ in Hz; cbn in Hz; lia).
    rewrite <- HR. do 2 f_equal. apply set_eq. intros i. unfold R.
    rewrite elem_of_list_to_set_seqZ, <- (Hi i). set_solver.
Qed.

Lemma complete_recorded chunk n b i : batch_inv chunk n b -> isComplete b = true ->
  0 <= i < n -> i ∈ recorded b.
Proof.
  intros I Hc Hi.
  assert (Ha : is_active b = true) by (unfold isComplete in Hc; unfold is_active; by destruct (state b)).
  destruct (proj1 (complete_iff_drained _ _ _ I Ha) Hc) as [Hp He].
  destruct (inv_split _ _ _ I Ha) as (k & Hk & Hp' & _ & Hall).
  rewrite Hp in Hp'. apply (f_equal length) in Hp'. rewrite length_seqZ in Hp'. cbn in Hp'.
  specialize (Hall i). rewrite He in Hall. set_solver by lia.
Qed.

(** No operation changes the mode of a batch, its chunk size or its buffer. *)
Lemma steps_mode chunk b b' : rtc (step chunk) b b' -> sliceBuffer b' = sliceBuffer b.
Proof.
  induction 1 as [|x y z Hxy _ IH]; [done|]. rewrite IH. destruct Hxy as [x|x i|x i m r|x e|x].
  - unfold dequeueNextChunk. by destruct (state x), (pendingChunkIndices x).
  - unfold recordChunkCompletion. by destruct (is_active x).
  - unfold recordSliceCompletion. by destruct (is_active x).
  - unfold cancel. by destruct (is_active x).
  - done.
Qed.

Lemma init_mode id n b : init id n = Some b -> sliceBuffer b = None.
Proof. unfold init, range0. case_decide; [|done]. by intros [= <-]. Qed.

Lemma append_chunks_all chunk (chunks : gmap Z (list byte)) (l : list Z) acc :
  (forall i, i ∈ l -> chunks !! i = Some (chunk i)) ->
  append_chunks chunks l acc = acc ++ mjoin (chunk <$> l).
Proof.
  revert acc. induction l as [|i l IH]; intros acc H; cbn; [by rewrite app_nil_r|].
  rewrite H by set_solver. rewrite IH by set_solver. by rewrite <- app_assoc.
Qed.

(** ** Properties *)

(** C33: while a batch of [n] chunks is active, in either of its modes, every chunk index below [n] is
    exactly one of pending, in flight or recorded: no chunk is lost, issued
    twice or recorded while still pending.  This is so as long as completions are recorded
    for chunks that are in flight, in the batch's mode: the methods do not check it.  A completion
    recorded for a pending chunk breaks it: the chunk is recorded, and still pending. *)
Theorem chunks_partitioned chunk id n b0 b :
  init id n = Some b0 \/ (exists r cs, init_slices id n r cs = Some b0) ->
  rtc (step chunk) b0 b -> is_active b = true ->
  NoDup (pendingChunkIndices b) /\
  (forall i, 0 <= i < n <->
     i ∈ pendingChunkIndices b \/ i ∈ inFlightChunkIndices b \/ i ∈ recorded b) /\
  (forall i, i ∈ pendingChunkIndices b -> i ∉ inFlightChunkIndices b /\ i ∉ recorded b) /\
  inFlightChunkIndices b ## recorded b /\
  (forall i d c, i ∈ pendingChunkIndices b ->
     let b' := if sliceBuffer b then recordSliceCompletion i c b else recordChunkCompletion i d b in
     i ∈ pendingChunkIndices b' /\ i ∈ recorded b').
Proof.
  intros H0 Hs Ha. assert (I0 : batch_inv chunk n b0) by (destruct H0 as [H0|(r & cs & H0)]; eauto using init_inv, init_slices_inv).
  pose proof (steps_inv chunk n b0 b Hs I0) as I.
  destruct (inv_split _ _ _ I Ha) as (k & Hk & Hp & Hd & Hi). rewrite Hp.
  split; [apply NoDup_seqZ|]. split; [|split; [|split; [done|]]].
  - intros i. rewrite elem_of_seqZ. specialize (Hi i). rewrite elem_of_union in Hi.
    split; [intros; destruct (decide (i < k)); intuition lia | intuition lia].
  - intros i. rewrite elem_of_seqZ. specialize (Hi i). rewrite elem_of_union in Hi.
    intros; split; intros ?; intuition lia.
  - intros i d c Hin. rewrite <- Hp in Hin. unfold recordSliceCompletion, recordChunkCompletion. rewrite Ha.
    destruct (sliceBuffer b) eqn:Es; cbn; unfold recorded; cbn; rewrite dom_insert_L; split; (exact Hin || set_solver).
Qed.

(** An active batch reports completion exactly when nothing is pending
    and nothing is in flight. *)
Theorem isComplete_iff_drained chunk id n b0 b :
  init id n = Some b0 -> rtc (step chunk) b0 b -> is_active b = true ->
  isComplete b = true <-> pendingChunkIndices b = [] /\ inFlightChunkIndices b = ∅.
Proof. intros H0 Hs. apply (complete_iff_drained chunk n). eauto using steps_inv, init_inv. Qed.

(** C34: in per-chunk mode the assembled data is the concatenation of the
    chunks in index order, whatever the order in which their completions came. *)
Theorem assembleData_in_order chunk id n b0 b h :
  init id n = Some b0 -> rtc (step chunk) b0 b -> isComplete b = true ->
  assembleData b h = Some (DataBytes (mjoin (chunk <$> seqZ 0 n)), h).
Proof.
  intros H0 Hs Hc. pose proof (steps_inv chunk n b0 b Hs (init_inv _ _ _ _ H0)) as I.
  assert (Hm : sliceBuffer b = None)
    by (rewrite (steps_mode chunk b0 b Hs); exact (init_mode id n b0 H0)).
  unfold assembleData. rewrite Hm, (inv_total _ _ _ I). do 3 f_equal.
  rewrite (append_chunks_all chunk); [done|]. intros i Hi. apply elem_of_seqZ in Hi.
  pose proof (complete_recorded _ _ _ i I Hc ltac:(lia)) as Hr. unfold recorded in Hr. rewrite Hm in Hr.
  apply elem_of_dom in Hr as [d Hd]. rewrite Hd. f_equal. by apply (inv_data _ _ _ I).
Qed.

(** C35: cancelling an active batch is final: the pending queue is drained, no
    further chunk can be dequeued, the in-flight set is kept for the callbacks
    still to come, later completions are discarded, and a second cancellation
    does not replace the first error. *)
Theorem cancel_is_final chunk e b b' :
  is_active b = true -> rtc (step chunk) (cancel e b) b' ->
  (state b' = cancelled e \/ state b' = completed) /\
  pendingChunkIndices b' = [] /\ (dequeueNextChunk b').1 = None /\
  inFlightChunkIndices b' = inFlightChunkIndices b /\
  completedChunks b' = completedChunks b /\
  completedSliceByteCounts b' = completedSliceByteCounts b /\ isComplete b' = false.
Proof.
  intros Ha Hs. set (c := cancel e b) in Hs.
  assert (Hc : (state c = cancelled e \/ state c = completed) /\ pendingChunkIndices c = [] /\
    inFlightChunkIndices c = inFlightChunkIndices b /\ completedChunks c = completedChunks b /\
    completedSliceByteCounts c = completedSliceByteCounts b)
    by (unfold c, cancel; rewrite Ha; cbn; auto).
  clearbody c. induction Hs as [x|x y z Hxy _ IH].
  - destruct Hc as (Hst & Hp & Hf & H1 & H2). repeat split; try done.
    + unfold dequeueNextChunk. rewrite Hp. by destruct (state x).
    + unfold isComplete. by destruct Hst as [-> | ->].
  - apply IH. clear IH. destruct Hc as (Hst & Hp & Hf & H1 & H2).
    assert (Hna : is_active x = false) by (unfold is_active; by destruct Hst as [-> | ->]).
    destruct Hxy as [x|x i|x i m r|x e'|x];
      unfold dequeueNextChunk, recordChunkCompletion, recordSliceCompletion, cancel in *.
    + rewrite Hp. by destruct (state x) eqn:Es; cbn; rewrite ?Es.
    + by rewrite Hna.
    + by rewrite Hna.
    + by rewrite Hna.
    + cbn. auto.
Qed.

(** ** Slice mode *)

Lemma sum_slices_total counts l acc :
  0 <= acc -> (forall i, i ∈ l -> 0 <= default 0 (counts !! i)) ->
  acc + foldr Z.add 0 ((fun i => default 0 (counts !! i)) <$> l) < 2 ^ 63 ->
  sum_slices counts l acc = Some (acc + foldr Z.add 0 ((fun i => default 0 (counts !! i)) <$> l)).
Proof.
  revert acc. induction l as [|i l IH]; intros acc Ha Hl Hs; cbn in *; [by rewrite Z.add_0_r|].
  assert (Hi : 0 <= default 0 (counts !! i)) by (apply Hl; set_solver).
  assert (Hn : 0 <= foldr Z.add 0 ((fun i => default 0 (counts !! i)) <$> l)).
  { assert (Hl' : forall i, i ∈ l -> 0 <= default 0 (counts !! i)) by (intros; apply Hl; set_solver).
    clear -Hl'. induction l as [|j l IH]; cbn; [lia|].
    pose proof (Hl' j ltac:(set_solver)). specialize (IH ltac:(set_solver)). lia. }
  unfold int_add. rewrite decide_True by lia. cbn.
  rewrite IH; [f_equal; lia|lia|intros; apply Hl; set_solver|lia].
Qed.

(** The loaded prefix of a block whose slices hold [chunk i], all of them full
    but the last. *)
Lemma take_slices (chunk : Z -> list byte) (cs : nat) (l : list cell) (k : nat) (start : Z) :
  (forall i, start <= i < start + Z.of_nat k ->
     take (length (chunk i)) (drop (Z.to_nat (i - start) * cs) l) = Some <$> chunk i) ->
  (forall i, start <= i < start + Z.of_nat k - 1 -> length (chunk i) = cs) ->
  take (length (mjoin (chunk <$> seqZ start (Z.of_nat k)))) l = Some <$> mjoin (chunk <$> seqZ start (Z.of_nat k)).
Proof.
  revert l start. induction k as [|k IH]; intros l start Hc Hl; [done|].
  rewrite seqZ_cons by lia. replace (Z.pred (Z.of_nat (S k))) with (Z.of_nat k) by lia. cbn [fmap list_fmap mjoin list_join].
  change (list_fmap _ _ chunk (seqZ (Z.succ start) (Z.of_nat k))) with (chunk <$> seqZ (Z.succ start) (Z.of_nat k)).
  rewrite fmap_app, length_app, <- take_take_drop.
  pose proof (Hc start ltac:(lia)) as H0. rewrite Z.sub_diag in H0. cbn in H0. rewrite drop_0 in H0.
  rewrite H0. f_equal.
  destruct k as [|k]; [by cbn; rewrite take_0|].
  assert (Hcs : length (chunk start) = cs) by (apply Hl; lia). rewrite Hcs.
  apply (IH (drop cs l) (Z.succ start)).
  - intros i Hi. rewrite drop_drop. rewrite <- (Hc i) by lia. do 2 f_equal.
    replace (Z.to_nat (i - start)) with (S (Z.to_nat (i - Z.succ start))) by lia. cbn. lia.
  - intros i Hi. apply Hl. lia.
Qed.

Lemma foldr_length (chunk : Z -> list byte) (l : list Z) :
  foldr Z.add 0 ((fun i => Z.of_nat (length (chunk i))) <$> l) = Z.of_nat (length (mjoin (chunk <$> l))).
Proof.
  induction l as [|i l IH]; [done|]. rewrite !fmap_cons. cbn [foldr mjoin list_join].
  rewrite length_app, Nat2Z.inj_add, IH. done.
Qed.

(** In buffer-slice mode, when slice [i] holds the bytes [chunk i] at offset
    [i * chunkSize], the counts recorded are their lengths and only the last
    slice is short, the assembled [Data] wraps the buffer's own block and reads
    as the concatenation of the chunks; ownership of the block moves to it: the
    buffer's [deinit] then frees nothing, and releasing the [Data] frees the
    block, which a second release could not. *)
Theorem assembleData_slices chunk (b : OperationBatch) n r cs buf l h :
  totalChunks b = Z.of_nat n -> sliceBuffer b = Some r -> objects h !! r = Some buf ->
  blocks (memory h) !! Buffer.pointer buf = Some l ->
  (forall i, 0 <= i < Z.of_nat n -> completedSliceByteCounts b !! i = Some (Z.of_nat (length (chunk i)))) ->
  (forall i, 0 <= i < Z.of_nat n ->
     take (length (chunk i)) (drop (Z.to_nat i * cs) l) = Some <$> chunk i) ->
  (forall i, 0 <= i < Z.of_nat n - 1 -> length (chunk i) = cs) ->
  Z.of_nat (length l) < 2 ^ 63 ->
  exists d h' buf' m',
    assembleData b h = Some (d, h') /\
    data_cells d (memory h') = Some (Some <$> mjoin (chunk <$> seqZ 0 (Z.of_nat n))) /\
    objects h' !! r = Some buf' /\ Buffer.deinit buf' (memory h') = Some (memory h') /\
    data_release d (memory h') = Some m' /\ ~ live (Buffer.pointer buf) m' /\ data_release d m' = None.
Proof.
  intros Ht Hr Hbuf Hl Hcounts Hslices Hfull Hsize.
  set (bytes := mjoin (chunk <$> seqZ 0 (Z.of_nat n))).
  assert (Htake : take (length bytes) l = Some <$> bytes).
  { apply (take_slices chunk cs l n 0); [|done]. intros i Hi. rewrite Z.sub_0_r. by apply Hslices. }
  assert (Hlen : (length bytes <= length l)%nat).
  { apply (f_equal length) in Htake. rewrite length_fmap, length_take in Htake. lia. }
  assert (Hsum : foldr Z.add 0 ((fun i => default 0 (completedSliceByteCounts b !! i)) <$> seqZ 0 (Z.of_nat n))
                 = Z.of_nat (length bytes)).
  { unfold bytes. rewrite <- foldr_length. f_equal. apply list_fmap_ext. intros j i Hj.
    apply list_elem_of_lookup_2, elem_of_seqZ in Hj. by rewrite Hcounts by lia. }
  destruct (deallocate_live (Buffer.pointer buf) (memory h)) as (m' & Hm' & Hdead & _); [by exists l|].
  exists (DataNoCopy (Buffer.pointer buf) (Z.of_nat (length bytes))),
    (mkHeap (<[r := Buffer.disown buf]> (objects h)) (memory h)), (Buffer.disown buf), m'.
  split; [|split; [|split; [|split; [|split; [|split]]]]]; cbn; try done.
  - unfold assembleData. rewrite Hr, Ht, sum_slices_total; rewrite ?Hsum; try lia; [by cbn; rewrite Hbuf|].
    intros i Hi. apply elem_of_seqZ in Hi. rewrite Hcounts by lia. cbn. lia.
  - unfold load. rewrite Hl, decide_True by lia. by rewrite Nat2Z.id, Htake.
  - apply lookup_insert_eq.
  - by apply deallocate_dead.
Qed.

(** ** A two-chunk batch, completed in reverse order *)

Definition demo_chunk (i : Z) : list byte := if i =? 0 then [x61; x62] else [x63].
Definition demo0 : OperationBatch := mkBatch 7 active [0; 1] ∅ ∅ 2 None 0 ∅.
Definition demo2 : OperationBatch := (dequeueNextChunk (dequeueNextChunk demo0).2).2.
Definition demo4 : OperationBatch :=
  recordChunkCompletion 0 (demo_chunk 0) (recordChunkCompletion 1 (demo_chunk 1) demo2).
Definition demo_heap (l : list cell) : heap :=
  mkHeap {[ 1 := Buffer.mkReadBuffer 5 4 true ]} (mkMem {[ 5 := l ]} 6).

Lemma demo_steps2 : rtc (step demo_chunk) demo0 demo2.
Proof. eapply rtc_l; [apply step_dequeue|]. eapply rtc_l; [apply step_dequeue|]. apply rtc_refl. Defined.

Lemma demo_steps4 : rtc (step demo_chunk) demo0 demo4.
Proof.
  etransitivity; [exact demo_steps2|].
  eapply rtc_l; [apply (step_record _ demo2 1); [apply (bool_decide_unpack _); vm_compute; exact I|reflexivity]|].
  eapply rtc_l; [apply (step_record _ _ 0); [apply (bool_decide_unpack _); vm_compute; exact I|reflexivity]|].
  apply rtc_refl.
Defined.

Lemma chunks_partitioned_witness :
  pendingChunkIndices demo2 = [] /\ inFlightChunkIndices demo2 ## recorded demo2.
Proof.
  split; [reflexivity|].
  exact (proj1 (proj2 (proj2 (proj2 (chunks_partitioned demo_chunk 7 2 demo0 demo2 (or_introl eq_refl) demo_steps2 eq_refl))))).
Defined.

Lemma isComplete_iff_drained_witness :
  isComplete demo4 = true /\ inFlightChunkIndices demo4 = ∅.
Proof.
  split; [reflexivity|].
  exact (proj2 (proj1 (isComplete_iff_drained demo_chunk 7 2 demo0 demo4 eq_refl demo_steps4 eq_refl) eq_refl)).
Defined.

Lemma assembleData_in_order_witness :
  assembleData demo4 (demo_heap []) = Some (DataBytes [x61; x62; x63], demo_heap []).
Proof. exact (assembleData_in_order demo_chunk 7 2 demo0 demo4 _ eq_refl demo_steps4 eq_refl). Defined.

Lemma cancel_is_final_witness :
  isComplete (cancel (posix_error_plain ETIMEDOUT) demo2) = false.
Proof.
  exact (proj2 (proj2 (proj2 (proj2 (proj2 (proj2
    (cancel_is_final demo_chunk (posix_error_plain ETIMEDOUT) demo2 _ eq_refl (rtc_refl _ _)))))))).
Defined.

Definition demo_slices : OperationBatch :=
  mkBatch 8 active [] ∅ ∅ 2 (Some 1) 2 {[ 0 := 2; 1 := 1 ]}.

Lemma assembleData_slices_witness :
  exists d h', assembleData demo_slices (demo_heap [Some x61; Some x62; Some x63; None]) = Some (d, h') /\
    data_cells d (memory h') = Some [Some x61; Some x62; Some x63].
Proof.
  destruct (assembleData_slices demo_chunk demo_slices 2 1 2 (Buffer.mkReadBuffer 5 4 true)
              [Some x61; Some x62; Some x63; None] (demo_heap [Some x61; Some x62; Some x63; None]))
    as (d & h' & ? & ? & H1 & H2 & _); try reflexivity.
  - intros i Hi. assert (i = 0 \/ i = 1) as [-> | ->] by lia; reflexivity.
  - intros i Hi. assert (i = 0 \/ i = 1) as [-> | ->] by lia; reflexivity.
  - intros i Hi. assert (i = 0) as -> by lia; reflexivity.
  - eauto.
Defined.

End Batch.
