(* ===== verification/CType.v ===== *)
(** * C declarations

    The vocabulary in which the public headers of libnfs are transcribed: C
    types, function declarations, and the contract that the comment in front
    of a declaration gives to the function.  libnfs itself is not part of the
    repository, so these contracts are all that the Swift code can rely on.
    [callback_allowed] and [return_allowed] read a contract as a predicate on
    the values that cross the boundary at run time. *)

From stdpp Require Import base list strings numbers.
From S2P Require Import Prelude Posix.

Open Scope string_scope.
Open Scope Z_scope.

(** A C type as the headers spell it. *)
Inductive ctype :=
  | Tvoid | Tchar | Tint | Tlong
  | Tuint16 | Tuint32 | Tuint64 | Tint64 | Tsize
  | Tstruct (tag : string)
  | Tenum (tag : string)
  | Ttypedef (name : string)
  | Tconst (t : ctype)
  | Tptr (t : ctype).

#[export] Instance ctype_eq_dec : EqDecision ctype.
Proof. solve_decision. Defined.

(** What a callback's [data] argument holds when the command succeeded. *)
Inductive payload :=
  | Unspecified
  | Null
  | Points (t : ctype).

#[export] Instance payload_eq_dec : EqDecision payload.
Proof. solve_decision. Defined.

(** Which statuses mean success. *)
Inductive ok_status := StatusZero | StatusNonNeg.

#[export] Instance ok_status_eq_dec : EqDecision ok_status.
Proof. solve_decision. Defined.

(** The contract in front of a declaration.  [DocAsync]: the call returns 0
    when the command was queued, and then the callback is invoked later; it
    returns a negative value when it could not be queued, and then the callback
    is not invoked.  [DocSync]: the call returns a success status or [-errno].
    [DocMinusOne]: the call returns a success status or [-1].  [DocNullable]:
    the returned pointer is null on failure.  [DocPlain]: no result is
    documented. *)
Inductive fn_contract :=
  | DocAsync (ok : ok_status) (p : payload)
  | DocSync (ok : ok_status)
  | DocMinusOne (ok : ok_status)
  | DocNullable
  | DocPlain.

#[export] Instance fn_contract_eq_dec : EqDecision fn_contract.
Proof. solve_decision. Defined.

Record api_fn := mkApi {
  fn_name : string;
  fn_ret : ctype;
  fn_params : list (string * ctype);
  fn_doc : fn_contract
}.

(** The types of the callbacks and of the pointer handed back to them. *)
Definition is_callback (t : ctype) : bool :=
  bool_decide (t = Ttypedef "nfs_cb") || bool_decide (t = Ttypedef "rpc_cb").

(** The arguments of a call without the callback and its private pointer. *)
Definition call_params (f : api_fn) : list (string * ctype) :=
  match rev (fn_params f) with
  | (_, Tptr Tvoid) :: (_, cb) :: ps => if is_callback cb then rev ps else fn_params f
  | _ => fn_params f
  end.

Definition is_async (f : api_fn) : bool :=
  match fn_doc f with DocAsync _ _ => true | _ => false end.

(** [takes_callback f]: the last two parameters are a callback and its
    private pointer. *)
Definition takes_callback (f : api_fn) : bool :=
  bool_decide (length (call_params f) + 2 = length (fn_params f))%nat.

(** ** Values that cross the boundary *)

(** The [data] argument of a callback. *)
Inductive cdata :=
  | CNull
  | CString (s : string)
  | CPointer (t : ctype) (addr : Z).

Definition status_ok (ok : ok_status) (status : Z) : bool :=
  match ok with
  | StatusZero => status =? 0
  | StatusNonNeg => 0 <=? status
  end.

(** [-errno]: a negated POSIX error code. *)
Definition minus_errno (status : Z) : bool :=
  (status <? 0) && posix_code_defined (- status).

Definition payload_matches (p : payload) (data : cdata) : bool :=
  match p, data with
  | Unspecified, _ => true
  | Null, CNull => true
  | Points t, CPointer t' addr => bool_decide (t = t') && negb (addr =? 0)
  | _, _ => false
  end.

(** [callback_allowed f status data]: [f]'s documentation lets its callback be
    invoked with [status] and [data]. *)
Definition callback_allowed (f : api_fn) (status : Z) (data : cdata) : bool :=
  match fn_doc f with
  | DocAsync ok p =>
      (status_ok ok status && payload_matches p data) ||
      (minus_errno status && match data with CString _ => true | _ => false end)
  | _ => false
  end.

(** [return_allowed f rc]: [f]'s documentation lets the call return [rc]. *)
Definition return_allowed (f : api_fn) (rc : Z) : bool :=
  match fn_doc f with
  | DocAsync _ _ => rc <=? 0
  | DocSync ok => status_ok ok rc || minus_errno rc
  | DocMinusOne ok => status_ok ok rc || (rc =? -1)
  | DocNullable | DocPlain => true
  end.

Lemma callback_allowed_error f status data :
  callback_allowed f status data = true -> status < 0 ->
  minus_errno status = true /\ exists s, data = CString s.
Proof.
  unfold callback_allowed; destruct (fn_doc f) as [ok p| | | |]; try discriminate.
  intros H Hs; apply orb_prop in H as [H|H]; apply andb_prop in H as [H1 H2].
  - destruct ok; simpl in H1; [apply Z.eqb_eq in H1|apply Z.leb_le in H1]; lia.
  - split; [done|]. destruct data; try discriminate; eauto.
Qed.

Lemma callback_allowed_success f status data :
  callback_allowed f status data = true -> 0 <= status ->
  exists ok p, fn_doc f = DocAsync ok p /\ status_ok ok status = true
               /\ payload_matches p data = true.
Proof.
  unfold callback_allowed; destruct (fn_doc f) as [ok p| | | |]; try discriminate.
  intros H Hs; apply orb_prop in H as [H|H]; apply andb_prop in H as [H1 H2].
  - eauto.
  - unfold minus_errno in H1; apply andb_prop in H1 as [H1 _].
    apply Z.ltb_lt in H1; lia.
Qed.
