(* ===== verification/LibnfsApi.v ===== *)
(** * libnfs.h

    The public interface of libnfs that NFSKit calls, transcribed from
    nfsc/libnfs.h: the structures the Swift code reads, and one declaration with
    its documented contract per function. *)

From stdpp Require Import base list strings numbers.
From S2P Require Import Prelude Posix CType.

Open Scope string_scope.
Open Scope Z_scope.

Module Api.

(** Pointers that are opaque to the caller, and C strings. *)
Abbreviation ptr := Z (only parsing).
Abbreviation cstring := (option string) (only parsing).

Definition NFS_BLKSIZE : Z := 4096.

Record timeval := mk_timeval { tv_sec : Z; tv_usec : Z }.

Record nfs_url := mk_nfs_url {
  server : cstring; path : cstring; file : cstring
}.

Record nfs_stat_64 := mk_nfs_stat_64 {
  nfs_dev : Z; nfs_ino : Z; nfs_mode : Z; nfs_nlink : Z; nfs_uid : Z; nfs_gid : Z;
   nfs_rdev : Z; nfs_size : Z; nfs_blksize : Z; nfs_blocks : Z; nfs_atime : Z;
   nfs_mtime : Z; nfs_ctime : Z; nfs_atime_nsec : Z; nfs_mtime_nsec : Z;
   nfs_ctime_nsec : Z; nfs_used : Z
}.

Record nfs4_flock := mk_nfs4_flock {
  l_type : Z; l_whence : Z; l_pid : Z; l_start : Z; l_len : Z
}.

Record nfsdirent := mk_nfsdirent {
  next : ptr; name : cstring; inode : Z; type : Z; mode : Z; size : Z;
   atime : timeval; mtime : timeval; ctime : timeval; uid : Z; gid : Z; nlink : Z;
   dev : Z; rdev : Z; blksize : Z; blocks : Z; used : Z; atime_nsec : Z;
   mtime_nsec : Z; ctime_nsec : Z
}.

Record nfs_statvfs_64 := mk_nfs_statvfs_64 {
  f_bsize : Z; f_frsize : Z; f_blocks : Z; f_bfree : Z; f_bavail : Z; f_files : Z;
   f_ffree : Z; f_favail : Z; f_fsid : Z; f_flag : Z; f_namemax : Z
}.

Inductive rpc_sec := RPC_SEC_UNDEFINED | RPC_SEC_KRB5 | RPC_SEC_KRB5I | RPC_SEC_KRB5P.

Definition rpc_sec_value (x : rpc_sec) : Z :=
  match x with
  | RPC_SEC_UNDEFINED => 0
  | RPC_SEC_KRB5 => 1
  | RPC_SEC_KRB5I => 2
  | RPC_SEC_KRB5P => 3
  end.

Inductive rpc_xprtsec := RPC_XPRTSEC_UNDEFINED | RPC_XPRTSEC_NONE | RPC_XPRTSEC_TLS | RPC_XPRTSEC_MTLS.

Definition rpc_xprtsec_value (x : rpc_xprtsec) : Z :=
  match x with
  | RPC_XPRTSEC_UNDEFINED => 0
  | RPC_XPRTSEC_NONE => 1
  | RPC_XPRTSEC_TLS => 2
  | RPC_XPRTSEC_MTLS => 3
  end.

Inductive nfs4_lock_op := NFS4_F_LOCK | NFS4_F_TLOCK | NFS4_F_ULOCK | NFS4_F_TEST.

Definition nfs4_lock_op_value (x : nfs4_lock_op) : Z :=
  match x with
  | NFS4_F_LOCK => 0
  | NFS4_F_TLOCK => 1
  | NFS4_F_ULOCK => 2
  | NFS4_F_TEST => 3
  end.

Inductive nfs4_fcntl_op := NFS4_F_SETLK | NFS4_F_SETLKW.

Definition nfs4_fcntl_op_value (x : nfs4_fcntl_op) : Z :=
  match x with
  | NFS4_F_SETLK => 0
  | NFS4_F_SETLKW => 1
  end.

(** ** Functions *)

Definition nfs_get_fd : api_fn :=
  mkApi "nfs_get_fd" Tint
    [("nfs", Tptr (Tstruct "nfs_context"))]
    DocPlain.

Definition nfs_which_events : api_fn :=
  mkApi "nfs_which_events" Tint
    [("nfs", Tptr (Tstruct "nfs_context"))]
    DocPlain.

Definition nfs_service : api_fn :=
  mkApi "nfs_service" Tint
    [("nfs", Tptr (Tstruct "nfs_context")); ("revents", Tint)]
    (DocMinusOne StatusZero).

Definition nfs_queue_length : api_fn :=
  mkApi "nfs_queue_length" Tint
    [("nfs", Tptr (Tstruct "nfs_context"))]
    DocPlain.

Definition nfs_set_auth : api_fn :=
  mkApi "nfs_set_auth" Tvoid
    [("nfs", Tptr (Tstruct "nfs_context")); ("auth", Tptr (Tstruct "AUTH"))]
    DocPlain.

Definition nfs_set_security : api_fn :=
  mkApi "nfs_set_security" Tvoid
    [("nfs", Tptr (Tstruct "nfs_context")); ("sec", Tenum "rpc_sec")]
    DocPlain.

Definition nfs_set_xprtsecurity : api_fn :=
  mkApi "nfs_set_xprtsecurity" Tvoid
    [("nfs", Tptr (Tstruct "nfs_context")); ("xprtsec", Tenum "rpc_xprtsec")]
    DocPlain.

Definition nfs_set_interface : api_fn :=
  mkApi "nfs_set_interface" Tvoid
    [("nfs", Tptr (Tstruct "nfs_context")); ("ifname", Tptr (Tconst Tchar))]
    DocPlain.

Definition nfs_get_error : api_fn :=
  mkApi "nfs_get_error" (Tptr Tchar)
    [("nfs", Tptr (Tstruct "nfs_context"))]
    DocPlain.

Definition nfs_init_context : api_fn :=
  mkApi "nfs_init_context" (Tptr (Tstruct "nfs_context"))
    []
    DocNullable.

Definition nfs_destroy_context : api_fn :=
  mkApi "nfs_destroy_context" Tvoid
    [("nfs", Tptr (Tstruct "nfs_context"))]
    DocPlain.

Definition nfs_set_hash_size : api_fn :=
  mkApi "nfs_set_hash_size" Tint
    [("nfs", Tptr (Tstruct "nfs_context")); ("hashes", Tint)]
    DocPlain.

Definition nfs_parse_url_full : api_fn :=
  mkApi "nfs_parse_url_full" (Tptr (Tstruct "nfs_url"))
    [("nfs", Tptr (Tstruct "nfs_context")); ("url", Tptr (Tconst Tchar))]
    DocPlain.

Definition nfs_parse_url_dir : api_fn :=
  mkApi "nfs_parse_url_dir" (Tptr (Tstruct "nfs_url"))
    [("nfs", Tptr (Tstruct "nfs_context")); ("url", Tptr (Tconst Tchar))]
    DocPlain.

Definition nfs_parse_url_incomplete : api_fn :=
  mkApi "nfs_parse_url_incomplete" (Tptr (Tstruct "nfs_url"))
    [("nfs", Tptr (Tstruct "nfs_context")); ("url", Tptr (Tconst Tchar))]
    DocPlain.

Definition nfs_destroy_url : api_fn :=
  mkApi "nfs_destroy_url" Tvoid
    [("url", Tptr (Tstruct "nfs_url"))]
    DocPlain.

Definition nfs_get_server_address : api_fn :=
  mkApi "nfs_get_server_address" (Tptr (Tconst (Tstruct "sockaddr_storage")))
    [("nfs", Tptr (Tstruct "nfs_context"))]
    DocPlain.

Definition nfs_get_readmax : api_fn :=
  mkApi "nfs_get_readmax" Tsize
    [("nfs", Tptr (Tstruct "nfs_context"))]
    DocPlain.

Definition nfs_get_writemax : api_fn :=
  mkApi "nfs_get_writemax" Tsize
    [("nfs", Tptr (Tstruct "nfs_context"))]
    DocPlain.

Definition nfs_set_readmax : api_fn :=
  mkApi "nfs_set_readmax" Tvoid
    [("nfs", Tptr (Tstruct "nfs_context")); ("readmax", Tsize)]
    DocPlain.

Definition nfs_set_writemax : api_fn :=
  mkApi "nfs_set_writemax" Tvoid
    [("nfs", Tptr (Tstruct "nfs_context")); ("writemax", Tsize)]
    DocPlain.

Definition nfs_set_tcp_syncnt : api_fn :=
  mkApi "nfs_set_tcp_syncnt" Tvoid
    [("nfs", Tptr (Tstruct "nfs_context")); ("v", Tint)]
    DocPlain.

Definition nfs_set_uid : api_fn :=
  mkApi "nfs_set_uid" Tvoid
    [("nfs", Tptr (Tstruct "nfs_context")); ("uid", Tint)]
    DocPlain.

Definition nfs_set_gid : api_fn :=
  mkApi "nfs_set_gid" Tvoid
    [("nfs", Tptr (Tstruct "nfs_context")); ("gid", Tint)]
    DocPlain.

Definition nfs_set_auxiliary_gids : api_fn :=
  mkApi "nfs_set_auxiliary_gids" Tvoid
    [("nfs", Tptr (Tstruct "nfs_context")); ("len", Tuint32);
   ("gids", Tptr Tuint32)]
    DocPlain.

Definition nfs_set_debug : api_fn :=
  mkApi "nfs_set_debug" Tvoid
    [("nfs", Tptr (Tstruct "nfs_context")); ("level", Tint)]
    DocPlain.

Definition nfs_set_auto_traverse_mounts : api_fn :=
  mkApi "nfs_set_auto_traverse_mounts" Tvoid
    [("nfs", Tptr (Tstruct "nfs_context")); ("enabled", Tint)]
    DocPlain.

Definition nfs_set_dircache : api_fn :=
  mkApi "nfs_set_dircache" Tvoid
    [("nfs", Tptr (Tstruct "nfs_context")); ("enabled", Tint)]
    DocPlain.

Definition nfs_set_autoreconnect : api_fn :=
  mkApi "nfs_set_autoreconnect" Tvoid
    [("nfs", Tptr (Tstruct "nfs_context")); ("num_retries", Tint)]
    DocPlain.

Definition nfs_set_retrans : api_fn :=
  mkApi "nfs_set_retrans" Tvoid
    [("nfs", Tptr (Tstruct "nfs_context")); ("retrans", Tint)]
    DocPlain.

Definition nfs_set_nfsport : api_fn :=
  mkApi "nfs_set_nfsport" Tvoid
    [("nfs", Tptr (Tstruct "nfs_context")); ("port", Tint)]
    DocPlain.

Definition nfs_set_mountport : api_fn :=
  mkApi "nfs_set_mountport" Tvoid
    [("nfs", Tptr (Tstruct "nfs_context")); ("port", Tint)]
    DocPlain.

Definition nfs_get_readdir_maxcount : api_fn :=
  mkApi "nfs_get_readdir_maxcount" Tsize
    [("nfs", Tptr (Tstruct "nfs_context"))]
    DocPlain.

Definition nfs_set_readdir_max_buffer_size : api_fn :=
  mkApi "nfs_set_readdir_max_buffer_size" Tvoid
    [("nfs", Tptr (Tstruct "nfs_context")); ("dircount", Tuint32);
   ("maxcount", Tuint32)]
    DocPlain.

Definition nfs_set_version : api_fn :=
  mkApi "nfs_set_version" Tint
    [("nfs", Tptr (Tstruct "nfs_context")); ("version", Tint)]
    DocPlain.

Definition nfs_get_version : api_fn :=
  mkApi "nfs_get_version" Tint
    [("nfs", Tptr (Tstruct "nfs_context"))]
    DocPlain.

Definition nfs_mount_async : api_fn :=
  mkApi "nfs_mount_async" Tint
    [("nfs", Tptr (Tstruct "nfs_context")); ("server", Tptr (Tconst Tchar));
   ("exportname", Tptr (Tconst Tchar)); ("cb", Ttypedef "nfs_cb");
   ("private_data", Tptr Tvoid)]
    (DocAsync StatusZero Null).

Definition nfs_mount : api_fn :=
  mkApi "nfs_mount" Tint
    [("nfs", Tptr (Tstruct "nfs_context")); ("server", Tptr (Tconst Tchar));
   ("exportname", Tptr (Tconst Tchar))]
    (DocSync StatusZero).

Definition nfs_umount_async : api_fn :=
  mkApi "nfs_umount_async" Tint
    [("nfs", Tptr (Tstruct "nfs_context")); ("cb", Ttypedef "nfs_cb");
   ("private_data", Tptr Tvoid)]
    (DocAsync StatusZero Null).

Definition nfs_umount : api_fn :=
  mkApi "nfs_umount" Tint
    [("nfs", Tptr (Tstruct "nfs_context"))]
    (DocSync StatusZero).

Definition nfs_stat_async : api_fn :=
  mkApi "nfs_stat_async" Tint
    [("nfs", Tptr (Tstruct "nfs_context")); ("path", Tptr (Tconst Tchar));
   ("cb", Ttypedef "nfs_cb"); ("private_data", Tptr Tvoid)]
    (DocAsync StatusZero (Points (Tstruct "stat"))).

Definition nfs_stat : api_fn :=
  mkApi "nfs_stat" Tint
    [("nfs", Tptr (Tstruct "nfs_context")); ("path", Tptr (Tconst Tchar));
   ("st", Tptr (Tstruct "stat"))]
    (DocSync StatusZero).

Definition nfs_stat64_async : api_fn :=
  mkApi "nfs_stat64_async" Tint
    [("nfs", Tptr (Tstruct "nfs_context")); ("path", Tptr (Tconst Tchar));
   ("cb", Ttypedef "nfs_cb"); ("private_data", Tptr Tvoid)]
    (DocAsync StatusZero (Points (Tstruct "nfs_stat_64"))).

Definition nfs_stat64 : api_fn :=
  mkApi "nfs_stat64" Tint
    [("nfs", Tptr (Tstruct "nfs_context")); ("path", Tptr (Tconst Tchar));
   ("st", Tptr (Tstruct "nfs_stat_64"))]
    (DocSync StatusZero).

Definition nfs_lstat64_async : api_fn :=
  mkApi "nfs_lstat64_async" Tint
    [("nfs", Tptr (Tstruct "nfs_context")); ("path", Tptr (Tconst Tchar));
   ("cb", Ttypedef "nfs_cb"); ("private_data", Tptr Tvoid)]
    (DocAsync StatusZero (Points (Tstruct "nfs_stat_64"))).

Definition nfs_lstat64 : api_fn :=
  mkApi "nfs_lstat64" Tint
    [("nfs", Tptr (Tstruct "nfs_context")); ("path", Tptr (Tconst Tchar));
   ("st", Tptr (Tstruct "nfs_stat_64"))]
    (DocSync StatusZero).

Definition nfs_fstat_async : api_fn :=
  mkApi "nfs_fstat_async" Tint
    [("nfs", Tptr (Tstruct "nfs_context")); ("nfsfh", Tptr (Tstruct "nfsfh"));
   ("cb", Ttypedef "nfs_cb"); ("private_data", Tptr Tvoid)]
    (DocAsync StatusZero (Points (Tstruct "stat"))).

Definition nfs_fstat : api_fn :=
  mkApi "nfs_fstat" Tint
    [("nfs", Tptr (Tstruct "nfs_context")); ("nfsfh", Tptr (Tstruct "nfsfh"));
   ("st", Tptr (Tstruct "stat"))]
    (DocSync StatusZero).

Definition nfs_fstat64_async : api_fn :=
  mkApi "nfs_fstat64_async" Tint
    [("nfs", Tptr (Tstruct "nfs_context")); ("nfsfh", Tptr (Tstruct "nfsfh"));
   ("cb", Ttypedef "nfs_cb"); ("private_data", Tptr Tvoid)]
    (DocAsync StatusZero (Points (Tstruct "stat"))).

Definition nfs_fstat64 : api_fn :=
  mkApi "nfs_fstat64" Tint
    [("nfs", Tptr (Tstruct "nfs_context")); ("nfsfh", Tptr (Tstruct "nfsfh"));
   ("st", Tptr (Tstruct "nfs_stat_64"))]
    (DocSync StatusZero).

Definition nfs_umask : api_fn :=
  mkApi "nfs_umask" Tuint16
    [("nfs", Tptr (Tstruct "nfs_context")); ("mask", Tuint16)]
    DocPlain.

Definition nfs_open_async : api_fn :=
  mkApi "nfs_open_async" Tint
    [("nfs", Tptr (Tstruct "nfs_context")); ("path", Tptr (Tconst Tchar));
   ("flags", Tint); ("cb", Ttypedef "nfs_cb"); ("private_data", Tptr Tvoid)]
    (DocAsync StatusZero (Points (Tstruct "nfsfh"))).

Definition nfs_open2_async : api_fn :=
  mkApi "nfs_open2_async" Tint
    [("nfs", Tptr (Tstruct "nfs_context")); ("path", Tptr (Tconst Tchar));
   ("flags", Tint); ("mode", Tint); ("cb", Ttypedef "nfs_cb");
   ("private_data", Tptr Tvoid)]
    (DocAsync StatusZero (Points (Tstruct "nfsfh"))).

Definition nfs_open : api_fn :=
  mkApi "nfs_open" Tint
    [("nfs", Tptr (Tstruct "nfs_context")); ("path", Tptr (Tconst Tchar));
   ("flags", Tint); ("nfsfh", Tptr (Tptr (Tstruct "nfsfh")))]
    (DocSync StatusZero).

Definition nfs_open2 : api_fn :=
  mkApi "nfs_open2" Tint
    [("nfs", Tptr (Tstruct "nfs_context")); ("path", Tptr (Tconst Tchar));
   ("flags", Tint); ("mode", Tint); ("nfsfh", Tptr (Tptr (Tstruct "nfsfh")))]
    (DocSync StatusZero).

Definition nfs_close_async : api_fn :=
  mkApi "nfs_close_async" Tint
    [("nfs", Tptr (Tstruct "nfs_context")); ("nfsfh", Tptr (Tstruct "nfsfh"));
   ("cb", Ttypedef "nfs_cb"); ("private_data", Tptr Tvoid)]
    (DocAsync StatusZero Null).

Definition nfs_close : api_fn :=
  mkApi "nfs_close" Tint
    [("nfs", Tptr (Tstruct "nfs_context")); ("nfsfh", Tptr (Tstruct "nfsfh"))]
    (DocSync StatusZero).

Definition nfs_pread_async : api_fn :=
  mkApi "nfs_pread_async" Tint
    [("nfs", Tptr (Tstruct "nfs_context")); ("nfsfh", Tptr (Tstruct "nfsfh"));
   ("buf", Tptr Tvoid); ("count", Tsize); ("offset", Tuint64);
   ("cb", Ttypedef "nfs_cb"); ("private_data", Tptr Tvoid)]
    (DocAsync StatusNonNeg Unspecified).

Definition nfs_pread : api_fn :=
  mkApi "nfs_pread" Tint
    [("nfs", Tptr (Tstruct "nfs_context")); ("nfsfh", Tptr (Tstruct "nfsfh"));
   ("buf", Tptr Tvoid); ("count", Tsize); ("offset", Tuint64)]
    (DocSync StatusNonNeg).

Definition nfs_read_async : api_fn :=
  mkApi "nfs_read_async" Tint
    [("nfs", Tptr (Tstruct "nfs_context")); ("nfsfh", Tptr (Tstruct "nfsfh"));
   ("buf", Tptr Tvoid); ("count", Tsize); ("cb", Ttypedef "nfs_cb");
   ("private_data", Tptr Tvoid)]
    (DocAsync StatusNonNeg Unspecified).

Definition nfs_read : api_fn :=
  mkApi "nfs_read" Tint
    [("nfs", Tptr (Tstruct "nfs_context")); ("nfsfh", Tptr (Tstruct "nfsfh"));
   ("buf", Tptr Tvoid); ("count", Tsize)]
    (DocSync StatusNonNeg).

Definition nfs_pwrite_async : api_fn :=
  mkApi "nfs_pwrite_async" Tint
    [("nfs", Tptr (Tstruct "nfs_context")); ("nfsfh", Tptr (Tstruct "nfsfh"));
   ("buf", Tptr (Tconst Tvoid)); ("count", Tsize); ("offset", Tuint64);
   ("cb", Ttypedef "nfs_cb"); ("private_data", Tptr Tvoid)]
    (DocAsync StatusNonNeg Unspecified).

Definition nfs_pwrite : api_fn :=
  mkApi "nfs_pwrite" Tint
    [("nfs", Tptr (Tstruct "nfs_context")); ("nfsfh", Tptr (Tstruct "nfsfh"));
   ("buf", Tptr (Tconst Tvoid)); ("count", Tsize); ("offset", Tuint64)]
    (DocSync StatusNonNeg).

Definition nfs_write_async : api_fn :=
  mkApi "nfs_write_async" Tint
    [("nfs", Tptr (Tstruct "nfs_context")); ("nfsfh", Tptr (Tstruct "nfsfh"));
   ("buf", Tptr (Tconst Tvoid)); ("count", Tsize); ("cb", Ttypedef "nfs_cb");
   ("private_data", Tptr Tvoid)]
    (DocAsync StatusNonNeg Unspecified).

Definition nfs_write : api_fn :=
  mkApi "nfs_write" Tint
    [("nfs", Tptr (Tstruct "nfs_context")); ("nfsfh", Tptr (Tstruct "nfsfh"));
   ("buf", Tptr (Tconst Tvoid)); ("count", Tuint64)]
    (DocSync StatusNonNeg).

Definition nfs_lseek_async : api_fn :=
  mkApi "nfs_lseek_async" Tint
    [("nfs", Tptr (Tstruct "nfs_context")); ("nfsfh", Tptr (Tstruct "nfsfh"));
   ("offset", Tint64); ("whence", Tint); ("cb", Ttypedef "nfs_cb");
   ("private_data", Tptr Tvoid)]
    (DocAsync StatusNonNeg (Points Tuint64)).

Definition nfs_lseek : api_fn :=
  mkApi "nfs_lseek" Tint
    [("nfs", Tptr (Tstruct "nfs_context")); ("nfsfh", Tptr (Tstruct "nfsfh"));
   ("offset", Tint64); ("whence", Tint); ("current_offset", Tptr Tuint64)]
    (DocSync StatusNonNeg).

Definition nfs_lockf_async : api_fn :=
  mkApi "nfs_lockf_async" Tint
    [("nfs", Tptr (Tstruct "nfs_context")); ("nfsfh", Tptr (Tstruct "nfsfh"));
   ("op", Tenum "nfs4_lock_op"); ("count", Tuint64); ("cb", Ttypedef "nfs_cb");
   ("private_data", Tptr Tvoid)]
    (DocAsync StatusZero Unspecified).

Definition nfs_lockf : api_fn :=
  mkApi "nfs_lockf" Tint
    [("nfs", Tptr (Tstruct "nfs_context")); ("nfsfh", Tptr (Tstruct "nfsfh"));
   ("op", Tenum "nfs4_lock_op"); ("count", Tuint64)]
    (DocSync StatusZero).

Definition nfs_fcntl_async : api_fn :=
  mkApi "nfs_fcntl_async" Tint
    [("nfs", Tptr (Tstruct "nfs_context")); ("nfsfh", Tptr (Tstruct "nfsfh"));
   ("cmd", Tenum "nfs4_fcntl_op"); ("arg", Tptr Tvoid); ("cb", Ttypedef "nfs_cb");
   ("private_data", Tptr Tvoid)]
    (DocAsync StatusZero Unspecified).

Definition nfs_fcntl : api_fn :=
  mkApi "nfs_fcntl" Tint
    [("nfs", Tptr (Tstruct "nfs_context")); ("nfsfh", Tptr (Tstruct "nfsfh"));
   ("cmd", Tenum "nfs4_fcntl_op"); ("arg", Tptr Tvoid)]
    (DocSync StatusZero).

Definition nfs_fsync_async : api_fn :=
  mkApi "nfs_fsync_async" Tint
    [("nfs", Tptr (Tstruct "nfs_context")); ("nfsfh", Tptr (Tstruct "nfsfh"));
   ("cb", Ttypedef "nfs_cb"); ("private_data", Tptr Tvoid)]
    (DocAsync StatusZero Unspecified).

Definition nfs_fsync : api_fn :=
  mkApi "nfs_fsync" Tint
    [("nfs", Tptr (Tstruct "nfs_context")); ("nfsfh", Tptr (Tstruct "nfsfh"))]
    (DocSync StatusZero).

Definition nfs_truncate_async : api_fn :=
  mkApi "nfs_truncate_async" Tint
    [("nfs", Tptr (Tstruct "nfs_context")); ("path", Tptr (Tconst Tchar));
   ("length", Tuint64); ("cb", Ttypedef "nfs_cb"); ("private_data", Tptr Tvoid)]
    (DocAsync StatusZero Unspecified).

Definition nfs_truncate : api_fn :=
  mkApi "nfs_truncate" Tint
    [("nfs", Tptr (Tstruct "nfs_context")); ("path", Tptr (Tconst Tchar));
   ("length", Tuint64)]
    (DocSync StatusZero).

Definition nfs_ftruncate_async : api_fn :=
  mkApi "nfs_ftruncate_async" Tint
    [("nfs", Tptr (Tstruct "nfs_context")); ("nfsfh", Tptr (Tstruct "nfsfh"));
   ("length", Tuint64); ("cb", Ttypedef "nfs_cb"); ("private_data", Tptr Tvoid)]
    (DocAsync StatusZero Unspecified).

Definition nfs_ftruncate : api_fn :=
  mkApi "nfs_ftruncate" Tint
    [("nfs", Tptr (Tstruct "nfs_context")); ("nfsfh", Tptr (Tstruct "nfsfh"));
   ("length", Tuint64)]
    (DocSync StatusZero).

Definition nfs_mkdir_async : api_fn :=
  mkApi "nfs_mkdir_async" Tint
    [("nfs", Tptr (Tstruct "nfs_context")); ("path", Tptr (Tconst Tchar));
   ("cb", Ttypedef "nfs_cb"); ("private_data", Tptr Tvoid)]
    (DocAsync StatusZero Unspecified).

Definition nfs_mkdir : api_fn :=
  mkApi "nfs_mkdir" Tint
    [("nfs", Tptr (Tstruct "nfs_context")); ("path", Tptr (Tconst Tchar))]
    (DocSync StatusZero).

Definition nfs_mkdir2_async : api_fn :=
  mkApi "nfs_mkdir2_async" Tint
    [("nfs", Tptr (Tstruct "nfs_context")); ("path", Tptr (Tconst Tchar));
   ("mode", Tint); ("cb", Ttypedef "nfs_cb"); ("private_data", Tptr Tvoid)]
    (DocAsync StatusZero Unspecified).

Definition nfs_mkdir2 : api_fn :=
  mkApi "nfs_mkdir2" Tint
    [("nfs", Tptr (Tstruct "nfs_context")); ("path", Tptr (Tconst Tchar));
   ("mode", Tint)]
    (DocSync StatusZero).

Definition nfs_rmdir_async : api_fn :=
  mkApi "nfs_rmdir_async" Tint
    [("nfs", Tptr (Tstruct "nfs_context")); ("path", Tptr (Tconst Tchar));
   ("cb", Ttypedef "nfs_cb"); ("private_data", Tptr Tvoid)]
    (DocAsync StatusZero Unspecified).

Definition nfs_rmdir : api_fn :=
  mkApi "nfs_rmdir" Tint
    [("nfs", Tptr (Tstruct "nfs_context")); ("path", Tptr (Tconst Tchar))]
    (DocSync StatusZero).

Definition nfs_creat_async : api_fn :=
  mkApi "nfs_creat_async" Tint
    [("nfs", Tptr (Tstruct "nfs_context")); ("path", Tptr (Tconst Tchar));
   ("mode", Tint); ("cb", Ttypedef "nfs_cb"); ("private_data", Tptr Tvoid)]
    (DocAsync StatusZero (Points (Tstruct "nfsfh"))).

Definition nfs_creat : api_fn :=
  mkApi "nfs_creat" Tint
    [("nfs", Tptr (Tstruct "nfs_context")); ("path", Tptr (Tconst Tchar));
   ("mode", Tint); ("nfsfh", Tptr (Tptr (Tstruct "nfsfh")))]
    (DocSync StatusZero).

Definition nfs_mknod_async : api_fn :=
  mkApi "nfs_mknod_async" Tint
    [("nfs", Tptr (Tstruct "nfs_context")); ("path", Tptr (Tconst Tchar));
   ("mode", Tint); ("dev", Tint); ("cb", Ttypedef "nfs_cb");
   ("private_data", Tptr Tvoid)]
    (DocAsync StatusZero Unspecified).

Definition nfs_mknod : api_fn :=
  mkApi "nfs_mknod" Tint
    [("nfs", Tptr (Tstruct "nfs_context")); ("path", Tptr (Tconst Tchar));
   ("mode", Tint); ("dev", Tint)]
    (DocSync StatusZero).

Definition nfs_unlink_async : api_fn :=
  mkApi "nfs_unlink_async" Tint
    [("nfs", Tptr (Tstruct "nfs_context")); ("path", Tptr (Tconst Tchar));
   ("cb", Ttypedef "nfs_cb"); ("private_data", Tptr Tvoid)]
    (DocAsync StatusZero Null).

Definition nfs_unlink : api_fn :=
  mkApi "nfs_unlink" Tint
    [("nfs", Tptr (Tstruct "nfs_context")); ("path", Tptr (Tconst Tchar))]
    (DocSync StatusZero).

Definition nfs_opendir_async : api_fn :=
  mkApi "nfs_opendir_async" Tint
    [("nfs", Tptr (Tstruct "nfs_context")); ("path", Tptr (Tconst Tchar));
   ("cb", Ttypedef "nfs_cb"); ("private_data", Tptr Tvoid)]
    (DocAsync StatusZero (Points (Tstruct "nfsdir"))).

Definition nfs_opendir : api_fn :=
  mkApi "nfs_opendir" Tint
    [("nfs", Tptr (Tstruct "nfs_context")); ("path", Tptr (Tconst Tchar));
   ("nfsdir", Tptr (Tptr (Tstruct "nfsdir")))]
    (DocSync StatusZero).

Definition nfs_readdir : api_fn :=
  mkApi "nfs_readdir" (Tptr (Tstruct "nfsdirent"))
    [("nfs", Tptr (Tstruct "nfs_context")); ("nfsdir", Tptr (Tstruct "nfsdir"))]
    DocPlain.

Definition nfs_seekdir : api_fn :=
  mkApi "nfs_seekdir" Tvoid
    [("nfs", Tptr (Tstruct "nfs_context")); ("nfsdir", Tptr (Tstruct "nfsdir"));
   ("loc", Tlong)]
    DocPlain.

Definition nfs_telldir : api_fn :=
  mkApi "nfs_telldir" Tlong
    [("nfs", Tptr (Tstruct "nfs_context")); ("nfsdir", Tptr (Tstruct "nfsdir"))]
    (DocMinusOne StatusNonNeg).

Definition nfs_rewinddir : api_fn :=
  mkApi "nfs_rewinddir" Tvoid
    [("nfs", Tptr (Tstruct "nfs_context")); ("nfsdir", Tptr (Tstruct "nfsdir"))]
    DocPlain.

Definition nfs_closedir : api_fn :=
  mkApi "nfs_closedir" Tvoid
    [("nfs", Tptr (Tstruct "nfs_context")); ("nfsdir", Tptr (Tstruct "nfsdir"))]
    DocPlain.

Definition nfs_chdir_async : api_fn :=
  mkApi "nfs_chdir_async" Tint
    [("nfs", Tptr (Tstruct "nfs_context")); ("path", Tptr (Tconst Tchar));
   ("cb", Ttypedef "nfs_cb"); ("private_data", Tptr Tvoid)]
    (DocAsync StatusZero Null).

Definition nfs_chdir : api_fn :=
  mkApi "nfs_chdir" Tint
    [("nfs", Tptr (Tstruct "nfs_context")); ("path", Tptr (Tconst Tchar))]
    (DocSync StatusZero).

Definition nfs_getcwd : api_fn :=
  mkApi "nfs_getcwd" Tvoid
    [("nfs", Tptr (Tstruct "nfs_context")); ("cwd", Tptr (Tptr (Tconst Tchar)))]
    (DocSync StatusZero).

Definition nfs_statvfs_async : api_fn :=
  mkApi "nfs_statvfs_async" Tint
    [("nfs", Tptr (Tstruct "nfs_context")); ("path", Tptr (Tconst Tchar));
   ("cb", Ttypedef "nfs_cb"); ("private_data", Tptr Tvoid)]
    (DocAsync StatusZero (Points (Tstruct "statvfs"))).

Definition nfs_statvfs : api_fn :=
  mkApi "nfs_statvfs" Tint
    [("nfs", Tptr (Tstruct "nfs_context")); ("path", Tptr (Tconst Tchar));
   ("svfs", Tptr (Tstruct "statvfs"))]
    (DocSync StatusZero).

Definition nfs_statvfs64_async : api_fn :=
  mkApi "nfs_statvfs64_async" Tint
    [("nfs", Tptr (Tstruct "nfs_context")); ("path", Tptr (Tconst Tchar));
   ("cb", Ttypedef "nfs_cb"); ("private_data", Tptr Tvoid)]
    (DocAsync StatusZero (Points (Tstruct "nfs_statvfs_64"))).

Definition nfs_statvfs64 : api_fn :=
  mkApi "nfs_statvfs64" Tint
    [("nfs", Tptr (Tstruct "nfs_context")); ("path", Tptr (Tconst Tchar));
   ("svfs", Tptr (Tstruct "nfs_statvfs_64"))]
    (DocSync StatusZero).

Definition nfs_readlink_async : api_fn :=
  mkApi "nfs_readlink_async" Tint
    [("nfs", Tptr (Tstruct "nfs_context")); ("path", Tptr (Tconst Tchar));
   ("cb", Ttypedef "nfs_cb"); ("private_data", Tptr Tvoid)]
    (DocAsync StatusZero (Points Tchar)).

Definition nfs_readlink : api_fn :=
  mkApi "nfs_readlink" Tint
    [("nfs", Tptr (Tstruct "nfs_context")); ("path", Tptr (Tconst Tchar));
   ("buf", Tptr Tchar); ("bufsize", Tint)]
    (DocSync StatusZero).

Definition nfs_readlink2 : api_fn :=
  mkApi "nfs_readlink2" Tint
    [("nfs", Tptr (Tstruct "nfs_context")); ("path", Tptr (Tconst Tchar));
   ("bufptr", Tptr (Tptr Tchar))]
    (DocSync StatusZero).

Definition nfs_chmod_async : api_fn :=
  mkApi "nfs_chmod_async" Tint
    [("nfs", Tptr (Tstruct "nfs_context")); ("path", Tptr (Tconst Tchar));
   ("mode", Tint); ("cb", Ttypedef "nfs_cb"); ("private_data", Tptr Tvoid)]
    (DocAsync StatusZero Null).

Definition nfs_chmod : api_fn :=
  mkApi "nfs_chmod" Tint
    [("nfs", Tptr (Tstruct "nfs_context")); ("path", Tptr (Tconst Tchar));
   ("mode", Tint)]
    (DocSync StatusZero).

Definition nfs_lchmod_async : api_fn :=
  mkApi "nfs_lchmod_async" Tint
    [("nfs", Tptr (Tstruct "nfs_context")); ("path", Tptr (Tconst Tchar));
   ("mode", Tint); ("cb", Ttypedef "nfs_cb"); ("private_data", Tptr Tvoid)]
    (DocAsync StatusZero Null).

Definition nfs_lchmod : api_fn :=
  mkApi "nfs_lchmod" Tint
    [("nfs", Tptr (Tstruct "nfs_context")); ("path", Tptr (Tconst Tchar));
   ("mode", Tint)]
    (DocSync StatusZero).

Definition nfs_fchmod_async : api_fn :=
  mkApi "nfs_fchmod_async" Tint
    [("nfs", Tptr (Tstruct "nfs_context")); ("nfsfh", Tptr (Tstruct "nfsfh"));
   ("mode", Tint); ("cb", Ttypedef "nfs_cb"); ("private_data", Tptr Tvoid)]
    (DocAsync StatusZero Null).

Definition nfs_fchmod : api_fn :=
  mkApi "nfs_fchmod" Tint
    [("nfs", Tptr (Tstruct "nfs_context")); ("nfsfh", Tptr (Tstruct "nfsfh"));
   ("mode", Tint)]
    (DocSync StatusZero).

Definition nfs_chown_async : api_fn :=
  mkApi "nfs_chown_async" Tint
    [("nfs", Tptr (Tstruct "nfs_context")); ("path", Tptr (Tconst Tchar));
   ("uid", Tint); ("gid", Tint); ("cb", Ttypedef "nfs_cb");
   ("private_data", Tptr Tvoid)]
    (DocAsync StatusZero Null).

Definition nfs_chown : api_fn :=
  mkApi "nfs_chown" Tint
    [("nfs", Tptr (Tstruct "nfs_context")); ("path", Tptr (Tconst Tchar));
   ("uid", Tint); ("gid", Tint)]
    (DocSync StatusZero).

Definition nfs_lchown_async : api_fn :=
  mkApi "nfs_lchown_async" Tint
    [("nfs", Tptr (Tstruct "nfs_context")); ("path", Tptr (Tconst Tchar));
   ("uid", Tint); ("gid", Tint); ("cb", Ttypedef "nfs_cb");
   ("private_data", Tptr Tvoid)]
    (DocAsync StatusZero Null).

Definition nfs_lchown : api_fn :=
  mkApi "nfs_lchown" Tint
    [("nfs", Tptr (Tstruct "nfs_context")); ("path", Tptr (Tconst Tchar));
   ("uid", Tint); ("gid", Tint)]
    (DocSync StatusZero).

Definition nfs_fchown_async : api_fn :=
  mkApi "nfs_fchown_async" Tint
    [("nfs", Tptr (Tstruct "nfs_context")); ("nfsfh", Tptr (Tstruct "nfsfh"));
   ("uid", Tint); ("gid", Tint); ("cb", Ttypedef "nfs_cb");
   ("private_data", Tptr Tvoid)]
    (DocAsync StatusZero Null).

Definition nfs_fchown : api_fn :=
  mkApi "nfs_fchown" Tint
    [("nfs", Tptr (Tstruct "nfs_context")); ("nfsfh", Tptr (Tstruct "nfsfh"));
   ("uid", Tint); ("gid", Tint)]
    (DocSync StatusZero).

Definition nfs_utimes_async : api_fn :=
  mkApi "nfs_utimes_async" Tint
    [("nfs", Tptr (Tstruct "nfs_context")); ("path", Tptr (Tconst Tchar));
   ("times", Tptr (Tstruct "timeval")); ("cb", Ttypedef "nfs_cb");
   ("private_data", Tptr Tvoid)]
    (DocAsync StatusZero Null).

Definition nfs_utimes : api_fn :=
  mkApi "nfs_utimes" Tint
    [("nfs", Tptr (Tstruct "nfs_context")); ("path", Tptr (Tconst Tchar));
   ("times", Tptr (Tstruct "timeval"))]
    (DocSync StatusZero).

Definition nfs_lutimes_async : api_fn :=
  mkApi "nfs_lutimes_async" Tint
    [("nfs", Tptr (Tstruct "nfs_context")); ("path", Tptr (Tconst Tchar));
   ("times", Tptr (Tstruct "timeval")); ("cb", Ttypedef "nfs_cb");
   ("private_data", Tptr Tvoid)]
    (DocAsync StatusZero Null).

Definition nfs_lutimes : api_fn :=
  mkApi "nfs_lutimes" Tint
    [("nfs", Tptr (Tstruct "nfs_context")); ("path", Tptr (Tconst Tchar));
   ("times", Tptr (Tstruct "timeval"))]
    (DocSync StatusZero).

Definition nfs_utime_async : api_fn :=
  mkApi "nfs_utime_async" Tint
    [("nfs", Tptr (Tstruct "nfs_context")); ("path", Tptr (Tconst Tchar));
   ("times", Tptr (Tstruct "utimbuf")); ("cb", Ttypedef "nfs_cb");
   ("private_data", Tptr Tvoid)]
    (DocAsync StatusZero Null).

Definition nfs_utime : api_fn :=
  mkApi "nfs_utime" Tint
    [("nfs", Tptr (Tstruct "nfs_context")); ("path", Tptr (Tconst Tchar));
   ("times", Tptr (Tstruct "utimbuf"))]
    (DocSync StatusZero).

Definition nfs_access_async : api_fn :=
  mkApi "nfs_access_async" Tint
    [("nfs", Tptr (Tstruct "nfs_context")); ("path", Tptr (Tconst Tchar));
   ("mode", Tint); ("cb", Ttypedef "nfs_cb"); ("private_data", Tptr Tvoid)]
    (DocAsync StatusZero Null).

Definition nfs_access : api_fn :=
  mkApi "nfs_access" Tint
    [("nfs", Tptr (Tstruct "nfs_context")); ("path", Tptr (Tconst Tchar));
   ("mode", Tint)]
    (DocSync StatusZero).

Definition nfs_access2_async : api_fn :=
  mkApi "nfs_access2_async" Tint
    [("nfs", Tptr (Tstruct "nfs_context")); ("path", Tptr (Tconst Tchar));
   ("cb", Ttypedef "nfs_cb"); ("private_data", Tptr Tvoid)]
    (DocAsync StatusNonNeg Null).

Definition nfs_access2 : api_fn :=
  mkApi "nfs_access2" Tint
    [("nfs", Tptr (Tstruct "nfs_context")); ("path", Tptr (Tconst Tchar))]
    (DocSync StatusNonNeg).

Definition nfs_symlink_async : api_fn :=
  mkApi "nfs_symlink_async" Tint
    [("nfs", Tptr (Tstruct "nfs_context")); ("target", Tptr (Tconst Tchar));
   ("linkname", Tptr (Tconst Tchar)); ("cb", Ttypedef "nfs_cb");
   ("private_data", Tptr Tvoid)]
    (DocAsync StatusZero Null).

Definition nfs_symlink : api_fn :=
  mkApi "nfs_symlink" Tint
    [("nfs", Tptr (Tstruct "nfs_context")); ("target", Tptr (Tconst Tchar));
   ("linkname", Tptr (Tconst Tchar))]
    (DocSync StatusZero).

Definition nfs_rename_async : api_fn :=
  mkApi "nfs_rename_async" Tint
    [("nfs", Tptr (Tstruct "nfs_context")); ("oldpath", Tptr (Tconst Tchar));
   ("newpath", Tptr (Tconst Tchar)); ("cb", Ttypedef "nfs_cb");
   ("private_data", Tptr Tvoid)]
    (DocAsync StatusZero Null).

Definition nfs_rename : api_fn :=
  mkApi "nfs_rename" Tint
    [("nfs", Tptr (Tstruct "nfs_context")); ("oldpath", Tptr (Tconst Tchar));
   ("newpath", Tptr (Tconst Tchar))]
    (DocSync StatusZero).

Definition nfs_link_async : api_fn :=
  mkApi "nfs_link_async" Tint
    [("nfs", Tptr (Tstruct "nfs_context")); ("oldpath", Tptr (Tconst Tchar));
   ("newpath", Tptr (Tconst Tchar)); ("cb", Ttypedef "nfs_cb");
   ("private_data", Tptr Tvoid)]
    (DocAsync StatusZero Null).

Definition nfs_link : api_fn :=
  mkApi "nfs_link" Tint
    [("nfs", Tptr (Tstruct "nfs_context")); ("oldpath", Tptr (Tconst Tchar));
   ("newpath", Tptr (Tconst Tchar))]
    (DocSync StatusZero).

Definition mount_getexports_async : api_fn :=
  mkApi "mount_getexports_async" Tint
    [("rpc", Tptr (Tstruct "rpc_context")); ("server", Tptr (Tconst Tchar));
   ("cb", Ttypedef "rpc_cb"); ("private_data", Tptr Tvoid)]
    (DocAsync StatusZero (Points (Ttypedef "exports"))).

Definition mount_getexports : api_fn :=
  mkApi "mount_getexports" (Tptr (Tstruct "exportnode"))
    [("server", Tptr (Tconst Tchar))]
    DocNullable.

Definition mount_getexports_timeout : api_fn :=
  mkApi "mount_getexports_timeout" (Tptr (Tstruct "exportnode"))
    [("server", Tptr (Tconst Tchar)); ("timeout", Tint)]
    DocNullable.

Definition mount_free_export_list : api_fn :=
  mkApi "mount_free_export_list" Tvoid
    [("exports", Tptr (Tstruct "exportnode"))]
    DocPlain.

Definition nfs_find_local_servers : api_fn :=
  mkApi "nfs_find_local_servers" (Tptr (Tstruct "nfs_server_list"))
    []
    DocNullable.

Definition free_nfs_srvr_list : api_fn :=
  mkApi "free_nfs_srvr_list" Tvoid
    [("srv", Tptr (Tstruct "nfs_server_list"))]
    DocNullable.

Definition nfs_set_poll_timeout : api_fn :=
  mkApi "nfs_set_poll_timeout" Tvoid
    [("nfs", Tptr (Tstruct "nfs_context")); ("milliseconds", Tint)]
    DocPlain.

Definition nfs_get_poll_timeout : api_fn :=
  mkApi "nfs_get_poll_timeout" Tint
    [("nfs", Tptr (Tstruct "nfs_context"))]
    DocPlain.

Definition nfs_set_timeout : api_fn :=
  mkApi "nfs_set_timeout" Tvoid
    [("nfs", Tptr (Tstruct "nfs_context")); ("milliseconds", Tint)]
    DocPlain.

Definition nfs_get_timeout : api_fn :=
  mkApi "nfs_get_timeout" Tint
    [("nfs", Tptr (Tstruct "nfs_context"))]
    DocPlain.

Definition nfs4_set_client_name : api_fn :=
  mkApi "nfs4_set_client_name" Tvoid
    [("nfs", Tptr (Tstruct "nfs_context")); ("id", Tptr (Tconst Tchar))]
    DocPlain.

Definition nfs4_set_verifier : api_fn :=
  mkApi "nfs4_set_verifier" Tvoid
    [("nfs", Tptr (Tstruct "nfs_context")); ("verifier", Tptr (Tconst Tchar))]
    DocPlain.

Definition nfs_mt_service_thread_start : api_fn :=
  mkApi "nfs_mt_service_thread_start" Tint
    [("nfs", Tptr (Tstruct "nfs_context"))]
    DocPlain.

Definition nfs_mt_service_thread_stop : api_fn :=
  mkApi "nfs_mt_service_thread_stop" Tvoid
    [("nfs", Tptr (Tstruct "nfs_context"))]
    DocPlain.

(** Every declaration, in the order of the header. *)
Definition libnfs_h : list api_fn :=
  [nfs_get_fd; nfs_which_events; nfs_service; nfs_queue_length; nfs_set_auth;
   nfs_set_security; nfs_set_xprtsecurity; nfs_set_interface; nfs_get_error;
   nfs_init_context; nfs_destroy_context; nfs_set_hash_size; nfs_parse_url_full;
   nfs_parse_url_dir; nfs_parse_url_incomplete; nfs_destroy_url;
   nfs_get_server_address; nfs_get_readmax; nfs_get_writemax; nfs_set_readmax;
   nfs_set_writemax; nfs_set_tcp_syncnt; nfs_set_uid; nfs_set_gid;
   nfs_set_auxiliary_gids; nfs_set_debug; nfs_set_auto_traverse_mounts;
   nfs_set_dircache; nfs_set_autoreconnect; nfs_set_retrans; nfs_set_nfsport;
   nfs_set_mountport; nfs_get_readdir_maxcount; nfs_set_readdir_max_buffer_size;
   nfs_set_version; nfs_get_version; nfs_mount_async; nfs_mount; nfs_umount_async;
   nfs_umount; nfs_stat_async; nfs_stat; nfs_stat64_async; nfs_stat64;
   nfs_lstat64_async; nfs_lstat64; nfs_fstat_async; nfs_fstat; nfs_fstat64_async;
   nfs_fstat64; nfs_umask; nfs_open_async; nfs_open2_async; nfs_open; nfs_open2;
   nfs_close_async; nfs_close; nfs_pread_async; nfs_pread; nfs_read_async; nfs_read;
   nfs_pwrite_async; nfs_pwrite; nfs_write_async; nfs_write; nfs_lseek_async;
   nfs_lseek; nfs_lockf_async; nfs_lockf; nfs_fcntl_async; nfs_fcntl;
   nfs_fsync_async; nfs_fsync; nfs_truncate_async; nfs_truncate; nfs_ftruncate_async;
   nfs_ftruncate; nfs_mkdir_async; nfs_mkdir; nfs_mkdir2_async; nfs_mkdir2;
   nfs_rmdir_async; nfs_rmdir; nfs_creat_async; nfs_creat; nfs_mknod_async;
   nfs_mknod; nfs_unlink_async; nfs_unlink; nfs_opendir_async; nfs_opendir;
   nfs_readdir; nfs_seekdir; nfs_telldir; nfs_rewinddir; nfs_closedir;
   nfs_chdir_async; nfs_chdir; nfs_getcwd; nfs_statvfs_async; nfs_statvfs;
   nfs_statvfs64_async; nfs_statvfs64; nfs_readlink_async; nfs_readlink;
   nfs_readlink2; nfs_chmod_async; nfs_chmod; nfs_lchmod_async; nfs_lchmod;
   nfs_fchmod_async; nfs_fchmod; nfs_chown_async; nfs_chown; nfs_lchown_async;
   nfs_lchown; nfs_fchown_async; nfs_fchown; nfs_utimes_async; nfs_utimes;
   nfs_lutimes_async; nfs_lutimes; nfs_utime_async; nfs_utime; nfs_access_async;
   nfs_access; nfs_access2_async; nfs_access2; nfs_symlink_async; nfs_symlink;
   nfs_rename_async; nfs_rename; nfs_link_async; nfs_link; mount_getexports_async;
   mount_getexports; mount_getexports_timeout; mount_free_export_list;
   nfs_find_local_servers; free_nfs_srvr_list; nfs_set_poll_timeout;
   nfs_get_poll_timeout; nfs_set_timeout; nfs_get_timeout; nfs4_set_client_name;
   nfs4_set_verifier; nfs_mt_service_thread_start; nfs_mt_service_thread_stop].
(** ** Reading the table *)

Definition lookup_fn (nm : string) : option api_fn :=
  List.find (fun f => bool_decide (fn_name f = nm)) libnfs_h.

(** The declaration that performs [f] and waits for it: [x] for [x_async]. *)
Definition sync_name (nm : string) : string :=
  String.substring 0 (String.length nm - 6) nm.

(** The extra parameters that a synchronous call fills in, for a payload. *)
Definition fills_payload (p : payload) (extra : list (string * ctype)) : bool :=
  match p, extra with
  | Unspecified, _ => true
  | Null, [] => true
  | Points t, [(_, t')] => bool_decide (t' = Tptr t) || bool_decide (t' = Tptr (Tptr t))
                           || bool_decide (t' = Tptr (Tptr (Tconst t)))
  | _, _ => false
  end.

(** [mirrors a s]: the synchronous call [s] takes the arguments of the
    asynchronous call [a], followed by what the callback would have received. *)
Definition mirrors (a s : api_fn) : bool :=
  match fn_doc a with
  | DocAsync ok p =>
      let args := map snd (call_params a) in
      let args' := map snd (fn_params s) in
      bool_decide (firstn (length args) args' = args) &&
      fills_payload p (skipn (length args) (fn_params s)) &&
      match fn_doc s with DocSync ok' => bool_decide (ok = ok') | _ => false end
  | _ => false
  end.

(** The asynchronous declarations whose synchronous counterpart is missing or
    does not mirror them. *)
Definition unmirrored : list string :=
  map fn_name (List.filter (fun a =>
    is_async a && match lookup_fn (sync_name (fn_name a)) with
                  | Some s => negb (mirrors a s)
                  | None => true
                  end) libnfs_h).

Lemma filter_nil_forall {A} (p : A -> bool) (l : list A) :
  List.filter p l = [] -> forall x, In x l -> p x = false.
Proof.
  induction l as [|y l IH]; simpl; [tauto|]; destruct (p y) eqn:E; [discriminate|].
  intros H x [<-|Hx]; auto.
Qed.

Lemma lookup_fn_name nm f : lookup_fn nm = Some f -> fn_name f = nm /\ In f libnfs_h.
Proof.
  unfold lookup_fn; intros H; apply List.find_some in H as [Hin Hb].
  split; [exact (bool_decide_eq_true_1 _ Hb)|done].
Qed.

(** The calls of the header that promise a callback are exactly those whose
    last two parameters are a callback and the private pointer it is handed, so
    a callback is never promised to a caller that cannot name one. *)
Theorem async_takes_callback f :
  In f libnfs_h -> is_async f = takes_callback f.
Proof.
  intros H; apply xorb_eq.
  revert f H; apply (filter_nil_forall (fun f => xorb (is_async f) (takes_callback f))).
  vm_compute; reflexivity.
Qed.

Example async_takes_callback_witness :
  In nfs_pread_async libnfs_h /\ is_async nfs_pread_async = takes_callback nfs_pread_async.
Proof.
  assert (H : In nfs_pread_async libnfs_h)
    by (apply (List.find_some (fun f => bool_decide (fn_name f = "nfs_pread_async")) libnfs_h);
        vm_compute; reflexivity).
  split; [exact H | exact (async_takes_callback _ H)].
Defined.

(** The asynchronous calls that differ from their synchronous twin: fstat64's
    comment still says [struct stat *]; write's count is [uint64_t] in one and
    [size_t] in the other; readlink and getexports return their result another
    way. *)
Definition mirror_exceptions : list string :=
  ["nfs_fstat64_async"; "nfs_write_async"; "nfs_readlink_async"; "mount_getexports_async"].

(** Apart from four listed exceptions, every asynchronous call has a
    synchronous twin with the same arguments, the same success statuses, and
    one out parameter exactly when the callback receives a pointer, of that
    pointer's type. *)
Theorem async_sync_mirror f :
  In f libnfs_h -> is_async f = true -> ~ In (fn_name f) mirror_exceptions ->
  exists s, In s libnfs_h /\ fn_name s = sync_name (fn_name f) /\ mirrors f s = true.
Proof.
  intros Hin Ha Hx.
  assert (Hu : ~ In (fn_name f) unmirrored)
    by (replace unmirrored with mirror_exceptions by (vm_compute; reflexivity); done).
  destruct (lookup_fn (sync_name (fn_name f))) as [s|] eqn:Es; [destruct (mirrors f s) eqn:Em|].
  - apply lookup_fn_name in Es as [Hn Hs]; eauto.
  - destruct Hu; apply in_map, filter_In; rewrite Es, Em, Ha; auto.
  - destruct Hu; apply in_map, filter_In; rewrite Es, Ha; auto.
Qed.

Example async_sync_mirror_witness :
  exists s, In s libnfs_h /\ fn_name s = "nfs_open" /\ mirrors nfs_open_async s = true.
Proof.
  apply (async_sync_mirror nfs_open_async).
  - apply (List.find_some (fun f => bool_decide (fn_name f = "nfs_open_async")) libnfs_h).
    vm_compute; reflexivity.
  - reflexivity.
  - simpl; intuition discriminate.
Defined.

End Api.
