(* ===== verification/RpcProcs.v ===== *)
(** * The remote procedures

    The procedures that the rpcgen headers (nfsc/libnfs-raw-portmap.h, -mount.h,
    -nfs.h, -nlm.h, -nsm.h, -rquota.h, -nfs4.h) declare: for each, its program and
    version, its number (the macro and its value), and the argument and result types of its client stub,
    which are those of its server stub. *)

From stdpp Require Import base list strings numbers.
From S2P Require Import Prelude CType.

Open Scope string_scope.
Open Scope Z_scope.

Module Procs.

Record rpc_proc := mkProc {
  rp_macro : string;
  rp_stub : string;
  rp_program : Z;
  rp_version : Z;
  rp_number : Z;
  rp_args : payload;
  rp_result : payload
}.


Definition PMAP_PROGRAM : Z := 100000.

Definition PMAP_V2 : Z := 2.

Definition PMAP2_NULL : rpc_proc :=
  mkProc "PMAP2_NULL" "pmap2_null_2" PMAP_PROGRAM PMAP_V2 0 Null Null.

Definition PMAP2_SET : rpc_proc :=
  mkProc "PMAP2_SET" "pmap2_set_2" PMAP_PROGRAM PMAP_V2 1 (Points (Ttypedef
     "PMAP2SETargs")) (Points Tuint32).

Definition PMAP2_UNSET : rpc_proc :=
  mkProc "PMAP2_UNSET" "pmap2_unset_2" PMAP_PROGRAM PMAP_V2 2 (Points (Ttypedef
     "PMAP2UNSETargs")) (Points Tuint32).

Definition PMAP2_GETPORT : rpc_proc :=
  mkProc "PMAP2_GETPORT" "pmap2_getport_2" PMAP_PROGRAM PMAP_V2 3 (Points (Ttypedef
     "PMAP2GETPORTargs")) (Points Tuint32).

Definition PMAP2_DUMP : rpc_proc :=
  mkProc "PMAP2_DUMP" "pmap2_dump_2" PMAP_PROGRAM PMAP_V2 4 Null (Points (Ttypedef
     "PMAP2DUMPres")).

Definition PMAP2_CALLIT : rpc_proc :=
  mkProc "PMAP2_CALLIT" "pmap2_callit_2" PMAP_PROGRAM PMAP_V2 5 (Points (Ttypedef
     "PMAP2CALLITargs")) (Points (Ttypedef "PMAP2CALLITres")).

Definition PMAP_V3 : Z := 3.

Definition PMAP3_NULL : rpc_proc :=
  mkProc "PMAP3_NULL" "pmap3_null_3" PMAP_PROGRAM PMAP_V3 0 Null Null.

Definition PMAP3_SET : rpc_proc :=
  mkProc "PMAP3_SET" "pmap3_set_3" PMAP_PROGRAM PMAP_V3 1 (Points (Ttypedef
     "PMAP3SETargs")) (Points Tuint32).

Definition PMAP3_UNSET : rpc_proc :=
  mkProc "PMAP3_UNSET" "pmap3_unset_3" PMAP_PROGRAM PMAP_V3 2 (Points (Ttypedef
     "PMAP3UNSETargs")) (Points Tuint32).

Definition PMAP3_GETADDR : rpc_proc :=
  mkProc "PMAP3_GETADDR" "pmap3_getaddr_3" PMAP_PROGRAM PMAP_V3 3 (Points (Ttypedef
     "PMAP3GETADDRargs")) (Points (Ttypedef "PMAP3GETADDRres")).

Definition PMAP3_DUMP : rpc_proc :=
  mkProc "PMAP3_DUMP" "pmap3_dump_3" PMAP_PROGRAM PMAP_V3 4 Null (Points (Ttypedef
     "PMAP3DUMPres")).

Definition PMAP3_CALLIT : rpc_proc :=
  mkProc "PMAP3_CALLIT" "pmap3_callit_3" PMAP_PROGRAM PMAP_V3 5 (Points (Ttypedef
     "PMAP3CALLITargs")) (Points (Ttypedef "PMAP3CALLITres")).

Definition PMAP3_GETTIME : rpc_proc :=
  mkProc "PMAP3_GETTIME" "pmap3_gettime_3" PMAP_PROGRAM PMAP_V3 6 Null (Points Tuint32).

Definition PMAP3_UADDR2TADDR : rpc_proc :=
  mkProc "PMAP3_UADDR2TADDR" "pmap3_uaddr2taddr_3" PMAP_PROGRAM PMAP_V3 7 (Points (Tptr
     (Tchar))) (Points (Ttypedef "PMAP3UADDR2TADDRres")).

Definition PMAP3_TADDR2UADDR : rpc_proc :=
  mkProc "PMAP3_TADDR2UADDR" "pmap3_taddr2uaddr_3" PMAP_PROGRAM PMAP_V3 8 (Points (Ttypedef
     "PMAP3TADDR2UADDRargs")) (Points (Ttypedef "PMAP3TADDR2UADDRres")).

Definition MOUNT_PROGRAM : Z := 100005.

Definition MOUNT_V1 : Z := 1.

Definition MOUNT1_NULL : rpc_proc :=
  mkProc "MOUNT1_NULL" "mount1_null_1" MOUNT_PROGRAM MOUNT_V1 0 Null Null.

Definition MOUNT1_MNT : rpc_proc :=
  mkProc "MOUNT1_MNT" "mount1_mnt_1" MOUNT_PROGRAM MOUNT_V1 1 (Points (Ttypedef "dirpath"))
     (Points (Ttypedef "mountres1")).

Definition MOUNT1_DUMP : rpc_proc :=
  mkProc "MOUNT1_DUMP" "mount1_dump_1" MOUNT_PROGRAM MOUNT_V1 2 Null (Points (Ttypedef
     "mountlist")).

Definition MOUNT1_UMNT : rpc_proc :=
  mkProc "MOUNT1_UMNT" "mount1_umnt_1" MOUNT_PROGRAM MOUNT_V1 3 (Points (Ttypedef
     "dirpath")) Null.

Definition MOUNT1_UMNTALL : rpc_proc :=
  mkProc "MOUNT1_UMNTALL" "mount1_umntall_1" MOUNT_PROGRAM MOUNT_V1 4 Null Null.

Definition MOUNT1_EXPORT : rpc_proc :=
  mkProc "MOUNT1_EXPORT" "mount1_export_1" MOUNT_PROGRAM MOUNT_V1 5 Null (Points
     (Ttypedef "exports")).

Definition MOUNT_V3 : Z := 3.

Definition MOUNT3_NULL : rpc_proc :=
  mkProc "MOUNT3_NULL" "mount3_null_3" MOUNT_PROGRAM MOUNT_V3 0 Null Null.

Definition MOUNT3_MNT : rpc_proc :=
  mkProc "MOUNT3_MNT" "mount3_mnt_3" MOUNT_PROGRAM MOUNT_V3 1 (Points (Ttypedef "dirpath"))
     (Points (Ttypedef "mountres3")).

Definition MOUNT3_DUMP : rpc_proc :=
  mkProc "MOUNT3_DUMP" "mount3_dump_3" MOUNT_PROGRAM MOUNT_V3 2 Null (Points (Ttypedef
     "mountlist")).

Definition MOUNT3_UMNT : rpc_proc :=
  mkProc "MOUNT3_UMNT" "mount3_umnt_3" MOUNT_PROGRAM MOUNT_V3 3 (Points (Ttypedef
     "dirpath")) Null.

Definition MOUNT3_UMNTALL : rpc_proc :=
  mkProc "MOUNT3_UMNTALL" "mount3_umntall_3" MOUNT_PROGRAM MOUNT_V3 4 Null Null.

Definition MOUNT3_EXPORT : rpc_proc :=
  mkProc "MOUNT3_EXPORT" "mount3_export_3" MOUNT_PROGRAM MOUNT_V3 5 Null (Points
     (Ttypedef "exports")).

Definition NFS_PROGRAM : Z := 100003.

Definition NFS_V2 : Z := 2.

Definition NFS2_NULL : rpc_proc :=
  mkProc "NFS2_NULL" "nfs2_null_2" NFS_PROGRAM NFS_V2 0 Null Null.

Definition NFS2_GETATTR : rpc_proc :=
  mkProc "NFS2_GETATTR" "nfs2_getattr_2" NFS_PROGRAM NFS_V2 1 (Points (Ttypedef
     "GETATTR2args")) (Points (Ttypedef "GETATTR2res")).

Definition NFS2_SETATTR : rpc_proc :=
  mkProc "NFS2_SETATTR" "nfs2_setattr_2" NFS_PROGRAM NFS_V2 2 (Points (Ttypedef
     "SETATTR2args")) (Points (Ttypedef "SETATTR2res")).

Definition NFS2_LOOKUP : rpc_proc :=
  mkProc "NFS2_LOOKUP" "nfs2_lookup_2" NFS_PROGRAM NFS_V2 4 (Points (Ttypedef
     "LOOKUP2args")) (Points (Ttypedef "LOOKUP2res")).

Definition NFS2_READLINK : rpc_proc :=
  mkProc "NFS2_READLINK" "nfs2_readlink_2" NFS_PROGRAM NFS_V2 5 (Points (Ttypedef
     "READLINK2args")) (Points (Ttypedef "READLINK2res")).

Definition NFS2_READ : rpc_proc :=
  mkProc "NFS2_READ" "nfs2_read_2" NFS_PROGRAM NFS_V2 6 (Points (Ttypedef "READ2args"))
     (Points (Ttypedef "READ2res")).

Definition NFS2_WRITE : rpc_proc :=
  mkProc "NFS2_WRITE" "nfs2_write_2" NFS_PROGRAM NFS_V2 8 (Points (Ttypedef "WRITE2args"))
     (Points (Ttypedef "WRITE2res")).

Definition NFS2_CREATE : rpc_proc :=
  mkProc "NFS2_CREATE" "nfs2_create_2" NFS_PROGRAM NFS_V2 9 (Points (Ttypedef
     "CREATE2args")) (Points (Ttypedef "CREATE2res")).

Definition NFS2_REMOVE : rpc_proc :=
  mkProc "NFS2_REMOVE" "nfs2_remove_2" NFS_PROGRAM NFS_V2 10 (Points (Ttypedef
     "REMOVE2args")) (Points (Ttypedef "REMOVE2res")).

Definition NFS2_RENAME : rpc_proc :=
  mkProc "NFS2_RENAME" "nfs2_rename_2" NFS_PROGRAM NFS_V2 11 (Points (Ttypedef
     "RENAME2args")) (Points (Ttypedef "RENAME2res")).

Definition NFS2_LINK : rpc_proc :=
  mkProc "NFS2_LINK" "nfs2_link_2" NFS_PROGRAM NFS_V2 12 (Points (Ttypedef "LINK2args"))
     (Points (Ttypedef "LINK2res")).

Definition NFS2_SYMLINK : rpc_proc :=
  mkProc "NFS2_SYMLINK" "nfs2_symlink_2" NFS_PROGRAM NFS_V2 13 (Points (Ttypedef
     "SYMLINK2args")) (Points (Ttypedef "SYMLINK2res")).

Definition NFS2_MKDIR : rpc_proc :=
  mkProc "NFS2_MKDIR" "nfs2_mkdir_2" NFS_PROGRAM NFS_V2 14 (Points (Ttypedef "MKDIR2args"))
     (Points (Ttypedef "MKDIR2res")).

Definition NFS2_RMDIR : rpc_proc :=
  mkProc "NFS2_RMDIR" "nfs2_rmdir_2" NFS_PROGRAM NFS_V2 15 (Points (Ttypedef "RMDIR2args"))
     (Points (Ttypedef "RMDIR2res")).

Definition NFS2_READDIR : rpc_proc :=
  mkProc "NFS2_READDIR" "nfs2_readdir_2" NFS_PROGRAM NFS_V2 16 (Points (Ttypedef
     "READDIR2args")) (Points (Ttypedef "READDIR2res")).

Definition NFS2_STATFS : rpc_proc :=
  mkProc "NFS2_STATFS" "nfs2_statfs_2" NFS_PROGRAM NFS_V2 17 (Points (Ttypedef
     "STATFS2args")) (Points (Ttypedef "STATFS2res")).

Definition NFS_V3 : Z := 3.

Definition NFS3_NULL : rpc_proc :=
  mkProc "NFS3_NULL" "nfs3_null_3" NFS_PROGRAM NFS_V3 0 Null Null.

Definition NFS3_GETATTR : rpc_proc :=
  mkProc "NFS3_GETATTR" "nfs3_getattr_3" NFS_PROGRAM NFS_V3 1 (Points (Ttypedef
     "GETATTR3args")) (Points (Ttypedef "GETATTR3res")).

Definition NFS3_SETATTR : rpc_proc :=
  mkProc "NFS3_SETATTR" "nfs3_setattr_3" NFS_PROGRAM NFS_V3 2 (Points (Ttypedef
     "SETATTR3args")) (Points (Ttypedef "SETATTR3res")).

Definition NFS3_LOOKUP : rpc_proc :=
  mkProc "NFS3_LOOKUP" "nfs3_lookup_3" NFS_PROGRAM NFS_V3 3 (Points (Ttypedef
     "LOOKUP3args")) (Points (Ttypedef "LOOKUP3res")).

Definition NFS3_ACCESS : rpc_proc :=
  mkProc "NFS3_ACCESS" "nfs3_access_3" NFS_PROGRAM NFS_V3 4 (Points (Ttypedef
     "ACCESS3args")) (Points (Ttypedef "ACCESS3res")).

Definition NFS3_READLINK : rpc_proc :=
  mkProc "NFS3_READLINK" "nfs3_readlink_3" NFS_PROGRAM NFS_V3 5 (Points (Ttypedef
     "READLINK3args")) (Points (Ttypedef "READLINK3res")).

Definition NFS3_READ : rpc_proc :=
  mkProc "NFS3_READ" "nfs3_read_3" NFS_PROGRAM NFS_V3 6 (Points (Ttypedef "READ3args"))
     (Points (Ttypedef "READ3res")).

Definition NFS3_WRITE : rpc_proc :=
  mkProc "NFS3_WRITE" "nfs3_write_3" NFS_PROGRAM NFS_V3 7 (Points (Ttypedef "WRITE3args"))
     (Points (Ttypedef "WRITE3res")).

Definition NFS3_CREATE : rpc_proc :=
  mkProc "NFS3_CREATE" "nfs3_create_3" NFS_PROGRAM NFS_V3 8 (Points (Ttypedef
     "CREATE3args")) (Points (Ttypedef "CREATE3res")).

Definition NFS3_MKDIR : rpc_proc :=
  mkProc "NFS3_MKDIR" "nfs3_mkdir_3" NFS_PROGRAM NFS_V3 9 (Points (Ttypedef "MKDIR3args"))
     (Points (Ttypedef "MKDIR3res")).

Definition NFS3_SYMLINK : rpc_proc :=
  mkProc "NFS3_SYMLINK" "nfs3_symlink_3" NFS_PROGRAM NFS_V3 10 (Points (Ttypedef
     "SYMLINK3args")) (Points (Ttypedef "SYMLINK3res")).

Definition NFS3_MKNOD : rpc_proc :=
  mkProc "NFS3_MKNOD" "nfs3_mknod_3" NFS_PROGRAM NFS_V3 11 (Points (Ttypedef "MKNOD3args"))
     (Points (Ttypedef "MKNOD3res")).

Definition NFS3_REMOVE : rpc_proc :=
  mkProc "NFS3_REMOVE" "nfs3_remove_3" NFS_PROGRAM NFS_V3 12 (Points (Ttypedef
     "REMOVE3args")) (Points (Ttypedef "REMOVE3res")).

Definition NFS3_RMDIR : rpc_proc :=
  mkProc "NFS3_RMDIR" "nfs3_rmdir_3" NFS_PROGRAM NFS_V3 13 (Points (Ttypedef "RMDIR3args"))
     (Points (Ttypedef "RMDIR3res")).

Definition NFS3_RENAME : rpc_proc :=
  mkProc "NFS3_RENAME" "nfs3_rename_3" NFS_PROGRAM NFS_V3 14 (Points (Ttypedef
     "RENAME3args")) (Points (Ttypedef "RENAME3res")).

Definition NFS3_LINK : rpc_proc :=
  mkProc "NFS3_LINK" "nfs3_link_3" NFS_PROGRAM NFS_V3 15 (Points (Ttypedef "LINK3args"))
     (Points (Ttypedef "LINK3res")).

Definition NFS3_READDIR : rpc_proc :=
  mkProc "NFS3_READDIR" "nfs3_readdir_3" NFS_PROGRAM NFS_V3 16 (Points (Ttypedef
     "READDIR3args")) (Points (Ttypedef "READDIR3res")).

Definition NFS3_READDIRPLUS : rpc_proc :=
  mkProc "NFS3_READDIRPLUS" "nfs3_readdirplus_3" NFS_PROGRAM NFS_V3 17 (Points (Ttypedef
     "READDIRPLUS3args")) (Points (Ttypedef "READDIRPLUS3res")).

Definition NFS3_FSSTAT : rpc_proc :=
  mkProc "NFS3_FSSTAT" "nfs3_fsstat_3" NFS_PROGRAM NFS_V3 18 (Points (Ttypedef
     "FSSTAT3args")) (Points (Ttypedef "FSSTAT3res")).

Definition NFS3_FSINFO : rpc_proc :=
  mkProc "NFS3_FSINFO" "nfs3_fsinfo_3" NFS_PROGRAM NFS_V3 19 (Points (Ttypedef
     "FSINFO3args")) (Points (Ttypedef "FSINFO3res")).

Definition NFS3_PATHCONF : rpc_proc :=
  mkProc "NFS3_PATHCONF" "nfs3_pathconf_3" NFS_PROGRAM NFS_V3 20 (Points (Ttypedef
     "PATHCONF3args")) (Points (Ttypedef "PATHCONF3res")).

Definition NFS3_COMMIT : rpc_proc :=
  mkProc "NFS3_COMMIT" "nfs3_commit_3" NFS_PROGRAM NFS_V3 21 (Points (Ttypedef
     "COMMIT3args")) (Points (Ttypedef "COMMIT3res")).

Definition NFSACL_PROGRAM : Z := 100227.

Definition NFSACL_V3 : Z := 3.

Definition NFSACL3_NULL : rpc_proc :=
  mkProc "NFSACL3_NULL" "nfsacl3_null_3" NFSACL_PROGRAM NFSACL_V3 0 Null Null.

Definition NFSACL3_GETACL : rpc_proc :=
  mkProc "NFSACL3_GETACL" "nfsacl3_getacl_3" NFSACL_PROGRAM NFSACL_V3 1 (Points (Ttypedef
     "GETACL3args")) (Points (Ttypedef "GETACL3res")).

Definition NFSACL3_SETACL : rpc_proc :=
  mkProc "NFSACL3_SETACL" "nfsacl3_setacl_3" NFSACL_PROGRAM NFSACL_V3 2 (Points (Ttypedef
     "SETACL3args")) (Points (Ttypedef "SETACL3res")).

Definition NLM_PROGRAM : Z := 100021.

Definition NLM_V4 : Z := 4.

Definition NLM4_NULL : rpc_proc :=
  mkProc "NLM4_NULL" "nlm4_null_4" NLM_PROGRAM NLM_V4 0 Null Null.

Definition NLM4_TEST : rpc_proc :=
  mkProc "NLM4_TEST" "nlm4_test_4" NLM_PROGRAM NLM_V4 1 (Points (Ttypedef "NLM4_TESTargs"))
     (Points (Ttypedef "NLM4_TESTres")).

Definition NLM4_LOCK : rpc_proc :=
  mkProc "NLM4_LOCK" "nlm4_lock_4" NLM_PROGRAM NLM_V4 2 (Points (Ttypedef "NLM4_LOCKargs"))
     (Points (Ttypedef "NLM4_LOCKres")).

Definition NLM4_CANCEL : rpc_proc :=
  mkProc "NLM4_CANCEL" "nlm4_cancel_4" NLM_PROGRAM NLM_V4 3 (Points (Ttypedef
     "NLM4_CANCargs")) (Points (Ttypedef "NLM4_CANCres")).

Definition NLM4_UNLOCK : rpc_proc :=
  mkProc "NLM4_UNLOCK" "nlm4_unlock_4" NLM_PROGRAM NLM_V4 4 (Points (Ttypedef
     "NLM4_UNLOCKargs")) (Points (Ttypedef "NLM4_UNLOCKres")).

Definition NLM4_GRANT : rpc_proc :=
  mkProc "NLM4_GRANT" "nlm4_grant_4" NLM_PROGRAM NLM_V4 5 (Points (Ttypedef
     "NLM4_GRANTEDargs")) (Points (Ttypedef "NLM4_GRANTEDres")).

Definition NLM4_TEST_MSG : rpc_proc :=
  mkProc "NLM4_TEST_MSG" "nlm4_test_msg_4" NLM_PROGRAM NLM_V4 6 (Points (Ttypedef
     "NLM4_TESTargs")) Null.

Definition NLM4_LOCK_MSG : rpc_proc :=
  mkProc "NLM4_LOCK_MSG" "nlm4_lock_msg_4" NLM_PROGRAM NLM_V4 7 (Points (Ttypedef
     "NLM4_LOCKargs")) Null.

Definition NLM4_CANCEL_MSG : rpc_proc :=
  mkProc "NLM4_CANCEL_MSG" "nlm4_cancel_msg_4" NLM_PROGRAM NLM_V4 8 (Points (Ttypedef
     "NLM4_CANCargs")) Null.

Definition NLM4_UNLOCK_MSG : rpc_proc :=
  mkProc "NLM4_UNLOCK_MSG" "nlm4_unlock_msg_4" NLM_PROGRAM NLM_V4 9 (Points (Ttypedef
     "NLM4_UNLOCKargs")) Null.

Definition NLM4_GRANT_MSG : rpc_proc :=
  mkProc "NLM4_GRANT_MSG" "nlm4_grant_msg_4" NLM_PROGRAM NLM_V4 10 (Points (Ttypedef
     "NLM4_GRANTEDargs")) Null.

Definition NLM4_TEST_RES : rpc_proc :=
  mkProc "NLM4_TEST_RES" "nlm4_test_res_4" NLM_PROGRAM NLM_V4 11 (Points (Ttypedef
     "NLM4_TESTres")) Null.

Definition NLM4_LOCK_RES : rpc_proc :=
  mkProc "NLM4_LOCK_RES" "nlm4_lock_res_4" NLM_PROGRAM NLM_V4 12 (Points (Ttypedef
     "NLM4_LOCKres")) Null.

Definition NLM4_CANCEL_RES : rpc_proc :=
  mkProc "NLM4_CANCEL_RES" "nlm4_cancel_res_4" NLM_PROGRAM NLM_V4 13 (Points (Ttypedef
     "NLM4_CANCres")) Null.

Definition NLM4_UNLOCK_RES : rpc_proc :=
  mkProc "NLM4_UNLOCK_RES" "nlm4_unlock_res_4" NLM_PROGRAM NLM_V4 14 (Points (Ttypedef
     "NLM4_UNLOCKres")) Null.

Definition NLM4_GRANT_RES : rpc_proc :=
  mkProc "NLM4_GRANT_RES" "nlm4_grant_res_4" NLM_PROGRAM NLM_V4 15 (Points (Ttypedef
     "NLM4_GRANTEDres")) Null.

Definition NLM4_SHARE : rpc_proc :=
  mkProc "NLM4_SHARE" "nlm4_share_4" NLM_PROGRAM NLM_V4 20 (Points (Ttypedef
     "NLM4_SHAREargs")) (Points (Ttypedef "NLM4_SHAREres")).

Definition NLM4_UNSHARE : rpc_proc :=
  mkProc "NLM4_UNSHARE" "nlm4_unshare_4" NLM_PROGRAM NLM_V4 21 (Points (Ttypedef
     "NLM4_SHAREargs")) (Points (Ttypedef "NLM4_SHAREres")).

Definition NSM_PROGRAM : Z := 100024.

Definition NSM_V1 : Z := 1.

Definition NSM1_NULL : rpc_proc :=
  mkProc "NSM1_NULL" "nsm1_null_1" NSM_PROGRAM NSM_V1 0 Null Null.

Definition NSM1_STAT : rpc_proc :=
  mkProc "NSM1_STAT" "nsm1_stat_1" NSM_PROGRAM NSM_V1 1 (Points (Ttypedef "NSM1_STATargs"))
     (Points (Ttypedef "NSM1_STATres")).

Definition NSM1_MON : rpc_proc :=
  mkProc "NSM1_MON" "nsm1_mon_1" NSM_PROGRAM NSM_V1 2 (Points (Ttypedef "NSM1_MONargs"))
     (Points (Ttypedef "NSM1_MONres")).

Definition NSM1_UNMON : rpc_proc :=
  mkProc "NSM1_UNMON" "nsm1_unmon_1" NSM_PROGRAM NSM_V1 3 (Points (Ttypedef
     "NSM1_UNMONargs")) (Points (Ttypedef "NSM1_UNMONres")).

Definition NSM1_UNMON_ALL : rpc_proc :=
  mkProc "NSM1_UNMON_ALL" "nsm1_unmon_all_1" NSM_PROGRAM NSM_V1 4 (Points (Ttypedef
     "NSM1_UNMONALLargs")) (Points (Ttypedef "NSM1_UNMONALLres")).

Definition NSM1_SIMU_CRASH : rpc_proc :=
  mkProc "NSM1_SIMU_CRASH" "nsm1_simu_crash_1" NSM_PROGRAM NSM_V1 5 Null Null.

Definition NSM1_NOTIFY : rpc_proc :=
  mkProc "NSM1_NOTIFY" "nsm1_notify_1" NSM_PROGRAM NSM_V1 6 (Points (Ttypedef
     "NSM1_NOTIFYargs")) Null.

Definition RQUOTA_PROGRAM : Z := 100011.

Definition RQUOTA_V1 : Z := 1.

Definition RQUOTA1_NULL : rpc_proc :=
  mkProc "RQUOTA1_NULL" "rquota1_null_1" RQUOTA_PROGRAM RQUOTA_V1 0 Null Null.

Definition RQUOTA1_GETQUOTA : rpc_proc :=
  mkProc "RQUOTA1_GETQUOTA" "rquota1_getquota_1" RQUOTA_PROGRAM RQUOTA_V1 1 (Points
     (Ttypedef "GETQUOTA1args")) (Points (Ttypedef "GETQUOTA1res")).

Definition RQUOTA1_GETACTIVEQUOTA : rpc_proc :=
  mkProc "RQUOTA1_GETACTIVEQUOTA" "rquota1_getactivequota_1" RQUOTA_PROGRAM RQUOTA_V1 2
     (Points (Ttypedef "GETQUOTA1args")) (Points (Ttypedef "GETQUOTA1res")).

Definition RQUOTA_V2 : Z := 2.

Definition RQUOTA2_NULL : rpc_proc :=
  mkProc "RQUOTA2_NULL" "rquota2_null_2" RQUOTA_PROGRAM RQUOTA_V2 0 Null Null.

Definition RQUOTA2_GETQUOTA : rpc_proc :=
  mkProc "RQUOTA2_GETQUOTA" "rquota2_getquota_2" RQUOTA_PROGRAM RQUOTA_V2 1 (Points
     (Ttypedef "GETQUOTA2args")) (Points (Ttypedef "GETQUOTA1res")).

Definition RQUOTA2_GETACTIVEQUOTA : rpc_proc :=
  mkProc "RQUOTA2_GETACTIVEQUOTA" "rquota2_getactivequota_2" RQUOTA_PROGRAM RQUOTA_V2 2
     (Points (Ttypedef "GETQUOTA2args")) (Points (Ttypedef "GETQUOTA1res")).

Definition NFS4_PROGRAM : Z := 100003.

Definition NFS_V4 : Z := 4.

Definition NFSPROC4_NULL : rpc_proc :=
  mkProc "NFSPROC4_NULL" "nfsproc4_null_4" NFS4_PROGRAM NFS_V4 0 Null Null.

Definition NFSPROC4_COMPOUND : rpc_proc :=
  mkProc "NFSPROC4_COMPOUND" "nfsproc4_compound_4" NFS4_PROGRAM NFS_V4 1 (Points (Ttypedef
     "COMPOUND4args")) (Points (Ttypedef "COMPOUND4res")).

Definition NFS4_CALLBACK : Z := 1073741824.

Definition NFS_CB : Z := 1.

Definition CB_NULL : rpc_proc :=
  mkProc "CB_NULL" "cb_null_1" NFS4_CALLBACK NFS_CB 0 Null Null.

Definition CB_COMPOUND : rpc_proc :=
  mkProc "CB_COMPOUND" "cb_compound_1" NFS4_CALLBACK NFS_CB 1 (Points (Ttypedef
     "CB_COMPOUND4args")) (Points (Ttypedef "CB_COMPOUND4res")).

(** Every procedure declared. *)
Definition procedures : list rpc_proc :=
  [PMAP2_NULL; PMAP2_SET; PMAP2_UNSET; PMAP2_GETPORT; PMAP2_DUMP; PMAP2_CALLIT; PMAP3_NULL;
     PMAP3_SET; PMAP3_UNSET; PMAP3_GETADDR; PMAP3_DUMP; PMAP3_CALLIT; PMAP3_GETTIME;
     PMAP3_UADDR2TADDR; PMAP3_TADDR2UADDR; MOUNT1_NULL; MOUNT1_MNT; MOUNT1_DUMP;
     MOUNT1_UMNT; MOUNT1_UMNTALL; MOUNT1_EXPORT; MOUNT3_NULL; MOUNT3_MNT; MOUNT3_DUMP;
     MOUNT3_UMNT; MOUNT3_UMNTALL; MOUNT3_EXPORT; NFS2_NULL; NFS2_GETATTR; NFS2_SETATTR;
     NFS2_LOOKUP; NFS2_READLINK; NFS2_READ; NFS2_WRITE; NFS2_CREATE; NFS2_REMOVE;
     NFS2_RENAME; NFS2_LINK; NFS2_SYMLINK; NFS2_MKDIR; NFS2_RMDIR; NFS2_READDIR;
     NFS2_STATFS; NFS3_NULL; NFS3_GETATTR; NFS3_SETATTR; NFS3_LOOKUP; NFS3_ACCESS;
     NFS3_READLINK; NFS3_READ; NFS3_WRITE; NFS3_CREATE; NFS3_MKDIR; NFS3_SYMLINK;
     NFS3_MKNOD; NFS3_REMOVE; NFS3_RMDIR; NFS3_RENAME; NFS3_LINK; NFS3_READDIR;
     NFS3_READDIRPLUS; NFS3_FSSTAT; NFS3_FSINFO; NFS3_PATHCONF; NFS3_COMMIT; NFSACL3_NULL;
     NFSACL3_GETACL; NFSACL3_SETACL; NLM4_NULL; NLM4_TEST; NLM4_LOCK; NLM4_CANCEL;
     NLM4_UNLOCK; NLM4_GRANT; NLM4_TEST_MSG; NLM4_LOCK_MSG; NLM4_CANCEL_MSG;
     NLM4_UNLOCK_MSG; NLM4_GRANT_MSG; NLM4_TEST_RES; NLM4_LOCK_RES; NLM4_CANCEL_RES;
     NLM4_UNLOCK_RES; NLM4_GRANT_RES; NLM4_SHARE; NLM4_UNSHARE; NSM1_NULL; NSM1_STAT;
     NSM1_MON; NSM1_UNMON; NSM1_UNMON_ALL; NSM1_SIMU_CRASH; NSM1_NOTIFY; RQUOTA1_NULL;
     RQUOTA1_GETQUOTA; RQUOTA1_GETACTIVEQUOTA; RQUOTA2_NULL; RQUOTA2_GETQUOTA;
     RQUOTA2_GETACTIVEQUOTA; NFSPROC4_NULL; NFSPROC4_COMPOUND; CB_NULL; CB_COMPOUND].

(** The portmap header's names for result types that it defines elsewhere. *)
Definition portmap_typedefs : list (string * string) :=
  [("PMAP2SETargs", "pmap2_mapping"); ("PMAP2UNSETargs", "pmap2_mapping");
   ("PMAP2GETPORTargs", "pmap2_mapping"); ("PMAP2CALLITargs", "pmap2_call_args");
   ("PMAP2CALLITres", "pmap2_call_result"); ("PMAP2DUMPres", "pmap2_dump_result");
   ("PMAP3SETargs", "pmap3_mapping"); ("PMAP3UNSETargs", "pmap3_mapping");
   ("PMAP3GETADDRargs", "pmap3_mapping"); ("PMAP3GETADDRres", "pmap3_string_result");
   ("PMAP3DUMPres", "pmap3_dump_result"); ("PMAP3CALLITargs", "pmap3_call_result");
   ("PMAP3CALLITres", "pmap3_call_result"); ("PMAP3UADDR2TADDRres", "pmap3_netbuf");
   ("PMAP3TADDR2UADDRargs", "pmap3_netbuf"); ("PMAP3TADDR2UADDRres", "pmap3_string_result")].

Definition resolve_name (n : string) : string :=
  match List.find (fun p => bool_decide (fst p = n)) portmap_typedefs with
  | Some (_, d) => d
  | None => n
  end.

(** A payload with its typedef unfolded. *)
Definition resolve (p : payload) : payload :=
  match p with Points (Ttypedef n) => Points (Ttypedef (resolve_name n)) | _ => p end.

Definition find_proc (macro : string) : option rpc_proc :=
  List.find (fun p => bool_decide (rp_macro p = macro)) procedures.

(** What identifies a procedure on the wire. *)
Definition proc_key (p : rpc_proc) : Z * Z * Z := (rp_program p, rp_version p, rp_number p).

(** No two procedures of the headers share program, version and number, so
    that a call on the wire means one procedure only. *)
Theorem procedures_distinct p q :
  In p procedures -> In q procedures -> proc_key p = proc_key q -> p = q.
Proof.
  assert (H : NoDup (map proc_key procedures))
    by (apply (bool_decide_unpack _); vm_compute; exact I).
  revert H. generalize procedures. intros l. induction l as [|x l IH]; cbn; [tauto|].
  intros Hn. pose proof (NoDup_cons_1_1 _ _ Hn) as Hx. apply NoDup_cons_1_2 in Hn.
  intros [<-|Hp] [<-|Hq] E; auto.
  - destruct Hx. rewrite E. apply list_elem_of_In, in_map, Hq.
  - destruct Hx. rewrite <- E. apply list_elem_of_In, in_map, Hp.
Qed.

Lemma procedures_distinct_witness : NFS3_READ = NFS3_READ.
Proof.
  assert (H : In NFS3_READ procedures)
    by (apply (List.find_some (fun p => bool_decide (rp_macro p = "NFS3_READ")) procedures);
        vm_compute; reflexivity).
  exact (procedures_distinct _ _ H H eq_refl).
Defined.

End Procs.
