(* ===== verification/RpcApi.v ===== *)
(** * libnfs-raw.h

    The low-level interface of libnfs, transcribed from nfsc/libnfs-raw.h: its
    structures, status codes, and one declaration per function with the procedure
    its comment names and the contract its comment gives.  The comments write
    [struct], [union] or nothing in front of a result type; only the type's name
    is kept.  NFSKit itself calls rpc_init_context, rpc_destroy_context,
    rpc_get_fd, rpc_which_events, rpc_service, rpc_get_stats and
    nfs_get_rpc_context. *)

From stdpp Require Import base list strings numbers.
From S2P Require Import Prelude CType RpcProcs.

Open Scope string_scope.
Open Scope Z_scope.

Module Rpc.

(** ** Structures and status codes *)

Record rpc_data := mk_rpc_data {
  data_size : Z; data_data : Z
}.

Record rpc_stats := mk_rpc_stats {
  num_req_sent : Z; num_resp_rcvd : Z; num_timedout : Z; num_timedout_in_outqueue : Z;
     num_major_timedout : Z; num_retransmitted : Z; num_reconnects : Z
}.

Record rpc_pdu_stats := mk_rpc_pdu_stats {
  pdu_size : Z; pdu_xid : Z; pdu_direction : Z; pdu_status : Z; pdu_prog : Z; pdu_vers : Z;
     pdu_proc : Z; pdu_enqueue_timestamp : Z; pdu_send_timestamp : Z; pdu_response_time : Z
}.

Record service_proc := mk_service_proc {
  sp_proc : Z; sp_func : Z; sp_decode_fn : Z; sp_decode_buf_size : Z; sp_opaque : Z
}.

Definition RPC_STATUS_SUCCESS : Z := 0.
Definition RPC_STATUS_ERROR : Z := 1.
Definition RPC_STATUS_CANCEL : Z := 2.
Definition RPC_STATUS_TIMEOUT : Z := 3.

(** ** Functions

    [ReturnsPdu]: the comment says the call returns a pdu, or NULL when it could
    not be queued.  [ReturnsZero]: it says 0, or a negative value. *)

Inductive rpc_started := ReturnsPdu | ReturnsZero.

#[export] Instance rpc_started_eq_dec : EqDecision rpc_started.
Proof. solve_decision. Defined.

(** [Queued how p]: the callback gets a pointer described by [p] with
    RPC_STATUS_SUCCESS, an error string with RPC_STATUS_ERROR, and NULL with
    RPC_STATUS_CANCEL.  [ZeroOrMinusOne], [ZeroOrNegative]: the documented results of
    calls without a callback. *)
Inductive rpc_contract :=
  | Undocumented
  | ZeroOrMinusOne
  | ZeroOrNegative
  | Queued (how : rpc_started) (p : payload).

#[export] Instance rpc_contract_eq_dec : EqDecision rpc_contract.
Proof. solve_decision. Defined.

Record rpc_fn := mkRpc {
  rf_name : string;
  rf_ret : ctype;
  rf_params : list (string * ctype);
  rf_call : string;
  rf_contract : rpc_contract
}.

Definition rpc_init_context : rpc_fn :=
  mkRpc "rpc_init_context" (Tptr (Tstruct "rpc_context"))
    []
    "" Undocumented.

Definition rpc_destroy_context : rpc_fn :=
  mkRpc "rpc_destroy_context" Tvoid
    [("rpc", Tptr (Tstruct "rpc_context"))]
    "" Undocumented.

Definition rpc_get_pdu_stats : rpc_fn :=
  mkRpc "rpc_get_pdu_stats" (Tptr (Tstruct "rpc_pdu_stats"))
    [("rpc", Tptr (Tstruct "rpc_context"))]
    "" Undocumented.

Definition rpc_set_stats_cb : rpc_fn :=
  mkRpc "rpc_set_stats_cb" Tvoid
    [("rpc", Tptr (Tstruct "rpc_context")); ("cb", Ttypedef "rpc_stats_cb");
     ("private_data", Tptr (Tvoid))]
    "" Undocumented.

Definition rpc_set_debug : rpc_fn :=
  mkRpc "rpc_set_debug" Tvoid
    [("rpc", Tptr (Tstruct "rpc_context")); ("level", Tint)]
    "" Undocumented.

Definition rpc_set_log_cb : rpc_fn :=
  mkRpc "rpc_set_log_cb" Tvoid
    [("rpc", Tptr (Tstruct "rpc_context")); ("cb", Ttypedef "rpc_log_cb");
     ("private_data", Tptr (Tvoid))]
    "" Undocumented.

Definition rpc_set_hash_size : rpc_fn :=
  mkRpc "rpc_set_hash_size" Tint
    [("rpc", Tptr (Tstruct "rpc_context")); ("hashes", Tint)]
    "" Undocumented.

Definition rpc_set_auth : rpc_fn :=
  mkRpc "rpc_set_auth" Tvoid
    [("rpc", Tptr (Tstruct "rpc_context")); ("auth", Tptr (Tstruct "AUTH"))]
    "" Undocumented.

Definition rpc_get_fd : rpc_fn :=
  mkRpc "rpc_get_fd" Tint
    [("rpc", Tptr (Tstruct "rpc_context"))]
    "" Undocumented.

Definition rpc_which_events : rpc_fn :=
  mkRpc "rpc_which_events" Tint
    [("rpc", Tptr (Tstruct "rpc_context"))]
    "" Undocumented.

Definition rpc_service : rpc_fn :=
  mkRpc "rpc_service" Tint
    [("rpc", Tptr (Tstruct "rpc_context")); ("revents", Tint)]
    "" ZeroOrMinusOne.

Definition rpc_disable_socket : rpc_fn :=
  mkRpc "rpc_disable_socket" Tvoid
    [("rpc", Tptr (Tstruct "rpc_context")); ("val", Tint)]
    "" Undocumented.

Definition rpc_queue_length : rpc_fn :=
  mkRpc "rpc_queue_length" Tint
    [("rpc", Tptr (Tstruct "rpc_context"))]
    "" Undocumented.

Definition rpc_get_num_awaiting : rpc_fn :=
  mkRpc "rpc_get_num_awaiting" Tint
    [("rpc", Tptr (Tstruct "rpc_context"))]
    "" Undocumented.

Definition rpc_set_awaiting_limit : rpc_fn :=
  mkRpc "rpc_set_awaiting_limit" Tvoid
    [("rpc", Tptr (Tstruct "rpc_context")); ("limit", Tint)]
    "" Undocumented.

Definition rpc_set_uid : rpc_fn :=
  mkRpc "rpc_set_uid" Tvoid
    [("rpc", Tptr (Tstruct "rpc_context")); ("uid", Tint)]
    "" Undocumented.

Definition rpc_set_gid : rpc_fn :=
  mkRpc "rpc_set_gid" Tvoid
    [("rpc", Tptr (Tstruct "rpc_context")); ("gid", Tint)]
    "" Undocumented.

Definition rpc_set_auxiliary_gids : rpc_fn :=
  mkRpc "rpc_set_auxiliary_gids" Tvoid
    [("rpc", Tptr (Tstruct "rpc_context")); ("len", Tuint32); ("gids", Tptr (Tuint32))]
    "" Undocumented.

Definition rpc_set_username : rpc_fn :=
  mkRpc "rpc_set_username" Tint
    [("rpc", Tptr (Tstruct "rpc_context")); ("username", Tptr (Tconst (Tchar)))]
    "" Undocumented.

Definition rpc_init_server_context : rpc_fn :=
  mkRpc "rpc_init_server_context" (Tptr (Tstruct "rpc_context"))
    [("s", Tint)]
    "" Undocumented.

Definition rpc_register_service : rpc_fn :=
  mkRpc "rpc_register_service" Tint
    [("rpc", Tptr (Tstruct "rpc_context")); ("program", Tint); ("version", Tint);
     ("procs", Tptr (Tstruct "service_proc")); ("num_procs", Tint)]
    "" Undocumented.

Definition rpc_send_reply : rpc_fn :=
  mkRpc "rpc_send_reply" Tint
    [("rpc", Tptr (Tstruct "rpc_context")); ("call", Tptr (Tstruct "rpc_msg"));
     ("reply", Tptr (Tvoid)); ("encode_fn", Ttypedef "zdrproc_t"); ("alloc_hint", Tint)]
    "" Undocumented.

Definition rpc_get_error : rpc_fn :=
  mkRpc "rpc_get_error" (Tptr (Tchar))
    [("rpc", Tptr (Tstruct "rpc_context"))]
    "" Undocumented.

Definition rpc_get_stats : rpc_fn :=
  mkRpc "rpc_get_stats" Tvoid
    [("rpc", Tptr (Tstruct "rpc_context")); ("stats", Tptr (Tstruct "rpc_stats"))]
    "" Undocumented.

Definition nfs_get_rpc_context : rpc_fn :=
  mkRpc "nfs_get_rpc_context" (Tptr (Tstruct "rpc_context"))
    [("nfs", Tptr (Tstruct "nfs_context"))]
    "" Undocumented.

Definition nfs_get_fh : rpc_fn :=
  mkRpc "nfs_get_fh" (Tptr (Tstruct "nfs_fh"))
    [("nfsfh", Tptr (Tstruct "nfsfh"))]
    "" Undocumented.

Definition rpc_set_next_xid : rpc_fn :=
  mkRpc "rpc_set_next_xid" Tvoid
    [("rpc", Tptr (Tstruct "rpc_context")); ("xid", Tuint32)]
    "" Undocumented.

Definition rpc_set_fd : rpc_fn :=
  mkRpc "rpc_set_fd" Tvoid
    [("rpc", Tptr (Tstruct "rpc_context")); ("fd", Tint)]
    "" Undocumented.

Definition rpc_connect_async : rpc_fn :=
  mkRpc "rpc_connect_async" Tint
    [("rpc", Tptr (Tstruct "rpc_context")); ("server", Tptr (Tconst (Tchar)));
     ("port", Tint); ("cb", Ttypedef "rpc_cb"); ("private_data", Tptr (Tvoid))]
    "" (Queued ReturnsZero Null).

Definition rpc_connect_program_async : rpc_fn :=
  mkRpc "rpc_connect_program_async" Tint
    [("rpc", Tptr (Tstruct "rpc_context")); ("server", Tptr (Tconst (Tchar)));
     ("program", Tint); ("version", Tint); ("cb", Ttypedef "rpc_cb");
     ("private_data", Tptr (Tvoid))]
    "" (Queued ReturnsZero Null).

Definition rpc_connect_port_async : rpc_fn :=
  mkRpc "rpc_connect_port_async" Tint
    [("rpc", Tptr (Tstruct "rpc_context")); ("server", Tptr (Tconst (Tchar)));
     ("port", Tint); ("program", Tint); ("version", Tint); ("cb", Ttypedef "rpc_cb");
     ("private_data", Tptr (Tvoid))]
    "" (Queued ReturnsZero Null).

Definition rpc_disconnect : rpc_fn :=
  mkRpc "rpc_disconnect" Tint
    [("rpc", Tptr (Tstruct "rpc_context")); ("error", Tptr (Tconst (Tchar)))]
    "" Undocumented.

Definition rpc_cancel_pdu : rpc_fn :=
  mkRpc "rpc_cancel_pdu" Tint
    [("rpc", Tptr (Tstruct "rpc_context")); ("pdu", Tptr (Tstruct "rpc_pdu"))]
    "" ZeroOrNegative.

Definition rpc_pmap2_null_task : rpc_fn :=
  mkRpc "rpc_pmap2_null_task" (Tptr (Tstruct "rpc_pdu"))
    [("rpc", Tptr (Tstruct "rpc_context")); ("cb", Ttypedef "rpc_cb");
     ("private_data", Tptr (Tvoid))]
    "PORTMAPPER2/NULL" (Queued ReturnsPdu Null).

Definition rpc_pmap2_getport_task : rpc_fn :=
  mkRpc "rpc_pmap2_getport_task" (Tptr (Tstruct "rpc_pdu"))
    [("rpc", Tptr (Tstruct "rpc_context")); ("program", Tint); ("version", Tint);
     ("protocol", Tint); ("cb", Ttypedef "rpc_cb"); ("private_data", Tptr (Tvoid))]
    "PORTMAPPER2/GETPORT" (Queued ReturnsPdu (Points Tuint32)).

Definition rpc_pmap2_set_task : rpc_fn :=
  mkRpc "rpc_pmap2_set_task" (Tptr (Tstruct "rpc_pdu"))
    [("rpc", Tptr (Tstruct "rpc_context")); ("program", Tint); ("version", Tint);
     ("protocol", Tint); ("port", Tint); ("cb", Ttypedef "rpc_cb");
     ("private_data", Tptr (Tvoid))]
    "PORTMAPPER2/SET" (Queued ReturnsPdu (Points Tuint32)).

Definition rpc_pmap2_unset_task : rpc_fn :=
  mkRpc "rpc_pmap2_unset_task" (Tptr (Tstruct "rpc_pdu"))
    [("rpc", Tptr (Tstruct "rpc_context")); ("program", Tint); ("version", Tint);
     ("protocol", Tint); ("port", Tint); ("cb", Ttypedef "rpc_cb");
     ("private_data", Tptr (Tvoid))]
    "PORTMAPPER2/UNSET" (Queued ReturnsPdu (Points Tuint32)).

Definition rpc_pmap2_dump_task : rpc_fn :=
  mkRpc "rpc_pmap2_dump_task" (Tptr (Tstruct "rpc_pdu"))
    [("rpc", Tptr (Tstruct "rpc_context")); ("cb", Ttypedef "rpc_cb");
     ("private_data", Tptr (Tvoid))]
    "PORTMAPPER2/DUMP" (Queued ReturnsPdu (Points (Ttypedef "pmap2_dump_result"))).

Definition rpc_pmap2_callit_task : rpc_fn :=
  mkRpc "rpc_pmap2_callit_task" (Tptr (Tstruct "rpc_pdu"))
    [("rpc", Tptr (Tstruct "rpc_context")); ("program", Tint); ("version", Tint);
     ("procedure", Tint); ("data", Tptr (Tchar)); ("datalen", Tint);
     ("cb", Ttypedef "rpc_cb"); ("private_data", Tptr (Tvoid))]
    "PORTMAPPER2/CALLIT" (Queued ReturnsPdu (Points (Ttypedef "pmap2_call_result"))).

Definition rpc_pmap3_null_task : rpc_fn :=
  mkRpc "rpc_pmap3_null_task" (Tptr (Tstruct "rpc_pdu"))
    [("rpc", Tptr (Tstruct "rpc_context")); ("cb", Ttypedef "rpc_cb");
     ("private_data", Tptr (Tvoid))]
    "PORTMAPPER3/NULL" (Queued ReturnsPdu Null).

Definition rpc_pmap3_set_task : rpc_fn :=
  mkRpc "rpc_pmap3_set_task" (Tptr (Tstruct "rpc_pdu"))
    [("rpc", Tptr (Tstruct "rpc_context")); ("map", Tptr (Tstruct "pmap3_mapping"));
     ("cb", Ttypedef "rpc_cb"); ("private_data", Tptr (Tvoid))]
    "PORTMAPPER3/SET" (Queued ReturnsPdu (Points Tuint32)).

Definition rpc_pmap3_unset_task : rpc_fn :=
  mkRpc "rpc_pmap3_unset_task" (Tptr (Tstruct "rpc_pdu"))
    [("rpc", Tptr (Tstruct "rpc_context")); ("map", Tptr (Tstruct "pmap3_mapping"));
     ("cb", Ttypedef "rpc_cb"); ("private_data", Tptr (Tvoid))]
    "PORTMAPPER3/UNSET" (Queued ReturnsPdu (Points Tuint32)).

Definition rpc_pmap3_getaddr_task : rpc_fn :=
  mkRpc "rpc_pmap3_getaddr_task" (Tptr (Tstruct "rpc_pdu"))
    [("rpc", Tptr (Tstruct "rpc_context")); ("map", Tptr (Tstruct "pmap3_mapping"));
     ("cb", Ttypedef "rpc_cb"); ("private_data", Tptr (Tvoid))]
    "PORTMAPPER3/GETADDR" (Queued ReturnsPdu (Points (Ttypedef "pmap3_string_result"))).

Definition rpc_pmap3_dump_task : rpc_fn :=
  mkRpc "rpc_pmap3_dump_task" (Tptr (Tstruct "rpc_pdu"))
    [("rpc", Tptr (Tstruct "rpc_context")); ("cb", Ttypedef "rpc_cb");
     ("private_data", Tptr (Tvoid))]
    "PORTMAPPER3/DUMP" (Queued ReturnsPdu (Points (Ttypedef "pmap3_dump_result"))).

Definition rpc_pmap3_callit_task : rpc_fn :=
  mkRpc "rpc_pmap3_callit_task" (Tptr (Tstruct "rpc_pdu"))
    [("rpc", Tptr (Tstruct "rpc_context")); ("program", Tint); ("version", Tint);
     ("procedure", Tint); ("data", Tptr (Tchar)); ("datalen", Tint);
     ("cb", Ttypedef "rpc_cb"); ("private_data", Tptr (Tvoid))]
    "PORTMAPPER3/CALLIT" (Queued ReturnsPdu (Points (Ttypedef "pmap3_call_result"))).

Definition rpc_pmap3_gettime_task : rpc_fn :=
  mkRpc "rpc_pmap3_gettime_task" (Tptr (Tstruct "rpc_pdu"))
    [("rpc", Tptr (Tstruct "rpc_context")); ("cb", Ttypedef "rpc_cb");
     ("private_data", Tptr (Tvoid))]
    "PORTMAPPER3/GETTIME" (Queued ReturnsPdu (Points Tuint32)).

Definition rpc_pmap3_uaddr2taddr_task : rpc_fn :=
  mkRpc "rpc_pmap3_uaddr2taddr_task" (Tptr (Tstruct "rpc_pdu"))
    [("rpc", Tptr (Tstruct "rpc_context")); ("uaddr", Tptr (Tchar));
     ("cb", Ttypedef "rpc_cb"); ("private_data", Tptr (Tvoid))]
    "PORTMAPPER3/UADDR2TADDR" (Queued ReturnsPdu (Points (Ttypedef "pmap3_netbuf"))).

Definition rpc_pmap3_taddr2uaddr_task : rpc_fn :=
  mkRpc "rpc_pmap3_taddr2uaddr_task" (Tptr (Tstruct "rpc_pdu"))
    [("rpc", Tptr (Tstruct "rpc_context")); ("netbuf", Tptr (Tstruct "pmap3_netbuf"));
     ("cb", Ttypedef "rpc_cb"); ("private_data", Tptr (Tvoid))]
    "PORTMAPPER3/TADDR2UADDR" (Queued ReturnsPdu (Points (Ttypedef "pmap3_string_result"))).

Definition mountstat3_to_str : rpc_fn :=
  mkRpc "mountstat3_to_str" (Tptr (Tchar))
    [("stat", Tint)]
    "" Undocumented.

Definition mountstat3_to_errno : rpc_fn :=
  mkRpc "mountstat3_to_errno" Tint
    [("error", Tint)]
    "" Undocumented.

Definition rpc_mount3_null_task : rpc_fn :=
  mkRpc "rpc_mount3_null_task" (Tptr (Tstruct "rpc_pdu"))
    [("rpc", Tptr (Tstruct "rpc_context")); ("cb", Ttypedef "rpc_cb");
     ("private_data", Tptr (Tvoid))]
    "MOUNT3/NULL" (Queued ReturnsPdu Null).

Definition rpc_mount3_mnt_task : rpc_fn :=
  mkRpc "rpc_mount3_mnt_task" (Tptr (Tstruct "rpc_pdu"))
    [("rpc", Tptr (Tstruct "rpc_context")); ("cb", Ttypedef "rpc_cb");
     ("exportname", Tptr (Tchar)); ("private_data", Tptr (Tvoid))]
    "MOUNT3/MNT" (Queued ReturnsPdu (Points (Ttypedef "mountres3"))).

Definition rpc_mount3_dump_task : rpc_fn :=
  mkRpc "rpc_mount3_dump_task" (Tptr (Tstruct "rpc_pdu"))
    [("rpc", Tptr (Tstruct "rpc_context")); ("cb", Ttypedef "rpc_cb");
     ("private_data", Tptr (Tvoid))]
    "MOUNT3/DUMP" (Queued ReturnsPdu (Points (Ttypedef "mountlist"))).

Definition rpc_mount3_umnt_task : rpc_fn :=
  mkRpc "rpc_mount3_umnt_task" (Tptr (Tstruct "rpc_pdu"))
    [("rpc", Tptr (Tstruct "rpc_context")); ("cb", Ttypedef "rpc_cb");
     ("exportname", Tptr (Tchar)); ("private_data", Tptr (Tvoid))]
    "MOUNT3/UMNT" (Queued ReturnsPdu Null).

Definition rpc_mount3_umntall_task : rpc_fn :=
  mkRpc "rpc_mount3_umntall_task" (Tptr (Tstruct "rpc_pdu"))
    [("rpc", Tptr (Tstruct "rpc_context")); ("cb", Ttypedef "rpc_cb");
     ("private_data", Tptr (Tvoid))]
    "MOUNT3/UMNTALL" (Queued ReturnsPdu Null).

Definition rpc_mount3_export_task : rpc_fn :=
  mkRpc "rpc_mount3_export_task" (Tptr (Tstruct "rpc_pdu"))
    [("rpc", Tptr (Tstruct "rpc_context")); ("cb", Ttypedef "rpc_cb");
     ("private_data", Tptr (Tvoid))]
    "MOUNT3/EXPORT" (Queued ReturnsPdu (Points (Ttypedef "exports"))).

Definition rpc_mount1_null_task : rpc_fn :=
  mkRpc "rpc_mount1_null_task" (Tptr (Tstruct "rpc_pdu"))
    [("rpc", Tptr (Tstruct "rpc_context")); ("cb", Ttypedef "rpc_cb");
     ("private_data", Tptr (Tvoid))]
    "MOUNT1/NULL" (Queued ReturnsPdu Null).

Definition rpc_mount1_mnt_task : rpc_fn :=
  mkRpc "rpc_mount1_mnt_task" (Tptr (Tstruct "rpc_pdu"))
    [("rpc", Tptr (Tstruct "rpc_context")); ("cb", Ttypedef "rpc_cb");
     ("exportname", Tptr (Tchar)); ("private_data", Tptr (Tvoid))]
    "MOUNT1/MNT" (Queued ReturnsPdu (Points (Ttypedef "mountres1"))).

Definition rpc_mount1_dump_task : rpc_fn :=
  mkRpc "rpc_mount1_dump_task" (Tptr (Tstruct "rpc_pdu"))
    [("rpc", Tptr (Tstruct "rpc_context")); ("cb", Ttypedef "rpc_cb");
     ("private_data", Tptr (Tvoid))]
    "MOUNT1/DUMP" (Queued ReturnsPdu (Points (Ttypedef "mountlist"))).

Definition rpc_mount1_umnt_task : rpc_fn :=
  mkRpc "rpc_mount1_umnt_task" (Tptr (Tstruct "rpc_pdu"))
    [("rpc", Tptr (Tstruct "rpc_context")); ("cb", Ttypedef "rpc_cb");
     ("exportname", Tptr (Tchar)); ("private_data", Tptr (Tvoid))]
    "MOUNT1/UMNT" (Queued ReturnsPdu Null).

Definition rpc_mount1_umntall_task : rpc_fn :=
  mkRpc "rpc_mount1_umntall_task" (Tptr (Tstruct "rpc_pdu"))
    [("rpc", Tptr (Tstruct "rpc_context")); ("cb", Ttypedef "rpc_cb");
     ("private_data", Tptr (Tvoid))]
    "MOUNT1/UMNTALL" (Queued ReturnsPdu Null).

Definition rpc_mount1_export_task : rpc_fn :=
  mkRpc "rpc_mount1_export_task" (Tptr (Tstruct "rpc_pdu"))
    [("rpc", Tptr (Tstruct "rpc_context")); ("cb", Ttypedef "rpc_cb");
     ("private_data", Tptr (Tvoid))]
    "MOUNT1/EXPORT" (Queued ReturnsPdu (Points (Ttypedef "exports"))).

Definition nfsstat3_to_str : rpc_fn :=
  mkRpc "nfsstat3_to_str" (Tptr (Tchar))
    [("error", Tint)]
    "" Undocumented.

Definition nfsstat3_to_errno : rpc_fn :=
  mkRpc "nfsstat3_to_errno" Tint
    [("error", Tint)]
    "" Undocumented.

Definition rpc_nfs3_null_task : rpc_fn :=
  mkRpc "rpc_nfs3_null_task" (Tptr (Tstruct "rpc_pdu"))
    [("rpc", Tptr (Tstruct "rpc_context")); ("cb", Ttypedef "rpc_cb");
     ("private_data", Tptr (Tvoid))]
    "NFS3/NULL" (Queued ReturnsPdu Null).

Definition rpc_nfs3_getattr_task : rpc_fn :=
  mkRpc "rpc_nfs3_getattr_task" (Tptr (Tstruct "rpc_pdu"))
    [("rpc", Tptr (Tstruct "rpc_context")); ("cb", Ttypedef "rpc_cb");
     ("args", Tptr (Tstruct "GETATTR3args")); ("private_data", Tptr (Tvoid))]
    "NFS3/GETATTR" (Queued ReturnsPdu (Points (Ttypedef "GETATTR3res"))).

Definition rpc_nfs3_pathconf_task : rpc_fn :=
  mkRpc "rpc_nfs3_pathconf_task" (Tptr (Tstruct "rpc_pdu"))
    [("rpc", Tptr (Tstruct "rpc_context")); ("cb", Ttypedef "rpc_cb");
     ("args", Tptr (Tstruct "PATHCONF3args")); ("private_data", Tptr (Tvoid))]
    "NFS3/PATHCONF" (Queued ReturnsPdu (Points (Ttypedef "PATHCONF3res"))).

Definition rpc_nfs3_lookup_task : rpc_fn :=
  mkRpc "rpc_nfs3_lookup_task" (Tptr (Tstruct "rpc_pdu"))
    [("rpc", Tptr (Tstruct "rpc_context")); ("cb", Ttypedef "rpc_cb");
     ("args", Tptr (Tstruct "LOOKUP3args")); ("private_data", Tptr (Tvoid))]
    "NFS3/LOOKUP" (Queued ReturnsPdu (Points (Ttypedef "LOOKUP3res"))).

Definition rpc_nfs3_access_task : rpc_fn :=
  mkRpc "rpc_nfs3_access_task" (Tptr (Tstruct "rpc_pdu"))
    [("rpc", Tptr (Tstruct "rpc_context")); ("cb", Ttypedef "rpc_cb");
     ("args", Tptr (Tstruct "ACCESS3args")); ("private_data", Tptr (Tvoid))]
    "NFS3/ACCESS" (Queued ReturnsPdu (Points (Ttypedef "ACCESS3res"))).

Definition rpc_nfs3_read_task : rpc_fn :=
  mkRpc "rpc_nfs3_read_task" (Tptr (Tstruct "rpc_pdu"))
    [("rpc", Tptr (Tstruct "rpc_context")); ("cb", Ttypedef "rpc_cb");
     ("buf", Tptr (Tvoid)); ("count", Tsize); ("args", Tptr (Tstruct "READ3args"));
     ("private_data", Tptr (Tvoid))]
    "NFS3/READ" (Queued ReturnsPdu (Points (Ttypedef "READ3res"))).

Definition rpc_nfs3_readv_task : rpc_fn :=
  mkRpc "rpc_nfs3_readv_task" (Tptr (Tstruct "rpc_pdu"))
    [("rpc", Tptr (Tstruct "rpc_context")); ("cb", Ttypedef "rpc_cb");
     ("iov", Tptr (Tconst (Tstruct "iovec"))); ("iovcnt", Tint);
     ("args", Tptr (Tstruct "READ3args")); ("private_data", Tptr (Tvoid))]
    "NFS3/READ" (Queued ReturnsPdu (Points (Ttypedef "READ3res"))).

Definition rpc_nfs3_write_task : rpc_fn :=
  mkRpc "rpc_nfs3_write_task" (Tptr (Tstruct "rpc_pdu"))
    [("rpc", Tptr (Tstruct "rpc_context")); ("cb", Ttypedef "rpc_cb");
     ("args", Tptr (Tstruct "WRITE3args")); ("private_data", Tptr (Tvoid))]
    "NFS3/WRITE" (Queued ReturnsPdu (Points (Ttypedef "WRITE3res"))).

Definition rpc_nfs3_writev_task : rpc_fn :=
  mkRpc "rpc_nfs3_writev_task" (Tptr (Tstruct "rpc_pdu"))
    [("rpc", Tptr (Tstruct "rpc_context")); ("cb", Ttypedef "rpc_cb");
     ("args", Tptr (Tstruct "WRITE3args")); ("iov", Tptr (Tconst (Tstruct "iovec")));
     ("iovcnt", Tint); ("private_data", Tptr (Tvoid))]
    "NFS3/WRITE" (Queued ReturnsPdu (Points (Ttypedef "WRITE3res"))).

Definition rpc_nfs3_commit_task : rpc_fn :=
  mkRpc "rpc_nfs3_commit_task" (Tptr (Tstruct "rpc_pdu"))
    [("rpc", Tptr (Tstruct "rpc_context")); ("cb", Ttypedef "rpc_cb");
     ("args", Tptr (Tstruct "COMMIT3args")); ("private_data", Tptr (Tvoid))]
    "NFS3/COMMIT" (Queued ReturnsPdu (Points (Ttypedef "COMMIT3res"))).

Definition rpc_nfs3_setattr_task : rpc_fn :=
  mkRpc "rpc_nfs3_setattr_task" (Tptr (Tstruct "rpc_pdu"))
    [("rpc", Tptr (Tstruct "rpc_context")); ("cb", Ttypedef "rpc_cb");
     ("args", Tptr (Tstruct "SETATTR3args")); ("private_data", Tptr (Tvoid))]
    "NFS3/SETATTR" (Queued ReturnsPdu (Points (Ttypedef "SETATTR3res"))).

Definition rpc_nfs3_mkdir_task : rpc_fn :=
  mkRpc "rpc_nfs3_mkdir_task" (Tptr (Tstruct "rpc_pdu"))
    [("rpc", Tptr (Tstruct "rpc_context")); ("cb", Ttypedef "rpc_cb");
     ("args", Tptr (Tstruct "MKDIR3args")); ("private_data", Tptr (Tvoid))]
    "NFS3/MKDIR" (Queued ReturnsPdu (Points (Ttypedef "MKDIR3res"))).

Definition rpc_nfs3_rmdir_task : rpc_fn :=
  mkRpc "rpc_nfs3_rmdir_task" (Tptr (Tstruct "rpc_pdu"))
    [("rpc", Tptr (Tstruct "rpc_context")); ("cb", Ttypedef "rpc_cb");
     ("args", Tptr (Tstruct "RMDIR3args")); ("private_data", Tptr (Tvoid))]
    "NFS3/RMDIR" (Queued ReturnsPdu (Points (Ttypedef "RMDIR3res"))).

Definition rpc_nfs3_create_task : rpc_fn :=
  mkRpc "rpc_nfs3_create_task" (Tptr (Tstruct "rpc_pdu"))
    [("rpc", Tptr (Tstruct "rpc_context")); ("cb", Ttypedef "rpc_cb");
     ("args", Tptr (Tstruct "CREATE3args")); ("private_data", Tptr (Tvoid))]
    "NFS3/CREATE" (Queued ReturnsPdu (Points (Ttypedef "CREATE3res"))).

Definition rpc_nfs3_mknod_task : rpc_fn :=
  mkRpc "rpc_nfs3_mknod_task" (Tptr (Tstruct "rpc_pdu"))
    [("rpc", Tptr (Tstruct "rpc_context")); ("cb", Ttypedef "rpc_cb");
     ("args", Tptr (Tstruct "MKNOD3args")); ("private_data", Tptr (Tvoid))]
    "NFS3/MKNOD" (Queued ReturnsPdu (Points (Ttypedef "MKNOD3res"))).

Definition rpc_nfs3_remove_task : rpc_fn :=
  mkRpc "rpc_nfs3_remove_task" (Tptr (Tstruct "rpc_pdu"))
    [("rpc", Tptr (Tstruct "rpc_context")); ("cb", Ttypedef "rpc_cb");
     ("args", Tptr (Tstruct "REMOVE3args")); ("private_data", Tptr (Tvoid))]
    "NFS3/REMOVE" (Queued ReturnsPdu (Points (Ttypedef "REMOVE3res"))).

Definition rpc_nfs3_readdir_task : rpc_fn :=
  mkRpc "rpc_nfs3_readdir_task" (Tptr (Tstruct "rpc_pdu"))
    [("rpc", Tptr (Tstruct "rpc_context")); ("cb", Ttypedef "rpc_cb");
     ("args", Tptr (Tstruct "READDIR3args")); ("private_data", Tptr (Tvoid))]
    "NFS3/READDIR" (Queued ReturnsPdu (Points (Ttypedef "READDIR3res"))).

Definition rpc_nfs3_readdirplus_task : rpc_fn :=
  mkRpc "rpc_nfs3_readdirplus_task" (Tptr (Tstruct "rpc_pdu"))
    [("rpc", Tptr (Tstruct "rpc_context")); ("cb", Ttypedef "rpc_cb");
     ("args", Tptr (Tstruct "READDIRPLUS3args")); ("private_data", Tptr (Tvoid))]
    "NFS3/READDIRPLUS" (Queued ReturnsPdu (Points (Ttypedef "READDIRPLUS3res"))).

Definition rpc_nfs3_fsstat_task : rpc_fn :=
  mkRpc "rpc_nfs3_fsstat_task" (Tptr (Tstruct "rpc_pdu"))
    [("rpc", Tptr (Tstruct "rpc_context")); ("cb", Ttypedef "rpc_cb");
     ("args", Tptr (Tstruct "FSSTAT3args")); ("private_data", Tptr (Tvoid))]
    "NFS3/FSSTAT" (Queued ReturnsPdu (Points (Ttypedef "FSSTAT3res"))).

Definition rpc_nfs3_fsinfo_task : rpc_fn :=
  mkRpc "rpc_nfs3_fsinfo_task" (Tptr (Tstruct "rpc_pdu"))
    [("rpc", Tptr (Tstruct "rpc_context")); ("cb", Ttypedef "rpc_cb");
     ("args", Tptr (Tstruct "FSINFO3args")); ("private_data", Tptr (Tvoid))]
    "NFS3/FSINFO" (Queued ReturnsPdu (Points (Ttypedef "FSINFO3res"))).

Definition rpc_nfs3_readlink_task : rpc_fn :=
  mkRpc "rpc_nfs3_readlink_task" (Tptr (Tstruct "rpc_pdu"))
    [("rpc", Tptr (Tstruct "rpc_context")); ("cb", Ttypedef "rpc_cb");
     ("args", Tptr (Tstruct "READLINK3args")); ("private_data", Tptr (Tvoid))]
    "NFS3/READLINK" (Queued ReturnsPdu (Points (Ttypedef "READLINK3res"))).

Definition rpc_nfs3_symlink_task : rpc_fn :=
  mkRpc "rpc_nfs3_symlink_task" (Tptr (Tstruct "rpc_pdu"))
    [("rpc", Tptr (Tstruct "rpc_context")); ("cb", Ttypedef "rpc_cb");
     ("args", Tptr (Tstruct "SYMLINK3args")); ("private_data", Tptr (Tvoid))]
    "NFS3/SYMLINK" (Queued ReturnsPdu (Points (Ttypedef "SYMLINK3res"))).

Definition rpc_nfs3_rename_task : rpc_fn :=
  mkRpc "rpc_nfs3_rename_task" (Tptr (Tstruct "rpc_pdu"))
    [("rpc", Tptr (Tstruct "rpc_context")); ("cb", Ttypedef "rpc_cb");
     ("args", Tptr (Tstruct "RENAME3args")); ("private_data", Tptr (Tvoid))]
    "NFS3/RENAME" (Queued ReturnsPdu (Points (Ttypedef "RENAME3res"))).

Definition rpc_nfs3_link_task : rpc_fn :=
  mkRpc "rpc_nfs3_link_task" (Tptr (Tstruct "rpc_pdu"))
    [("rpc", Tptr (Tstruct "rpc_context")); ("cb", Ttypedef "rpc_cb");
     ("args", Tptr (Tstruct "LINK3args")); ("private_data", Tptr (Tvoid))]
    "NFS3/LINK" (Queued ReturnsPdu (Points (Ttypedef "LINK3res"))).

Definition rpc_nfs2_null_task : rpc_fn :=
  mkRpc "rpc_nfs2_null_task" (Tptr (Tstruct "rpc_pdu"))
    [("rpc", Tptr (Tstruct "rpc_context")); ("cb", Ttypedef "rpc_cb");
     ("private_data", Tptr (Tvoid))]
    "NFS2/NULL" (Queued ReturnsPdu Null).

Definition rpc_nfs2_getattr_task : rpc_fn :=
  mkRpc "rpc_nfs2_getattr_task" (Tptr (Tstruct "rpc_pdu"))
    [("rpc", Tptr (Tstruct "rpc_context")); ("cb", Ttypedef "rpc_cb");
     ("args", Tptr (Tstruct "GETATTR2args")); ("private_data", Tptr (Tvoid))]
    "NFS2/GETATTR" (Queued ReturnsPdu (Points (Ttypedef "GETATTR2res"))).

Definition rpc_nfs2_setattr_task : rpc_fn :=
  mkRpc "rpc_nfs2_setattr_task" (Tptr (Tstruct "rpc_pdu"))
    [("rpc", Tptr (Tstruct "rpc_context")); ("cb", Ttypedef "rpc_cb");
     ("args", Tptr (Tstruct "SETATTR2args")); ("private_data", Tptr (Tvoid))]
    "NFS2/SETATTR" (Queued ReturnsPdu (Points (Ttypedef "SETATTR2res"))).

Definition rpc_nfs2_lookup_task : rpc_fn :=
  mkRpc "rpc_nfs2_lookup_task" (Tptr (Tstruct "rpc_pdu"))
    [("rpc", Tptr (Tstruct "rpc_context")); ("cb", Ttypedef "rpc_cb");
     ("args", Tptr (Tstruct "LOOKUP2args")); ("private_data", Tptr (Tvoid))]
    "NFS2/LOOKUP" (Queued ReturnsPdu (Points (Ttypedef "LOOKUP2res"))).

Definition rpc_nfs2_readlink_task : rpc_fn :=
  mkRpc "rpc_nfs2_readlink_task" (Tptr (Tstruct "rpc_pdu"))
    [("rpc", Tptr (Tstruct "rpc_context")); ("cb", Ttypedef "rpc_cb");
     ("args", Tptr (Tstruct "READLINK2args")); ("private_data", Tptr (Tvoid))]
    "NFS2/READLINK" (Queued ReturnsPdu (Points (Ttypedef "READLINK2res"))).

Definition rpc_nfs2_read_task : rpc_fn :=
  mkRpc "rpc_nfs2_read_task" (Tptr (Tstruct "rpc_pdu"))
    [("rpc", Tptr (Tstruct "rpc_context")); ("cb", Ttypedef "rpc_cb");
     ("args", Tptr (Tstruct "READ2args")); ("private_data", Tptr (Tvoid))]
    "NFS2/READ" (Queued ReturnsPdu (Points (Ttypedef "READ2res"))).

Definition rpc_nfs2_write_task : rpc_fn :=
  mkRpc "rpc_nfs2_write_task" (Tptr (Tstruct "rpc_pdu"))
    [("rpc", Tptr (Tstruct "rpc_context")); ("cb", Ttypedef "rpc_cb");
     ("args", Tptr (Tstruct "WRITE2args")); ("private_data", Tptr (Tvoid))]
    "NFS2/WRITE" (Queued ReturnsPdu (Points (Ttypedef "WRITE2res"))).

Definition rpc_nfs2_create_task : rpc_fn :=
  mkRpc "rpc_nfs2_create_task" (Tptr (Tstruct "rpc_pdu"))
    [("rpc", Tptr (Tstruct "rpc_context")); ("cb", Ttypedef "rpc_cb");
     ("args", Tptr (Tstruct "CREATE2args")); ("private_data", Tptr (Tvoid))]
    "NFS2/CREATE" (Queued ReturnsPdu (Points (Ttypedef "CREATE2res"))).

Definition rpc_nfs2_remove_task : rpc_fn :=
  mkRpc "rpc_nfs2_remove_task" (Tptr (Tstruct "rpc_pdu"))
    [("rpc", Tptr (Tstruct "rpc_context")); ("cb", Ttypedef "rpc_cb");
     ("args", Tptr (Tstruct "REMOVE2args")); ("private_data", Tptr (Tvoid))]
    "NFS2/REMOVE" (Queued ReturnsPdu (Points (Ttypedef "REMOVE2res"))).

Definition rpc_nfs2_rename_task : rpc_fn :=
  mkRpc "rpc_nfs2_rename_task" (Tptr (Tstruct "rpc_pdu"))
    [("rpc", Tptr (Tstruct "rpc_context")); ("cb", Ttypedef "rpc_cb");
     ("args", Tptr (Tstruct "RENAME2args")); ("private_data", Tptr (Tvoid))]
    "NFS2/RENAME" (Queued ReturnsPdu (Points (Ttypedef "RENAME2res"))).

Definition rpc_nfs2_link_task : rpc_fn :=
  mkRpc "rpc_nfs2_link_task" (Tptr (Tstruct "rpc_pdu"))
    [("rpc", Tptr (Tstruct "rpc_context")); ("cb", Ttypedef "rpc_cb");
     ("args", Tptr (Tstruct "LINK2args")); ("private_data", Tptr (Tvoid))]
    "NFS2/LINK" (Queued ReturnsPdu (Points (Ttypedef "LINK2res"))).

Definition rpc_nfs2_symlink_task : rpc_fn :=
  mkRpc "rpc_nfs2_symlink_task" (Tptr (Tstruct "rpc_pdu"))
    [("rpc", Tptr (Tstruct "rpc_context")); ("cb", Ttypedef "rpc_cb");
     ("args", Tptr (Tstruct "SYMLINK2args")); ("private_data", Tptr (Tvoid))]
    "NFS2/SYMLINK" (Queued ReturnsPdu (Points (Ttypedef "SYMLINK2res"))).

Definition rpc_nfs2_mkdir_task : rpc_fn :=
  mkRpc "rpc_nfs2_mkdir_task" (Tptr (Tstruct "rpc_pdu"))
    [("rpc", Tptr (Tstruct "rpc_context")); ("cb", Ttypedef "rpc_cb");
     ("args", Tptr (Tstruct "MKDIR2args")); ("private_data", Tptr (Tvoid))]
    "NFS2/MKDIR" (Queued ReturnsPdu (Points (Ttypedef "MKDIR2res"))).

Definition rpc_nfs2_rmdir_task : rpc_fn :=
  mkRpc "rpc_nfs2_rmdir_task" (Tptr (Tstruct "rpc_pdu"))
    [("rpc", Tptr (Tstruct "rpc_context")); ("cb", Ttypedef "rpc_cb");
     ("args", Tptr (Tstruct "RMDIR2args")); ("private_data", Tptr (Tvoid))]
    "NFS2/RMDIR" (Queued ReturnsPdu (Points (Ttypedef "RMDIR2res"))).

Definition rpc_nfs2_readdir_task : rpc_fn :=
  mkRpc "rpc_nfs2_readdir_task" (Tptr (Tstruct "rpc_pdu"))
    [("rpc", Tptr (Tstruct "rpc_context")); ("cb", Ttypedef "rpc_cb");
     ("args", Tptr (Tstruct "READDIR2args")); ("private_data", Tptr (Tvoid))]
    "NFS2/READDIR" (Queued ReturnsPdu (Points (Ttypedef "READDIR2res"))).

Definition rpc_nfs2_statfs_task : rpc_fn :=
  mkRpc "rpc_nfs2_statfs_task" (Tptr (Tstruct "rpc_pdu"))
    [("rpc", Tptr (Tstruct "rpc_context")); ("cb", Ttypedef "rpc_cb");
     ("args", Tptr (Tstruct "STATFS2args")); ("private_data", Tptr (Tvoid))]
    "NFS2/STATFS" (Queued ReturnsPdu (Points (Ttypedef "STATFS2res"))).

Definition rquotastat_to_str : rpc_fn :=
  mkRpc "rquotastat_to_str" (Tptr (Tchar))
    [("error", Tint)]
    "" Undocumented.

Definition rquotastat_to_errno : rpc_fn :=
  mkRpc "rquotastat_to_errno" Tint
    [("error", Tint)]
    "" Undocumented.

Definition rpc_rquota1_null_task : rpc_fn :=
  mkRpc "rpc_rquota1_null_task" (Tptr (Tstruct "rpc_pdu"))
    [("rpc", Tptr (Tstruct "rpc_context")); ("cb", Ttypedef "rpc_cb");
     ("private_data", Tptr (Tvoid))]
    "RQUOTA1/NULL" (Queued ReturnsPdu Null).

Definition rpc_rquota1_getquota_task : rpc_fn :=
  mkRpc "rpc_rquota1_getquota_task" (Tptr (Tstruct "rpc_pdu"))
    [("rpc", Tptr (Tstruct "rpc_context")); ("cb", Ttypedef "rpc_cb");
     ("exportname", Tptr (Tchar)); ("uid", Tint); ("private_data", Tptr (Tvoid))]
    "RQUOTA1/GETQUOTA" (Queued ReturnsPdu (Points (Ttypedef "GETQUOTA1res"))).

Definition rpc_rquota1_getactivequota_task : rpc_fn :=
  mkRpc "rpc_rquota1_getactivequota_task" (Tptr (Tstruct "rpc_pdu"))
    [("rpc", Tptr (Tstruct "rpc_context")); ("cb", Ttypedef "rpc_cb");
     ("exportname", Tptr (Tchar)); ("uid", Tint); ("private_data", Tptr (Tvoid))]
    "RQUOTA1/GETACTIVEQUOTA" (Queued ReturnsPdu (Points (Ttypedef "GETQUOTA1res"))).

Definition rpc_rquota2_null_task : rpc_fn :=
  mkRpc "rpc_rquota2_null_task" (Tptr (Tstruct "rpc_pdu"))
    [("rpc", Tptr (Tstruct "rpc_context")); ("cb", Ttypedef "rpc_cb");
     ("private_data", Tptr (Tvoid))]
    "RQUOTA2/NULL" (Queued ReturnsPdu Null).

Definition rpc_rquota2_getquota_task : rpc_fn :=
  mkRpc "rpc_rquota2_getquota_task" (Tptr (Tstruct "rpc_pdu"))
    [("rpc", Tptr (Tstruct "rpc_context")); ("cb", Ttypedef "rpc_cb");
     ("exportname", Tptr (Tchar)); ("type", Tint); ("uid", Tint);
     ("private_data", Tptr (Tvoid))]
    "RQUOTA2/GETQUOTA" (Queued ReturnsPdu (Points (Ttypedef "GETQUOTA1res"))).

Definition rpc_rquota2_getactivequota_task : rpc_fn :=
  mkRpc "rpc_rquota2_getactivequota_task" (Tptr (Tstruct "rpc_pdu"))
    [("rpc", Tptr (Tstruct "rpc_context")); ("cb", Ttypedef "rpc_cb");
     ("exportname", Tptr (Tchar)); ("type", Tint); ("uid", Tint);
     ("private_data", Tptr (Tvoid))]
    "RQUOTA2/GETACTIVEQUOTA" (Queued ReturnsPdu (Points (Ttypedef "GETQUOTA1res"))).

Definition rpc_nfsacl3_null_task : rpc_fn :=
  mkRpc "rpc_nfsacl3_null_task" (Tptr (Tstruct "rpc_pdu"))
    [("rpc", Tptr (Tstruct "rpc_context")); ("cb", Ttypedef "rpc_cb");
     ("private_data", Tptr (Tvoid))]
    "NFSACL3/NULL" (Queued ReturnsPdu Null).

Definition rpc_nfsacl3_getacl_task : rpc_fn :=
  mkRpc "rpc_nfsacl3_getacl_task" (Tptr (Tstruct "rpc_pdu"))
    [("rpc", Tptr (Tstruct "rpc_context")); ("cb", Ttypedef "rpc_cb");
     ("args", Tptr (Tstruct "GETACL3args")); ("private_data", Tptr (Tvoid))]
    "NFSACL3/GETACL" (Queued ReturnsPdu (Points (Ttypedef "GETACL3res"))).

Definition rpc_nfsacl3_setacl_task : rpc_fn :=
  mkRpc "rpc_nfsacl3_setacl_task" (Tptr (Tstruct "rpc_pdu"))
    [("rpc", Tptr (Tstruct "rpc_context")); ("cb", Ttypedef "rpc_cb");
     ("args", Tptr (Tstruct "SETACL3args")); ("private_data", Tptr (Tvoid))]
    "NFSACL3/SETACL" (Queued ReturnsPdu (Points (Ttypedef "SETACL3res"))).

Definition nlmstat4_to_str : rpc_fn :=
  mkRpc "nlmstat4_to_str" (Tptr (Tchar))
    [("stat", Tint)]
    "" Undocumented.

Definition rpc_nlm4_null_task : rpc_fn :=
  mkRpc "rpc_nlm4_null_task" (Tptr (Tstruct "rpc_pdu"))
    [("rpc", Tptr (Tstruct "rpc_context")); ("cb", Ttypedef "rpc_cb");
     ("private_data", Tptr (Tvoid))]
    "NLM/NULL" (Queued ReturnsPdu Null).

Definition rpc_nlm4_test_task : rpc_fn :=
  mkRpc "rpc_nlm4_test_task" (Tptr (Tstruct "rpc_pdu"))
    [("rpc", Tptr (Tstruct "rpc_context")); ("cb", Ttypedef "rpc_cb");
     ("args", Tptr (Tstruct "NLM4_TESTargs")); ("private_data", Tptr (Tvoid))]
    "NLM/TEST" (Queued ReturnsPdu (Points (Ttypedef "NLM4_TESTres"))).

Definition rpc_nlm4_lock_task : rpc_fn :=
  mkRpc "rpc_nlm4_lock_task" (Tptr (Tstruct "rpc_pdu"))
    [("rpc", Tptr (Tstruct "rpc_context")); ("cb", Ttypedef "rpc_cb");
     ("args", Tptr (Tstruct "NLM4_LOCKargs")); ("private_data", Tptr (Tvoid))]
    "NLM/LOCK" (Queued ReturnsPdu (Points (Ttypedef "NLM4_LOCKres"))).

Definition rpc_nlm4_cancel_task : rpc_fn :=
  mkRpc "rpc_nlm4_cancel_task" (Tptr (Tstruct "rpc_pdu"))
    [("rpc", Tptr (Tstruct "rpc_context")); ("cb", Ttypedef "rpc_cb");
     ("args", Tptr (Tstruct "NLM4_CANCargs")); ("private_data", Tptr (Tvoid))]
    "NLM/CANCEL" (Queued ReturnsPdu (Points (Ttypedef "NLM4_CANCres"))).

Definition rpc_nlm4_unlock_task : rpc_fn :=
  mkRpc "rpc_nlm4_unlock_task" (Tptr (Tstruct "rpc_pdu"))
    [("rpc", Tptr (Tstruct "rpc_context")); ("cb", Ttypedef "rpc_cb");
     ("args", Tptr (Tstruct "NLM4_UNLOCKargs")); ("private_data", Tptr (Tvoid))]
    "NLM/UNLOCK" (Queued ReturnsPdu (Points (Ttypedef "NLM4_UNLOCKres"))).

Definition rpc_nlm4_share_task : rpc_fn :=
  mkRpc "rpc_nlm4_share_task" (Tptr (Tstruct "rpc_pdu"))
    [("rpc", Tptr (Tstruct "rpc_context")); ("cb", Ttypedef "rpc_cb");
     ("args", Tptr (Tstruct "NLM4_SHAREargs")); ("private_data", Tptr (Tvoid))]
    "NLM/SHARE" (Queued ReturnsPdu (Points (Ttypedef "NLM4_LOCKres"))).

Definition rpc_nlm4_unshare_task : rpc_fn :=
  mkRpc "rpc_nlm4_unshare_task" (Tptr (Tstruct "rpc_pdu"))
    [("rpc", Tptr (Tstruct "rpc_context")); ("cb", Ttypedef "rpc_cb");
     ("args", Tptr (Tstruct "NLM4_SHAREargs")); ("private_data", Tptr (Tvoid))]
    "NLM/UNSHARE" (Queued ReturnsPdu (Points (Ttypedef "NLM4_UNLOCKres"))).

Definition nsmstat1_to_str : rpc_fn :=
  mkRpc "nsmstat1_to_str" (Tptr (Tchar))
    [("stat", Tint)]
    "" Undocumented.

Definition rpc_nsm1_null_task : rpc_fn :=
  mkRpc "rpc_nsm1_null_task" (Tptr (Tstruct "rpc_pdu"))
    [("rpc", Tptr (Tstruct "rpc_context")); ("cb", Ttypedef "rpc_cb");
     ("private_data", Tptr (Tvoid))]
    "NSM/NULL" (Queued ReturnsPdu Null).

Definition rpc_nsm1_stat_task : rpc_fn :=
  mkRpc "rpc_nsm1_stat_task" (Tptr (Tstruct "rpc_pdu"))
    [("rpc", Tptr (Tstruct "rpc_context")); ("cb", Ttypedef "rpc_cb");
     ("args", Tptr (Tstruct "NSM1_STATargs")); ("private_data", Tptr (Tvoid))]
    "NSM/STAT" (Queued ReturnsPdu (Points (Ttypedef "NSM1_STATres"))).

Definition rpc_nsm1_mon_task : rpc_fn :=
  mkRpc "rpc_nsm1_mon_task" (Tptr (Tstruct "rpc_pdu"))
    [("rpc", Tptr (Tstruct "rpc_context")); ("cb", Ttypedef "rpc_cb");
     ("args", Tptr (Tstruct "NSM1_MONargs")); ("private_data", Tptr (Tvoid))]
    "NSM/MON" (Queued ReturnsPdu (Points (Ttypedef "NSM1_MONres"))).

Definition rpc_nsm1_unmon_task : rpc_fn :=
  mkRpc "rpc_nsm1_unmon_task" (Tptr (Tstruct "rpc_pdu"))
    [("rpc", Tptr (Tstruct "rpc_context")); ("cb", Ttypedef "rpc_cb");
     ("args", Tptr (Tstruct "NSM1_UNMONargs")); ("private_data", Tptr (Tvoid))]
    "NSM/UNMON" (Queued ReturnsPdu (Points (Ttypedef "NSM1_UNMONres"))).

Definition rpc_nsm1_unmonall_task : rpc_fn :=
  mkRpc "rpc_nsm1_unmonall_task" (Tptr (Tstruct "rpc_pdu"))
    [("rpc", Tptr (Tstruct "rpc_context")); ("cb", Ttypedef "rpc_cb");
     ("args", Tptr (Tstruct "NSM1_UNMONALLargs")); ("private_data", Tptr (Tvoid))]
    "NSM/UNMONALL" (Queued ReturnsPdu (Points (Ttypedef "NSM1_UNMONALLres"))).

Definition rpc_nsm1_simucrash_task : rpc_fn :=
  mkRpc "rpc_nsm1_simucrash_task" (Tptr (Tstruct "rpc_pdu"))
    [("rpc", Tptr (Tstruct "rpc_context")); ("cb", Ttypedef "rpc_cb");
     ("private_data", Tptr (Tvoid))]
    "NSM/SIMUCRASH" (Queued ReturnsPdu Null).

Definition rpc_nsm1_notify_task : rpc_fn :=
  mkRpc "rpc_nsm1_notify_task" (Tptr (Tstruct "rpc_pdu"))
    [("rpc", Tptr (Tstruct "rpc_context")); ("cb", Ttypedef "rpc_cb");
     ("args", Tptr (Tstruct "NSM1_NOTIFYargs")); ("private_data", Tptr (Tvoid))]
    "NSM/NOTIFY" (Queued ReturnsPdu Null).

Definition nfsstat4_to_str : rpc_fn :=
  mkRpc "nfsstat4_to_str" (Tptr (Tchar))
    [("error", Tint)]
    "" Undocumented.

Definition nfsstat4_to_errno : rpc_fn :=
  mkRpc "nfsstat4_to_errno" Tint
    [("error", Tint)]
    "" Undocumented.

Definition rpc_nfs4_null_task : rpc_fn :=
  mkRpc "rpc_nfs4_null_task" (Tptr (Tstruct "rpc_pdu"))
    [("rpc", Tptr (Tstruct "rpc_context")); ("cb", Ttypedef "rpc_cb");
     ("private_data", Tptr (Tvoid))]
    "NFS4/NULL" (Queued ReturnsPdu Null).

Definition rpc_nfs4_compound_task : rpc_fn :=
  mkRpc "rpc_nfs4_compound_task" (Tptr (Tstruct "rpc_pdu"))
    [("rpc", Tptr (Tstruct "rpc_context")); ("cb", Ttypedef "rpc_cb");
     ("args", Tptr (Tstruct "COMPOUND4args")); ("private_data", Tptr (Tvoid))]
    "NFS4/COMPOUND" (Queued ReturnsPdu (Points (Ttypedef "COMPOUND4res"))).

Definition rpc_nfs4_compound_task2 : rpc_fn :=
  mkRpc "rpc_nfs4_compound_task2" (Tptr (Tstruct "rpc_pdu"))
    [("rpc", Tptr (Tstruct "rpc_context")); ("cb", Ttypedef "rpc_cb");
     ("args", Tptr (Tstruct "COMPOUND4args")); ("private_data", Tptr (Tvoid));
     ("alloc_hint", Tsize)]
    "NFS4/COMPOUND" (Queued ReturnsZero (Points (Ttypedef "COMPOUND4res"))).

Definition rpc_nfs4_read_task : rpc_fn :=
  mkRpc "rpc_nfs4_read_task" (Tptr (Tstruct "rpc_pdu"))
    [("rpc", Tptr (Tstruct "rpc_context")); ("cb", Ttypedef "rpc_cb");
     ("buf", Tptr (Tvoid)); ("count", Tsize); ("args", Tptr (Tstruct "COMPOUND4args"));
     ("private_data", Tptr (Tvoid))]
    "NFS4/COMPOUND" (Queued ReturnsZero (Points (Ttypedef "COMPOUND4res"))).

Definition rpc_nfs4_readv_task : rpc_fn :=
  mkRpc "rpc_nfs4_readv_task" (Tptr (Tstruct "rpc_pdu"))
    [("rpc", Tptr (Tstruct "rpc_context")); ("cb", Ttypedef "rpc_cb");
     ("iov", Tptr (Tconst (Tstruct "iovec"))); ("iovcnt", Tint);
     ("args", Tptr (Tstruct "COMPOUND4args")); ("private_data", Tptr (Tvoid))]
    "NFS4/COMPOUND" (Queued ReturnsZero (Points (Ttypedef "COMPOUND4res"))).

Definition rpc_nfs4_write_task : rpc_fn :=
  mkRpc "rpc_nfs4_write_task" (Tptr (Tstruct "rpc_pdu"))
    [("rpc", Tptr (Tstruct "rpc_context")); ("cb", Ttypedef "rpc_cb");
     ("buf", Tptr (Tconst (Tvoid))); ("count", Tsize);
     ("args", Tptr (Tstruct "COMPOUND4args")); ("private_data", Tptr (Tvoid))]
    "NFS4/COMPOUND" (Queued ReturnsZero (Points (Ttypedef "COMPOUND4res"))).

Definition rpc_nfs4_writev_task : rpc_fn :=
  mkRpc "rpc_nfs4_writev_task" (Tptr (Tstruct "rpc_pdu"))
    [("rpc", Tptr (Tstruct "rpc_context")); ("cb", Ttypedef "rpc_cb");
     ("iov", Tptr (Tconst (Tstruct "iovec"))); ("iovcnt", Tint);
     ("args", Tptr (Tstruct "COMPOUND4args")); ("private_data", Tptr (Tvoid))]
    "NFS3/WRITE" (Queued ReturnsPdu (Points (Ttypedef "WRITE3res"))).

Definition rpc_null_task : rpc_fn :=
  mkRpc "rpc_null_task" (Tptr (Tstruct "rpc_pdu"))
    [("rpc", Tptr (Tstruct "rpc_context")); ("program", Tint); ("version", Tint);
     ("cb", Ttypedef "rpc_cb"); ("private_data", Tptr (Tvoid))]
    "<generic>/NULL" (Queued ReturnsZero Null).

Definition rpc_null_task_authtls : rpc_fn :=
  mkRpc "rpc_null_task_authtls" (Tptr (Tstruct "rpc_pdu"))
    [("rpc", Tptr (Tstruct "rpc_context")); ("nfs_version", Tint);
     ("cb", Ttypedef "rpc_cb"); ("private_data", Tptr (Tvoid))]
    "<generic>/NULL" (Queued ReturnsPdu Null).

(** The table of the header. *)
Definition libnfs_raw_h : list rpc_fn :=
  [rpc_init_context; rpc_destroy_context; rpc_get_pdu_stats; rpc_set_stats_cb;
     rpc_set_debug; rpc_set_log_cb; rpc_set_hash_size; rpc_set_auth; rpc_get_fd;
     rpc_which_events; rpc_service; rpc_disable_socket; rpc_queue_length;
     rpc_get_num_awaiting; rpc_set_awaiting_limit; rpc_set_uid; rpc_set_gid;
     rpc_set_auxiliary_gids; rpc_set_username; rpc_init_server_context;
     rpc_register_service; rpc_send_reply; rpc_get_error; rpc_get_stats;
     nfs_get_rpc_context; nfs_get_fh; rpc_set_next_xid; rpc_set_fd; rpc_connect_async;
     rpc_connect_program_async; rpc_connect_port_async; rpc_disconnect; rpc_cancel_pdu;
     rpc_pmap2_null_task; rpc_pmap2_getport_task; rpc_pmap2_set_task; rpc_pmap2_unset_task;
     rpc_pmap2_dump_task; rpc_pmap2_callit_task; rpc_pmap3_null_task; rpc_pmap3_set_task;
     rpc_pmap3_unset_task; rpc_pmap3_getaddr_task; rpc_pmap3_dump_task;
     rpc_pmap3_callit_task; rpc_pmap3_gettime_task; rpc_pmap3_uaddr2taddr_task;
     rpc_pmap3_taddr2uaddr_task; mountstat3_to_str; mountstat3_to_errno;
     rpc_mount3_null_task; rpc_mount3_mnt_task; rpc_mount3_dump_task; rpc_mount3_umnt_task;
     rpc_mount3_umntall_task; rpc_mount3_export_task; rpc_mount1_null_task;
     rpc_mount1_mnt_task; rpc_mount1_dump_task; rpc_mount1_umnt_task;
     rpc_mount1_umntall_task; rpc_mount1_export_task; nfsstat3_to_str; nfsstat3_to_errno;
     rpc_nfs3_null_task; rpc_nfs3_getattr_task; rpc_nfs3_pathconf_task;
     rpc_nfs3_lookup_task; rpc_nfs3_access_task; rpc_nfs3_read_task; rpc_nfs3_readv_task;
     rpc_nfs3_write_task; rpc_nfs3_writev_task; rpc_nfs3_commit_task;
     rpc_nfs3_setattr_task; rpc_nfs3_mkdir_task; rpc_nfs3_rmdir_task; rpc_nfs3_create_task;
     rpc_nfs3_mknod_task; rpc_nfs3_remove_task; rpc_nfs3_readdir_task;
     rpc_nfs3_readdirplus_task; rpc_nfs3_fsstat_task; rpc_nfs3_fsinfo_task;
     rpc_nfs3_readlink_task; rpc_nfs3_symlink_task; rpc_nfs3_rename_task;
     rpc_nfs3_link_task; rpc_nfs2_null_task; rpc_nfs2_getattr_task; rpc_nfs2_setattr_task;
     rpc_nfs2_lookup_task; rpc_nfs2_readlink_task; rpc_nfs2_read_task; rpc_nfs2_write_task;
     rpc_nfs2_create_task; rpc_nfs2_remove_task; rpc_nfs2_rename_task; rpc_nfs2_link_task;
     rpc_nfs2_symlink_task; rpc_nfs2_mkdir_task; rpc_nfs2_rmdir_task;
     rpc_nfs2_readdir_task; rpc_nfs2_statfs_task; rquotastat_to_str; rquotastat_to_errno;
     rpc_rquota1_null_task; rpc_rquota1_getquota_task; rpc_rquota1_getactivequota_task;
     rpc_rquota2_null_task; rpc_rquota2_getquota_task; rpc_rquota2_getactivequota_task;
     rpc_nfsacl3_null_task; rpc_nfsacl3_getacl_task; rpc_nfsacl3_setacl_task;
     nlmstat4_to_str; rpc_nlm4_null_task; rpc_nlm4_test_task; rpc_nlm4_lock_task;
     rpc_nlm4_cancel_task; rpc_nlm4_unlock_task; rpc_nlm4_share_task;
     rpc_nlm4_unshare_task; nsmstat1_to_str; rpc_nsm1_null_task; rpc_nsm1_stat_task;
     rpc_nsm1_mon_task; rpc_nsm1_unmon_task; rpc_nsm1_unmonall_task;
     rpc_nsm1_simucrash_task; rpc_nsm1_notify_task; nfsstat4_to_str; nfsstat4_to_errno;
     rpc_nfs4_null_task; rpc_nfs4_compound_task; rpc_nfs4_compound_task2;
     rpc_nfs4_read_task; rpc_nfs4_readv_task; rpc_nfs4_write_task; rpc_nfs4_writev_task;
     rpc_null_task; rpc_null_task_authtls].

(** ** Reading the table *)

(** "PROG/PROC" to the macro of the procedure: the comments call the portmapper
    PORTMAPPER2 and PORTMAPPER3, and leave the version out for NLM and NSM. *)
Definition program_prefix (prog : string) : string :=
  match List.find (fun p => bool_decide (fst p = prog))
    [("PORTMAPPER2", "PMAP2"); ("PORTMAPPER3", "PMAP3"); ("NLM", "NLM4"); ("NSM", "NSM1");
     ("NFS4", "NFSPROC4")] with
  | Some (_, m) => m
  | None => prog
  end.

Definition call_macro (call : string) : option string :=
  match String.index 0 "/" call with
  | Some i => Some (program_prefix (String.substring 0 i call) ++ "_" ++
                    String.substring (S i) (String.length call) call)%string
  | None => None
  end.

Definition documented_procedure (f : rpc_fn) : option Procs.rpc_proc :=
  match call_macro (rf_call f) with Some m => Procs.find_proc m | None => None end.

(** The success payload of a task's comment is the result of the procedure that
    the comment names. *)
Definition payload_agrees (f : rpc_fn) : bool :=
  match rf_contract f, documented_procedure f with
  | Queued _ p, Some pr => bool_decide (p = Procs.resolve (Procs.rp_result pr))
  | _, _ => true
  end.

(** The comments of NLM/SHARE and NLM/UNSHARE name the results of LOCK and
    UNLOCK. *)
Definition payload_exceptions : list string := ["rpc_nlm4_share_task"; "rpc_nlm4_unshare_task"].

(** Every task's comment promises its callback a pointer to the result type
    that the procedure's stub returns, except for the two lock-manager tasks
    listed. *)
Theorem task_payloads f how p pr : In f libnfs_raw_h -> rf_contract f = Queued how p ->
  documented_procedure f = Some pr -> ~ In (rf_name f) payload_exceptions ->
  p = Procs.resolve (Procs.rp_result pr).
Proof.
  intros Hin Hc Hp Hx.
  assert (H : payload_agrees f || mem_str (rf_name f) payload_exceptions = true).
  { revert Hin. apply (forallb_In (fun f => payload_agrees f ||
      mem_str (rf_name f) payload_exceptions)). vm_compute. reflexivity. }
  apply orb_prop in H as [H|H].
  - unfold payload_agrees in H. rewrite Hc, Hp in H. exact (bool_decide_eq_true_1 _ H).
  - destruct Hx. now apply mem_str_In.
Qed.

Lemma in_raw f : List.find (fun g => bool_decide (rf_name g = rf_name f)) libnfs_raw_h = Some f ->
  In f libnfs_raw_h.
Proof. apply List.find_some. Qed.

Lemma task_payloads_witness :
  Points (Ttypedef "READ3res") = Procs.resolve (Procs.rp_result Procs.NFS3_READ).
Proof.
  apply (task_payloads rpc_nfs3_read_task ReturnsPdu).
  - apply in_raw. vm_compute. reflexivity.
  - reflexivity.
  - vm_compute. reflexivity.
  - simpl. intuition discriminate.
Defined.

(** The tasks whose comment names a procedure that no header declares: the two
    generic NULL calls, and two whose macro has an underscore more. *)
Definition unknown_procedures : list string :=
  map rf_name (List.filter (fun f =>
    negb (bool_decide (rf_call f = "")) && negb (bool_decide (is_Some (documented_procedure f))))
    libnfs_raw_h).

Example unknown_procedures_listed : unknown_procedures =
  ["rpc_nsm1_unmonall_task"; "rpc_nsm1_simucrash_task"; "rpc_null_task"; "rpc_null_task_authtls"].
Proof. vm_compute. reflexivity. Qed.

(** The shape of an asynchronous call: the context first, one callback, one
    private pointer for it. *)
Definition task_shaped (f : rpc_fn) : bool :=
  match rf_params f with
  | (_, t) :: ps =>
      bool_decide (t = Tptr (Tstruct "rpc_context")) &&
      (length (List.filter (fun q => is_callback (snd q)) ps) =? 1)%nat &&
      (length (List.filter (fun q => bool_decide (q = ("private_data", Tptr Tvoid))) ps) =? 1)%nat
  | [] => false
  end.

(** The result that the contract describes: a pdu to cancel, or a status. *)
Definition starts_as_documented (f : rpc_fn) : bool :=
  match rf_contract f with
  | Queued ReturnsPdu _ => bool_decide (rf_ret f = Tptr (Tstruct "rpc_pdu"))
  | Queued ReturnsZero _ => bool_decide (rf_ret f = Tint)
  | _ => true
  end.

(** These return a pdu, and their comments say 0 or a negative value. *)
Definition start_exceptions : list string :=
  ["rpc_nfs4_compound_task2"; "rpc_nfs4_read_task"; "rpc_nfs4_readv_task"; "rpc_nfs4_write_task";
   "rpc_null_task"].

(** A call that returns a pdu where its comment says a status. *)
Definition returns_other (f : rpc_fn) : bool :=
  match rf_contract f with
  | Queued ReturnsZero _ => bool_decide (rf_ret f = Tptr (Tstruct "rpc_pdu"))
  | _ => false
  end.

Definition task_checked (f : rpc_fn) : bool :=
  match rf_contract f with
  | Queued _ _ => task_shaped f && Bool.eqb (mem_str (rf_name f) start_exceptions) (returns_other f)
                  && (mem_str (rf_name f) start_exceptions || starts_as_documented f)
  | _ => true
  end.

(** Every call with a callback contract takes the context, one callback and
    its private pointer; and it returns what its comment says, a pdu or a status,
    except for the five listed, whose comments still describe a status. *)
Theorem tasks_as_documented f how p : In f libnfs_raw_h -> rf_contract f = Queued how p ->
  task_shaped f = true /\
  (In (rf_name f) start_exceptions <->
   how = ReturnsZero /\ rf_ret f = Tptr (Tstruct "rpc_pdu")) /\
  (~ In (rf_name f) start_exceptions -> starts_as_documented f = true).
Proof.
  intros Hin Hc.
  assert (H : task_checked f = true) by (revert Hin; apply forallb_In; vm_compute; reflexivity).
  unfold task_checked, returns_other in H. rewrite Hc in H. apply andb_prop in H as [H H3].
  apply andb_prop in H as [H1 H2]. apply eqb_prop in H2.
  rewrite <- mem_str_In, H2. split; [exact H1|]. split.
  - destruct how; [split; [discriminate|intros [[=] _]]|]. rewrite bool_decide_eq_true. tauto.
  - intros Hx. rewrite H2 in H3. destruct (match how with ReturnsPdu => _ | _ => _ end); [done|exact H3].
Qed.

Lemma tasks_as_documented_witness :
  task_shaped rpc_nfs4_read_task = true /\
  (In (rf_name rpc_nfs4_read_task) start_exceptions <->
   ReturnsZero = ReturnsZero /\ rf_ret rpc_nfs4_read_task = Tptr (Tstruct "rpc_pdu")) /\
  (~ In (rf_name rpc_nfs4_read_task) start_exceptions -> starts_as_documented rpc_nfs4_read_task = true).
Proof.
  apply (tasks_as_documented rpc_nfs4_read_task ReturnsZero (Points (Ttypedef "COMPOUND4res"))).
  - apply in_raw. vm_compute. reflexivity.
  - reflexivity.
Defined.

(** ** What a callback may receive *)

(** The statuses and data that a task's comment lets its callback receive. *)
Definition callback_may (f : rpc_fn) (status : Z) (data : cdata) : bool :=
  match rf_contract f with
  | Queued _ p =>
      if status =? RPC_STATUS_SUCCESS then payload_matches p data
      else if status =? RPC_STATUS_ERROR then match data with CString _ => true | _ => false end
      else if status =? RPC_STATUS_CANCEL then match data with CNull => true | _ => false end
      else false
  | _ => false
  end.

(** A handler that reads its data only under RPC_STATUS_SUCCESS, as the
    documented result type, is right: no task's callback receives a string or a
    pointer of another type with that status, nor the documented pointer with
    another one; and RPC_STATUS_TIMEOUT, though defined, is promised by no
    comment. *)
Theorem success_data_typed f how t status data : rf_contract f = Queued how (Points t) ->
  callback_may f status data = true ->
  (status = RPC_STATUS_SUCCESS <-> exists a, a <> 0 /\ data = CPointer t a) /\
  status <> RPC_STATUS_TIMEOUT.
Proof.
  intros Hc. unfold callback_may. rewrite Hc. unfold RPC_STATUS_SUCCESS, RPC_STATUS_ERROR,
    RPC_STATUS_CANCEL, RPC_STATUS_TIMEOUT.
  destruct (status =? 0) eqn:E0; [|destruct (status =? 1) eqn:E1; [|destruct (status =? 2) eqn:E2]];
    try discriminate; destruct data as [|s|t' a]; try discriminate; cbn; intros H.
  - apply andb_prop in H as [H1 H2]. apply bool_decide_eq_true_1 in H1 as <-.
    split; [|lia]. split; [|lia]. intros _. exists a. split; [lia|done].
  - split; [|lia]. split; [lia|]. intros (? & _ & [=]).
  - split; [|lia]. split; [lia|]. intros (? & _ & [=]).
Qed.

Lemma success_data_typed_witness :
  (RPC_STATUS_ERROR = RPC_STATUS_SUCCESS <-> exists a, a <> 0 /\ CString "NFS3ERR_IO" = CPointer (Ttypedef "READ3res") a) /\
  RPC_STATUS_ERROR <> RPC_STATUS_TIMEOUT.
Proof. apply (success_data_typed rpc_nfs3_read_task ReturnsPdu); reflexivity. Defined.

End Rpc.
