(* ===== verification/LibnfsPrivate.v ===== *)
(** * libnfs-private.h

    The internal declarations of libnfs that the C target of the package carries
    (Sources/nfs/include/libnfs-private.h and config.h): its constants, macros and
    structures as config.h configures them, and the entry points of the NFSv3 and
    NFSv4 back ends.  The functions themselves are not in the repository. *)

From Stdlib Require Import Strings.Byte.
From stdpp Require Import base list strings numbers pretty.
From S2P Require Import Prelude CType RpcApi.

Open Scope string_scope.
Open Scope Z_scope.

Module Private.

(** A pointer; and the bytes of a structure that another library defines. *)
Abbreviation ptr := Z (only parsing).
Abbreviation opaque := (list byte) (only parsing).

(** ** Configuration

    The switches of config.h that select between the definitions below.  config.h
    defines HAVE_STDATOMIC_H, and neither HAVE_MULTITHREADING, HAVE_TLS nor
    HAVE_LIBKRB5; the fields these guard are left out of the structures. *)

Record Config := mkConfig { have_multithreading : bool; have_stdatomic_h : bool }.

Definition build_config : Config := mkConfig false true.

(** ** Constants *)

Definition RPC_CONTEXT_MAGIC : Z := 0xc6e46435.
Definition RPC_PARAM_UNDEFINED : Z := -1.
Definition DEFAULT_HASHES : Z := 4.
Definition NFS_RA_TIMEOUT : Z := 5.

(** [NFSMAXDATA2] of libnfs-raw-nfs.h. *)
Definition NFSMAXDATA2 : Z := 8192.
Definition NFS_MIN_XFER_SIZE : Z := NFSMAXDATA2.
Definition NFS_MAX_XFER_SIZE : Z := 4 * 1024 * 1024.
Definition NFS_DEF_XFER_SIZE : Z := 1 * 1024 * 1024.
Definition ZDR_ENCODE_OVERHEAD : Z := 1024.
Definition ZDR_ENCODEBUF_MINSIZE : Z := 4096.
Definition RPC_FAST_VECTORS : Z := 8.
Definition RPC_MAX_VECTORS : Z := 1024.
Definition MAX_DIR_CACHE : Z := 128.
Definition MAX_LINK_COUNT : Z := 40.

(** ** Macros *)

Definition MIN (a b : Z) : Z := if a <? b then a else b.
Definition MAX (a b : Z) : Z := if a >? b then a else b.

(** [++] on an [int]: overflow is undefined ([None]). *)
Definition int_add (x d : Z) : option Z :=
  if decide (- 2 ^ 31 <= x + d < 2 ^ 31) then Some (x + d) else None.

(** [atomic_fetch_add] on an [atomic_int]: wraps around. *)
Definition atomic_add (x d : Z) : Z := (x + d + 2 ^ 31) mod 2 ^ 32 - 2 ^ 31.

Inductive mutex_op := MutexLock | MutexUnlock.

(** The three definitions of [ATOMIC_INC] and [ATOMIC_DEC]: the operations on the
    mutex, and the new value.  [enabled] is [rpc->multithreading_enabled]. *)
Definition atomic_step (cfg : Config) (enabled : bool) (d x : Z) : list mutex_op * option Z :=
  if have_multithreading cfg then
    if have_stdatomic_h cfg then ([], Some (atomic_add x d))
    else ((if enabled then [MutexLock] else []) ++ (if enabled then [MutexUnlock] else []),
          int_add x d)%list
  else ([], int_add x d).

Definition ATOMIC_INC (cfg : Config) (enabled : bool) (x : Z) : list mutex_op * option Z :=
  atomic_step cfg enabled 1 x.

Definition ATOMIC_DEC (cfg : Config) (enabled : bool) (x : Z) : list mutex_op * option Z :=
  atomic_step cfg enabled (-1) x.

(** [INC_STATS]: a 64-bit counter of [rpc_stats]. *)
Definition INC_STATS (stat : Z) : Z := (stat + 1) mod 2 ^ 64.

(** [RPC_LOG]: the line given to the log callback, cut to the 254 characters that
    [snprintf(xxlogbuf, 255, ...)] writes.  [rpc] is the text of "%p". *)
Definition RPC_LOG (log_cb : bool) (debug level : Z) (rpc message : string) : option (Z * string) :=
  if log_cb && (level <=? debug)
  then Some (level, String.substring 0 254
                      ("libnfs:" ++ pretty level ++ " rpc " ++ rpc ++ " " ++ message))
  else None.

(** ** Structures *)

Inductive input_state :=
  | READ_RM | READ_PAYLOAD | READ_FRAGMENT | READ_IOVEC | READ_PADDING | READ_UNKNOWN.

Definition input_state_value (s : input_state) : Z :=
  match s with
  | READ_RM => 0
  | READ_PAYLOAD => 1
  | READ_FRAGMENT => 2
  | READ_IOVEC => 3
  | READ_PADDING => 4
  | READ_UNKNOWN => 5
  end.

(** An internal entry point: it returns an [int]. *)
Record backend_fn := mkBackend {
  bf_name : string;
  bf_params : list (string * ctype)
}.

Record rpc_fragment := mk_rpc_fragment {
  frag_next : ptr; frag_size : Z; frag_data : ptr
}.

Record rpc_queue := mk_rpc_queue {
  queue_head : ptr; queue_tail : ptr
}.

Record rpc_endpoint := mk_rpc_endpoint {
  endpoint_next : ptr; endpoint_program : Z; endpoint_version : Z; endpoint_procs : ptr;
     endpoint_num_procs : Z
}.

Record rpc_iovec := mk_rpc_iovec {
  iov_buf : ptr; iov_len : Z; iov_free : ptr
}.

Record rpc_io_vectors := mk_rpc_io_vectors {
  vec_num_done : Z; vec_total_size : Z; vec_iov_capacity : Z; vec_niov : Z; vec_iov : ptr;
     vec_fast_iov : list rpc_iovec
}.

Record rpc_iovec_cursor := mk_rpc_iovec_cursor {
  cur_base : ptr; cur_iov : ptr; cur_iovcnt : Z; cur_remaining_size : Z; cur_iov_ref : ptr;
     cur_iovcnt_ref : Z
}.

Record rpc_context := mk_rpc_context {
  ctx_magic : Z; ctx_fd : Z; ctx_socket_disabled : Z; ctx_old_fd : Z; ctx_is_connected : Z;
     ctx_is_nonblocking : Z; ctx_error_string : ptr; ctx_program : Z; ctx_version : Z;
     ctx_connect_cb : Z; ctx_connect_data : ptr; ctx_auth : ptr; ctx_xid : Z;
     ctx_outqueue : rpc_queue; ctx_udp_src : opaque; ctx_num_hashes : Z; ctx_waitpdu : ptr;
     ctx_waitpdu_len : Z; ctx_max_waitpdu_len : Z; ctx_inpos : Z; ctx_inbuf_size : Z;
     ctx_inbuf : ptr; ctx_state : input_state; ctx_rm_xid : list Z; ctx_pdu_size : Z;
     ctx_buf : ptr; ctx_pdu : ptr; ctx_is_udp : Z; ctx_udp_dest : opaque;
     ctx_is_broadcast : Z; ctx_s : opaque; ctx_auto_reconnect : Z; ctx_num_retries : Z;
     ctx_server : ptr; ctx_fragments : ptr; ctx_tcp_syncnt : Z; ctx_uid : Z; ctx_gid : Z;
     ctx_debug : Z; ctx_last_timeout_scan : Z; ctx_last_successful_rpc_response : Z;
     ctx_timeout : Z; ctx_retrans : Z; ctx_ifname : list Z; ctx_poll_timeout : Z;
     ctx_is_server_context : Z; ctx_endpoints : ptr; ctx_stats : Rpc.rpc_stats;
     ctx_stats_cb : Z; ctx_stats_private_data : ptr; ctx_log_cb : Z;
     ctx_log_private_data : ptr
}.

Record rpc_pdu := mk_rpc_pdu {
  pdu_next : ptr; pdu_xid : Z; pdu_zdr : opaque; pdu_zdr_in : opaque; pdu_free_zdr : Z;
     pdu_free_pdu : Z; pdu_outdata : Rpc.rpc_data; pdu_out : rpc_io_vectors;
     pdu_in : rpc_iovec_cursor; pdu_read_count : Z; pdu_requested_read_count : Z;
     pdu_cb : Z; pdu_private_data : ptr; pdu_zdr_decode_fn : Z; pdu_zdr_decode_buf : Z;
     pdu_zdr_decode_bufsize : Z; pdu_discard_after_sending : Z; pdu_zero_copy_iov : Z;
     pdu_do_not_retry : Z; pdu_timeout : Z; pdu_major_timeout : Z; pdu_snr_logged : Z;
     pdu_msg : opaque; pdu_pdu_stats : Rpc.rpc_pdu_stats
}.

Record nfs_specdata := mk_nfs_specdata {
  specdata1 : Z; specdata2 : Z
}.

Record nfs_time := mk_nfs_time {
  seconds : Z; nseconds : Z
}.

Record nfs_attr := mk_nfs_attr {
  attr_type : Z; attr_mode : Z; attr_uid : Z; attr_gid : Z; attr_nlink : Z; attr_size : Z;
     attr_used : Z; attr_fsid : Z; attr_rdev : nfs_specdata; attr_atime : nfs_time;
     attr_mtime : nfs_time; attr_ctime : nfs_time
}.

Record nfs_fh := mk_nfs_fh {
  fh_len : Z; fh_val : ptr
}.

Record nfs_context_internal := mk_nfs_context_internal {
  nfsi_server : ptr; nfsi_export : ptr; nfsi_cwd : ptr; nfsi_rootfh : nfs_fh;
     nfsi_readmax : Z; nfsi_writemax : Z; nfsi_auto_reconnect : Z; nfsi_timeout : Z;
     nfsi_retrans : Z; nfsi_dircache_enabled : Z; nfsi_dircache : ptr; nfsi_mask : Z;
     nfsi_auto_traverse_mounts : Z; nfsi_nested_mounts : ptr; nfsi_default_version : Z;
     nfsi_version : Z; nfsi_nfsport : Z; nfsi_mountport : Z; nfsi_readdir_dircount : Z;
     nfsi_readdir_maxcount : Z; nfsi_verifier : list Z; nfsi_client_name : ptr;
     nfsi_clientid : Z; nfsi_setclientid_confirm : list Z; nfsi_open_counter : Z;
     nfsi_has_lock_owner : Z
}.

Record nfs_context := mk_nfs_context {
  nfs_rpc : ptr; nfs_nfsi : ptr; nfs_error_string : ptr
}.

Record nfs_cb_data := mk_nfs_cb_data {
  cb_nfs : ptr; cb_nfsfh : ptr; cb_saved_path : ptr; cb_path : ptr; cb_link_count : Z;
     cb_no_follow : Z; cb_cb : Z; cb_private_data : ptr; cb_continue_cb : Z;
     cb_continue_data : ptr; cb_free_continue_data : ptr; cb_continue_int : Z;
     cb_fh : nfs_fh; cb_error : Z; cb_cancel : Z; cb_oom : Z; cb_num_calls : Z;
     cb_count : Z; cb_org_count : Z; cb_offset : Z; cb_max_offset : Z; cb_org_offset : Z;
     cb_buffer : ptr; cb_not_my_buffer : Z; cb_usrbuf : ptr; cb_update_pos : Z
}.

Record nested_mounts := mk_nested_mounts {
  nm_next : ptr; nm_path : ptr; nm_fh : nfs_fh; nm_attr : nfs_attr
}.

Record nfsdir := mk_nfsdir {
  dir_fh : nfs_fh; dir_attr : nfs_attr; dir_next : ptr; dir_entries : ptr; dir_current : ptr
}.

Record stateid := mk_stateid {
  state_seqid : Z; state_other : list Z
}.

Record nfsfh := mk_nfsfh {
  nfsfh_fh : nfs_fh; nfsfh_is_sync : Z; nfsfh_is_append : Z; nfsfh_is_dirty : Z;
     nfsfh_offset : Z; nfsfh_stateid : stateid; nfsfh_open_owner : Z; nfsfh_open_seqid : Z;
     nfsfh_lock_seqid : Z; nfsfh_lock_stateid : stateid
}.

(** ** The two protocol back ends *)

Definition nfs3_access_async : backend_fn :=
  mkBackend "nfs3_access_async" [("nfs", Tptr (Tstruct "nfs_context"));
     ("path", Tptr (Tconst (Tchar))); ("mode", Tint); ("cb", Ttypedef "nfs_cb");
     ("private_data", Tptr (Tvoid))].

Definition nfs3_access2_async : backend_fn :=
  mkBackend "nfs3_access2_async" [("nfs", Tptr (Tstruct "nfs_context"));
     ("path", Tptr (Tconst (Tchar))); ("cb", Ttypedef "nfs_cb");
     ("private_data", Tptr (Tvoid))].

Definition nfs3_chdir_async : backend_fn :=
  mkBackend "nfs3_chdir_async" [("nfs", Tptr (Tstruct "nfs_context"));
     ("path", Tptr (Tconst (Tchar))); ("cb", Ttypedef "nfs_cb");
     ("private_data", Tptr (Tvoid))].

Definition nfs3_chmod_async_internal : backend_fn :=
  mkBackend "nfs3_chmod_async_internal" [("nfs", Tptr (Tstruct "nfs_context"));
     ("path", Tptr (Tconst (Tchar))); ("no_follow", Tint); ("mode", Tint);
     ("cb", Ttypedef "nfs_cb"); ("private_data", Tptr (Tvoid))].

Definition nfs3_chown_async_internal : backend_fn :=
  mkBackend "nfs3_chown_async_internal" [("nfs", Tptr (Tstruct "nfs_context"));
     ("path", Tptr (Tconst (Tchar))); ("no_follow", Tint); ("uid", Tint); ("gid", Tint);
     ("cb", Ttypedef "nfs_cb"); ("private_data", Tptr (Tvoid))].

Definition nfs3_close_async : backend_fn :=
  mkBackend "nfs3_close_async" [("nfs", Tptr (Tstruct "nfs_context"));
     ("nfsfh", Tptr (Tstruct "nfsfh")); ("cb", Ttypedef "nfs_cb");
     ("private_data", Tptr (Tvoid))].

Definition nfs3_creat_async : backend_fn :=
  mkBackend "nfs3_creat_async" [("nfs", Tptr (Tstruct "nfs_context"));
     ("path", Tptr (Tconst (Tchar))); ("mode", Tint); ("cb", Ttypedef "nfs_cb");
     ("private_data", Tptr (Tvoid))].

Definition nfs3_fchmod_async : backend_fn :=
  mkBackend "nfs3_fchmod_async" [("nfs", Tptr (Tstruct "nfs_context"));
     ("nfsfh", Tptr (Tstruct "nfsfh")); ("mode", Tint); ("cb", Ttypedef "nfs_cb");
     ("private_data", Tptr (Tvoid))].

Definition nfs3_fchown_async : backend_fn :=
  mkBackend "nfs3_fchown_async" [("nfs", Tptr (Tstruct "nfs_context"));
     ("nfsfh", Tptr (Tstruct "nfsfh")); ("uid", Tint); ("gid", Tint);
     ("cb", Ttypedef "nfs_cb"); ("private_data", Tptr (Tvoid))].

Definition nfs3_fstat_async : backend_fn :=
  mkBackend "nfs3_fstat_async" [("nfs", Tptr (Tstruct "nfs_context"));
     ("nfsfh", Tptr (Tstruct "nfsfh")); ("cb", Ttypedef "nfs_cb");
     ("private_data", Tptr (Tvoid))].

Definition nfs3_fstat64_async : backend_fn :=
  mkBackend "nfs3_fstat64_async" [("nfs", Tptr (Tstruct "nfs_context"));
     ("nfsfh", Tptr (Tstruct "nfsfh")); ("cb", Ttypedef "nfs_cb");
     ("private_data", Tptr (Tvoid))].

Definition nfs3_fsync_async : backend_fn :=
  mkBackend "nfs3_fsync_async" [("nfs", Tptr (Tstruct "nfs_context"));
     ("nfsfh", Tptr (Tstruct "nfsfh")); ("cb", Ttypedef "nfs_cb");
     ("private_data", Tptr (Tvoid))].

Definition nfs3_ftruncate_async : backend_fn :=
  mkBackend "nfs3_ftruncate_async" [("nfs", Tptr (Tstruct "nfs_context"));
     ("nfsfh", Tptr (Tstruct "nfsfh")); ("length", Tuint64); ("cb", Ttypedef "nfs_cb");
     ("private_data", Tptr (Tvoid))].

Definition nfs3_link_async : backend_fn :=
  mkBackend "nfs3_link_async" [("nfs", Tptr (Tstruct "nfs_context"));
     ("oldpath", Tptr (Tconst (Tchar))); ("newpath", Tptr (Tconst (Tchar)));
     ("cb", Ttypedef "nfs_cb"); ("private_data", Tptr (Tvoid))].

Definition nfs3_lseek_async : backend_fn :=
  mkBackend "nfs3_lseek_async" [("nfs", Tptr (Tstruct "nfs_context"));
     ("nfsfh", Tptr (Tstruct "nfsfh")); ("offset", Tint64); ("whence", Tint);
     ("cb", Ttypedef "nfs_cb"); ("private_data", Tptr (Tvoid))].

Definition nfs3_mkdir2_async : backend_fn :=
  mkBackend "nfs3_mkdir2_async" [("nfs", Tptr (Tstruct "nfs_context"));
     ("path", Tptr (Tconst (Tchar))); ("mode", Tint); ("cb", Ttypedef "nfs_cb");
     ("private_data", Tptr (Tvoid))].

Definition nfs3_mknod_async : backend_fn :=
  mkBackend "nfs3_mknod_async" [("nfs", Tptr (Tstruct "nfs_context"));
     ("path", Tptr (Tconst (Tchar))); ("mode", Tint); ("dev", Tint);
     ("cb", Ttypedef "nfs_cb"); ("private_data", Tptr (Tvoid))].

Definition nfs3_mount_async : backend_fn :=
  mkBackend "nfs3_mount_async" [("nfs", Tptr (Tstruct "nfs_context"));
     ("server", Tptr (Tconst (Tchar))); ("export", Tptr (Tconst (Tchar)));
     ("cb", Ttypedef "nfs_cb"); ("private_data", Tptr (Tvoid))].

Definition nfs3_open_async : backend_fn :=
  mkBackend "nfs3_open_async" [("nfs", Tptr (Tstruct "nfs_context"));
     ("path", Tptr (Tconst (Tchar))); ("flags", Tint); ("mode", Tint);
     ("cb", Ttypedef "nfs_cb"); ("private_data", Tptr (Tvoid))].

Definition nfs3_opendir_async : backend_fn :=
  mkBackend "nfs3_opendir_async" [("nfs", Tptr (Tstruct "nfs_context"));
     ("path", Tptr (Tconst (Tchar))); ("cb", Ttypedef "nfs_cb");
     ("private_data", Tptr (Tvoid))].

Definition nfs3_pread_async_internal : backend_fn :=
  mkBackend "nfs3_pread_async_internal" [("nfs", Tptr (Tstruct "nfs_context"));
     ("nfsfh", Tptr (Tstruct "nfsfh")); ("buf", Tptr (Tvoid)); ("count", Tsize);
     ("offset", Tuint64); ("cb", Ttypedef "nfs_cb"); ("private_data", Tptr (Tvoid));
     ("update_pos", Tint)].

Definition nfs3_pwrite_async_internal : backend_fn :=
  mkBackend "nfs3_pwrite_async_internal" [("nfs", Tptr (Tstruct "nfs_context"));
     ("nfsfh", Tptr (Tstruct "nfsfh")); ("buf", Tptr (Tconst (Tchar))); ("count", Tsize);
     ("offset", Tuint64); ("cb", Ttypedef "nfs_cb"); ("private_data", Tptr (Tvoid));
     ("update_pos", Tint)].

Definition nfs3_readlink_async : backend_fn :=
  mkBackend "nfs3_readlink_async" [("nfs", Tptr (Tstruct "nfs_context"));
     ("path", Tptr (Tconst (Tchar))); ("cb", Ttypedef "nfs_cb");
     ("private_data", Tptr (Tvoid))].

Definition nfs3_rename_async : backend_fn :=
  mkBackend "nfs3_rename_async" [("nfs", Tptr (Tstruct "nfs_context"));
     ("oldpath", Tptr (Tconst (Tchar))); ("newpath", Tptr (Tconst (Tchar)));
     ("cb", Ttypedef "nfs_cb"); ("private_data", Tptr (Tvoid))].

Definition nfs3_rmdir_async : backend_fn :=
  mkBackend "nfs3_rmdir_async" [("nfs", Tptr (Tstruct "nfs_context"));
     ("path", Tptr (Tconst (Tchar))); ("cb", Ttypedef "nfs_cb");
     ("private_data", Tptr (Tvoid))].

Definition nfs3_stat_async : backend_fn :=
  mkBackend "nfs3_stat_async" [("nfs", Tptr (Tstruct "nfs_context"));
     ("path", Tptr (Tconst (Tchar))); ("cb", Ttypedef "nfs_cb");
     ("private_data", Tptr (Tvoid))].

Definition nfs3_stat64_async : backend_fn :=
  mkBackend "nfs3_stat64_async" [("nfs", Tptr (Tstruct "nfs_context"));
     ("path", Tptr (Tconst (Tchar))); ("no_follow", Tint); ("cb", Ttypedef "nfs_cb");
     ("private_data", Tptr (Tvoid))].

Definition nfs3_statvfs_async : backend_fn :=
  mkBackend "nfs3_statvfs_async" [("nfs", Tptr (Tstruct "nfs_context"));
     ("path", Tptr (Tconst (Tchar))); ("cb", Ttypedef "nfs_cb");
     ("private_data", Tptr (Tvoid))].

Definition nfs3_statvfs64_async : backend_fn :=
  mkBackend "nfs3_statvfs64_async" [("nfs", Tptr (Tstruct "nfs_context"));
     ("path", Tptr (Tconst (Tchar))); ("cb", Ttypedef "nfs_cb");
     ("private_data", Tptr (Tvoid))].

Definition nfs3_symlink_async : backend_fn :=
  mkBackend "nfs3_symlink_async" [("nfs", Tptr (Tstruct "nfs_context"));
     ("oldpath", Tptr (Tconst (Tchar))); ("newpath", Tptr (Tconst (Tchar)));
     ("cb", Ttypedef "nfs_cb"); ("private_data", Tptr (Tvoid))].

Definition nfs3_truncate_async : backend_fn :=
  mkBackend "nfs3_truncate_async" [("nfs", Tptr (Tstruct "nfs_context"));
     ("path", Tptr (Tconst (Tchar))); ("length", Tuint64); ("cb", Ttypedef "nfs_cb");
     ("private_data", Tptr (Tvoid))].

Definition nfs3_umount_async : backend_fn :=
  mkBackend "nfs3_umount_async" [("nfs", Tptr (Tstruct "nfs_context"));
     ("cb", Ttypedef "nfs_cb"); ("private_data", Tptr (Tvoid))].

Definition nfs3_unlink_async : backend_fn :=
  mkBackend "nfs3_unlink_async" [("nfs", Tptr (Tstruct "nfs_context"));
     ("path", Tptr (Tconst (Tchar))); ("cb", Ttypedef "nfs_cb");
     ("private_data", Tptr (Tvoid))].

Definition nfs3_utime_async : backend_fn :=
  mkBackend "nfs3_utime_async" [("nfs", Tptr (Tstruct "nfs_context"));
     ("path", Tptr (Tconst (Tchar))); ("times", Tptr (Tstruct "utimbuf"));
     ("cb", Ttypedef "nfs_cb"); ("private_data", Tptr (Tvoid))].

Definition nfs3_utimes_async_internal : backend_fn :=
  mkBackend "nfs3_utimes_async_internal" [("nfs", Tptr (Tstruct "nfs_context"));
     ("path", Tptr (Tconst (Tchar))); ("no_follow", Tint);
     ("times", Tptr (Tstruct "timeval")); ("cb", Ttypedef "nfs_cb");
     ("private_data", Tptr (Tvoid))].

Definition nfs3_write_async : backend_fn :=
  mkBackend "nfs3_write_async" [("nfs", Tptr (Tstruct "nfs_context"));
     ("nfsfh", Tptr (Tstruct "nfsfh")); ("buf", Tptr (Tconst (Tvoid))); ("count", Tsize);
     ("cb", Ttypedef "nfs_cb"); ("private_data", Tptr (Tvoid))].

Definition nfs4_access_async : backend_fn :=
  mkBackend "nfs4_access_async" [("nfs", Tptr (Tstruct "nfs_context"));
     ("path", Tptr (Tconst (Tchar))); ("mode", Tint); ("cb", Ttypedef "nfs_cb");
     ("private_data", Tptr (Tvoid))].

Definition nfs4_access2_async : backend_fn :=
  mkBackend "nfs4_access2_async" [("nfs", Tptr (Tstruct "nfs_context"));
     ("path", Tptr (Tconst (Tchar))); ("cb", Ttypedef "nfs_cb");
     ("private_data", Tptr (Tvoid))].

Definition nfs4_chdir_async : backend_fn :=
  mkBackend "nfs4_chdir_async" [("nfs", Tptr (Tstruct "nfs_context"));
     ("path", Tptr (Tconst (Tchar))); ("cb", Ttypedef "nfs_cb");
     ("private_data", Tptr (Tvoid))].

Definition nfs4_chmod_async_internal : backend_fn :=
  mkBackend "nfs4_chmod_async_internal" [("nfs", Tptr (Tstruct "nfs_context"));
     ("path", Tptr (Tconst (Tchar))); ("no_follow", Tint); ("mode", Tint);
     ("cb", Ttypedef "nfs_cb"); ("private_data", Tptr (Tvoid))].

Definition nfs4_chown_async_internal : backend_fn :=
  mkBackend "nfs4_chown_async_internal" [("nfs", Tptr (Tstruct "nfs_context"));
     ("path", Tptr (Tconst (Tchar))); ("no_follow", Tint); ("uid", Tint); ("gid", Tint);
     ("cb", Ttypedef "nfs_cb"); ("private_data", Tptr (Tvoid))].

Definition nfs4_close_async : backend_fn :=
  mkBackend "nfs4_close_async" [("nfs", Tptr (Tstruct "nfs_context"));
     ("nfsfh", Tptr (Tstruct "nfsfh")); ("cb", Ttypedef "nfs_cb");
     ("private_data", Tptr (Tvoid))].

Definition nfs4_creat_async : backend_fn :=
  mkBackend "nfs4_creat_async" [("nfs", Tptr (Tstruct "nfs_context"));
     ("path", Tptr (Tconst (Tchar))); ("mode", Tint); ("cb", Ttypedef "nfs_cb");
     ("private_data", Tptr (Tvoid))].

Definition nfs4_fchmod_async : backend_fn :=
  mkBackend "nfs4_fchmod_async" [("nfs", Tptr (Tstruct "nfs_context"));
     ("nfsfh", Tptr (Tstruct "nfsfh")); ("mode", Tint); ("cb", Ttypedef "nfs_cb");
     ("private_data", Tptr (Tvoid))].

Definition nfs4_fchown_async : backend_fn :=
  mkBackend "nfs4_fchown_async" [("nfs", Tptr (Tstruct "nfs_context"));
     ("nfsfh", Tptr (Tstruct "nfsfh")); ("uid", Tint); ("gid", Tint);
     ("cb", Ttypedef "nfs_cb"); ("private_data", Tptr (Tvoid))].

Definition nfs4_fcntl_async : backend_fn :=
  mkBackend "nfs4_fcntl_async" [("nfs", Tptr (Tstruct "nfs_context"));
     ("nfsfh", Tptr (Tstruct "nfsfh")); ("cmd", Tenum "nfs4_fcntl_op");
     ("arg", Tptr (Tvoid)); ("cb", Ttypedef "nfs_cb"); ("private_data", Tptr (Tvoid))].

Definition nfs4_fstat64_async : backend_fn :=
  mkBackend "nfs4_fstat64_async" [("nfs", Tptr (Tstruct "nfs_context"));
     ("nfsfh", Tptr (Tstruct "nfsfh")); ("cb", Ttypedef "nfs_cb");
     ("private_data", Tptr (Tvoid))].

Definition nfs4_fsync_async : backend_fn :=
  mkBackend "nfs4_fsync_async" [("nfs", Tptr (Tstruct "nfs_context"));
     ("nfsfh", Tptr (Tstruct "nfsfh")); ("cb", Ttypedef "nfs_cb");
     ("private_data", Tptr (Tvoid))].

Definition nfs4_ftruncate_async : backend_fn :=
  mkBackend "nfs4_ftruncate_async" [("nfs", Tptr (Tstruct "nfs_context"));
     ("nfsfh", Tptr (Tstruct "nfsfh")); ("length", Tuint64); ("cb", Ttypedef "nfs_cb");
     ("private_data", Tptr (Tvoid))].

Definition nfs4_link_async : backend_fn :=
  mkBackend "nfs4_link_async" [("nfs", Tptr (Tstruct "nfs_context"));
     ("oldpath", Tptr (Tconst (Tchar))); ("newpath", Tptr (Tconst (Tchar)));
     ("cb", Ttypedef "nfs_cb"); ("private_data", Tptr (Tvoid))].

Definition nfs4_lseek_async : backend_fn :=
  mkBackend "nfs4_lseek_async" [("nfs", Tptr (Tstruct "nfs_context"));
     ("nfsfh", Tptr (Tstruct "nfsfh")); ("offset", Tint64); ("whence", Tint);
     ("cb", Ttypedef "nfs_cb"); ("private_data", Tptr (Tvoid))].

Definition nfs4_lockf_async : backend_fn :=
  mkBackend "nfs4_lockf_async" [("nfs", Tptr (Tstruct "nfs_context"));
     ("nfsfh", Tptr (Tstruct "nfsfh")); ("op", Tenum "nfs4_lock_op"); ("count", Tuint64);
     ("cb", Ttypedef "nfs_cb"); ("private_data", Tptr (Tvoid))].

Definition nfs4_mkdir2_async : backend_fn :=
  mkBackend "nfs4_mkdir2_async" [("nfs", Tptr (Tstruct "nfs_context"));
     ("path", Tptr (Tconst (Tchar))); ("mode", Tint); ("cb", Ttypedef "nfs_cb");
     ("private_data", Tptr (Tvoid))].

Definition nfs4_mknod_async : backend_fn :=
  mkBackend "nfs4_mknod_async" [("nfs", Tptr (Tstruct "nfs_context"));
     ("path", Tptr (Tconst (Tchar))); ("mode", Tint); ("dev", Tint);
     ("cb", Ttypedef "nfs_cb"); ("private_data", Tptr (Tvoid))].

Definition nfs4_mount_async : backend_fn :=
  mkBackend "nfs4_mount_async" [("nfs", Tptr (Tstruct "nfs_context"));
     ("server", Tptr (Tconst (Tchar))); ("export", Tptr (Tconst (Tchar)));
     ("cb", Ttypedef "nfs_cb"); ("private_data", Tptr (Tvoid))].

Definition nfs4_open_async : backend_fn :=
  mkBackend "nfs4_open_async" [("nfs", Tptr (Tstruct "nfs_context"));
     ("path", Tptr (Tconst (Tchar))); ("flags", Tint); ("mode", Tint);
     ("cb", Ttypedef "nfs_cb"); ("private_data", Tptr (Tvoid))].

Definition nfs4_opendir_async : backend_fn :=
  mkBackend "nfs4_opendir_async" [("nfs", Tptr (Tstruct "nfs_context"));
     ("path", Tptr (Tconst (Tchar))); ("cb", Ttypedef "nfs_cb");
     ("private_data", Tptr (Tvoid))].

Definition nfs4_pread_async_internal : backend_fn :=
  mkBackend "nfs4_pread_async_internal" [("nfs", Tptr (Tstruct "nfs_context"));
     ("nfsfh", Tptr (Tstruct "nfsfh")); ("buf", Tptr (Tvoid)); ("count", Tsize);
     ("offset", Tuint64); ("cb", Ttypedef "nfs_cb"); ("private_data", Tptr (Tvoid));
     ("update_pos", Tint)].

Definition nfs4_pwrite_async_internal : backend_fn :=
  mkBackend "nfs4_pwrite_async_internal" [("nfs", Tptr (Tstruct "nfs_context"));
     ("nfsfh", Tptr (Tstruct "nfsfh")); ("offset", Tuint64); ("count", Tsize);
     ("buf", Tptr (Tconst (Tchar))); ("cb", Ttypedef "nfs_cb");
     ("private_data", Tptr (Tvoid)); ("update_pos", Tint)].

Definition nfs4_readlink_async : backend_fn :=
  mkBackend "nfs4_readlink_async" [("nfs", Tptr (Tstruct "nfs_context"));
     ("path", Tptr (Tconst (Tchar))); ("cb", Ttypedef "nfs_cb");
     ("private_data", Tptr (Tvoid))].

Definition nfs4_rename_async : backend_fn :=
  mkBackend "nfs4_rename_async" [("nfs", Tptr (Tstruct "nfs_context"));
     ("oldpath", Tptr (Tconst (Tchar))); ("newpath", Tptr (Tconst (Tchar)));
     ("cb", Ttypedef "nfs_cb"); ("private_data", Tptr (Tvoid))].

Definition nfs4_rmdir_async : backend_fn :=
  mkBackend "nfs4_rmdir_async" [("nfs", Tptr (Tstruct "nfs_context"));
     ("path", Tptr (Tconst (Tchar))); ("cb", Ttypedef "nfs_cb");
     ("private_data", Tptr (Tvoid))].

Definition nfs4_stat64_async : backend_fn :=
  mkBackend "nfs4_stat64_async" [("nfs", Tptr (Tstruct "nfs_context"));
     ("path", Tptr (Tconst (Tchar))); ("no_follow", Tint); ("cb", Ttypedef "nfs_cb");
     ("private_data", Tptr (Tvoid))].

Definition nfs4_statvfs_async : backend_fn :=
  mkBackend "nfs4_statvfs_async" [("nfs", Tptr (Tstruct "nfs_context"));
     ("path", Tptr (Tconst (Tchar))); ("cb", Ttypedef "nfs_cb");
     ("private_data", Tptr (Tvoid))].

Definition nfs4_statvfs64_async : backend_fn :=
  mkBackend "nfs4_statvfs64_async" [("nfs", Tptr (Tstruct "nfs_context"));
     ("path", Tptr (Tconst (Tchar))); ("cb", Ttypedef "nfs_cb");
     ("private_data", Tptr (Tvoid))].

Definition nfs4_symlink_async : backend_fn :=
  mkBackend "nfs4_symlink_async" [("nfs", Tptr (Tstruct "nfs_context"));
     ("oldpath", Tptr (Tconst (Tchar))); ("newpath", Tptr (Tconst (Tchar)));
     ("cb", Ttypedef "nfs_cb"); ("private_data", Tptr (Tvoid))].

Definition nfs4_truncate_async : backend_fn :=
  mkBackend "nfs4_truncate_async" [("nfs", Tptr (Tstruct "nfs_context"));
     ("path", Tptr (Tconst (Tchar))); ("length", Tuint64); ("cb", Ttypedef "nfs_cb");
     ("private_data", Tptr (Tvoid))].

Definition nfs4_unlink_async : backend_fn :=
  mkBackend "nfs4_unlink_async" [("nfs", Tptr (Tstruct "nfs_context"));
     ("path", Tptr (Tconst (Tchar))); ("cb", Ttypedef "nfs_cb");
     ("private_data", Tptr (Tvoid))].

Definition nfs4_utime_async : backend_fn :=
  mkBackend "nfs4_utime_async" [("nfs", Tptr (Tstruct "nfs_context"));
     ("path", Tptr (Tconst (Tchar))); ("times", Tptr (Tstruct "utimbuf"));
     ("cb", Ttypedef "nfs_cb"); ("private_data", Tptr (Tvoid))].

Definition nfs4_utimes_async_internal : backend_fn :=
  mkBackend "nfs4_utimes_async_internal" [("nfs", Tptr (Tstruct "nfs_context"));
     ("path", Tptr (Tconst (Tchar))); ("no_follow", Tint);
     ("times", Tptr (Tstruct "timeval")); ("cb", Ttypedef "nfs_cb");
     ("private_data", Tptr (Tvoid))].

Definition nfs4_write_async : backend_fn :=
  mkBackend "nfs4_write_async" [("nfs", Tptr (Tstruct "nfs_context"));
     ("nfsfh", Tptr (Tstruct "nfsfh")); ("count", Tuint64); ("buf", Tptr (Tconst (Tvoid)));
     ("cb", Ttypedef "nfs_cb"); ("private_data", Tptr (Tvoid))].

Definition _nfs_mount_async : backend_fn :=
  mkBackend "_nfs_mount_async" [("nfs", Tptr (Tstruct "nfs_context"));
     ("server", Tptr (Tconst (Tchar))); ("exportname", Tptr (Tconst (Tchar)));
     ("cb", Ttypedef "nfs_cb"); ("private_data", Tptr (Tvoid))].

Definition backends : list backend_fn :=
  [nfs3_access_async; nfs3_access2_async; nfs3_chdir_async; nfs3_chmod_async_internal;
     nfs3_chown_async_internal; nfs3_close_async; nfs3_creat_async; nfs3_fchmod_async;
     nfs3_fchown_async; nfs3_fstat_async; nfs3_fstat64_async; nfs3_fsync_async;
     nfs3_ftruncate_async; nfs3_link_async; nfs3_lseek_async; nfs3_mkdir2_async;
     nfs3_mknod_async; nfs3_mount_async; nfs3_open_async; nfs3_opendir_async;
     nfs3_pread_async_internal; nfs3_pwrite_async_internal; nfs3_readlink_async;
     nfs3_rename_async; nfs3_rmdir_async; nfs3_stat_async; nfs3_stat64_async;
     nfs3_statvfs_async; nfs3_statvfs64_async; nfs3_symlink_async; nfs3_truncate_async;
     nfs3_umount_async; nfs3_unlink_async; nfs3_utime_async; nfs3_utimes_async_internal;
     nfs3_write_async; nfs4_access_async; nfs4_access2_async; nfs4_chdir_async;
     nfs4_chmod_async_internal; nfs4_chown_async_internal; nfs4_close_async;
     nfs4_creat_async; nfs4_fchmod_async; nfs4_fchown_async; nfs4_fcntl_async;
     nfs4_fstat64_async; nfs4_fsync_async; nfs4_ftruncate_async; nfs4_link_async;
     nfs4_lseek_async; nfs4_lockf_async; nfs4_mkdir2_async; nfs4_mknod_async;
     nfs4_mount_async; nfs4_open_async; nfs4_opendir_async; nfs4_pread_async_internal;
     nfs4_pwrite_async_internal; nfs4_readlink_async; nfs4_rename_async; nfs4_rmdir_async;
     nfs4_stat64_async; nfs4_statvfs_async; nfs4_statvfs64_async; nfs4_symlink_async;
     nfs4_truncate_async; nfs4_unlink_async; nfs4_utime_async; nfs4_utimes_async_internal;
     nfs4_write_async; _nfs_mount_async].

(** ** Reading the declarations *)

(** "nfs3_x" and "nfs4_x" to "x". *)
Definition base_name (f : backend_fn) : string :=
  String.substring 5 (String.length (bf_name f) - 5) (bf_name f).

Definition protocol (f : backend_fn) : string := String.substring 0 4 (bf_name f).

(** The two entry points whose NFSv4 variant takes its arguments in another order:
    a caller that passes them by position must know which back end it calls. *)
Definition backend_exceptions : list string := ["pwrite_async_internal"; "write_async"].

Definition pair_agrees (f g : backend_fn) : bool :=
  negb (String.eqb (base_name f) (base_name g)) ||
  bool_decide (map snd (bf_params f) = map snd (bf_params g)) ||
  mem_str (base_name f) backend_exceptions.

(** The NFSv3 and the NFSv4 entry point of an operation take parameters of
    the same types in the same order, except for the two writes listed, so that
    libnfs can dispatch on the version by the name alone. *)
Theorem backends_agree f g : In f backends -> In g backends -> base_name f = base_name g ->
  ~ In (base_name f) backend_exceptions -> map snd (bf_params f) = map snd (bf_params g).
Proof.
  intros Hf Hg E Hx.
  assert (H : pair_agrees f g = true).
  { revert f Hf g Hg E Hx. enough (Hall : forallb (fun f => forallb (pair_agrees f) backends) backends = true).
    { intros f Hf g Hg _ _. eapply forallb_In; [|exact Hg]. now apply (forallb_In _ _ f Hall). }
    vm_compute. reflexivity. }
  unfold pair_agrees in H. rewrite E, String.eqb_refl in H. cbn [negb orb] in H.
  apply orb_prop in H as [H|H]; [exact (bool_decide_eq_true_1 _ H)|].
  destruct Hx. apply mem_str_In. now rewrite E.
Qed.

Lemma in_backends f : List.find (fun g => String.eqb (bf_name g) (bf_name f)) backends = Some f ->
  In f backends.
Proof. apply List.find_some. Qed.

Lemma backends_agree_witness :
  map snd (bf_params nfs3_lseek_async) = map snd (bf_params nfs4_lseek_async).
Proof.
  apply backends_agree; [apply in_backends|apply in_backends|reflexivity|];
    [vm_compute; reflexivity|vm_compute; reflexivity|simpl; intuition discriminate].
Defined.

Example writes_disagree :
  map fst (bf_params nfs3_pwrite_async_internal)
    = ["nfs"; "nfsfh"; "buf"; "count"; "offset"; "cb"; "private_data"; "update_pos"] /\
  map fst (bf_params nfs4_pwrite_async_internal)
    = ["nfs"; "nfsfh"; "offset"; "count"; "buf"; "cb"; "private_data"; "update_pos"].
Proof. split; reflexivity. Qed.

(** In each of the three configurations an increment followed by a decrement
    gives the old value back and leaves the mutex as it was, as long as the
    counter is below the largest [int]. *)
Theorem atomic_roundtrip cfg enabled x : - 2 ^ 31 <= x < 2 ^ 31 - 1 ->
  exists y, snd (ATOMIC_INC cfg enabled x) = Some y /\ y = x + 1 /\
    snd (ATOMIC_DEC cfg enabled y) = Some x /\
    In (fst (ATOMIC_INC cfg enabled x)) [[]; [MutexLock; MutexUnlock]] /\
    fst (ATOMIC_DEC cfg enabled y) = fst (ATOMIC_INC cfg enabled x).
Proof.
  intros H. exists (x + 1).
  assert (Hi : int_add x 1 = Some (x + 1)) by (unfold int_add; now rewrite decide_True by lia).
  assert (Hd : int_add (x + 1) (-1) = Some x)
    by (unfold int_add; rewrite decide_True by lia; f_equal; lia).
  assert (Ha : atomic_add x 1 = x + 1) by (unfold atomic_add; rewrite Z.mod_small; lia).
  assert (Hb : atomic_add (x + 1) (-1) = x) by (unfold atomic_add; rewrite Z.mod_small; lia).
  unfold ATOMIC_INC, ATOMIC_DEC, atomic_step.
  destruct (have_multithreading cfg), (have_stdatomic_h cfg), enabled; cbn [fst snd];
    rewrite ?Hi, ?Ha, ?Hd, ?Hb; splits; cbn; auto.
Qed.

Lemma atomic_roundtrip_witness : exists y,
  snd (ATOMIC_INC build_config false 41) = Some y /\ y = 41 + 1 /\
  snd (ATOMIC_DEC build_config false y) = Some 41 /\
  In (fst (ATOMIC_INC build_config false 41)) [[]; [MutexLock; MutexUnlock]] /\
  fst (ATOMIC_DEC build_config false y) = fst (ATOMIC_INC build_config false 41).
Proof. apply atomic_roundtrip. lia. Defined.

Lemma substring_short n s : (String.length (String.substring 0 n s) <= n)%nat.
Proof. revert n. induction s as [|c s IH]; intros [|n]; cbn; try lia. specialize (IH n). lia. Qed.

(** A log line reaches the callback exactly when one is set and the line's
    level is not above the debug level, and then it fits the 256-byte buffer with
    its terminator. *)
Theorem log_line_fits log_cb debug level rpc message :
  (is_Some (RPC_LOG log_cb debug level rpc message) <-> log_cb = true /\ level <= debug) /\
  (forall l s, RPC_LOG log_cb debug level rpc message = Some (l, s) ->
     l = level /\ (String.length s + 1 <= 256)%nat).
Proof.
  unfold RPC_LOG. generalize ("libnfs:" ++ pretty level ++ " rpc " ++ rpc ++ " " ++ message). intros full.
  destruct (log_cb && (level <=? debug)) eqn:E; split.
  - apply andb_prop in E as [-> E]. split; [lia|eauto].
  - intros l s [= <- <-]. split; [done|].
    eapply Nat.le_trans; [apply Nat.add_le_mono_r, substring_short|lia].
  - split; [now intros []|]. intros [-> H]. rewrite (proj2 (Z.leb_le _ _) H) in E. discriminate.
  - discriminate.
Qed.

End Private.
