(* ===== verification/StateMonad.v ===== *)
(** * Stateful code that can trap

    A Swift statement reads and writes the state, and may stop the program: an
    arithmetic overflow, a failed precondition, a continuation resumed twice,
    a dangling reference.  [M S A] is such code; [None] is the trap.  [wp m Q w]
    says that [m], started in [w], does not trap and ends with [Q]. *)

From stdpp Require Import base list.
From S2P Require Import Prelude.

Definition M (S A : Type) : Type := S -> option (A * S).

Section Ops.
Context {S : Type}.

Definition ret {A} (a : A) : M S A := fun w => Some (a, w).

Definition bind {A B} (m : M S A) (k : A -> M S B) : M S B :=
  fun w => match m w with Some (a, w') => k a w' | None => None end.

Definition trap {A} : M S A := fun _ => None.

Definition gets {A} (f : S -> A) : M S A := fun w => Some (f w, w).

Definition modify (f : S -> S) : M S unit := fun w => Some (tt, f w).

(** A step that may trap and gives a value. *)
Definition lift {A} (o : option A) : M S A :=
  fun w => match o with Some a => Some (a, w) | None => None end.

(** A [for] loop over a list. *)
Fixpoint for_each {A} (l : list A) (body : A -> M S unit) : M S unit :=
  match l with
  | [] => ret tt
  | x :: l => bind (body x) (fun _ => for_each l body)
  end.

(** [if b { ... }]. *)
Definition when (b : bool) (m : M S unit) : M S unit := if b then m else ret tt.

End Ops.

Declare Scope monad_scope.
Delimit Scope monad_scope with monad.
Notation "x <- m ;; k" := (bind m (fun x => k))
  (at level 100, m at next level, right associativity) : monad_scope.
Notation "' p <- m ;; k" := (bind m (fun x => match x with p => k end))
  (at level 100, p pattern, m at next level, right associativity) : monad_scope.
Notation "m ;; k" := (bind m (fun _ => k))
  (at level 100, right associativity) : monad_scope.

(** ** Weakest preconditions *)

Section Wp.
Context {S : Type}.

Definition wp {A} (m : M S A) (Q : A -> S -> Prop) (w : S) : Prop :=
  match m w with Some (a, w') => Q a w' | None => False end.

Lemma wp_ret {A} (a : A) Q w : Q a w -> wp (ret a) Q w.
Proof. exact id. Qed.

Lemma wp_bind {A B} (m : M S A) (k : A -> M S B) Q w :
  wp m (fun a => wp (k a) Q) w -> wp (bind m k) Q w.
Proof. unfold wp, bind. destruct (m w) as [[a w']|]; auto. Qed.

Lemma wp_bind_inv {A B} (m : M S A) (k : A -> M S B) Q w :
  wp (bind m k) Q w -> wp m (fun a => wp (k a) Q) w.
Proof. unfold wp, bind. destruct (m w) as [[a w']|]; auto. Qed.

Lemma wp_bind_assoc {A B C} (m : M S A) (k : A -> M S B) (l : B -> M S C) Q w :
  wp (bind (bind m k) l) Q w -> wp (bind m (fun a => bind (k a) l)) Q w.
Proof. unfold wp, bind. destruct (m w) as [[a w']|]; auto. Qed.

Lemma wp_gets {A} (f : S -> A) Q w : Q (f w) w -> wp (gets f) Q w.
Proof. exact id. Qed.

Lemma wp_modify (f : S -> S) Q w : Q tt (f w) -> wp (modify f) Q w.
Proof. exact id. Qed.

Lemma wp_lift {A} (o : option A) Q w :
  (exists a, o = Some a /\ Q a w) -> wp (lift o) Q w.
Proof. intros (a & -> & H). exact H. Qed.

Lemma wp_mono {A} (m : M S A) (Q Q' : A -> S -> Prop) w :
  wp m Q w -> (forall a w', Q a w' -> Q' a w') -> wp m Q' w.
Proof. unfold wp. destruct (m w) as [[a w']|]; auto. Qed.

Lemma wp_when b m Q w :
  (b = true -> wp m Q w) -> (b = false -> Q tt w) -> wp (when b m) Q w.
Proof. destruct b; cbn; intros H1 H2; [now apply H1|now apply H2]. Qed.

(** A loop keeps what every iteration keeps. *)
Lemma wp_for_each {A} (l : list A) body (I : S -> Prop) w :
  I w -> (forall x w, In x l -> I w -> wp (body x) (fun _ => I) w) ->
  wp (for_each l body) (fun _ => I) w.
Proof.
  revert w; induction l as [|x l IH]; intros w Hw Hb; [exact Hw|].
  apply wp_bind. eapply wp_mono; [apply Hb; [now left|exact Hw]|].
  intros [] w' Hw'. apply IH; [exact Hw'|]. intros y w2 Hy. apply Hb. now right.
Qed.

(** What a run that did not trap computed. *)
Lemma wp_run {A} (m : M S A) Q w :
  wp m Q w -> exists a w', m w = Some (a, w') /\ Q a w'.
Proof. unfold wp. destruct (m w) as [[a w']|]; [eauto|tauto]. Qed.

(** The same for a block that returns nothing: it runs, and its final state is good. *)
Lemma wp_block (m : M S unit) (P : S -> Prop) s : wp m (fun _ => P) s ->
  exists s', m s = Some (tt, s') /\ P s'.
Proof. intros H. apply wp_run in H as ([] & s' & H). eauto. Qed.

Lemma wp_final (m : M S unit) (P : S -> Prop) s s' : m s = Some (tt, s') ->
  wp m (fun _ => P) s -> P s'.
Proof. unfold wp. now intros ->. Qed.

(** The postcondition may name the run itself. *)
Lemma wp_exact {A} (m : M S A) (Q : A -> S -> Prop) w :
  wp m Q w -> wp m (fun a w' => Q a w' /\ m w = Some (a, w')) w.
Proof. unfold wp. destruct (m w) as [[a w']|]; auto. Qed.

Lemma wp_intro {A} (m : M S A) (Q : A -> S -> Prop) w a w' :
  m w = Some (a, w') -> Q a w' -> wp m Q w.
Proof. unfold wp. now intros ->. Qed.

End Wp.

(** One step through straight-line code. *)
Ltac wp_step :=
  lazymatch goal with
  | |- wp (bind _ _) _ _ => apply wp_bind
  | |- wp (ret _) _ _ => apply wp_ret
  | |- wp (gets _) _ _ => apply wp_gets
  | |- wp (modify _) _ _ => apply wp_modify
  | |- wp (lift (Some _)) _ _ => apply wp_lift; eexists; split; [reflexivity|]
  | |- wp (when true ?m) ?Q ?w => change (wp m Q w)
  | |- wp (when false ?m) ?Q ?w => change (wp (ret tt) Q w)
  | |- wp (when _ _) _ _ => apply wp_when; intros ?
  end.
Ltac wp_steps := repeat (wp_step; cbn beta).

(** Use a specification that was proved for the call at the head. *)
Ltac wp_apply H := eapply wp_mono; [eapply H | cbn beta].

(** A run of two methods is a run of each. *)
Lemma run_bind {S A B} (m : M S A) (k : A -> M S B) w b w' :
  bind m k w = Some (b, w') -> exists a w1, m w = Some (a, w1) /\ k a w1 = Some (b, w').
Proof. unfold bind. destruct (m w) as [[a w1]|]; [eauto|discriminate]. Qed.

(** ** Footprints

    What a run may have done to the state: [fp_rel] relates the state before to the
    state after, provided that [fp_inv] held before; it holds after, too. *)

Record Footprint (S : Type) := mkFootprint {
  fp_inv : S -> Prop;
  fp_rel : S -> S -> Prop;
  fp_refl : forall w, fp_inv w -> fp_rel w w;
  fp_trans : forall w1 w2 w3, fp_rel w1 w2 -> fp_rel w2 w3 -> fp_rel w1 w3;
  fp_post : forall w w', fp_rel w w' -> fp_inv w'
}.
Arguments fp_inv {S} _ _.
Arguments fp_rel {S} _ _ _.
Arguments fp_refl {S} _ w _.
Arguments fp_trans {S} _ w1 w2 w3 _ _.
Arguments fp_post {S} _ w w' _.

Section Footprints.
Context {S : Type} (F : Footprint S).

(** [fp_keeps F w m]: whatever [m] does from [w] stays within [F]. *)
Definition fp_keeps {A} (w : S) (m : M S A) : Prop :=
  fp_inv F w -> forall a w', m w = Some (a, w') -> fp_rel F w w'.

Definition fp_inert {A} (m : M S A) : Prop := forall w, fp_keeps w m.

Lemma still_ret {A} (a : A) : fp_inert (ret a).
Proof. intros w Hp ? ? [= <- <-]. now apply fp_refl. Qed.

Lemma still_trap {A} : fp_inert (@trap S A).
Proof. intros w Hp ? ? [=]. Qed.

Lemma still_lift {A} (o : option A) : fp_inert (lift o).
Proof. intros w Hp a w'. unfold lift. destruct o; [|discriminate]. intros [= <- <-]. now apply fp_refl. Qed.

Lemma still_bind {A B} w (m : M S A) (k : A -> M S B) :
  fp_keeps w m -> (forall a w', m w = Some (a, w') -> fp_rel F w w' -> fp_keeps w' (k a)) ->
  fp_keeps w (bind m k).
Proof.
  intros Hm Hk Hp b w'. unfold bind. destruct (m w) as [[a w1]|] eqn:E; [|discriminate].
  intros Hb. pose proof (Hm Hp _ _ E) as H1.
  eapply fp_trans; [exact H1|]. eapply Hk; [reflexivity|exact H1|exact (fp_post F _ _ H1)|exact Hb].
Qed.

Lemma inert_bind {A B} (m : M S A) (k : A -> M S B) :
  fp_inert m -> (forall a, fp_inert (k a)) -> fp_inert (bind m k).
Proof. intros Hm Hk w. apply still_bind; [apply Hm|]. intros a w' _ _. apply Hk. Qed.

Lemma inert_gets {A} (f : S -> A) : fp_inert (gets f).
Proof. intros w Hp ? ? [= <- <-]. now apply fp_refl. Qed.

(** After a look at the state the rest may depend on what was seen. *)
Lemma still_gets {A B} w (f : S -> A) (k : A -> M S B) : fp_keeps w (k (f w)) -> fp_keeps w (bind (gets f) k).
Proof. intros H Hp b w' E. now apply (H Hp b w'). Qed.

Lemma still_inert {A} w (m : M S A) : fp_inert m -> fp_keeps w m.
Proof. intros H. apply H. Qed.

(** The invariant may be used to show that it is kept. *)
Lemma still_inv {A} w (m : M S A) : (fp_inv F w -> fp_keeps w m) -> fp_keeps w m.
Proof. intros H Hp. now apply (H Hp). Qed.

Lemma inert_modify (f : S -> S) : (forall w, fp_inv F w -> fp_rel F w (f w)) -> fp_inert (modify f).
Proof. intros H w Hp ? ? [= <- <-]. now apply H. Qed.

Lemma inert_when b (m : M S unit) : fp_inert m -> fp_inert (when b m).
Proof. destruct b; [done|]. intros _. apply still_ret. Qed.

Lemma inert_for_each_in {A} (l : list A) body : (forall x, In x l -> fp_inert (body x)) ->
  fp_inert (for_each l body).
Proof.
  induction l as [|x l IH]; intros H; [apply still_ret|].
  apply inert_bind; [apply H; now left|]. intros _. apply IH. intros y Hy. apply H. now right.
Qed.

Lemma inert_for_each {A} (l : list A) body : (forall x, fp_inert (body x)) -> fp_inert (for_each l body).
Proof. intros H. apply inert_for_each_in. auto. Qed.

Lemma inert_run {A} (m : M S A) w a w' : fp_inert m -> fp_inv F w -> m w = Some (a, w') -> fp_rel F w w'.
Proof. intros H Hp. now apply (H w Hp). Qed.

End Footprints.

Create HintDb footprint.
#[export] Hint Resolve @still_ret @still_trap @still_lift @inert_gets @inert_when @inert_for_each
  inert_modify : footprint.

(** Walk through a term; the calls in it are in the hint database, [md] is for the
    assignments. *)
Ltac inert_step md :=
  lazymatch goal with
  | |- fp_inert _ (bind _ _) => apply inert_bind; [|intro]
  | |- fp_inert _ (when _ _) => apply inert_when
  | |- fp_inert _ (for_each _ _) => apply inert_for_each; intro
  | |- fp_inert _ (modify _) => apply inert_modify; intros ? ?; md
  | |- fp_inert _ (match ?x with _ => _ end) => destruct x
  | |- forall _, _ => intro
  | |- fp_inert _ _ => solve [eauto with footprint]
  end.
Ltac footprint_with md := repeat (inert_step md).
