(* ===== verification/DispatchSource.v ===== *)
(** * Dispatch sources

    The libdispatch objects the event loop keeps.  A source is created
    suspended; [resume] and [suspend] must balance; and the last reference may
    only be dropped while the source is not suspended.  libdispatch stops the
    program when one of these rules is broken: [None]. *)

From stdpp Require Import base gmap.
From S2P Require Import Prelude.

Open Scope Z_scope.

Inductive SourceKind := ReadSource | WriteSource.

Record DispatchSource := mkSource {
  kind : SourceKind;
  fileDescriptor : Z;
  suspendCount : Z;
  cancelled : bool
}.

Record Sources := mkSources { srcs : gmap Z DispatchSource; nextSource : Z }.

Definition sources_empty : Sources := mkSources ∅ 0.

(** [DispatchSource.makeReadSource] and [makeWriteSource]. *)
Definition makeSource (k : SourceKind) (fd : Z) (s : Sources) : Z * Sources :=
  (nextSource s, mkSources (<[nextSource s := mkSource k fd 1 false]> (srcs s)) (nextSource s + 1)).

Definition source_update (f : DispatchSource -> option DispatchSource) (i : Z) (s : Sources)
    : option Sources :=
  match srcs s !! i with
  | Some x => match f x with
              | Some x' => Some (mkSources (<[i := x']> (srcs s)) (nextSource s))
              | None => None
              end
  | None => None
  end.

Definition source_resume : Z -> Sources -> option Sources :=
  source_update (fun x => if 0 <? suspendCount x
    then Some (mkSource (kind x) (fileDescriptor x) (suspendCount x - 1) (cancelled x))
    else None).

Definition source_suspend : Z -> Sources -> option Sources :=
  source_update (fun x =>
    Some (mkSource (kind x) (fileDescriptor x) (suspendCount x + 1) (cancelled x))).

Definition source_cancel : Z -> Sources -> option Sources :=
  source_update (fun x => Some (mkSource (kind x) (fileDescriptor x) (suspendCount x) true)).

(** The last reference to the source goes away. *)
Definition source_release (i : Z) (s : Sources) : option Sources :=
  match srcs s !! i with
  | Some x => if suspendCount x =? 0 then Some (mkSources (delete i (srcs s)) (nextSource s))
              else None
  | None => None
  end.

(** Identities are never reused. *)
Definition sources_ok (s : Sources) : Prop :=
  forall i x, srcs s !! i = Some x -> i < nextSource s.

(** [at_count i n s]: source [i] exists with suspension count [n]. *)
Definition at_count (i n : Z) (s : Sources) : Prop :=
  exists x, srcs s !! i = Some x /\ suspendCount x = n.

(** [same_but i s s']: only source [i] may differ. *)
Definition same_but (i : Z) (s s' : Sources) : Prop :=
  nextSource s <= nextSource s' /\ (sources_ok s -> sources_ok s') /\
  forall j, j <> i -> srcs s' !! j = srcs s !! j.

Lemma makeSource_spec k fd s i s' : makeSource k fd s = (i, s') -> sources_ok s ->
  at_count i 1 s' /\ same_but i s s' /\ (forall j x, srcs s !! j = Some x -> j <> i).
Proof.
  intros [= <- <-] Hok. split; [|split; [split; [cbn; lia|split]|]].
  - eexists. cbn. rewrite lookup_insert_eq. split; reflexivity.
  - intros _ j x Hj. cbn in *. destruct (decide (nextSource s = j)) as [->|Hne]; [lia|].
    rewrite lookup_insert_ne in Hj by exact Hne. specialize (Hok _ _ Hj). lia.
  - intros j Hj. cbn. apply lookup_insert_ne. congruence.
  - intros j x Hj ->. specialize (Hok _ _ Hj). lia.
Qed.

Lemma source_update_spec f i s x x' : srcs s !! i = Some x -> f x = Some x' ->
  exists s', source_update f i s = Some s' /\ srcs s' !! i = Some x' /\ same_but i s s'.
Proof.
  intros Hx Hf. unfold source_update. rewrite Hx, Hf. eexists; split; [reflexivity|].
  cbn. split; [apply lookup_insert_eq|]. split; [cbn; lia|split].
  - intros Hok j y Hj. cbn in *. destruct (decide (i = j)) as [->|Hne]; [eauto|].
    rewrite lookup_insert_ne in Hj by exact Hne. eauto.
  - intros j Hj. cbn. apply lookup_insert_ne. congruence.
Qed.

Lemma source_resume_spec i n s : at_count i n s -> 0 < n ->
  exists s', source_resume i s = Some s' /\ at_count i (n - 1) s' /\ same_but i s s'.
Proof.
  intros (x & Hx & <-) Hn.
  destruct (source_update_spec (fun x => if 0 <? suspendCount x
    then Some (mkSource (kind x) (fileDescriptor x) (suspendCount x - 1) (cancelled x))
    else None) i s x _ Hx ltac:(cbn; rewrite (proj2 (Z.ltb_lt _ _) Hn); reflexivity))
    as (s' & H1 & H2 & H3).
  exists s'. split; [exact H1|]. split; [|exact H3]. eexists; split; [exact H2|reflexivity].
Qed.

Lemma source_suspend_spec i n s : at_count i n s ->
  exists s', source_suspend i s = Some s' /\ at_count i (n + 1) s' /\ same_but i s s'.
Proof.
  intros (x & Hx & <-).
  destruct (source_update_spec (fun x =>
    Some (mkSource (kind x) (fileDescriptor x) (suspendCount x + 1) (cancelled x))) i s x _ Hx
    eq_refl) as (s' & H1 & H2 & H3).
  exists s'. split; [exact H1|]. split; [|exact H3]. eexists; split; [exact H2|reflexivity].
Qed.

Lemma source_cancel_spec i n s : at_count i n s ->
  exists s', source_cancel i s = Some s' /\ at_count i n s' /\ same_but i s s'.
Proof.
  intros (x & Hx & <-).
  destruct (source_update_spec (fun x =>
    Some (mkSource (kind x) (fileDescriptor x) (suspendCount x) true)) i s x _ Hx
    eq_refl) as (s' & H1 & H2 & H3).
  exists s'. split; [exact H1|]. split; [|exact H3]. eexists; split; [exact H2|reflexivity].
Qed.

Lemma source_release_spec i s : at_count i 0 s ->
  exists s', source_release i s = Some s' /\ srcs s' !! i = None /\ same_but i s s'.
Proof.
  intros (x & Hx & Hn). unfold source_release. rewrite Hx, Hn. cbn.
  eexists; split; [reflexivity|]. cbn. split; [apply lookup_delete_eq|].
  split; [cbn; lia|split].
  - intros Hok j y Hj. cbn in *. apply lookup_delete_Some in Hj as [_ Hj]. eauto.
  - intros j Hj. cbn. apply lookup_delete_ne. congruence.
Qed.

(** A source that was resumed as often as suspended cannot be resumed again. *)
Lemma source_resume_traps i s : at_count i 0 s -> source_resume i s = None.
Proof.
  intros (x & Hx & Hn). unfold source_resume, source_update. now rewrite Hx, Hn.
Qed.
