(* ===== verification/OperationType.v ===== *)
(** The classification of operations (Sources/NFSKit/OperationType.swift). *)

From stdpp Require Import base decidable.
From S2P Require Import Prelude.

Inductive OperationCategory := bulk | metadata.

#[export] Instance OperationCategory_eq_dec : EqDecision OperationCategory.
Proof. solve_decision. Defined.

Module Op.

Inductive OperationType :=
  | read | pread | write | pwrite
  | stat | statvfs | readlink
  | mkdir | rmdir | unlink | rename | truncate
  | open | close | fsync
  | opendir
  | mount | umount.

Definition category (t : OperationType) : OperationCategory :=
  match t with
  | read | pread | write | pwrite => bulk
  | _ => metadata
  end.

End Op.
