(* ===== verification/EventLoopState.v ===== *)
(** * The state of the event loop

    The fields of [NFSEventLoop] (Sources/NFSKit/NFSEventLoop.swift) together
    with what surrounds it at run time: the reference-counted [CallbackData]
    objects, the continuations of the callers, dispatch sources, raw memory,
    and the commands that libnfs has queued. *)

From Stdlib Require Import Strings.Byte.
From stdpp Require Import base list gmap strings numbers.
From S2P Require Import Prelude Posix PipelineController Memory CType LibnfsApi.
From S2P Require Import StateMonad DispatchSource OperationType.

Open Scope string_scope.
Open Scope Z_scope.

(** ** Commands and their contracts *)

(** An address inside a raw buffer: the block and the offset in it. *)
Record BufPtr := mkBufPtr { bp_block : Z; bp_off : Z }.

(** One call of a libnfs function that takes a callback, with its arguments. *)
Inductive Command :=
  | CMount (server exportname : string)
  | CUmount
  | CStat (path : string)
  | CStatvfs (path : string)
  | CReadlink (path : string)
  | CMkdir (path : string)
  | CRmdir (path : string)
  | COpendir (path : string)
  | CUnlink (path : string)
  | CRename (path newPath : string)
  | CTruncate (path : string) (length : Z)
  | COpen (path : string) (flags : Z)
  | CClose (fh : Z)
  | CRead (fh : Z) (buf : BufPtr) (count : Z)
  | CWrite (fh : Z) (buf : BufPtr) (count : Z)
  | CPread (fh : Z) (buf : BufPtr) (count offset : Z)
  | CPwrite (fh : Z) (buf : BufPtr) (count offset : Z)
  | CFsync (fh : Z)
  | CFstat (fh : Z)
  | CFtruncate (fh : Z) (length : Z)
  | CLseek (fh : Z) (offset whence : Z)
  | CGetexports (server : string).

Definition command_fn (c : Command) : api_fn :=
  match c with
  | CMount _ _ => Api.nfs_mount_async
  | CUmount => Api.nfs_umount_async
  | CStat _ => Api.nfs_stat64_async
  | CStatvfs _ => Api.nfs_statvfs_async
  | CReadlink _ => Api.nfs_readlink_async
  | CMkdir _ => Api.nfs_mkdir_async
  | CRmdir _ => Api.nfs_rmdir_async
  | COpendir _ => Api.nfs_opendir_async
  | CUnlink _ => Api.nfs_unlink_async
  | CRename _ _ => Api.nfs_rename_async
  | CTruncate _ _ => Api.nfs_truncate_async
  | COpen _ _ => Api.nfs_open_async
  | CClose _ => Api.nfs_close_async
  | CRead _ _ _ => Api.nfs_read_async
  | CWrite _ _ _ => Api.nfs_write_async
  | CPread _ _ _ _ => Api.nfs_pread_async
  | CPwrite _ _ _ _ => Api.nfs_pwrite_async
  | CFsync _ => Api.nfs_fsync_async
  | CFstat _ => Api.nfs_fstat64_async
  | CFtruncate _ _ => Api.nfs_ftruncate_async
  | CLseek _ _ _ => Api.nfs_lseek_async
  | CGetexports _ => Api.mount_getexports_async
  end.

(** The contract the Swift code relies on.  It is the header's, except for
    [nfs_fstat64_async]: its comment says [struct stat *], and the program
    relies on the [struct nfs_stat_64 *] that its synchronous twin declares. *)
Definition relied_fn (c : Command) : api_fn :=
  match c with
  | CFstat _ =>
      mkApi "nfs_fstat64_async" Tint (fn_params Api.nfs_fstat64_async)
        (DocAsync StatusZero (Points (Tstruct "nfs_stat_64")))
  | _ => command_fn c
  end.

(** The bytes of memory that libnfs touches until the callback. *)
Definition command_buffer (c : Command) : option (BufPtr * Z) :=
  match c with
  | CRead _ b n | CWrite _ b n | CPread _ b n _ | CPwrite _ b n _ => Some (b, n)
  | _ => None
  end.

Definition is_read (c : Command) : bool :=
  match c with CRead _ _ _ | CPread _ _ _ _ => true | _ => false end.

(** ** Results *)

(** The values a continuation can be resumed with. *)
Inductive Value :=
  | VVoid
  | VStat (s : Api.nfs_stat_64)
  | VStatvfs (addr : Z)
  | VString (s : string)
  | VPointer (t : ctype) (addr : Z)
  | VData (d : Data)
  | VInt (n : Z)
  | VUInt64 (n : Z)
  | VStrings (l : list string)
  | VEntries (l : list Api.nfsdirent).

(** The static type [T] of a continuation. *)
Inductive ResultType :=
  | TVoid | TStat | TStatvfs | TString | TPointer | TData | TInt | TUInt64 | TStrings | TEntries.

(** [value as? T]. *)
Definition value_is (t : ResultType) (v : Value) : bool :=
  match t, v with
  | TVoid, VVoid | TStat, VStat _ | TStatvfs, VStatvfs _ | TString, VString _
  | TPointer, VPointer _ _ | TData, VData _ | TInt, VInt _ | TUInt64, VUInt64 _
  | TStrings, VStrings _ | TEntries, VEntries _ => true
  | _, _ => false
  end.

Inductive Outcome :=
  | Returned (v : Value)
  | Threw (e : POSIXError).

Abbreviation result := (POSIXError + Value)%type.

Definition is_success (r : result) : bool :=
  match r with inr _ => true | inl _ => false end.

(** ** Callback objects *)

(** The closures passed as [dataHandler]. *)
Inductive DataHandler :=
  | HVoid                 (* { _ in }, { _, _ in .success(()) } *)
  | HStat                 (* stat: a copy of the nfs_stat_64 *)
  | HStatvfs              (* statvfs: a copy of the statvfs *)
  | HCString              (* readlink: the string *)
  | HPointer              (* open, opendir: the pointer itself *)
  | HRead (buf : Z)       (* readFile, preadFile *)
  | HStatus               (* writeFile, pwriteFile: Int(status) *)
  | HReadInto             (* preadIntoBuffer: Int(max(0, status)) *)
  | HFstat                (* fstat *)
  | HLseek                (* lseek *)
  | HExports.             (* getexports *)

(** The type of the value a handler produces on success. *)
Definition handler_type (h : DataHandler) : ResultType :=
  match h with
  | HVoid => TVoid
  | HStat | HFstat => TStat
  | HStatvfs => TStatvfs
  | HCString => TString
  | HPointer => TPointer
  | HRead _ => TData
  | HStatus | HReadInto => TInt
  | HLseek => TUInt64
  | HExports => TStrings
  end.

(** [continuation] stands for the caller's continuation captured by [resume],
    [resultType] for its type [T], [isExports] says which [completionHook] was
    given. *)
Record CallbackData := mkCallbackData {
  operationCategory : OperationCategory;
  startTime : Z;
  dataHandler : DataHandler;
  continuation : Z;
  resultType : ResultType;
  isExports : bool;
  hasResumed : bool;
  cleanup : option Z
}.

Definition mark_resumed (c : CallbackData) : CallbackData :=
  mkCallbackData (operationCategory c) (startTime c) (dataHandler c) (continuation c)
    (resultType c) (isExports c) true (cleanup c).

(** [execute] is the closure that makes the call; [failureCleanup] is determined
    by [id]. *)
Record PendingOperation := mkPending {
  id : Z;
  type : Op.OperationType;
  execute : Command
}.

(** ** State *)

(** The I/O fields: the two dispatch sources, the descriptor they watch, the timer. *)
Record Io := mkIo {
  readSource : option Z;
  writeSource : option Z;
  currentFd : Z;
  currentSocketIno : Z;
  timeoutTimer : bool;
  writeSourceSuspended : bool
}.

Definition upd_readSource (f : (option Z) -> (option Z)) (r : Io) : Io :=
  mkIo (f (readSource r)) (writeSource r) (currentFd r) (currentSocketIno r)
      (timeoutTimer r) (writeSourceSuspended r).
Definition upd_writeSource (f : (option Z) -> (option Z)) (r : Io) : Io :=
  mkIo (readSource r) (f (writeSource r)) (currentFd r) (currentSocketIno r)
      (timeoutTimer r) (writeSourceSuspended r).
Definition upd_currentFd (f : Z -> Z) (r : Io) : Io :=
  mkIo (readSource r) (writeSource r) (f (currentFd r)) (currentSocketIno r)
      (timeoutTimer r) (writeSourceSuspended r).
Definition upd_currentSocketIno (f : Z -> Z) (r : Io) : Io :=
  mkIo (readSource r) (writeSource r) (currentFd r) (f (currentSocketIno r))
      (timeoutTimer r) (writeSourceSuspended r).
Definition upd_timeoutTimer (f : bool -> bool) (r : Io) : Io :=
  mkIo (readSource r) (writeSource r) (currentFd r) (currentSocketIno r) (f
      (timeoutTimer r)) (writeSourceSuspended r).
Definition upd_writeSourceSuspended (f : bool -> bool) (r : Io) : Io :=
  mkIo (readSource r) (writeSource r) (currentFd r) (currentSocketIno r)
      (timeoutTimer r) (f (writeSourceSuspended r)).

(** The separate RPC context of [getexports]. *)
Record Exports := mkExports {
  rpcExportsCtx : option Z;
  rpcExportsReadSource : option Z;
  rpcExportsWriteSource : option Z;
  rpcExportsWriteSuspended : bool;
  rpcExportsDone : bool;
  rpcExportsContID : option Z
}.

Definition upd_rpcExportsCtx (f : (option Z) -> (option Z)) (r : Exports) : Exports :=
  mkExports (f (rpcExportsCtx r)) (rpcExportsReadSource r) (rpcExportsWriteSource r)
      (rpcExportsWriteSuspended r) (rpcExportsDone r) (rpcExportsContID r).
Definition upd_rpcExportsReadSource (f : (option Z) -> (option Z)) (r : Exports) : Exports :=
  mkExports (rpcExportsCtx r) (f (rpcExportsReadSource r)) (rpcExportsWriteSource r)
      (rpcExportsWriteSuspended r) (rpcExportsDone r) (rpcExportsContID r).
Definition upd_rpcExportsWriteSource (f : (option Z) -> (option Z)) (r : Exports) : Exports :=
  mkExports (rpcExportsCtx r) (rpcExportsReadSource r) (f (rpcExportsWriteSource r))
      (rpcExportsWriteSuspended r) (rpcExportsDone r) (rpcExportsContID r).
Definition upd_rpcExportsWriteSuspended (f : bool -> bool) (r : Exports) : Exports :=
  mkExports (rpcExportsCtx r) (rpcExportsReadSource r) (rpcExportsWriteSource r) (f
      (rpcExportsWriteSuspended r)) (rpcExportsDone r) (rpcExportsContID r).
Definition upd_rpcExportsDone (f : bool -> bool) (r : Exports) : Exports :=
  mkExports (rpcExportsCtx r) (rpcExportsReadSource r) (rpcExportsWriteSource r)
      (rpcExportsWriteSuspended r) (f (rpcExportsDone r)) (rpcExportsContID r).
Definition upd_rpcExportsContID (f : (option Z) -> (option Z)) (r : Exports) : Exports :=
  mkExports (rpcExportsCtx r) (rpcExportsReadSource r) (rpcExportsWriteSource r)
      (rpcExportsWriteSuspended r) (rpcExportsDone r) (f (rpcExportsContID r)).

(** The pipeline: controllers, waiting operations, and [_inFlightCount] for its two keys. *)
Record Pipe := mkPipe {
  bulkController : Pipeline.PipelineController;
  metadataController : Pipeline.PipelineController;
  pendingOperations : list PendingOperation;
  inFlightBulk : Z;
  inFlightMetadata : Z
}.

Definition upd_bulkController (f : Pipeline.PipelineController -> Pipeline.PipelineController) (r : Pipe) : Pipe :=
  mkPipe (f (bulkController r)) (metadataController r) (pendingOperations r)
      (inFlightBulk r) (inFlightMetadata r).
Definition upd_metadataController (f : Pipeline.PipelineController -> Pipeline.PipelineController) (r : Pipe) : Pipe :=
  mkPipe (bulkController r) (f (metadataController r)) (pendingOperations r)
      (inFlightBulk r) (inFlightMetadata r).
Definition upd_pendingOperations (f : (list PendingOperation) -> (list PendingOperation)) (r : Pipe) : Pipe :=
  mkPipe (bulkController r) (metadataController r) (f (pendingOperations r))
      (inFlightBulk r) (inFlightMetadata r).
Definition upd_inFlightBulk (f : Z -> Z) (r : Pipe) : Pipe :=
  mkPipe (bulkController r) (metadataController r) (pendingOperations r) (f
      (inFlightBulk r)) (inFlightMetadata r).
Definition upd_inFlightMetadata (f : Z -> Z) (r : Pipe) : Pipe :=
  mkPipe (bulkController r) (metadataController r) (pendingOperations r)
      (inFlightBulk r) (f (inFlightMetadata r)).

(** [activeContinuations] maps an identifier to the object created for it, so the
    set of its keys determines it; [objects] is the heap of callback objects, by
    identifier; [retained] are those for which a retained pointer was given away.
    [outcomes] records every continuation that was resumed, and with what;
    [nextCall] names the continuations of the callers. *)
Record Registry := mkRegistry {
  activeContinuations : gset Z;
  nextContinuationID : Z;
  objects : gmap Z CallbackData;
  retained : gset Z;
  outcomes : gmap Z Outcome;
  nextCall : Z
}.

Definition upd_activeContinuations (f : (gset Z) -> (gset Z)) (r : Registry) : Registry :=
  mkRegistry (f (activeContinuations r)) (nextContinuationID r) (objects r) (retained r)
      (outcomes r) (nextCall r).
Definition upd_nextContinuationID (f : Z -> Z) (r : Registry) : Registry :=
  mkRegistry (activeContinuations r) (f (nextContinuationID r)) (objects r) (retained r)
      (outcomes r) (nextCall r).
Definition upd_objects (f : (gmap Z CallbackData) -> (gmap Z CallbackData)) (r : Registry) : Registry :=
  mkRegistry (activeContinuations r) (nextContinuationID r) (f (objects r)) (retained r)
      (outcomes r) (nextCall r).
Definition upd_retained (f : (gset Z) -> (gset Z)) (r : Registry) : Registry :=
  mkRegistry (activeContinuations r) (nextContinuationID r) (objects r) (f (retained r))
      (outcomes r) (nextCall r).
Definition upd_outcomes (f : (gmap Z Outcome) -> (gmap Z Outcome)) (r : Registry) : Registry :=
  mkRegistry (activeContinuations r) (nextContinuationID r) (objects r) (retained r) (f
      (outcomes r)) (nextCall r).
Definition upd_nextCall (f : Z -> Z) (r : Registry) : Registry :=
  mkRegistry (activeContinuations r) (nextContinuationID r) (objects r) (retained r)
      (outcomes r) (f (nextCall r)).

(** Open file handles. *)
Record Handles := mkHandles {
  handleRegistry : gmap Z Z;
  nextHandleID : Z
}.

Definition upd_handleRegistry (f : (gmap Z Z) -> (gmap Z Z)) (r : Handles) : Handles :=
  mkHandles (f (handleRegistry r)) (nextHandleID r).
Definition upd_nextHandleID (f : Z -> Z) (r : Handles) : Handles :=
  mkHandles (handleRegistry r) (f (nextHandleID r)).

(** The log handler: the box the loop keeps, the boxes that are alive, the box
    registered with libnfs, and the messages handed to a box. *)
Record Log := mkLog {
  logHandlerBoxPtr : option Z;
  boxes : gset Z;
  nextBox : Z;
  logRegistered : option Z;
  logged : list (Z * Z * string)
}.

Definition upd_logHandlerBoxPtr (f : (option Z) -> (option Z)) (r : Log) : Log :=
  mkLog (f (logHandlerBoxPtr r)) (boxes r) (nextBox r) (logRegistered r) (logged r).
Definition upd_boxes (f : (gset Z) -> (gset Z)) (r : Log) : Log :=
  mkLog (logHandlerBoxPtr r) (f (boxes r)) (nextBox r) (logRegistered r) (logged r).
Definition upd_nextBox (f : Z -> Z) (r : Log) : Log :=
  mkLog (logHandlerBoxPtr r) (boxes r) (f (nextBox r)) (logRegistered r) (logged r).
Definition upd_logRegistered (f : (option Z) -> (option Z)) (r : Log) : Log :=
  mkLog (logHandlerBoxPtr r) (boxes r) (nextBox r) (f (logRegistered r)) (logged r).
Definition upd_logged (f : (list (Z * Z * string)) -> (list (Z * Z * string))) (r : Log) : Log :=
  mkLog (logHandlerBoxPtr r) (boxes r) (nextBox r) (logRegistered r) (f (logged r)).

(** What libnfs holds: the commands it has queued, by the identifier of their
    private pointer, that of the export query, the calls made so far, the handles
    and directories closed synchronously, and a clock that indexes the answers of the environment. *)
Record Lib := mkLib {
  outstanding : gmap Z Command;
  rpcOutstanding : option Z;
  issued : list (Z * Command);
  closed : list (ctype * Z);
  tick : nat
}.

Definition upd_outstanding (f : (gmap Z Command) -> (gmap Z Command)) (r : Lib) : Lib :=
  mkLib (f (outstanding r)) (rpcOutstanding r) (issued r) (closed r) (tick r).
Definition upd_rpcOutstanding (f : (option Z) -> (option Z)) (r : Lib) : Lib :=
  mkLib (outstanding r) (f (rpcOutstanding r)) (issued r) (closed r) (tick r).
Definition upd_issued (f : (list (Z * Command)) -> (list (Z * Command))) (r : Lib) : Lib :=
  mkLib (outstanding r) (rpcOutstanding r) (f (issued r)) (closed r) (tick r).
Definition upd_closed (f : (list (ctype * Z)) -> (list (ctype * Z))) (r : Lib) : Lib :=
  mkLib (outstanding r) (rpcOutstanding r) (issued r) (f (closed r)) (tick r).
Definition upd_tick (f : nat -> nat) (r : Lib) : Lib :=
  mkLib (outstanding r) (rpcOutstanding r) (issued r) (closed r) (f (tick r)).

(** The whole state. [timeout] is the [TimeInterval] in nanoseconds; [now] the
    clock behind [DispatchTime.now()]. *)
Record World := mkWorld {
  context : option Z;
  isRunning : bool;
  timeout : Z;
  io : Io;
  rpcx : Exports;
  pipe : Pipe;
  reg : Registry;
  handles : Handles;
  log : Log;
  lib : Lib;
  sources : Sources;
  heap : mem;
  now : Z
}.

Definition upd_context (f : (option Z) -> (option Z)) (w : World) : World :=
  mkWorld (f (context w)) (isRunning w) (timeout w) (io w) (rpcx w) (pipe w) (reg w)
      (handles w) (log w) (lib w) (sources w) (heap w) (now w).
Definition upd_isRunning (f : bool -> bool) (w : World) : World :=
  mkWorld (context w) (f (isRunning w)) (timeout w) (io w) (rpcx w) (pipe w) (reg w)
      (handles w) (log w) (lib w) (sources w) (heap w) (now w).
Definition upd_io (f : Io -> Io) (w : World) : World :=
  mkWorld (context w) (isRunning w) (timeout w) (f (io w)) (rpcx w) (pipe w) (reg w)
      (handles w) (log w) (lib w) (sources w) (heap w) (now w).
Definition upd_rpcx (f : Exports -> Exports) (w : World) : World :=
  mkWorld (context w) (isRunning w) (timeout w) (io w) (f (rpcx w)) (pipe w) (reg w)
      (handles w) (log w) (lib w) (sources w) (heap w) (now w).
Definition upd_pipe (f : Pipe -> Pipe) (w : World) : World :=
  mkWorld (context w) (isRunning w) (timeout w) (io w) (rpcx w) (f (pipe w)) (reg w)
      (handles w) (log w) (lib w) (sources w) (heap w) (now w).
Definition upd_reg (f : Registry -> Registry) (w : World) : World :=
  mkWorld (context w) (isRunning w) (timeout w) (io w) (rpcx w) (pipe w) (f (reg w))
      (handles w) (log w) (lib w) (sources w) (heap w) (now w).
Definition upd_handles (f : Handles -> Handles) (w : World) : World :=
  mkWorld (context w) (isRunning w) (timeout w) (io w) (rpcx w) (pipe w) (reg w) (f
      (handles w)) (log w) (lib w) (sources w) (heap w) (now w).
Definition upd_log (f : Log -> Log) (w : World) : World :=
  mkWorld (context w) (isRunning w) (timeout w) (io w) (rpcx w) (pipe w) (reg w)
      (handles w) (f (log w)) (lib w) (sources w) (heap w) (now w).
Definition upd_lib (f : Lib -> Lib) (w : World) : World :=
  mkWorld (context w) (isRunning w) (timeout w) (io w) (rpcx w) (pipe w) (reg w)
      (handles w) (log w) (f (lib w)) (sources w) (heap w) (now w).
Definition upd_sources (f : Sources -> Sources) (w : World) : World :=
  mkWorld (context w) (isRunning w) (timeout w) (io w) (rpcx w) (pipe w) (reg w)
      (handles w) (log w) (lib w) (f (sources w)) (heap w) (now w).
Definition upd_heap (f : mem -> mem) (w : World) : World :=
  mkWorld (context w) (isRunning w) (timeout w) (io w) (rpcx w) (pipe w) (reg w)
      (handles w) (log w) (lib w) (sources w) (f (heap w)) (now w).
Definition upd_now (f : Z -> Z) (w : World) : World :=
  mkWorld (context w) (isRunning w) (timeout w) (io w) (rpcx w) (pipe w) (reg w)
      (handles w) (log w) (lib w) (sources w) (heap w) (f (now w)).

(** ** Contracts *)

(** The contract the loop relies on is the one in libnfs.h for every command
    but fstat, where the header's comment names the other stat structure. *)
Theorem contracts_as_documented c :
  relied_fn c = command_fn c \/
  exists fh, c = CFstat fh /\
    fn_doc (command_fn c) = DocAsync StatusZero (Points (Tstruct "stat")) /\
    fn_doc (relied_fn c) = DocAsync StatusZero (Points (Tstruct "nfs_stat_64")) /\
    In ("st"%string, Tptr (Tstruct "nfs_stat_64")) (fn_params Api.nfs_fstat64).
Proof.
  destruct c; try (left; reflexivity). right. eexists. split; [reflexivity|].
  split; [reflexivity|]. split; [reflexivity|]. cbn. tauto.
Qed.
