(* ===== verification/EventLoop.v ===== *)
(** * The event loop

    Sources/NFSKit/NFSEventLoop.swift, method by method.  Every method runs on
    the loop's serial queue, so a method is a state transformer that no other
    method interrupts; callbacks of libnfs run inside the libnfs call that
    delivers them. *)

From Stdlib Require Import Strings.Byte.
From stdpp Require Import base list gmap strings numbers.
From S2P Require Import Prelude Posix PipelineController Memory CType LibnfsApi.
From S2P Require Import StateMonad DispatchSource OperationType EventLoopState.

Open Scope string_scope.
Open Scope list_scope.
Open Scope Z_scope.
Open Scope monad_scope.

(** ** The environment

    What the program cannot decide: the answers of libnfs, of the kernel and of
    the server.  A field indexed by [nat] is asked at successive ticks; the
    return code of an asynchronous call is indexed by the identifier it was
    made for, which is used for one call only. *)

(** What libnfs may do inside [nfs_service] and the like: invoke the callback
    of a queued command (after writing [bytes] to the buffer of a read), or log
    a message. *)
Inductive LibEvent :=
  | Reply (id status : Z) (data : cdata) (bytes : list byte)
  | LogLine (level : Z) (message : option string).

Class Env := {
  async_rc : Z -> Z;
  async_rc_range : forall i, - 2 ^ 31 < async_rc i < 2 ^ 31;
  get_error : nat -> string;
  which_events : nat -> Z;
  get_fd : nat -> Z;
  fstat_ino : nat -> option Z;
  fstat_ino_range : forall n i, fstat_ino n = Some i -> 0 <= i < 2 ^ 63;
  service_rc : nat -> Z;
  lib_events : nat -> list LibEvent;
  rpc_events : nat -> list (Z * cdata);
  rpc_init : nat -> bool;
  dict_order : list Z -> list Z;
  dict_order_perm : forall l, dict_order l ≡ₚ l;
  read_stat : Z -> Api.nfs_stat_64;
  read_cstring : Z -> string;
  read_uint64 : Z -> Z;
  read_exports : Z -> option (list (option string));
  readdir : Z -> list Api.nfsdirent
}.

(** poll(2) flags on Darwin. *)
Definition POLLIN : Z := 1.
Definition POLLOUT : Z := 4.

(** The identity of the only [nfs_context] a loop creates. *)
Definition nfs_ctx : Z := 1.

Section Loop.
Context `{E : Env}.

Abbreviation LM := (M World).

Definition ask {A} (f : nat -> A) : LM A :=
  fun w => Some (f (tick (lib w)), upd_lib (upd_tick S) w).

(** [socketIno]: 0 when fstat fails; [Int64(_:)] stops the program at an inode of
    2^63 and more. *)
Definition socketIno : LM Z :=
  st <- ask fstat_ino ;;
  match st with
  | None => ret 0
  | Some ino => if ino <? 2 ^ 63 then ret ino else trap
  end.

(** ** References, continuations, buffers *)

Definition get_object (i : Z) : LM CallbackData :=
  o <- gets (fun w => objects (reg w) !! i) ;; lift o.

(** [Unmanaged.passRetained(cbData).toOpaque()]. *)
Definition pass_retained (i : Z) : LM unit :=
  modify (upd_reg (upd_retained (fun s => {[i]} ∪ s))).

(** [Unmanaged.fromOpaque(ptr).release()] and [takeRetainedValue()]: the pointer
    must still be owed a release. *)
Definition release (i : Z) : LM unit :=
  s <- gets (fun w => retained (reg w)) ;;
  if decide (i ∈ s) then modify (upd_reg (upd_retained (fun s => s ∖ {[i]}))) else trap.

(** Resuming a checked continuation; a second time stops the program. *)
Definition cont_resume (k : Z) (o : Outcome) : LM unit :=
  s <- gets (fun w => outcomes (reg w)) ;;
  match s !! k with
  | Some _ => trap
  | None => modify (upd_reg (upd_outcomes <[k := o]>))
  end.

Definition mem_op (f : mem -> option mem) : LM unit :=
  m <- gets heap ;; m' <- lift (f m) ;; modify (upd_heap (fun _ => m')).

Definition free (p : Z) : LM unit := mem_op (deallocate p).

(** A result that nobody receives: a [Data] in it releases its buffer. *)
Definition drop_result (r : result) : LM unit :=
  match r with inr (VData d) => mem_op (data_release d) | _ => ret tt end.

(** The [resume] closures: cast the value to the continuation's type. *)
Definition resume_typed (t : ResultType) (k : Z) (r : result) : LM unit :=
  match r with
  | inr v => if value_is t v then cont_resume k (Returned v)
             else drop_result r ;;
                  cont_resume k (Threw (posix_error EIO "Internal type mismatch in callback"))
  | inl e => cont_resume k (Threw e)
  end.

(** [CallbackData.resume]. *)
Definition resume (i : Z) (r : result) : LM unit :=
  cb <- get_object i ;;
  if hasResumed cb then drop_result r
  else modify (upd_reg (upd_objects <[i := mark_resumed cb]>)) ;;
       resume_typed (resultType cb) (continuation cb) r.

(** ** Dispatch sources *)

Definition source_op (f : Sources -> option Sources) : LM unit :=
  s <- gets sources ;; s' <- lift (f s) ;; modify (upd_sources (fun _ => s')).

Definition make_source (k : SourceKind) (fd : Z) : LM Z :=
  fun w => let '(i, s) := makeSource k fd (sources w) in Some (i, upd_sources (fun _ => s) w).

Definition cancelTimeoutTimer : LM unit := modify (upd_io (upd_timeoutTimer (fun _ => false))).

Definition startTimeoutTimer : LM unit :=
  running <- gets (fun w => timeoutTimer (io w)) ;;
  t <- gets timeout ;;
  when (negb running && (0 <? t)) (modify (upd_io (upd_timeoutTimer (fun _ => true)))).

Definition cancelSources : LM unit :=
  rs <- gets (fun w => readSource (io w)) ;;
  match rs with
  | Some rs => source_op (source_cancel rs) ;;
               source_op (source_release rs) ;;
               modify (upd_io (upd_readSource (fun _ => None)))
  | None => ret tt
  end ;;
  ws <- gets (fun w => writeSource (io w)) ;;
  match ws with
  | Some ws =>
      susp <- gets (fun w => writeSourceSuspended (io w)) ;;
      when susp (source_op (source_resume ws) ;;
                 modify (upd_io (upd_writeSourceSuspended (fun _ => false)))) ;;
      source_op (source_cancel ws) ;;
      source_op (source_release ws) ;;
      modify (upd_io (upd_writeSource (fun _ => None)))
  | None => ret tt
  end ;;
  modify (upd_io (upd_currentFd (fun _ => -1))) ;;
  modify (upd_io (upd_currentSocketIno (fun _ => 0))).

Definition setupSources (fd : Z) : LM unit :=
  cancelSources ;;
  modify (upd_io (upd_currentFd (fun _ => fd))) ;;
  ino <- socketIno ;;
  modify (upd_io (upd_currentSocketIno (fun _ => ino))) ;;
  startTimeoutTimer ;;
  rs <- make_source ReadSource fd ;;
  source_op (source_resume rs) ;;
  modify (upd_io (upd_readSource (fun _ => Some rs))) ;;
  ws <- make_source WriteSource fd ;;
  modify (upd_io (upd_writeSourceSuspended (fun _ => true))) ;;
  modify (upd_io (upd_writeSource (fun _ => Some ws))).

Definition updateWriteSource : LM unit :=
  ctx <- gets context ;;
  ws <- gets (fun w => writeSource (io w)) ;;
  match ctx, ws with
  | Some _, Some ws =>
      events <- ask which_events ;;
      susp <- gets (fun w => writeSourceSuspended (io w)) ;;
      if negb (Z.land events POLLOUT =? 0) then
        when susp (source_op (source_resume ws) ;;
                   modify (upd_io (upd_writeSourceSuspended (fun _ => false))))
      else
        when (negb susp) (source_op (source_suspend ws) ;;
                          modify (upd_io (upd_writeSourceSuspended (fun _ => true))))
  | _, _ => ret tt
  end.

(** ** The pipeline *)

Definition inFlight (c : OperationCategory) (w : World) : Z :=
  match c with bulk => inFlightBulk (pipe w) | metadata => inFlightMetadata (pipe w) end.

(** The count is a Swift [Int], whose [+=] would trap at 2^63; it is unbounded here, and 2^63
    operations would have to be in flight to tell. *)
Definition set_inFlight (c : OperationCategory) (f : Z -> Z) : LM unit :=
  modify (upd_pipe (match c with bulk => upd_inFlightBulk f
                               | metadata => upd_inFlightMetadata f end)).

Definition controller (c : OperationCategory) (w : World) : Pipeline.PipelineController :=
  match c with bulk => bulkController (pipe w) | metadata => metadataController (pipe w) end.

Definition set_controller (c : OperationCategory)
    (f : Pipeline.PipelineController -> Pipeline.PipelineController) : LM unit :=
  modify (upd_pipe (match c with bulk => upd_bulkController f
                               | metadata => upd_metadataController f end)).

(** [currentInFlight < controller.effectiveDepth]. *)
Definition has_slot (c : OperationCategory) : LM bool :=
  ctl <- gets (controller c) ;;
  n <- gets (inFlight c) ;;
  d <- lift (Pipeline.effectiveDepth ctl) ;;
  ret (n <? d).

Definition recordCompletion (c : OperationCategory) (success : bool) : LM unit :=
  set_inFlight c (fun n => Z.max 0 (n - 1)) ;;
  set_controller c (if success then Pipeline.recordSuccess else Pipeline.recordFailure).

Definition remove_continuation (i : Z) : LM unit :=
  modify (upd_reg (upd_activeContinuations (fun s => s ∖ {[i]}))).

(** The same when nothing else refers to the object: it is freed. *)
Definition drop_continuation (i : Z) : LM unit :=
  remove_continuation i ;;
  modify (upd_reg (upd_objects (delete i))).

(** One asynchronous call of libnfs: 0 or more means that the command is queued. *)
Definition call_async (i : Z) (c : Command) : LM Z :=
  modify (upd_lib (upd_issued (fun l => l ++ [(i, c)]))) ;;
  when (0 <=? async_rc i) (modify (upd_lib (upd_outstanding <[i := c]>))) ;;
  ret (async_rc i).

(** [POSIXError(.init(Int32(-rc)), description: nfs_get_error(ctx))]. *)
Definition call_error (rc : Z) : LM POSIXError :=
  c <- lift (int32_neg rc) ;;
  d <- ask get_error ;;
  ret (posix_error (POSIXErrorCode_init c) d).

(** [PendingOperation.failureCleanup]. *)
Definition failureCleanup (i rc : Z) : LM unit :=
  release i ;;
  remove_continuation i ;;
  e <- call_error rc ;;
  resume i (inl e).

(** The operation at index [i] leaves the waiting list and is called. *)
Definition issue_one (i : nat) (op : PendingOperation) : LM unit :=
  let category := Op.category (type op) in
  modify (upd_pipe (upd_pendingOperations (fun l => take i l ++ drop (S i) l))) ;;
  set_inFlight category (fun n => n + 1) ;;
  rc <- call_async (id op) (execute op) ;;
  when (rc <? 0) (set_inFlight category (fun n => n - 1) ;;
                  failureCleanup (id op) rc) ;;
  updateWriteSource.

(** The [while] loop, from index [i]; [fuel] bounds the iterations. *)
Fixpoint issue_loop (fuel : nat) (i : nat) : LM unit :=
  ops <- gets (fun w => pendingOperations (pipe w)) ;;
  match ops !! i with
  | None => ret tt
  | Some op =>
      match fuel with
      | O => trap
      | S fuel =>
          slot <- has_slot (Op.category (type op)) ;;
          if slot then issue_one i op ;; issue_loop fuel i
          else issue_loop fuel (S i)
      end
  end.

Definition issuePendingOperations : LM unit :=
  ctx <- gets context ;;
  match ctx with
  | None => ret tt
  | Some _ =>
      ops <- gets (fun w => pendingOperations (pipe w)) ;;
      issue_loop (length ops) 0
  end.

Definition handleCallbackCompletion (contID : Z) (c : OperationCategory) (success : bool)
    : LM unit :=
  remove_continuation contID ;;
  recordCompletion c success ;;
  issuePendingOperations.

(** ** C callbacks *)

(** [cbData.completionHook]: the one of [getexports] first notes that it ran. *)
Definition completionHook (i : Z) (cb : CallbackData) (success : bool) : LM unit :=
  when (isExports cb) (modify (upd_rpcx (upd_rpcExportsDone (fun _ => true)))) ;;
  handleCallbackCompletion i (operationCategory cb) success.

(** [ptr.assumingMemoryBound(to: T.self)]: reading memory of another type is
    undefined. *)
Definition bound_to (t : ctype) (data : cdata) : LM Z :=
  match data with
  | CPointer t' a => if decide (t = t') then ret a else trap
  | _ => trap
  end.

Definition tstat64 : ctype := Tstruct "nfs_stat_64".

Definition run_handler (h : DataHandler) (status : Z) (data : cdata) : LM result :=
  match h with
  | HVoid => ret (inr VVoid)
  | HStat =>
      match data with
      | CNull => ret (inl (posix_error ENODATA "Invalid/Empty data."))
      | _ => a <- bound_to tstat64 data ;; ret (inr (VStat (read_stat a)))
      end
  | HStatvfs =>
      match data with
      | CNull => ret (inl (posix_error ENODATA "Invalid/Empty data."))
      | _ => a <- bound_to (Tstruct "statvfs") data ;; ret (inr (VStatvfs a))
      end
  | HCString =>
      match data with
      | CNull => ret (inl (posix_error ENODATA "Invalid/Empty data."))
      | CString s => ret (inr (VString s))
      | CPointer _ _ => a <- bound_to Tchar data ;; ret (inr (VString (read_cstring a)))
      end
  | HPointer =>
      match data with
      | CNull => ret (inl (posix_error ENODATA "Invalid/Empty data."))
      | CString _ => trap
      | CPointer t a => ret (inr (VPointer t a))
      end
  | HRead buf =>
      if 0 <? status then ret (inr (VData (DataNoCopy buf status)))
      else free buf ;; ret (inr (VData (DataBytes [])))
  | HStatus => ret (inr (VInt status))
  | HReadInto => ret (inr (VInt (Z.max 0 status)))
  | HFstat =>
      match data with
      | CNull => ret (inl (posix_error_plain ENODATA))
      | _ => a <- bound_to tstat64 data ;; ret (inr (VStat (read_stat a)))
      end
  | HLseek =>
      match data with
      | CNull => ret (inr (VUInt64 0))
      | _ => a <- bound_to Tuint64 data ;; ret (inr (VUInt64 (read_uint64 a)))
      end
  | HExports =>
      match data with
      | CNull => ret (inr (VStrings []))
      | _ => a <- bound_to (Ttypedef "exports") data ;;
             l <- lift (read_exports a) ;;
             ret (inr (VStrings (omap (fun d => d) l)))
      end
  end.

Definition nfsCallback (status : Z) (data : cdata) (i : Z) : LM unit :=
  release i ;;
  cb <- get_object i ;;
  if status <? 0 then
    match cleanup cb with Some p => free p | None => ret tt end ;;
    completionHook i cb false ;;
    c <- lift (int32_neg status) ;;
    resume i (inl (posix_error_plain (POSIXErrorCode_init c)))
  else
    r <- run_handler (dataHandler cb) status data ;;
    completionHook i cb (is_success r) ;;
    resume i r.

Definition rpcCallback (status : Z) (data : cdata) (i : Z) : LM unit :=
  release i ;;
  cb <- get_object i ;;
  if negb (status =? 0) then
    completionHook i cb false ;;
    resume i (inl (posix_error_plain (POSIXErrorCode_init status)))
  else
    r <- run_handler (dataHandler cb) status data ;;
    completionHook i cb (is_success r) ;;
    resume i r.

(** [logCallback] with the registered box as private data. *)
Definition logCallback (level : Z) (message : option string) (box : option Z) : LM unit :=
  match box, message with
  | Some b, Some msg =>
      alive <- gets (fun w => boxes (log w)) ;;
      if decide (b ∈ alive)
      then modify (upd_log (upd_logged (fun l => l ++ [(b, level, msg)])))
      else trap
  | _, _ => ret tt
  end.

(** ** libnfs as its header documents it *)

(** The replies libnfs may give to a command: the contract of its declaration,
    and for a read as many bytes as the status says, at most those asked for. *)
Definition reply_allowed (c : Command) (status : Z) (data : cdata) (bytes : list byte) : bool :=
  callback_allowed (relied_fn c) status data &&
  (- 2 ^ 31 <? status) && (status <? 2 ^ 31) &&
  match command_buffer c with
  | Some (_, n) =>
      if is_read c && (0 <=? status)
      then (status <=? n) && (Z.of_nat (length bytes) =? status)
      else match bytes with [] => true | _ => false end
  | None => match bytes with [] => true | _ => false end
  end.

Definition write_reply (c : Command) (bytes : list byte) : LM unit :=
  match command_buffer c, bytes with
  | Some (b, _), _ :: _ => mem_op (store (bp_block b) (bp_off b) bytes)
  | _, _ => ret tt
  end.

(** Deliver one event.  Events the documentation rules out do not happen. *)
Definition deliver (e : LibEvent) : LM unit :=
  match e with
  | Reply i status data bytes =>
      cmds <- gets (fun w => outstanding (lib w)) ;;
      match cmds !! i with
      | Some c =>
          when (reply_allowed c status data bytes)
            (write_reply c bytes ;;
             modify (upd_lib (upd_outstanding (delete i))) ;;
             nfsCallback status data i)
      | None => ret tt
      end
  | LogLine level msg =>
      box <- gets (fun w => logRegistered (log w)) ;;
      logCallback level msg box
  end.

Definition run_callbacks : LM unit := es <- ask lib_events ;; for_each es deliver.

Definition nfs_service : LM Z := run_callbacks ;; ask service_rc.

Definition nfs_destroy_context : LM unit :=
  run_callbacks ;;
  modify (upd_lib (upd_outstanding (fun _ => ∅))) ;;
  modify (upd_log (upd_logRegistered (fun _ => None))).

Definition deliver_rpc (e : Z * cdata) : LM unit :=
  q <- gets (fun w => rpcOutstanding (lib w)) ;;
  match q with
  | Some i =>
      when (callback_allowed Api.mount_getexports_async (fst e) (snd e))
        (modify (upd_lib (upd_rpcOutstanding (fun _ => None))) ;;
         rpcCallback (fst e) (snd e) i)
  | None => ret tt
  end.

Definition run_rpc_callbacks : LM unit := es <- ask rpc_events ;; for_each es deliver_rpc.

Definition rpc_service : LM Z := run_rpc_callbacks ;; ask service_rc.

Definition rpc_destroy_context : LM unit :=
  run_rpc_callbacks ;; modify (upd_lib (upd_rpcOutstanding (fun _ => None))).

(** ** Submitting *)

(** [nextContinuationID += 1]: unsigned 64-bit arithmetic traps on overflow. *)
Definition next_continuation_id : LM Z :=
  i <- gets (fun w => nextContinuationID (reg w)) ;;
  if i + 1 <? 2 ^ 64 then
    modify (upd_reg (upd_nextContinuationID (fun n => n + 1))) ;; ret i
  else trap.

(** [CallbackData(...)] for a new identifier, stored in [activeContinuations]. *)
Definition new_callback (i : Z) (c : OperationCategory) (h : DataHandler) (k : Z)
    (t : ResultType) (exports : bool) (buf : option Z) : LM unit :=
  start <- gets now ;;
  modify (upd_reg (upd_objects <[i := mkCallbackData c start h k t exports false buf]>)) ;;
  modify (upd_reg (upd_activeContinuations (fun s => {[i]} ∪ s))).

Definition issueOperation (contID : Z) (t : Op.OperationType) (cmd : Command) : LM unit :=
  pass_retained contID ;;
  rc <- call_async contID cmd ;;
  if rc <? 0 then
    release contID ;;
    remove_continuation contID ;;
    e <- call_error rc ;;
    resume contID (inl e)
  else
    set_inFlight (Op.category t) (fun n => n + 1) ;;
    updateWriteSource.

Definition maxPendingOperations : Z := 4096.

Definition ENOBUFS_error : POSIXError :=
  posix_error ENOBUFS "Pending operations queue at capacity (4096)".

(** [submit] and [submitWithStatus], on the queue, for continuation [k]. *)
Definition submit (k : Z) (t : Op.OperationType) (h : DataHandler) (cmd : Command) : LM unit :=
  ctx <- gets context ;;
  match ctx with
  | None => cont_resume k (Threw (posix_error ENOTCONN "Not connected"))
  | Some _ =>
      contID <- next_continuation_id ;;
      let category := Op.category t in
      new_callback contID category h k (handler_type h) false None ;;
      slot <- has_slot category ;;
      ops <- gets (fun w => pendingOperations (pipe w)) ;;
      if slot then issueOperation contID t cmd
      else if maxPendingOperations <=? Z.of_nat (length ops) then
        drop_continuation contID ;;
        cont_resume k (Threw ENOBUFS_error)
      else
        pass_retained contID ;;
        modify (upd_pipe (upd_pendingOperations (fun l => l ++ [mkPending contID t cmd])))
  end.

(** The operations that go through [submit]. *)
Inductive PathOp :=
  | Unmount
  | Stat (path : string)
  | Statvfs (path : string)
  | Readlink (path : string)
  | Mkdir (path : string)
  | Rmdir (path : string)
  | Opendir (path : string)
  | Unlink (path : string)
  | Rename (path newPath : string)
  | Truncate (path : string) (toLength : Z)
  | OpenFile (path : string) (flags : Z).

Definition path_op (o : PathOp) : Op.OperationType * DataHandler * Command :=
  match o with
  | Unmount => (Op.umount, HVoid, CUmount)
  | Stat p => (Op.stat, HStat, CStat p)
  | Statvfs p => (Op.stat, HStatvfs, CStatvfs p)
  | Readlink p => (Op.readlink, HCString, CReadlink p)
  | Mkdir p => (Op.mkdir, HVoid, CMkdir p)
  | Rmdir p => (Op.rmdir, HVoid, CRmdir p)
  | Opendir p => (Op.opendir, HPointer, COpendir p)
  | Unlink p => (Op.unlink, HVoid, CUnlink p)
  | Rename p q => (Op.rename, HVoid, CRename p q)
  | Truncate p n => (Op.truncate, HVoid, CTruncate p n)
  | OpenFile p fl => (Op.open, HPointer, COpen p fl)
  end.

Definition submit_path (k : Z) (o : PathOp) : LM unit :=
  let '(t, h, cmd) := path_op o in submit k t h cmd.

(** ** Mounting *)

Definition mount (k : Z) (server exportname : string) : LM unit :=
  ctx <- gets context ;;
  match ctx with
  | None => cont_resume k (Threw (posix_error ENOTCONN "Context not initialized"))
  | Some _ =>
      contID <- next_continuation_id ;;
      new_callback contID metadata HVoid k TVoid false None ;;
      pass_retained contID ;;
      rc <- call_async contID (CMount server exportname) ;;
      if rc <? 0 then
        release contID ;;
        drop_continuation contID ;;
        e <- call_error rc ;;
        cont_resume k (Threw e)
      else
        fd <- ask get_fd ;;
        if 0 <=? fd then
          setupSources fd ;;
          modify (upd_isRunning (fun _ => true)) ;;
          updateWriteSource
        else startTimeoutTimer
  end.

(** ** The export query *)

Definition cancelRpcExportsSources : LM unit :=
  rs <- gets (fun w => rpcExportsReadSource (rpcx w)) ;;
  match rs with
  | Some rs => source_op (source_cancel rs) ;; source_op (source_release rs)
  | None => ret tt
  end ;;
  modify (upd_rpcx (upd_rpcExportsReadSource (fun _ => None))) ;;
  ws <- gets (fun w => rpcExportsWriteSource (rpcx w)) ;;
  match ws with
  | Some ws =>
      susp <- gets (fun w => rpcExportsWriteSuspended (rpcx w)) ;;
      when susp (source_op (source_resume ws)) ;;
      source_op (source_cancel ws) ;;
      source_op (source_release ws)
  | None => ret tt
  end ;;
  modify (upd_rpcx (upd_rpcExportsWriteSource (fun _ => None))) ;;
  modify (upd_rpcx (upd_rpcExportsWriteSuspended (fun _ => true))).

Definition setupRpcExportsSources (fd : Z) : LM unit :=
  cancelRpcExportsSources ;;
  rs <- make_source ReadSource fd ;;
  source_op (source_resume rs) ;;
  modify (upd_rpcx (upd_rpcExportsReadSource (fun _ => Some rs))) ;;
  ws <- make_source WriteSource fd ;;
  source_op (source_resume ws) ;;
  modify (upd_rpcx (upd_rpcExportsWriteSuspended (fun _ => false))) ;;
  modify (upd_rpcx (upd_rpcExportsWriteSource (fun _ => Some ws))).

Definition cleanupRpcExports : LM unit :=
  cancelRpcExportsSources ;;
  rpc <- gets (fun w => rpcExportsCtx (rpcx w)) ;;
  match rpc with
  | Some _ =>
      modify (upd_rpcx (upd_rpcExportsCtx (fun _ => None))) ;;
      rpc_destroy_context
  | None => ret tt
  end ;;
  modify (upd_rpcx (upd_rpcExportsDone (fun _ => false))) ;;
  modify (upd_rpcx (upd_rpcExportsContID (fun _ => None))).

Definition updateRpcExportsWriteSource : LM unit :=
  rpc <- gets (fun w => rpcExportsCtx (rpcx w)) ;;
  ws <- gets (fun w => rpcExportsWriteSource (rpcx w)) ;;
  match rpc, ws with
  | Some _, Some ws =>
      events <- ask which_events ;;
      susp <- gets (fun w => rpcExportsWriteSuspended (rpcx w)) ;;
      if negb (Z.land events POLLOUT =? 0) then
        when susp (source_op (source_resume ws) ;;
                   modify (upd_rpcx (upd_rpcExportsWriteSuspended (fun _ => false))))
      else
        when (negb susp) (source_op (source_suspend ws) ;;
                          modify (upd_rpcx (upd_rpcExportsWriteSuspended (fun _ => true))))
  | _, _ => ret tt
  end.

Definition handleRpcExportsEvent : LM unit :=
  rpc <- gets (fun w => rpcExportsCtx (rpcx w)) ;;
  match rpc with
  | None => ret tt
  | Some _ =>
      result <- rpc_service ;;
      done <- gets (fun w => rpcExportsDone (rpcx w)) ;;
      if done then cleanupRpcExports
      else if result <? 0 then cleanupRpcExports
      else
        newFd <- ask get_fd ;;
        when (0 <=? newFd) (setupRpcExportsSources newFd) ;;
        updateRpcExportsWriteSource
  end.

(** One call of [mount_getexports_async] on the context of the query. *)
Definition call_getexports (i : Z) (server : string) : LM Z :=
  modify (upd_lib (upd_issued (fun l => l ++ [(i, CGetexports server)]))) ;;
  when (0 <=? async_rc i) (modify (upd_lib (upd_rpcOutstanding (fun _ => Some i)))) ;;
  ret (async_rc i).

Definition getexports (k : Z) (server : string) : LM unit :=
  ctx <- gets context ;;
  rpc <- gets (fun w => rpcExportsCtx (rpcx w)) ;;
  match ctx, rpc with
  | None, _ => cont_resume k (Threw (posix_error ENOTCONN "Event loop shut down"))
  | Some _, Some _ => cont_resume k (Threw (posix_error EBUSY "Export query already in progress"))
  | Some _, None =>
      created <- ask rpc_init ;;
      if negb created then
        cont_resume k (Threw (posix_error ENOMEM "Failed to create RPC context"))
      else
        contID <- next_continuation_id ;;
        new_callback contID metadata HExports k TStrings true None ;;
        modify (upd_rpcx (upd_rpcExportsCtx (fun _ => Some contID))) ;;
        modify (upd_rpcx (upd_rpcExportsContID (fun _ => Some contID))) ;;
        modify (upd_rpcx (upd_rpcExportsDone (fun _ => false))) ;;
        pass_retained contID ;;
        rc <- call_getexports contID server ;;
        if rc <? 0 then
          release contID ;;
          drop_continuation contID ;;
          cleanupRpcExports ;;
          cont_resume k (Threw (posix_error EIO "Failed to start export query"))
        else
          fd <- ask get_fd ;;
          if 0 <=? fd then setupRpcExportsSources fd ;; startTimeoutTimer
          else startTimeoutTimer
  end.

(** ** Timeouts *)

(** [DispatchTime.now() - timeout]: saturates at 1. *)
Definition dispatch_sub (t d : Z) : Z := if t <=? d then 1 else t - d.

(** The first loop of [scanForTimeouts]: the active operations that started
    before [deadline], in the order the dictionary enumerates them. *)
Definition started_before (deadline : Z) (r : Registry) : list Z :=
  List.filter (fun i => match objects r !! i with
                        | Some cb => startTime cb <? deadline
                        | None => false
                        end) (dict_order (elements (activeContinuations r))).

Definition time_out (contID : Z) : LM unit :=
  s <- gets (fun w => activeContinuations (reg w)) ;;
  if decide (contID ∈ s) then
    cb <- get_object contID ;;
    remove_continuation contID ;;
    recordCompletion (operationCategory cb) false ;;
    resume contID (inl (posix_error_plain ETIMEDOUT))
  else ret tt.

Definition scanForTimeouts : LM unit :=
  t <- gets timeout ;;
  if 0 <? t then
    clock <- gets now ;;
    timedOut <- gets (fun w => started_before (dispatch_sub clock t) (reg w)) ;;
    for_each timedOut time_out ;;
    ex <- gets (fun w => rpcExportsContID (rpcx w)) ;;
    active <- gets (fun w => activeContinuations (reg w)) ;;
    match ex with
    | Some exContID => when (negb (bool_decide (exContID ∈ active))) cleanupRpcExports
    | None => ret tt
    end
  else ret tt.

(** ** Shutting down *)

(** The loop over the snapshot of [activeContinuations]. *)
Definition resume_all (conts : gset Z) (e : POSIXError) : LM unit :=
  for_each (dict_order (elements conts)) (fun i => resume i (inl e)).

Definition destroy_context : LM unit :=
  ctx <- gets context ;;
  match ctx with
  | Some _ => modify (upd_context (fun _ => None)) ;; nfs_destroy_context
  | None => ret tt
  end.

Definition shutdownWithError (e : POSIXError) : LM unit :=
  modify (upd_isRunning (fun _ => false)) ;;
  cancelSources ;;
  cancelTimeoutTimer ;;
  continuations <- gets (fun w => activeContinuations (reg w)) ;;
  modify (upd_reg (upd_activeContinuations (fun _ => ∅))) ;;
  modify (upd_pipe (upd_pendingOperations (fun _ => []))) ;;
  destroy_context ;;
  resume_all continuations e.

(** [Unmanaged<LogHandlerBox>.fromOpaque(ptr).release()]. *)
Definition release_box (b : Z) : LM unit :=
  s <- gets (fun w => boxes (log w)) ;;
  if decide (b ∈ s) then modify (upd_log (upd_boxes (fun s => s ∖ {[b]}))) else trap.

Definition release_log_box : LM unit :=
  old <- gets (fun w => logHandlerBoxPtr (log w)) ;;
  match old with
  | Some b =>
      ctx <- gets context ;;
      when (bool_decide (is_Some ctx)) (modify (upd_log (upd_logRegistered (fun _ => None)))) ;;
      release_box b ;;
      modify (upd_log (upd_logHandlerBoxPtr (fun _ => None)))
  | None => ret tt
  end.

Definition performShutdown : LM unit :=
  ctx <- gets context ;;
  active <- gets (fun w => activeContinuations (reg w)) ;;
  if bool_decide (is_Some ctx) || negb (bool_decide (active = ∅)) then
    modify (upd_isRunning (fun _ => false)) ;;
    cancelSources ;;
    cleanupRpcExports ;;
    cancelTimeoutTimer ;;
    release_log_box ;;
    continuations <- gets (fun w => activeContinuations (reg w)) ;;
    modify (upd_reg (upd_activeContinuations (fun _ => ∅))) ;;
    modify (upd_pipe (upd_pendingOperations (fun _ => []))) ;;
    modify (upd_handles (upd_handleRegistry (fun _ => ∅))) ;;
    destroy_context ;;
    resume_all continuations (posix_error ENOTCONN "Event loop shut down") ;;
    set_controller bulk Pipeline.reset ;;
    set_controller metadata Pipeline.reset ;;
    set_inFlight bulk (fun _ => 0) ;;
    set_inFlight metadata (fun _ => 0)
  else ret tt.

(** ** I/O events *)

(** A new descriptor, or another socket behind the same one, gets new sources. *)
Definition check_socket (newFd : Z) : LM unit :=
  if 0 <=? newFd then
    newIno <- socketIno ;;
    cur <- gets (fun w => currentFd (io w)) ;;
    ino <- gets (fun w => currentSocketIno (io w)) ;;
    if negb (newFd =? cur) then setupSources newFd
    else when ((ino =? 0) || negb (newIno =? ino)) (setupSources newFd)
  else ret tt.

Definition handleIOEvent : LM unit :=
  ctx <- gets context ;;
  match ctx with
  | None => ret tt
  | Some _ =>
      result <- nfs_service ;;
      if result <? 0 then
        desc <- ask get_error ;;
        shutdownWithError (posix_error ENOTCONN desc)
      else
        newFd <- ask get_fd ;;
        check_socket newFd ;;
        updateWriteSource ;;
        issuePendingOperations
  end.

(** ** What tests read *)

Definition pipelineDepths : LM (Z * Z) :=
  b <- gets (controller bulk) ;; m <- gets (controller metadata) ;;
  db <- lift (Pipeline.effectiveDepth b) ;; dm <- lift (Pipeline.effectiveDepth m) ;;
  ret (db, dm).

Definition inFlightCounts : LM (Z * Z) :=
  b <- gets (inFlight bulk) ;; m <- gets (inFlight metadata) ;; ret (b, m).

(** ** Operations on an open file *)

(** The guards shared by the operations on a handle. *)
Definition with_handle (k handleID : Z) (body : Z -> LM unit) : LM unit :=
  h <- gets (fun w => handleRegistry (handles w) !! handleID) ;;
  ctx <- gets context ;;
  match h, ctx with
  | None, _ => cont_resume k (Threw (posix_error EBADF "Invalid file handle"))
  | Some _, None => cont_resume k (Threw (posix_error ENOTCONN "Not connected"))
  | Some h, Some _ => body h
  end.

(** The common tail: give a retained pointer to libnfs and make the call; when
    it could not be queued free the operation's own buffer, undo, and throw. *)
Definition start_call (k contID : Z) (c : OperationCategory) (cmd : Command) (buf : option Z)
    : LM unit :=
  pass_retained contID ;;
  rc <- call_async contID cmd ;;
  if rc <? 0 then
    match buf with Some p => free p | None => ret tt end ;;
    release contID ;;
    drop_continuation contID ;;
    e <- call_error rc ;;
    cont_resume k (Threw e)
  else
    set_inFlight c (fun n => n + 1) ;;
    updateWriteSource.

(** An operation without a buffer. *)
Definition handle_call (k : Z) (c : OperationCategory) (h : DataHandler) (cmd : Command)
    : LM unit :=
  contID <- next_continuation_id ;;
  new_callback contID c h k (handler_type h) false None ;;
  start_call k contID c cmd None.

(** [Int(count)] of a [UInt64]. *)
Definition int_of_uint64 (n : Z) : LM Z := if n <? 2 ^ 63 then ret n else trap.

Definition alloc (n : Z) : LM Z :=
  fun w => let '(p, m) := allocate n (heap w) in Some (p, upd_heap (fun _ => m) w).

Definition closeFile (k handleID : Z) : LM unit :=
  with_handle k handleID (fun h =>
    contID <- next_continuation_id ;;
    new_callback contID metadata HVoid k TVoid false None ;;
    modify (upd_handles (upd_handleRegistry (delete handleID))) ;;
    start_call k contID metadata (CClose h) None).

(** [readFile] ([offset] absent) and [preadFile]. *)
Definition readFile (k handleID : Z) (offset : option Z) (count : Z) : LM unit :=
  with_handle k handleID (fun h =>
    contID <- next_continuation_id ;;
    n <- int_of_uint64 count ;;
    readBuf <- alloc n ;;
    new_callback contID bulk (HRead readBuf) k TData false (Some readBuf) ;;
    let b := mkBufPtr readBuf 0 in
    start_call k contID bulk
      (match offset with None => CRead h b n | Some off => CPread h b n off end)
      (Some readBuf)).

(** [writeFile] ([offset] absent) and [pwriteFile]. *)
Definition writeFile (k handleID : Z) (offset : option Z) (data : list byte) : LM unit :=
  with_handle k handleID (fun h =>
    contID <- next_continuation_id ;;
    let n := Z.of_nat (length data) in
    writeBuf <- alloc n ;;
    mem_op (store writeBuf 0 data) ;;
    new_callback contID bulk HStatus k TInt false (Some writeBuf) ;;
    let b := mkBufPtr writeBuf 0 in
    start_call k contID bulk
      (match offset with None => CWrite h b n | Some off => CPwrite h b n off end)
      (Some writeBuf)).

(** The positional variants are copies of these with one more argument. *)
Definition preadFile (k handleID offset count : Z) : LM unit := readFile k handleID (Some offset) count.

Definition pwriteFile (k handleID offset : Z) (data : list byte) : LM unit :=
  writeFile k handleID (Some offset) data.

(** [preadIntoBuffer]: the destination belongs to the caller. *)
Definition preadIntoBuffer (k handleID : Z) (dest : BufPtr) (offset count : Z) : LM unit :=
  with_handle k handleID (fun h =>
    contID <- next_continuation_id ;;
    new_callback contID bulk HReadInto k TInt false None ;;
    n <- int_of_uint64 count ;;
    start_call k contID bulk (CPread h dest n offset) None).

Definition fsync (k handleID : Z) : LM unit :=
  with_handle k handleID (fun h => handle_call k metadata HVoid (CFsync h)).

Definition fstat (k handleID : Z) : LM unit :=
  with_handle k handleID (fun h => handle_call k metadata HFstat (CFstat h)).

Definition ftruncate (k handleID toLength : Z) : LM unit :=
  with_handle k handleID (fun h => handle_call k metadata HVoid (CFtruncate h toLength)).

Definition lseek (k handleID offset whence : Z) : LM unit :=
  with_handle k handleID (fun h => handle_call k metadata HLseek (CLseek h offset whence)).

(** The second half of [openFile]: the pointer that [submit] returned becomes a
    registered handle. *)
Definition registerHandle (k : Z) (p : cdata) : LM unit :=
  a <- bound_to (Tstruct "nfsfh") p ;;
  handleID <- gets (fun w => nextHandleID (handles w)) ;;
  if handleID + 1 <? 2 ^ 64 then
    modify (upd_handles (upd_nextHandleID (fun n => n + 1))) ;;
    modify (upd_handles (upd_handleRegistry <[handleID := a]>)) ;;
    cont_resume k (Returned (VUInt64 handleID))
  else trap.

(** [nfs_close] waits for its reply in a loop of its own, which serves the other
    commands too. *)
Definition nfs_close (fh : Z) : LM unit :=
  modify (upd_lib (upd_closed (fun l => l ++ [(Tstruct "nfsfh", fh)]))) ;; run_callbacks.

Definition closeFileFireAndForget (handleID : Z) : LM unit :=
  h <- gets (fun w => handleRegistry (handles w) !! handleID) ;;
  match h with
  | None => ret tt
  | Some h =>
      modify (upd_handles (upd_handleRegistry (delete handleID))) ;;
      ctx <- gets context ;;
      when (bool_decide (is_Some ctx)) (nfs_close h)
  end.

(** [readdirAll]: the entries of the directory, without "." and "..". *)
Definition visible_entry (e : Api.nfsdirent) : bool :=
  negb (bool_decide (Api.name e = Some ".") || bool_decide (Api.name e = Some "..")).

(** What the loop makes of each entry: [String(cString:)] of its name, and then, of a visible
    one, [Int64(ent.pointee.size)], which stops the program at a size of 2^63 and more.  The
    dictionaries themselves are built in ClientApi, from the same entries. *)
Definition entry_readable (e : Api.nfsdirent) : bool :=
  bool_decide (is_Some (Api.name e)) && (negb (visible_entry e) || (Api.size e <? 2 ^ 63)).

Definition readdirAll (k : Z) (dir : cdata) : LM unit :=
  ctx <- gets context ;;
  match ctx with
  | None => cont_resume k (Threw (posix_error ENOTCONN "Not connected"))
  | Some _ =>
      a <- bound_to (Tstruct "nfsdir") dir ;;
      let ents := readdir a in
      if forallb entry_readable ents
      then modify (upd_lib (upd_closed (fun l => l ++ [(Tstruct "nfsdir", a)]))) ;;
           cont_resume k (Returned (VEntries (List.filter visible_entry ents)))
      else trap
  end.

(** ** The log handler *)

(** [setLogHandler]: [true] installs a handler, [false] is [nil]. *)
Definition setLogHandler (handler : bool) : LM unit :=
  old <- gets (fun w => logHandlerBoxPtr (log w)) ;;
  match old with
  | Some b => release_box b ;; modify (upd_log (upd_logHandlerBoxPtr (fun _ => None)))
  | None => ret tt
  end ;;
  ctx <- gets context ;;
  match ctx, handler with
  | Some _, true =>
      b <- gets (fun w => nextBox (log w)) ;;
      modify (upd_log (upd_nextBox (fun n => n + 1))) ;;
      modify (upd_log (upd_boxes (fun s => {[b]} ∪ s))) ;;
      modify (upd_log (upd_logHandlerBoxPtr (fun _ => Some b))) ;;
      modify (upd_log (upd_logRegistered (fun _ => Some b)))
  | Some _, false => modify (upd_log (upd_logRegistered (fun _ => None)))
  | None, _ => ret tt
  end.

(** ** The queue

    One event is one block on the serial queue, or what happens between two
    blocks: time passes (the monotonic clock never goes back), the owner of a caller's
    buffer frees it. *)

Inductive Request :=
  | RPath (o : PathOp)
  | RMount (server exportname : string)
  | RGetexports (server : string)
  | RClose (handleID : Z)
  | RRead (handleID : Z) (offset : option Z) (count : Z)
  | RWrite (handleID : Z) (offset : option Z) (data : list byte)
  | RPreadInto (handleID : Z) (dest : BufPtr) (offset count : Z)
  | RFsync (handleID : Z)
  | RFstat (handleID : Z)
  | RFtruncate (handleID toLength : Z)
  | RLseek (handleID offset whence : Z)
  | RRegister (p : cdata)
  | RReaddir (dir : cdata).

Inductive Event :=
  | Call (r : Request)
  | SocketReady
  | ExportsReady
  | TimerFired
  | Shutdown
  | CloseForget (handleID : Z)
  | SetLogHandler (handler : bool)
  | AllocBuffer (n : Z)
  | FreeBuffer (p : Z)
  | Elapse (d : Z).

Definition perform (k : Z) (r : Request) : LM unit :=
  match r with
  | RPath o => submit_path k o
  | RMount s e => mount k s e
  | RGetexports s => getexports k s
  | RClose h => closeFile k h
  | RRead h off n => readFile k h off n
  | RWrite h off d => writeFile k h off d
  | RPreadInto h d off n => preadIntoBuffer k h d off n
  | RFsync h => fsync k h
  | RFstat h => fstat k h
  | RFtruncate h n => ftruncate k h n
  | RLseek h off wh => lseek k h off wh
  | RRegister p => registerHandle k p
  | RReaddir d => readdirAll k d
  end.

(** [withCheckedThrowingContinuation]: a continuation for the caller. *)
Definition new_call : LM Z :=
  k <- gets (fun w => nextCall (reg w)) ;;
  modify (upd_reg (upd_nextCall (fun n => n + 1))) ;;
  ret k.

Definition handle (e : Event) : LM unit :=
  match e with
  | Call r => k <- new_call ;; perform k r
  | SocketReady => handleIOEvent
  | ExportsReady => handleRpcExportsEvent
  | TimerFired => scanForTimeouts
  | Shutdown => performShutdown
  | CloseForget h => closeFileFireAndForget h
  | SetLogHandler h => setLogHandler h
  | AllocBuffer n => p <- alloc n ;; ret tt
  | FreeBuffer p => free p
  | Elapse d => modify (upd_now (fun t => t + Z.max 0 d))
  end.

Fixpoint run (es : list Event) : LM unit :=
  match es with
  | [] => ret tt
  | e :: es => handle e ;; run es
  end.

End Loop.

(** [NFSEventLoop.init(timeout:)]: [nfs_init_context().unwrap()]. *)
Definition init (context_created : bool) (timeoutNs clock : Z) : POSIXError + World :=
  match unwrap (if context_created then Some nfs_ctx else None) with
  | inl e => inl e
  | inr ctx =>
      inr (mkWorld (Some ctx) false timeoutNs
        (mkIo None None (-1) 0 false true)
        (mkExports None None None true false None)
        (mkPipe Pipeline.init Pipeline.init [] 0 0)
        (mkRegistry ∅ 1 ∅ ∅ ∅ 0)
        (mkHandles ∅ 1)
        (mkLog None ∅ 0 None [])
        (mkLib ∅ None [] [] O)
        sources_empty mem_empty clock)
  end.
