(* ===== verification/Walk.v ===== *)
(** * Walks over the methods of the event loop

    What a method does to the part of the state that some invariant reads, for many
    methods at once.  A footprint that ignores the dispatch sources, the books of the
    pipeline and the log is [Quiet]: the methods that do nothing else stay within it.  One
    that also ignores memory and outcomes, and sees of callback objects only for whom and
    when they were made, is [Loose]: it has the callbacks of libnfs as well. *)

From stdpp Require Import base gmap strings list.
From S2P Require Import Prelude Posix Memory CType LibnfsApi.
From S2P Require Import StateMonad DispatchSource OperationType EventLoopState EventLoop.

Open Scope Z_scope.
Open Scope monad_scope.

(** ** Quiet footprints *)

(** Everything that callers and libnfs see is unchanged; the timer may be started. *)
Record unseen (w w' : World) : Prop := mkUnseen {
  un_context : context w' = context w;
  un_running : isRunning w' = isRunning w;
  un_timeout : timeout w' = timeout w;
  un_now : now w' = now w;
  un_timer : timeoutTimer (io w) = true -> timeoutTimer (io w') = true;
  un_pending : pendingOperations (pipe w') = pendingOperations (pipe w);
  un_call : nextCall (reg w') = nextCall (reg w);
  un_id : nextContinuationID (reg w') = nextContinuationID (reg w);
  un_objects : objects (reg w') = objects (reg w);
  un_outcomes : outcomes (reg w') = outcomes (reg w);
  un_handles : handles w' = handles w;
  un_heap : heap w' = heap w;
  un_issued : issued (lib w') = issued (lib w);
  un_outstanding : outstanding (lib w') = outstanding (lib w);
  un_rpc : rpcOutstanding (lib w') = rpcOutstanding (lib w);
  un_closed : closed (lib w') = closed (lib w);
  un_tick : (tick (lib w) <= tick (lib w'))%nat
}.

Class Quiet (F : Footprint World) : Prop :=
  quiet : forall w w', fp_inv F w -> unseen w w' -> fp_rel F w w'.

#[export] Hint Extern 1 (Quiet _) => typeclasses eauto : footprint.

Ltac unseen := constructor; cbn; solve [done | lia].
Ltac quiet_walk := footprint_with ltac:(apply quiet; [assumption|unseen]).

Section Quiet.
Context `{E : Env} (F : Footprint World) `{Q : !Quiet F}.
Abbreviation inert := (fp_inert F).

Lemma quiet_ask {A} (f : nat -> A) : inert (ask f).
Proof. intros w Hp ? ? [= _ <-]. apply quiet; [exact Hp|unseen]. Qed.

Lemma quiet_make_source k fd : inert (make_source k fd).
Proof.
  intros w Hp ? ?. unfold make_source. destruct (makeSource k fd (sources w)). intros [= _ <-].
  apply quiet; [exact Hp|unseen].
Qed.
#[local] Hint Resolve @quiet_ask quiet_make_source : footprint.

(** References. *)
Lemma quiet_get_object i : inert (get_object i).
Proof. unfold get_object. quiet_walk. Qed.
Lemma quiet_pass_retained i : inert (pass_retained i).
Proof. unfold pass_retained. quiet_walk. Qed.
Lemma quiet_release i : inert (release i).
Proof. unfold release. quiet_walk. Qed.
Lemma quiet_remove_continuation i : inert (remove_continuation i).
Proof. unfold remove_continuation. quiet_walk. Qed.
Lemma quiet_call_error rc : inert (call_error rc).
Proof. unfold call_error. quiet_walk. Qed.
Lemma quiet_source_op f : inert (source_op f).
Proof. unfold source_op. quiet_walk. Qed.
#[local] Hint Resolve quiet_get_object quiet_pass_retained quiet_release quiet_remove_continuation
  quiet_call_error quiet_source_op : footprint.

(** Sources and the timer. *)
Lemma quiet_startTimeoutTimer : inert startTimeoutTimer.
Proof. unfold startTimeoutTimer. quiet_walk. Qed.
Lemma quiet_cancelSources : inert cancelSources.
Proof. unfold cancelSources. quiet_walk. Qed.
Lemma quiet_socketIno : inert socketIno.
Proof. unfold socketIno. quiet_walk. Qed.
#[local] Hint Resolve quiet_startTimeoutTimer quiet_cancelSources quiet_socketIno : footprint.
Lemma quiet_setupSources fd : inert (setupSources fd).
Proof. unfold setupSources. quiet_walk. Qed.
Lemma quiet_updateWriteSource : inert updateWriteSource.
Proof. unfold updateWriteSource. quiet_walk. Qed.
Lemma quiet_cancelRpcExportsSources : inert cancelRpcExportsSources.
Proof. unfold cancelRpcExportsSources. quiet_walk. Qed.
#[local] Hint Resolve quiet_setupSources quiet_updateWriteSource quiet_cancelRpcExportsSources : footprint.
Lemma quiet_setupRpcExportsSources fd : inert (setupRpcExportsSources fd).
Proof. unfold setupRpcExportsSources. quiet_walk. Qed.
Lemma quiet_updateRpcExportsWriteSource : inert updateRpcExportsWriteSource.
Proof. unfold updateRpcExportsWriteSource. quiet_walk. Qed.
Lemma quiet_check_socket fd : inert (check_socket fd).
Proof. unfold check_socket. quiet_walk. Qed.

(** The pipeline's books. *)
Lemma quiet_set_inFlight c f : inert (set_inFlight c f).
Proof. unfold set_inFlight. apply inert_modify. intros w Hp. apply quiet; [exact Hp|]. destruct c; unseen. Qed.
Lemma quiet_set_controller c f : inert (set_controller c f).
Proof. unfold set_controller. apply inert_modify. intros w Hp. apply quiet; [exact Hp|]. destruct c; unseen. Qed.
Lemma quiet_has_slot c : inert (has_slot c).
Proof. unfold has_slot. quiet_walk. Qed.
#[local] Hint Resolve quiet_set_inFlight quiet_set_controller quiet_has_slot : footprint.
Lemma quiet_recordCompletion c b : inert (recordCompletion c b).
Proof. unfold recordCompletion. quiet_walk. Qed.
#[local] Hint Resolve quiet_recordCompletion : footprint.

(** A completion issues waiting operations. *)
Lemma quiet_completionHook i cb b : inert issuePendingOperations -> inert (completionHook i cb b).
Proof. intros Hi. unfold completionHook, handleCallbackCompletion. quiet_walk. Qed.

(** The log. *)
Lemma quiet_logCallback level msg box : inert (logCallback level msg box).
Proof. unfold logCallback. quiet_walk. Qed.
Lemma quiet_release_log_box : inert release_log_box.
Proof. unfold release_log_box, release_box. quiet_walk. Qed.
Lemma quiet_setLogHandler b : inert (setLogHandler b).
Proof. unfold setLogHandler, release_box. quiet_walk. Qed.

End Quiet.

#[export] Hint Resolve @quiet_ask quiet_make_source quiet_get_object quiet_pass_retained quiet_release
  quiet_remove_continuation quiet_call_error quiet_source_op quiet_startTimeoutTimer quiet_cancelSources
  quiet_socketIno quiet_setupSources quiet_updateWriteSource quiet_cancelRpcExportsSources
  quiet_setupRpcExportsSources quiet_updateRpcExportsWriteSource quiet_check_socket quiet_set_inFlight
  quiet_set_controller quiet_has_slot quiet_recordCompletion quiet_completionHook quiet_logCallback
  quiet_release_log_box quiet_setLogHandler : footprint.

(** ** Loose footprints *)

(** Memory, outcomes and the commands that libnfs has are free to change; callback objects
    may go away, and keep the call and the time that they were made for. *)
Record touched (w w' : World) : Prop := mkTouched {
  to_context : context w' = context w;
  to_running : isRunning w' = isRunning w;
  to_timeout : timeout w' = timeout w;
  to_now : now w' = now w;
  to_timer : timeoutTimer (io w) = true -> timeoutTimer (io w') = true;
  to_pending : pendingOperations (pipe w') = pendingOperations (pipe w);
  to_call : nextCall (reg w') = nextCall (reg w);
  to_objects : forall i cb', objects (reg w') !! i = Some cb' -> exists cb, objects (reg w) !! i = Some cb /\
    startTime cb' = startTime cb /\ continuation cb' = continuation cb;
  to_handles : handles w' = handles w;
  to_issued : issued (lib w') = issued (lib w);
  to_closed : closed (lib w') = closed (lib w)
}.

Class Loose (F : Footprint World) : Prop :=
  loose : forall w w', fp_inv F w -> touched w w' -> fp_rel F w w'.

#[export] Instance loose_quiet F : Loose F -> Quiet F.
Proof.
  intros HF w w' Hp []. apply HF; [exact Hp|]. constructor; auto. intros i cb Hi. exists cb.
  split; [congruence|auto].
Qed.

#[export] Hint Extern 1 (Loose _) => typeclasses eauto : footprint.

Ltac touched := constructor; cbn; solve [done | intros; eauto].
Ltac loose_walk := footprint_with ltac:(apply loose; [assumption|touched]).

Section Loose.
Context `{E : Env} (F : Footprint World) `{L : !Loose F}.
Abbreviation inert := (fp_inert F).

Lemma loose_alloc n : inert (alloc n).
Proof.
  intros w Hp ? ?. unfold alloc. destruct (allocate n (heap w)). intros [= _ <-]. apply loose; [exact Hp|touched].
Qed.
Lemma loose_mem_op f : inert (mem_op f).
Proof. unfold mem_op. loose_walk. Qed.
Lemma loose_cont_resume k o : inert (cont_resume k o).
Proof. unfold cont_resume. loose_walk. Qed.
Lemma loose_next_id : inert next_continuation_id.
Proof. unfold next_continuation_id. loose_walk. Qed.
#[local] Hint Resolve loose_alloc loose_mem_op loose_cont_resume loose_next_id : footprint.

(** An object is only marked as resumed, or forgotten. *)
Lemma loose_mark i cb w : fp_inv F w -> objects (reg w) !! i = Some cb ->
  fp_rel F w (upd_reg (upd_objects <[i := mark_resumed cb]>) w).
Proof.
  intros Hp Hi. apply loose; [exact Hp|]. constructor; cbn; try done.
  intros j cj [[<- <-]|[_ Hj]]%lookup_insert_Some; eauto.
Qed.

Lemma loose_resume i r : inert (resume i r).
Proof.
  intros w Hp a w'. unfold resume, get_object, bind, gets, lift. destruct (objects (reg w) !! i) as [cb|] eqn:Ei; [|discriminate].
  assert (Hrest : inert (if hasResumed cb then drop_result r else ret tt)) by (unfold drop_result; loose_walk).
  destruct (hasResumed cb); [apply Hrest, Hp|]. intros Hr. eapply fp_trans; [exact (loose_mark i cb w Hp Ei)|].
  assert (Ht : inert (resume_typed (resultType cb) (continuation cb) r)) by (unfold resume_typed, drop_result; loose_walk).
  exact (inert_run F _ _ _ _ Ht (fp_post F _ _ (loose_mark i cb w Hp Ei)) Hr).
Qed.

Lemma loose_drop_continuation i : inert (drop_continuation i).
Proof.
  unfold drop_continuation. apply inert_bind; [eauto with footprint|intro]. apply inert_modify. intros w Hp.
  apply loose; [exact Hp|]. constructor; cbn; try done. intros j cb [_ Hj]%lookup_delete_Some. eauto.
Qed.
#[local] Hint Resolve loose_resume loose_drop_continuation : footprint.

Lemma loose_failureCleanup i rc : inert (failureCleanup i rc).
Proof. unfold failureCleanup. loose_walk. Qed.
Lemma loose_run_handler h status data : inert (run_handler h status data).
Proof. unfold run_handler, bound_to, free. destruct h; loose_walk. Qed.
#[local] Hint Resolve loose_failureCleanup loose_run_handler : footprint.
Lemma loose_time_out i : inert (time_out i).
Proof. unfold time_out. loose_walk. Qed.
Lemma loose_resume_all s e : inert (resume_all s e).
Proof. unfold resume_all. loose_walk. Qed.

(** Callbacks, which issue waiting operations. *)
Context (Hissue : inert issuePendingOperations).
#[local] Hint Resolve Hissue loose_time_out : footprint.

Lemma loose_nfsCallback status data i : inert (nfsCallback status data i).
Proof. unfold nfsCallback, free. loose_walk. Qed.
Lemma loose_rpcCallback status data i : inert (rpcCallback status data i).
Proof. unfold rpcCallback. loose_walk. Qed.
#[local] Hint Resolve loose_nfsCallback loose_rpcCallback : footprint.
Lemma loose_run_callbacks : inert run_callbacks.
Proof. unfold run_callbacks, deliver, write_reply. loose_walk. Qed.
Lemma loose_run_rpc_callbacks : inert run_rpc_callbacks.
Proof. unfold run_rpc_callbacks, deliver_rpc. loose_walk. Qed.
#[local] Hint Resolve loose_run_callbacks loose_run_rpc_callbacks : footprint.
Lemma loose_cleanupRpcExports : inert cleanupRpcExports.
Proof. unfold cleanupRpcExports, rpc_destroy_context. loose_walk. Qed.
#[local] Hint Resolve loose_cleanupRpcExports : footprint.
Lemma loose_handleRpcExportsEvent : inert handleRpcExportsEvent.
Proof. unfold handleRpcExportsEvent, rpc_service. loose_walk. Qed.
Lemma loose_scanForTimeouts : inert scanForTimeouts.
Proof. unfold scanForTimeouts. loose_walk. Qed.

End Loose.

#[export] Hint Resolve loose_alloc loose_mem_op loose_cont_resume loose_next_id loose_resume loose_drop_continuation
  loose_failureCleanup loose_run_handler loose_time_out loose_resume_all @loose_nfsCallback @loose_rpcCallback
  @loose_run_callbacks @loose_run_rpc_callbacks @loose_cleanupRpcExports @loose_handleRpcExportsEvent
  @loose_scanForTimeouts : footprint.
