(* ===== verification/SourceInv.v ===== *)
(** * Which dispatch sources the loop holds

    [held l s]: [l] lists the sources that are referenced, each with its
    suspension count; they are distinct.  [src_inv] says so of the four source
    fields of the loop: both read sources run, and a write source is suspended
    exactly when its flag says so. *)

From stdpp Require Import base list gmap.
From S2P Require Import Prelude DispatchSource EventLoopState.

Open Scope Z_scope.

Definition held (l : list (Z * Z)) (s : Sources) : Prop :=
  sources_ok s /\ NoDup l.*1 /\ Forall (fun p => at_count p.1 p.2 s) l.

#[export] Instance held_proper s : Proper (Permutation ==> iff) (fun l => held l s).
Proof.
  intros l l' Hp; unfold held. rewrite Hp. done.
Qed.

Lemma held_perm l l' s : l ≡ₚ l' -> held l s -> held l' s.
Proof. unfold held. intros Hp. rewrite Hp. done. Qed.

Lemma at_count_same i j n s s' : same_but i s s' -> j <> i -> at_count j n s -> at_count j n s'.
Proof. intros (_ & _ & H) Hne (x & Hx & Hn). exists x. now rewrite H. Qed.

Lemma held_others i l s s' : same_but i s s' -> i ∉ l.*1 ->
  Forall (fun p => at_count p.1 p.2 s) l -> Forall (fun p => at_count p.1 p.2 s') l.
Proof.
  intros Hs Hi Hl. rewrite Forall_forall in *. intros p Hp.
  eapply at_count_same; [exact Hs| |auto]. intros <-. apply Hi, list_elem_of_fmap; eauto.
Qed.

Lemma held_update i n n' l s s' : held ((i, n) :: l) s -> same_but i s s' ->
  at_count i n' s' -> held ((i, n') :: l) s'.
Proof.
  intros (H1 & H2 & H3) Hs Hc. cbn in *. apply NoDup_cons in H2 as [Hi H2].
  apply Forall_cons in H3 as [_ H3]. split; [|split].
  - now apply Hs.
  - cbn. now apply NoDup_cons.
  - apply Forall_cons. split; [exact Hc|]. eapply held_others; eauto.
Qed.

Lemma held_drop i n l s s' : held ((i, n) :: l) s -> same_but i s s' -> held l s'.
Proof.
  intros (H1 & H2 & H3) Hs. cbn in *. apply NoDup_cons in H2 as [Hi H2].
  apply Forall_cons in H3 as [_ H3]. split; [|split]; [now apply Hs|done|].
  eapply held_others; eauto.
Qed.

Lemma held_head i n l s : held ((i, n) :: l) s -> at_count i n s.
Proof. intros (_ & _ & H). now apply Forall_cons in H as [H _]. Qed.

Lemma held_make k fd l s i s' : held l s -> makeSource k fd s = (i, s') -> held ((i, 1) :: l) s'.
Proof.
  intros (H1 & H2 & H3) Hm. destruct (makeSource_spec _ _ _ _ _ Hm H1) as (Hc & Hs & Hnew).
  assert (Hi : i ∉ l.*1).
  { intros ([j n] & -> & Hin)%list_elem_of_fmap. rewrite Forall_forall in H3.
    destruct (H3 _ Hin) as (x & Hx & _). eapply Hnew; eauto. }
  split; [|split]; [now apply Hs|cbn; now apply NoDup_cons|].
  apply Forall_cons. split; [exact Hc|]. eapply held_others; eauto.
Qed.

(** The sources behind the fields of the loop. *)
Definition opt_source (o : option Z) (n : Z) : list (Z * Z) :=
  match o with Some i => [(i, n)] | None => [] end.

Definition count_of (suspended : bool) : Z := if suspended then 1 else 0.

Definition io_sources (i : Io) : list (Z * Z) :=
  opt_source (readSource i) 0 ++ opt_source (writeSource i) (count_of (writeSourceSuspended i)).

Definition rpc_sources (x : Exports) : list (Z * Z) :=
  opt_source (rpcExportsReadSource x) 0
  ++ opt_source (rpcExportsWriteSource x) (count_of (rpcExportsWriteSuspended x)).

Definition src_inv (i : Io) (x : Exports) (s : Sources) : Prop :=
  held (io_sources i ++ rpc_sources x) s.
