(* ===== verification/SourceSpecs.v ===== *)
(** * The methods that manage dispatch sources

    [setupSources], [cancelSources], [updateWriteSource] and their counterparts
    for the export query never break a rule of libdispatch, keep [src_inv], and
    change nothing else. *)

From stdpp Require Import base list gmap.
From S2P Require Import Prelude CType StateMonad DispatchSource EventLoopState EventLoop SourceInv.

Open Scope Z_scope.

(** Everything but sources, the fields that refer to them, the timer flag, and
    the clock of the environment. *)
Record same_core (w w' : World) : Prop := mkSameCore {
  sc_context : context w' = context w;
  sc_running : isRunning w' = isRunning w;
  sc_timeout : timeout w' = timeout w;
  sc_ctx : rpcExportsCtx (rpcx w') = rpcExportsCtx (rpcx w);
  sc_done : rpcExportsDone (rpcx w') = rpcExportsDone (rpcx w);
  sc_cont : rpcExportsContID (rpcx w') = rpcExportsContID (rpcx w);
  sc_pipe : pipe w' = pipe w;
  sc_reg : reg w' = reg w;
  sc_handles : handles w' = handles w;
  sc_log : log w' = log w;
  sc_out : outstanding (lib w') = outstanding (lib w);
  sc_rpc : rpcOutstanding (lib w') = rpcOutstanding (lib w);
  sc_issued : issued (lib w') = issued (lib w);
  sc_closed : closed (lib w') = closed (lib w);
  sc_heap : heap w' = heap w;
  sc_now : now w' = now w
}.

#[export] Instance same_core_preorder : PreOrder same_core.
Proof.
  split; [intros w; constructor; reflexivity|].
  intros w1 w2 w3 H1 H2; destruct H1, H2; constructor; congruence.
Qed.

Lemma same_core_trans w1 w2 w3 : same_core w1 w2 -> same_core w2 w3 -> same_core w1 w3.
Proof. intros; etransitivity; eauto. Qed.

Abbreviation SI w := (src_inv (io w) (rpcx w) (sources w)).

(** [keeps m]: a source method does what the header says. *)
Definition keeps {A} (m : M World A) : Prop :=
  forall w, SI w -> wp m (fun _ w' => SI w' /\ same_core w w') w.

Section Specs.
Context `{E : Env}.

Lemma wp_ask {A} (f : nat -> A) Q w :
  Q (f (tick (lib w))) (upd_lib (upd_tick S) w) -> wp (ask f) Q w.
Proof. exact (fun H => H). Qed.

Lemma wp_socketIno (Q : Z -> World -> Prop) w : (forall ino, Q ino (upd_lib (upd_tick S) w)) -> wp socketIno Q w.
Proof.
  intros H. unfold socketIno. apply wp_bind, wp_ask. destruct (fstat_ino _) as [ino|] eqn:Ei; [|apply wp_ret, H].
  apply fstat_ino_range in Ei as [_ Ei]. rewrite (proj2 (Z.ltb_lt _ _) Ei). apply wp_ret, H.
Qed.

(** One operation on a referenced source. *)
Lemma wp_source_op f w (Q : unit -> World -> Prop) :
  (exists s', f (sources w) = Some s' /\ Q tt (upd_sources (fun _ => s') w)) ->
  wp (source_op f) Q w.
Proof.
  intros (s' & Hf & HQ). unfold source_op. wp_steps. apply wp_lift. exists s'. split; [done|].
  wp_steps. exact HQ.
Qed.

Lemma wp_make_source k fd w (Q : Z -> World -> Prop) :
  (forall i s', makeSource k fd (sources w) = (i, s') -> Q i (upd_sources (fun _ => s') w)) ->
  wp (make_source k fd) Q w.
Proof.
  intros H. unfold wp, make_source. destruct (makeSource k fd (sources w)) as [i s'] eqn:Em. eauto.
Qed.

Lemma wp_resume_source i n l w (Q : unit -> World -> Prop) :
  held ((i, n) :: l) (sources w) -> 0 < n ->
  (forall s', held ((i, n - 1) :: l) s' -> Q tt (upd_sources (fun _ => s') w)) ->
  wp (source_op (source_resume i)) Q w.
Proof.
  intros Hh Hn HQ. apply wp_source_op.
  destruct (source_resume_spec i n _ (held_head _ _ _ _ Hh) Hn) as (s' & H1 & H2 & H3).
  exists s'. split; [exact H1|]. apply HQ. eapply held_update; eauto.
Qed.

Lemma wp_suspend_source i n l w (Q : unit -> World -> Prop) :
  held ((i, n) :: l) (sources w) ->
  (forall s', held ((i, n + 1) :: l) s' -> Q tt (upd_sources (fun _ => s') w)) ->
  wp (source_op (source_suspend i)) Q w.
Proof.
  intros Hh HQ. apply wp_source_op.
  destruct (source_suspend_spec i n _ (held_head _ _ _ _ Hh)) as (s' & H1 & H2 & H3).
  exists s'. split; [exact H1|]. apply HQ. eapply held_update; eauto.
Qed.

Lemma wp_cancel_source i n l w (Q : unit -> World -> Prop) :
  held ((i, n) :: l) (sources w) ->
  (forall s', held ((i, n) :: l) s' -> Q tt (upd_sources (fun _ => s') w)) ->
  wp (source_op (source_cancel i)) Q w.
Proof.
  intros Hh HQ. apply wp_source_op.
  destruct (source_cancel_spec i n _ (held_head _ _ _ _ Hh)) as (s' & H1 & H2 & H3).
  exists s'. split; [exact H1|]. apply HQ. eapply held_update; eauto.
Qed.

Lemma wp_release_source i l w (Q : unit -> World -> Prop) :
  held ((i, 0) :: l) (sources w) ->
  (forall s', held l s' -> Q tt (upd_sources (fun _ => s') w)) ->
  wp (source_op (source_release i)) Q w.
Proof.
  intros Hh HQ. apply wp_source_op.
  destruct (source_release_spec i _ (held_head _ _ _ _ Hh)) as (s' & H1 & H2 & H3).
  exists s'. split; [exact H1|]. apply HQ. eapply held_drop; eauto.
Qed.

(** Cancel a running source and let go of it. *)
Lemma wp_retire i l w (Q : unit -> World -> Prop) :
  held ((i, 0) :: l) (sources w) ->
  (forall s', held l s' -> Q tt (upd_sources (fun _ => s') w)) ->
  wp (bind (source_op (source_cancel i)) (fun _ => source_op (source_release i))) Q w.
Proof.
  intros Hh HQ. apply wp_bind. eapply wp_cancel_source; [exact Hh|]. intros s' Hs.
  eapply wp_release_source; [exact Hs|]. intros s'' Hs''. exact (HQ s'' Hs'').
Qed.

Lemma keeps_ret {A} (a : A) : keeps (ret a).
Proof. intros w H. apply wp_ret. split; [exact H|reflexivity]. Qed.

Lemma keeps_bind {A B} (m : M World A) (k : A -> M World B) :
  keeps m -> (forall a, keeps (k a)) -> keeps (bind m k).
Proof.
  intros Hm Hk w H. apply wp_bind. eapply wp_mono; [apply Hm, H|].
  intros a w1 [H1 S1]. eapply wp_mono; [apply Hk, H1|]. intros b w2 [H2 S2].
  split; [exact H2|]. etransitivity; eauto.
Qed.

Lemma keeps_ask {A} (f : nat -> A) : keeps (ask f).
Proof. intros w H. apply wp_ask. split; [exact H|]. constructor; reflexivity. Qed.

Lemma keeps_socketIno : keeps socketIno.
Proof. intros w H. apply wp_socketIno. intros ino. split; [exact H|]. constructor; reflexivity. Qed.

Lemma keeps_gets {A} (f : World -> A) : keeps (gets f).
Proof. intros w H. apply wp_gets. split; [exact H|reflexivity]. Qed.

Lemma keeps_when b m : keeps m -> keeps (when b m).
Proof. intros H w Hw. apply wp_when; intros _; [auto|split; [exact Hw|reflexivity]]. Qed.

Lemma keeps_startTimeoutTimer : keeps startTimeoutTimer.
Proof.
  intros w H. unfold startTimeoutTimer. wp_steps; (split; [exact H|constructor; reflexivity]).
Qed.

Ltac core := constructor; reflexivity.

Lemma keeps_updateWriteSource : keeps updateWriteSource.
Proof.
  intros w H. unfold updateWriteSource. wp_steps.
  destruct (context w), (writeSource (io w)) as [ws|] eqn:Ews; try (split; [exact H|reflexivity]).
  apply wp_bind, wp_ask. wp_steps. cbn. destruct (negb _).
  - apply wp_when; intros Hs; cbn.
    + apply wp_bind. eapply (wp_resume_source ws 1 (opt_source (readSource (io w)) 0 ++ rpc_sources (rpcx w))); [|lia|].
      * eapply held_perm; [|exact H]. unfold src_inv, io_sources. rewrite Ews, Hs. cbn.
        solve_Permutation.
      * intros s' Hs'. wp_steps. cbn. split; [|core]. unfold src_inv, io_sources. cbn.
        rewrite Ews. eapply held_perm; [|exact Hs']. cbn. solve_Permutation.
    + split; [exact H|core].
  - apply wp_when; intros Hs; cbn.
    + apply wp_bind. apply negb_true_iff in Hs.
      eapply (wp_suspend_source ws 0 (opt_source (readSource (io w)) 0 ++ rpc_sources (rpcx w))).
      * eapply held_perm; [|exact H]. unfold src_inv, io_sources. rewrite Ews, Hs. cbn.
        solve_Permutation.
      * intros s' Hs'. wp_steps. cbn. split; [|core]. unfold src_inv, io_sources. cbn.
        rewrite Ews. eapply held_perm; [|exact Hs']. cbn. solve_Permutation.
    + split; [exact H|core].
Qed.

(** The read half and the write half of [cancelSources]. *)
Lemma cancel_read_spec w : SI w ->
  wp (rs <- gets (fun w => readSource (io w)) ;;
      match rs with
      | Some rs => source_op (source_cancel rs) ;; source_op (source_release rs) ;;
                   modify (upd_io (upd_readSource (fun _ => None)))
      | None => ret tt
      end)%monad
     (fun _ w' => SI w' /\ same_core w w' /\ readSource (io w') = None) w.
Proof.
  intros H. wp_steps. destruct (readSource (io w)) as [rs|] eqn:Er.
  - unfold src_inv, io_sources in H. rewrite Er in H. cbn in H.
    apply wp_bind. eapply wp_cancel_source; [exact H|]. intros s1 H1.
    apply wp_bind. eapply wp_release_source; [exact H1|]. intros s2 H2.
    wp_steps. split; [exact H2|]. split; [core|reflexivity].
  - wp_steps. split; [exact H|]. split; [reflexivity|exact Er].
Qed.

Lemma cancel_write_spec w : SI w -> readSource (io w) = None ->
  wp (ws <- gets (fun w => writeSource (io w)) ;;
      match ws with
      | Some ws =>
          susp <- gets (fun w => writeSourceSuspended (io w)) ;;
          when susp (source_op (source_resume ws) ;;
                     modify (upd_io (upd_writeSourceSuspended (fun _ => false)))) ;;
          source_op (source_cancel ws) ;;
          source_op (source_release ws) ;;
          modify (upd_io (upd_writeSource (fun _ => None)))
      | None => ret tt
      end)%monad
     (fun _ w' => SI w' /\ same_core w w' /\
        readSource (io w') = None /\ writeSource (io w') = None) w.
Proof.
  intros H Hr. wp_steps. destruct (writeSource (io w)) as [ws|] eqn:Ew.
  - unfold src_inv, io_sources in H. rewrite Hr, Ew in H. cbn in H. apply wp_bind, wp_gets. cbn beta.
    destruct (writeSourceSuspended (io w)) eqn:Es.
    + wp_steps. eapply wp_resume_source; [exact H|cbn; lia|]. intros s0 H0. wp_steps.
      eapply wp_cancel_source; [exact H0|]. intros s1 H1.
      apply wp_bind. eapply wp_release_source; [exact H1|]. intros s2 H2.
      wp_steps. cbn in *. unfold src_inv, io_sources. cbn. rewrite Hr.
      split; [exact H2|]. split; [core|done].
    + wp_steps. eapply wp_cancel_source; [exact H|]. intros s1 H1.
      apply wp_bind. eapply wp_release_source; [exact H1|]. intros s2 H2.
      wp_steps. cbn in *. unfold src_inv, io_sources. cbn. rewrite Hr.
      split; [exact H2|]. split; [core|done].
  - wp_steps. split; [exact H|]. split; [reflexivity|done].
Qed.

Lemma cancelSources_spec w : SI w ->
  wp cancelSources (fun _ w' => SI w' /\ same_core w w' /\
    readSource (io w') = None /\ writeSource (io w') = None) w.
Proof.
  intros H. unfold cancelSources.
  apply wp_bind_assoc. apply wp_bind. eapply wp_mono; [apply cancel_read_spec, H|].
  intros [] w1 (H1 & S1 & R1). cbn beta.
  apply wp_bind_assoc. apply wp_bind. eapply wp_mono; [apply cancel_write_spec; eassumption|].
  intros [] w2 (H2 & S2 & R2 & W2). cbn beta. wp_steps.
  split; [exact H2|]. split; [|done]. etransitivity; [exact S1|]. etransitivity; [exact S2|core].
Qed.

Lemma keeps_cancelSources : keeps cancelSources.
Proof. intros w H. eapply wp_mono; [apply cancelSources_spec, H|]. intros a w1 (H1 & S1 & _). auto. Qed.

Lemma keeps_setupSources fd : keeps (setupSources fd).
Proof.
  intros w H. unfold setupSources. apply wp_bind.
  eapply wp_mono; [apply cancelSources_spec, H|]. intros [] w1 (H1 & S1 & R1 & W1). cbn beta.
  wp_steps. apply wp_socketIno. intros ino. wp_steps.
  set (w2 := upd_io _ _).
  assert (H2 : SI w2 /\ same_core w w2 /\ readSource (io w2) = None /\ writeSource (io w2) = None).
  { split; [exact H1|]. split; [etransitivity; [exact S1|core]|done]. }
  clearbody w2. clear H1 S1 R1 W1 w1. destruct H2 as (H2 & S2 & R2 & W2).
  unfold startTimeoutTimer. wp_steps.
  match goal with |- wp _ _ ?w => remember w as w3 eqn:E3 end.
  2: match goal with |- wp _ _ ?w => remember w as w3 eqn:E3 end.
  all: assert (H3 : SI w3 /\ same_core w w3 /\ readSource (io w3) = None /\ writeSource (io w3) = None)
    by (subst w3; split; [exact H2|]; split; [etransitivity; [exact S2|core]|done]).
  all: clear E3 H2 S2 R2 W2; destruct H3 as (H3 & S3 & R3 & W3).
  all: unfold src_inv, io_sources in H3; rewrite R3, W3 in H3; cbn in H3.
  all: apply wp_make_source; intros rs s4 M4; cbn beta; apply wp_bind;
    eapply wp_resume_source; [eapply held_make; eassumption|lia|]; intros s5 H5.
  all: wp_steps; apply wp_make_source; intros ws s6 M6; wp_steps.
  all: pose proof (held_make _ _ _ _ _ _ H5 M6) as H6.
  all: split; [|etransitivity; [exact S3|core]].
  all: unfold src_inv, io_sources; cbn; eapply held_perm; [|exact H6]; cbn; solve_Permutation.
Qed.

(** ** The sources of the export query *)

Lemma cancel_rpc_read_spec w : SI w ->
  wp (rs <- gets (fun w => rpcExportsReadSource (rpcx w)) ;;
      match rs with
      | Some rs => source_op (source_cancel rs) ;; source_op (source_release rs)
      | None => ret tt
      end)%monad
     (fun _ w' => SI (upd_rpcx (upd_rpcExportsReadSource (fun _ => None)) w') /\ same_core w w') w.
Proof.
  intros H. wp_steps. destruct (rpcExportsReadSource (rpcx w)) as [rs|] eqn:Er.
  - assert (H' : held ((rs, 0) :: io_sources (io w) ++
        opt_source (rpcExportsWriteSource (rpcx w)) (count_of (rpcExportsWriteSuspended (rpcx w))))
        (sources w)).
    { eapply held_perm; [|exact H]. unfold rpc_sources. rewrite Er. cbn. solve_Permutation. }
    eapply wp_retire; [exact H'|]. intros s H2. split; [exact H2|core].
  - wp_steps. split; [|reflexivity]. unfold src_inv, rpc_sources in *. rewrite Er in H. exact H.
Qed.

Lemma cancel_rpc_write_spec w : SI w -> rpcExportsReadSource (rpcx w) = None ->
  wp (ws <- gets (fun w => rpcExportsWriteSource (rpcx w)) ;;
      match ws with
      | Some ws =>
          susp <- gets (fun w => rpcExportsWriteSuspended (rpcx w)) ;;
          when susp (source_op (source_resume ws)) ;;
          source_op (source_cancel ws) ;;
          source_op (source_release ws)
      | None => ret tt
      end)%monad
     (fun _ w' => held (io_sources (io w')) (sources w') /\ same_core w w' /\
        rpcExportsReadSource (rpcx w') = None) w.
Proof.
  intros H Hr. wp_steps. destruct (rpcExportsWriteSource (rpcx w)) as [ws|] eqn:Ew.
  - assert (H' : held ((ws, count_of (rpcExportsWriteSuspended (rpcx w))) :: io_sources (io w))
        (sources w)).
    { eapply held_perm; [|exact H]. unfold rpc_sources. rewrite Hr, Ew. cbn. solve_Permutation. }
    apply wp_bind, wp_gets. cbn beta. destruct (rpcExportsWriteSuspended (rpcx w)).
    + wp_steps. eapply wp_resume_source; [exact H'|cbn; lia|]. intros s1 H1. wp_steps.
      eapply wp_cancel_source; [exact H1|]. intros s2 H2.
      eapply wp_release_source; [exact H2|]. intros s3 H3. clear H2; rename H3 into H2. split; [exact H2|]. split; [core|exact Hr].
    + wp_steps. eapply wp_cancel_source; [exact H'|]. intros s1 H1.
      eapply wp_release_source; [exact H1|]. intros s2 H2.
      split; [exact H2|]. split; [core|exact Hr].
  - wp_steps. split; [|split; [reflexivity|exact Hr]].
    eapply held_perm; [|exact H]. unfold rpc_sources. rewrite Hr, Ew. cbn. now rewrite app_nil_r.
Qed.

Lemma cancelRpcExportsSources_spec w : SI w ->
  wp cancelRpcExportsSources (fun _ w' => SI w' /\ same_core w w' /\
    rpcExportsReadSource (rpcx w') = None /\ rpcExportsWriteSource (rpcx w') = None) w.
Proof.
  intros H. unfold cancelRpcExportsSources.
  apply wp_bind_assoc, wp_bind. eapply wp_mono; [apply cancel_rpc_read_spec, H|].
  intros [] w1 (H1 & S1). cbn beta. apply wp_bind, wp_modify.
  apply wp_bind_assoc, wp_bind.
  eapply wp_mono; [apply cancel_rpc_write_spec; [exact H1|reflexivity]|].
  intros [] w2 (H2 & S2 & R2). cbn beta. wp_steps.
  split; [|split; [|split; [exact R2|reflexivity]]].
  - unfold src_inv, rpc_sources. cbn. rewrite R2. cbn. rewrite app_nil_r. exact H2.
  - etransitivity; [exact S1|]. transitivity w2; [|core].
    etransitivity; [|exact S2]. core.
Qed.

Lemma keeps_setupRpcExportsSources fd : keeps (setupRpcExportsSources fd).
Proof.
  intros w H. unfold setupRpcExportsSources. apply wp_bind.
  eapply wp_mono; [apply cancelRpcExportsSources_spec, H|]. intros [] w1 (H1 & S1 & R1 & W1).
  cbn beta. unfold src_inv, rpc_sources in H1. rewrite R1, W1 in H1. cbn in H1.
  rewrite app_nil_r in H1.
  wp_steps. apply wp_make_source. intros rs s2 M2. wp_steps.
  eapply wp_resume_source; [eapply held_make; eassumption|lia|]. intros s3 H3. cbn.
  wp_steps. apply wp_make_source. intros ws s4 M4. wp_steps.
  eapply wp_resume_source; [eapply held_make; [exact H3|exact M4]|lia|]. intros s5 H5.
  wp_steps. split; [|etransitivity; [exact S1|core]].
  unfold src_inv, rpc_sources. cbn. eapply held_perm; [|exact H5]. cbn. solve_Permutation.
Qed.

Lemma keeps_updateRpcExportsWriteSource : keeps updateRpcExportsWriteSource.
Proof.
  intros w H. unfold updateRpcExportsWriteSource. wp_steps.
  destruct (rpcExportsCtx (rpcx w)), (rpcExportsWriteSource (rpcx w)) as [ws|] eqn:Ews;
    try (split; [exact H|reflexivity]).
  apply wp_bind, wp_ask. apply wp_bind, wp_gets. cbn.
  assert (H' : held ((ws, count_of (rpcExportsWriteSuspended (rpcx w))) ::
      io_sources (io w) ++ opt_source (rpcExportsReadSource (rpcx w)) 0) (sources w)).
  { eapply held_perm; [|exact H]. unfold rpc_sources. rewrite Ews. cbn. solve_Permutation. }
  destruct (negb (_ =? 0)); apply wp_when; intros Hs; try (split; [exact H|core]).
  - rewrite Hs in H'. apply wp_bind. eapply wp_resume_source; [exact H'|cbn; lia|].
    intros s' Hs'. wp_steps. cbn. split; [|core]. unfold src_inv, rpc_sources. cbn.
    rewrite Ews. eapply held_perm; [|exact Hs']. cbn. solve_Permutation.
  - apply negb_true_iff in Hs. rewrite Hs in H'. apply wp_bind. eapply wp_suspend_source; [exact H'|].
    intros s' Hs'. wp_steps. cbn. split; [|core]. unfold src_inv, rpc_sources. cbn.
    rewrite Ews. eapply held_perm; [|exact Hs']. cbn. solve_Permutation.
Qed.

End Specs.
