(* ===== verification/RegistryInv.v ===== *)
(** * Continuations, callback objects and queued commands

    The invariant that ties [activeContinuations], the heap of callback objects,
    the retained pointers, the recorded outcomes and the queued commands
    together, and what the elementary changes of the event loop do to it. *)

From stdpp Require Import base list gmap.
From S2P Require Import Prelude EventLoopState.

Open Scope Z_scope.

(** [queued p o q i]: a retained pointer to object [i] is held by a waiting
    operation, by libnfs, or by the export query. *)
Definition queued (p : list PendingOperation) (o : gmap Z Command) (q : option Z) (i : Z) : Prop :=
  In i (map id p) \/ is_Some (o !! i) \/ q = Some i.

(** [K]: a continuation that a running method must still resume or store.
    [X]: objects that running code holds in local variables. *)
Record reg_inv (K : option Z) (X : gset Z) (r : Registry) (p : list PendingOperation)
    (o : gmap Z Command) (q : option Z) : Prop := mkRegInv {
  ri_active : forall i, i ∈ activeContinuations r ->
    exists cb, objects r !! i = Some cb /\ hasResumed cb = false;
  ri_retained : forall i, queued p o q i -> i ∈ retained r;
  ri_object : forall i, queued p o q i \/ i ∈ X -> is_Some (objects r !! i);
  ri_waiting : forall i cb, queued p o q i -> objects r !! i = Some cb -> hasResumed cb = false ->
    i ∈ activeContinuations r \/ i ∈ X;
  ri_open : forall i cb, i ∈ activeContinuations r \/ i ∈ X -> objects r !! i = Some cb ->
    hasResumed cb = false -> outcomes r !! continuation cb = None;
  ri_resumed : forall i cb, objects r !! i = Some cb -> hasResumed cb = true ->
    is_Some (outcomes r !! continuation cb);
  ri_id : forall i, is_Some (objects r !! i) -> i < nextContinuationID r;
  ri_call : forall i cb, objects r !! i = Some cb -> continuation cb < nextCall r;
  ri_outcome : forall k, is_Some (outcomes r !! k) -> k < nextCall r;
  ri_inj : forall i j ci cj, objects r !! i = Some ci -> objects r !! j = Some cj ->
    continuation ci = continuation cj -> i = j;
  ri_hand : forall k, K = Some k -> outcomes r !! k = None /\ k < nextCall r /\
    forall i cb, objects r !! i = Some cb -> continuation cb <> k;
  ri_kept : forall k, 0 <= k < nextCall r -> K = Some k \/ is_Some (outcomes r !! k) \/
    exists i cb, (i ∈ activeContinuations r \/ i ∈ X) /\ objects r !! i = Some cb /\
                 continuation cb = k;
  ri_nodup : NoDup (map id p);
  ri_disj : forall i, In i (map id p) -> o !! i = None;
  ri_rpc : forall i, q = Some i -> ~ In i (map id p) /\ o !! i = None
}.

Lemma queued_pend p o q i : In i (map id p) -> queued p o q i.
Proof. left; done. Qed.
Lemma queued_out p o q i c : o !! i = Some c -> queued p o q i.
Proof. right; left; eauto. Qed.
Lemma queued_rpc p o i : queued p o (Some i) i.
Proof. right; right; done. Qed.

#[export] Hint Resolve queued_pend queued_out queued_rpc : registry.

Section Transitions.
Context (K : option Z) (X : gset Z) (r : Registry) (p : list PendingOperation)
  (o : gmap Z Command) (q : option Z).

(** Membership goals need none of the clauses. *)
Ltac ss := repeat match goal with H : forall _ : Z, _ |- _ => clear H end; set_solver.
Ltac start H := destruct H as [Ha Hr Ho Hw Hop Hre Hi Hc Hou Hinj Hh Hk Hn Hd Hq]; split; cbn.

(** Running code takes a reference to an object it may reach. *)
Lemma reg_take i : reg_inv K X r p o q -> i ∈ activeContinuations r \/ queued p o q i ->
  reg_inv K ({[i]} ∪ X) r p o q.
Proof.
  intros H Hx; start H; eauto; intros; try set_unfold.
  - destruct H as [?|[->|?]]; eauto. destruct Hx as [Hx|Hx]; eauto.
    destruct (Ha _ Hx) as (? & ? & ?); eauto.
  - edestruct Hw; eauto.
  - destruct H as [?|[->|?]]; eauto. destruct Hx as [Hx|Hx]; eauto.
  - destruct (Hk _ H) as [?|[?|(i' & cb & ? & ? & ?)]]; eauto.
    right; right; exists i', cb; set_solver.
Qed.

(** It lets go of an object whose continuation was resumed. *)
Lemma reg_drop i cb : reg_inv K ({[i]} ∪ X) r p o q -> objects r !! i = Some cb ->
  is_Some (outcomes r !! continuation cb) -> i ∉ activeContinuations r ->
  hasResumed cb = true \/ ~ queued p o q i -> reg_inv K X r p o q.
Proof.
  intros H Hcb Hout Hna Hx; start H; eauto; intros; try set_unfold.
  - apply Ho; destruct H; auto.
  - destruct (Hw i0 cb0) as [?|[->|?]]; eauto. simplify_eq. destruct Hx; congruence.
  - eapply (Hop i0); [destruct H; auto|eauto|eauto].
  - destruct (Hk _ H) as [?|[?|(i' & cb' & ? & ? & ?)]]; eauto.
    destruct H0 as [?|[->|?]]; eauto 10. simplify_eq; auto.
Qed.

(** Likewise for a whole set of objects that were resumed. *)
Lemma reg_drop_set Y : reg_inv K (Y ∪ X) r p o q -> activeContinuations r = ∅ ->
  (forall i, i ∈ Y -> exists cb, objects r !! i = Some cb /\ hasResumed cb = true) ->
  reg_inv K X r p o q.
Proof.
  intros H Hna HY; start H; eauto; intros.
  - apply Ho. destruct H; [auto|right; ss].
  - destruct (Hw i cb) as [?|[Hy|?]%elem_of_union]; eauto.
    destruct (HY _ Hy) as (? & ? & ?). congruence.
  - apply (Hop i cb); [|done|done]. destruct H; [auto|right; ss].
  - destruct (Hk _ H) as [?|[?|(i' & cb' & [?|[Hy|?]%elem_of_union] & Hl & He)]]; eauto 10.
    destruct (HY _ Hy) as (cb & Hcb & Hres). right; left. simplify_eq. eauto.
Qed.

Lemma reg_remove_active i : reg_inv K X r p o q -> i ∈ X ->
  reg_inv K X (upd_activeContinuations (fun s => s ∖ {[i]}) r) p o q.
Proof.
  intros H Hx; start H; eauto; intros.
  - apply Ha; ss.
  - destruct (decide (i0 = i)) as [->|]; [auto|]. destruct (Hw i0 cb) as [?|?]; eauto. left; ss.
  - apply (Hop i0 cb); [|done|done]. ss.
  - destruct (Hk _ H) as [?|[?|(i' & cb & Hin & ? & ?)]]; eauto.
    right; right; exists i', cb. split; [|done].
    destruct (decide (i' = i)) as [->|]; [auto|]. destruct Hin; ss.
Qed.

(** [activeContinuations.removeAll()], the objects being held in a snapshot. *)
Lemma reg_clear_active : reg_inv K X r p o q ->
  reg_inv K (activeContinuations r ∪ X) (upd_activeContinuations (fun _ => ∅) r) p o q.
Proof.
  intros H; start H; eauto; intros.
  - ss.
  - destruct H as [?|[H|?]%elem_of_union]; eauto. destruct (Ha _ H) as (? & ? & ?); eauto.
  - right. apply elem_of_union. eauto.
  - apply (Hop i cb); [|done|done]. ss.
  - destruct (Hk _ H) as [?|[?|(i' & cb & Hin & ? & ?)]]; eauto 10.
    right; right; exists i', cb. split; [ss|done].
Qed.

(** [CallbackData.resume] of an object that was not resumed. *)
Lemma reg_resume i cb v : reg_inv K X r p o q -> i ∈ X -> i ∉ activeContinuations r ->
  objects r !! i = Some cb -> hasResumed cb = false ->
  reg_inv K X (upd_outcomes <[continuation cb := v]> (upd_objects <[i := mark_resumed cb]> r)) p o q.
Proof.
  intros H Hx Hna Hcb Hnr; start H; intros.
  - destruct (decide (i0 = i)) as [->|]; [done|]. rewrite lookup_insert_ne by done; eauto.
  - eauto.
  - destruct (decide (i0 = i)) as [->|]; [rewrite lookup_insert_eq; eauto|].
    rewrite lookup_insert_ne by done; eauto.
  - destruct (decide (i0 = i)) as [->|]; [auto|]. rewrite lookup_insert_ne in H0 by done; eauto.
  - destruct (decide (i0 = i)) as [->|Hne].
    { rewrite lookup_insert_eq in H0. simplify_eq. }
    rewrite lookup_insert_ne in H0 by done.
    rewrite lookup_insert_ne by (intros He; apply Hne; eauto). eauto.
  - destruct (decide (i0 = i)) as [->|Hne].
    { rewrite lookup_insert_eq in H. simplify_eq. cbn. rewrite lookup_insert_eq; eauto. }
    rewrite lookup_insert_ne in H by done.
    destruct (decide (continuation cb = continuation cb0)) as [->|];
      [rewrite lookup_insert_eq; eauto|rewrite lookup_insert_ne by done; eauto].
  - destruct (decide (i0 = i)) as [->|]; eauto. rewrite lookup_insert_ne in H by done; eauto.
  - destruct (decide (i0 = i)) as [->|];
      [rewrite lookup_insert_eq in H; simplify_eq; cbn; eauto|rewrite lookup_insert_ne in H by done; eauto].
  - destruct (decide (continuation cb = k)) as [<-|]; [eauto|].
    rewrite lookup_insert_ne in H by done; eauto.
  - assert (Hget : forall a ca, <[i:=mark_resumed cb]> (objects r) !! a = Some ca ->
      exists cb', objects r !! a = Some cb' /\ continuation cb' = continuation ca).
    { intros a ca. destruct (decide (a = i)) as [->|];
        [rewrite lookup_insert_eq; intros; simplify_eq; eauto|rewrite lookup_insert_ne by done; eauto]. }
    destruct (Hget _ _ H) as (? & ? & ?), (Hget _ _ H0) as (? & ? & ?). eapply Hinj; eauto; congruence.
  - destruct (Hh _ H) as (H1 & H2 & H3). repeat split; auto.
    + rewrite lookup_insert_ne by eauto. done.
    + intros a ca. destruct (decide (a = i)) as [->|];
        [rewrite lookup_insert_eq; intros; simplify_eq; cbn; eauto|rewrite lookup_insert_ne by done; eauto].
  - destruct (decide (continuation cb = k)) as [<-|Hne]; [rewrite lookup_insert_eq; eauto|].
    rewrite lookup_insert_ne by done.
    destruct (Hk _ H) as [?|[?|(i' & cb' & Hin & Hl & ?)]]; eauto.
    right; right. exists i', cb'. split; [done|]. split; [|done].
    rewrite lookup_insert_ne; [done|]. intros ->; congruence.
  - done.
  - eauto.
  - eauto.
Qed.

(** An unqueued object is freed: its continuation is in hand again. *)
Lemma reg_forget i cb : reg_inv None X r p o q -> i ∈ activeContinuations r ->
  ~ queued p o q i -> objects r !! i = Some cb -> hasResumed cb = false -> i ∉ X ->
  reg_inv (Some (continuation cb)) X
    (upd_objects (delete i) (upd_activeContinuations (fun s => s ∖ {[i]}) r)) p o q.
Proof.
  intros H Hact Hnq Hcb Hnr HX; start H; intros.
  - destruct (decide (i = i0)) as [->|]; [exfalso; ss|]. rewrite lookup_delete_ne by done.
    apply Ha. ss.
  - eauto.
  - destruct (decide (i = i0)) as [->|]; [exfalso; destruct H; [done|ss]|].
    rewrite lookup_delete_ne by done. eauto.
  - apply lookup_delete_Some in H0 as [Hne H0]. destruct (Hw i0 cb0) as [?|?]; eauto. left; ss.
  - apply lookup_delete_Some in H0 as [Hne H0]. apply (Hop i0 cb0); [|done|done]. ss.
  - apply lookup_delete_Some in H as [Hne H]. eauto.
  - destruct H as [x [_ H]%lookup_delete_Some]. eauto.
  - apply lookup_delete_Some in H as [Hne H]. eauto.
  - eauto.
  - apply lookup_delete_Some in H as [_ H], H0 as [_ H0]. eauto.
  - injection H as <-. splits; eauto.
    intros j cj [Hne Hj]%lookup_delete_Some He. apply Hne. eauto.
  - destruct (Hk _ H) as [?|[?|(i' & cb' & Hin & Hl & He)]]; [done|eauto|].
    destruct (decide (i = i')) as [->|]; [left; congruence|]. right; right. exists i', cb'.
    rewrite lookup_delete_ne by done. split; [ss|done].
  - done.
  - eauto.
  - eauto.
Qed.

(** A continuation in hand is resumed directly. *)
Lemma reg_resume_hand k v : reg_inv (Some k) X r p o q ->
  reg_inv None X (upd_outcomes <[k := v]> r) p o q.
Proof.
  intros H; start H; eauto; intros; destruct (Hh _ eq_refl) as (H1' & H2' & H3').
  - rewrite lookup_insert_ne by (intros ->; eapply H3'; eauto). eauto.
  - rewrite lookup_insert_ne by (intros ->; eapply H3'; eauto). eauto.
  - destruct (decide (k = k0)) as [<-|]; [done|]. rewrite lookup_insert_ne in H by done; eauto.
  - discriminate.
  - right. destruct (decide (k = k0)) as [<-|]; [rewrite lookup_insert_eq; eauto|].
    rewrite lookup_insert_ne by done. destruct (Hk _ H) as [[= ->]|?]; eauto. done.
Qed.

(** A caller's new continuation. *)
Lemma reg_new_call : reg_inv None X r p o q ->
  reg_inv (Some (nextCall r)) X (upd_nextCall (fun n => n + 1) r) p o q.
Proof.
  intros H; start H; eauto; intros.
  - specialize (Hc _ _ H). lia.
  - specialize (Hou _ H). lia.
  - injection H as <-. repeat split; [|lia|].
    + destruct (outcomes r !! nextCall r) eqn:Eo; [|done].
      specialize (Hou (nextCall r) ltac:(eauto)). lia.
    + intros i cb Hl He. specialize (Hc _ _ Hl). lia.
  - destruct (decide (k = nextCall r)) as [->|]; [auto|].
    destruct (Hk k) as [?|?]; [lia|discriminate|auto].
Qed.

(** A new object takes charge of the continuation in hand. *)
Lemma reg_new_object i cb : reg_inv (Some (continuation cb)) X r p o q ->
  hasResumed cb = false -> i + 1 = nextContinuationID r -> objects r !! i = None ->
  reg_inv None X
    (upd_activeContinuations (fun s => {[i]} ∪ s) (upd_objects <[i := cb]> r)) p o q.
Proof.
  intros H Hnr Hid Hnew; start H; intros; destruct (Hh _ eq_refl) as (H1' & H2' & H3').
  - destruct (decide (i0 = i)) as [->|]; [rewrite lookup_insert_eq; eauto|].
    rewrite lookup_insert_ne by done. apply Ha. ss.
  - eauto.
  - destruct (decide (i0 = i)) as [->|]; [rewrite lookup_insert_eq; eauto|].
    rewrite lookup_insert_ne by done; eauto.
  - destruct (decide (i0 = i)) as [->|]; [left; ss|].
    rewrite lookup_insert_ne in H0 by done. destruct (Hw i0 cb0) as [?|?]; eauto. left; ss.
  - destruct (decide (i0 = i)) as [->|].
    { rewrite lookup_insert_eq in H0. simplify_eq. done. }
    rewrite lookup_insert_ne in H0 by done. apply (Hop i0 cb0); [|done|done]. ss.
  - destruct (decide (i0 = i)) as [->|];
      [rewrite lookup_insert_eq in H; simplify_eq; congruence|rewrite lookup_insert_ne in H by done; eauto].
  - destruct (decide (i0 = i)) as [->|]; [lia|]. rewrite lookup_insert_ne in H by done; eauto.
  - destruct (decide (i0 = i)) as [->|];
      [rewrite lookup_insert_eq in H; simplify_eq; done|rewrite lookup_insert_ne in H by done; eauto].
  - eauto.
  - apply lookup_insert_Some in H as [[<- <-]|[? H]], H0 as [[<- <-]|[? H0]]; [done| | |eauto];
      exfalso; [eapply H3'; [exact H0|congruence]|eapply H3'; [exact H|congruence]].
  - discriminate.
  - destruct (Hk _ H) as [[= <-]|[?|(i' & cb' & Hin & Hl & ?)]]; eauto.
    + right; right. exists i, cb. rewrite lookup_insert_eq. repeat split. left; ss.
    + right; right. exists i', cb'. split; [ss|]. split; [|done].
      rewrite lookup_insert_ne; [done|]. congruence.
  - done.
  - eauto.
  - eauto.
Qed.

Lemma reg_next_id : reg_inv K X r p o q ->
  reg_inv K X (upd_nextContinuationID (fun n => n + 1) r) p o q.
Proof. intros H; start H; eauto; intros. specialize (Hi _ H). lia. Qed.

Lemma reg_retain i : reg_inv K X r p o q ->
  reg_inv K X (upd_retained (fun s => {[i]} ∪ s) r) p o q.
Proof. intros H; start H; eauto; intros. specialize (Hr _ H). ss. Qed.

Lemma reg_release i : reg_inv K X r p o q -> ~ queued p o q i ->
  reg_inv K X (upd_retained (fun s => s ∖ {[i]}) r) p o q.
Proof.
  intros H Hi'; start H; eauto; intros.
  specialize (Hr _ H). assert (i0 <> i) by congruence. ss.
Qed.

(** ** Queues *)

(** An object that is retained joins a queue; unless it was resumed it is held
    or active. *)
Lemma reg_queue_gen p' o' q' i : reg_inv K X r p o q -> i ∈ retained r ->
  is_Some (objects r !! i) ->
  (forall cb, objects r !! i = Some cb -> hasResumed cb = false ->
     i ∈ activeContinuations r \/ i ∈ X) ->
  (forall j, queued p' o' q' j -> queued p o q j \/ j = i) ->
  NoDup (map id p') -> (forall j, In j (map id p') -> o' !! j = None) ->
  (forall j, q' = Some j -> ~ In j (map id p') /\ o' !! j = None) ->
  reg_inv K X r p' o' q'.
Proof.
  intros H Hret Hobj Hact Hsub Hn' Hd' Hq'; start H; eauto; intros.
  - destruct (Hsub _ H) as [?| ->]; eauto.
  - destruct H as [H|?]; [|eauto]. destruct (Hsub _ H) as [?| ->]; eauto.
  - destruct (Hsub _ H) as [?| ->]; eauto.
Qed.

(** Queues may shrink. *)
Lemma reg_unqueue p' o' q' : reg_inv K X r p o q ->
  (forall j, queued p' o' q' j -> queued p o q j) ->
  NoDup (map id p') -> (forall j, In j (map id p') -> o' !! j = None) ->
  (forall j, q' = Some j -> ~ In j (map id p') /\ o' !! j = None) ->
  reg_inv K X r p' o' q'.
Proof.
  intros H Hsub Hn' Hd' Hq'; start H; eauto; intros.
  destruct H as [H|?]; eauto.
Qed.

End Transitions.

(** A new identifier is not in use. *)
Lemma reg_fresh K X r p o q : reg_inv K X r p o q ->
  objects r !! nextContinuationID r = None /\ ~ queued p o q (nextContinuationID r) /\
  nextContinuationID r ∉ X.
Proof.
  intros H. assert (Hn : objects r !! nextContinuationID r = None).
  { destruct (objects r !! nextContinuationID r) eqn:Eo; [|done].
    pose proof (ri_id _ _ _ _ _ _ H (nextContinuationID r) ltac:(eauto)). lia. }
  split; [exact Hn|]; split; intros Hx;
    destruct (ri_object _ _ _ _ _ _ H (nextContinuationID r) ltac:(auto)); congruence.
Qed.
