(* ===== verification/BufferInv.v ===== *)
(** * Buffers and handlers of queued commands

    libnfs keeps the address of a buffer from the call until the callback.  The
    invariant: each queued command belongs to a callback object whose handler
    understands the command's reply, its buffer is allocated and large enough,
    and a buffer that the loop will free is used by one command only. *)

From stdpp Require Import base list gmap.
From S2P Require Import Prelude Posix Memory CType LibnfsApi OperationType EventLoopState RegistryInv.

Open Scope Z_scope.

(** The handler that goes with a command. *)
Definition handler_for (c : Command) (h : DataHandler) : Prop :=
  match c, h with
  | (CMount _ _ | CUmount | CMkdir _ | CRmdir _ | CUnlink _ | CRename _ _ | CTruncate _ _
     | CClose _ | CFsync _ | CFtruncate _ _), HVoid => True
  | CStat _, HStat | CStatvfs _, HStatvfs | CReadlink _, HCString
  | (COpendir _ | COpen _ _), HPointer => True
  | (CRead _ b _ | CPread _ b _ _), HRead p => b = mkBufPtr p 0
  | CPread _ _ _ _, HReadInto => True
  | (CWrite _ _ _ | CPwrite _ _ _ _), HStatus => True
  | CFstat _, HFstat | CLseek _ _ _, HLseek | CGetexports _, HExports => True
  | _, _ => False
  end.

Record fits (c : Command) (cb : CallbackData) : Prop := mkFits {
  fit_handler : handler_for c (dataHandler cb);
  fit_type : resultType cb = handler_type (dataHandler cb);
  fit_own : forall p, cleanup cb = Some p -> exists n, command_buffer c = Some (mkBufPtr p 0, n);
  fit_read : forall p, dataHandler cb = HRead p -> cleanup cb = Some p;
  fit_into : dataHandler cb = HReadInto -> cleanup cb = None
}.

Definition in_block (b : BufPtr) (n : Z) (m : mem) : Prop :=
  exists l, blocks m !! bp_block b = Some l /\ 0 <= bp_off b /\
            bp_off b + n <= Z.of_nat (length l).

Record buf_inv (m : mem) (objs : gmap Z CallbackData) (p : list PendingOperation)
    (o : gmap Z Command) (q : option Z) : Prop := mkBufInv {
  bi_mem : mem_ok m;
  bi_out : forall i c, o !! i = Some c -> exists cb, objs !! i = Some cb /\ fits c cb;
  bi_pend : forall op, In op p -> exists cb, objs !! id op = Some cb /\ fits (execute op) cb /\
    command_buffer (execute op) = None;
  bi_rpc : forall i, q = Some i -> exists cb, objs !! i = Some cb /\
    dataHandler cb = HExports /\ resultType cb = TStrings /\ cleanup cb = None;
  bi_live : forall i c b n, o !! i = Some c -> command_buffer c = Some (b, n) -> in_block b n m;
  bi_own : forall i j ci cj cb p b n, o !! i = Some ci -> objs !! i = Some cb ->
    cleanup cb = Some p -> o !! j = Some cj -> command_buffer cj = Some (b, n) ->
    bp_block b = p -> i = j
}.

(** No queued command uses block [x]. *)
Definition unused (x : Z) (o : gmap Z Command) : Prop :=
  forall j c b n, o !! j = Some c -> command_buffer c = Some (b, n) -> bp_block b <> x.

Lemma fits_resumed c cb : fits c cb -> fits c (mark_resumed cb).
Proof. intros []; constructor; done. Qed.

(** A read with its own buffer has the handler that hands the buffer over. *)
Lemma own_read_handler c cb p : fits c cb -> is_read c = true -> cleanup cb = Some p ->
  dataHandler cb = HRead p.
Proof.
  intros [Hh _ _ Hr Hi] Hread Hp. destruct (dataHandler cb) eqn:Eh; destruct c; try discriminate;
    try destruct Hh; try (rewrite (Hr _ eq_refl) in Hp; congruence).
  rewrite Hi in Hp; [discriminate|done].
Qed.

Ltac bstart H := destruct H as [Hm Ho Hp Hq Hl Hown]; split.

Lemma buf_resumed m objs p o q i cb : buf_inv m objs p o q -> objs !! i = Some cb ->
  buf_inv m (<[i := mark_resumed cb]> objs) p o q.
Proof.
  intros H Hcb; bstart H; auto.
  - intros j c Hj. destruct (Ho _ _ Hj) as (cb' & H1 & H2).
    destruct (decide (i = j)) as [->|]; [|rewrite lookup_insert_ne by done; eauto].
    rewrite lookup_insert_eq. simplify_eq. eauto using fits_resumed.
  - intros op Hop. destruct (Hp _ Hop) as (cb' & H1 & H2 & H3).
    destruct (decide (i = id op)) as [->|]; [|rewrite lookup_insert_ne by done; eauto].
    rewrite lookup_insert_eq. simplify_eq. eauto using fits_resumed.
  - intros j Hj. destruct (Hq _ Hj) as (cb' & H1 & H2 & H3 & H4).
    destruct (decide (i = j)) as [->|]; [|rewrite lookup_insert_ne by done; eauto 10].
    rewrite lookup_insert_eq. simplify_eq. eexists; split; [reflexivity|done].
  - intros a b ca cj cb' x bf n Ha Hcb' Hx Hj Hc Hb.
    destruct (decide (i = a)) as [->|]; [|rewrite lookup_insert_ne in Hcb' by done; eauto].
    rewrite lookup_insert_eq in Hcb'. simplify_eq. eauto.
Qed.

Lemma buf_new_object m objs p o q i cb : buf_inv m objs p o q -> objs !! i = None ->
  buf_inv m (<[i := cb]> objs) p o q.
Proof.
  intros H Hn; bstart H; auto.
  - intros j c Hj. destruct (Ho _ _ Hj) as (cb' & H1 & H2). exists cb'.
    split; [|done]. rewrite lookup_insert_ne; congruence.
  - intros op Hop. destruct (Hp _ Hop) as (cb' & H1 & H2). exists cb'.
    split; [|done]. rewrite lookup_insert_ne; congruence.
  - intros j Hj. destruct (Hq _ Hj) as (cb' & H1 & H2). exists cb'.
    split; [|done]. rewrite lookup_insert_ne; congruence.
  - intros a b ca cj cb' x bf n Ha Hcb' Hx Hj Hc Hb.
    destruct (decide (i = a)) as [->|]; [|rewrite lookup_insert_ne in Hcb' by done; eauto].
    destruct (Ho _ _ Ha) as (? & ? & ?). congruence.
Qed.

(** An object in no queue may go. *)
Lemma buf_forget m objs p o q i : buf_inv m objs p o q -> ~ queued p o q i ->
  buf_inv m (delete i objs) p o q.
Proof.
  intros H Hnq; bstart H; auto.
  - intros j c Hj. destruct (Ho _ _ Hj) as (cb & H1 & H2). exists cb. split; [|done].
    rewrite lookup_delete_ne; [done|]. intros ->. apply Hnq. right; left; eauto.
  - intros op Hop. destruct (Hp _ Hop) as (cb & H1 & H2). exists cb. split; [|done].
    rewrite lookup_delete_ne; [done|]. intros ->. apply Hnq. left. now apply in_map.
  - intros j Hj. destruct (Hq _ Hj) as (cb & H1 & H2). exists cb. split; [|done].
    rewrite lookup_delete_ne; [done|]. intros ->. apply Hnq. right; right; done.
  - intros a b ca cj cb x bf n Ha [_ Hcb]%lookup_delete_Some. eauto.
Qed.

(** Queues may shrink. *)
Lemma buf_unqueue m objs p o q p' o' q' : buf_inv m objs p o q ->
  (forall op, In op p' -> In op p) -> o' ⊆ o -> (q' = q \/ q' = None) ->
  buf_inv m objs p' o' q'.
Proof.
  intros H H1 H2 H3. assert (H4 : forall i c, o' !! i = Some c -> o !! i = Some c)
    by (intros; eapply lookup_weaken; eauto).
  bstart H; eauto.
  destruct H3 as [->| ->]; [exact Hq|discriminate].
Qed.

(** A command without a buffer of its own joins. *)
Lemma buf_queue m objs p o q i c cb : buf_inv m objs p o q -> objs !! i = Some cb ->
  fits c cb ->
  (forall b n, command_buffer c = Some (b, n) -> in_block b n m /\
     forall j cj cbj x, o !! j = Some cj -> objs !! j = Some cbj -> cleanup cbj = Some x ->
     bp_block b <> x) ->
  (forall x, cleanup cb = Some x -> unused x o) ->
  buf_inv m objs p (<[i := c]> o) q.
Proof.
  intros H Hcb Hf Hb Hun; bstart H; auto.
  - intros j cj [[<- <-]|[? Hj]]%lookup_insert_Some; eauto.
  - intros j cj b n [[<- <-]|[? Hj]]%lookup_insert_Some; [apply Hb|eauto].
  - intros a j ca cj cba x b n [[<- <-]|[? Ha]]%lookup_insert_Some Hcba Hx
      [[<- <-]|[? Hj]]%lookup_insert_Some Hc He; eauto.
    + exfalso. simplify_eq. eapply Hun; eauto.
    + exfalso. eapply Hb; eauto.
Qed.

Lemma buf_wait m objs p o q op cb : buf_inv m objs p o q -> objs !! id op = Some cb ->
  fits (execute op) cb -> command_buffer (execute op) = None ->
  buf_inv m objs (p ++ [op]) o q.
Proof.
  intros H Hcb Hf Hb; bstart H; auto.
  intros op' [Hin|[<-|[]]]%in_app_or; eauto.
Qed.

Lemma buf_rpc m objs p o q i cb : buf_inv m objs p o q -> objs !! i = Some cb ->
  dataHandler cb = HExports -> resultType cb = TStrings -> cleanup cb = None ->
  buf_inv m objs p o (Some i).
Proof. intros H Hcb H1 H2 H3; bstart H; auto. intros j [= <-]. eauto 10. Qed.

(** Memory: allocating, filling a buffer, freeing one that is not in use. *)
Lemma in_block_other b n m m' x : in_block b n m -> bp_block b <> x ->
  (forall y, y <> x -> blocks m' !! y = blocks m !! y) -> in_block b n m'.
Proof. intros (l & H1 & H2) Hne Hs. exists l. now rewrite Hs. Qed.

Lemma buf_alloc m objs p o q n x m' : buf_inv m objs p o q -> allocate n m = (x, m') ->
  buf_inv m' objs p o q /\ blocks m' !! x = Some (replicate (Z.to_nat n) None) /\ unused x o.
Proof.
  intros H Ha. destruct (allocate_live _ _ _ _ Ha) as [H1 H2].
  destruct (H2 (bi_mem _ _ _ _ _ H)) as [H3 H4].
  assert (Hu : unused x o).
  { intros j c b k Hj Hc <-. destruct (bi_live _ _ _ _ _ H _ _ _ _ Hj Hc) as (l & Hl & _).
    apply H4. eexists; eauto. }
  split; [|done]. bstart H; auto.
  intros i c b k Hi Hc. eapply in_block_other; [eauto| |]; [eapply Hu; eauto|].
  intros y Hy. unfold allocate in Ha. injection Ha as <- <-. cbn. now apply lookup_insert_ne.
Qed.

Lemma buf_free m objs p o q x m' : buf_inv m objs p o q -> deallocate x m = Some m' ->
  unused x o -> buf_inv m' objs p o q.
Proof.
  intros H Hd Hu. unfold deallocate in Hd. destruct (blocks m !! x) eqn:Ex; [|done].
  injection Hd as <-. bstart H; auto.
  - intros y [l1 Hy]. cbn in *. apply lookup_delete_Some in Hy as [_ Hy]. apply Hm. eexists; eauto.
  - intros i c b n Hi Hc. eapply in_block_other; [eauto|eapply Hu; eauto|].
    intros y Hy. cbn. now apply lookup_delete_ne.
Qed.

Lemma store_lengths x off bs m m' : store x off bs m = Some m' ->
  nextPtr m' = nextPtr m /\
  forall y, match blocks m !! y with
            | Some l => exists l', blocks m' !! y = Some l' /\ length l' = length l
            | None => blocks m' !! y = None
            end.
Proof.
  unfold store. destruct (blocks m !! x) as [l|] eqn:Ex; [|done]. case_decide as Hd; [|done].
  intros [= <-]. split; [done|]. cbn. intros y. destruct (decide (x = y)) as [->|Hne].
  - rewrite Ex, lookup_insert_eq. eexists; split; [done|]. apply length_splice. lia.
  - rewrite lookup_insert_ne by done. destruct (blocks m !! y); eauto.
Qed.

Lemma buf_store m objs p o q x off bs m' : buf_inv m objs p o q ->
  store x off bs m = Some m' -> buf_inv m' objs p o q.
Proof.
  intros H Hs. destruct (store_lengths _ _ _ _ _ Hs) as [Hn Hb]. bstart H; auto.
  - intros y [l Hy]. rewrite Hn. apply Hm. specialize (Hb y).
    destruct (blocks m !! y) eqn:Ey; [eexists; eauto|congruence].
  - intros i c b n Hi Hc. destruct (Hl _ _ _ _ Hi Hc) as (l & H1 & H2 & H3).
    specialize (Hb (bp_block b)). rewrite H1 in Hb. destruct Hb as (l' & H4 & H5).
    exists l'. rewrite H5. auto.
Qed.
