(* ===== verification/EventLoopInv.v ===== *)
(** * The invariant of the event loop

    [Inv K X w] holds between any two statements of the loop's methods ([K] and
    [X] as in RegistryInv).  For each method: it does not trap, it keeps the
    invariant, and [evo] bounds what else it changes. *)

From Stdlib Require Import Strings.Byte.
From stdpp Require Import base list gmap strings.
From S2P Require Import Prelude Posix PipelineController Memory CType LibnfsApi.
From S2P Require Import StateMonad DispatchSource OperationType EventLoopState EventLoop.
From S2P Require Import SourceInv SourceSpecs RegistryInv BufferInv.

Open Scope Z_scope.
Open Scope monad_scope.

Abbreviation pend w := (pendingOperations (pipe w)).
Abbreviation outst w := (outstanding (lib w)).
Abbreviation rpcq w := (rpcOutstanding (lib w)).
Abbreviation active w := (activeContinuations (reg w)).

Definition controller_inv (c : Pipeline.PipelineController) : Prop :=
  Pipeline.wf c /\ Pipeline.minDepth c = 1 /\ Pipeline.maxDepth c = 32.

Record pipe_inv (p : Pipe) : Prop := mkPipeInv {
  pi_bulk : controller_inv (bulkController p);
  pi_metadata : controller_inv (metadataController p);
  pi_inFlight : 0 <= inFlightBulk p /\ 0 <= inFlightMetadata p;
  pi_capacity : Z.of_nat (length (pendingOperations p)) <= maxPendingOperations
}.

Record log_inv (l : Log) : Prop := mkLogInv {
  li_registered : forall b, logRegistered l = Some b -> logHandlerBoxPtr l = Some b;
  li_alive : forall b, logHandlerBoxPtr l = Some b -> b ∈ boxes l
}.

Record Inv (K : option Z) (X : gset Z) (w : World) : Prop := mkInv {
  inv_src : src_inv (io w) (rpcx w) (sources w);
  inv_pipe : pipe_inv (pipe w);
  inv_reg : reg_inv K X (reg w) (pend w) (outst w) (rpcq w);
  inv_buf : buf_inv (heap w) (objects (reg w)) (pend w) (outst w) (rpcq w);
  inv_log : log_inv (log w)
}.

(** What the internal methods may change: continuations and waiting operations
    only go away, outcomes are only added, objects are only marked. *)
Record evo (w w' : World) : Prop := mkEvo {
  ev_context : context w' = context w;
  ev_timeout : timeout w' = timeout w;
  ev_handles : handles w' = handles w;
  ev_now : now w' = now w;
  ev_active : active w' ⊆ active w;
  ev_pend : pend w' `sublist_of` pend w;
  ev_outcomes : outcomes (reg w) ⊆ outcomes (reg w');
  ev_call : nextCall (reg w') = nextCall (reg w);
  ev_id : nextContinuationID (reg w') = nextContinuationID (reg w);
  ev_objects : forall i cb, objects (reg w) !! i = Some cb ->
    objects (reg w') !! i = Some cb \/ objects (reg w') !! i = Some (mark_resumed cb);
  ev_queued : forall j, queued (pend w') (outst w') (rpcq w') j ->
                        queued (pend w) (outst w) (rpcq w) j;
  ev_log : logRegistered (log w') = logRegistered (log w) \/ logRegistered (log w') = None
}.

Lemma evo_refl w : evo w w.
Proof. constructor; auto; reflexivity. Qed.

Lemma evo_trans w1 w2 w3 : evo w1 w2 -> evo w2 w3 -> evo w1 w3.
Proof.
  intros H1 H2; destruct H1 as [A1 A2 A3 A4 A5 A6 A7 A8 A9 A10 A11 A12],
    H2 as [B1 B2 B3 B4 B5 B6 B7 B8 B9 B10 B11 B12].
  constructor; try congruence; try (etransitivity; eauto); auto.
  2: { destruct B12 as [->|]; auto. }
  intros i cb Hi. destruct (A10 _ _ Hi) as [Hj|Hj]; [auto|].
  destruct (B10 _ _ Hj) as [Hk|Hk]; right; exact Hk.
Qed.

#[export] Instance evo_preorder : PreOrder evo.
Proof. split; [exact evo_refl|exact evo_trans]. Qed.

Lemma same_core_evo w w' : same_core w w' -> evo w w'.
Proof.
  intros [? ? ? ? ? ? Hp Hr ? Hl Ho Hq]; constructor; rewrite ?Hp, ?Hr, ?Ho, ?Hq, ?Hl; auto.
Qed.

Lemma same_core_inv K X w w' : same_core w w' -> Inv K X w ->
  src_inv (io w') (rpcx w') (sources w') -> Inv K X w'.
Proof.
  intros [] [] H; constructor; rewrite ?sc_pipe, ?sc_reg, ?sc_out, ?sc_rpc, ?sc_heap, ?sc_log; auto.
Qed.

(** [safe K X m]: started in the invariant, [m] keeps it and only evolves. *)
Definition safe (K : option Z) (X : gset Z) {A} (m : M World A) : Prop :=
  forall w, Inv K X w -> wp m (fun _ w' => Inv K X w' /\ evo w w') w.

Section Specs.
Context `{E : Env}.

Lemma safe_ret K X {A} (a : A) : safe K X (ret a).
Proof. intros w H. split; [exact H|reflexivity]. Qed.

Lemma safe_bind K X {A B} (m : M World A) (k : A -> M World B) :
  safe K X m -> (forall a, safe K X (k a)) -> safe K X (bind m k).
Proof.
  intros Hm Hk w H. apply wp_bind. eapply wp_mono; [apply Hm, H|].
  intros a w1 [H1 S1]. eapply wp_mono; [apply Hk, H1|]. intros b w2 [H2 S2].
  split; [exact H2|]. etransitivity; eauto.
Qed.

Lemma safe_gets K X {A} (f : World -> A) : safe K X (gets f).
Proof. intros w H. split; [exact H|reflexivity]. Qed.

Lemma safe_when K X b m : safe K X m -> safe K X (when b m).
Proof. intros H. destruct b; [exact H|apply safe_ret]. Qed.

Lemma safe_keeps K X {A} (m : M World A) : keeps m -> safe K X m.
Proof.
  intros Hm w H. eapply wp_mono; [apply Hm, (inv_src _ _ _ H)|].
  intros a w' [H1 S1]. split; [eapply same_core_inv; eauto|now apply same_core_evo].
Qed.

Lemma safe_ask K X {A} (f : nat -> A) : safe K X (ask f).
Proof. apply safe_keeps, keeps_ask. Qed.

Lemma safe_for_each K X {A} (l : list A) body :
  (forall x, safe K X (body x)) -> safe K X (for_each l body).
Proof.
  intros Hb. induction l as [|x l IH]; [apply safe_ret|]. apply safe_bind; [apply Hb|auto].
Qed.

(** A change of the fields that the invariant ignores. *)
Lemma safe_modify K X f : (forall w, same_core w (f w)) ->
  (forall w, src_inv (io w) (rpcx w) (sources w) ->
             src_inv (io (f w)) (rpcx (f w)) (sources (f w))) -> safe K X (modify f).
Proof.
  intros H1 H2 w H. apply wp_modify. split; [eapply same_core_inv; eauto; apply H2, H|].
  now apply same_core_evo.
Qed.

(** ** Pipeline *)

Lemma controller_inv_success c : controller_inv c -> controller_inv (Pipeline.recordSuccess c).
Proof.
  intros (H1 & H2 & H3). split; [now apply Pipeline.recordSuccess_wf|].
  pose proof (Pipeline.recordSuccess_frame c) as Hf. destruct Hf as (_ & -> & ->). done.
Qed.

Lemma controller_inv_failure c : controller_inv c -> controller_inv (Pipeline.recordFailure c).
Proof. intros (H1 & H2 & H3). split; [now apply Pipeline.recordFailure_wf|done]. Qed.

Lemma controller_inv_reset c : controller_inv c -> controller_inv (Pipeline.reset c).
Proof. intros (H1 & H2 & H3). split; [apply Pipeline.reset_wf; [done|lia]|done]. Qed.

Lemma controller_inv_init : controller_inv Pipeline.init.
Proof. split; [apply Pipeline.init_wf|done]. Qed.

Lemma pipe_inv_controller c w : pipe_inv (pipe w) -> controller_inv (controller c w).
Proof. intros []; destruct c; done. Qed.

(** Whether an operation of category [c] may be issued now. *)
Definition slot_free (c : OperationCategory) (w : World) : bool :=
  match Pipeline.effectiveDepth (controller c w) with
  | Some d => inFlight c w <? d
  | None => false
  end.

Lemma wp_has_slot K X c (Q : bool -> World -> Prop) w : Inv K X w ->
  Q (slot_free c w) w -> wp (has_slot c) Q w.
Proof.
  intros H HQ. unfold has_slot. wp_steps.
  destruct (pipe_inv_controller c w (inv_pipe _ _ _ H)) as (Hwf & _).
  destruct (Pipeline.effectiveDepth_wf _ Hwf) as (Hd & _).
  apply wp_lift. eexists. split; [exact Hd|]. wp_steps.
  unfold slot_free in HQ. now rewrite Hd in HQ.
Qed.

(** A change of the pipeline that leaves the waiting operations alone. *)
Lemma safe_pipe K X f :
  (forall p, pipe_inv p -> pipe_inv (f p)) ->
  (forall p, pendingOperations (f p) = pendingOperations p) -> safe K X (modify (upd_pipe f)).
Proof.
  intros H1 H2 w [A B C D F]. apply wp_modify. split.
  - constructor; cbn; rewrite ?H2; auto.
  - constructor; cbn; rewrite ?H2; auto.
Qed.

Lemma safe_set_inFlight K X c f : (forall n, 0 <= n -> 0 <= f n) -> safe K X (set_inFlight c f).
Proof.
  intros Hf. apply safe_pipe; destruct c; intros p; try done;
    intros [H1 H2 [H3 H4] H5]; constructor; cbn; auto.
Qed.

Lemma safe_set_controller K X c f : (forall x, controller_inv x -> controller_inv (f x)) ->
  safe K X (set_controller c f).
Proof.
  intros Hf. apply safe_pipe; destruct c; intros p; try done;
    intros [H1 H2 [H3 H4] H5]; constructor; cbn; auto.
Qed.

Lemma safe_recordCompletion K X c b : safe K X (recordCompletion c b).
Proof.
  apply safe_bind; [apply safe_set_inFlight; lia|]. intros _. apply safe_set_controller.
  destruct b; [apply controller_inv_success|apply controller_inv_failure].
Qed.

Lemma wp_call_error i (Q : POSIXError -> World -> Prop) w : async_rc i < 0 ->
  (forall msg, Q (posix_error (POSIXErrorCode_init (- async_rc i)) msg) (upd_lib (upd_tick S) w)) ->
  wp (call_error (async_rc i)) Q w.
Proof.
  intros Hi HQ. unfold call_error. apply wp_bind, wp_lift.
  pose proof (async_rc_range i). eexists. split; [apply int32_neg_some; lia|]. cbn beta.
  apply wp_bind, wp_ask, wp_ret, HQ.
Qed.

(** The clock of the environment is nobody's business. *)
Lemma Inv_tick K X w : Inv K X w -> Inv K X (upd_lib (upd_tick S) w).
Proof. intros []; constructor; done. Qed.

Lemma evo_tick w : evo w (upd_lib (upd_tick S) w).
Proof. constructor; auto. Qed.

(** ** References and continuations *)

(** Changes of the registry that also keep the buffers in order. *)
Lemma Inv_reg K X K' X' w f : Inv K X w ->
  reg_inv K' X' (f (reg w)) (pend w) (outst w) (rpcq w) ->
  buf_inv (heap w) (objects (f (reg w))) (pend w) (outst w) (rpcq w) ->
  Inv K' X' (upd_reg f w).
Proof. intros [] H1 H2; constructor; done. Qed.

Lemma wp_get_object i cb (Q : CallbackData -> World -> Prop) w :
  objects (reg w) !! i = Some cb -> Q cb w -> wp (get_object i) Q w.
Proof. intros H HQ. unfold get_object. wp_steps. rewrite H. wp_steps. exact HQ. Qed.

Lemma wp_release i (Q : unit -> World -> Prop) w : i ∈ retained (reg w) ->
  Q tt (upd_reg (upd_retained (fun s => s ∖ {[i]})) w) -> wp (release i) Q w.
Proof. intros H HQ. unfold release. wp_steps. rewrite decide_True by done. wp_steps. exact HQ. Qed.

Lemma wp_cont_resume k o (Q : unit -> World -> Prop) w : outcomes (reg w) !! k = None ->
  Q tt (upd_reg (upd_outcomes <[k := o]>) w) -> wp (cont_resume k o) Q w.
Proof. intros H HQ. unfold cont_resume. wp_steps. rewrite H. wp_steps. exact HQ. Qed.

Lemma wp_mem_op f m (Q : unit -> World -> Prop) w : f (heap w) = Some m ->
  Q tt (upd_heap (fun _ => m) w) -> wp (mem_op f) Q w.
Proof. intros H HQ. unfold mem_op. wp_steps. rewrite H. wp_steps. exact HQ. Qed.

(** A result may be dropped: the buffer in it is allocated and in nobody's use. *)
Definition droppable (r : result) (w : World) : Prop :=
  match r with
  | inr (VData (DataNoCopy p _)) => live p (heap w) /\ unused p (outst w)
  | _ => True
  end.

Definition holds_data (r : result) : Prop :=
  match r with inr (VData _) => True | _ => False end.

Lemma drop_result_spec K X r w : Inv K X w -> droppable r w ->
  wp (drop_result r) (fun _ w' => Inv K X w' /\ evo w w' /\ reg w' = reg w /\ pipe w' = pipe w /\
    lib w' = lib w /\ (holds_data r \/ heap w' = heap w)) w.
Proof.
  intros H Hd. assert (Hret : wp (ret tt) (fun _ w' => Inv K X w' /\ evo w w' /\ reg w' = reg w /\
    pipe w' = pipe w /\ lib w' = lib w /\ (holds_data r \/ heap w' = heap w)) w).
  { apply wp_ret. splits; auto; try exact H; reflexivity. }
  destruct r as [e|v]; [exact Hret|].
  destruct v as [| | | | |d| | | |]; try exact Hret.
  destruct d as [bs|p n]; cbn [drop_result data_release].
  - eapply wp_mem_op; [reflexivity|]. destruct H; splits; [constructor; done|constructor; cbn; auto|cbn; auto..].
  - destruct Hd as [Hl Hu]. destruct (deallocate_live _ _ Hl) as (m & Hm & _).
    eapply wp_mem_op; [exact Hm|].
    split; [|split; [constructor; cbn; auto|cbn; auto]].
    destruct H as [A B C D F]. constructor; cbn; auto. eapply buf_free; eauto.
Qed.

(** What [resume_typed] tells the caller. *)
Definition outcome_of (t : ResultType) (r : result) : Outcome :=
  match r with
  | inr v => if value_is t v then Returned v
             else Threw (posix_error EIO "Internal type mismatch in callback")
  | inl e => Threw e
  end.

(** After [resume i r]: the object is marked, no other object changed, and if it
    had not been resumed its continuation now has the outcome of [r]. *)
Record resumed (i : Z) (r : result) (w w' : World) : Prop := mkResumed {
  rs_object : exists cb, objects (reg w') !! i = Some cb /\ hasResumed cb = true;
  rs_others : forall j, j <> i -> objects (reg w') !! j = objects (reg w) !! j;
  rs_outcome : forall cb, objects (reg w) !! i = Some cb -> hasResumed cb = false ->
    outcomes (reg w') = <[continuation cb := outcome_of (resultType cb) r]> (outcomes (reg w));
  rs_heap : forall cb, objects (reg w) !! i = Some cb -> hasResumed cb = false ->
    outcome_of (resultType cb) r <> Threw (posix_error EIO "Internal type mismatch in callback") ->
    heap w' = heap w
}.

(** [resume] of an object in hand that is no longer active. *)
Lemma resume_typed_spec t k r (Q : unit -> World -> Prop) w :
  buf_inv (heap w) (objects (reg w)) (pend w) (outst w) (rpcq w) -> droppable r w ->
  outcomes (reg w) !! k = None ->
  (forall m, holds_data r \/ m = heap w ->
     (outcome_of t r <> Threw (posix_error EIO "Internal type mismatch in callback") -> m = heap w) ->
     buf_inv m (objects (reg w)) (pend w) (outst w) (rpcq w) ->
     Q tt (upd_reg (upd_outcomes <[k := outcome_of t r]>) (upd_heap (fun _ => m) w))) ->
  wp (resume_typed t k r) Q w.
Proof.
  intros Hb Hd Hk HQ.
  assert (Hsame : Q tt (upd_reg (upd_outcomes <[k := outcome_of t r]>) w)).
  { assert (H := HQ (heap w) (or_intror eq_refl) (fun _ => eq_refl) Hb). destruct w; exact H. }
  unfold resume_typed. destruct r as [e|v]; [now apply wp_cont_resume|]. cbn [outcome_of] in *.
  destruct (value_is t v) eqn:Ev; [now apply wp_cont_resume|]. apply wp_bind.
  destruct v as [| | | | |d| | | |]; try (apply wp_ret; now apply wp_cont_resume).
  destruct d as [bs|p n]; cbn [drop_result data_release].
  - eapply wp_mem_op; [reflexivity|]. apply wp_cont_resume; [exact Hk|].
    apply (HQ (heap w)); auto.
  - destruct Hd as [Hl Hu]. destruct (deallocate_live _ _ Hl) as (m & Hm & _).
    eapply wp_mem_op; [exact Hm|]. apply wp_cont_resume; [exact Hk|].
    apply (HQ m); [now left|done|]. eapply buf_free; eauto.
Qed.

Lemma resume_spec K X i r w : Inv K X w -> i ∈ X -> i ∉ active w -> droppable r w ->
  wp (resume i r) (fun _ w' => Inv K X w' /\ evo w w' /\ active w' = active w /\
    pipe w' = pipe w /\ lib w' = lib w /\ retained (reg w') = retained (reg w) /\
    (holds_data r \/ heap w' = heap w) /\ resumed i r w w') w.
Proof.
  intros H Hx Hna Hd. pose proof (inv_reg _ _ _ H) as R.
  destruct (ri_object _ _ _ _ _ _ R i (or_intror Hx)) as [cb Hcb].
  unfold resume. apply wp_bind. eapply wp_get_object; [exact Hcb|]. cbn beta.
  destruct (hasResumed cb) eqn:Hr.
  { eapply wp_mono; [apply (drop_result_spec K X); eassumption|].
    intros [] w' (H1 & H2 & H3 & H4 & H5 & H6). rewrite H3. splits; auto; try exact H1.
    constructor; rewrite ?H3; eauto; intros; congruence. }
  pose proof (ri_open _ _ _ _ _ _ R i cb (or_intror Hx) Hcb Hr) as Hopen.
  destruct H as [A B C D F].
  apply wp_bind, wp_modify, resume_typed_spec; [now apply buf_resumed|exact Hd|exact Hopen|].
  intros m Hm1 Hm2 Hm3.
  split; [constructor; auto|split; [constructor; cbn; auto|split; [done|splits; auto]]].
  - cbn. eapply reg_resume; eauto.
  - now apply insert_subseteq.
  - intros j cj Hj. destruct (decide (i = j)) as [->|]; [right|left].
    + rewrite lookup_insert_eq. congruence.
    + now rewrite lookup_insert_ne.
  - constructor; cbn.
    + exists (mark_resumed cb). split; [apply lookup_insert_eq|done].
    + intros j Hj. apply lookup_insert_ne. congruence.
    + intros cb' Hcb' _. now simplify_eq.
    + intros cb' Hcb' _ Hne. simplify_eq. now apply Hm2.
Qed.

Lemma Inv_drop K X i cb w : Inv K ({[i]} ∪ X) w -> objects (reg w) !! i = Some cb ->
  hasResumed cb = true -> i ∉ active w -> Inv K X w.
Proof.
  intros [A B C D F] Hcb Hr Hna; constructor; auto.
  eapply reg_drop; eauto. eapply ri_resumed; eauto.
Qed.

Lemma Inv_take K X i w : Inv K X w -> i ∈ active w \/ queued (pend w) (outst w) (rpcq w) i ->
  Inv K ({[i]} ∪ X) w.
Proof. intros [A B C D F] Hx; constructor; auto. now apply reg_take. Qed.

Lemma wp_remove_continuation K X i (Q : unit -> World -> Prop) w : Inv K X w -> i ∈ X ->
  (forall w', Inv K X w' -> evo w w' -> i ∉ active w' ->
     w' = upd_reg (upd_activeContinuations (fun s => s ∖ {[i]})) w -> Q tt w') ->
  wp (remove_continuation i) Q w.
Proof.
  intros H Hx HQ. unfold remove_continuation. apply wp_modify. apply HQ; [| | |reflexivity].
  - destruct H as [A B C D F]; constructor; auto. cbn. now apply reg_remove_active.
  - constructor; cbn; auto. set_solver.
  - cbn. set_solver.
Qed.

(** Give up an operation that libnfs refused: object [i] is in no queue. *)
Lemma failureCleanup_spec K X i w : Inv K ({[i]} ∪ X) w -> i ∈ retained (reg w) ->
  ~ queued (pend w) (outst w) (rpcq w) i -> async_rc i < 0 ->
  wp (failureCleanup i (async_rc i)) (fun _ w' => Inv K X w' /\ evo w w' /\ pipe w' = pipe w /\
    outst w' = outst w /\ issued (lib w') = issued (lib w) /\ heap w' = heap w /\
    forall j, j <> i -> objects (reg w') !! j = objects (reg w) !! j) w.
Proof.
  intros H Hret Hnq Hrc. unfold failureCleanup.
  apply wp_bind, wp_release; [exact Hret|].
  set (w1 := upd_reg _ w).
  assert (H1 : Inv K ({[i]} ∪ X) w1).
  { destruct H as [A B C D F]; constructor; auto. now apply reg_release. }
  apply wp_bind. eapply (wp_remove_continuation K ({[i]} ∪ X)); [exact H1|set_solver|].
  intros w2 H2 _ Hna ->.
  apply wp_bind, wp_call_error; [exact Hrc|]. intros msg.
  eapply wp_mono; [apply (resume_spec K ({[i]} ∪ X) i (inl _)); [now apply Inv_tick| | |exact I]|].
  - set_solver.
  - exact Hna.
  - intros [] w4 (H4 & E4 & A4 & P4 & L4 & R4 & Hh & Hrs).
    destruct Hrs as [(cb & Hcb & Hres) Hoth _ _].
    split; [|split; [|split; [exact P4|split; [|split; [|split]]]]].
    + eapply Inv_drop; eauto. rewrite A4. exact Hna.
    + etransitivity; [|exact E4]. constructor; cbn; auto. set_solver.
    + now rewrite L4.
    + now rewrite L4.
    + now destruct Hh as [[]|Hh].
    + intros j Hj. now rewrite Hoth.
Qed.

(** ** Calls *)

(** What a call adds: the command is issued, and queued unless refused. *)
Definition called (i : Z) (c : Command) (w : World) : World :=
  upd_lib (fun l => mkLib (if 0 <=? async_rc i then <[i := c]> (outstanding l) else outstanding l)
    (rpcOutstanding l) (issued l ++ [(i, c)]) (closed l) (tick l)) w.

Lemma wp_call_async i c (Q : Z -> World -> Prop) w :
  Q (async_rc i) (called i c w) -> wp (call_async i c) Q w.
Proof.
  intros HQ. unfold call_async. apply wp_bind, wp_modify.
  unfold called in HQ. apply wp_bind, wp_when; intros Hrc; rewrite Hrc in HQ.
  - apply wp_modify, wp_ret. exact HQ.
  - apply wp_ret. exact HQ.
Qed.

(** The buffer of a command is ready: allocated, and shared with nobody. *)
Definition buffer_ready (c : Command) (cb : CallbackData) (w : World) : Prop :=
  (forall b n, command_buffer c = Some (b, n) -> in_block b n (heap w) /\
     forall j cj cbj x, outst w !! j = Some cj -> objects (reg w) !! j = Some cbj ->
       cleanup cbj = Some x -> bp_block b <> x) /\
  (forall x, cleanup cb = Some x -> unused x (outst w)).

Lemma Inv_called K X i c cb w : Inv K X w -> i ∈ retained (reg w) ->
  ~ queued (pend w) (outst w) (rpcq w) i -> objects (reg w) !! i = Some cb ->
  (hasResumed cb = false -> i ∈ active w \/ i ∈ X) -> fits c cb -> buffer_ready c cb w ->
  Inv K X (called i c w).
Proof.
  intros [A B C D F] Hret Hnq Hcb Ha Hf [Hb1 Hb2].
  unfold called. destruct (0 <=? async_rc i); constructor; cbn; auto.
  - eapply reg_queue_gen; eauto.
    + intros cb' Hcb'. simplify_eq. exact Ha.
    + intros j [?|[Hj|?]]; [left; left; done| |left; right; right; done].
      destruct (decide (i = j)) as [->|]; [auto|]. rewrite lookup_insert_ne in Hj by done.
      left; right; left; done.
    + apply C.
    + intros j Hj. rewrite lookup_insert_ne; [eapply ri_disj; eauto|].
      intros ->. apply Hnq. now left.
    + intros j Hj. destruct (ri_rpc _ _ _ _ _ _ C _ Hj) as [H1 H2]. split; [done|].
      rewrite lookup_insert_ne; [done|]. intros ->. apply Hnq. right; right; done.
  - eapply buf_queue; eauto.
Qed.

(** Without a buffer there is nothing to share. *)
Lemma buffer_ready_none c cb w : fits c cb -> command_buffer c = None -> buffer_ready c cb w.
Proof.
  intros Hf Hc. split; [congruence|]. intros x Hx.
  destruct (fit_own _ _ Hf _ Hx) as [n Hn]. congruence.
Qed.

(** ** Issuing *)

(** Taking operation number [n] out of the waiting list. *)
Lemma lookup_take_drop {A} (l : list A) n x : l !! n = Some x ->
  l = take n l ++ x :: drop (S n) l.
Proof. intros H. symmetry. now apply take_drop_middle. Qed.

Lemma unqueue_pend K X n op w : Inv K X w -> pend w !! n = Some op ->
  let w1 := upd_pipe (upd_pendingOperations (fun l => take n l ++ drop (S n) l)) w in
  Inv K X w1 /\ ~ queued (pend w1) (outst w1) (rpcq w1) (id op) /\
  pend w1 `sublist_of` pend w /\ (length (pend w1) + 1 = length (pend w))%nat.
Proof.
  intros [A B C D F] Hop w1. pose proof (lookup_take_drop _ _ _ Hop) as Hl.
  assert (Hsub : pend w1 `sublist_of` pend w).
  { cbn. rewrite Hl at 3. apply sublist_app; [reflexivity|]. now apply sublist_cons. }
  assert (Hin : forall o, In o (pend w1) -> In o (pend w)).
  { intros o Ho. rewrite Hl. cbn in Ho. apply in_app_or in Ho as [?|?];
      apply in_or_app; cbn; auto. }
  assert (Hnd : NoDup (map id (pend w1)) /\ ~ In (id op) (map id (pend w1))).
  { pose proof (ri_nodup _ _ _ _ _ _ C) as Hn. rewrite Hl in Hn. rewrite map_app in Hn. cbn in Hn.
    apply NoDup_app in Hn as (N1 & N2 & N3). apply NoDup_cons in N3 as [N3 N4]. cbn.
    rewrite map_app. split.
    - apply NoDup_app. split; [done|]. split; [|done]. intros x Hx Hx'. eapply N2; eauto.
      now right.
    - intros [Hx|Hx]%in_app_or.
      + eapply N2; [apply list_elem_of_In, Hx|now left].
      + apply N3. now apply list_elem_of_In. }
  assert (Hq0 : In (id op) (map id (pend w))).
  { rewrite Hl, map_app. apply in_or_app. right; now left. }
  split; [|split; [|split; [exact Hsub|]]].
  - constructor; auto.
    + destruct B as [B1 B2 B3 B4]. constructor; auto.
      apply sublist_length in Hsub. cbn in Hsub |- *. lia.
    + eapply reg_unqueue; [exact C| | | |]; auto.
      * intros j [Hj|[Hj|Hj]]; [|right; left; exact Hj|right; right; exact Hj].
        left. apply in_map_iff in Hj as (o & <- & Ho). apply in_map. now apply Hin.
      * apply Hnd.
      * intros j Hj. eapply ri_disj; [exact C|]. apply in_map_iff in Hj as (o & <- & Ho).
        apply in_map. now apply Hin.
      * intros j Hj. destruct (ri_rpc _ _ _ _ _ _ C _ Hj) as [H1 H2]. split; [|done].
        intros Hx. apply H1. apply in_map_iff in Hx as (o & <- & Ho). apply in_map. now apply Hin.
    + eapply buf_unqueue; [exact D|exact Hin|done|auto].
  - intros [Hx|[Hx|Hx]].
    + now apply Hnd.
    + cbn in Hx. rewrite (ri_disj _ _ _ _ _ _ C _ Hq0) in Hx. destruct Hx as [? [=]].
    + cbn in Hx. destruct (ri_rpc _ _ _ _ _ _ C _ Hx) as [H1 _]. auto.
  - cbn. rewrite Hl at 3. rewrite !length_app. cbn. lia.
Qed.

Definition op_category (op : PendingOperation) : OperationCategory := Op.category (type op).

Definition of_category (c : OperationCategory) : list PendingOperation -> list PendingOperation :=
  List.filter (fun op => bool_decide (op_category op = c)).

Definition call_of (op : PendingOperation) : Z * Command := (id op, execute op).

(** From [w] to [w'] the operations that left the waiting list were called, in
    each category in the order in which they were waiting. *)
Definition issued_in_order (w w' : World) : Prop :=
  exists l, issued (lib w') = issued (lib w) ++ map call_of l /\
    forall c, of_category c l ++ of_category c (pend w') = of_category c (pend w).

(** Every operation of the list waits because its category has no free slot. *)
Definition all_blocked (l : list PendingOperation) (w : World) : Prop :=
  forall op, In op l -> slot_free (op_category op) w = false.

Lemma issued_in_order_refl w w' : issued (lib w') = issued (lib w) -> pend w' = pend w ->
  issued_in_order w w'.
Proof. intros H1 H2. exists []. rewrite H1, H2, app_nil_r. split; [done|]. intros; reflexivity. Qed.

Lemma issued_in_order_trans w1 w2 w3 : issued_in_order w1 w2 -> issued_in_order w2 w3 ->
  issued_in_order w1 w3.
Proof.
  intros (l1 & A1 & B1) (l2 & A2 & B2). exists (l1 ++ l2). split.
  - now rewrite A2, A1, map_app, app_assoc.
  - intros c. rewrite <- B1, <- B2. unfold of_category. now rewrite List.filter_app, app_assoc.
Qed.

Lemma of_category_none c l : (forall op, In op l -> op_category op <> c) -> of_category c l = [].
Proof.
  intros H. induction l as [|x l IH]; [done|]. cbn. rewrite bool_decide_eq_false_2 by (apply H; now left).
  apply IH. intros op Ho. apply H. now right.
Qed.

(** The first operation of its category may leave from position [n]. *)
Lemma leave_in_order l n op : l !! n = Some op ->
  (forall o, In o (take n l) -> op_category o <> op_category op) ->
  forall c, of_category c [op] ++ of_category c (take n l ++ drop (S n) l) = of_category c l.
Proof.
  intros Hop Hno c. rewrite (lookup_take_drop _ _ _ Hop) at 3.
  unfold of_category at 2 3. rewrite !List.filter_app. fold (of_category c (take n l)). cbn.
  case_bool_decide as Hc; [|done].
  rewrite (of_category_none c (take n l)); [done|]. intros o Ho <-. eapply Hno; eauto.
Qed.

Lemma slot_free_pipe c w w' : controller c w' = controller c w -> inFlight c w' = inFlight c w ->
  slot_free c w' = slot_free c w.
Proof. unfold slot_free. now intros -> ->. Qed.

Lemma updateWriteSource_frame K X w : Inv K X w ->
  wp updateWriteSource (fun _ w' => Inv K X w' /\ same_core w w') w.
Proof.
  intros H. eapply wp_mono; [apply keeps_updateWriteSource, H|]. intros [] w' [H1 S1].
  split; [eapply same_core_inv; eauto|done].
Qed.

Definition issue_post (w w' : World) : Prop :=
  evo w w' /\ heap w' = heap w /\ issued_in_order w w' /\
  (forall x, unused x (outst w) -> unused x (outst w')) /\
  (forall j, ~ In j (map id (pend w)) -> objects (reg w') !! j = objects (reg w) !! j) /\
  bulkController (pipe w') = bulkController (pipe w) /\
  metadataController (pipe w') = metadataController (pipe w).

Lemma issue_post_trans w1 w2 w3 : issue_post w1 w2 -> issue_post w2 w3 -> issue_post w1 w3.
Proof.
  intros (A1 & A2 & A3 & A6 & A7 & A4 & A5) (B1 & B2 & B3 & B6 & B7 & B4 & B5).
  split; [etransitivity; eauto|]. split; [congruence|].
  split; [eapply issued_in_order_trans; eauto|]. split; [auto|]. split; [|split; congruence].
  intros j Hj. rewrite B7, A7; [done|exact Hj|]. intros Hx. apply Hj.
  apply in_map_iff in Hx as (o & <- & Ho). apply in_map, list_elem_of_In.
  eapply sublist_subseteq; [apply (ev_pend _ _ A1)|]. now apply list_elem_of_In.
Qed.

Lemma inFlight_nonneg K X c w : Inv K X w -> 0 <= inFlight c w.
Proof. intros H. destruct (pi_inFlight _ (inv_pipe _ _ _ H)). destruct c; done. Qed.

Lemma Inv_inFlight K X c f w : Inv K X w -> 0 <= f (inFlight c w) ->
  Inv K X (upd_pipe (match c with bulk => upd_inFlightBulk f
                                | metadata => upd_inFlightMetadata f end) w).
Proof.
  intros [A [B1 B2 [B3 B4] B5] C D F] Hf.
  destruct c; (constructor; [exact A| |exact C|exact D|exact F]); constructor; cbn; auto.
Qed.

(** One waiting operation is called.  [left_world]: the operation has left the
    list; [started]: it is counted and the call has been made. *)
Section IssueOne.
Context (K : option Z) (X : gset Z) (n : nat) (op : PendingOperation) (w : World).
Context (H : Inv K X w) (Hop : pend w !! n = Some op).
Context (Hfree : slot_free (op_category op) w = true) (Hblk : all_blocked (take n (pend w)) w).

Let i := id op.
Let c := op_category op.
Let rest := take n (pend w) ++ drop (S n) (pend w).
Let left_world := upd_pipe (upd_pendingOperations (fun l => take n l ++ drop (S n) l)) w.

Definition counted (f : Z -> Z) (x : World) : World :=
  upd_pipe (match op_category op with bulk => upd_inFlightBulk f | metadata => upd_inFlightMetadata f end) x.

Let started := called i (execute op) (counted (fun n => n + 1) left_world).

Lemma issue_in_list : In i (map id (pend w)).
Proof. apply in_map, list_elem_of_In, list_elem_of_lookup. eauto. Qed.

Lemma issue_queued : queued (pend w) (outst w) (rpcq w) i.
Proof. left. exact issue_in_list. Qed.

Lemma issue_retained : i ∈ retained (reg w).
Proof. eapply ri_retained; [apply H|exact issue_queued]. Qed.

Lemma issue_object : exists cb, objects (reg w) !! i = Some cb /\ fits (execute op) cb /\
  buffer_ready (execute op) cb left_world.
Proof.
  destruct (bi_pend _ _ _ _ _ (inv_buf _ _ _ H) op) as (cb & Hcb & Hfit & Hnb).
  { apply list_elem_of_In, list_elem_of_lookup. eauto. }
  exists cb. split; [exact Hcb|]. split; [exact Hfit|]. now apply buffer_ready_none.
Qed.

Lemma issue_left_evo : evo w left_world.
Proof.
  destruct (unqueue_pend K X n op w H Hop) as (_ & _ & Hsub & _). constructor; auto.
  intros j [Hj|Hj]; [left|right; exact Hj].
  apply in_map_iff in Hj as (o & <- & Ho). apply in_map.
  apply list_elem_of_In. eapply sublist_subseteq; [exact Hsub|]. now apply list_elem_of_In.
Qed.

Lemma issue_order : forall d, of_category d [op] ++ of_category d rest = of_category d (pend w).
Proof.
  apply (leave_in_order _ _ _ Hop). intros o Ho He. specialize (Hblk o Ho). rewrite He in Hblk. congruence.
Qed.

(** The operations in front stay blocked. *)
Lemma issue_blocked w' : bulkController (pipe w') = bulkController (pipe w) ->
  metadataController (pipe w') = metadataController (pipe w) ->
  (forall d, d <> c -> inFlight d w' = inFlight d w) ->
  pend w' = rest -> all_blocked (take n (pend w')) w'.
Proof.
  intros E1 E2 E3 E4 o Ho. rewrite E4 in Ho. unfold rest in Ho.
  assert (Hin : In o (take n (pend w))).
  { rewrite take_app_le in Ho; [now rewrite take_take, Nat.min_id in Ho|].
    apply lookup_lt_Some in Hop. rewrite length_take. lia. }
  rewrite <- (Hblk o Hin). apply slot_free_pipe.
  - destruct (op_category o); [exact E1|exact E2].
  - apply E3. intros He. specialize (Hblk o Hin). unfold c in He. rewrite He in Hblk. congruence.
Qed.

Lemma counted_inv Y f x : Inv K Y x -> 0 <= f (inFlight c x) -> Inv K Y (counted f x).
Proof. intros Hx. now apply Inv_inFlight. Qed.

(** What counting and calling leave alone. *)
Lemma counted_frame f x : bulkController (pipe (counted f x)) = bulkController (pipe x) /\
  metadataController (pipe (counted f x)) = metadataController (pipe x) /\ pend (counted f x) = pend x /\
  forall d, d <> c -> inFlight d (counted f x) = inFlight d x.
Proof. unfold counted, c. destruct (op_category op); splits; try done; now intros []. Qed.

Lemma started_inv Y : Inv K Y left_world ->
  (forall cb, objects (reg w) !! i = Some cb -> hasResumed cb = false -> i ∈ active w \/ i ∈ Y) ->
  Inv K Y started.
Proof.
  intros HY Hw. destruct issue_object as (cb & Hcb & Hfit & Hready).
  destruct (unqueue_pend K X n op w H Hop) as (_ & Hnq & _).
  apply (counted_inv Y (fun n => n + 1) (called i (execute op) left_world)).
  - eapply Inv_called; [exact HY|exact issue_retained|exact Hnq|exact Hcb|now apply Hw|exact Hfit|exact Hready].
  - pose proof (inFlight_nonneg K X c w H). change (inFlight c (called i (execute op) left_world)) with (inFlight c w). lia.
Qed.

Lemma started_queued j : queued (pend started) (outst started) (rpcq started) j ->
  queued (pend w) (outst w) (rpcq w) j.
Proof.
  change (rpcq started) with (rpcq w). unfold started at 1. change (pend (called _ _ ?x)) with (pend x).
  destruct (counted_frame (fun n => n + 1) left_world) as (_ & _ & -> & _). intros [Hj|[Hj|Hj]].
  - apply (ev_queued _ _ issue_left_evo j). left. exact Hj.
  - destruct (decide (i = j)) as [<-|Hne]; [exact issue_queued|]. right; left. revert Hj. cbn.
    destruct (0 <=? async_rc i); [now rewrite lookup_insert_ne|done].
  - right; right; exact Hj.
Qed.

Lemma started_evo : evo w started.
Proof.
  pose proof issue_left_evo as Ev. destruct (counted_frame (fun n => n + 1) left_world) as (_ & _ & Hp & _).
  constructor; try exact started_queued; try apply Ev.
  change (pend started) with (pend (counted (fun n => n + 1) left_world)). rewrite Hp. apply Ev.
Qed.

(** What the rest of the iteration must keep for the whole to be right. *)
Lemma issue_finish w' : evo started w' -> heap w' = heap w -> issued (lib w') = issued (lib started) ->
  (forall x, unused x (outst w) -> unused x (outst w')) ->
  (forall j, j <> i -> objects (reg w') !! j = objects (reg w) !! j) ->
  bulkController (pipe w') = bulkController (pipe w) ->
  metadataController (pipe w') = metadataController (pipe w) ->
  (forall d, d <> c -> inFlight d w' = inFlight d w) -> pend w' = rest ->
  issue_post w w' /\ pend w' = rest /\ all_blocked (take n (pend w')) w'.
Proof.
  intros Ev Hh Hi Hu Ho T1 T2 T4 T3. split; [|split; [exact T3|now apply issue_blocked]].
  split; [etransitivity; [exact started_evo|exact Ev]|]. split; [exact Hh|]. split.
  { exists [op]. split; [exact Hi|]. intros d. rewrite T3. apply issue_order. }
  split; [exact Hu|]. split; [|split; assumption].
  intros j Hj. apply Ho. intros ->. apply Hj, issue_in_list.
Qed.

(** The call was refused: the count is taken back and the caller told. *)
Lemma issue_refused : async_rc i < 0 ->
  wp (set_inFlight c (fun n => n - 1) ;; failureCleanup i (async_rc i))
     (fun _ w' => forall w2, same_core w' w2 ->
        issue_post w w2 /\ pend w2 = rest /\ all_blocked (take n (pend w2)) w2 /\ Inv K X w') started.
Proof.
  intros Erc. unfold set_inFlight. apply wp_bind, wp_modify. fold (counted (fun n => n - 1) started).
  set (w4 := counted (fun n => n - 1) started).
  destruct (unqueue_pend K ({[i]} ∪ X) n op w) as (H1' & Hnq & _); [apply Inv_take; auto using issue_queued|exact Hop|].
  destruct (counted_frame (fun n => n - 1) started) as (T1 & T2 & T3 & T4). fold w4 in T1, T2, T3, T4.
  destruct (counted_frame (fun n => n + 1) left_world) as (S1 & S2 & S3 & S4).
  assert (Hneg : (0 <=? async_rc i) = false) by (apply Z.leb_gt; lia).
  assert (Ho4 : outst w4 = outst w) by (cbn; now rewrite Hneg).
  assert (Hw4 : Inv K ({[i]} ∪ X) w4).
  { apply counted_inv; [apply started_inv; [exact H1'|]|].
    - intros; right; set_solver.
    - pose proof (inFlight_nonneg K X c w H). unfold started, counted, c in *. destruct (op_category op); cbn in *; lia. }
  eapply wp_mono; [apply (failureCleanup_spec K X i w4); [exact Hw4|exact issue_retained| |lia]|].
  { rewrite Ho4, T3. change (pend started) with (pend (counted (fun n => n + 1) left_world)). rewrite S3. exact Hnq. }
  intros [] w5 (H5 & E5 & P5 & O5 & I5 & M5 & Oth5) w6 C6.
  assert (P6 : pipe w6 = pipe w4) by (destruct C6; congruence).
  assert (Q6 : forall d, inFlight d w6 = inFlight d w4) by (intros d; unfold inFlight; now rewrite P6).
  pose proof C6 as C6'. destruct C6'. enough (issue_post w w6 /\ pend w6 = rest /\ all_blocked (take n (pend w6)) w6) by tauto.
  apply issue_finish; rewrite ?P6; try congruence.
  - etransitivity; [|apply same_core_evo, C6]. etransitivity; [|exact E5].
    constructor; rewrite ?T3; try reflexivity; auto.
  - rewrite sc_heap, M5. reflexivity.
  - rewrite sc_issued, I5. reflexivity.
  - rewrite sc_out, O5, Ho4. auto.
  - intros j Hj. rewrite sc_reg. now apply Oth5.
  - now rewrite T1.
  - now rewrite T2.
  - intros d Hd. rewrite Q6, (T4 d Hd). exact (S4 d Hd).
  - now rewrite T3.
Qed.

(** The call was made. *)
Lemma issue_accepted w2 : 0 <= async_rc i -> same_core started w2 ->
  issue_post w w2 /\ pend w2 = rest /\ all_blocked (take n (pend w2)) w2.
Proof.
  intros Erc C6. pose proof C6 as C6'. destruct C6'.
  destruct (counted_frame (fun n => n + 1) left_world) as (S1 & S2 & S3 & S4).
  assert (Hpos : (0 <=? async_rc i) = true) by (apply Z.leb_le; lia).
  destruct issue_object as (cb & Hcb & _ & [_ Hready]).
  apply issue_finish; rewrite ?sc_pipe; try assumption.
  - apply same_core_evo, C6.
  - rewrite sc_out. unfold started. cbn. rewrite Hpos.
    intros x Hx j cj b m [[<- <-]|[_ Hj]]%lookup_insert_Some Hb; [|eauto].
    destruct (bi_pend _ _ _ _ _ (inv_buf _ _ _ H) op) as (_ & _ & _ & Hnb); [|congruence].
    apply list_elem_of_In, list_elem_of_lookup. eauto.
  - intros j _. now rewrite sc_reg.
  - intros d Hd. unfold inFlight. rewrite sc_pipe. exact (S4 d Hd).
Qed.

Lemma issue_one_spec : wp (issue_one n op)
  (fun _ w' => Inv K X w' /\ issue_post w w' /\ pend w' = rest /\ all_blocked (take n (pend w')) w') w.
Proof.
  unfold issue_one. fold (op_category op). cbn zeta. apply wp_bind, wp_modify. fold left_world.
  unfold set_inFlight at 1. apply wp_bind, wp_modify. fold (counted (fun n => n + 1) left_world).
  apply wp_bind, wp_call_async. fold i. fold started. apply wp_bind.
  destruct (async_rc i <? 0) eqn:Erc.
  - apply Z.ltb_lt in Erc. cbn [when]. eapply wp_mono; [exact (issue_refused Erc)|].
    intros [] w1 Hw. cbn beta. destruct (Hw w1 ltac:(now constructor)) as (_ & _ & _ & H1).
    eapply wp_mono; [apply updateWriteSource_frame, H1|]. intros [] w2 [H2 C2]. destruct (Hw w2 C2). tauto.
  - apply Z.ltb_ge in Erc. cbn [when]. apply wp_ret.
    assert (H1 : Inv K X started).
    { apply started_inv; [apply (unqueue_pend K X n op w H Hop)|].
      intros cb Hcb Hr. eapply ri_waiting; [apply H|exact issue_queued|exact Hcb|exact Hr]. }
    eapply wp_mono; [apply updateWriteSource_frame, H1|]. intros [] w2 [H2 C2].
    destruct (issue_accepted w2 Erc C2). tauto.
Qed.

End IssueOne.

Lemma issue_loop_spec K X fuel : forall n w, Inv K X w ->
  (length (pend w) - n <= fuel)%nat -> all_blocked (take n (pend w)) w ->
  wp (issue_loop fuel n)
     (fun _ w' => Inv K X w' /\ issue_post w w' /\ all_blocked (pend w') w') w.
Proof.
  induction fuel as [|fuel IH]; intros n w H Hf Hblk; cbn [issue_loop]; apply wp_bind, wp_gets.
  - rewrite lookup_ge_None_2 by lia. apply wp_ret. rewrite take_ge in Hblk by lia.
    split; [exact H|]. split; [|exact Hblk].
    split; [reflexivity|]. split; [done|]. split; [now apply issued_in_order_refl|auto].
  - destruct (pend w !! n) as [op|] eqn:Hop.
    2: { apply wp_ret. apply lookup_ge_None_1 in Hop. rewrite take_ge in Hblk by lia.
      split; [exact H|]. split; [|exact Hblk].
      split; [reflexivity|]. split; [done|]. split; [now apply issued_in_order_refl|auto]. }
    apply wp_bind. eapply wp_has_slot; [exact H|].
    change (Op.category (type op)) with (op_category op).
    pose proof (lookup_lt_Some _ _ _ Hop) as Hlt.
    destruct (slot_free (op_category op) w) eqn:Hfree.
    + apply wp_bind. eapply wp_mono; [apply (issue_one_spec K X n op w H Hop Hfree Hblk)|].
      intros [] w1 (H1 & P1 & E1 & B1). cbn beta.
      eapply wp_mono; [apply (IH n w1 H1); [|exact B1]|].
      * rewrite E1, length_app, length_take, length_drop. lia.
      * intros [] w2 (H2 & P2 & B2). split; [exact H2|]. split; [|exact B2].
        eapply issue_post_trans; eauto.
    + apply (IH (S n) w H); [lia|].
      intros o Ho. rewrite (take_S_r _ _ op) in Ho by exact Hop.
      apply in_app_or in Ho as [Ho|[<-|[]]]; [now apply Hblk|exact Hfree].
Qed.

Lemma issuePendingOperations_spec K X w : Inv K X w ->
  wp issuePendingOperations
     (fun _ w' => Inv K X w' /\ issue_post w w' /\
        (context w <> None -> all_blocked (pend w') w')) w.
Proof.
  intros H. unfold issuePendingOperations. apply wp_bind, wp_gets.
  destruct (context w) eqn:Ectx.
  - apply wp_bind, wp_gets. eapply wp_mono; [apply (issue_loop_spec K X); [exact H|lia|]|].
    + intros o [].
    + intros [] w' (H1 & H2 & H3). auto.
  - apply wp_ret. split; [exact H|]. split; [|done].
    split; [reflexivity|]. split; [done|]. split; [now apply issued_in_order_refl|auto].
Qed.

(** ** Callbacks *)

(** What a callback leaves for the handler's result: buffers in nobody's use
    stay so. *)
Definition quiet (w w' : World) : Prop :=
  evo w w' /\ heap w' = heap w /\ (forall x, unused x (outst w) -> unused x (outst w')).

Lemma quiet_trans w1 w2 w3 : quiet w1 w2 -> quiet w2 w3 -> quiet w1 w3.
Proof.
  intros (A1 & A2 & A3) (B1 & B2 & B3). split; [etransitivity; eauto|]. split; [congruence|auto].
Qed.

Lemma quiet_droppable r w w' : quiet w w' -> droppable r w -> droppable r w'.
Proof.
  intros (_ & Hh & Hu). destruct r as [|[]]; cbn; auto. destruct d; auto.
  intros [H1 H2]. rewrite Hh. auto.
Qed.

(** [recordCompletion] touches the controllers and the counts only. *)
Lemma recordCompletion_spec K X c b w : Inv K X w ->
  wp (recordCompletion c b) (fun _ w' => Inv K X w' /\ quiet w w' /\
    reg w' = reg w /\ lib w' = lib w /\ pend w' = pend w) w.
Proof.
  intros H. unfold recordCompletion, set_inFlight, set_controller.
  apply wp_bind, wp_modify, wp_modify.
  assert (H1 := Inv_inFlight K X c (fun n => Z.max 0 (n - 1)) w H ltac:(lia)).
  split.
  - destruct H1 as [A [B1 B2 B3 B4] C D F]. destruct c; (constructor; [exact A| |exact C|exact D|exact F]);
      constructor; try assumption;
      (destruct b; [apply controller_inv_success|apply controller_inv_failure]; assumption).
  - destruct c; (split; [|done]); (split; [constructor; auto; reflexivity|auto]).
Qed.

Lemma completionHook_spec K X i cb b w : Inv K X w -> i ∈ X ->
  wp (completionHook i cb b) (fun _ w' => Inv K X w' /\ quiet w w' /\ i ∉ active w' /\
    forall j, ~ In j (map id (pend w)) -> objects (reg w') !! j = objects (reg w) !! j) w.
Proof.
  intros H Hx. unfold completionHook, handleCallbackCompletion. apply wp_bind.
  assert (Hdone : wp (when (isExports cb) (modify (upd_rpcx (upd_rpcExportsDone (fun _ => true)))))
    (fun _ w' => Inv K X w' /\ quiet w w' /\ reg w' = reg w /\ pend w' = pend w) w).
  { destruct (isExports cb); [apply wp_modify|apply wp_ret].
    - split; [destruct H; constructor; auto|]. split; [split; [constructor; auto; reflexivity|auto]|done].
    - split; [exact H|]. split; [split; [reflexivity|auto]|done]. }
  eapply wp_mono; [exact Hdone|]. intros [] w1 (H1 & Q1 & Rg1 & Pd1). cbn beta.
  apply wp_bind. eapply (wp_remove_continuation K X); [exact H1|exact Hx|].
  intros w2 H2 E2 Hna ->. apply wp_bind.
  eapply wp_mono; [apply (recordCompletion_spec K X), H2|].
  intros [] w3 (H3 & Q3 & R3 & _ & Pd3). cbn beta.
  eapply wp_mono; [apply (issuePendingOperations_spec K X), H3|].
  intros [] w4 (H4 & (E4 & M4 & _ & U4 & Oth4 & _) & _). split; [exact H4|]. split; [|split].
  - eapply quiet_trans; [exact Q1|]. eapply quiet_trans; [|split; [exact E4|auto]].
    eapply quiet_trans; [|exact Q3]. split; [exact E2|auto].
  - intros Hin. apply (ev_active _ _ E4) in Hin. rewrite R3 in Hin. now apply Hna.
  - intros j Hj. rewrite Oth4, R3; [cbn; now rewrite Rg1|]. rewrite Pd3. cbn. now rewrite Pd1.
Qed.

(** The end of a callback: report the completion, then resume. *)
Lemma finish_spec K X i cb r w : Inv K ({[i]} ∪ X) w -> droppable r w ->
  wp (completionHook i cb (is_success r) ;; resume i r)
     (fun _ w' => Inv K X w' /\ evo w w') w.
Proof.
  intros H Hd. apply wp_bind.
  eapply wp_mono; [apply (completionHook_spec K ({[i]} ∪ X)); [exact H|set_solver]|].
  intros [] w1 (H1 & Q1 & Hna & _). cbn beta.
  eapply wp_mono; [apply (resume_spec K ({[i]} ∪ X)); [exact H1|set_solver|exact Hna|]|].
  - eapply quiet_droppable; eauto.
  - intros [] w2 (H2 & E2 & A2 & _ & _ & _ & _ & [(cb' & Hcb' & Hr) _ _ _]). split.
    + eapply Inv_drop; eauto. now rewrite A2.
    + etransitivity; [apply Q1|exact E2].
Qed.

(** The caller gets the result, if nobody had resumed the object before. *)
Lemma finish_outcome K X i cb r w : Inv K ({[i]} ∪ X) w -> droppable r w ->
  ~ In i (map id (pend w)) -> objects (reg w) !! i = Some cb -> hasResumed cb = false ->
  outcome_of (resultType cb) r <> Threw (posix_error EIO "Internal type mismatch in callback") ->
  wp (completionHook i cb (is_success r) ;; resume i r)
     (fun _ w' => Inv K X w' /\ evo w w' /\ heap w' = heap w /\ i ∉ active w' /\
        outcomes (reg w') !! continuation cb = Some (outcome_of (resultType cb) r)) w.
Proof.
  intros H Hd Hnp Hcb Hr Hok. apply wp_bind.
  eapply wp_mono; [apply (completionHook_spec K ({[i]} ∪ X)); [exact H|set_solver]|].
  intros [] w1 (H1 & Q1 & Hna & Hoth). cbn beta.
  eapply wp_mono; [apply (resume_spec K ({[i]} ∪ X)); [exact H1|set_solver|exact Hna|]|].
  - eapply quiet_droppable; eauto.
  - rewrite <- (Hoth _ Hnp) in Hcb.
    intros [] w2 (H2 & E2 & A2 & _ & _ & _ & _ & [(cb' & Hcb' & Hr') _ Hout Hheap]).
    split; [|split; [|split; [|split]]].
    + eapply Inv_drop; eauto. now rewrite A2.
    + etransitivity; [apply Q1|exact E2].
    + rewrite (Hheap _ Hcb Hr Hok). apply Q1.
    + now rewrite A2.
    + rewrite (Hout _ Hcb Hr). apply lookup_insert_eq.
Qed.

(** A mount server that answers gives a list of exports (see the header). *)
Definition exports_listed : Prop := forall a, is_Some (read_exports a).

Context (HEX : exports_listed).

(** The buffers that the object owns are allocated and in nobody's use. *)
Definition owns (cb : CallbackData) (w : World) : Prop :=
  forall p, cleanup cb = Some p -> live p (heap w) /\ unused p (outst w).

Lemma wp_bound_to t a (Q : Z -> World -> Prop) w : Q a w -> wp (bound_to t (CPointer t a)) Q w.
Proof. intros HQ. unfold bound_to. rewrite decide_True by done. exact HQ. Qed.

(** A value of type [t]. *)
Definition value_of_type (t : ResultType) (r : result) : Prop :=
  match r with inr v => value_is t v = true | inl _ => False end.

(** A handler understands every reply that its command's contract allows. *)
Lemma run_handler_spec K X c cb status data w : Inv K X w -> fits c cb -> owns cb w ->
  callback_allowed (relied_fn c) status data = true -> 0 <= status ->
  wp (run_handler (dataHandler cb) status data)
     (fun r w' => Inv K X w' /\ evo w w' /\ droppable r w' /\ reg w' = reg w /\
        value_of_type (handler_type (dataHandler cb)) r) w.
Proof.
  intros H [Hh _ _ Hread _] Hown Hall Hst.
  destruct (callback_allowed_success _ _ _ Hall Hst) as (ok & p & Hdoc & Hok & Hp).
  assert (Hret : forall r, (forall d, r <> inr (VData d)) ->
    value_of_type (handler_type (dataHandler cb)) r ->
    wp (ret r) (fun r w' => Inv K X w' /\ evo w w' /\ droppable r w' /\ reg w' = reg w /\
      value_of_type (handler_type (dataHandler cb)) r) w).
  { intros r Hr Hv. apply wp_ret. split; [exact H|]. split; [reflexivity|]. split; [|done].
    destruct r as [|[]]; try done. destruct d; [done|]. destruct (Hr _ eq_refl). }
  destruct (dataHandler cb) eqn:Eh; cbn [run_handler]; destruct c; try destruct Hh;
    cbn in Hdoc; injection Hdoc as <- <-; cbn in Hp;
    try (destruct data as [|s|t a]; try discriminate Hp);
    try (apply andb_prop in Hp as [Hp _]; apply bool_decide_eq_true_1 in Hp; subst t);
    try (apply Hret; [intros ? [=]|reflexivity]);
    try (apply wp_bind, wp_bound_to, Hret; [intros ? [=]|reflexivity]).
  (* left: reads, and the export list *)
  all: try (
    destruct (Hown _ (Hread _ eq_refl)) as [Hl Hu]; destruct (0 <? status);
    [ apply wp_ret; split; [exact H|]; split; [reflexivity|]; split; [split; assumption|done]
    | destruct (deallocate_live _ _ Hl) as (m & Hm & _); apply wp_bind; eapply wp_mem_op; [exact Hm|];
      apply wp_ret; split; [|split; [constructor; auto; reflexivity|done]];
      destruct H as [A B C D F]; constructor; auto; eapply buf_free; eauto ]).
  apply wp_bind, wp_bound_to, wp_bind. destruct (HEX a) as [l Hl].
  apply wp_lift. exists l. split; [exact Hl|]. apply Hret; [intros ? [=]|reflexivity].
Qed.

(** The object is no longer queued, and its retained pointer is given back. *)
Lemma wp_take_retained K X i cb (Q : unit -> World -> Prop) w : Inv K X w ->
  i ∈ retained (reg w) -> ~ queued (pend w) (outst w) (rpcq w) i ->
  objects (reg w) !! i = Some cb ->
  (forall w', Inv K X w' -> quiet w w' -> outst w' = outst w -> active w' = active w ->
     objects (reg w') !! i = Some cb -> Q tt w') ->
  wp (release i) Q w.
Proof.
  intros H Hret Hnq Hcb HQ. apply wp_release; [exact Hret|]. apply HQ; auto.
  - destruct H as [A B C D F]; constructor; auto. now apply reg_release.
  - split; [constructor; auto; reflexivity|auto].
Qed.

Lemma owns_quiet cb w w' : quiet w w' -> owns cb w -> owns cb w'.
Proof. intros (_ & Hh & Hu) Ho p Hp. destruct (Ho p Hp). rewrite Hh. auto. Qed.

Lemma nfsCallback_spec K X i c cb status data w : Inv K ({[i]} ∪ X) w ->
  i ∈ retained (reg w) -> ~ queued (pend w) (outst w) (rpcq w) i ->
  objects (reg w) !! i = Some cb -> fits c cb -> owns cb w ->
  callback_allowed (relied_fn c) status data = true -> - 2 ^ 31 < status < 2 ^ 31 ->
  wp (nfsCallback status data i) (fun _ w' => Inv K X w' /\ evo w w') w.
Proof.
  intros H Hret Hnq Hcb Hfit Hown Hall Hrange. unfold nfsCallback.
  apply wp_bind. eapply wp_take_retained; [exact H|exact Hret|exact Hnq|exact Hcb|].
  intros w1 H1 Q1 _ _ Hcb1. assert (E1 : evo w w1) by apply Q1.
  pose proof (owns_quiet _ _ _ Q1 Hown) as Hown1. clear Q1 H Hret Hnq Hcb Hown.
  apply wp_bind. eapply wp_get_object; [exact Hcb1|]. cbn beta.
  destruct (status <? 0) eqn:Es.
  - apply Z.ltb_lt in Es.
    assert (Hfree : wp (match cleanup cb with Some p => free p | None => ret tt end)
      (fun _ w2 => Inv K ({[i]} ∪ X) w2 /\ evo w1 w2) w1).
    { destruct (cleanup cb) as [p|] eqn:Ec; [|split; [exact H1|reflexivity]].
      destruct (Hown1 _ Ec) as [Hl Hu]. destruct (deallocate_live _ _ Hl) as (m & Hm & _).
      eapply wp_mem_op; [exact Hm|]. split; [|constructor; auto; reflexivity].
      destruct H1 as [A B C D F]; constructor; auto. eapply buf_free; eauto. }
    apply wp_bind. eapply wp_mono; [exact Hfree|]. intros [] w2 [H2 E2]. cbn beta.
    set (r := inl (posix_error_plain (POSIXErrorCode_init (- status))) : result).
    assert (Hc : int32_neg status = Some (- status)) by (apply int32_neg_some; lia).
    assert (Hf := finish_spec K X i cb r w2 H2 I). change (is_success r) with false in Hf.
    unfold wp, bind in Hf |- *.
    destruct (completionHook i cb false w2) as [[[] w3]|]; [|exact Hf].
    unfold lift. rewrite Hc. cbn in Hf |- *.
    change (resume i (inl _) w3) with (resume i r w3).
    destruct (resume i r w3) as [[[] w4]|]; [|exact Hf]. destruct Hf as [H4 E4].
    split; [exact H4|]. etransitivity; [exact E1|]. etransitivity; eauto.
  - apply Z.ltb_ge in Es. apply wp_bind.
    eapply wp_mono; [eapply run_handler_spec; eauto|]. intros r w2 (H2 & E2 & D2 & _). cbn beta.
    eapply wp_mono; [apply finish_spec; eassumption|]. intros [] w3 [H3 E3].
    split; [exact H3|]. etransitivity; [exact E1|]. etransitivity; eauto.
Qed.

Lemma rpcCallback_spec K X i cb status data w : Inv K ({[i]} ∪ X) w ->
  i ∈ retained (reg w) -> ~ queued (pend w) (outst w) (rpcq w) i ->
  objects (reg w) !! i = Some cb -> dataHandler cb = HExports -> resultType cb = TStrings ->
  cleanup cb = None -> callback_allowed Api.mount_getexports_async status data = true ->
  wp (rpcCallback status data i) (fun _ w' => Inv K X w' /\ evo w w') w.
Proof.
  intros H Hret Hnq Hcb Hh Ht Hc Hall. unfold rpcCallback.
  apply wp_bind. eapply wp_take_retained; [exact H|exact Hret|exact Hnq|exact Hcb|].
  intros w1 H1 Q1 _ _ Hcb1. assert (E1 : evo w w1) by apply Q1.
  apply wp_bind. eapply wp_get_object; [exact Hcb1|]. cbn beta.
  destruct (status =? 0) eqn:Es; cbn [negb].
  - apply Z.eqb_eq in Es. subst status. apply wp_bind.
    eapply wp_mono; [eapply (run_handler_spec K ({[i]} ∪ X) (CGetexports "s"%string) cb 0)|].
    + exact H1.
    + constructor; rewrite ?Hh, ?Hc; try done.
    + intros p Hp. congruence.
    + exact Hall.
    + lia.
    + intros r w2 (H2 & E2 & D2 & _). cbn beta.
      eapply wp_mono; [apply finish_spec; eassumption|]. intros [] w3 [H3 E3].
      split; [exact H3|]. etransitivity; [exact E1|]. etransitivity; eauto.
  - eapply wp_mono; [apply (finish_spec K X i cb (inl _)); [exact H1|exact I]|].
    intros [] w3 [H3 E3]. split; [exact H3|]. etransitivity; eauto.
Qed.

(** ** What libnfs delivers *)

Lemma reply_allowed_inv c status data bytes : reply_allowed c status data bytes = true ->
  callback_allowed (relied_fn c) status data = true /\ - 2 ^ 31 < status < 2 ^ 31 /\
  forall b n, command_buffer c = Some (b, n) -> bytes <> [] -> Z.of_nat (length bytes) <= n.
Proof.
  unfold reply_allowed. intros H. repeat (apply andb_prop in H as [H ?]).
  split; [done|]. split; [lia|]. intros b n Hb Hne. rewrite Hb in *.
  destruct (is_read c && (0 <=? status)).
  - match goal with Hx : (_ && _) = true |- _ => apply andb_prop in Hx as [? ?] end. lia.
  - destruct bytes; [done|discriminate].
Qed.

Lemma write_reply_spec K X i c status data bytes w : Inv K X w -> outst w !! i = Some c ->
  reply_allowed c status data bytes = true ->
  wp (write_reply c bytes) (fun _ w' => Inv K X w' /\ evo w w' /\ reg w' = reg w /\
    pipe w' = pipe w /\ lib w' = lib w) w.
Proof.
  intros H Hi Hr. destruct (reply_allowed_inv _ _ _ _ Hr) as (_ & _ & Hlen).
  assert (Hret : wp (ret tt) (fun _ w' => Inv K X w' /\ evo w w' /\ reg w' = reg w /\
    pipe w' = pipe w /\ lib w' = lib w) w) by (split; [exact H|]; split; [reflexivity|done]).
  unfold write_reply. destruct (command_buffer c) as [[b n]|] eqn:Eb; [|exact Hret].
  destruct bytes as [|x bytes]; [exact Hret|].
  specialize (Hlen b n eq_refl ltac:(done)).
  destruct (bi_live _ _ _ _ _ (inv_buf _ _ _ H) _ _ _ _ Hi Eb) as (l & Hl & H1 & H2).
  destruct (store_ok _ (bp_off b) (x :: bytes) _ _ Hl H1 ltac:(lia)) as (m & Hm & _).
  eapply wp_mem_op; [exact Hm|]. split; [|split; [constructor; auto; reflexivity|done]].
  destruct H as [A B C D F]; constructor; auto. eapply buf_store; eauto.
Qed.

(** A command leaves libnfs: the object is in the hands of the callback. *)
Lemma unqueue_out K X i c cb w : Inv K X w -> outst w !! i = Some c ->
  objects (reg w) !! i = Some cb -> fits c cb ->
  let w1 := upd_lib (upd_outstanding (delete i)) w in
  Inv K ({[i]} ∪ X) w1 /\ ~ queued (pend w1) (outst w1) (rpcq w1) i /\ owns cb w1 /\ evo w w1.
Proof.
  intros H Hi Hcb Hfit w1.
  assert (Hx : Inv K ({[i]} ∪ X) w) by (apply Inv_take; [exact H|right; eauto with registry]).
  assert (Hnp : ~ In i (map id (pend w))).
  { intros Hin. rewrite (ri_disj _ _ _ _ _ _ (inv_reg _ _ _ H) _ Hin) in Hi. discriminate. }
  assert (Hnr : rpcq w <> Some i).
  { intros Hq. destruct (ri_rpc _ _ _ _ _ _ (inv_reg _ _ _ H) _ Hq). congruence. }
  assert (Hsub : delete i (outst w) ⊆ outst w) by apply delete_subseteq.
  assert (Hev : forall j, queued (pend w1) (outst w1) (rpcq w1) j ->
                          queued (pend w) (outst w) (rpcq w) j).
  { intros j [Hj|[[cj Hj]|Hj]]; [left; exact Hj| |right; right; exact Hj].
    right; left. cbn in Hj. apply lookup_delete_Some in Hj as [_ Hj]. eauto. }
  split; [|split; [|split]].
  - destruct Hx as [A B C D F]. constructor; auto.
    + eapply reg_unqueue; [exact C|exact Hev|apply C| |].
      * intros j Hj. cbn. destruct (decide (i = j)) as [->|]; [apply lookup_delete_eq|].
        rewrite lookup_delete_ne by done. eapply ri_disj; eauto.
      * intros j Hj. destruct (ri_rpc _ _ _ _ _ _ C _ Hj) as [H1 H2]. split; [done|].
        cbn. destruct (decide (i = j)) as [->|]; [apply lookup_delete_eq|].
        now rewrite lookup_delete_ne.
    + eapply buf_unqueue; [exact D|auto|exact Hsub|auto].
  - intros [Hj|[[cj Hj]|Hj]]; [auto| |auto]. cbn in Hj. rewrite lookup_delete_eq in Hj. discriminate.
  - intros p Hp. destruct (fit_own _ _ Hfit _ Hp) as [n Hn]. pose proof (inv_buf _ _ _ H) as D.
    destruct (bi_live _ _ _ _ _ D _ _ _ _ Hi Hn) as (l & Hl & _).
    split; [eexists; exact Hl|]. cbn. intros j cj b m [Hne Hj]%lookup_delete_Some Hb He.
    apply Hne. eapply bi_own; eauto.
  - constructor; auto; reflexivity.
Qed.

Lemma safe_deliver K X e : safe K X (deliver e).
Proof.
  intros w H. destruct e as [i status data bytes|level msg]; cbn [deliver]; apply wp_bind, wp_gets.
  - destruct (outst w !! i) as [c|] eqn:Hi; [|now apply safe_ret].
    apply wp_when; intros Hr; [|split; [exact H|reflexivity]].
    destruct (reply_allowed_inv _ _ _ _ Hr) as (Hall & Hrange & _).
    apply wp_bind. eapply wp_mono; [eapply write_reply_spec; eassumption|].
    intros [] w1 (H1 & E1 & R1 & P1 & L1). cbn beta.
    destruct (bi_out _ _ _ _ _ (inv_buf _ _ _ H) _ _ Hi) as (cb & Hcb & Hfit).
    assert (Hret : i ∈ retained (reg w)).
    { eapply ri_retained; [apply H|]. eauto with registry. }
    rewrite <- R1 in Hret, Hcb. rewrite <- L1 in Hi.
    destruct (unqueue_out K X i c cb w1 H1 Hi Hcb Hfit) as (H2 & Hnq & Hown & E2).
    apply wp_bind, wp_modify.
    eapply wp_mono; [eapply nfsCallback_spec; eassumption|]. intros [] w3 [H3 E3].
    split; [exact H3|]. etransitivity; [exact E1|]. etransitivity; eauto.
  - unfold logCallback. destruct (logRegistered (log w)) as [b|] eqn:Eb; [|now apply safe_ret].
    destruct msg as [msg|]; [|now apply safe_ret].
    apply wp_bind, wp_gets. rewrite decide_True.
    + apply wp_modify. split; [destruct H as [A B C D [F1 F2]]; constructor; auto; constructor; auto|].
      constructor; auto; reflexivity.
    + apply (inv_log _ _ _ H), (inv_log _ _ _ H), Eb.
Qed.

Lemma safe_run_callbacks K X : safe K X run_callbacks.
Proof.
  apply safe_bind; [apply safe_ask|]. intros es. apply safe_for_each. intros e. apply safe_deliver.
Qed.

Lemma safe_nfs_service K X : safe K X nfs_service.
Proof. apply safe_bind; [apply safe_run_callbacks|]. intros _. apply safe_ask. Qed.

Lemma safe_destroy_tail K X w : Inv K X w ->
  wp (modify (upd_lib (upd_outstanding (fun _ => ∅))) ;;
      modify (upd_log (upd_logRegistered (fun _ => None))))
     (fun _ w' => Inv K X w' /\ evo w w' /\ outst w' = ∅ /\ logRegistered (log w') = None) w.
Proof.
  intros H. apply wp_bind, wp_modify, wp_modify.
  assert (Hq : forall j, queued (pend w) ∅ (rpcq w) j -> queued (pend w) (outst w) (rpcq w) j).
  { intros j [?|[[? Hj]|?]]; [left; done| |right; right; done]. now rewrite lookup_empty in Hj. }
  split.
  - destruct H as [A B C D F]; constructor; auto; cbn.
    + eapply reg_unqueue; [exact C|exact Hq|apply C| |].
      * intros; apply lookup_empty.
      * intros j Hj. destruct (ri_rpc _ _ _ _ _ _ C _ Hj). split; [done|apply lookup_empty].
    + eapply buf_unqueue; [exact D|auto|apply map_empty_subseteq|auto].
    + constructor; [discriminate|apply F].
  - split; [constructor; auto; reflexivity|done].
Qed.

Lemma safe_unqueue_rpc K X : safe K X (modify (upd_lib (upd_rpcOutstanding (fun _ => None)))).
Proof.
  intros w H. apply wp_modify.
  assert (Hq : forall j, queued (pend w) (outst w) None j -> queued (pend w) (outst w) (rpcq w) j).
  { intros j [?|[?|[=]]]; [left; done|right; left; done]. }
  split.
  - destruct H as [A B C D F]; constructor; auto; cbn.
    + eapply reg_unqueue; [exact C|exact Hq|apply C|apply C|done].
    + eapply buf_unqueue; [exact D|auto|done|auto].
  - constructor; auto; reflexivity.
Qed.

Lemma safe_deliver_rpc K X e : safe K X (deliver_rpc e).
Proof.
  intros w H. unfold deliver_rpc. apply wp_bind, wp_gets.
  destruct (rpcq w) as [i|] eqn:Hi; [|now apply safe_ret].
  apply wp_when; intros Hall; [|split; [exact H|reflexivity]].
  assert (Hq : queued (pend w) (outst w) (rpcq w) i) by (rewrite Hi; eauto with registry).
  assert (Hret : i ∈ retained (reg w)) by (eapply ri_retained; [apply H|exact Hq]).
  destruct (bi_rpc _ _ _ _ _ (inv_buf _ _ _ H) _ Hi) as (cb & Hcb & Hh & Ht & Hc).
  destruct (ri_rpc _ _ _ _ _ _ (inv_reg _ _ _ H) _ Hi) as [Hnp Hno].
  apply wp_bind. eapply wp_mono; [apply wp_exact, (safe_unqueue_rpc K ({[i]} ∪ X)), Inv_take; eauto|].
  intros [] w1 [[H1 E1] Hw1]. cbn beta. injection Hw1 as <-.
  eapply wp_mono; [eapply rpcCallback_spec; [exact H1|exact Hret| |exact Hcb|exact Hh|exact Ht|exact Hc|exact Hall]|].
  - intros [Hj|[[? Hj]|[=]]]; [auto|]. cbn in Hj. congruence.
  - intros [] w2 [H2 E2]. split; [exact H2|]. etransitivity; eauto.
Qed.

Lemma safe_run_rpc_callbacks K X : safe K X run_rpc_callbacks.
Proof.
  apply safe_bind; [apply safe_ask|]. intros es. apply safe_for_each. intros e. apply safe_deliver_rpc.
Qed.

Lemma safe_rpc_service K X : safe K X rpc_service.
Proof. apply safe_bind; [apply safe_run_rpc_callbacks|]. intros _. apply safe_ask. Qed.

Lemma safe_rpc_destroy_context K X : safe K X rpc_destroy_context.
Proof. apply safe_bind; [apply safe_run_rpc_callbacks|]. intros _. apply safe_unqueue_rpc. Qed.

(** ** The export query *)

Lemma safe_rpcx K X f : (forall x, rpc_sources (f x) = rpc_sources x) ->
  safe K X (modify (upd_rpcx f)).
Proof.
  intros Hf w [A B C D F]. apply wp_modify. split; [|constructor; auto; reflexivity].
  constructor; auto. unfold src_inv in *. cbn. now rewrite Hf.
Qed.

Lemma keeps_cancelRpcExportsSources : keeps cancelRpcExportsSources.
Proof.
  intros w H. eapply wp_mono; [apply cancelRpcExportsSources_spec, H|].
  intros [] w' (H1 & S1 & _). auto.
Qed.

Lemma safe_cleanupRpcExports K X : safe K X cleanupRpcExports.
Proof.
  apply safe_bind; [apply safe_keeps, keeps_cancelRpcExportsSources|]. intros _.
  apply safe_bind; [apply safe_gets|]. intros rpc.
  apply safe_bind; [|intros _; apply safe_bind; [|intros _]; now apply safe_rpcx].
  destruct rpc; [|apply safe_ret]. apply safe_bind; [now apply safe_rpcx|].
  intros _. apply safe_rpc_destroy_context.
Qed.

Lemma safe_handleRpcExportsEvent K X : safe K X handleRpcExportsEvent.
Proof.
  apply safe_bind; [apply safe_gets|]. intros rpc. destruct rpc; [|apply safe_ret].
  apply safe_bind; [apply safe_rpc_service|]. intros result.
  apply safe_bind; [apply safe_gets|]. intros done.
  destruct done; [apply safe_cleanupRpcExports|].
  destruct (result <? 0); [apply safe_cleanupRpcExports|].
  apply safe_bind; [apply safe_ask|]. intros fd.
  apply safe_bind; [apply safe_when, safe_keeps, keeps_setupRpcExportsSources|]. intros _.
  apply safe_keeps, keeps_updateRpcExportsWriteSource.
Qed.

(** ** Timeouts *)

Lemma safe_time_out K X i : safe K X (time_out i).
Proof.
  intros w H. unfold time_out. apply wp_bind, wp_gets.
  case_decide as Hi; [|split; [exact H|reflexivity]].
  destruct (ri_active _ _ _ _ _ _ (inv_reg _ _ _ H) _ Hi) as (cb & Hcb & Hr).
  apply wp_bind. eapply wp_get_object; [exact Hcb|]. cbn beta.
  pose proof (Inv_take K X i w H (or_introl Hi)) as H0.
  apply wp_bind. eapply (wp_remove_continuation K ({[i]} ∪ X)); [exact H0|set_solver|].
  intros w1 H1 E1 Hna _.
  apply wp_bind. eapply wp_mono; [apply (recordCompletion_spec K ({[i]} ∪ X)), H1|].
  intros [] w2 (H2 & Q2 & R2 & _). cbn beta.
  eapply wp_mono; [apply (resume_spec K ({[i]} ∪ X) i (inl _)); [exact H2|set_solver|now rewrite R2|exact I]|].
  intros [] w3 (H3 & E3 & A3 & _ & _ & _ & _ & [(cb' & Hcb' & Hr') _ _ _]). split.
  - eapply Inv_drop; eauto. rewrite A3, R2. exact Hna.
  - etransitivity; [exact E1|]. etransitivity; [apply Q2|exact E3].
Qed.

Lemma safe_scanForTimeouts K X : safe K X scanForTimeouts.
Proof.
  apply safe_bind; [apply safe_gets|]. intros t. destruct (0 <? t); [|apply safe_ret].
  apply safe_bind; [apply safe_gets|]. intros clock.
  apply safe_bind; [apply safe_gets|]. intros l.
  apply safe_bind; [apply safe_for_each; intros; apply safe_time_out|]. intros _.
  apply safe_bind; [apply safe_gets|]. intros ex.
  apply safe_bind; [apply safe_gets|]. intros act.
  destruct ex; [|apply safe_ret]. apply safe_when, safe_cleanupRpcExports.
Qed.

(** ** Shutting down *)

Lemma resumed_evo w w' i cb : evo w w' -> objects (reg w) !! i = Some cb -> hasResumed cb = true ->
  exists cb', objects (reg w') !! i = Some cb' /\ hasResumed cb' = true.
Proof. intros Ev Hcb Hr. destruct (ev_objects _ _ Ev _ _ Hcb); eauto. Qed.

(** Everything in the snapshot is resumed. *)
Lemma resume_list_spec K X e l : forall w, Inv K X w -> active w = ∅ ->
  (forall i, In i l -> i ∈ X) ->
  wp (for_each l (fun i => resume i (inl e)))
     (fun _ w' => Inv K X w' /\ evo w w' /\ active w' = ∅ /\ pipe w' = pipe w /\ lib w' = lib w /\
        forall i, In i l -> exists cb, objects (reg w') !! i = Some cb /\ hasResumed cb = true) w.
Proof.
  induction l as [|i l IH]; intros w H Hna Hl; cbn [for_each].
  { apply wp_ret. splits; auto; [reflexivity|intros i []]. }
  apply wp_bind. eapply wp_mono; [apply (resume_spec K X i (inl e)); [exact H| | |exact I]|].
  - apply Hl. now left.
  - rewrite Hna. set_solver.
  - intros [] w1 (H1 & E1 & A1 & P1 & L1 & _ & _ & [(cb & Hcb & Hr) _ _ _]). cbn beta.
    eapply wp_mono; [apply (IH w1 H1); [congruence|intros; apply Hl; now right]|].
    intros [] w2 (H2 & E2 & A2 & P2 & L2 & R2).
    splits; auto; try congruence; [etransitivity; eauto|].
    intros j [<-|Hj]; [|auto]. eapply resumed_evo; eauto.
Qed.

Lemma resume_all_spec K X conts e w : Inv K (conts ∪ X) w -> active w = ∅ ->
  wp (resume_all conts e)
     (fun _ w' => Inv K X w' /\ evo w w' /\ active w' = ∅ /\ pipe w' = pipe w /\ lib w' = lib w /\
        forall i, i ∈ conts -> exists cb, objects (reg w') !! i = Some cb /\ hasResumed cb = true) w.
Proof.
  intros H Hna. unfold resume_all.
  assert (Hin : forall i, In i (dict_order (elements conts)) <-> i ∈ conts).
  { intros i. rewrite <- list_elem_of_In, (dict_order_perm (elements conts)). apply elem_of_elements. }
  eapply wp_mono; [apply (resume_list_spec K (conts ∪ X) e); [exact H|exact Hna|]|].
  - intros i Hi. apply Hin in Hi. set_solver.
  - intros [] w' (H1 & E1 & A1 & P1 & L1 & R1).
    assert (R2 : forall i, i ∈ conts -> exists cb, objects (reg w') !! i = Some cb /\ hasResumed cb = true)
      by (intros i Hi; apply R1, Hin, Hi).
    splits; auto. destruct H1 as [A B C D F]; constructor; auto. eapply reg_drop_set; eauto.
Qed.

(** The context is gone: no command of it remains queued. *)
Lemma destroy_context_spec K X w : Inv K X w ->
  wp destroy_context (fun _ w' => Inv K X w' /\ evo (upd_context (fun _ => None) w) w' /\
    (context w <> None -> outst w' = ∅ /\ logRegistered (log w') = None)) w.
Proof.
  intros H. unfold destroy_context. apply wp_bind, wp_gets. destruct (context w) eqn:Ec.
  - apply wp_bind, wp_modify. set (w1 := upd_context _ w).
    assert (H1 : Inv K X w1) by (destruct H; constructor; auto).
    unfold nfs_destroy_context. apply wp_bind.
    eapply wp_mono; [apply (safe_run_callbacks K X), H1|]. intros [] w2 [H2 E2]. cbn beta.
    pose proof (safe_destroy_tail K X w2 H2) as H3.
    eapply wp_mono; [exact H3|]. intros [] w3 (I3 & E3 & O3 & L3).
    split; [exact I3|]. split; [etransitivity; eauto|auto].
  - apply wp_ret. split; [exact H|]. split; [|done].
    constructor; auto. 
Qed.

End Specs.
