(* ===== verification/EventLoopSafe.v ===== *)
(** * Every block of the queue is safe

    The methods that callers and the run time invoke, one by one: started
    between two blocks they do not trap, and they end between two blocks. *)

From Stdlib Require Import Strings.Byte.
From stdpp Require Import base list gmap strings.
From S2P Require Import Prelude Posix PipelineController Memory CType LibnfsApi.
From S2P Require Import StateMonad DispatchSource OperationType EventLoopState EventLoop.
From S2P Require Import SourceInv SourceSpecs RegistryInv BufferInv EventLoopInv.

Open Scope Z_scope.
Open Scope monad_scope.

(** Between two blocks nothing is in anybody's hands, and with a destroyed context nothing
    is logged and nobody waits. *)
Record Idle (w : World) : Prop := mkIdle {
  idle_inv : Inv None ∅ w;
  idle_log : context w = None -> logRegistered (log w) = None;
  idle_closed : context w = None -> active w = ∅
}.

(** Outcomes are final and continuations are never renamed. *)
Record grows (w w' : World) : Prop := mkGrows {
  gr_outcomes : outcomes (reg w) ⊆ outcomes (reg w');
  gr_call : nextCall (reg w') = nextCall (reg w)
}.

#[export] Instance grows_preorder : PreOrder grows.
Proof.
  split; [intros w; constructor; reflexivity|].
  intros w1 w2 w3 [A1 A2] [B1 B2]; constructor; [etransitivity; eauto|congruence].
Qed.

Lemma evo_grows w w' : evo w w' -> grows w w'.
Proof. intros Ev; constructor; apply Ev. Qed.

Lemma evo_idle_log w w' : evo w w' -> (context w = None -> logRegistered (log w) = None) ->
  context w' = None -> logRegistered (log w') = None.
Proof.
  intros Ev H Hc. rewrite (ev_context _ _ Ev) in Hc. destruct (ev_log _ _ Ev) as [->|]; auto.
Qed.

Lemma evo_idle_closed w w' : evo w w' -> (context w = None -> active w = ∅) -> context w' = None -> active w' = ∅.
Proof.
  intros Ev H Hc. rewrite (ev_context _ _ Ev) in Hc. pose proof (ev_active _ _ Ev) as Ha. rewrite (H Hc) in Ha. set_solver.
Qed.

(** The end of a method: idle again, and grown. *)
Abbreviation ends w := (fun _ w' => Idle w' /\ grows w w').

Section Safe.
Context `{E : Env} (HEX : exports_listed).

Lemma safe_ends {A} (m : M World A) w : safe None ∅ m -> Idle w -> wp m (ends w) w.
Proof.
  intros Hm [H L C]. eapply wp_mono; [apply Hm, H|]. intros a w' [H1 E1].
  split; [|now apply evo_grows]. constructor; [exact H1|exact (evo_idle_log _ _ E1 L)|exact (evo_idle_closed _ _ E1 C)].
Qed.

(** ** Shutting down *)

(** What a shutdown leaves. *)
Record closed_down (w : World) : Prop := mkClosed {
  cd_context : context w = None;
  cd_active : active w = ∅;
  cd_pend : pend w = []
}.

Definition cleared (w : World) : World :=
  upd_pipe (upd_pendingOperations (fun _ => []))
    (upd_reg (upd_activeContinuations (fun _ => ∅)) w).

Lemma Inv_clear K w : Inv K ∅ w -> Inv K (active w ∪ ∅) (cleared w).
Proof.
  intros [A [B1 B2 B3 B4] C D F].
  assert (Hq : forall j, queued [] (outst w) (rpcq w) j -> queued (pend w) (outst w) (rpcq w) j).
  { intros j [[]|[?|?]]; [right; left; done|right; right; done]. }
  constructor; auto.
  - constructor; auto. cbn. unfold maxPendingOperations. lia.
  - cbn. apply reg_clear_active. eapply reg_unqueue; [exact C|exact Hq|constructor|intros j []|].
    intros j Hj. destruct (ri_rpc _ _ _ _ _ _ C _ Hj). split; [intros []|done].
  - cbn. eapply buf_unqueue; [exact D|intros op []|done|auto].
Qed.

(** Clearing, destroying, and resuming everything that was waiting. *)
Lemma drain_spec K e w : Inv K ∅ w ->
  wp (destroy_context ;; resume_all (active w) e)
     (fun _ w' => Inv K ∅ w' /\ grows w w' /\ closed_down w' /\
        (context w <> None -> outst w' = ∅ /\ logRegistered (log w') = None) /\
        (logRegistered (log w') = logRegistered (log w) \/ logRegistered (log w') = None)) (cleared w).
Proof.
  intros H. set (w1 := cleared w). pose proof (Inv_clear K w H) as H1. fold w1 in H1.
  apply wp_bind. eapply wp_mono; [apply (destroy_context_spec HEX K (active w ∪ ∅)), H1|].
  intros [] w2 (H2 & E2 & O2). cbn beta.
  assert (A2 : active w2 = ∅).
  { apply leibniz_equiv, equiv_empty. exact (ev_active _ _ E2). }
  eapply wp_mono; [apply (resume_all_spec HEX K ∅ (active w) e w2 H2 A2)|].
  intros [] w3 (H3 & E3 & A3 & P3 & L3 & _).
  split; [exact H3|]. split; [|split; [|split]].
  - transitivity w1; [constructor; reflexivity|].
    transitivity (upd_context (fun _ => None) w1); [constructor; reflexivity|].
    etransitivity; [apply evo_grows, E2|apply evo_grows, E3].
  - constructor; [|exact A3|].
    + rewrite (ev_context _ _ E3). exact (ev_context _ _ E2).
    + rewrite P3. pose proof (ev_pend _ _ E2) as Hp. cbn in Hp. now apply sublist_nil_r.
  - intros Hc. destruct (O2 Hc) as [O L]. split; [congruence|].
    destruct (ev_log _ _ E3) as [->|]; auto.
  - destruct (ev_log _ _ E3) as [->|]; [|auto]. exact (ev_log _ _ E2).
Qed.

Lemma keeps_cancelTimeoutTimer : keeps cancelTimeoutTimer.
Proof. intros w H. apply wp_modify. split; [exact H|constructor; reflexivity]. Qed.

Lemma safe_isRunning K X b : safe K X (modify (upd_isRunning (fun _ => b))).
Proof. intros w []. apply wp_modify. split; constructor; auto; reflexivity. Qed.

Lemma shutdownWithError_spec e w : Idle w -> context w <> None ->
  wp (shutdownWithError e) (fun _ w' => Idle w' /\ grows w w' /\ closed_down w' /\ outst w' = ∅) w.
Proof.
  intros [H L _] Hc. unfold shutdownWithError.
  apply wp_bind. eapply wp_mono; [apply safe_isRunning, H|]. intros [] w1 [H1 E1]. cbn beta.
  apply wp_bind. eapply wp_mono; [apply (safe_keeps None ∅), H1; apply keeps_cancelSources|].
  intros [] w2 [H2 E2]. cbn beta.
  apply wp_bind. eapply wp_mono; [apply (safe_keeps None ∅), H2; apply keeps_cancelTimeoutTimer|].
  intros [] w3 [H3 E3]. cbn beta.
  apply wp_bind, wp_gets, wp_bind, wp_modify, wp_bind, wp_modify.
  eapply wp_mono; [apply (drain_spec None e w3), H3|]. intros [] w4 (H4 & G4 & C4 & O4 & _).
  assert (E13 : evo w w3) by (etransitivity; [exact E1|]; etransitivity; eauto).
  destruct O4 as [O4 L4]; [now rewrite (ev_context _ _ E13)|].
  split; [constructor; auto; intros _; apply C4|]. split; [|auto]. etransitivity; [apply evo_grows, E13|exact G4].
Qed.

Lemma release_box_spec b (Q : unit -> World -> Prop) w : b ∈ boxes (log w) ->
  Q tt (upd_log (upd_boxes (fun s => s ∖ {[b]})) w) -> wp (release_box b) Q w.
Proof.
  intros H HQ. unfold release_box. wp_steps. rewrite decide_True by done. wp_steps. exact HQ.
Qed.

(** A change of the log fields. *)
Lemma Inv_log K X f w : Inv K X w -> log_inv (f (log w)) -> Inv K X (upd_log f w).
Proof. intros [] H; constructor; auto. Qed.

Lemma release_log_box_spec w : Idle w ->
  wp release_log_box (fun _ w' => Inv None ∅ w' /\ evo w w') w.
Proof.
  intros [H L _]. unfold release_log_box. apply wp_bind, wp_gets.
  destruct (logHandlerBoxPtr (log w)) as [b|] eqn:Eb; [|split; [exact H|reflexivity]].
  pose proof (inv_log _ _ _ H) as [L1 L2].
  apply wp_bind, wp_gets, wp_bind. case_bool_decide as Hc.
  - apply wp_modify, wp_bind, release_box_spec; [now apply L2|]. apply wp_modify.
    split; [destruct H; constructor; auto; constructor; discriminate|constructor; auto; reflexivity].
  - apply wp_ret, wp_bind, release_box_spec; [now apply L2|]. apply wp_modify.
    assert (Hn : logRegistered (log w) = None) by (apply L; now apply eq_None_not_Some).
    split; [|constructor; auto; reflexivity].
    destruct H; constructor; auto. constructor; cbn; [rewrite Hn|]; discriminate.
Qed.

(** The last lines of [performShutdown]. *)
Lemma safe_reset_pipeline K X : safe K X
  (set_controller bulk Pipeline.reset ;; set_controller metadata Pipeline.reset ;;
   set_inFlight bulk (fun _ => 0) ;; set_inFlight metadata (fun _ => 0)).
Proof.
  apply safe_bind; [apply safe_set_controller, controller_inv_reset|]. intros _.
  apply safe_bind; [apply safe_set_controller, controller_inv_reset|]. intros _.
  apply safe_bind; [apply safe_set_inFlight; lia|]. intros _. apply safe_set_inFlight; lia.
Qed.

Lemma performShutdown_spec w : Idle w ->
  wp performShutdown (fun _ w' => Idle w' /\ grows w w' /\ context w' = None /\ active w' = ∅) w.
Proof.
  intros [H L A]. unfold performShutdown. apply wp_bind, wp_gets, wp_bind, wp_gets.
  destruct (_ || _) eqn:Eg.
  2: { apply orb_false_iff in Eg as [G1 G2]. apply bool_decide_eq_false_1 in G1.
       apply negb_false_iff, bool_decide_eq_true_1 in G2.
       split; [constructor; auto|]. split; [reflexivity|]. split; [|done].
       now apply eq_None_not_Some. }
  clear Eg.
  apply wp_bind. eapply wp_mono; [apply safe_isRunning, H|]. intros [] w1 [H1 E1]. cbn beta.
  apply wp_bind. eapply wp_mono; [apply (safe_keeps None ∅), H1; apply keeps_cancelSources|].
  intros [] w2 [H2 E2]. cbn beta.
  apply wp_bind. eapply wp_mono; [apply (safe_cleanupRpcExports HEX None ∅), H2|].
  intros [] w3 [H3 E3]. cbn beta.
  apply wp_bind. eapply wp_mono; [apply (safe_keeps None ∅), H3; apply keeps_cancelTimeoutTimer|].
  intros [] w4 [H4 E4]. cbn beta.
  assert (E14 : evo w w4) by (etransitivity; [exact E1|]; etransitivity; [exact E2|]; etransitivity; eauto).
  apply wp_bind. eapply wp_mono; [apply release_log_box_spec; constructor; [exact H4|exact (evo_idle_log _ _ E14 L)|exact (evo_idle_closed _ _ E14 A)]|].
  intros [] w5 [H5 E5]. cbn beta.
  assert (E15 : evo w w5) by (etransitivity; eauto).
  apply wp_bind, wp_gets, wp_bind, wp_modify, wp_bind, wp_modify, wp_bind, wp_modify.
  set (w6 := upd_handles (fun x => upd_handleRegistry (fun _ => ∅) x) w5).
  assert (H6 : Inv None ∅ w6) by (destruct H5; constructor; auto).
  assert (Hdr := drain_spec None (posix_error ENOTCONN "Event loop shut down") w6 H6).
  apply wp_bind_assoc, wp_bind. eapply wp_mono; [exact Hdr|].
  intros [] w7 (H7 & G7 & C7 & O7 & L7). cbn beta.
  eapply wp_mono; [apply (safe_reset_pipeline None ∅), H7|]. intros [] w8 [H8 E8].
  assert (Hlog6 : context w6 = None -> logRegistered (log w6) = None) by exact (evo_idle_log _ _ E15 L).
  split; [|split; [|split]].
  - assert (A8 : active w8 = ∅).
    { apply leibniz_equiv, equiv_empty. rewrite (ev_active _ _ E8). now rewrite (cd_active _ C7). }
    constructor; [exact H8| |intros _; exact A8]. intros _.
    assert (L7' : logRegistered (log w7) = None).
    { destruct (context w6) eqn:E6; [now apply O7|]. destruct L7 as [->|]; auto. }
    destruct (ev_log _ _ E8) as [->|]; auto.
  - etransitivity; [apply evo_grows, E15|]. transitivity w6; [constructor; reflexivity|].
    etransitivity; [exact G7|apply evo_grows, E8].
  - rewrite (ev_context _ _ E8). apply C7.
  - apply leibniz_equiv, equiv_empty. rewrite (ev_active _ _ E8). now rewrite (cd_active _ C7).
Qed.

(** ** I/O *)

Lemma safe_check_socket K X fd : safe K X (check_socket fd).
Proof.
  unfold check_socket. destruct (0 <=? fd); [|apply safe_ret].
  apply safe_bind; [apply safe_keeps, keeps_socketIno|]. intros ino.
  apply safe_bind; [apply safe_gets|]. intros cur.
  apply safe_bind; [apply safe_gets|]. intros ino'.
  destruct (negb _); [|apply safe_when]; apply safe_keeps, keeps_setupSources.
Qed.

Lemma handleIOEvent_spec w : Idle w -> wp handleIOEvent (ends w) w.
Proof.
  intros [H L A]. unfold handleIOEvent. apply wp_bind, wp_gets. destruct (context w) eqn:Ec.
  2: { split; [constructor; auto|reflexivity]. }
  apply wp_bind. eapply wp_mono; [apply (safe_nfs_service HEX None ∅), H|].
  intros rc w1 [H1 E1]. cbn beta.
  assert (Hc1 : context w1 <> None) by (rewrite (ev_context _ _ E1); congruence).
  destruct (rc <? 0).
  - apply wp_bind, wp_ask. cbn beta.
    eapply wp_mono; [apply shutdownWithError_spec; [|exact Hc1]|].
    + constructor; [now apply Inv_tick|done..].
    + intros [] w2 (I2 & G2 & _). split; [exact I2|].
      etransitivity; [apply evo_grows, E1|]. etransitivity; [|exact G2]. constructor; reflexivity.
  - eapply wp_mono; [apply safe_ends; [|constructor; [exact H1|done..]]|].
    + apply safe_bind; [apply safe_ask|]. intros fd. apply safe_bind.
      * apply safe_check_socket.
      * intros _. apply safe_bind; [apply safe_keeps, keeps_updateWriteSource|]. intros _ w2 H2.
        eapply wp_mono; [apply (issuePendingOperations_spec None ∅), H2|]. intros [] w3 (H3 & P3 & _).
        split; [exact H3|apply P3].
    + intros [] w2 [I2 G2]. split; [exact I2|]. etransitivity; [apply evo_grows, E1|exact G2].
Qed.

Lemma closeFileFireAndForget_spec h w : Idle w -> wp (closeFileFireAndForget h) (ends w) w.
Proof.
  intros I. unfold closeFileFireAndForget. apply wp_bind, wp_gets.
  destruct (handleRegistry (handles w) !! h); [|split; [exact I|reflexivity]].
  apply wp_bind, wp_modify. set (w1 := upd_handles _ w).
  assert (I1 : Idle w1) by (destruct I as [[] L A]; constructor; [constructor; auto|exact L|exact A]).
  apply wp_bind, wp_gets.
  eapply wp_mono; [apply safe_ends; [|exact I1]|].
  - apply safe_when. apply safe_bind; [|intros _; apply safe_run_callbacks, HEX].
    intros w2 []. apply wp_modify. split; [constructor; auto|constructor; auto; reflexivity].
  - intros [] w2 [I2 G2]. split; [exact I2|]. transitivity w1; [constructor; reflexivity|exact G2].
Qed.

Lemma setLogHandler_spec b w : Idle w -> wp (setLogHandler b) (ends w) w.
Proof.
  intros [H L A]. pose proof (inv_log _ _ _ H) as [L1 L2]. unfold setLogHandler.
  apply wp_bind, wp_gets.
  assert (Hold : wp (match logHandlerBoxPtr (log w) with
      | Some b => release_box b ;; modify (upd_log (upd_logHandlerBoxPtr (fun _ => None)))
      | None => ret tt end)
    (fun _ w' => exists s, w' = upd_log (fun l => mkLog None s (nextBox l) (logRegistered l) (logged l)) w) w).
  { destruct (logHandlerBoxPtr (log w)) as [x|] eqn:Ex.
    - apply wp_bind, release_box_spec; [now apply L2|]. apply wp_modify. eexists; reflexivity.
    - apply wp_ret. exists (boxes (log w)). destruct w as [? ? ? ? ? ? ? ? [] ? ? ? ?]. cbn in Ex.
      subst. reflexivity. }
  apply wp_bind. eapply wp_mono; [exact Hold|]. intros [] w1 [s ->]. cbn beta.
  apply wp_bind, wp_gets. cbn [context upd_log]. destruct H. destruct (context w) eqn:Ec.
  - destruct b.
    + apply wp_bind, wp_gets, wp_bind, wp_modify, wp_bind, wp_modify, wp_bind, wp_modify, wp_modify.
      split; [|constructor; reflexivity]. constructor; [constructor; auto|cbn; congruence|cbn; congruence].
      constructor; cbn; [auto|]. intros b [= <-]. set_solver.
    + apply wp_modify. split; [|constructor; reflexivity].
      constructor; [constructor; auto; constructor; discriminate|done|cbn; congruence].
  - apply wp_ret. split; [|constructor; reflexivity].
    specialize (L eq_refl). constructor; [constructor; auto|intros _; exact L|intros _; exact (A eq_refl)].
    constructor; cbn; [rewrite L|]; discriminate.
Qed.

(** ** Calls of the API

    [k] is the caller's continuation, not yet resumed or stored. *)

(** There is an identifier left: 2^64 - 2 operations may be made in all. *)
Definition ids_left (w : World) : Prop := nextContinuationID (reg w) + 1 < 2 ^ 64.

(** What a call may change beside the invariant. *)
Record answers (w w' : World) : Prop := mkAnswers {
  an_grows : grows w w';
  an_context : context w' = context w;
  an_log : logRegistered (log w') = logRegistered (log w) \/ logRegistered (log w') = None
}.

#[local] Instance answers_preorder : PreOrder answers.
Proof.
  split; [intros w; constructor; auto; reflexivity|].
  intros w1 w2 w3 [A1 A2 A3] [B1 B2 B3]; constructor; [etransitivity; eauto|congruence|].
  destruct B3 as [->|]; auto.
Qed.

Lemma evo_answers w w' : evo w w' -> answers w w'.
Proof. intros Ev; constructor; [now apply evo_grows|apply Ev|apply Ev]. Qed.

(** A call is over: the continuation was resumed, or an object holds it. *)
Abbreviation answered w := (fun _ w' => Inv None ∅ w' /\ answers w w').

Lemma wp_answered {A} (m : M World A) w w1 :
  answers w w1 -> wp m (answered w1) w1 -> wp m (answered w) w1.
Proof.
  intros Ha Hm. eapply wp_mono; [exact Hm|]. intros a w2 [H2 A2]. split; [exact H2|].
  etransitivity; eauto.
Qed.

Lemma resume_hand_spec k o w : Inv (Some k) ∅ w -> wp (cont_resume k o) (answered w) w.
Proof.
  intros H. destruct (ri_hand _ _ _ _ _ _ (inv_reg _ _ _ H) _ eq_refl) as (Hn & _).
  apply wp_cont_resume; [exact Hn|]. split.
  - destruct H as [A B C D F]; constructor; auto. now apply reg_resume_hand.
  - constructor; auto. constructor; [now apply insert_subseteq|reflexivity].
Qed.

(** The new object of a call, and what is known of it. *)
Record fresh_object (i : Z) (cb : CallbackData) (w : World) : Prop := mkFresh {
  fo_active : i ∈ active w;
  fo_object : objects (reg w) !! i = Some cb;
  fo_unresumed : hasResumed cb = false;
  fo_unqueued : ~ queued (pend w) (outst w) (rpcq w) i
}.

Lemma wp_next_id K X (Q : Z -> World -> Prop) w : Inv K X w -> ids_left w ->
  (forall w', w' = upd_reg (upd_nextContinuationID (fun n => n + 1)) w -> Inv K X w' ->
     nextContinuationID (reg w') = nextContinuationID (reg w) + 1 ->
     Q (nextContinuationID (reg w)) w') ->
  wp next_continuation_id Q w.
Proof.
  intros H Hid HQ. unfold next_continuation_id. apply wp_bind, wp_gets.
  rewrite (proj2 (Z.ltb_lt _ _) Hid). apply wp_bind, wp_modify, wp_ret. apply HQ; [done| |done].
  destruct H as [A B C D F]; constructor; auto. now apply reg_next_id.
Qed.

Lemma wp_new_callback k i c h t ex buf (Q : unit -> World -> Prop) w :
  Inv (Some k) ∅ w -> i + 1 = nextContinuationID (reg w) -> objects (reg w) !! i = None ->
  ~ queued (pend w) (outst w) (rpcq w) i ->
  (forall w', let cb := mkCallbackData c (now w) h k t ex false buf in
     w' = upd_reg (fun r => upd_activeContinuations (fun s => {[i]} ∪ s)
                              (upd_objects <[i := cb]> r)) w ->
     Inv None ∅ w' -> fresh_object i cb w' -> Q tt w') ->
  wp (new_callback i c h k t ex buf) Q w.
Proof.
  intros H Hid Hnew Hnq HQ. unfold new_callback.
  apply wp_bind, wp_gets, wp_bind, wp_modify, wp_modify. eapply HQ; [reflexivity| |].
  - destruct H as [A B C D F]; constructor; auto.
    + cbn. apply reg_new_object; auto.
    + cbn. now apply buf_new_object.
  - constructor; cbn; [set_solver|apply lookup_insert_eq|done|exact Hnq].
Qed.

(** Identifier and object together. *)
Lemma wp_new_operation k c h t ex (body : Z -> M World unit) buf (Q : unit -> World -> Prop) w :
  Inv (Some k) ∅ w -> ids_left w ->
  (forall w', let i := nextContinuationID (reg w) in
     let cb := mkCallbackData c (now w) h k t ex false buf in
     Inv None ∅ w' -> fresh_object i cb w' -> grows w w' -> context w' = context w ->
     log w' = log w -> heap w' = heap w -> outst w' = outst w -> pipe w' = pipe w ->
     (forall j, objects (reg w') !! j = if decide (i = j) then Some cb else objects (reg w) !! j) ->
     wp (body i) Q w') ->
  wp (i <- next_continuation_id ;; new_callback i c h k t ex buf ;; body i) Q w.
Proof.
  intros H Hid HQ. destruct (reg_fresh _ _ _ _ _ _ (inv_reg _ _ _ H)) as (Hnew & Hnq & _).
  apply wp_bind. eapply wp_next_id; [exact H|exact Hid|]. intros w1 -> H1 Hn1.
  apply wp_bind. eapply wp_new_callback; [exact H1|lia|exact Hnew|exact Hnq|].
  intros w2 cb -> H2 F2. apply HQ; auto; [constructor; reflexivity|].
  intros j. cbn. case_decide as Hj; [subst; apply lookup_insert_eq|now apply lookup_insert_ne].
Qed.

(** [passRetained] of the new object. *)
Lemma wp_retain i cb (Q : unit -> World -> Prop) w : Inv None ∅ w -> fresh_object i cb w ->
  (forall w', w' = upd_reg (upd_retained (fun s => {[i]} ∪ s)) w -> Inv None ∅ w' ->
     fresh_object i cb w' -> i ∈ retained (reg w') -> Q tt w') ->
  wp (pass_retained i) Q w.
Proof.
  intros H [F1 F2 F3 F4] HQ. apply wp_modify. apply HQ; [done| | |cbn; set_solver].
  - destruct H as [A B C D F]; constructor; auto. cbn. now apply reg_retain.
  - constructor; auto.
Qed.

(** Giving up a fresh object puts its continuation in hand again. *)
Lemma drop_continuation_spec i cb (Q : unit -> World -> Prop) w : Inv None ∅ w ->
  fresh_object i cb w ->
  (forall w', Inv (Some (continuation cb)) ∅ w' -> answers w w' ->
     heap w' = heap w -> outst w' = outst w -> Q tt w') ->
  wp (drop_continuation i) Q w.
Proof.
  intros H [F1 F2 F3 F4] HQ. unfold drop_continuation, remove_continuation.
  apply wp_bind, wp_modify, wp_modify. apply HQ; [|constructor; auto; constructor; reflexivity|done|done].
  destruct H as [A B C D F]; constructor; auto; cbn.
  - eapply reg_forget; eauto; set_solver.
  - eapply buf_forget; eauto.
Qed.

(** [release] of a fresh object that libnfs refused. *)
Lemma release_fresh_spec i cb (Q : unit -> World -> Prop) w : Inv None ∅ w ->
  fresh_object i cb w -> i ∈ retained (reg w) ->
  (forall w', Inv None ∅ w' -> fresh_object i cb w' -> answers w w' -> Q tt w') ->
  wp (release i) Q w.
Proof.
  intros H [F1 F2 F3 F4] Hr HQ. apply wp_release; [exact Hr|]. apply HQ.
  - destruct H as [A B C D F]; constructor; auto. now apply reg_release.
  - constructor; auto.
  - constructor; auto. constructor; reflexivity.
Qed.

(** The direct way out: release, forget, throw libnfs's error at the caller. *)
Lemma refuse_spec i cb w : Inv None ∅ w -> fresh_object i cb w -> i ∈ retained (reg w) ->
  async_rc i < 0 ->
  wp (release i ;; drop_continuation i ;; e <- call_error (async_rc i) ;;
      cont_resume (continuation cb) (Threw e)) (answered w) w.
Proof.
  intros H F Hr Hrc. apply wp_bind. eapply release_fresh_spec; [exact H|exact F|exact Hr|].
  intros w1 H1 F1 A1. apply wp_bind. eapply drop_continuation_spec; [exact H1|exact F1|].
  intros w2 H2 A2 _ _. apply wp_bind, wp_call_error; [exact Hrc|]. intros e.
  apply (wp_answered _ w (upd_lib (upd_tick S) w2)).
  - etransitivity; [exact A1|]. etransitivity; [exact A2|]. apply evo_answers, evo_tick.
  - apply resume_hand_spec. now apply Inv_tick.
Qed.

(** A refused call changes nothing but the log of calls. *)
Lemma called_refused i c w : async_rc i < 0 ->
  called i c w = upd_lib (upd_issued (fun l => l ++ [(i, c)])) w.
Proof.
  intros H. unfold called. now rewrite (proj2 (Z.leb_gt 0 (async_rc i))) by lia.
Qed.

Lemma Inv_issued K X f w : Inv K X w -> Inv K X (upd_lib (upd_issued f) w).
Proof. intros []; constructor; auto. Qed.

Lemma answers_issued f w : answers w (upd_lib (upd_issued f) w).
Proof. constructor; auto. constructor; reflexivity. Qed.

(** The call is accepted: one more in flight. *)
Lemma accept_spec i c cmd cb w : Inv None ∅ w -> fresh_object i cb w -> i ∈ retained (reg w) ->
  fits cmd cb -> buffer_ready cmd cb w ->
  wp (set_inFlight c (fun n => n + 1) ;; updateWriteSource) (answered w) (called i cmd w).
Proof.
  intros H [F1 F2 F3 F4] Hr Hf Hb.
  assert (H1 : Inv None ∅ (called i cmd w)) by (eapply Inv_called; eauto).
  apply wp_bind. unfold set_inFlight. apply wp_modify.
  eapply wp_mono; [apply (updateWriteSource_frame None ∅), Inv_inFlight; [exact H1|]|].
  - change (inFlight c (called i cmd w)) with (inFlight c w).
    pose proof (inFlight_nonneg _ _ c _ H). lia.
  - intros [] w2 [H2 S2]. split; [exact H2|]. destruct S2.
    constructor; [constructor; now rewrite sc_reg|exact sc_context|left; now rewrite sc_log].
Qed.

Lemma start_call_spec i c cmd cb w : Inv None ∅ w -> fresh_object i cb w ->
  fits cmd cb -> buffer_ready cmd cb w ->
  wp (start_call (continuation cb) i c cmd (cleanup cb)) (answered w) w.
Proof.
  intros H F Hf Hb. unfold start_call. apply wp_bind.
  eapply wp_retain; [exact H|exact F|]. intros w1 Ew1 H1 F1 Hr.
  assert (A1 : answers w w1) by (rewrite Ew1; constructor; [constructor; reflexivity|done|now left]).
  assert (Hb1 : buffer_ready cmd cb w1) by (rewrite Ew1; exact Hb). clear Ew1.
  apply (wp_answered _ w w1 A1). apply wp_bind, wp_call_async.
  destruct (async_rc i <? 0) eqn:Erc.
  - apply Z.ltb_lt in Erc. rewrite (called_refused _ _ _ Erc). set (w2 := upd_lib _ w1).
    apply (wp_answered _ w1 w2); [apply answers_issued|].
    assert (H2 : Inv None ∅ w2) by now apply Inv_issued.
    assert (F2 : fresh_object i cb w2) by (destruct F1; constructor; auto).
    assert (Hfree : wp (match cleanup cb with Some p => free p | None => ret tt end)
      (fun _ w3 => Inv None ∅ w3 /\ fresh_object i cb w3 /\ i ∈ retained (reg w3) /\ answers w2 w3) w2).
    { destruct (cleanup cb) as [p|] eqn:Ec.
      2: { apply wp_ret. split; [exact H2|]. split; [exact F2|]. split; [exact Hr|reflexivity]. }
      destruct Hb1 as [Hb1 Hb2]. destruct (fit_own _ _ Hf _ Ec) as [n Hn].
      destruct (Hb1 _ _ Hn) as [(l & Hl & _) _].
      destruct (deallocate_live p (heap w2)) as (m & Hm & _); [eexists; exact Hl|].
      eapply wp_mem_op; [exact Hm|]. split; [|split; [|split; [exact Hr|]]].
      - destruct H2 as [A B C D G]; constructor; auto. eapply buf_free; eauto.
      - destruct F2; constructor; auto.
      - constructor; auto. constructor; reflexivity. }
    apply wp_bind. eapply wp_mono; [exact Hfree|]. intros [] w3 (H3 & F3 & R3 & A3). cbn beta.
    apply (wp_answered _ w2 w3 A3). now apply refuse_spec.
  - now apply (accept_spec i c cmd cb).
Qed.

(** A handler that owns no buffer fits a command without one. *)
Lemma fits_plain cmd c t h k ex : handler_for cmd h -> (forall p, h <> HRead p) ->
  fits cmd (mkCallbackData c t h k (handler_type h) ex false None).
Proof. intros H1 H2. constructor; cbn; [done|done|discriminate| |done]. intros p Hp. destruct (H2 _ Hp). Qed.

Lemma wait_spec i cb t cmd w : Inv None ∅ w -> fresh_object i cb w -> fits cmd cb ->
  command_buffer cmd = None -> Z.of_nat (length (pend w)) < maxPendingOperations ->
  wp (pass_retained i ;;
      modify (upd_pipe (upd_pendingOperations (fun l => l ++ [mkPending i t cmd]))))
     (answered w) w.
Proof.
  intros H F Hf Hb Hcap. apply wp_bind. eapply wp_retain; [exact H|exact F|].
  intros w1 Ew1 H1 [F1 F2 F3 F4] Hr.
  assert (Hc1 : Z.of_nat (length (pend w1)) < maxPendingOperations) by (rewrite Ew1; exact Hcap).
  apply (wp_answered _ w w1).
  { rewrite Ew1. constructor; [constructor; reflexivity|done|now left]. }
  clear Ew1 H F Hcap w. apply wp_modify. split.
  2: { constructor; [constructor; reflexivity|done|now left]. }
  destruct H1 as [A [B1 B2 B3 B4] C D G]. constructor; auto.
  - constructor; auto. cbn. rewrite length_app. cbn. lia.
  - cbn. eapply reg_queue_gen; [exact C|exact Hr|eauto|auto| | | |].
    + intros j [Hj|Hj]; [|left; right; exact Hj]. rewrite map_app in Hj.
      apply in_app_or in Hj as [Hj|[<-|[]]]; [left; left; exact Hj|right; done].
    + rewrite map_app. apply NoDup_app. split; [apply C|]. split; [|apply NoDup_singleton].
      intros x Hx ->%list_elem_of_singleton. apply F4. left. now apply list_elem_of_In.
    + intros j Hj. rewrite map_app in Hj. apply in_app_or in Hj as [Hj|[<-|[]]]; [eapply ri_disj; eauto|].
      cbn. apply eq_None_not_Some. intros Ho. apply F4. right; left; exact Ho.
    + intros j Hj. destruct (ri_rpc _ _ _ _ _ _ C _ Hj) as [H1 H2]. split; [|done].
      rewrite map_app. intros [Hx|[<-|[]]]%in_app_or; [auto|]. apply F4. right; right; done.
  - cbn. eapply buf_wait; eauto.
Qed.

Lemma submit_spec k t h cmd w : Inv (Some k) ∅ w -> ids_left w -> handler_for cmd h ->
  (forall p, h <> HRead p) -> command_buffer cmd = None ->
  wp (submit k t h cmd) (answered w) w.
Proof.
  intros H Hid Hh Hnr Hb. unfold submit. apply wp_bind, wp_gets.
  destruct (context w); [|now apply resume_hand_spec].
  eapply wp_new_operation; [exact H|exact Hid|].
  intros w1 i cb H1 F1 G1 C1 L1 _ _ P1 _.
  assert (A1 : answers w w1) by (constructor; [exact G1|exact C1|left; now rewrite L1]).
  apply (wp_answered _ w w1 A1).
  assert (Hf : fits cmd cb) by (now apply fits_plain).
  apply wp_bind. eapply wp_has_slot; [exact H1|]. apply wp_bind, wp_gets.
  destruct (slot_free _ w1).
  - unfold issueOperation. apply wp_bind. eapply wp_retain; [exact H1|exact F1|].
    intros w2 Ew2 H2 F2 R2. apply (wp_answered _ w1 w2).
    { rewrite Ew2. constructor; [constructor; reflexivity|done|now left]. }
    apply wp_bind, wp_call_async. destruct (async_rc i <? 0) eqn:Erc.
    + apply Z.ltb_lt in Erc. rewrite (called_refused _ _ _ Erc). set (w3 := upd_lib _ w2).
      apply (wp_answered _ w2 w3); [apply answers_issued|].
      assert (H3 : Inv None ({[i]} ∪ ∅) w3)
        by (apply Inv_take; [now apply Inv_issued|left; apply F2]).
      eapply wp_mono; [apply (failureCleanup_spec None ∅ i w3 H3 R2 (fo_unqueued _ _ _ F2) Erc)|].
      intros [] w4 (H4 & E4 & _). split; [exact H4|now apply evo_answers].
    + apply (accept_spec i _ cmd cb); auto. now apply buffer_ready_none.
  - destruct (maxPendingOperations <=? _) eqn:Ecap.
    + apply wp_bind. eapply drop_continuation_spec; [exact H1|exact F1|].
      intros w2 H2 A2 _ _. apply (wp_answered _ w1 w2 A2). now apply resume_hand_spec.
    + apply (wait_spec i cb); auto. lia.
Qed.

Lemma submit_path_spec k o w : Inv (Some k) ∅ w -> ids_left w ->
  wp (submit_path k o) (answered w) w.
Proof. intros H Hid. destruct o; (apply submit_spec; [exact H|exact Hid|exact I|discriminate|done]). Qed.

Lemma keeps_answered {A} (m : M World A) w : keeps m -> Inv None ∅ w -> wp m (answered w) w.
Proof.
  intros Hm H. eapply wp_mono; [apply (safe_keeps None ∅ m Hm), H|]. intros a w' [H1 E1].
  split; [exact H1|now apply evo_answers].
Qed.

Lemma safe_answered {A} (m : M World A) w : safe None ∅ m -> Inv None ∅ w -> wp m (answered w) w.
Proof.
  intros Hm H. eapply wp_mono; [apply Hm, H|]. intros a w' [H1 E1].
  split; [exact H1|now apply evo_answers].
Qed.

Lemma mount_spec k s e w : Inv (Some k) ∅ w -> ids_left w -> wp (mount k s e) (answered w) w.
Proof.
  intros H Hid. unfold mount. apply wp_bind, wp_gets.
  destruct (context w); [|now apply resume_hand_spec].
  eapply wp_new_operation; [exact H|exact Hid|].
  intros w1 i cb H1 F1 G1 C1 L1 _ _ P1 _.
  assert (A1 : answers w w1) by (constructor; [exact G1|exact C1|left; now rewrite L1]).
  apply (wp_answered _ w w1 A1).
  apply wp_bind. eapply wp_retain; [exact H1|exact F1|].
  intros w2 Ew2 H2 F2 R2. apply (wp_answered _ w1 w2).
  { rewrite Ew2. constructor; [constructor; reflexivity|done|now left]. }
  apply wp_bind, wp_call_async. destruct (async_rc i <? 0) eqn:Erc.
  - apply Z.ltb_lt in Erc. rewrite (called_refused _ _ _ Erc). set (w3 := upd_lib _ w2).
    apply (wp_answered _ w2 w3); [apply answers_issued|].
    apply (refuse_spec i cb); auto; [now apply Inv_issued|destruct F2; constructor; auto].
  - assert (H3 : Inv None ∅ (called i (CMount s e) w2)).
    { eapply Inv_called; [exact H2|exact R2|apply F2|apply F2|left; apply F2| |].
      - now apply fits_plain.
      - apply buffer_ready_none; [now apply fits_plain|done]. }
    apply (wp_answered _ w2 (called i (CMount s e) w2)).
    { constructor; [constructor; reflexivity|done|now left]. }
    apply safe_answered; [|exact H3].
    apply safe_bind; [apply safe_ask|]. intros fd. destruct (0 <=? fd).
    + apply safe_bind; [apply safe_keeps, keeps_setupSources|]. intros _.
      apply safe_bind; [apply safe_isRunning|]. intros _. apply safe_keeps, keeps_updateWriteSource.
    + apply safe_keeps, keeps_startTimeoutTimer.
Qed.

(** A change of the export fields. *)
Lemma answers_rpcx K X f w : (forall x, rpc_sources (f x) = rpc_sources x) -> Inv K X w ->
  Inv K X (upd_rpcx f w) /\ answers w (upd_rpcx f w).
Proof.
  intros Hf [A B C D F]. split; [|constructor; [constructor; reflexivity|done|now left]].
  constructor; auto. unfold src_inv in *. cbn. now rewrite Hf.
Qed.

(** The library holds the call of the listing: its object is the one the
    answer to it will name. *)
Lemma rpc_called_inv i cb w : Inv None ∅ w -> fresh_object i cb w -> i ∈ retained (reg w) ->
  dataHandler cb = HExports -> resultType cb = TStrings -> cleanup cb = None ->
  Inv None ∅ (upd_lib (upd_rpcOutstanding (fun _ => Some i)) w).
Proof.
  intros [A B C D F] [Fa Fo Fr Fq] Hr H1 H2 H3. constructor; auto; cbn.
  - eapply reg_queue_gen; [exact C|exact Hr|eauto|auto| |apply C|apply C|].
    + intros j [Hj|[Hj|[= ->]]]; [left; left; exact Hj|left; right; left; exact Hj|right; done].
    + intros j [= <-]. split; [intros Hx; apply Fq; now left|].
      apply eq_None_not_Some. intros Hx. apply Fq. right; left; exact Hx.
  - eapply buf_rpc; [exact D|exact Fo|auto..].
Qed.

Lemma getexports_spec k s w : Inv (Some k) ∅ w -> ids_left w ->
  wp (getexports k s) (answered w) w.
Proof.
  intros H Hid. unfold getexports. apply wp_bind, wp_gets, wp_bind, wp_gets.
  destruct (context w), (rpcExportsCtx (rpcx w)); try (now apply resume_hand_spec).
  apply wp_bind, wp_ask. apply (wp_answered _ w (upd_lib (upd_tick S) w)); [apply evo_answers, evo_tick|].
  pose proof (Inv_tick _ _ _ H) as H0. assert (Hid0 : ids_left (upd_lib (upd_tick S) w)) by exact Hid.
  revert H0 Hid0. generalize (upd_lib (upd_tick S) w). generalize (rpc_init (tick (lib w))).
  clear w H Hid. intros created w H Hid.
  destruct (negb created); [now apply resume_hand_spec|].
  eapply wp_new_operation; [exact H|exact Hid|].
  intros w1 i cb H1 F1 G1 C1 L1 _ _ P1 _.
  assert (A1 : answers w w1) by (constructor; [exact G1|exact C1|left; now rewrite L1]).
  apply (wp_answered _ w w1 A1).
  apply wp_bind, wp_modify, wp_bind, wp_modify, wp_bind, wp_modify. set (w2 := upd_rpcx _ _).
  apply (wp_answered _ w1 w2); [constructor; [constructor; reflexivity|done|now left]|].
  assert (H2 : Inv None ∅ w2) by (destruct H1; constructor; auto).
  assert (F2 : fresh_object i cb w2) by (destruct F1; constructor; auto).
  clearbody w2. clear w1 H1 F1 G1 C1 L1 P1 A1.
  apply wp_bind. eapply wp_retain; [exact H2|exact F2|].
  intros w3 Ew3 H3 F3 R3. apply (wp_answered _ w2 w3).
  { rewrite Ew3. constructor; [constructor; reflexivity|done|now left]. }
  unfold call_getexports. apply wp_bind, wp_bind, wp_modify. set (w4 := upd_lib _ w3).
  assert (H4 : Inv None ∅ w4) by now apply Inv_issued.
  assert (F4 : fresh_object i cb w4) by (destruct F3; constructor; auto).
  assert (A4 : answers w3 w4) by apply answers_issued.
  apply wp_bind, wp_when; intros Hrc; [apply wp_modify|]; apply wp_ret.
  - apply Z.leb_le in Hrc. rewrite (proj2 (Z.ltb_ge (async_rc i) 0)) by lia.
    set (w5 := upd_lib _ w4).
    apply (wp_answered _ w3 w5);
      [etransitivity; [exact A4|]; constructor; [constructor; reflexivity|done|now left]|].
    apply safe_answered.
    + apply safe_bind; [apply safe_ask|]. intros fd.
      destruct (0 <=? fd); [apply safe_bind; [apply safe_keeps, keeps_setupRpcExportsSources|intros _]|];
        apply safe_keeps, keeps_startTimeoutTimer.
    + now apply (rpc_called_inv i cb).
  - apply Z.leb_gt in Hrc. rewrite (proj2 (Z.ltb_lt (async_rc i) 0)) by lia.
    apply (wp_answered _ w3 w4 A4).
    apply wp_bind. eapply release_fresh_spec; [exact H4|exact F4|exact R3|].
    intros w5 H5 F5 A5. apply (wp_answered _ w4 w5 A5).
    apply wp_bind. eapply drop_continuation_spec; [exact H5|exact F5|].
    intros w6 H6 A6 _ _. apply (wp_answered _ w5 w6 A6).
    apply wp_bind. eapply wp_mono; [apply (safe_cleanupRpcExports HEX (Some k) ∅), H6|].
    intros [] w7 [H7 E7]. cbn beta. apply (wp_answered _ w6 w7); [now apply evo_answers|].
    now apply resume_hand_spec.
Qed.

(** ** Operations on a handle *)

Lemma with_handle_spec k h body w : Inv (Some k) ∅ w ->
  (forall fh, wp (body fh) (answered w) w) -> wp (with_handle k h body) (answered w) w.
Proof.
  intros H Hb. unfold with_handle. apply wp_bind, wp_gets, wp_bind, wp_gets.
  destruct (handleRegistry (handles w) !! h), (context w); try (now apply resume_hand_spec). apply Hb.
Qed.

Lemma handle_call_spec k c h cmd w : Inv (Some k) ∅ w -> ids_left w -> handler_for cmd h ->
  (forall p, h <> HRead p) -> command_buffer cmd = None ->
  wp (handle_call k c h cmd) (answered w) w.
Proof.
  intros H Hid Hh Hnr Hb. unfold handle_call. eapply wp_new_operation; [exact H|exact Hid|].
  intros w1 i cb H1 F1 G1 C1 L1 _ _ P1 _.
  apply (wp_answered _ w w1); [constructor; [exact G1|exact C1|left; now rewrite L1]|].
  apply (start_call_spec i c cmd cb w1 H1 F1); [now apply fits_plain|].
  apply buffer_ready_none; [now apply fits_plain|done].
Qed.

Lemma closeFile_spec k h w : Inv (Some k) ∅ w -> ids_left w -> wp (closeFile k h) (answered w) w.
Proof.
  intros H Hid. apply with_handle_spec; [exact H|]. intros fh.
  eapply wp_new_operation; [exact H|exact Hid|].
  intros w1 i cb H1 F1 G1 C1 L1 _ _ P1 _.
  apply (wp_answered _ w w1); [constructor; [exact G1|exact C1|left; now rewrite L1]|].
  apply wp_bind, wp_modify. set (w2 := upd_handles _ w1).
  apply (wp_answered _ w1 w2); [constructor; [constructor; reflexivity|done|now left]|].
  apply (start_call_spec i metadata (CClose fh) cb w2).
  - destruct H1; constructor; auto.
  - destruct F1; constructor; auto.
  - now apply fits_plain.
  - apply buffer_ready_none; [now apply fits_plain|done].
Qed.

(** Allocating, with a continuation or an identifier in hand. *)
Lemma wp_alloc K X n (Q : Z -> World -> Prop) w : Inv K X w ->
  (forall p m, allocate n (heap w) = (p, m) -> let w' := upd_heap (fun _ => m) w in
     Inv K X w' -> blocks m !! p = Some (replicate (Z.to_nat n) None) -> unused p (outst w') ->
     (forall j cb x, objects (reg w) !! j = Some cb -> is_Some (outst w !! j) ->
        cleanup cb = Some x -> x <> p) -> Q p w') ->
  wp (alloc n) Q w.
Proof.
  intros H HQ. unfold wp, alloc. destruct (allocate n (heap w)) as [p m] eqn:Ea.
  destruct (buf_alloc _ _ _ _ _ _ _ _ (inv_buf _ _ _ H) Ea) as (D & Hl & Hu).
  apply HQ; auto; [destruct H; constructor; auto|].
  intros j cb x Hcb [c Hj] Hx ->.
  destruct (bi_out _ _ _ _ _ (inv_buf _ _ _ H) _ _ Hj) as (cb' & Hcb' & Hf). simplify_eq.
  destruct (fit_own _ _ Hf _ Hx) as [m' Hm]. eapply Hu; eauto.
Qed.

(** A new block is the buffer of a new operation. *)
Lemma own_buffer_ready cmd cb w p n l : command_buffer cmd = Some (mkBufPtr p 0, n) ->
  cleanup cb = Some p -> blocks (heap w) !! p = Some l -> n <= Z.of_nat (length l) ->
  unused p (outst w) ->
  (forall j cj x, objects (reg w) !! j = Some cj -> is_Some (outst w !! j) ->
     cleanup cj = Some x -> x <> p) -> buffer_ready cmd cb w.
Proof.
  intros Hc Hcl Hl Hn Hu Ho. split.
  - intros b m Hb. rewrite Hc in Hb. injection Hb as <- <-. split; [exists l; cbn; auto with lia|].
    intros j cj cbj x Hj Hcbj Hx. cbn. intros ->. eapply Ho; eauto.
  - intros x Hx. rewrite Hcl in Hx. now injection Hx as <-.
Qed.

(** An operation with a buffer of its own, once the buffer is filled. *)
Lemma buffered_call_spec k i p c h cmd n l w w0 : Inv (Some k) ∅ w ->
  i + 1 = nextContinuationID (reg w) -> objects (reg w) !! i = None ->
  ~ queued (pend w) (outst w) (rpcq w) i ->
  handler_for cmd h -> (forall q, h = HRead q -> q = p) -> h <> HReadInto ->
  command_buffer cmd = Some (mkBufPtr p 0, n) -> blocks (heap w) !! p = Some l ->
  n <= Z.of_nat (length l) -> unused p (outst w) ->
  (forall j cj x, objects (reg w) !! j = Some cj -> is_Some (outst w !! j) ->
     cleanup cj = Some x -> x <> p) -> answers w0 w ->
  wp (new_callback i c h k (handler_type h) false (Some p) ;;
      start_call k i c cmd (Some p)) (answered w0) w.
Proof.
  intros H Hid Hnew Hnq Hh Hr Hri Hc Hl Hn Hu Ho Ha. apply (wp_answered _ w0 w Ha).
  apply wp_bind. eapply wp_new_callback; [exact H|exact Hid|exact Hnew|exact Hnq|].
  intros w1 cb Ew1 H1 F1. apply (wp_answered _ w w1).
  { rewrite Ew1. constructor; [constructor; reflexivity|done|now left]. }
  apply (start_call_spec i c cmd cb w1 H1 F1).
  - constructor; cbn; [done|done| | |done].
    + intros q [= <-]. eauto.
    + intros q Hq. now rewrite (Hr _ Hq).
  - rewrite Ew1. eapply own_buffer_ready; cbn; eauto.
    intros j cj x Hj Ho' Hx. destruct (decide (i = j)) as [<-|Hne].
    + exfalso. apply Hnq. right; left; exact Ho'.
    + rewrite lookup_insert_ne in Hj by done. eauto.
Qed.

Lemma readFile_spec k h off n w : Inv (Some k) ∅ w -> ids_left w -> 0 <= n < 2 ^ 63 ->
  wp (readFile k h off n) (answered w) w.
Proof.
  intros H Hid Hn. apply with_handle_spec; [exact H|]. intros fh.
  destruct (reg_fresh _ _ _ _ _ _ (inv_reg _ _ _ H)) as (Hnew & Hnq & _).
  apply wp_bind. eapply wp_next_id; [exact H|exact Hid|]. intros w1 Ew1 H1 Hid1.
  apply wp_bind. unfold int_of_uint64. rewrite (proj2 (Z.ltb_lt _ _)) by lia. apply wp_ret.
  apply wp_bind. eapply wp_alloc; [exact H1|]. intros p m _ w2 H2 Hl Hu Ho. cbn zeta.
  subst w1. eapply (buffered_call_spec k _ p bulk (HRead p)); try exact H2; try exact Hl; try exact Hu.
  - exact Hid1.
  - exact Hnew.
  - exact Hnq.
  - destruct off; done.
  - now intros q [= ->].
  - discriminate.
  - destruct off; done.
  - rewrite length_replicate. lia.
  - exact Ho.
  - constructor; [constructor; reflexivity|done|now left].
Qed.

Lemma writeFile_spec k h off data w : Inv (Some k) ∅ w -> ids_left w ->
  wp (writeFile k h off data) (answered w) w.
Proof.
  intros H Hid. apply with_handle_spec; [exact H|]. intros fh.
  destruct (reg_fresh _ _ _ _ _ _ (inv_reg _ _ _ H)) as (Hnew & Hnq & _).
  apply wp_bind. eapply wp_next_id; [exact H|exact Hid|]. intros w1 Ew1 H1 Hid1.
  cbn zeta. apply wp_bind. eapply wp_alloc; [exact H1|]. intros p m _ w2 H2 Hl Hu Ho.
  destruct (store_ok p 0 data m _ Hl) as (m' & Hm' & Hl' & _); [lia|rewrite length_replicate; lia|].
  apply wp_bind. eapply wp_mem_op; [exact Hm'|]. subst w1.
  eapply (buffered_call_spec k _ p bulk HStatus); [| | | | | | | |exact Hl'| |exact Hu|exact Ho|].
  - destruct H2 as [A B C D F]; constructor; auto. eapply buf_store; eauto.
  - exact Hid1.
  - exact Hnew.
  - exact Hnq.
  - destruct off; done.
  - discriminate.
  - discriminate.
  - destruct off; done.
  - rewrite length_splice; rewrite length_replicate; lia.
  - constructor; [constructor; reflexivity|done|now left].
Qed.

(** A destination is fit for a read: allocated, and no operation's own buffer. *)
Definition destination_ok (b : BufPtr) (n : Z) (w : World) : Prop :=
  in_block b n (heap w) /\
  forall j cj cbj x, outst w !! j = Some cj -> objects (reg w) !! j = Some cbj ->
    cleanup cbj = Some x -> bp_block b <> x.

Lemma preadIntoBuffer_spec k h b off n w : Inv (Some k) ∅ w -> ids_left w -> 0 <= n < 2 ^ 63 ->
  destination_ok b n w -> wp (preadIntoBuffer k h b off n) (answered w) w.
Proof.
  intros H Hid Hn [Hb1 Hb2]. apply with_handle_spec; [exact H|]. intros fh.
  destruct (reg_fresh _ _ _ _ _ _ (inv_reg _ _ _ H)) as (_ & Hnq & _).
  eapply wp_new_operation; [exact H|exact Hid|].
  intros w1 i cb H1 F1 G1 C1 L1 M1 O1 P1 B1.
  apply (wp_answered _ w w1); [constructor; [exact G1|exact C1|left; now rewrite L1]|].
  apply wp_bind. unfold int_of_uint64. rewrite (proj2 (Z.ltb_lt _ _)) by lia. apply wp_ret.
  apply (start_call_spec i bulk (CPread fh b n off) cb w1 H1 F1).
  - now apply fits_plain.
  - split; [|discriminate]. intros b' n' [= <- <-]. rewrite M1, O1. split; [exact Hb1|].
    intros j cj cbj x Hj Hcbj Hx. rewrite B1 in Hcbj. case_decide as Hd; [|eauto].
    exfalso. apply Hnq. right; left. subst i. rewrite <- Hd in Hj. eauto.
Qed.

Lemma registerHandle_spec k a w : Inv (Some k) ∅ w -> nextHandleID (handles w) + 1 < 2 ^ 64 ->
  wp (registerHandle k (CPointer (Tstruct "nfsfh") a)) (answered w) w.
Proof.
  intros H Hid. unfold registerHandle. apply wp_bind, wp_bound_to, wp_bind, wp_gets.
  rewrite (proj2 (Z.ltb_lt _ _) Hid). apply wp_bind, wp_modify, wp_bind, wp_modify. set (w1 := upd_handles _ _).
  apply (wp_answered _ w w1); [constructor; [constructor; reflexivity|done|now left]|].
  apply resume_hand_spec. destruct H; constructor; auto.
Qed.

(** The directory stream gives every entry a name, and every visible one a size that an
    [Int64] holds. *)
Definition readable_entries (a : Z) : Prop := forall e, In e (readdir a) -> entry_readable e = true.

Lemma readdirAll_spec k a w : Inv (Some k) ∅ w -> readable_entries a ->
  wp (readdirAll k (CPointer (Tstruct "nfsdir") a)) (answered w) w.
Proof.
  intros H Hn. unfold readdirAll. apply wp_bind, wp_gets.
  destruct (context w); [|now apply resume_hand_spec]. apply wp_bind, wp_bound_to. cbn zeta.
  assert (Hall : forallb entry_readable (readdir a) = true) by now apply forallb_forall.
  rewrite Hall. apply wp_bind, wp_modify. set (w1 := upd_lib _ w).
  apply (wp_answered _ w w1); [constructor; [constructor; reflexivity|done|now left]|].
  apply resume_hand_spec. destruct H; constructor; auto.
Qed.

(** ** One block *)

(** What the callers of the API must respect: sizes that fit an [Int],
    destinations that are allocated, pointers of the right type, directories whose entries are
    readable, and handle identifiers that are left. *)
Definition request_ok (r : Request) (w : World) : Prop :=
  match r with
  | RRead _ _ n => 0 <= n < 2 ^ 63
  | RPreadInto _ b _ n => 0 <= n < 2 ^ 63 /\ destination_ok b n w
  | RRegister p => (exists a, p = CPointer (Tstruct "nfsfh") a) /\ nextHandleID (handles w) + 1 < 2 ^ 64
  | RReaddir p => exists a, p = CPointer (Tstruct "nfsdir") a /\ readable_entries a
  | _ => True
  end.

Lemma perform_spec k r w : Inv (Some k) ∅ w -> ids_left w -> request_ok r w ->
  wp (perform k r) (answered w) w.
Proof.
  intros H Hid Hr. destruct r; cbn [perform].
  - now apply submit_path_spec.
  - now apply mount_spec.
  - now apply getexports_spec.
  - now apply closeFile_spec.
  - now apply readFile_spec.
  - now apply writeFile_spec.
  - destruct Hr. now apply preadIntoBuffer_spec.
  - apply with_handle_spec; [exact H|]. intros fh. now apply handle_call_spec.
  - apply with_handle_spec; [exact H|]. intros fh. now apply handle_call_spec.
  - apply with_handle_spec; [exact H|]. intros fh. now apply handle_call_spec.
  - apply with_handle_spec; [exact H|]. intros fh. now apply handle_call_spec.
  - destruct Hr as [[a ->] Hh]. now apply registerHandle_spec.
  - destruct Hr as (a & -> & Hn). now apply readdirAll_spec.
Qed.

(** What must hold when an event happens. *)
Definition event_ok (e : Event) (w : World) : Prop :=
  match e with
  | Call r => ids_left w /\ request_ok r w
  | FreeBuffer p => live p (heap w) /\ unused p (outst w)
  | _ => True
  end.

(** Without a context a call is answered at once. *)
Lemma disconnected_perform k r w a w' : context w = None -> perform k r w = Some (a, w') -> active w' = active w.
Proof.
  assert (Hres : forall o a w', cont_resume k o w = Some (a, w') -> active w' = active w).
  { intros o b w2. unfold cont_resume, bind, gets, modify, trap. destruct (_ !! _); [discriminate|]. now intros [= _ <-]. }
  intros Hc. destruct r as [o|s e|s|id|id off n|id off data|id dest off n|id|id|id n|id off wh|p|p]; cbn [perform];
    try (unfold closeFile, readFile, writeFile, preadIntoBuffer, fsync, fstat, ftruncate, lseek, with_handle, bind, gets;
         rewrite Hc; destruct (handleRegistry (handles w) !! _); apply Hres).
  - unfold submit_path. destruct (path_op o) as [[t h] c]. unfold submit, bind, gets. rewrite Hc. apply Hres.
  - unfold mount, bind, gets. rewrite Hc. apply Hres.
  - unfold getexports, bind, gets. rewrite Hc. apply Hres.
  - unfold registerHandle, bound_to, bind, gets, modify, ret, trap. destruct p as [| |t x]; try discriminate.
    destruct (decide _); [|discriminate]. destruct (_ <? _); [|discriminate]. intros H.
    unfold cont_resume, bind, gets, modify, trap in H. destruct (_ !! _) in H; [discriminate|]. injection H as _ <-. reflexivity.
  - unfold readdirAll, bind, gets. rewrite Hc. apply Hres.
Qed.

(** Outcomes are final, and at most one continuation is new. *)
Record advances (w w' : World) : Prop := mkAdvances {
  ad_outcomes : outcomes (reg w) ⊆ outcomes (reg w');
  ad_call : nextCall (reg w) <= nextCall (reg w')
}.

#[export] Instance advances_preorder : PreOrder advances.
Proof.
  split; [intros w; constructor; [reflexivity|lia]|].
  intros w1 w2 w3 [A1 A2] [B1 B2]; constructor; [etransitivity; eauto|lia].
Qed.

Lemma grows_advances w w' : grows w w' -> advances w w'.
Proof. intros [H1 H2]. constructor; [exact H1|lia]. Qed.

Lemma ends_advances {A} (m : M World A) w :
  wp m (ends w) w -> wp m (fun _ w' => Idle w' /\ advances w w') w.
Proof.
  intros H. eapply wp_mono; [exact H|]. intros a w' [H1 H2].
  split; [exact H1|now apply grows_advances].
Qed.

(** A call: the caller's continuation is new and in hand. *)
Lemma wp_call r (Q : unit -> World -> Prop) w : Idle w ->
  (forall w1, w1 = upd_reg (upd_nextCall (fun n => n + 1)) w ->
     Inv (Some (nextCall (reg w))) ∅ w1 -> wp (perform (nextCall (reg w)) r) Q w1) ->
  wp (handle (Call r)) Q w.
Proof.
  intros [H L _] HQ. cbn [handle]. apply wp_bind. unfold new_call.
  apply wp_bind, wp_gets, wp_bind, wp_modify, wp_ret. apply HQ; [done|].
  destruct H as [A B C D F]; constructor; auto; cbn; now apply reg_new_call.
Qed.

Lemma handle_spec e w : Idle w -> event_ok e w ->
  wp (handle e) (fun _ w' => Idle w' /\ advances w w') w.
Proof.
  intros I He. destruct e as [r| | | | |h|b|n|p|d]; cbn [handle].
  - destruct He as [Hid Hr]. apply (wp_call r); [exact I|]. destruct I as [H L A]. intros w1 -> H1.
    destruct (wp_run _ _ _ (perform_spec _ r _ H1 Hid Hr)) as ([] & w2 & Hrun & H2 & [G2 C2 L2]).
    unfold wp. rewrite Hrun. split; [constructor; [exact H2| |]|].
    + intros Hc. rewrite C2 in Hc. destruct L2 as [->|]; [exact (L Hc)|done].
    + intros Hc. rewrite C2 in Hc. rewrite (disconnected_perform _ _ _ _ _ Hc Hrun). exact (A Hc).
    + etransitivity; [|apply grows_advances, G2]. constructor; [reflexivity|cbn; lia].
  - now apply ends_advances, handleIOEvent_spec.
  - now apply ends_advances, safe_ends; [apply safe_handleRpcExportsEvent|].
  - now apply ends_advances, safe_ends; [apply safe_scanForTimeouts|].
  - eapply wp_mono; [apply performShutdown_spec, I|]. intros [] w' (H1 & H2 & _).
    split; [exact H1|now apply grows_advances].
  - now apply ends_advances, closeFileFireAndForget_spec.
  - now apply ends_advances, setLogHandler_spec.
  - destruct I as [H L C]. apply wp_bind. eapply wp_alloc; [exact H|].
    intros p m _ w1 H1 _ _ _. apply wp_ret. split; [constructor; auto|].
    constructor; [reflexivity|cbn; lia].
  - destruct He as [Hl Hu], I as [[A B C D F] L Z].
    destruct (deallocate_live _ _ Hl) as (m & Hm & _). eapply wp_mem_op; [exact Hm|].
    split; [|constructor; [reflexivity|cbn; lia]]. constructor; [|exact L|exact Z].
    constructor; auto. eapply buf_free; eauto.
  - destruct I as [[] L Z]. apply wp_modify. split; [|constructor; [reflexivity|cbn; lia]].
    constructor; [constructor; auto|exact L|exact Z].
Qed.

End Safe.
