(* ===== verification/EventLoopProps.v ===== *)
(** * Properties of the event loop

    What holds in every state the loop can reach: it never stops the program,
    every caller's continuation is resumed exactly once, shutting down leaves
    nobody waiting, the waiting list is bounded, and a pointer handed to libnfs
    never dangles. *)

From Stdlib Require Import Strings.Byte.
From stdpp Require Import base list gmap strings.
From S2P Require Import Prelude Posix PipelineController Memory CType LibnfsApi.
From S2P Require Import StateMonad DispatchSource OperationType EventLoopState EventLoop.
From S2P Require Import SourceInv SourceSpecs RegistryInv BufferInv EventLoopInv EventLoopSafe.

Open Scope Z_scope.
Open Scope monad_scope.

(** The states that a loop goes through, from [init] on. *)
Inductive reachable `{E : Env} : World -> Prop :=
  | reach_init t c w : init true t c = inr w -> reachable w
  | reach_step w e w' : reachable w -> event_ok e w -> handle e w = Some (tt, w') -> reachable w'.

Lemma idle_init t c w : init true t c = inr w -> Idle w.
Proof.
  intros [= <-]. constructor; [|discriminate|reflexivity]. constructor; cbn.
  - split; [intros i x H; cbn in H; now rewrite lookup_empty in H|]. split; [constructor|constructor].
  - constructor; cbn; try apply controller_inv_init; unfold maxPendingOperations; lia.
  - assert (Hq : forall i, ~ queued [] (∅ : gmap Z Command) None i).
    { intros i [[]|[[? H]|H]]; [now rewrite lookup_empty in H|done]. }
    constructor; cbn; try done; try (intros *; rewrite ?lookup_empty; intros; simplify_eq).
    all: repeat match goal with
         | H : queued _ _ _ _ |- _ => destruct (Hq _ H)
         | H : _ ∈ ∅ |- _ => destruct (not_elem_of_empty _ H)
         | H : _ \/ _ |- _ => destruct H
         | H : is_Some _ |- _ => destruct H; simplify_eq
         end; try lia.
    constructor.
  - constructor; cbn; try done; try apply mem_empty_ok;
      intros *; rewrite ?lookup_empty; intros; simplify_eq.
  - constructor; discriminate.
Qed.

Section Props.
Context `{E : Env} (HEX : exports_listed).

Lemma reachable_idle w : reachable w -> Idle w.
Proof.
  induction 1 as [t c w H|w e w' _ IH He Hh]; [exact (idle_init _ _ _ H)|].
  exact (proj1 (wp_final _ _ _ _ Hh (handle_spec HEX e w IH He))).
Qed.
(** ** Safety *)


(** C3: every continuation ever handed to the loop is accounted for: it was
    resumed, or exactly one callback object that was not resumed is registered
    as active and holds it; no continuation is both. *)
Theorem continuations_accounted w k : reachable w -> 0 <= k < nextCall (reg w) ->
  (is_Some (outcomes (reg w) !! k) /\
     forall i cb, i ∈ active w -> objects (reg w) !! i = Some cb -> continuation cb <> k) \/
  (outcomes (reg w) !! k = None /\
     exists i cb, i ∈ active w /\ objects (reg w) !! i = Some cb /\ continuation cb = k /\
       hasResumed cb = false /\
       forall j cj, objects (reg w) !! j = Some cj -> continuation cj = k -> j = i).
Proof.
  intros Hr Hk. pose proof (inv_reg _ _ _ (idle_inv _ (reachable_idle w Hr))) as R.
  assert (Hact : forall i cb, i ∈ active w -> objects (reg w) !! i = Some cb ->
            hasResumed cb = false /\ outcomes (reg w) !! continuation cb = None).
  { intros i cb Hi Hcb. destruct (ri_active _ _ _ _ _ _ R i Hi) as (cb' & Hcb' & Hf).
    simplify_eq. split; [done|]. eapply ri_open; eauto. }
  destruct (ri_kept _ _ _ _ _ _ R k Hk) as [[=]|[Ho|(i & cb & Hi & Hcb & He)]].
  - left. split; [done|]. intros i cb Hi Hcb <-. destruct (Hact _ _ Hi Hcb) as [_ Hn].
    rewrite Hn in Ho. now destruct Ho.
  - right. destruct Hi as [Hi|Hi]; [|set_solver]. destruct (Hact _ _ Hi Hcb) as [Hf Hn].
    rewrite He in Hn. split; [done|]. exists i, cb. splits; auto.
    intros j cj Hj Hc. eapply ri_inj; [exact R|exact Hj|exact Hcb|congruence].
Qed.

(** What a caller was told stays told: no later event changes or repeats the
    outcome of a continuation. *)
Theorem outcomes_final e w w' k o : reachable w -> event_ok e w ->
  handle e w = Some (tt, w') -> outcomes (reg w) !! k = Some o ->
  outcomes (reg w') !! k = Some o.
Proof.
  intros Hr He Hh Ho.
  destruct (wp_final _ _ _ _ Hh (handle_spec HEX e w (reachable_idle w Hr) He)) as [_ [Hsub _]].
  eapply lookup_weaken; eauto.
Qed.

(** C12: [shutdown()] leaves nobody waiting: afterwards the context is destroyed,
    no continuation is registered, and every continuation ever handed to the
    loop has been resumed. *)
Theorem shutdown_resumes_all w w' k : reachable w -> handle Shutdown w = Some (tt, w') ->
  context w' = None /\ active w' = ∅ /\
  (0 <= k < nextCall (reg w') -> is_Some (outcomes (reg w') !! k)).
Proof.
  intros Hr Hh.
  destruct (wp_final _ _ _ _ Hh (performShutdown_spec HEX w (reachable_idle w Hr)))
    as (I' & _ & Hc & Ha).
  split; [exact Hc|]. split; [exact Ha|]. intros Hk.
  destruct (ri_kept _ _ _ _ _ _ (inv_reg _ _ _ (idle_inv _ I')) k Hk) as [[=]|[Ho|(i & cb & Hi & _)]].
  - exact Ho.
  - rewrite Ha in Hi. set_solver.
Qed.

(** C13: a private pointer given to libnfs or to a waiting operation is good: its
    callback object is allocated and owed one release, it belongs to one command
    only, and a buffer that goes with the command is allocated and large
    enough. *)
Theorem callback_pointers_valid w i : reachable w ->
  queued (pend w) (outst w) (rpcq w) i ->
  is_Some (objects (reg w) !! i) /\ i ∈ retained (reg w) /\
  (In i (map id (pend w)) -> outst w !! i = None /\ rpcq w <> Some i) /\
  (forall c b n, outst w !! i = Some c -> command_buffer c = Some (b, n) -> in_block b n (heap w)).
Proof.
  intros Hr Hq. pose proof (idle_inv _ (reachable_idle w Hr)) as [_ _ R B _].
  split; [eapply ri_object; eauto|]. split; [eapply ri_retained; eauto|]. split.
  - intros Hp. split; [eapply ri_disj; eauto|]. intros Hx.
    destruct (ri_rpc _ _ _ _ _ _ R _ Hx). auto.
  - intros c b n Hc Hb. eapply bi_live; eauto.
Qed.

(** The depth of a category and its count. *)
Lemma depth_bounds w c : reachable w -> 0 <= inFlight c w /\
  exists d, Pipeline.effectiveDepth (controller c w) = Some d /\ 1 <= d <= 32 /\ slot_free c w = (inFlight c w <? d).
Proof.
  intros Hr. pose proof (idle_inv _ (reachable_idle w Hr)) as I. split; [exact (inFlight_nonneg _ _ c _ I)|].
  destruct (pipe_inv_controller c w (inv_pipe _ _ _ I)) as (Hwf & Hmin & Hmax).
  destruct (Pipeline.effectiveDepth_wf _ Hwf) as [H1 H2]. eexists. split; [exact H1|].
  rewrite Hmin, Hmax in H2. split; [exact H2|]. unfold slot_free. now rewrite H1.
Qed.

(** C25: dispatch sources are balanced: the sources the loop keeps for its own
    socket and for an export query are allocated and pairwise distinct; read
    sources are active, and a write source is suspended exactly once when its flag
    says so and active otherwise. *)
Theorem sources_balanced w : reachable w ->
  NoDup (map fst (io_sources (io w) ++ rpc_sources (rpcx w))) /\
  (forall i, readSource (io w) = Some i -> at_count i 0 (sources w)) /\
  (forall i, writeSource (io w) = Some i ->
     at_count i (count_of (writeSourceSuspended (io w))) (sources w)) /\
  (forall i, rpcExportsReadSource (rpcx w) = Some i -> at_count i 0 (sources w)) /\
  (forall i, rpcExportsWriteSource (rpcx w) = Some i ->
     at_count i (count_of (rpcExportsWriteSuspended (rpcx w))) (sources w)).
Proof.
  intros Hr. destruct (inv_src _ _ _ (idle_inv _ (reachable_idle w Hr))) as (_ & Hnd & Hall).
  rewrite Forall_forall in Hall. split; [exact Hnd|]. unfold io_sources, rpc_sources, opt_source in Hall.
  splits; intros i Hi; rewrite Hi in Hall; apply (Hall (i, _));
    rewrite !elem_of_app, !list_elem_of_singleton; auto.
Qed.

(** ** Replies *)

(** The callback of a queued command runs with the object in hand. *)
Lemma deliver_reply w i c cb status data bytes (Q : unit -> World -> Prop) :
  Inv None ∅ w -> outst w !! i = Some c -> objects (reg w) !! i = Some cb ->
  reply_allowed c status data bytes = true ->
  (forall m w1, (match command_buffer c, bytes with
                 | Some (b, _), _ :: _ => store (bp_block b) (bp_off b) bytes (heap w) = Some m
                 | _, _ => m = heap w
                 end) ->
     w1 = upd_reg (upd_retained (fun s => s ∖ {[i]}))
            (upd_lib (upd_outstanding (delete i)) (upd_heap (fun _ => m) w)) ->
     Inv None ({[i]} ∪ ∅) w1 -> owns cb w1 -> fits c cb -> ~ In i (map id (pend w1)) ->
     wp (if status <? 0 then
           match cleanup cb with Some p => free p | None => ret tt end ;;
           completionHook i cb false ;;
           c <- lift (int32_neg status) ;;
           resume i (inl (posix_error_plain (POSIXErrorCode_init c)))
         else
           r <- run_handler (dataHandler cb) status data ;;
           completionHook i cb (is_success r) ;;
           resume i r) Q w1) ->
  wp (deliver (Reply i status data bytes)) Q w.
Proof.
  intros H Hi Hcb Hr HQ. cbn [deliver]. apply wp_bind, wp_gets. rewrite Hi.
  apply wp_when; [intros _|congruence].
  destruct (bi_out _ _ _ _ _ (inv_buf _ _ _ H) _ _ Hi) as (cb' & Hcb' & Hfit).
  rewrite Hcb in Hcb'. injection Hcb' as <-.
  assert (Hret : i ∈ retained (reg w)) by (eapply ri_retained; [apply H|]; eauto with registry).
  assert (Hw : exists m, (match command_buffer c, bytes with
                 | Some (b, _), _ :: _ => store (bp_block b) (bp_off b) bytes (heap w) = Some m
                 | _, _ => m = heap w
                 end) /\ write_reply c bytes w = Some (tt, upd_heap (fun _ => m) w)).
  { destruct (wp_run _ _ _ (write_reply_spec None ∅ i c status data bytes w H Hi Hr))
      as ([] & w' & Hw & _).
    unfold write_reply in *. destruct (command_buffer c) as [[b n]|].
    - destruct bytes as [|x bs].
      + exists (heap w). split; [done|]. now destruct w.
      + unfold mem_op, bind, gets, lift in Hw |- *.
        destruct (store _ _ _ (heap w)) as [m|] eqn:Em; [|discriminate]. eauto.
    - exists (heap w). split; [done|]. now destruct w. }
  destruct Hw as (m & Hm & Hw).
  pose proof (write_reply_spec None ∅ i c status data bytes w H Hi Hr) as Hspec.
  unfold wp in Hspec. rewrite Hw in Hspec. destruct Hspec as (H1 & _).
  destruct (unqueue_out None ∅ i c cb _ H1 Hi Hcb Hfit) as (H2 & Hnq & Hown & _).
  apply wp_bind. eapply wp_intro; [exact Hw|]. cbn beta.
  apply wp_bind, wp_modify. unfold nfsCallback. apply wp_bind.
  apply wp_release; [exact Hret|]. apply wp_bind. eapply wp_get_object; [exact Hcb|]. cbn beta.
  eapply HQ; [exact Hm|reflexivity| |exact Hown|exact Hfit|].
  - destruct H2 as [A B C D F]. constructor; auto. now apply reg_release.
  - intros Hp. apply Hnq. now left.
Qed.

(** C14: when the server answers an operation with an error, the caller waiting
    for it is resumed with exactly that POSIX error, the operation is no longer
    registered, and the operation's own buffer is freed. *)
Theorem error_reaches_caller w i c cb status msg : reachable w ->
  outst w !! i = Some c -> i ∈ active w -> objects (reg w) !! i = Some cb ->
  reply_allowed c status (CString msg) [] = true -> status < 0 ->
  exists w', deliver (Reply i status (CString msg) []) w = Some (tt, w') /\
    outcomes (reg w') !! continuation cb = Some (Threw (posix_error_plain (- status))) /\
    i ∉ active w' /\ (forall p, cleanup cb = Some p -> ~ live p (heap w')).
Proof.
  intros Hre Hi Ha Hcb Hr Hneg. pose proof (idle_inv _ (reachable_idle w Hre)) as H.
  destruct (ri_active _ _ _ _ _ _ (inv_reg _ _ _ H) i Ha) as (cb' & Hcb' & Hun).
  rewrite Hcb in Hcb'. injection Hcb' as <-.
  destruct (reply_allowed_inv _ _ _ _ Hr) as (Hall & Hrange & _).
  destruct (callback_allowed_error _ _ _ Hall Hneg) as [Herr _].
  assert (Hcode : POSIXErrorCode_init (- status) = - status).
  { apply andb_prop in Herr as [_ Hd]. unfold POSIXErrorCode_init. now rewrite Hd. }
  apply wp_block.
  eapply deliver_reply; eauto. intros m w1 _ Ew1 H1 Hown Hfit Hnp.
  rewrite (proj2 (Z.ltb_lt _ _) Hneg).
  assert (Hfree : wp (match cleanup cb with Some p => free p | None => ret tt end)
    (fun _ w2 => Inv None ({[i]} ∪ ∅) w2 /\ reg w2 = reg w1 /\ pend w2 = pend w1 /\
       forall p, cleanup cb = Some p -> ~ live p (heap w2)) w1).
  { destruct (cleanup cb) as [p|] eqn:Ec; [|split; [exact H1|done]].
    destruct (Hown _ Ec) as [Hl Hu]. destruct (deallocate_live _ _ Hl) as (m' & Hm & Hdead & _).
    eapply wp_mem_op; [exact Hm|]. split; [|split; [done|split; [done|now intros ? [= <-]]]].
    destruct H1 as [A B C D F]; constructor; auto. eapply buf_free; eauto. }
  apply wp_bind. eapply wp_mono; [exact Hfree|]. intros [] w2 (H2 & R2 & P2 & Hdead). cbn beta.
  set (r := inl (posix_error_plain (- status)) : result).
  assert (Hcb2 : objects (reg w2) !! i = Some cb) by (rewrite R2, Ew1; exact Hcb).
  rewrite <- P2 in Hnp.
  assert (Hf := finish_outcome None ∅ i cb r w2 H2 I Hnp Hcb2 Hun ltac:(discriminate)).
  change (is_success r) with false in Hf. apply wp_bind_inv in Hf.
  apply wp_bind. eapply wp_mono; [exact Hf|]. intros [] w3 Hf3. cbn beta in Hf3 |- *.
  apply wp_bind, wp_lift. exists (- status). split; [apply int32_neg_some; lia|]. cbn beta.
  rewrite Hcode. eapply wp_mono; [exact Hf3|]. intros [] w4 (H4 & _ & Hh & Hna & Ho).
  split; [exact Ho|]. split; [exact Hna|]. rewrite Hh. exact Hdead.
Qed.

(** A read gives its caller exactly the bytes the server sent: the value is a
    [Data] of as many bytes as the reply's status says, they are the reply's
    bytes, and its buffer stays allocated. *)
Theorem read_returns_bytes w i c cb p n bytes : reachable w ->
  outst w !! i = Some c -> is_read c = true -> command_buffer c = Some (mkBufPtr p 0, n) ->
  i ∈ active w -> objects (reg w) !! i = Some cb -> cleanup cb = Some p ->
  bytes <> [] -> Z.of_nat (length bytes) <= n -> Z.of_nat (length bytes) < 2 ^ 31 ->
  exists w', deliver (Reply i (Z.of_nat (length bytes)) CNull bytes) w = Some (tt, w') /\
    outcomes (reg w') !! continuation cb =
      Some (Returned (VData (DataNoCopy p (Z.of_nat (length bytes))))) /\
    data_cells (DataNoCopy p (Z.of_nat (length bytes))) (heap w') = Some (Some <$> bytes).
Proof.
  intros Hre Hi Hread Hbuf Ha Hcb Hcl Hne Hn Hmax. pose proof (idle_inv _ (reachable_idle w Hre)) as H.
  destruct (ri_active _ _ _ _ _ _ (inv_reg _ _ _ H) i Ha) as (cb' & Hcb' & Hun).
  rewrite Hcb in Hcb'. injection Hcb' as <-.
  set (len := Z.of_nat (length bytes)) in *.
  assert (Hpos : 0 < len) by (destruct bytes; [done|unfold len; cbn; lia]).
  assert (Hr : reply_allowed c len CNull bytes = true).
  { unfold reply_allowed. rewrite Hbuf, Hread, (proj2 (Z.leb_le 0 len)), (proj2 (Z.leb_le len n)) by lia.
    fold len. rewrite Z.eqb_refl.
    rewrite (proj2 (Z.ltb_lt (- 2 ^ 31) len)), (proj2 (Z.ltb_lt len (2 ^ 31))) by lia.
    assert (Hall : callback_allowed (relied_fn c) len CNull = true).
    { destruct c; try discriminate Hread; unfold callback_allowed; cbn;
        rewrite (proj2 (Z.leb_le 0 len)) by lia; done. }
    now rewrite Hall. }
  apply wp_block.
  eapply deliver_reply; eauto. intros m w1 Hm Ew1 H1 Hown Hfit Hnp.
  rewrite (proj2 (Z.ltb_ge len 0)) by lia.
  assert (Hh : dataHandler cb = HRead p).
  { eapply own_read_handler; eauto. }
  rewrite Hh. cbn [run_handler]. rewrite (proj2 (Z.ltb_lt 0 len)) by lia.
  apply wp_bind, wp_ret.
  assert (Hcb1 : objects (reg w1) !! i = Some cb) by (rewrite Ew1; exact Hcb).
  assert (Ht : resultType cb = TData) by (rewrite (fit_type _ _ Hfit), Hh; done).
  assert (Hd1 : droppable (inr (VData (DataNoCopy p len))) w1) by apply (Hown _ Hcl).
  assert (Hf := finish_outcome None ∅ i cb _ w1 H1 Hd1 Hnp Hcb1 Hun). rewrite Ht in Hf.
  eapply wp_mono; [apply Hf; discriminate|]. intros [] w2 (_ & _ & Hheap & _ & Ho).
  split; [exact Ho|]. rewrite Hheap, Ew1. cbn [data_cells heap upd_reg upd_lib upd_heap].
  rewrite Hbuf in Hm.
  assert (Hm' : store p 0 bytes (heap w) = Some m) by (destruct bytes; [done|exact Hm]).
  destruct (bi_live _ _ _ _ _ (inv_buf _ _ _ H) _ _ _ _ Hi Hbuf) as (l & Hl & _ & Hlen).
  cbn in Hl, Hlen. eapply load_stored; [exact Hl|exact Hm'|]. unfold len in *. lia.
Qed.

Definition is_write (c : Command) : bool :=
  match c with CWrite _ _ _ | CPwrite _ _ _ _ => true | _ => false end.

(** A write that succeeds gives its caller the number of bytes that the
    server accepted, and touches no memory: in particular the copy of the data
    made for the call is still allocated. *)
Theorem write_reports_count w i c cb n : reachable w ->
  outst w !! i = Some c -> is_write c = true -> i ∈ active w -> objects (reg w) !! i = Some cb ->
  0 <= n < 2 ^ 31 ->
  exists w', deliver (Reply i n CNull []) w = Some (tt, w') /\
    outcomes (reg w') !! continuation cb = Some (Returned (VInt n)) /\
    heap w' = heap w /\ (forall p, cleanup cb = Some p -> live p (heap w')).
Proof.
  intros Hre Hi Hw Ha Hcb Hn. pose proof (idle_inv _ (reachable_idle w Hre)) as H.
  destruct (ri_active _ _ _ _ _ _ (inv_reg _ _ _ H) i Ha) as (cb' & Hcb' & Hun).
  rewrite Hcb in Hcb'. injection Hcb' as <-. apply wp_block.
  assert (Hr : reply_allowed c n CNull [] = true).
  { unfold reply_allowed. destruct c; try discriminate Hw; unfold callback_allowed; cbn -[Z.pow];
      rewrite !(proj2 (Z.leb_le 0 n)), (proj2 (Z.ltb_lt _ n)), (proj2 (Z.ltb_lt n _)) by lia; done. }
  eapply deliver_reply; eauto. intros m w1 Hm Ew1 H1 Hown Hfit Hnp.
  rewrite (proj2 (Z.ltb_ge n 0)) by lia.
  assert (Hh : dataHandler cb = HStatus)
    by (destruct Hfit as [Hh _ _ _ _]; destruct c; try discriminate Hw; destruct (dataHandler cb); easy).
  rewrite Hh. cbn [run_handler]. apply wp_bind, wp_ret.
  assert (Hcb1 : objects (reg w1) !! i = Some cb) by (rewrite Ew1; exact Hcb).
  assert (Ht : resultType cb = TInt) by (rewrite (fit_type _ _ Hfit), Hh; done).
  assert (Hf := finish_outcome None ∅ i cb (inr (VInt n)) w1 H1 I Hnp Hcb1 Hun). rewrite Ht in Hf.
  eapply wp_mono; [apply Hf; discriminate|]. intros [] w2 (_ & _ & Hheap & _ & Ho).
  assert (Hm' : m = heap w) by (destruct (command_buffer c) as [[]|]; exact Hm).
  rewrite Hheap. split; [exact Ho|]. split; [now rewrite Ew1|]. intros p Hp. apply (Hown p Hp).
Qed.

(** ** The waiting list *)

(** C24: issuing waiting operations terminates, calls them in each category in the
    order in which they were submitted without losing or repeating any, and
    stops only when every operation still waiting lacks a free slot in its
    category. *)
Theorem waiting_operations_issued w : reachable w ->
  exists w', issuePendingOperations w = Some (tt, w') /\ issued_in_order w w' /\
    (context w <> None -> all_blocked (pend w') w').
Proof.
  intros Hr. pose proof (issuePendingOperations_spec None ∅ w (idle_inv _ (reachable_idle w Hr))) as H.
  apply wp_run in H as ([] & w' & Hi & (_ & (_ & _ & Ho & _) & Hb)). eauto.
Qed.

(** C40: after an I/O event that left the connection alive, no waiting operation
    could be issued: its category has as many operations in flight as its
    pipeline allows. *)
Theorem io_event_issues_all w w' : reachable w -> handle SocketReady w = Some (tt, w') ->
  context w' <> None -> all_blocked (pend w') w'.
Proof.
  intros Hr Hh Hc. pose proof (idle_inv _ (reachable_idle w Hr)) as H.
  pose proof (idle_log _ (reachable_idle w Hr)) as L.
  revert Hc. pattern w'. apply (wp_final _ _ _ _ Hh). cbn [handle].
  unfold handleIOEvent. apply wp_bind, wp_gets. destruct (context w) eqn:Ec; [|now intros Hx].
  apply wp_bind. eapply wp_mono; [apply (safe_nfs_service HEX None ∅), H|].
  intros rc w1 [H1 E1]. cbn beta.
  assert (Hc1 : context w1 <> None) by (rewrite (ev_context _ _ E1); congruence).
  destruct (rc <? 0).
  - apply wp_bind, wp_ask. cbn beta. eapply wp_mono; [apply shutdownWithError_spec; [exact HEX| |exact Hc1]|].
    + constructor; [now apply Inv_tick|done|intros Hx; now destruct Hc1].
    + intros [] w2 (_ & _ & [Hn _ _] & _) Hx. congruence.
  - apply wp_bind. eapply wp_mono; [apply (safe_ask None ∅), H1|]. intros fd w2 [H2 E2]. cbn beta.
    apply wp_bind. eapply wp_mono; [apply (safe_check_socket None ∅ fd), H2|].
    intros [] w3 [H3 E3]. cbn beta.
    apply wp_bind. eapply wp_mono; [apply (updateWriteSource_frame None ∅), H3|].
    intros [] w4 [H4 S4]. cbn beta.
    eapply wp_mono; [apply (issuePendingOperations_spec None ∅), H4|].
    intros [] w5 (_ & (E5 & _) & Hb) Hx. apply Hb. now rewrite <- (ev_context _ _ E5).
Qed.

(** ** Timeouts *)

(** The operations that the timer finds too old. *)
Definition expired (w : World) (i : Z) : Prop :=
  i ∈ active w /\ exists cb, objects (reg w) !! i = Some cb /\
    startTime cb < dispatch_sub (now w) (timeout w).

Lemma time_out_spec K X i w : Inv K X w -> i ∈ active w ->
  wp (time_out i) (fun _ w' => Inv K X w' /\ evo w w' /\
    (forall j, j <> i -> objects (reg w') !! j = objects (reg w) !! j) /\
    active w' = active w ∖ {[i]} /\ rpcExportsContID (rpcx w') = rpcExportsContID (rpcx w) /\
    (forall cb, objects (reg w) !! i = Some cb ->
       outcomes (reg w') !! continuation cb = Some (Threw (posix_error_plain ETIMEDOUT)))) w.
Proof.
  intros H Hi. unfold time_out. apply wp_bind, wp_gets. rewrite decide_True by done.
  destruct (ri_active _ _ _ _ _ _ (inv_reg _ _ _ H) _ Hi) as (cb & Hcb & Hr).
  apply wp_bind. eapply wp_get_object; [exact Hcb|]. cbn beta.
  pose proof (Inv_take K X i w H (or_introl Hi)) as H0.
  apply wp_bind. eapply (wp_remove_continuation K ({[i]} ∪ X)); [exact H0|set_solver|].
  intros w1 H1 E1 Hna Ew1.
  apply wp_bind. eapply wp_mono; [apply wp_exact, (recordCompletion_spec K ({[i]} ∪ X)), H1|].
  intros [] w2 [(H2 & Q2 & R2 & L2 & _) Hx2]. cbn beta.
  assert (X2 : rpcx w2 = rpcx w1).
  { unfold recordCompletion, set_inFlight, set_controller, bind, modify in Hx2.
    injection Hx2 as <-. done. }
  eapply wp_mono; [apply wp_exact, (resume_spec K ({[i]} ∪ X) i (inl _)); [exact H2|set_solver|now rewrite R2|exact I]|].
  intros [] w3 [(H3 & E3 & A3 & _ & _ & _ & _ & [(cb' & Hcb' & Hr') Hoth Hout _]) Hx3].
  assert (Hcb2 : objects (reg w2) !! i = Some cb) by (rewrite R2, Ew1; exact Hcb).
  split; [|split; [|split; [|split; [|split]]]].
  - eapply Inv_drop; eauto. rewrite A3, R2. exact Hna.
  - etransitivity; [exact E1|]. etransitivity; [apply Q2|exact E3].
  - intros j Hj. rewrite Hoth, R2, Ew1; done.
  - now rewrite A3, R2, Ew1.
  - transitivity (rpcExportsContID (rpcx w2)); [|now rewrite X2, Ew1].
    revert Hx3. unfold resume, get_object, bind, gets, lift. rewrite Hcb2, Hr. cbn.
    unfold cont_resume, bind, gets. destruct (_ !! continuation cb); [done|].
    unfold modify. intros [= <-]. done.
  - intros cb0 Hcb0. rewrite Hcb in Hcb0. injection Hcb0 as <-.
    rewrite (Hout _ Hcb2 Hr). apply lookup_insert_eq.
Qed.

Lemma time_out_list_spec K X l : forall w, Inv K X w -> NoDup l -> (forall i, In i l -> i ∈ active w) ->
  wp (for_each l time_out) (fun _ w' => Inv K X w' /\ evo w w' /\
    (forall j, j ∈ active w' <-> j ∈ active w /\ ~ In j l) /\
    rpcExportsContID (rpcx w') = rpcExportsContID (rpcx w) /\
    (forall i cb, In i l -> objects (reg w) !! i = Some cb ->
       outcomes (reg w') !! continuation cb = Some (Threw (posix_error_plain ETIMEDOUT)))) w.
Proof.
  induction l as [|i l IH]; intros w H Hnd Hl; cbn [for_each].
  { apply wp_ret. split; [exact H|]. split; [reflexivity|]. split; [cbn; tauto|].
    split; [done|]. intros i cb []. }
  apply NoDup_cons in Hnd as [Hni Hnd]. rewrite list_elem_of_In in Hni.
  apply wp_bind. eapply wp_mono; [apply (time_out_spec K X); [exact H|apply Hl; now left]|].
  intros [] w1 (H1 & E1 & O1 & A1 & X1 & T1). cbn beta.
  eapply wp_mono; [apply (IH w1 H1 Hnd)|].
  - intros j Hj. rewrite A1. apply elem_of_difference. split; [apply Hl; now right|].
    intros ->%elem_of_singleton. auto.
  - intros [] w2 (H2 & E2 & A2 & X2 & T2). split; [exact H2|]. split; [etransitivity; eauto|].
    split; [|split; [congruence|]].
    + intros j. rewrite A2, A1, elem_of_difference, elem_of_singleton. cbn. split.
      * intros [[? ?] ?]. split; [done|]. intros [->|?]; auto.
      * intros [? Hn]. split; [split; [done|intros ->; apply Hn; auto]|auto].
    + intros j cb [<-|Hj] Hcb.
      * eapply lookup_weaken; [now apply T1|apply E2].
      * apply (T2 j); [exact Hj|]. rewrite O1; [exact Hcb|]. intros ->. auto.
Qed.

(** What the scan ends with ETIMEDOUT, and what it leaves. *)
Lemma scan_spec w : Inv None ∅ w -> 0 < timeout w ->
  wp scanForTimeouts (fun _ w' =>
    (forall i cb, expired w i -> objects (reg w) !! i = Some cb ->
       outcomes (reg w') !! continuation cb = Some (Threw (posix_error_plain ETIMEDOUT)) /\
       i ∉ active w') /\
    (rpcExportsContID (rpcx w) = None -> forall i, i ∈ active w -> ~ expired w i -> i ∈ active w')) w.
Proof.
  intros H Ht.
  set (l := started_before (dispatch_sub (now w) (timeout w)) (reg w)).
  assert (Hl : forall i, In i l <-> expired w i).
  { intros i. unfold l, started_before, expired. rewrite filter_In, <- list_elem_of_In.
    rewrite (dict_order_perm (elements (active w))), elem_of_elements.
    split; intros [H1 H2]; (split; [exact H1|]).
    - destruct (objects (reg w) !! i) as [cb|]; [|discriminate]. exists cb. split; [done|lia].
    - destruct H2 as (cb & -> & Hlt). now apply Z.ltb_lt. }
  assert (Hnd : NoDup l).
  { unfold l, started_before. apply NoDup_ListNoDup, List.NoDup_filter, NoDup_ListNoDup.
    rewrite (dict_order_perm (elements (active w))). apply NoDup_elements. }
  unfold scanForTimeouts. apply wp_bind, wp_gets. rewrite (proj2 (Z.ltb_lt _ _) Ht).
  apply wp_bind, wp_gets, wp_bind, wp_gets. fold l.
  apply wp_bind. eapply wp_mono; [apply (time_out_list_spec None ∅ l w H Hnd)|].
  { intros i Hi. now apply Hl in Hi as [Hi _]. }
  intros [] w1 (H1 & E1 & A1 & X1 & T1). cbn beta.
  apply wp_bind, wp_gets, wp_bind, wp_gets.
  assert (Hbase : forall w2, evo w1 w2 -> forall i cb, expired w i -> objects (reg w) !! i = Some cb ->
     outcomes (reg w2) !! continuation cb = Some (Threw (posix_error_plain ETIMEDOUT)) /\
     i ∉ active w2).
  { intros w2 E2 i cb Hi Hcb. apply Hl in Hi. split.
    - eapply lookup_weaken; [eapply T1; eauto|apply E2].
    - intros Hx. apply (ev_active _ _ E2), A1 in Hx. tauto. }
  rewrite X1. destruct (rpcExportsContID (rpcx w)) as [x|] eqn:Ex.
  - apply wp_when; intros _.
    + eapply wp_mono; [apply (safe_cleanupRpcExports HEX None ∅), H1|]. intros [] w2 [_ E2].
      split; [now apply Hbase|discriminate].
    + split; [now apply Hbase|discriminate].
  - apply wp_ret. split; [now apply Hbase|]. intros _ i Hi Hne. apply A1.
    split; [exact Hi|]. intros Hx. apply Hne, Hl, Hx.
Qed.

(** C20: when the timer fires, every operation that started before the deadline
    ends with ETIMEDOUT and is no longer registered; and if no export query is
    open, every other operation stays registered. *)
Theorem timeouts_exact w w' : reachable w -> 0 < timeout w ->
  handle TimerFired w = Some (tt, w') ->
  (forall i cb, expired w i -> objects (reg w) !! i = Some cb ->
     outcomes (reg w') !! continuation cb = Some (Threw (posix_error_plain ETIMEDOUT)) /\
     i ∉ active w') /\
  (rpcExportsContID (rpcx w) = None -> forall i, i ∈ active w -> ~ expired w i -> i ∈ active w').
Proof.
  intros Hr Ht Hh. exact (wp_final _ _ _ _ Hh (scan_spec w (idle_inv _ (reachable_idle w Hr)) Ht)).
Qed.

(** ** Submitting *)

(** The continuation that the next call gets, and the identifier of its operation. *)
Abbreviation caller w := (nextCall (reg w)).
Abbreviation operation w := (nextContinuationID (reg w)).

(** Once the context is destroyed every path operation, mount and export
    query fails at once with ENOTCONN: its caller is told, libnfs is not called,
    nothing is registered and nothing waits. *)
Theorem disconnected_fails w r : reachable w -> context w = None ->
  match r with RPath _ | RMount _ _ | RGetexports _ => True | _ => False end ->
  exists w', handle (Call r) w = Some (tt, w') /\ exists msg,
    outcomes (reg w') !! caller w = Some (Threw (posix_error ENOTCONN msg)) /\
    lib w' = lib w /\ pipe w' = pipe w /\ active w' = active w.
Proof.
  intros Hre Hc Hr. apply wp_block.
  apply wp_call; [now apply reachable_idle|]. intros w1 -> H1.
  destruct (ri_hand _ _ _ _ _ _ (inv_reg _ _ _ H1) _ eq_refl) as (Hn & _).
  assert (Hout : forall msg, wp (cont_resume (caller w) (Threw (posix_error ENOTCONN msg)))
    (fun _ w' => exists msg, outcomes (reg w') !! caller w = Some (Threw (posix_error ENOTCONN msg)) /\
       lib w' = lib w /\ pipe w' = pipe w /\ active w' = active w)
    (upd_reg (upd_nextCall (fun n => n + 1)) w)).
  { intros msg. apply wp_cont_resume; [exact Hn|]. exists msg. cbn. now rewrite lookup_insert_eq. }
  destruct r as [o|s e|s| | | | | | | | | |]; try destruct Hr; cbn [perform].
  - destruct o; unfold submit_path; cbn [path_op]; unfold submit; apply wp_bind, wp_gets; cbn; rewrite Hc;
      apply Hout.
  - unfold mount. apply wp_bind, wp_gets. cbn. rewrite Hc. apply Hout.
  - unfold getexports. apply wp_bind, wp_gets. cbn. apply wp_bind, wp_gets. rewrite Hc. apply Hout.
Qed.

(** The way of [submit] up to its three branches. *)
Lemma submit_branches k t h cmd (Q : unit -> World -> Prop) w :
  Inv (Some k) ∅ w -> ids_left w -> context w <> None ->
  (forall cb w1, cb = mkCallbackData (Op.category t) (now w) h k (handler_type h) false false None ->
     w1 = upd_reg (fun r => upd_activeContinuations (fun s => {[operation w]} ∪ s)
                    (upd_objects <[operation w := cb]>
                       (upd_nextContinuationID (fun n => n + 1) r))) w ->
     operation w ∉ active w -> Inv None ∅ w1 -> fresh_object (operation w) cb w1 ->
     wp (if slot_free (Op.category t) w then issueOperation (operation w) t cmd
         else if maxPendingOperations <=? Z.of_nat (length (pend w)) then
           drop_continuation (operation w) ;; cont_resume k (Threw ENOBUFS_error)
         else pass_retained (operation w) ;;
              modify (upd_pipe (upd_pendingOperations
                        (fun l => l ++ [mkPending (operation w) t cmd])))) Q w1) ->
  wp (submit k t h cmd) Q w.
Proof.
  intros H Hid Hc HQ. unfold submit. apply wp_bind, wp_gets. destruct (context w) eqn:Ec; [|done].
  destruct (reg_fresh _ _ _ _ _ _ (inv_reg _ _ _ H)) as (Hnew & Hnq & _).
  apply wp_bind. eapply wp_next_id; [exact H|exact Hid|]. intros w1 Ew1 H1 Hid1. cbn zeta.
  assert (Hna : operation w ∉ active w).
  { intros Hi. destruct (ri_active _ _ _ _ _ _ (inv_reg _ _ _ H) _ Hi) as (cb & Hcb & _). congruence. }
  apply wp_bind. eapply wp_new_callback; [exact HEX|exact H1|lia|rewrite Ew1; exact Hnew|rewrite Ew1; exact Hnq|].
  intros w2 cb Ew2 H2 F2. apply wp_bind. eapply wp_has_slot; [exact H2|].
  apply wp_bind, wp_gets. subst w1. cbn [reg now upd_reg] in *. subst w2.
  apply (HQ cb); auto.
Qed.

(** A path operation submitted while its category has no free slot and 4096
    operations wait is refused with ENOBUFS: the caller learns it at once, libnfs
    is not called, and the waiting list, the counts and the registered
    continuations are as before. *)
Theorem full_queue_refused w o : reachable w -> ids_left w -> context w <> None ->
  slot_free (Op.category (fst (fst (path_op o)))) w = false ->
  Z.of_nat (length (pend w)) = maxPendingOperations ->
  exists w', handle (Call (RPath o)) w = Some (tt, w') /\
    outcomes (reg w') !! caller w = Some (Threw ENOBUFS_error) /\
    lib w' = lib w /\ pipe w' = pipe w /\ active w' = active w.
Proof.
  intros Hre Hid Hc Hs Hcap. apply wp_block.
  apply wp_call; [now apply reachable_idle|]. intros w1 Ew1 H1. cbn [perform]. unfold submit_path.
  destruct (path_op o) as [[t h] cmd] eqn:Eo. cbn [fst] in Hs.
  apply submit_branches; [exact H1|now rewrite Ew1|now rewrite Ew1|].
  intros cb w2 Ecb Ew2 Hna H2 F2.
  replace (slot_free (Op.category t) w1) with false by (rewrite <- Hs, Ew1; reflexivity).
  replace (pend w1) with (pend w) by (rewrite Ew1; reflexivity). rewrite Hcap, Z.leb_refl.
  unfold drop_continuation, remove_continuation. apply wp_bind, wp_bind, wp_modify, wp_modify.
  apply wp_cont_resume.
  - rewrite Ew2. apply (ri_hand _ _ _ _ _ _ (inv_reg _ _ _ H1) _ eq_refl).
  - rewrite Ew2, Ew1. cbn. rewrite lookup_insert_eq. splits; auto. rewrite Ew1 in Hna. cbn in Hna.
    apply leibniz_equiv. intros x. rewrite elem_of_difference, elem_of_union, elem_of_singleton.
    split; [intros [[->|?] ?]; [done|done]|]. intros Hx. split; [auto|]. intros ->. auto.
Qed.

Lemma busy_submit w o : reachable w -> ids_left w -> context w <> None ->
  slot_free (Op.category (fst (fst (path_op o)))) w = false ->
  Z.of_nat (length (pend w)) < maxPendingOperations ->
  wp (handle (Call (RPath o))) (fun _ w' =>
    pend w' = pend w ++ [mkPending (operation w) (fst (fst (path_op o))) (snd (path_op o))] /\
    lib w' = lib w /\ (forall c, slot_free c w' = slot_free c w) /\
    outcomes (reg w') !! caller w = None /\
    operation w' = operation w + 1 /\ context w' = context w /\ (forall c, inFlight c w' = inFlight c w)) w.
Proof.
  intros Hre Hid Hc Hs Hcap.
  apply wp_call; [now apply reachable_idle|]. intros w1 Ew1 H1. cbn [perform]. unfold submit_path.
  destruct (path_op o) as [[t h] cmd] eqn:Eo. cbn [fst snd] in *.
  apply submit_branches; [exact H1|now rewrite Ew1|now rewrite Ew1|].
  intros cb w2 Ecb Ew2 Hna H2 F2.
  replace (slot_free (Op.category t) w1) with false by (rewrite <- Hs, Ew1; reflexivity).
  replace (pend w1) with (pend w) by (rewrite Ew1; reflexivity).
  rewrite (proj2 (Z.leb_gt _ _)) by exact Hcap.
  unfold pass_retained. apply wp_bind, wp_modify, wp_modify.
  pose proof (proj1 (ri_hand _ _ _ _ _ _ (inv_reg _ _ _ H1) _ eq_refl)) as Hn.
  rewrite Ew2, Ew1 in *. cbn in Hn |- *. splits; auto.
Qed.

(** A path operation submitted while its category has no free slot, with
    fewer than 4096 operations waiting, goes to the end of the waiting list: its
    caller keeps waiting, libnfs is not called, and the operations in flight are
    as before. *)
Theorem busy_submit_waits w o : reachable w -> ids_left w -> context w <> None ->
  slot_free (Op.category (fst (fst (path_op o)))) w = false ->
  Z.of_nat (length (pend w)) < maxPendingOperations ->
  exists w', handle (Call (RPath o)) w = Some (tt, w') /\
    pend w' = pend w ++ [mkPending (operation w) (fst (fst (path_op o))) (snd (path_op o))] /\
    lib w' = lib w /\ (forall c, slot_free c w' = slot_free c w) /\
    outcomes (reg w') !! caller w = None /\
    operation w' = operation w + 1 /\ context w' = context w /\ (forall c, inFlight c w' = inFlight c w).
Proof. intros. now apply wp_block, busy_submit. Qed.

(** Waiting operations pile up: a busy loop reaches every length up to 4096. *)
Lemma fill_queue o n w : reachable w -> context w <> None ->
  slot_free (Op.category (fst (fst (path_op o)))) w = false -> pend w = [] ->
  Z.of_nat n <= maxPendingOperations -> operation w + Z.of_nat n + 1 < 2 ^ 64 ->
  exists w', reachable w' /\ context w' <> None /\
    slot_free (Op.category (fst (fst (path_op o)))) w' = false /\
    length (pend w') = n /\ operation w' = operation w + Z.of_nat n.
Proof.
  intros Hr Hc Hs Hp Hn Hid. induction n as [|n IH].
  { exists w. rewrite Hp. splits; auto. lia. }
  destruct IH as (w1 & R1 & C1 & S1 & L1 & N1); [lia|lia|].
  assert (Hid1 : ids_left w1) by (unfold ids_left; lia).
  destruct (wp_block _ _ _ (busy_submit w1 o R1 Hid1 C1 S1 ltac:(lia))) as (w2 & Hw & P2 & _ & S2 & _ & N2 & C2 & _).
  exists w2. splits.
  - eapply reach_step; [exact R1| |exact Hw]. split; [exact Hid1|exact I].
  - congruence.
  - congruence.
  - rewrite P2, length_app, L1. cbn. lia.
  - lia.
Qed.

(** A path operation submitted while its category has a free slot is called at
    once, after every earlier call and without touching the waiting list.  If
    libnfs accepts it, it is queued there, counted in flight and registered; if
    libnfs refuses it, it is not counted and its caller gets the POSIX error that
    libnfs returned, negated. *)
Theorem free_slot_submit_issues w o : reachable w -> ids_left w -> context w <> None ->
  let '(t, h, cmd) := path_op o in
  slot_free (Op.category t) w = true ->
  exists w', handle (Call (RPath o)) w = Some (tt, w') /\
    issued (lib w') = issued (lib w) ++ [(operation w, cmd)] /\ pend w' = pend w /\
    (0 <= async_rc (operation w) ->
       outst w' !! operation w = Some cmd /\ operation w ∈ active w' /\
       inFlight (Op.category t) w' = inFlight (Op.category t) w + 1) /\
    (async_rc (operation w) < 0 ->
       outst w' = outst w /\ operation w ∉ active w' /\
       inFlight (Op.category t) w' = inFlight (Op.category t) w /\
       exists msg, outcomes (reg w') !! caller w =
         Some (Threw (posix_error (POSIXErrorCode_init (- async_rc (operation w))) msg))).
Proof.
  intros Hre Hid Hc. destruct (path_op o) as [[t h] cmd] eqn:Eo. intros Hs.
  apply wp_block.
  apply wp_call; [now apply reachable_idle|]. intros w1 Ew1 H1. cbn [perform]. unfold submit_path.
  rewrite Eo. apply submit_branches; [exact H1|now rewrite Ew1|now rewrite Ew1|].
  intros cb w2 Ecb Ew2 Hna H2 F2.
  replace (slot_free (Op.category t) w1) with true by (rewrite <- Hs, Ew1; reflexivity).
  pose proof (proj1 (ri_hand _ _ _ _ _ _ (inv_reg _ _ _ H1) _ eq_refl)) as Hn.
  replace (operation w1) with (operation w) in * by (rewrite Ew1; reflexivity).
  unfold issueOperation. apply wp_bind. eapply wp_retain; [exact HEX|exact H2|exact F2|].
  intros w3 Ew3 H3 F3 R3. apply wp_bind, wp_call_async.
  destruct (async_rc (operation w) <? 0) eqn:Erc.
  - apply Z.ltb_lt in Erc. rewrite (called_refused _ _ _ Erc).
    apply wp_bind, wp_release; [exact R3|]. apply wp_bind. unfold remove_continuation. apply wp_modify.
    apply wp_bind, wp_call_error; [lia|]. intros msg. unfold resume.
    apply wp_bind. eapply wp_get_object; [apply F3|]. cbn beta. rewrite (fo_unresumed _ _ _ F3).
    apply wp_bind, wp_modify. apply wp_cont_resume; rewrite Ecb; cbn [continuation].
    + rewrite Ew3, Ew2. exact Hn.
    + rewrite Ew3, Ew2, Ew1. cbn. splits; auto; [lia|]. intros _. splits; auto; [set_solver|].
      exists msg. apply lookup_insert_eq.
  - apply Z.ltb_ge in Erc. apply wp_bind. unfold set_inFlight. apply wp_modify.
    eapply wp_mono; [apply keeps_updateWriteSource; exact (inv_src _ _ _ H3)|].
    intros [] w4 [_ S4]. unfold inFlight.
    rewrite (sc_issued _ _ S4), (sc_pipe _ _ S4), (sc_reg _ _ S4), (sc_out _ _ S4).
    unfold called. rewrite (proj2 (Z.leb_le _ _)) by exact Erc. rewrite Ew3, Ew2, Ew1.
    destruct (Op.category t); cbn; splits; auto; intros; splits; auto; try lia;
      try apply lookup_insert_eq; set_solver.
Qed.

(** C26: admission to the pipeline.  When a path operation is submitted over a live connection, its category allows a
    depth between 1 and 32.  While fewer operations of the category are in flight, the
    operation is called at once, and counted unless libnfs refuses it; the waiting list stays as it
    is.  Otherwise libnfs is not called and the count stays as it is: the operation goes to the end
    of the waiting list if fewer than 4096 operations wait, and its caller keeps waiting;
    or it is refused with ENOBUFS.  So the list never gets longer than 4096.  (The depth does not bound the
    count itself: operations on open files are counted and do not ask for a slot, see
    [handle_calls_exceed_depth].) *)
Theorem pipeline_admission w o : reachable w -> ids_left w -> context w <> None ->
  let '(t, h, cmd) := path_op o in let c := Op.category t in
  exists d w', Pipeline.effectiveDepth (controller c w) = Some d /\ 1 <= d <= 32 /\
    handle (Call (RPath o)) w = Some (tt, w') /\ 0 <= inFlight c w /\ Z.of_nat (length (pend w')) <= 4096 /\
    (inFlight c w < d -> issued (lib w') = issued (lib w) ++ [(operation w, cmd)] /\ pend w' = pend w /\
       inFlight c w' = inFlight c w + (if async_rc (operation w) <? 0 then 0 else 1)) /\
    (d <= inFlight c w -> lib w' = lib w /\ inFlight c w' = inFlight c w /\
       (Z.of_nat (length (pend w)) < 4096 /\ pend w' = pend w ++ [mkPending (operation w) t cmd] /\
          outcomes (reg w') !! caller w = None \/
        Z.of_nat (length (pend w)) = 4096 /\ pend w' = pend w /\
          outcomes (reg w') !! caller w = Some (Threw ENOBUFS_error))).
Proof.
  intros Hr Hid Hc. pose proof (free_slot_submit_issues w o Hr Hid Hc) as Hfree.
  pose proof (busy_submit_waits w o Hr Hid Hc) as Hbusy. pose proof (full_queue_refused w o Hr Hid Hc) as Hfull.
  destruct (path_op o) as [[t h] cmd] eqn:Eo. cbn [fst snd] in Hbusy, Hfull.
  destruct (depth_bounds w (Op.category t) Hr) as (H0 & d & Hd & Hb & Hs). exists d. cbv zeta. rewrite Hs in Hfree, Hbusy, Hfull.
  pose proof (pi_capacity _ (inv_pipe _ _ _ (idle_inv _ (reachable_idle w Hr)))) as Hcap. unfold maxPendingOperations in *.
  destruct (Z.lt_ge_cases (inFlight (Op.category t) w) d) as [Hlt|Hge].
  - destruct (Hfree (proj2 (Z.ltb_lt _ _) Hlt)) as (w' & Hrun & Hi & Hp & Hok & Hno). exists w'. rewrite Hp.
    splits; auto; try lia. intros _. splits; auto. destruct (async_rc (operation w) <? 0) eqn:Erc.
    + apply Z.ltb_lt in Erc. destruct (Hno Erc) as (_ & _ & Hn & _). lia.
    + apply Z.ltb_ge in Erc. apply Hok, Erc.
  - destruct (Z.lt_ge_cases (Z.of_nat (length (pend w))) 4096) as [Hroom|Hnone].
    + destruct (Hbusy (proj2 (Z.ltb_ge _ _) Hge) Hroom) as (w' & Hrun & Hp & Hl & _ & Ho & _ & _ & Hn). exists w'.
      splits; auto; try lia; [rewrite Hp, length_app; cbn; lia|]. intros _. splits; auto.
    + assert (Hlen : Z.of_nat (length (pend w)) = 4096) by lia.
      destruct (Hfull (proj2 (Z.ltb_ge _ _) Hge) Hlen) as (w' & Hrun & Ho & Hl & Hp & _). exists w'.
      splits; auto; try lia; [rewrite Hp; lia|]. intros _. unfold inFlight. rewrite Hp. splits; auto.
Qed.

(** ** Contracts *)


(** C37: an export query that fails in the documented way, with a negated errno,
    is reported to its caller as EIO whatever the error was: the callback passes
    the negative status on as if it were an error code. *)
Theorem export_errors_become_EIO w i cb status data : reachable w ->
  rpcq w = Some i -> i ∈ active w -> objects (reg w) !! i = Some cb ->
  callback_allowed Api.mount_getexports_async status data = true -> status < 0 ->
  exists w', deliver_rpc (status, data) w = Some (tt, w') /\
    outcomes (reg w') !! continuation cb = Some (Threw (posix_error_plain EIO)).
Proof.
  intros Hre Hi Ha Hcb Hall Hneg. pose proof (idle_inv _ (reachable_idle w Hre)) as H.
  destruct (ri_active _ _ _ _ _ _ (inv_reg _ _ _ H) i Ha) as (cb' & Hcb' & Hun).
  rewrite Hcb in Hcb'. injection Hcb' as <-.
  assert (Hret : i ∈ retained (reg w))
    by (eapply ri_retained; [apply H|]; rewrite Hi; eauto with registry).
  destruct (ri_rpc _ _ _ _ _ _ (inv_reg _ _ _ H) _ Hi) as [Hnp Hno].
  apply wp_block.
  unfold deliver_rpc. cbn [fst snd]. apply wp_bind, wp_gets. rewrite Hi, Hall. cbn [when].
  apply wp_bind.
  eapply wp_mono; [apply wp_exact, (safe_unqueue_rpc None ({[i]} ∪ ∅)), Inv_take;
    [exact H|rewrite Hi; eauto with registry]|].
  intros [] w1 [[H1 _] Hw1]. cbn beta. injection Hw1 as <-. unfold rpcCallback.
  assert (Hnq : ~ queued (pend w) (outst w) None i)
    by (intros [?|[[? Hj]|[=]]]; [auto|congruence]).
  apply wp_bind. eapply wp_take_retained; [exact H1|exact Hret|exact Hnq|exact Hcb|].
  intros w2 H2 Q2 _ _ Hcb2. apply wp_bind. eapply wp_get_object; [exact Hcb2|]. cbn beta.
  rewrite (proj2 (Z.eqb_neq status 0)) by lia. cbn [negb].
  rewrite (POSIXErrorCode_init_neg status) by lia.
  assert (Hnp2 : ~ In i (map id (pend w2))).
  { intros Hx. apply Hnp. apply in_map_iff in Hx as (op & <- & Hop). apply in_map.
    apply list_elem_of_In. eapply sublist_subseteq; [apply (ev_pend _ _ (proj1 Q2))|].
    now apply list_elem_of_In. }
  eapply wp_mono; [apply (finish_outcome None ∅ i cb (inl _) w2 H2 I Hnp2 Hcb2 Hun); discriminate|].
  intros [] w3 (_ & _ & _ & _ & Ho). exact Ho.
Qed.

End Props.
