(* ===== verification/EventLoopRuns.v ===== *)
(** * Runs of the event loop

    A concrete environment, runs of the loop in it, and the properties of the
    event loop applied to the states these runs reach.  The runs also show
    behaviour that no theorem promises and that the comments of the source
    exclude. *)

From Stdlib Require Import Strings.Byte.
From stdpp Require Import base list gmap strings numbers.
From S2P Require Import Prelude Posix PipelineController Memory CType LibnfsApi.
From S2P Require Import StateMonad DispatchSource OperationType EventLoopState EventLoop.
From S2P Require Import SourceInv SourceSpecs RegistryInv BufferInv EventLoopInv EventLoopSafe.
From S2P Require Import EventLoopProps.

Open Scope string_scope.
Open Scope list_scope.
Open Scope Z_scope.

(** ** An environment *)

Definition zero_stat : Api.nfs_stat_64 := Api.mk_nfs_stat_64 0 0 0 0 0 0 0 0 0 0 0 0 0 0 0 0 0.

Definition demo_rc (refused i : Z) : Z := if i =? refused then -5 else 0.

Lemma demo_rc_range refused i : - 2 ^ 31 < demo_rc refused i < 2 ^ 31.
Proof. unfold demo_rc. destruct (i =? refused); lia. Qed.

Lemma small_ino : forall (n : nat) i, Some 11 = Some i -> 0 <= i < 2 ^ 63.
Proof. intros _ i [= <-]. lia. Qed.

(** libnfs accepts every call, except that it answers [-5] for identifier
    [refused]; every service call tries to deliver [replies] and returns [rc]. *)
Definition demo (refused : Z) (replies : list LibEvent) (rpcs : list (Z * cdata)) (rc : Z) : Env := {|
  async_rc := demo_rc refused;
  async_rc_range := demo_rc_range refused;
  get_error := fun _ => "error";
  which_events := fun _ => POLLIN;
  get_fd := fun _ => 7;
  fstat_ino := fun _ => Some 11;
  fstat_ino_range := small_ino;
  service_rc := fun _ => rc;
  lib_events := fun _ => replies;
  rpc_events := fun _ => rpcs;
  rpc_init := fun _ => true;
  dict_order := fun l => l;
  dict_order_perm := fun l => reflexivity l;
  read_stat := fun _ => zero_stat;
  read_cstring := fun _ => "target";
  read_uint64 := fun _ => 42;
  read_exports := fun _ => Some [Some "/export"];
  readdir := fun _ => []
|}.

Lemma demo_exports refused replies rpcs rc : @exports_listed (demo refused replies rpcs rc).
Proof. intros a. eexists. reflexivity. Qed.

(** ** Runs *)

Section Runs.
Context `{E : Env}.

(** The conditions on callers, decided. *)
Definition request_okb (r : Request) (w : World) : bool :=
  match r with
  | RRead _ _ n => (0 <=? n) && (n <? 2 ^ 63)
  | RRegister (CPointer t _) => bool_decide (t = Tstruct "nfsfh") && (nextHandleID (handles w) + 1 <? 2 ^ 64)
  | RPreadInto _ _ _ _ | RRegister _ | RReaddir _ => false
  | _ => true
  end.

Definition event_okb (e : Event) (w : World) : bool :=
  match e with
  | Call r => (nextContinuationID (reg w) + 1 <? 2 ^ 64) && request_okb r w
  | FreeBuffer _ => false
  | _ => true
  end.

Lemma event_okb_ok e w : event_okb e w = true -> event_ok e w.
Proof.
  destruct e; try done. cbn. intros [H1 H2]%andb_prop. split; [unfold ids_left; lia|].
  destruct r; try done; cbn in *; [lia|]. destruct p; try done.
  apply andb_prop in H2 as [->%bool_decide_eq_true_1 H2]. split; [eauto|lia].
Qed.

(** The state after [es], as far as the events are possible. *)
Fixpoint after (es : list Event) (w : World) : World :=
  match es with
  | [] => w
  | e :: es => if event_okb e w
               then match handle e w with Some (_, w') => after es w' | None => w end
               else w
  end.

Lemma after_reachable es : forall w, reachable w -> reachable (after es w).
Proof.
  induction es as [|e es IH]; intros w Hw; [exact Hw|]. cbn [after].
  destruct (event_okb e w) eqn:He; [|exact Hw]. destruct (handle e w) as [[[] w']|] eqn:Hh; [|exact Hw].
  apply IH. eapply reach_step; eauto using event_okb_ok.
Qed.

End Runs.

(** A loop with a timeout of 10 ns, created at time 100. *)
Definition start : World :=
  match init true 10 100 with inr w => w | inl _ => mkWorld None false 0
    (mkIo None None 0 0 false false) (mkExports None None None false false None)
    (mkPipe Pipeline.init Pipeline.init [] 0 0) (mkRegistry ∅ 0 ∅ ∅ ∅ 0) (mkHandles ∅ 0)
    (mkLog None ∅ 0 None []) (mkLib ∅ None [] [] O) sources_empty mem_empty 0 end.

Lemma start_reachable `{E : Env} : reachable start.
Proof. exact (reach_init 10 100 start eq_refl). Qed.

(** ** The properties at work *)

(** No replies; and an operation that libnfs refuses. *)
Definition quiet_env : Env := demo 0 [] [] 0.
Definition refusing_env : Env := demo 1 [] [] 0.

Lemma demo_reachable `{E : Env} es : reachable (after es start).
Proof. apply after_reachable, start_reachable. Qed.

(** Mount and two path operations. *)
Definition mounted : World := @after quiet_env
  [Call (RMount "server" "/export"); Call (RPath (Stat "/a")); Call (RPath (Unlink "/b"));
   Call (RPath (Mkdir "/c")); Elapse 50; Call (RPath (Rmdir "/d"))] start.

(** A file is open and a read of four bytes is on its way. *)
Definition reading : World := @after quiet_env
  [Call (RRegister (CPointer (Tstruct "nfsfh") 77)); Call (RRead 1 None 4)] start.

(** The state after one more event. *)
Definition next `{E : Env} (e : Event) (w : World) : World :=
  match handle e w with Some (_, w') => w' | None => w end.


Lemma continuations_accounted_witness :
  (is_Some (outcomes (reg mounted) !! 1) /\
     forall i cb, i ∈ active mounted -> objects (reg mounted) !! i = Some cb -> continuation cb <> 1) \/
  (outcomes (reg mounted) !! 1 = None /\
     exists i cb, i ∈ active mounted /\ objects (reg mounted) !! i = Some cb /\ continuation cb = 1 /\
       hasResumed cb = false /\
       forall j cj, objects (reg mounted) !! j = Some cj -> continuation cj = 1 -> j = i).
Proof.
  apply (@continuations_accounted quiet_env (demo_exports _ _ _ _)); [apply demo_reachable|].
  vm_compute; split; [discriminate|reflexivity].
Defined.

Lemma outcomes_final_witness :
  outcomes (reg (@next quiet_env Shutdown (@next quiet_env TimerFired mounted))) !! 1
    = Some (Threw (posix_error_plain ETIMEDOUT)).
Proof.
  apply (@outcomes_final quiet_env (demo_exports _ _ _ _) Shutdown (@next quiet_env TimerFired mounted)).
  - apply (reach_step mounted TimerFired); [apply demo_reachable|exact I|vm_compute; reflexivity].
  - exact I.
  - vm_compute; reflexivity.
  - vm_compute; reflexivity.
Defined.

Lemma shutdown_resumes_all_witness :
  let w' := @next quiet_env Shutdown mounted in
  context w' = None /\ active w' = ∅ /\
  (0 <= 2 < nextCall (reg w') -> is_Some (outcomes (reg w') !! 2)).
Proof.
  apply (@shutdown_resumes_all quiet_env (demo_exports _ _ _ _) mounted);
    [apply demo_reachable|vm_compute; reflexivity].
Defined.

Lemma callback_pointers_valid_witness :
  is_Some (objects (reg reading) !! 1) /\ 1 ∈ retained (reg reading) /\
  (In 1 (map id (pend reading)) -> outst reading !! 1 = None /\ rpcq reading <> Some 1) /\
  (forall c b n, outst reading !! 1 = Some c -> command_buffer c = Some (b, n) ->
     in_block b n (heap reading)).
Proof.
  apply (@callback_pointers_valid quiet_env (demo_exports _ _ _ _)); [apply demo_reachable|].
  right; left. eexists. vm_compute; reflexivity.
Defined.

Lemma pipeline_admission_witness :
  let '(t, h, cmd) := path_op (Stat "/e") in let c := Op.category t in
  exists d w', Pipeline.effectiveDepth (controller c mounted) = Some d /\ 1 <= d <= 32 /\
    @handle quiet_env (Call (RPath (Stat "/e"))) mounted = Some (tt, w') /\
    0 <= inFlight c mounted /\ Z.of_nat (length (pend w')) <= 4096 /\
    (inFlight c mounted < d -> issued (lib w') = issued (lib mounted) ++ [(nextContinuationID (reg mounted), cmd)] /\
       pend w' = pend mounted /\
       inFlight c w' = inFlight c mounted + (if @async_rc quiet_env (nextContinuationID (reg mounted)) <? 0 then 0 else 1)) /\
    (d <= inFlight c mounted -> lib w' = lib mounted /\ inFlight c w' = inFlight c mounted /\
       (Z.of_nat (length (pend mounted)) < 4096 /\ pend w' = pend mounted ++ [mkPending (nextContinuationID (reg mounted)) t cmd] /\
          outcomes (reg w') !! nextCall (reg mounted) = None \/
        Z.of_nat (length (pend mounted)) = 4096 /\ pend w' = pend mounted /\
          outcomes (reg w') !! nextCall (reg mounted) = Some (Threw ENOBUFS_error))).
Proof.
  apply (@pipeline_admission quiet_env (demo_exports _ _ _ _) mounted (Stat "/e"));
    [apply demo_reachable|vm_compute; reflexivity|vm_compute; discriminate].
Defined.

Definition object_of (i : Z) (w : World) : CallbackData :=
  match objects (reg w) !! i with
  | Some cb => cb
  | None => mkCallbackData metadata 0 HVoid 0 TVoid false false None
  end.

Lemma error_reaches_caller_witness : exists w',
  @deliver quiet_env (Reply 1 (-2) (CString "ENOENT") []) reading = Some (tt, w') /\
  outcomes (reg w') !! 1 = Some (Threw (posix_error_plain 2)) /\
  1 ∉ active w' /\ (forall p, cleanup (object_of 1 reading) = Some p -> ~ live p (heap w')).
Proof.
  apply (@error_reaches_caller quiet_env (demo_exports _ _ _ _) reading 1
           (CRead 77 (mkBufPtr 1 0) 4) (object_of 1 reading) (-2) "ENOENT");
    first [apply demo_reachable | vm_compute; reflexivity].
Defined.

Lemma read_returns_bytes_witness : exists w',
  @deliver quiet_env (Reply 1 3 CNull [x61; x62; x63]) reading = Some (tt, w') /\
  outcomes (reg w') !! 1 = Some (Returned (VData (DataNoCopy 1 3))) /\
  data_cells (DataNoCopy 1 3) (heap w') = Some (Some <$> [x61; x62; x63]).
Proof.
  apply (@read_returns_bytes quiet_env (demo_exports _ _ _ _) reading 1
           (CRead 77 (mkBufPtr 1 0) 4) (object_of 1 reading) 1 4 [x61; x62; x63]);
    first [apply demo_reachable | vm_compute; reflexivity | vm_compute; discriminate].
Defined.

Lemma waiting_operations_issued_witness : exists w',
  @issuePendingOperations quiet_env mounted = Some (tt, w') /\ issued_in_order mounted w' /\
  (context mounted <> None -> all_blocked (pend w') w').
Proof.
  apply (@waiting_operations_issued quiet_env (demo_exports _ _ _ _)), demo_reachable.
Defined.

Lemma io_event_issues_all_witness :
  all_blocked (pend (@next quiet_env SocketReady mounted)) (@next quiet_env SocketReady mounted).
Proof.
  apply (@io_event_issues_all quiet_env (demo_exports _ _ _ _) mounted);
    [apply demo_reachable|vm_compute; reflexivity|vm_compute; discriminate].
Defined.

Lemma timeouts_exact_witness :
  let w' := @next quiet_env TimerFired mounted in
  (forall i cb, expired mounted i -> objects (reg mounted) !! i = Some cb ->
     outcomes (reg w') !! continuation cb = Some (Threw (posix_error_plain ETIMEDOUT)) /\
     i ∉ active w') /\
  (rpcExportsContID (rpcx mounted) = None ->
     forall i, i ∈ active mounted -> ~ expired mounted i -> i ∈ active w').
Proof.
  apply (@timeouts_exact quiet_env (demo_exports _ _ _ _) mounted);
    first [apply demo_reachable | vm_compute; reflexivity].
Defined.

Lemma disconnected_fails_witness :
  let w := @next quiet_env Shutdown mounted in
  exists w', @handle quiet_env (Call (RPath (Stat "/a"))) w = Some (tt, w') /\
    exists msg, outcomes (reg w') !! 5 = Some (Threw (posix_error ENOTCONN msg)) /\
      lib w' = lib w /\ pipe w' = pipe w /\ active w' = active w.
Proof.
  apply (@disconnected_fails quiet_env (demo_exports _ _ _ _));
    [|vm_compute; reflexivity|exact I].
  apply (reach_step mounted Shutdown); [apply demo_reachable|exact I|vm_compute; reflexivity].
Defined.

(** Two operations in flight: the pipeline's first depth. *)
Definition busy : World :=
  @after quiet_env [Call (RPath (Stat "/a")); Call (RPath (Stat "/b"))] start.

Lemma full_queue_refused_witness : exists w w',
  @handle quiet_env (Call (RPath Unmount)) w = Some (tt, w') /\
  outcomes (reg w') !! nextCall (reg w) = Some (Threw ENOBUFS_error) /\
  lib w' = lib w /\ pipe w' = pipe w /\ active w' = active w.
Proof.
  assert (Hid : nextContinuationID (reg busy) = 3) by (vm_compute; reflexivity).
  destruct (@fill_queue quiet_env (demo_exports _ _ _ _) Unmount 4096 busy
    (demo_reachable _)) as (w & Hr & Hc & Hs & Hl & Hi);
    [vm_compute; discriminate|vm_compute; reflexivity|vm_compute; reflexivity
    |vm_compute; discriminate|rewrite Hid; vm_compute; reflexivity|].
  exists w. apply (@full_queue_refused quiet_env (demo_exports _ _ _ _) w Unmount Hr); auto.
  - unfold ids_left. rewrite Hi, Hid. vm_compute. reflexivity.
  - rewrite Hl. reflexivity.
Defined.

Lemma busy_submit_waits_witness : exists w',
  @handle quiet_env (Call (RPath (Readlink "/l"))) busy = Some (tt, w') /\
  pend w' = pend busy ++ [mkPending 3 Op.readlink (CReadlink "/l")] /\
  lib w' = lib busy /\ (forall c, slot_free c w' = slot_free c busy) /\
  outcomes (reg w') !! 2 = None /\
  nextContinuationID (reg w') = 3 + 1 /\ context w' = context busy /\ (forall c, inFlight c w' = inFlight c busy).
Proof.
  apply (@busy_submit_waits quiet_env (demo_exports _ _ _ _) busy (Readlink "/l"));
    first [apply demo_reachable | vm_compute; reflexivity | vm_compute; discriminate].
Defined.

Lemma free_slot_submit_issues_witness : exists w',
  @handle refusing_env (Call (RPath (Stat "/a"))) start = Some (tt, w') /\
  issued (lib w') = issued (lib start) ++ [(1, CStat "/a")] /\ pend w' = pend start /\
  (0 <= -5 -> outst w' !! 1 = Some (CStat "/a") /\ 1 ∈ active w' /\
     inFlight metadata w' = inFlight metadata start + 1) /\
  (-5 < 0 -> outst w' = outst start /\ 1 ∉ active w' /\
     inFlight metadata w' = inFlight metadata start /\
     exists msg, outcomes (reg w') !! 0 = Some (Threw (posix_error (POSIXErrorCode_init (- -5)) msg))).
Proof.
  apply (@free_slot_submit_issues refusing_env (demo_exports _ _ _ _) start (Stat "/a"));
    first [apply start_reachable | vm_compute; reflexivity | vm_compute; discriminate].
Defined.


(** An export query is on its way. *)
Definition querying : World := @after quiet_env [Call (RGetexports "server")] start.

Lemma export_errors_become_EIO_witness : exists w',
  @deliver_rpc quiet_env (-13, CString "EACCES") querying = Some (tt, w') /\
  outcomes (reg w') !! continuation (object_of 1 querying) = Some (Threw (posix_error_plain EIO)).
Proof.
  apply (@export_errors_become_EIO quiet_env (demo_exports _ _ _ _) querying 1);
    first [apply demo_reachable | vm_compute; reflexivity].
Defined.

Lemma sources_balanced_witness :
  NoDup (map fst (io_sources (io mounted) ++ rpc_sources (rpcx mounted))) /\
  (forall i, readSource (io mounted) = Some i -> at_count i 0 (sources mounted)) /\
  (forall i, writeSource (io mounted) = Some i ->
     at_count i (count_of (writeSourceSuspended (io mounted))) (sources mounted)) /\
  (forall i, rpcExportsReadSource (rpcx mounted) = Some i -> at_count i 0 (sources mounted)) /\
  (forall i, rpcExportsWriteSource (rpcx mounted) = Some i ->
     at_count i (count_of (rpcExportsWriteSuspended (rpcx mounted))) (sources mounted)).
Proof. apply (@sources_balanced quiet_env (demo_exports _ _ _ _)), demo_reachable. Defined.

(** A write of two bytes is on its way. *)
Definition writing : World := @after quiet_env
  [Call (RRegister (CPointer (Tstruct "nfsfh") 77)); Call (RWrite 1 None [x61; x62])] start.

Lemma write_reports_count_witness : exists w',
  @deliver quiet_env (Reply 1 2 CNull []) writing = Some (tt, w') /\
  outcomes (reg w') !! continuation (object_of 1 writing) = Some (Returned (VInt 2)) /\
  heap w' = heap writing /\ (forall p, cleanup (object_of 1 writing) = Some p -> live p (heap w')).
Proof.
  apply (@write_reports_count quiet_env (demo_exports _ _ _ _) writing 1
           (CWrite 77 (mkBufPtr 1 0) 2) (object_of 1 writing) 2);
    first [apply demo_reachable | lia | vm_compute; reflexivity].
Defined.

(** ** Behaviour that the comments exclude *)

(** An environment that answers operation [i] with success. *)
Definition replying_env (i : Z) (status : Z) (data : cdata) (bytes : list byte) : Env :=
  demo 0 [Reply i status data bytes] [] 0.

(** The comment on [CallbackData.cleanup] and the one in [writeFile] say that the
    write buffer is freed on every path.  After a write that succeeds it is not:
    nothing refers to block 1 any more, and it is still allocated. *)
Definition written : World := @after (replying_env 1 2 CNull [])
  [Call (RRegister (CPointer (Tstruct "nfsfh") 77)); Call (RWrite 1 None [x61; x62]); SocketReady] start.

Example write_buffer_leaks :
  outcomes (reg written) !! 1 = Some (Returned (VInt 2)) /\ active written = ∅ /\
  outst written = ∅ /\ blocks (heap written) !! 1 = Some [Some x61; Some x62].
Proof. vm_compute. splits; auto 6. Qed.

(** An operation that timed out is counted out of flight, and counted out again
    when its reply arrives: here two operations are queued in libnfs and one is
    counted. *)
Definition late_reply : World := @after (replying_env 1 0 (CPointer (Tstruct "nfs_stat_64") 5) [])
  [Call (RPath (Stat "/a")); Elapse 50; TimerFired; Call (RPath (Stat "/b"));
   Call (RPath (Stat "/c")); SocketReady] start.

Example late_reply_counted_twice :
  map fst (map_to_list (outst late_reply)) = [3; 2] /\ inFlight metadata late_reply = 1.
Proof. vm_compute. splits; auto 6. Qed.

(** An operation that times out while it waits is reported to its caller as
    ETIMEDOUT, stays in the waiting list, and is executed later. *)
Definition stale_env : Env := replying_env 1 0 (CPointer (Tstruct "nfs_stat_64") 5) [].

Definition timed_out_waiting : World := @after stale_env
  [Call (RPath (Stat "/a")); Call (RPath (Stat "/b")); Call (RPath (Rmdir "/d")); Elapse 50;
   TimerFired] start.

Example timed_out_still_executed :
  outcomes (reg timed_out_waiting) !! 2 = Some (Threw (posix_error_plain ETIMEDOUT)) /\
  issued (lib timed_out_waiting) = [(1, CStat "/a"); (2, CStat "/b")] /\
  In (3, CRmdir "/d") (issued (lib (@next stale_env SocketReady timed_out_waiting))).
Proof. vm_compute. splits; auto 6. Qed.

(** The timer frees slots but does not issue what waits for them. *)
Example timer_issues_nothing :
  slot_free metadata timed_out_waiting = true /\
  map id (pend timed_out_waiting) = [3].
Proof. vm_compute. splits; auto 6. Qed.

(** Operations on open files do not ask for a slot: here three are in flight in
    a pipeline of depth two. *)
Definition three_syncs : World := @after quiet_env
  [Call (RRegister (CPointer (Tstruct "nfsfh") 77)); Call (RFsync 1); Call (RFsync 1);
   Call (RFsync 1)] start.

Example handle_calls_exceed_depth :
  inFlight metadata three_syncs = 3 /\
  Pipeline.effectiveDepth (controller metadata three_syncs) = Some 2.
Proof. vm_compute. splits; auto 6. Qed.

(** [preadIntoBuffer] times out: its caller is told, and frees the destination;
    the reply then arrives, and libnfs writes to freed memory. *)
Definition reply16 : Env := replying_env 1 16 CNull (repeat x00 16).

Definition abandon_read : list Event :=
  [Call (RRegister (CPointer (Tstruct "nfsfh") 77)); AllocBuffer 16;
   Call (RPreadInto 1 (mkBufPtr 1 0) 0 16); Elapse 50; TimerFired].

Example late_read_into_freed_buffer :
  option_map (fun p => outcomes (reg (snd p)) !! 1) (@run reply16 abandon_read start)
    = Some (Some (Threw (posix_error_plain ETIMEDOUT))) /\
  is_Some (@run reply16 (abandon_read ++ [FreeBuffer 1]) start) /\
  @run reply16 (abandon_read ++ [FreeBuffer 1; SocketReady]) start = None.
Proof. vm_compute. splits; eauto. Qed.

(** A server without exports answers with a pointer to a null list; the handler
    of [getexports] dereferences it without a test. *)
Definition no_exports_env : Env := {|
  async_rc := demo_rc 0;
  async_rc_range := demo_rc_range 0;
  get_error := fun _ => "error";
  which_events := fun _ => POLLIN;
  get_fd := fun _ => 7;
  fstat_ino := fun _ => Some 11;
  fstat_ino_range := small_ino;
  service_rc := fun _ => 0;
  lib_events := fun _ => [];
  rpc_events := fun _ => [(0, CPointer (Ttypedef "exports") 9)];
  rpc_init := fun _ => true;
  dict_order := fun l => l;
  dict_order_perm := fun l => reflexivity l;
  read_stat := fun _ => zero_stat;
  read_cstring := fun _ => "";
  read_uint64 := fun _ => 0;
  read_exports := fun _ => None;
  readdir := fun _ => []
|}.

Example empty_export_list_traps :
  @handle no_exports_env ExportsReady (@after no_exports_env [Call (RGetexports "server")] start) = None.
Proof. vm_compute. reflexivity. Qed.

(** A directory with an entry whose size does not fit 63 bits, which libnfs's 64-bit unsigned
    field allows: reading the directory stops the program. *)
Definition no_time : Api.timeval := Api.mk_timeval 0 0.
Definition huge_entry : Api.nfsdirent :=
  Api.mk_nfsdirent 0 (Some "f") 1 1 0 (2 ^ 63) no_time no_time no_time 0 0 1 0 0 0 0 0 0 0 0.

Definition huge_env : Env := {|
  async_rc := demo_rc 0;
  async_rc_range := demo_rc_range 0;
  get_error := fun _ => "error";
  which_events := fun _ => POLLIN;
  get_fd := fun _ => 7;
  fstat_ino := fun _ => Some 11;
  fstat_ino_range := small_ino;
  service_rc := fun _ => 0;
  lib_events := fun _ => [];
  rpc_events := fun _ => [];
  rpc_init := fun _ => true;
  dict_order := fun l => l;
  dict_order_perm := fun l => reflexivity l;
  read_stat := fun _ => zero_stat;
  read_cstring := fun _ => "";
  read_uint64 := fun _ => 0;
  read_exports := fun _ => Some [];
  readdir := fun _ => [huge_entry]
|}.

Example huge_entry_traps : @handle huge_env (Call (RReaddir (CPointer (Tstruct "nfsdir") 3))) start = None.
Proof. vm_compute. reflexivity. Qed.
