(* ===== verification/HandleLife.v ===== *)
(** * The life of a file handle

    A pointer that libnfs opened is registered under a token, and is closed by
    [closeFile] or when the token goes away.  Everything else the event loop does
    leaves the registry and the closed handles alone; so no registration leads to
    two closes. *)

From Stdlib Require Import Strings.Byte.
From stdpp Require Import base gmap strings list.
From S2P Require Import Prelude Posix Memory CType LibnfsApi.
From S2P Require Import StateMonad DispatchSource OperationType EventLoopState EventLoop Walk EventLoopRuns.

Open Scope Z_scope.
Open Scope monad_scope.

Module HandleLife.

(** ** What the handles see of a state *)

Definition close_of (c : Command) : option Z := match c with CClose fh => Some fh | _ => None end.

(** The handles given to [nfs_close_async] and to [nfs_close], in order. *)
Definition async_closes (w : World) : list Z := omap (fun p => close_of p.2) (issued (lib w)).

Definition sync_closes (w : World) : list Z :=
  omap (fun p => if decide (p.1 = Tstruct "nfsfh") then Some p.2 else None) (closed (lib w)).

(** Waiting operations close nothing. *)
Definition plain (w : World) : Prop :=
  forall op, op ∈ pendingOperations (pipe w) -> close_of (execute op) = None.

(** Nothing happened to a handle. *)
Record steady (w w' : World) : Prop := mkSteady {
  st_plain : plain w';
  st_handles : handles w' = handles w;
  st_async : async_closes w' = async_closes w;
  st_sync : sync_closes w' = sync_closes w
}.

Lemma steady_refl w : plain w -> steady w w.
Proof. now constructor. Qed.

Lemma steady_trans w1 w2 w3 : steady w1 w2 -> steady w2 w3 -> steady w1 w3.
Proof. intros [? ? ? ?] [? ? ? ?]. constructor; [assumption|congruence..]. Qed.

Definition life : Footprint World := mkFootprint World plain steady steady_refl steady_trans st_plain.

(** Whatever such a method does, nothing happens to a handle. *)
Abbreviation inert := (fp_inert life).

Ltac footprint := footprint_with ltac:(now constructor).

Section Life.
Context `{E : Env}.

#[export] Instance loose_life : Loose life.
Proof.
  intros w w' Hp []. constructor; [|assumption|..].
  - intros op. rewrite to_pending. apply Hp.
  - unfold async_closes. now rewrite to_issued.
  - unfold sync_closes. now rewrite to_closed.
Qed.

Lemma inert_new_callback i c h k t x b : inert (new_callback i c h k t x b).
Proof. unfold new_callback. footprint. Qed.
Lemma inert_cancelTimeoutTimer : inert cancelTimeoutTimer.
Proof. unfold cancelTimeoutTimer. footprint. Qed.
#[local] Hint Resolve inert_new_callback inert_cancelTimeoutTimer : footprint.

Lemma async_closes_snoc w i c : close_of c = None ->
  async_closes (upd_lib (upd_issued (fun l => l ++ [(i, c)])) w) = async_closes w.
Proof. intros Hc. unfold async_closes. cbn. rewrite omap_app. cbn. now rewrite Hc, app_nil_r. Qed.

Lemma inert_call_async i c : close_of c = None -> inert (call_async i c).
Proof.
  intros Hc. unfold call_async. apply inert_bind; [|intro; footprint].
  apply inert_modify. intros w Hp. constructor; try done. now apply async_closes_snoc.
Qed.

Lemma inert_issue_one i op : close_of (execute op) = None -> inert (issue_one i op).
Proof.
  intros Hc. unfold issue_one. apply inert_bind; [|intro].
  - apply inert_modify. intros w Hp. constructor; try done. intros o Ho. apply Hp.
    cbn in Ho. apply elem_of_app in Ho as [Ho|Ho];
      [eapply subseteq_take|eapply subseteq_drop]; exact Ho.
  - apply inert_bind; [footprint|intro]. apply inert_bind; [now apply inert_call_async|intro]. footprint.
Qed.

Lemma inert_issue_loop fuel : forall i, inert (issue_loop fuel i).
Proof.
  induction fuel as [|fuel IH]; intros i w; cbn [issue_loop]; apply still_gets;
    destruct (_ !! i) as [op|] eqn:Eop; try apply still_ret; [apply still_trap|].
  apply still_inv. intros Hp.
  assert (Hc : close_of (execute op) = None) by (apply Hp; now apply list_elem_of_lookup_2 in Eop).
  apply inert_bind; [footprint|]. intros []; [|apply IH]. apply inert_bind; [now apply inert_issue_one|auto].
Qed.
#[local] Hint Resolve inert_issue_loop : footprint.

Lemma inert_issuePendingOperations : inert issuePendingOperations.
Proof. unfold issuePendingOperations. footprint. Qed.
#[local] Hint Resolve inert_issuePendingOperations : footprint.

(** *** Whole blocks *)

Lemma inert_destroy_context : inert destroy_context.
Proof. unfold destroy_context, nfs_destroy_context. footprint. Qed.
#[local] Hint Resolve inert_destroy_context : footprint.
Lemma inert_clear_pending : inert (modify (upd_pipe (upd_pendingOperations (fun _ => [])))).
Proof. apply inert_modify. intros w Hp. constructor; try done. intros op Hop. inversion Hop. Qed.

Lemma inert_shutdownWithError e : inert (shutdownWithError e).
Proof.
  unfold shutdownWithError. do 5 (apply inert_bind; [footprint|intro]).
  apply inert_bind; [apply inert_clear_pending|intro]. footprint.
Qed.
#[local] Hint Resolve inert_shutdownWithError : footprint.
Lemma inert_handleIOEvent : inert handleIOEvent.
Proof. unfold handleIOEvent, nfs_service. footprint. Qed.

(** *** Calls *)

Lemma inert_issueOperation i t c : close_of c = None -> inert (issueOperation i t c).
Proof.
  intros Hc. unfold issueOperation. apply inert_bind; [footprint|intro].
  apply inert_bind; [now apply inert_call_async|intro]. footprint.
Qed.

Lemma inert_start_call k i c cmd buf : close_of cmd = None -> inert (start_call k i c cmd buf).
Proof.
  intros Hc. unfold start_call, free. apply inert_bind; [footprint|intro].
  apply inert_bind; [now apply inert_call_async|intro]. footprint.
Qed.
#[local] Hint Resolve inert_issueOperation inert_start_call : footprint.

Lemma inert_submit k t h c : close_of c = None -> inert (submit k t h c).
Proof.
  intros Hc. unfold submit. apply inert_bind; [footprint|intros [ctx|]]; [|footprint].
  apply inert_bind; [footprint|intro]. cbn zeta. apply inert_bind; [footprint|intro].
  apply inert_bind; [footprint|intros []]; [now apply inert_issueOperation|].
  apply inert_bind; [footprint|intro]. destruct (_ <=? _); [footprint|].
  apply inert_bind; [footprint|intro]. apply inert_modify. intros w Hp. constructor; try done.
  intros op. cbn. rewrite elem_of_app, list_elem_of_singleton. intros [Hop| ->]; [now apply Hp|done].
Qed.

Lemma inert_submit_path k o : inert (submit_path k o).
Proof. unfold submit_path. destruct o; now apply inert_submit. Qed.

Lemma inert_mount k s e : inert (mount k s e).
Proof.
  unfold mount. apply inert_bind; [footprint|intros [ctx|]]; [|footprint].
  do 3 (apply inert_bind; [footprint|intro]). apply inert_bind; [now apply inert_call_async|intro].
  footprint.
Qed.

Lemma inert_call_getexports i s : inert (call_getexports i s).
Proof.
  unfold call_getexports. apply inert_bind; [|intro; footprint].
  apply inert_modify. intros w Hp. constructor; try done. now apply async_closes_snoc.
Qed.
#[local] Hint Resolve inert_call_getexports : footprint.

Lemma inert_getexports k s : inert (getexports k s).
Proof. unfold getexports. footprint. Qed.

Lemma inert_with_handle k id body : (forall h, inert (body h)) -> inert (with_handle k id body).
Proof. intros H. unfold with_handle. footprint. Qed.

Lemma inert_handle_call k c h cmd : close_of cmd = None -> inert (handle_call k c h cmd).
Proof. intros Hc. unfold handle_call. footprint. Qed.
#[local] Hint Resolve inert_handle_call : footprint.

Lemma inert_readFile k id off n : inert (readFile k id off n).
Proof.
  apply inert_with_handle. intros h. unfold int_of_uint64. destruct off; footprint.
Qed.
Lemma inert_writeFile k id off data : inert (writeFile k id off data).
Proof. apply inert_with_handle. intros h. cbn zeta. destruct off; footprint. Qed.
Lemma inert_preadIntoBuffer k id dest off n : inert (preadIntoBuffer k id dest off n).
Proof. apply inert_with_handle. intros h. unfold int_of_uint64. footprint. Qed.

Lemma inert_readdirAll k dir : inert (readdirAll k dir).
Proof.
  unfold readdirAll, bound_to. apply inert_bind; [footprint|intros [ctx|]]; [|footprint].
  apply inert_bind; [footprint|intro]. cbn zeta. destruct (forallb _ _); [|footprint].
  apply inert_bind; [|footprint]. apply inert_modify. intros w Hp. constructor; try done.
  unfold sync_closes. cbn. rewrite omap_app. cbn. now rewrite app_nil_r.
Qed.

(** ** Accounting

    The calls that close [a], and the tokens that stand for it. *)

Definition closes (a : Z) (w : World) : nat :=
  count_occ Z.eq_dec (async_closes w) a + count_occ Z.eq_dec (sync_closes w) a.

Definition tokens (a : Z) (r : gmap Z Z) : nat := size (filter (fun p => p.2 = a) r).

Definition uses (a : Z) (w : World) : nat := closes a w + tokens a (handleRegistry (handles w)).

Lemma tokens_delete a id h (r : gmap Z Z) : r !! id = Some h ->
  (tokens a (delete id r) + count_occ Z.eq_dec [h] a = tokens a r)%nat.
Proof.
  intros Hr. unfold tokens. rewrite map_filter_delete. cbn [count_occ].
  destruct (Z.eq_dec h a) as [Ha|Ha].
  - assert (Hf : filter (fun p : Z * Z => p.2 = a) r !! id = Some h)
      by now apply map_lookup_filter_Some.
    rewrite map_size_delete, Hf. cbn.
    pose proof (map_size_non_empty_iff (filter (fun p : Z * Z => p.2 = a) r)) as Hs.
    assert (size (filter (fun p : Z * Z => p.2 = a) r) <> 0%nat).
    { apply Hs. intros E0. rewrite E0, lookup_empty in Hf. discriminate. }
    lia.
  - rewrite delete_id; [cbn; lia|]. apply map_lookup_filter_None. right. intros x Hx. cbn. congruence.
Qed.

Lemma tokens_insert a id h (r : gmap Z Z) :
  (tokens a (<[id := h]> r) <= tokens a r + count_occ Z.eq_dec [h] a)%nat.
Proof.
  unfold tokens. cbn [count_occ]. destruct (Z.eq_dec h a) as [Ha|Ha].
  - rewrite map_filter_insert_True by done. rewrite map_size_insert. destruct (_ !! id); cbn; lia.
  - rewrite map_filter_insert_False by done. rewrite map_filter_delete, map_size_delete.
    destruct (_ !! id); cbn; lia.
Qed.

Lemma tokens_empty a : tokens a ∅ = 0%nat.
Proof. unfold tokens. now rewrite map_filter_empty, map_size_empty. Qed.

(** [m] closes no more than the tokens it takes out of the registry. *)
Definition spends {A} (m : M World A) : Prop :=
  forall a w b w', plain w -> m w = Some (b, w') -> plain w' /\ (uses a w' <= uses a w)%nat.

Lemma steady_uses a w w' : steady w w' -> uses a w' = uses a w.
Proof. intros [_ Hh Ha Hs]. unfold uses, closes. now rewrite Hh, Ha, Hs. Qed.

Lemma inert_spends {A} (m : M World A) : inert m -> spends m.
Proof.
  intros H a w b w' Hp Hm. pose proof (H w Hp b w' Hm) as Hst.
  split; [apply Hst|]. rewrite (steady_uses a w w' Hst). lia.
Qed.

Lemma spends_bind {A B} (m : M World A) (k : A -> M World B) :
  spends m -> (forall a, spends (k a)) -> spends (bind m k).
Proof.
  intros Hm Hk a w b w' Hp. unfold bind. destruct (m w) as [[x w1]|] eqn:E1; [|discriminate].
  intros Hb. destruct (Hm a w x w1 Hp E1) as [Hp1 H1]. destruct (Hk x a w1 b w' Hp1 Hb). split; [done|lia].
Qed.

(** An asynchronous close counts once. *)
Lemma start_close k i c h w b w' : plain w -> start_call k i c (CClose h) None w = Some (b, w') ->
  plain w' /\ handles w' = handles w /\ sync_closes w' = sync_closes w /\
  async_closes w' = async_closes w ++ [h].
Proof.
  intros Hp Hr. unfold start_call in Hr.
  apply run_bind in Hr as (? & w1 & H1 & Hr). apply (quiet_pass_retained life) in H1; [|exact Hp].
  apply run_bind in Hr as (rc & w2 & H2 & Hr). unfold call_async in H2.
  apply run_bind in H2 as (? & w3 & [= _ <-] & H2).
  assert (H3 : steady (upd_lib (upd_issued (fun l => l ++ [(i, CClose h)])) w1) w2).
  { eapply (inert_run life); [|apply H1|exact H2]. footprint. }
  assert (H4 : steady w2 w').
  { eapply (inert_run life); [|apply H3|exact Hr]. footprint. }
  destruct H1 as [_ Hh1 Ha1 Hs1], (steady_trans _ _ _ H3 H4) as [Hp4 Hh4 Ha4 Hs4].
  split; [exact Hp4|]. split; [etransitivity; [exact Hh4|exact Hh1]|].
  split; [etransitivity; [exact Hs4|exact Hs1]|]. rewrite Ha4, <- Ha1.
  unfold async_closes. cbn. now rewrite omap_app.
Qed.

Lemma closeFile_spends k id : spends (closeFile k id).
Proof.
  intros a w b w' Hp Hr. unfold closeFile, with_handle in Hr.
  apply run_bind in Hr as (? & ? & [= <- <-] & Hr). apply run_bind in Hr as (? & ? & [= <- <-] & Hr).
  destruct (handleRegistry (handles w) !! id) as [h|] eqn:Eh;
    [destruct (context w)|]; [|exact (inert_spends _ (loose_cont_resume life _ _) a w b w' Hp Hr)..].
  apply run_bind in Hr as (i & w1 & H1 & Hr). apply (loose_next_id life) in H1; [|exact Hp].
  apply run_bind in Hr as (? & w2 & H2 & Hr). apply inert_new_callback in H2; [|apply H1].
  pose proof (steady_trans _ _ _ H1 H2) as [Hp2 Hh2 Ha2 Hs2].
  apply run_bind in Hr as (? & w3 & [= _ <-] & Hr).
  apply start_close in Hr as (Hp' & Hh & Hs & Ha); [|exact Hp2]. split; [exact Hp'|].
  unfold uses, closes. rewrite Hh, Hs, Ha.
  change (async_closes (upd_handles _ w2)) with (async_closes w2).
  change (sync_closes (upd_handles _ w2)) with (sync_closes w2).
  cbn [handles upd_handles upd_handleRegistry handleRegistry]. rewrite Hh2, Ha2, Hs2, count_occ_app.
  pose proof (tokens_delete a id h _ Eh). lia.
Qed.

Lemma closeForget_spends id : spends (closeFileFireAndForget id).
Proof.
  intros a w b w' Hp Hr. unfold closeFileFireAndForget in Hr.
  apply run_bind in Hr as (? & ? & [= <- <-] & Hr).
  destruct (handleRegistry (handles w) !! id) as [h|] eqn:Eh; [|exact (inert_spends _ (still_ret life tt) a w b w' Hp Hr)].
  apply run_bind in Hr as (? & w1 & [= _ <-] & Hr). apply run_bind in Hr as (ctx & ? & [= <- <-] & Hr).
  pose proof (tokens_delete a id h _ Eh) as Ht.
  unfold nfs_close in Hr. destruct (bool_decide (is_Some (context w))); cbn [when] in Hr.
  - apply run_bind in Hr as (? & w2 & [= _ <-] & Hr).
    apply (loose_run_callbacks life inert_issuePendingOperations) in Hr; [|exact Hp]. split; [apply Hr|].
    rewrite (steady_uses a _ _ Hr). unfold uses, closes, async_closes, sync_closes.
    cbn -[count_occ decide]. rewrite omap_app, count_occ_app. cbn -[count_occ decide].
    rewrite decide_True by done. lia.
  - injection Hr as _ <-. split; [exact Hp|]. unfold uses, closes, async_closes, sync_closes.
    cbn -[count_occ]. lia.
Qed.

Lemma performShutdown_spends : spends performShutdown.
Proof.
  unfold performShutdown.
  assert (Hdrop : spends (modify (upd_handles (upd_handleRegistry (fun _ => ∅))))).
  { intros a w b w' Hp [= _ <-]. split; [exact Hp|]. unfold uses, closes. cbn.
    rewrite tokens_empty. unfold async_closes, sync_closes. cbn. lia. }
  do 2 (apply spends_bind; [apply inert_spends; footprint|intro]).
  destruct (_ || _); [|apply inert_spends; footprint].
  do 5 (apply spends_bind; [apply inert_spends; footprint|intro]).
  do 2 (apply spends_bind; [apply inert_spends; footprint|intro]).
  apply spends_bind; [apply inert_spends, inert_clear_pending|intro].
  apply spends_bind; [exact Hdrop|intro]. apply inert_spends. footprint.
Qed.

(** What a registration adds. *)
Lemma registerHandle_uses a k p w b w' : plain w -> registerHandle k p w = Some (b, w') ->
  plain w' /\ exists x, p = CPointer (Tstruct "nfsfh") x /\
    (uses a w' <= uses a w + count_occ Z.eq_dec [x] a)%nat.
Proof.
  intros Hp Hr. unfold registerHandle, bound_to in Hr. destruct p as [|?|t x]; try discriminate.
  destruct (decide (Tstruct "nfsfh" = t)) as [<-|]; [|discriminate].
  apply run_bind in Hr as (? & ? & [= <- <-] & Hr). apply run_bind in Hr as (id & ? & [= <- <-] & Hr).
  destruct (_ <? _); [|discriminate].
  apply run_bind in Hr as (? & ? & [= _ <-] & Hr). apply run_bind in Hr as (? & ? & [= _ <-] & Hr).
  apply (loose_cont_resume life) in Hr; [|exact Hp]. split; [apply Hr|]. exists x. split; [done|].
  rewrite (steady_uses a _ _ Hr).
  pose proof (tokens_insert a (nextHandleID (handles w)) x (handleRegistry (handles w))).
  unfold uses, closes, async_closes, sync_closes. cbn -[count_occ]. lia.
Qed.

(** ** Runs *)

(** How often the callers had the pointer [a] registered. *)
Definition registrations (a : Z) (e : Event) : nat :=
  match e with Call (RRegister (CPointer _ x)) => count_occ Z.eq_dec [x] a | _ => 0 end.

(** The states reached by a list of events. *)
Inductive trace : list Event -> World -> Prop :=
  | trace_init t c w : init true t c = inr w -> trace [] w
  | trace_step es w e w' : trace es w -> handle e w = Some (tt, w') -> trace (es ++ [e]) w'.

Lemma inert_new_call : inert new_call.
Proof. unfold new_call. footprint. Qed.

Lemma perform_uses a k r w w' : plain w -> perform k r w = Some (tt, w') ->
  plain w' /\ (uses a w' <= uses a w + registrations a (Call r))%nat.
Proof.
  intros Hp Hr.
  assert (Hs : spends (perform k r) -> plain w' /\ (uses a w' <= uses a w + registrations a (Call r))%nat).
  { intros H. destruct (H a w tt w' Hp Hr). split; [done|lia]. }
  assert (Hh : forall id c h (f : Z -> Command), (forall x, close_of (f x) = None) ->
            spends (with_handle k id (fun x => handle_call k c h (f x)))).
  { intros id c h f Hf. apply inert_spends, inert_with_handle. intros x. now apply inert_handle_call. }
  destruct r; cbn [perform] in *.
  - apply Hs, inert_spends, inert_submit_path.
  - apply Hs, inert_spends, inert_mount.
  - apply Hs, inert_spends, inert_getexports.
  - apply Hs, closeFile_spends.
  - apply Hs, inert_spends, inert_readFile.
  - apply Hs, inert_spends, inert_writeFile.
  - apply Hs, inert_spends, inert_preadIntoBuffer.
  - apply Hs. now apply Hh.
  - apply Hs. now apply Hh.
  - apply Hs. now apply Hh.
  - apply Hs. now apply Hh.
  - apply (registerHandle_uses a) in Hr as (Hp' & x & -> & Hu); [|exact Hp]. now split.
  - apply Hs, inert_spends, inert_readdirAll.
Qed.

Lemma event_uses a e w w' : plain w -> handle e w = Some (tt, w') ->
  plain w' /\ (uses a w' <= uses a w + registrations a e)%nat.
Proof.
  intros Hp Hh.
  destruct e as [r| | | | |h|x|n|p|d]; cbn [handle registrations] in *;
    rewrite ?Nat.add_0_r.
  - apply run_bind in Hh as (k & w1 & H1 & Hh). apply inert_new_call in H1; [|exact Hp].
    pose proof (perform_uses a k r w1 w' (st_plain _ _ H1) Hh) as [Hp' Hu].
    split; [exact Hp'|]. now rewrite <- (steady_uses a w w1 H1).
  - exact (inert_spends _ inert_handleIOEvent a w tt w' Hp Hh).
  - exact (inert_spends _ (loose_handleRpcExportsEvent life inert_issuePendingOperations) a w tt w' Hp Hh).
  - exact (inert_spends _ (loose_scanForTimeouts life inert_issuePendingOperations) a w tt w' Hp Hh).
  - exact (performShutdown_spends a w tt w' Hp Hh).
  - exact (closeForget_spends h a w tt w' Hp Hh).
  - exact (inert_spends _ (quiet_setLogHandler life x) a w tt w' Hp Hh).
  - refine (inert_spends _ _ a w tt w' Hp Hh). footprint.
  - refine (inert_spends _ _ a w tt w' Hp Hh). unfold free. footprint.
  - refine (inert_spends _ _ a w tt w' Hp Hh). footprint.
Qed.

Lemma trace_uses a es w : trace es w ->
  plain w /\ (uses a w <= list_sum (map (registrations a) es))%nat.
Proof.
  induction 1 as [t c w H|es w e w' _ [Hp IH] Hh].
  - injection H as <-. split; [intros op Hop; inversion Hop|].
    unfold uses, closes. cbn -[tokens]. now rewrite tokens_empty.
  - destruct (event_uses a e w w' Hp Hh) as [Hp' Hu]. split; [exact Hp'|].
    rewrite map_app, list_sum_app. cbn. lia.
Qed.

(** C16: no file handle is closed twice for one registration: in every run of the
    loop, a pointer has been given to nfs_close or nfs_close_async at most as often
    as callers had it registered; and a token that is still registered accounts
    for a registration that led to no close yet. *)
Theorem handles_closed_once a es w : trace es w ->
  (closes a w + tokens a (handleRegistry (handles w)) <= list_sum (map (registrations a) es))%nat.
Proof. intros H. apply (trace_uses a es w H). Qed.

(** When the token of an open file goes away while the loop is connected, its
    handle is closed, and the token is no longer valid. *)
Theorem dropped_token_closes es id h w w' : trace es w -> context w <> None ->
  handleRegistry (handles w) !! id = Some h -> handle (CloseForget id) w = Some (tt, w') ->
  sync_closes w' = sync_closes w ++ [h] /\ handleRegistry (handles w') = delete id (handleRegistry (handles w)).
Proof.
  intros Htr Hc Eh Hr. pose proof (proj1 (trace_uses 0 es w Htr)) as Hp. cbn [handle] in Hr. unfold closeFileFireAndForget in Hr.
  apply run_bind in Hr as (? & ? & [= <- <-] & Hr). rewrite Eh in Hr.
  apply run_bind in Hr as (? & w1 & [= _ <-] & Hr). apply run_bind in Hr as (ctx & ? & [= <- <-] & Hr).
  change (context (upd_handles _ w)) with (context w) in Hr.
  rewrite bool_decide_eq_true_2 in Hr by (destruct (context w); [eauto|done]). cbn [when] in Hr.
  apply run_bind in Hr as (? & w2 & [= _ <-] & Hr). apply (loose_run_callbacks life inert_issuePendingOperations) in Hr; [|exact Hp].
  destruct Hr as [_ Hh _ Hs]. rewrite Hs, Hh. unfold sync_closes. cbn -[decide].
  rewrite omap_app. cbn -[decide]. now rewrite decide_True by done.
Qed.

End Life.

(** The footprints of the methods, for the files that follow. *)
#[export] Hint Resolve @inert_new_callback @inert_cancelTimeoutTimer @inert_issue_loop
  @inert_issuePendingOperations @inert_destroy_context @inert_shutdownWithError @inert_issueOperation
  @inert_start_call @inert_call_getexports @inert_handle_call @inert_clear_pending @inert_handleIOEvent
  @inert_submit @inert_submit_path @inert_mount @inert_getexports @inert_readFile @inert_writeFile
  @inert_preadIntoBuffer @inert_readdirAll @inert_new_call : footprint.

(** ** Runs at work *)

Definition opened : World := @next quiet_env (Call (RRegister (CPointer (Tstruct "nfsfh") 77))) start.
Definition dropped : World := @next quiet_env (CloseForget 1) opened.

Lemma opened_trace : @trace quiet_env [Call (RRegister (CPointer (Tstruct "nfsfh") 77))] opened.
Proof. apply (trace_step [] start); [now apply (trace_init 10 100)|vm_compute; reflexivity]. Qed.

Lemma handles_closed_once_witness :
  (closes 77 dropped + tokens 77 (handleRegistry (handles dropped)) <= 1)%nat /\ closes 77 dropped = 1%nat.
Proof.
  split; [|vm_compute; reflexivity].
  apply (@handles_closed_once quiet_env 77
    [Call (RRegister (CPointer (Tstruct "nfsfh") 77)); CloseForget 1] dropped).
  apply (trace_step [Call (RRegister (CPointer (Tstruct "nfsfh") 77))] opened);
    [exact opened_trace|vm_compute; reflexivity].
Defined.

Lemma dropped_token_closes_witness :
  sync_closes dropped = sync_closes opened ++ [77] /\
  handleRegistry (handles dropped) = delete 1 (handleRegistry (handles opened)).
Proof.
  apply (@dropped_token_closes quiet_env [Call (RRegister (CPointer (Tstruct "nfsfh") 77))] 1 77 opened dropped);
    [exact opened_trace|discriminate|reflexivity|vm_compute; reflexivity].
Defined.

(** The other direction fails when libnfs refuses the close: [closeFile] has
    already taken the token out of the registry, so the handle is never closed. *)
Definition close_refused : World := @next refusing_env (CloseForget 1)
  (@next refusing_env (Call (RClose 1))
     (@next refusing_env (Call (RRegister (CPointer (Tstruct "nfsfh") 77))) start)).

Example refused_close_loses_handle :
  handleRegistry (handles close_refused) = ∅ /\ sync_closes close_refused = [] /\
  outstanding (lib close_refused) = ∅ /\ is_Some (outcomes (reg close_refused) !! 1).
Proof. vm_compute. splits; eauto. Qed.

End HandleLife.
