(* ===== verification/Provenance.v ===== *)
(** * Where answers come from

    The loop serves many callers over one connection, and hands libnfs an identifier
    with each command.  What a caller is told is traced back here: to the reply that
    libnfs gave to the one command made for this call, or to one of the errors
    that the loop itself raises. *)

From Stdlib Require Import Strings.Byte.
From stdpp Require Import base gmap strings list.
From S2P Require Import Prelude Posix PipelineController Memory CType LibnfsApi.
From S2P Require Import StateMonad DispatchSource OperationType EventLoopState EventLoop Walk EventLoopRuns.

Open Scope Z_scope.
Open Scope monad_scope.

Module Provenance.

(** ** What a call is entitled to *)

(** The calls made, each with the state of the loop in which it was made. *)
Abbreviation Called := (gmap Z (Request * World)).

(** The table of file handles. *)
Definition table (w : World) : gmap Z Z := handleRegistry (handles w).

(** An operation: the call that it was made for, how its reply is read, and its command. *)
Record Operation := mkOperation { call : Z; handler : DataHandler; command : Command }.

(** The operation that a request leads to: libnfs is asked for what the caller asked
    for, on the handle that the caller's token stands for. *)
Inductive serves (past : World) : Request -> DataHandler -> Command -> Prop :=
  | sv_unmount : serves past (RPath Unmount) HVoid CUmount
  | sv_stat p : serves past (RPath (Stat p)) HStat (CStat p)
  | sv_statvfs p : serves past (RPath (Statvfs p)) HStatvfs (CStatvfs p)
  | sv_readlink p : serves past (RPath (Readlink p)) HCString (CReadlink p)
  | sv_mkdir p : serves past (RPath (Mkdir p)) HVoid (CMkdir p)
  | sv_rmdir p : serves past (RPath (Rmdir p)) HVoid (CRmdir p)
  | sv_opendir p : serves past (RPath (Opendir p)) HPointer (COpendir p)
  | sv_unlink p : serves past (RPath (Unlink p)) HVoid (CUnlink p)
  | sv_rename p q : serves past (RPath (Rename p q)) HVoid (CRename p q)
  | sv_truncate p n : serves past (RPath (Truncate p n)) HVoid (CTruncate p n)
  | sv_open p fl : serves past (RPath (OpenFile p fl)) HPointer (COpen p fl)
  | sv_mount s e : serves past (RMount s e) HVoid (CMount s e)
  | sv_exports s : serves past (RGetexports s) HExports (CGetexports s)
  | sv_close id fh : table past !! id = Some fh -> serves past (RClose id) HVoid (CClose fh)
  | sv_read id fh p n : table past !! id = Some fh ->
      serves past (RRead id None n) (HRead p) (CRead fh (mkBufPtr p 0) n)
  | sv_pread id fh p off n : table past !! id = Some fh ->
      serves past (RRead id (Some off) n) (HRead p) (CPread fh (mkBufPtr p 0) n off)
  | sv_write id fh p data : table past !! id = Some fh ->
      serves past (RWrite id None data) HStatus (CWrite fh (mkBufPtr p 0) (Z.of_nat (length data)))
  | sv_pwrite id fh p off data : table past !! id = Some fh ->
      serves past (RWrite id (Some off) data) HStatus
        (CPwrite fh (mkBufPtr p 0) (Z.of_nat (length data)) off)
  | sv_into id fh dest off n : table past !! id = Some fh ->
      serves past (RPreadInto id dest off n) HReadInto (CPread fh dest n off)
  | sv_fsync id fh : table past !! id = Some fh -> serves past (RFsync id) HVoid (CFsync fh)
  | sv_fstat id fh : table past !! id = Some fh -> serves past (RFstat id) HFstat (CFstat fh)
  | sv_ftruncate id fh n : table past !! id = Some fh -> serves past (RFtruncate id n) HVoid (CFtruncate fh n)
  | sv_lseek id fh off wh : table past !! id = Some fh -> serves past (RLseek id off wh) HLseek (CLseek fh off wh).

(** Requests that are answered with nothing but their success. *)
Definition acts (r : Request) : bool :=
  match r with
  | RPath (Unmount | Mkdir _ | Rmdir _ | Unlink _ | Rename _ _ | Truncate _ _) => true
  | RMount _ _ | RClose _ | RFsync _ | RFtruncate _ _ => true
  | _ => false
  end.

(** The buffer that the loop allocated for an operation. *)
Definition own_buffer (op : Operation) : option Z :=
  match handler op with
  | HRead q => Some q
  | HStatus => match command_buffer (command op) with Some (b, _) => Some (bp_block b) | None => None end
  | _ => None
  end.

Section Answers.
Context `{E : Env}.

(** What the caller of [r] is to be told when libnfs calls back with [status] and [data]. *)
Inductive answers : Request -> Command -> Z -> cdata -> Outcome -> Prop :=
  | an_error r c status data : status < 0 -> (forall s, r <> RGetexports s) ->
      answers r c status data (Threw (posix_error_plain (- status)))
  | an_exports_error s c status data : status < 0 ->
      answers (RGetexports s) c status data (Threw (posix_error_plain EIO))
  | an_done r c data : acts r = true -> answers r c 0 data (Returned VVoid)
  | an_stat p c a : answers (RPath (Stat p)) c 0 (CPointer (Tstruct "nfs_stat_64") a) (Returned (VStat (read_stat a)))
  | an_fstat id c a : answers (RFstat id) c 0 (CPointer (Tstruct "nfs_stat_64") a) (Returned (VStat (read_stat a)))
  | an_statvfs p c a : answers (RPath (Statvfs p)) c 0 (CPointer (Tstruct "statvfs") a) (Returned (VStatvfs a))
  | an_readlink p c a : answers (RPath (Readlink p)) c 0 (CPointer Tchar a) (Returned (VString (read_cstring a)))
  | an_opendir p c a : answers (RPath (Opendir p)) c 0 (CPointer (Tstruct "nfsdir") a)
      (Returned (VPointer (Tstruct "nfsdir") a))
  | an_open p fl c a : answers (RPath (OpenFile p fl)) c 0 (CPointer (Tstruct "nfsfh") a)
      (Returned (VPointer (Tstruct "nfsfh") a))
  | an_read id off n c b status data : command_buffer c = Some (b, n) -> 0 < status <= n ->
      answers (RRead id off n) c status data (Returned (VData (DataNoCopy (bp_block b) status)))
  | an_eof id off n c data : answers (RRead id off n) c 0 data (Returned (VData (DataBytes [])))
  | an_write id off bytes c status data : 0 <= status ->
      answers (RWrite id off bytes) c status data (Returned (VInt status))
  | an_into id dest off n c status data : 0 <= status <= n ->
      answers (RPreadInto id dest off n) c status data (Returned (VInt status))
  | an_lseek id off wh c status a : 0 <= status ->
      answers (RLseek id off wh) c status (CPointer Tuint64 a) (Returned (VUInt64 (read_uint64 a)))
  | an_exports s c a l : read_exports a = Some l ->
      answers (RGetexports s) c 0 (CPointer (Ttypedef "exports") a) (Returned (VStrings (omap (fun d => d) l))).

(** The token that a request names. *)
Definition token (r : Request) : option Z :=
  match r with
  | RClose id | RRead id _ _ | RWrite id _ _ | RPreadInto id _ _ _ | RFsync id | RFstat id
  | RFtruncate id _ | RLseek id _ _ => Some id
  | _ => None
  end.

(** Time goes on, the timeout stays what it is, and a destroyed context is not replaced. *)
Record moves (w w' : World) : Prop := {
  mv_context : context w = None -> context w' = None;
  mv_timeout : timeout w' = timeout w;
  mv_now : now w <= now w'
}.

Lemma moves_refl w : moves w w.
Proof. now constructor. Qed.

Lemma moves_trans w1 w2 w3 : moves w1 w2 -> moves w2 w3 -> moves w1 w3.
Proof. intros [] []. constructor; [auto|congruence|lia]. Qed.

(** The category of an operation that goes through [submit]. *)
Definition path_category (o : PathOp) : OperationCategory := Op.category (fst (fst (path_op o))).

(** The errors that the loop raises itself for the call [k], made in the state [past], when it
    is in the state [w]; each in the situation that it stands for. *)
Inductive own_error (ops : gmap Z Operation) (past w : World) (k : Z) : Request -> POSIXError -> Prop :=
  | oe_disconnected r d : context w = None -> own_error ops past w k r (posix_error ENOTCONN d)
  | oe_timeout r i op : ops !! i = Some op -> call op = k -> 0 < timeout w ->
      now past < dispatch_sub (now w) (timeout w) -> own_error ops past w k r (posix_error_plain ETIMEDOUT)
  | oe_full o d : Pipeline.effectiveDepth (controller (path_category o) past) = Some d ->
      d <= inFlight (path_category o) past ->
      maxPendingOperations <= Z.of_nat (length (pendingOperations (pipe past))) ->
      own_error ops past w k (RPath o) ENOBUFS_error
  | oe_bad_token r id : token r = Some id -> table past !! id = None ->
      own_error ops past w k r (posix_error EBADF "Invalid file handle")
  | oe_busy s : is_Some (rpcExportsCtx (rpcx past)) ->
      own_error ops past w k (RGetexports s) (posix_error EBUSY "Export query already in progress")
  | oe_context s n : rpc_init n = false -> (n < tick (lib w))%nat ->
      own_error ops past w k (RGetexports s) (posix_error ENOMEM "Failed to create RPC context")
  | oe_start s i op : ops !! i = Some op -> call op = k -> In (i, CGetexports s) (issued (lib w)) ->
      async_rc i < 0 -> own_error ops past w k (RGetexports s) (posix_error EIO "Failed to start export query").

(** Operation [op] was made under [i] for the request [r], and libnfs was called for it. *)
Record made (cs : Called) (ops : gmap Z Operation) (w : World) (i : Z) (op : Operation) (r : Request) : Prop := {
  md_op : ops !! i = Some op;
  md_serves : exists past, cs !! call op = Some (r, past) /\ serves past r (handler op) (command op);
  md_issued : In (i, command op) (issued (lib w))
}.

(** ** Watching the memory

    A monitor follows what the loop and libnfs do to memory, from the calls of libnfs made
    so far ([mo_inv]), and may record something about the memory when a reply is
    delivered ([mo_told]).  The loop may write to the blocks in [mo_may_write] and free
    those in [mo_may_free]; [mo_call] is what the monitor expects of callers. *)
Record Monitor := {
  mo_inv : list (Z * Command) -> mem -> Prop;
  mo_le : list (Z * Command) -> mem -> list (Z * Command) -> mem -> Prop;
  mo_told : list (Z * Command) -> mem -> Operation -> Z -> Prop;
  mo_may_write : Z -> Prop;
  mo_may_free : Z -> Prop;
  mo_call : Request -> World -> Prop;
  mo_refl : forall l m, mo_le l m l m;
  mo_trans : forall l1 m1 l2 m2 l3 m3, mo_le l1 m1 l2 m2 -> mo_le l2 m2 l3 m3 -> mo_le l1 m1 l3 m3;
  mo_kept : forall l m l' m' op status, mo_le l m l' m' -> mo_told l m op status -> mo_told l' m' op status;
  mo_alloc : forall l m n q m', mo_inv l m -> allocate n m = (q, m') ->
    mo_may_write q /\ mo_may_free q /\ mo_inv l m' /\ mo_le l m l m';
  mo_store : forall l m q off bytes m', mo_inv l m -> mo_may_write q -> store q off bytes m = Some m' ->
    mo_inv l m' /\ mo_le l m l m';
  mo_free : forall l m q m', mo_inv l m -> mo_may_free q -> deallocate q m = Some m' -> mo_inv l m' /\ mo_le l m l m';
  mo_issue : forall l m x, mo_inv l m -> mo_inv (l ++ [x]) m /\ mo_le l m (l ++ [x]) m;
  mo_reply : forall l m i op r past status data bytes n m', mo_inv l m ->
    serves past r (handler op) (command op) -> mo_call r past -> (forall q, handler op = HRead q -> mo_may_write q) ->
    In (i, command op) l -> In (Reply i status data bytes) (lib_events n) ->
    reply_allowed (command op) status data bytes = true ->
    (match command_buffer (command op), bytes with
     | Some (b, _), _ :: _ => store (bp_block b) (bp_off b) bytes m = Some m'
     | _, _ => m' = m
     end) -> mo_inv l m' /\ mo_le l m l m' /\ mo_told l m' op status
}.

(** What a reply does to memory: nothing, or it fills the own buffer of a read, or the
    destination that the caller gave. *)
Lemma reply_change past r op status data bytes m m' : serves past r (handler op) (command op) ->
  reply_allowed (command op) status data bytes = true ->
  (match command_buffer (command op), bytes with
   | Some (b, _), _ :: _ => store (bp_block b) (bp_off b) bytes m = Some m'
   | _, _ => m' = m
   end) ->
  (m' = m /\ (handler op = HReadInto -> status <= 0)) \/
  (exists q off, handler op = HRead q /\ store q off bytes m = Some m') \/
  exists id d off n fh, r = RPreadInto id d off n /\ table past !! id = Some fh /\ handler op = HReadInto /\
    command op = CPread fh d n off /\ 0 <= status /\ Z.of_nat (length bytes) = status /\
    store (bp_block d) (bp_off d) bytes m = Some m'.
Proof.
  unfold reply_allowed. intros Hs. destruct op as [k h c]. cbn [handler command] in *.
  destruct Hs; cbn [command_buffer is_read andb]; try (intros _ ->; now left); intros Ha%andb_prop;
    destruct Ha as [_ Ha]; (destruct bytes as [|b0 bytes]; [intros ->; left; split; [done|]; try done|intros Hm]);
    try discriminate Ha; try (right; left; eauto; fail).
  - intros _. destruct (0 <=? status) eqn:Es; [|apply Z.leb_gt in Es; lia]. apply andb_prop in Ha as [_ <-%Z.eqb_eq]. reflexivity.
  - right; right. destruct (0 <=? status) eqn:Es; [|discriminate Ha]. exists id, dest, off, n, fh. splits; auto; lia.
Qed.

(** The monitor that watches nothing. *)
Program Definition unwatched : Monitor := {|
  mo_inv := fun _ _ => True; mo_le := fun _ _ _ _ => True; mo_told := fun _ _ _ _ => True;
  mo_may_write := fun _ => True; mo_may_free := fun _ => True; mo_call := fun _ _ => True |}.
Solve All Obligations with done.

Section Monitored.
Context (mon : Monitor).

(** The block [q] may be the own buffer of [op]. *)
Definition held (op : Operation) (q : Z) (m : mem) : Prop :=
  mo_may_free mon q /\ (handler op = HRead q -> mo_may_write mon q) /\ q < nextPtr m.

(** The answer [o] of the call [k] is genuine. *)
Inductive genuine (cs : Called) (ops : gmap Z Operation) (w : World) (k : Z) : Outcome -> Prop :=
  | gn_reply i op r status data bytes n o : call op = k -> made cs ops w i op r ->
      In (Reply i status data bytes) (lib_events n) -> (n < tick (lib w))%nat ->
      reply_allowed (command op) status data bytes = true ->
      mo_told mon (issued (lib w)) (heap w) op status ->
      answers r (command op) status data o -> genuine cs ops w k o
  | gn_exports i op s status data n o : call op = k -> made cs ops w i op (RGetexports s) ->
      In (status, data) (rpc_events n) -> (n < tick (lib w))%nat ->
      callback_allowed Api.mount_getexports_async status data = true ->
      answers (RGetexports s) (command op) status data o -> genuine cs ops w k o
  | gn_refused i op r d : call op = k -> made cs ops w i op r -> async_rc i < 0 ->
      genuine cs ops w k (Threw (posix_error (POSIXErrorCode_init (- async_rc i)) d))
  | gn_own r past e : cs !! k = Some (r, past) -> own_error ops past w k r e -> genuine cs ops w k (Threw e)
  | gn_registered a past : cs !! k = Some (RRegister (CPointer (Tstruct "nfsfh") a), past) ->
      genuine cs ops w k (Returned (VUInt64 (nextHandleID (handles past))))
  | gn_listed a past : cs !! k = Some (RReaddir (CPointer (Tstruct "nfsdir") a), past) ->
      genuine cs ops w k (Returned (VEntries (List.filter visible_entry (readdir a)))).

(** ** The invariant *)

Definition no_query (c : Command) : Prop := forall s, c <> CGetexports s.

Record good (cs : Called) (ops : gmap Z Operation) (w : World) : Prop := {
  gd_call : forall k, is_Some (cs !! k) -> k < nextCall (reg w);
  gd_past : forall k r past, cs !! k = Some (r, past) -> now past <= now w;
  gd_ops : forall i op, ops !! i = Some op -> i < nextContinuationID (reg w) /\
    exists r past, cs !! call op = Some (r, past) /\ serves past r (handler op) (command op) /\ mo_call mon r past;
  gd_buffer : forall i op q, ops !! i = Some op -> own_buffer op = Some q -> held op q (heap w);
  gd_obj : forall i cb, objects (reg w) !! i = Some cb -> exists op, ops !! i = Some op /\
    continuation cb = call op /\ dataHandler cb = handler op /\ resultType cb = handler_type (handler op) /\
    (forall q, cleanup cb = Some q -> own_buffer op = Some q) /\
    forall r past, cs !! call op = Some (r, past) -> now past <= startTime cb;
  gd_pend : forall p, p ∈ pendingOperations (pipe w) -> exists op, ops !! id p = Some op /\
    command op = execute p /\ no_query (execute p);
  gd_issued : forall i c, In (i, c) (issued (lib w)) -> exists op, ops !! i = Some op /\ command op = c;
  gd_out : forall i c, outstanding (lib w) !! i = Some c -> In (i, c) (issued (lib w)) /\ no_query c;
  gd_rpc : forall i, rpcOutstanding (lib w) = Some i -> exists s, In (i, CGetexports s) (issued (lib w));
  gd_outcome : forall k o, outcomes (reg w) !! k = Some o -> genuine cs ops w k o;
  gd_watched : mo_inv mon (issued (lib w)) (heap w)
}.

Lemma own_free cs ops w i op q : good cs ops w -> ops !! i = Some op -> own_buffer op = Some q -> mo_may_free mon q.
Proof. intros H Ho Hq. apply (gd_buffer _ _ _ H i op q Ho Hq). Qed.

Lemma own_write cs ops w i op q : good cs ops w -> ops !! i = Some op -> handler op = HRead q ->
  mo_may_free mon q /\ mo_may_write mon q.
Proof.
  intros H Ho Hq. assert (Hb : own_buffer op = Some q) by (unfold own_buffer; now rewrite Hq).
  destruct (gd_buffer _ _ _ H i op q Ho Hb) as (Hf & Hw & _). auto.
Qed.

(** Calls of libnfs, ticks and identifiers are only added. *)
Record grows (w w' : World) : Prop := {
  gr_issued : incl (issued (lib w)) (issued (lib w'));
  gr_tick : (tick (lib w) <= tick (lib w'))%nat;
  gr_next : nextContinuationID (reg w) <= nextContinuationID (reg w');
  gr_ptr : nextPtr (heap w) <= nextPtr (heap w');
  gr_memory : mo_le mon (issued (lib w)) (heap w) (issued (lib w')) (heap w');
  gr_moves : moves w w'
}.

Lemma grows_refl w : grows w w.
Proof. split; try lia; [apply incl_refl|apply mo_refl|apply moves_refl]. Qed.

Lemma grows_moves w w' : lib w' = lib w -> nextContinuationID (reg w') = nextContinuationID (reg w) ->
  heap w' = heap w -> moves w w' -> grows w w'.
Proof. intros H Hn Hm. split; rewrite ?H, ?Hn, ?Hm; try lia; [apply incl_refl|apply mo_refl|done]. Qed.

Lemma grows_same w w' : lib w' = lib w -> nextContinuationID (reg w') = nextContinuationID (reg w) ->
  heap w' = heap w -> context w' = context w -> timeout w' = timeout w -> now w' = now w -> grows w w'.
Proof. intros. apply grows_moves; [assumption..|]. constructor; [congruence|assumption|lia]. Qed.

Lemma grows_lib w f : issued (f (lib w)) = issued (lib w) -> (tick (lib w) <= tick (f (lib w)))%nat ->
  grows w (upd_lib f w).
Proof. intros Hi Ht. split; cbn; rewrite ?Hi; try lia; [apply incl_refl|apply mo_refl|now constructor]. Qed.

Lemma grows_trans w1 w2 w3 : grows w1 w2 -> grows w2 w3 -> grows w1 w3.
Proof. intros [] []. split; try lia; [eapply incl_tran; eauto|eapply mo_trans; eauto|eapply moves_trans; eauto]. Qed.

Lemma made_mono cs cs' ops ops' w w' i op r : made cs ops w i op r -> cs ⊆ cs' -> ops ⊆ ops' ->
  grows w w' -> made cs' ops' w' i op r.
Proof.
  intros [A (past & B & C) D] Hc Ho [Hi _ _ _ _ _]. split; [eapply lookup_weaken; eauto| |auto].
  exists past. split; [eapply lookup_weaken; eauto|exact C].
Qed.

Lemma dispatch_sub_mono t t' d : t <= t' -> dispatch_sub t d <= dispatch_sub t' d.
Proof. unfold dispatch_sub. intros H. destruct (t <=? d) eqn:E1, (t' <=? d) eqn:E2; lia. Qed.

Lemma own_error_mono ops ops' past w w' k r e : own_error ops past w k r e -> ops ⊆ ops' -> grows w w' ->
  own_error ops' past w' k r e.
Proof.
  intros H Ho [Hi Ht _ _ _ [Mc Mt Mn]].
  destruct H as [r d Hc|r i op Hop Hk Hpos Hlt|o d Hd Hf Hfull|r id Hid Hn|s Hb|s n Hr Hn|s i op Hop Hk Hin Hrc].
  - apply oe_disconnected; auto.
  - apply (oe_timeout _ _ _ _ r i op); [eapply lookup_weaken; eauto|done|lia|].
    pose proof (dispatch_sub_mono (now w) (now w') (timeout w) Mn). rewrite Mt. lia.
  - eapply oe_full; eauto.
  - eapply oe_bad_token; eauto.
  - now apply oe_busy.
  - apply (oe_context _ _ _ _ s n); [done|lia].
  - apply (oe_start _ _ _ _ s i op); [eapply lookup_weaken; eauto|auto..].
Qed.

Lemma genuine_mono cs cs' ops ops' w w' k o : genuine cs ops w k o -> cs ⊆ cs' -> ops ⊆ ops' ->
  grows w w' -> genuine cs' ops' w' k o.
Proof.
  intros H Hc Ho Hg. pose proof (gr_tick _ _ Hg) as Ht.
  assert (Hm : forall i op r, made cs ops w i op r -> made cs' ops' w' i op r)
    by (intros; eapply made_mono; eauto).
  destruct H.
  - eapply gn_reply; eauto; [lia|]. eapply mo_kept; [apply gr_memory|]; eauto.
  - eapply gn_exports; eauto. lia.
  - eapply gn_refused; eauto.
  - eapply gn_own; [eapply lookup_weaken; eauto|eapply own_error_mono; eauto].
  - eapply gn_registered, lookup_weaken; eauto.
  - eapply gn_listed, lookup_weaken; eauto.
Qed.

(** A block that the loop has just allocated. *)
Definition fresh_block (q : Z) (w : World) : Prop :=
  mo_may_write mon q /\ mo_may_free mon q /\ q < nextPtr (heap w).

Lemma fresh_held op q w : fresh_block q w -> held op q (heap w).
Proof. intros (? & ? & ?). now split. Qed.

(** ** Everything that happens keeps it

    The calls and the operations are fixed; a method may use them. *)

Section Kept.
Context (cs : Called) (ops : gmap Z Operation).

Record step (w w' : World) : Prop := { st_good : good cs ops w'; st_grows : grows w w' }.

Lemma step_refl w : good cs ops w -> step w w.
Proof. split; [assumption|apply grows_refl]. Qed.

Lemma step_trans w1 w2 w3 : step w1 w2 -> step w2 w3 -> step w1 w3.
Proof. intros [? ?] [? ?]. split; [assumption|eapply grows_trans; eauto]. Qed.

Definition answering : Footprint World :=
  mkFootprint World (good cs ops) step step_refl step_trans st_good.

Abbreviation inert := (fp_inert answering).
Abbreviation keeps := (fp_keeps answering).

(** The part of the state that the invariant reads. *)
Definition seen (w : World) :=
  (heap w, nextCall (reg w), nextContinuationID (reg w), objects (reg w), outcomes (reg w),
   pendingOperations (pipe w), (issued (lib w), outstanding (lib w), rpcOutstanding (lib w))).

Lemma step_ticks w w' : good cs ops w -> seen w' = seen w -> (tick (lib w) <= tick (lib w'))%nat -> moves w w' ->
  step w w'.
Proof.
  intros H Hs Ht Hmv. unfold seen in Hs. injection Hs as H0 H1 H2 H3 H4 H5 H6 H7 H8.
  assert (Hg : grows w w').
  { split; rewrite ?H0, ?H2, ?H6; try lia; [apply incl_refl|apply mo_refl|exact Hmv]. }
  split; [|exact Hg]. destruct H. constructor; rewrite ?H0, ?H1, ?H2, ?H3, ?H4, ?H5, ?H6, ?H7, ?H8; auto.
  - intros k r past Hk. pose proof (gd_past0 k r past Hk). pose proof (mv_now _ _ Hmv). lia.
  - intros k o Ho. eapply genuine_mono; eauto.
Qed.

Lemma step_unseen w w' : good cs ops w -> seen w' = seen w -> tick (lib w') = tick (lib w) -> moves w w' -> step w w'.
Proof. intros H Hs Ht. apply step_ticks; [exact H|exact Hs|lia]. Qed.

#[export] Instance quiet_answering : Quiet answering.
Proof.
  intros w w' Hp []. apply step_ticks; [exact Hp|unfold seen; congruence|assumption|].
  constructor; [congruence|assumption|lia].
Qed.

Ltac moves := constructor; cbn; solve [done | lia].
Ltac footprint := footprint_with ltac:(apply step_unseen; [assumption|reflexivity|reflexivity|moves]).

Lemma good_lib w f : good cs ops w -> grows w (upd_lib f w) ->
  (forall i c, In (i, c) (issued (f (lib w))) -> exists op, ops !! i = Some op /\ command op = c) ->
  (forall i c, outstanding (f (lib w)) !! i = Some c -> In (i, c) (issued (f (lib w))) /\ no_query c) ->
  (forall i, rpcOutstanding (f (lib w)) = Some i -> exists s, In (i, CGetexports s) (issued (f (lib w)))) ->
  mo_inv mon (issued (f (lib w))) (heap w) -> step w (upd_lib f w).
Proof.
  intros [] Hg H1 H2 H3 H4. split; [|exact Hg]. constructor; cbn; auto.
  intros k o Ho. eapply genuine_mono; eauto.
Qed.

(** A change of memory that the monitor follows. *)
Lemma step_memory m w : good cs ops w -> nextPtr (heap w) <= nextPtr m -> mo_inv mon (issued (lib w)) m ->
  mo_le mon (issued (lib w)) (heap w) (issued (lib w)) m -> step w (upd_heap (fun _ => m) w).
Proof.
  intros [] Hn Hi Hle. assert (Hg : grows w (upd_heap (fun _ => m) w)) by (split; cbn; try lia; [apply incl_refl|done|now constructor]).
  split; [|exact Hg]. constructor; cbn; auto.
  - intros i op q Ho Hq. destruct (gd_buffer0 i op q Ho Hq) as (? & ? & ?). unfold held. splits; auto. cbn. lia.
  - intros k o Ho. eapply genuine_mono; eauto.
Qed.

Lemma step_alloc n : inert (alloc n).
Proof.
  intros w Hp ? ?. unfold alloc. destruct (allocate n (heap w)) as [q m] eqn:Ea. intros [= _ <-].
  destruct (mo_alloc mon _ _ _ _ _ (gd_watched _ _ _ Hp) Ea) as (_ & _ & Hi & Hle). injection Ea as _ <-.
  apply step_memory; cbn; auto. lia.
Qed.

(** The block that an allocation gives may be used. *)
Lemma alloc_fresh n w q w' : good cs ops w -> alloc n w = Some (q, w') -> fresh_block q w'.
Proof.
  intros Hp. unfold alloc. destruct (allocate n (heap w)) as [q' m] eqn:Ea. intros [= <- <-].
  destruct (mo_alloc mon _ _ _ _ _ (gd_watched _ _ _ Hp) Ea) as (Ho & Hf & _). unfold fresh_block. splits; [exact Ho|exact Hf|].
  injection Ea as <- <-. cbn. lia.
Qed.

#[local] Hint Resolve step_alloc : footprint.

Lemma step_free q : mo_may_free mon q -> inert (mem_op (deallocate q)).
Proof.
  intros Hq. unfold mem_op. intros w Hp a w' Hr. unfold bind, gets, lift, modify in Hr.
  destruct (deallocate q (heap w)) as [m|] eqn:Ed; [|discriminate]. injection Hr as _ <-.
  destruct (mo_free mon _ _ _ _ (gd_watched _ _ _ Hp) Hq Ed). apply step_memory; auto.
  unfold deallocate in Ed. destruct (_ !! q); [|discriminate]. injection Ed as <-. cbn. lia.
Qed.
Lemma store_next q off bytes m m' : store q off bytes m = Some m' -> nextPtr m' = nextPtr m.
Proof. unfold store. destruct (_ !! q); [|discriminate]. destruct (decide _); [|discriminate]. now intros [= <-]. Qed.
Lemma step_store q off bytes : mo_may_write mon q -> inert (mem_op (store q off bytes)).
Proof.
  intros Hq. unfold mem_op. intros w Hp a w' Hr. unfold bind, gets, lift, modify in Hr.
  destruct (store q off bytes (heap w)) as [m|] eqn:Ed; [|discriminate]. injection Hr as _ <-.
  destruct (mo_store mon _ _ _ _ _ _ (gd_watched _ _ _ Hp) Hq Ed). apply step_memory; auto.
  rewrite (store_next _ _ _ _ _ Ed). lia.
Qed.
(** A result whose bytes, if they have a block of their own, are those of [op]. *)
Definition owned (op : Operation) (r : result) : Prop :=
  forall q n, r = inr (VData (DataNoCopy q n)) -> own_buffer op = Some q.

Lemma step_drop_result i op r w : ops !! i = Some op -> owned op r -> keeps w (drop_result r).
Proof.
  intros Ho Hr. apply still_inv. intros Hg. unfold drop_result.
  destruct r as [e|[]]; try apply still_ret. destruct d as [bs|q n].
  - intros Hp a w' [= _ <-]. unfold mem_op, bind, gets, lift, modify in *. apply step_unseen; [exact Hp|reflexivity|reflexivity|moves].
  - apply step_free. eapply own_free; [exact Hg|exact Ho|]. now apply Hr with n.
Qed.
Lemma step_drop_continuation i : inert (drop_continuation i).
Proof.
  unfold drop_continuation. apply inert_bind; [footprint|intro]. apply inert_modify.
  intros w []. split; [|now apply grows_same]. constructor; cbn; auto.
  - intros j cb [_ Hj]%lookup_delete_Some. eauto.
  - intros k o Ho. eapply genuine_mono; eauto using grows_same.
Qed.
#[local] Hint Resolve step_drop_continuation : footprint.

Lemma step_cancelTimeoutTimer : inert cancelTimeoutTimer.
Proof. unfold cancelTimeoutTimer. footprint. Qed.
#[local] Hint Resolve step_cancelTimeoutTimer : footprint.

(** *** Answering *)

Definition outcome_of (r : result) : Outcome := match r with inl e => Threw e | inr v => Returned v end.

Definition has_type (t : ResultType) (r : result) : bool := match r with inl _ => true | inr v => value_is t v end.

(** The result [r] may be handed to the object [i]. *)
Definition explains (w : World) (i : Z) (r : result) : Prop :=
  forall op, ops !! i = Some op -> genuine cs ops w (call op) (outcome_of r) /\
    has_type (handler_type (handler op)) r = true /\ owned op r.

Lemma explains_mono w w' i r : grows w w' -> explains w i r -> explains w' i r.
Proof. intros Hg H op Ho. destruct (H op Ho). split; [eapply genuine_mono; eauto|assumption]. Qed.

Lemma owned_error op e : owned op (inl e).
Proof. now intros q n. Qed.
#[local] Hint Resolve owned_error : core.

(** An error that the loop may raise for whatever call the operation [i] was made for. *)
Definition raises (w : World) (i : Z) (e : POSIXError) : Prop := forall op r past, ops !! i = Some op ->
  cs !! call op = Some (r, past) -> own_error ops past w (call op) r e.

Lemma raises_mono w w' i e : grows w w' -> raises w i e -> raises w' i e.
Proof. intros Hg H op r past Ho Hc. eapply own_error_mono; eauto. Qed.

Lemma explains_own w i e : good cs ops w -> raises w i e -> explains w i (inl e).
Proof.
  intros [] He op Ho. split; [|auto]. destruct (gd_ops0 i op Ho) as (_ & r & past & Hc & _).
  eapply gn_own; eauto.
Qed.

Lemma step_cont_resume k o w : genuine cs ops w k o -> keeps w (cont_resume k o).
Proof.
  intros Hk. unfold cont_resume. apply still_gets. destruct (_ !! k); [apply still_trap|].
  intros [] a w' [= _ <-]. split; [|now apply grows_same]. constructor; cbn; auto.
  intros k' o' [[<- <-]|[_ Ho]]%lookup_insert_Some; eapply genuine_mono; eauto using grows_same.
Qed.

Lemma step_mark i cb w : good cs ops w -> objects (reg w) !! i = Some cb ->
  step w (upd_reg (upd_objects <[i := mark_resumed cb]>) w).
Proof.
  intros [] Hi. split; [|now apply grows_same]. constructor; cbn; auto.
  - intros j cj [[<- <-]|[_ Hj]]%lookup_insert_Some; [|eauto]. exact (gd_obj0 i cb Hi).
  - intros k o Ho. eapply genuine_mono; eauto using grows_same.
Qed.

(** [get_object i] finds the object of the operation [i]. *)
Lemma still_object {B} i w (k : CallbackData -> M World B) :
  (forall cb op, good cs ops w -> objects (reg w) !! i = Some cb -> ops !! i = Some op ->
     continuation cb = call op -> dataHandler cb = handler op ->
     resultType cb = handler_type (handler op) -> (forall q, cleanup cb = Some q -> own_buffer op = Some q) ->
     keeps w (k cb)) ->
  keeps w (bind (get_object i) k).
Proof.
  intros H Hp b w'. unfold get_object, bind, gets, lift. destruct (objects (reg w) !! i) as [cb|] eqn:Ei; [|discriminate].
  destruct (gd_obj _ _ _ Hp i cb Ei) as (op & Ho & H1 & H2 & H3 & H4 & _). intros Hr.
  exact (H cb op Hp eq_refl Ho H1 H2 H3 H4 Hp b w' Hr).
Qed.

Lemma step_resume i r w : explains w i r -> keeps w (resume i r).
Proof.
  intros He. unfold resume. apply still_object. intros cb op Hg Hi Ho Hc _ Ht _.
  destruct (He op Ho) as (Hk & Hv & Hd).
  destruct (hasResumed cb); [now apply (step_drop_result i op)|].
  apply still_bind; [intros Hp a w' [= _ <-]; now apply step_mark|].
  intros [] w1 _ [_ Hgr]. unfold resume_typed. rewrite Ht, Hc. destruct r as [e|v]; cbn [outcome_of has_type] in *.
  - apply step_cont_resume. eapply genuine_mono; eauto.
  - rewrite Hv. apply step_cont_resume. eapply genuine_mono; eauto.
Qed.

(** An error of the loop itself, for whoever waits. *)
Lemma step_resume_own i e w : raises w i e -> keeps w (resume i (inl e)).
Proof. intros He. apply still_inv. intros Hg. now apply step_resume, explains_own. Qed.

(** *** Calls of libnfs *)

Definition linked (i : Z) (c : Command) : Prop := exists op, ops !! i = Some op /\ command op = c.

Lemma step_issued i c w : linked i c -> good cs ops w ->
  step w (upd_lib (upd_issued (fun l => l ++ [(i, c)])) w).
Proof.
  intros Hl Hg. pose proof Hg as []. apply good_lib; cbn; auto.
  - split; cbn; try lia; [apply incl_appl, incl_refl| |now constructor]. now apply (mo_issue mon).
  - intros j d [Hj|[[= <- <-]|[]]]%in_app_or; auto.
  - intros j d Hj. destruct (gd_out0 j d Hj). split; [apply in_or_app; auto|assumption].
  - intros j Hj. destruct (gd_rpc0 j Hj) as [s Hs]. exists s. apply in_or_app. auto.
  - now apply (mo_issue mon).
Qed.

(** What is known after a call that libnfs refused. *)
Definition refused (w : World) (i rc : Z) : Prop := rc < 0 ->
  rc = async_rc i /\ forall op, ops !! i = Some op -> exists r, made cs ops w i op r.

Lemma made_issued i c w : good cs ops w -> linked i c -> In (i, c) (issued (lib w)) ->
  forall op, ops !! i = Some op -> exists r, made cs ops w i op r.
Proof.
  intros Hg (op' & Ho' & <-) Hi op Ho. rewrite Ho in Ho'. injection Ho' as <-.
  destruct (gd_ops _ _ _ Hg i op Ho) as (_ & r & past & Hc & Hs & _). exists r. split; eauto.
Qed.

Lemma still_call_async {B} i c w (k : Z -> M World B) : linked i c -> no_query c ->
  (forall w', grows w w' -> good cs ops w' -> refused w' i (async_rc i) -> keeps w' (k (async_rc i))) ->
  keeps w (bind (call_async i c) k).
Proof.
  intros Hl Hq Hk Hp b w'. unfold call_async, bind, modify, when, ret.
  pose proof (step_issued i c w Hl Hp) as H1.
  assert (H2 : step w (if 0 <=? async_rc i
     then upd_lib (upd_outstanding <[i := c]>) (upd_lib (upd_issued (fun l => l ++ [(i, c)])) w)
     else upd_lib (upd_issued (fun l => l ++ [(i, c)])) w)).
  { destruct (0 <=? async_rc i); [|exact H1]. eapply step_trans; [exact H1|].
    pose proof (st_good _ _ H1) as Hg. pose proof Hg as []. apply good_lib; cbn in *; auto.
    - apply grows_lib; [done|cbn; lia].
    - intros j d [[<- <-]|[_ Hj]]%lookup_insert_Some; [|auto]. split; [|done].
      apply in_or_app. right. now left. }
  intros Hr. eapply step_trans; [exact H2|].
  destruct (0 <=? async_rc i) eqn:Erc; (eapply Hk; [apply H2|apply H2| |apply H2|exact Hr]); intros Hn; [lia|].
  split; [done|]. eapply made_issued; [apply H1|exact Hl|]. cbn. apply in_or_app. right. now left.
Qed.

Lemma explains_refused w i e d : refused w i (async_rc i) -> async_rc i < 0 ->
  e = posix_error (POSIXErrorCode_init (- async_rc i)) d -> explains w i (inl e).
Proof.
  intros Hr Hn -> op Ho. destruct (Hr Hn) as [_ Hm]. destruct (Hm op Ho) as [r Hr'].
  split; [|auto]. now apply (gn_refused _ _ _ _ i op r).
Qed.

(** The error of a refused call. *)
Lemma still_call_error {B} rc w (k : POSIXError -> M World B) :
  (forall d w', grows w w' -> good cs ops w' -> keeps w' (k (posix_error (POSIXErrorCode_init (- rc)) d))) ->
  keeps w (bind (call_error rc) k).
Proof.
  intros Hk. unfold call_error. apply still_bind; [apply (quiet_call_error answering)|].
  intros e w' He Hs. apply run_bind in He as (c & w1 & Hc & He). unfold lift, int32_neg in Hc.
  destruct (decide _); [|discriminate]. injection Hc as <- <-.
  apply run_bind in He as (d & w2 & _ & [= <- <-]). apply Hk; apply Hs.
Qed.

Lemma step_failureCleanup i w : refused w i (async_rc i) -> async_rc i < 0 ->
  keeps w (failureCleanup i (async_rc i)).
Proof.
  intros Hr Hn. unfold failureCleanup.
  apply still_bind; [apply (quiet_release answering)|intros [] w1 _ [_ G1]].
  apply still_bind; [apply (quiet_remove_continuation answering)|intros [] w2 _ [_ G2]].
  apply still_call_error. intros d w3 G3 _. apply step_resume.
  eapply explains_mono; [eapply grows_trans; [exact G1|eapply grows_trans; [exact G2|exact G3]]|].
  eapply explains_refused; eauto.
Qed.

Lemma step_issue_one n op : linked (id op) (execute op) -> no_query (execute op) -> inert (issue_one n op).
Proof.
  intros Hl Hq w. unfold issue_one. cbn zeta. apply still_bind; [|intros [] w1 _ _].
  - intros Hp a w' [= _ <-]. destruct Hp. split; [|now apply grows_same]. constructor; cbn; auto.
    + intros p [Hp|Hp]%elem_of_app; apply gd_pend0; [eapply subseteq_take|eapply subseteq_drop]; exact Hp.
    + intros k o Ho. eapply genuine_mono; eauto using grows_same.
  - apply still_bind; [apply (quiet_set_inFlight answering)|intros [] w2 _ _].
    apply still_call_async; [exact Hl|exact Hq|]. intros w3 _ _ Hr.
    apply still_bind; [|intros [] w4 _ _; apply (quiet_updateWriteSource answering)].
    destruct (async_rc (id op) <? 0) eqn:Erc; cbn [when]; [|apply still_ret]. apply Z.ltb_lt in Erc.
    apply still_bind; [apply (quiet_set_inFlight answering)|intros [] w4 _ [_ G]].
    apply step_failureCleanup; [|exact Erc]. intros Hn. destruct (Hr Hn) as [H1 H2]. split; [exact H1|].
    intros o Ho. destruct (H2 o Ho) as [r Hm]. exists r. eapply made_mono; eauto.
Qed.

Lemma step_issue_loop fuel : forall n, inert (issue_loop fuel n).
Proof.
  induction fuel as [|fuel IH]; intros n w; cbn [issue_loop]; apply still_gets;
    destruct (_ !! n) as [op|] eqn:Eop; try apply still_ret; [apply still_trap|].
  apply still_inv. intros Hg. apply list_elem_of_lookup_2 in Eop.
  destruct (gd_pend _ _ _ Hg _ Eop) as (o & Ho & Hc & Hq).
  apply inert_bind; [apply (quiet_has_slot answering)|]. intros []; [|apply IH].
  apply inert_bind; [apply step_issue_one; [now exists o|exact Hq]|auto].
Qed.
#[local] Hint Resolve step_issue_loop : footprint.

Lemma step_issuePendingOperations : inert issuePendingOperations.
Proof. unfold issuePendingOperations. footprint. Qed.
#[local] Hint Resolve step_issuePendingOperations : footprint.

(** *** Callbacks *)

Lemma step_run_handler h status data : (forall q, h = HRead q -> mo_may_free mon q) -> inert (run_handler h status data).
Proof.
  intros Hq. unfold run_handler, bound_to, free. destruct h as [| | | | |q| | | | |]; try solve [footprint].
  destruct (0 <? status); [footprint|]. apply inert_bind; [now apply step_free, Hq|intro; footprint].
Qed.

(** Only a read hands over a block, its own. *)
Lemma handler_owned op status data w res w' : run_handler (handler op) status data w = Some (res, w') -> owned op res.
Proof.
  intros Hr q n ->. unfold own_buffer.
  destruct (handler op) as [| | | | |p| | | | |]; cbn [run_handler] in Hr; unfold bound_to, free, bind, lift, ret, trap in Hr.
  6: { destruct (0 <? status); [injection Hr as -> _ _; reflexivity|]. destruct (mem_op _ w) as [[]|]; discriminate Hr. }
  all: try discriminate Hr; destruct data; try discriminate Hr; try (destruct (decide _); try discriminate Hr).
  destruct (read_exports addr); discriminate Hr.
Qed.

Lemma an_read_block id off n c p status data : command_buffer c = Some (mkBufPtr p 0, n) ->
  0 < status <= n -> answers (RRead id off n) c status data (Returned (VData (DataNoCopy p status))).
Proof. exact (an_read id off n c (mkBufPtr p 0) status data). Qed.

(** What a handler makes of a reply that the contract allows is what the caller
    is to be told. *)
Lemma reply_answers past r h c status data bytes w res w' : serves past r h c -> no_query c ->
  reply_allowed c status data bytes = true -> 0 <= status ->
  run_handler h status data w = Some (res, w') ->
  answers r c status data (outcome_of res) /\ has_type (handler_type h) res = true.
Proof.
  intros Hs Hq Hr Hst Hrun. assert (Hread : is_read c = true -> forall b n, command_buffer c = Some (b, n) -> status <= n).
  { intros Hi b n Hb. unfold reply_allowed in Hr. rewrite Hb, Hi in Hr.
    rewrite (proj2 (Z.leb_le _ _) Hst) in Hr. cbn [andb] in Hr.
    apply andb_prop in Hr as [_ Hr]. apply andb_prop in Hr as [Hr _]. lia. }
  assert (Hall : callback_allowed (relied_fn c) status data = true).
  { unfold reply_allowed in Hr. now repeat (apply andb_prop in Hr as [Hr _]). }
  destruct (callback_allowed_success _ _ _ Hall Hst) as (ok & p & Hd & Hok & Hp). clear Hr Hall.
  destruct Hs; try (now destruct (Hq s)); cbn in Hd; injection Hd as <- <-; cbn in Hok, Hp;
    try (apply Z.eqb_eq in Hok; subst status);
    cbn [run_handler] in Hrun; unfold bound_to, ret, bind in Hrun;
    try (destruct data as [|?|t a]; try discriminate Hp;
         apply andb_prop in Hp as [<-%bool_decide_eq_true_1 _]; cbn -[decide] in Hrun;
         try (rewrite decide_True in Hrun by done)).
  all: try (injection Hrun as <- _; cbn; split; [now constructor|reflexivity]).
  1, 2: destruct (0 <? status) eqn:Epos; [apply Z.ltb_lt in Epos; injection Hrun as <- _; cbn;
          split; [eapply an_read_block; [reflexivity|]|reflexivity]; specialize (Hread eq_refl _ _ eq_refl); lia
        |apply Z.ltb_ge in Epos; assert (status = 0) as -> by lia].
  1, 2: destruct (free _ w) as [[[] w1]|]; [|discriminate]; injection Hrun as <- _; cbn; split; [constructor|reflexivity].
  injection Hrun as <- _. specialize (Hread eq_refl _ _ eq_refl). rewrite Z.max_r by lia. cbn. split; [now constructor|reflexivity].
Qed.

(** libnfs answered the command of the operation [i]. *)
Definition replied (w : World) (i status : Z) (data : cdata) : Prop :=
  exists op bytes n, ops !! i = Some op /\ no_query (command op) /\ In (i, command op) (issued (lib w)) /\
    In (Reply i status data bytes) (lib_events n) /\ (n < tick (lib w))%nat /\
    reply_allowed (command op) status data bytes = true /\ mo_told mon (issued (lib w)) (heap w) op status.

Lemma replied_mono w w' i status data : grows w w' -> replied w i status data -> replied w' i status data.
Proof.
  intros [Hi Ht _ _ Hm _] (op & bytes & n & A & Q & B & C & D & F & G). exists op, bytes, n. splits; auto; [lia|].
  eapply mo_kept; eauto.
Qed.

Lemma serves_no_query past r h c : serves past r h c -> no_query c -> forall s, r <> RGetexports s.
Proof. intros [] Hq s' [=]. subst. now apply (Hq s'). Qed.

Lemma replied_error w i status data : good cs ops w -> replied w i status data -> status < 0 ->
  explains w i (inl (posix_error_plain (POSIXErrorCode_init (- status)))).
Proof.
  intros Hg (op & bytes & n & Ho & Hq & Hi & He & Ht & Hr & Hm) Hn op' Ho'. rewrite Ho in Ho'. injection Ho' as <-.
  split; [|auto]. destruct (gd_ops _ _ _ Hg i op Ho) as (_ & r & past & Hc & Hs & _).
  eapply (gn_reply _ _ _ _ i op r); eauto.
  { split; eauto. }
  assert (Hall : callback_allowed (relied_fn (command op)) status data = true).
  { unfold reply_allowed in Hr. now repeat (apply andb_prop in Hr as [Hr _]). }
  destruct (callback_allowed_error _ _ _ Hall Hn) as [Herr _]. apply andb_prop in Herr as [_ Hd].
  cbn [outcome_of]. unfold POSIXErrorCode_init. rewrite Hd. constructor; [exact Hn|].
  eapply serves_no_query; eauto.
Qed.

Lemma replied_value w i op status data w1 res w2 : good cs ops w -> replied w i status data -> 0 <= status ->
  ops !! i = Some op -> run_handler (handler op) status data w1 = Some (res, w2) -> explains w i res.
Proof.
  intros Hg (op' & bytes & n & Ho & Hq & Hi & He & Ht & Hr & Hm) Hn Ho' Hrun op2 Ho2.
  rewrite Ho in Ho', Ho2. injection Ho' as ->. injection Ho2 as <-.
  destruct (gd_ops _ _ _ Hg i op Ho) as (_ & r & past & Hc & Hs & _).
  destruct (reply_answers past r _ _ status data bytes w1 res w2 Hs Hq Hr Hn Hrun) as [Ha Hty].
  split; [|split; [exact Hty|eapply handler_owned; eauto]]. eapply (gn_reply _ _ _ _ i op r); eauto. split; eauto.
Qed.

Lemma step_nfsCallback status data i w : replied w i status data -> keeps w (nfsCallback status data i).
Proof.
  intros Hr. unfold nfsCallback. apply still_bind; [apply (quiet_release answering)|intros [] w1 _ [_ G1]].
  apply still_object. intros cb op Hg Hi Ho Hc Hh Ht Hcl. apply (replied_mono _ _ _ _ _ G1) in Hr. clear w G1.
  destruct (status <? 0) eqn:Eneg; [apply Z.ltb_lt in Eneg|apply Z.ltb_ge in Eneg].
  - apply still_bind; [|intros [] w2 _ [_ G2]].
    { unfold free. destruct (cleanup cb) as [q|]; [|apply still_ret]. apply step_free. eapply own_free; eauto. }
    apply still_bind; [apply (quiet_completionHook answering), step_issuePendingOperations|intros [] w3 _ [Hg3 G3]].
    apply still_bind; [apply still_lift|intros c w4 Hl _].
    unfold lift, int32_neg in Hl. destruct (decide _); [|discriminate]. injection Hl as <- <-.
    apply step_resume, (replied_error _ _ _ data); [exact Hg3| |exact Eneg].
    eapply replied_mono; [|exact Hr]. eapply grows_trans; eauto.
  - apply still_bind; [|intros res w2 Hrun [Hg2 G2]].
    { rewrite Hh. apply step_run_handler. intros q Hq. apply (own_write _ _ _ _ _ _ Hg Ho Hq). }
    apply still_bind; [apply (quiet_completionHook answering), step_issuePendingOperations|intros [] w3 _ [_ G3]].
    apply step_resume. eapply explains_mono; [exact G3|]. rewrite Hh in Hrun.
    eapply replied_value; eauto. eapply replied_mono; eauto.
Qed.

(** Libnfs fills the buffer of a read before it calls back. *)
Lemma still_write_reply {B} op i status data bytes n w (k : unit -> M World B) : ops !! i = Some op ->
  no_query (command op) -> In (i, command op) (issued (lib w)) -> In (Reply i status data bytes) (lib_events n) ->
  (n < tick (lib w))%nat -> reply_allowed (command op) status data bytes = true ->
  (forall w', grows w w' -> replied w' i status data -> keeps w' (k tt)) ->
  keeps w (bind (write_reply (command op) bytes) k).
Proof.
  intros Ho Hq Hi He Ht Hr Hk Hp b w'. destruct (gd_ops _ _ _ Hp i op Ho) as (_ & r & past & Hc & Hs & Hcall).
  assert (Hm : forall m, (match command_buffer (command op), bytes with
     | Some (b, _), _ :: _ => store (bp_block b) (bp_off b) bytes (heap w) = Some m
     | _, _ => m = heap w
     end) -> step w (upd_heap (fun _ => m) w) /\ replied (upd_heap (fun _ => m) w) i status data).
  { intros m Hm. destruct (mo_reply mon _ _ i op r past status data bytes n m (gd_watched _ _ _ Hp) Hs Hcall) as (H1 & H2 & H3); auto.
    { intros q Hq'. apply (own_write _ _ _ _ _ _ Hp Ho Hq'). }
    split; [|exists op, bytes, n; auto 8]. apply step_memory; auto.
    destruct (command_buffer (command op)) as [[x ?]|]; [destruct bytes|]; subst; try lia.
    rewrite (store_next _ _ _ _ _ Hm). lia. }
  unfold write_reply, mem_op, bind, gets, lift, modify, ret.
  assert (Hsame : keeps w (k tt) -> k tt w = Some (b, w') -> step w w') by (intros H; exact (H Hp b w')).
  destruct (command_buffer (command op)) as [[x ?]|]; [destruct bytes as [|y bytes]|].
  1, 3: destruct (Hm _ eq_refl) as [_ Hrep]; apply Hsame, Hk; [apply grows_refl|]; destruct w; exact Hrep.
  destruct (store _ _ _ (heap w)) as [m|]; [|discriminate]. destruct (Hm m eq_refl) as [H1 Hrep].
  intros Hx. eapply step_trans; [exact H1|]. exact (Hk _ (st_grows _ _ H1) Hrep (st_good _ _ H1) b w' Hx).
Qed.

(** The events that libnfs offered at one time are delivered at a later one. *)
Lemma step_deliver e n w : In e (lib_events n) -> (n < tick (lib w))%nat -> keeps w (deliver e).
Proof.
  intros He Ht. destruct e as [i status data bytes|level msg]; cbn [deliver].
  - apply still_gets. destruct (_ !! i) as [c|] eqn:Ei; [|apply still_ret].
    destruct (reply_allowed c status data bytes) eqn:Er; [|apply still_ret]. cbn [when].
    apply still_inv. intros Hg. destruct (gd_out _ _ _ Hg i c Ei) as [Hi Hq].
    destruct (gd_issued _ _ _ Hg i c Hi) as (op & Ho & <-).
    apply still_write_reply with (i := i) (status := status) (data := data) (n := n); [assumption..|].
    intros w1 G1 Hr. apply still_bind; [|intros [] w2 _ [_ G2]].
    { intros Hg1 a w2 [= _ <-]. pose proof Hg1 as []. apply good_lib; cbn; auto.
      - apply grows_lib; [done|cbn; lia].
      - intros j d [_ Hj]%lookup_delete_Some. auto. }
    apply step_nfsCallback. eapply replied_mono; eauto.
  - apply still_gets. apply (quiet_logCallback answering).
Qed.

Lemma still_for_each {A} (l : list A) (body : A -> M World unit) (Q : A -> World -> Prop) w :
  (forall x w w', grows w w' -> Q x w -> Q x w') -> (forall x w, Q x w -> keeps w (body x)) ->
  (forall x, In x l -> Q x w) -> keeps w (for_each l body).
Proof.
  intros Hm Hb. revert w. induction l as [|x l IH]; intros w Hl; [apply still_ret|].
  apply still_bind; [apply Hb, Hl; now left|]. intros [] w1 _ [_ G]. apply IH.
  intros y Hy. eapply Hm; [exact G|]. apply Hl. now right.
Qed.

(** Ask for events and treat each. *)
Lemma step_events {A} (f : nat -> list A) (body : A -> M World unit) :
  (forall x n w, In x (f n) -> (n < tick (lib w))%nat -> keeps w (body x)) ->
  inert (es <- ask f ;; for_each es body).
Proof.
  intros Hb w. apply still_bind; [apply (quiet_ask answering)|]. intros es w1 [= <- <-] _.
  apply (still_for_each _ _ (fun x w' => In x (f (tick (lib w))) /\ (tick (lib w) < tick (lib w'))%nat)).
  - intros x w2 w3 [_ Ht] [Hx Hlt]. split; [exact Hx|lia].
  - intros x w2 [Hx Hlt]. eapply Hb; eauto.
  - intros x Hx. split; [exact Hx|cbn; lia].
Qed.

Lemma step_run_callbacks : inert run_callbacks.
Proof. apply step_events. intros x n w. apply step_deliver. Qed.

Lemma step_rpcCallback i s status data n w : In (i, CGetexports s) (issued (lib w)) ->
  In (status, data) (rpc_events n) -> (n < tick (lib w))%nat ->
  callback_allowed Api.mount_getexports_async status data = true -> keeps w (rpcCallback status data i).
Proof.
  intros Hi He Ht Hall. unfold rpcCallback. apply still_inv. intros Hg0.
  destruct (gd_issued _ _ _ Hg0 i _ Hi) as (op & Ho & Hcmd).
  destruct (gd_ops _ _ _ Hg0 i op Ho) as (_ & r & past & Hc & Hs & _).
  assert (r = RGetexports s /\ handler op = HExports) as [-> Hh].
  { rewrite Hcmd in Hs. now inversion Hs. }
  assert (Hex : forall w', grows w w' -> forall res, answers (RGetexports s) (command op) status data (outcome_of res) ->
            has_type TStrings res = true -> explains w' i res).
  { intros w' [Hi' Ht' _ _ _ _] res Ha Hty op' Ho'. rewrite Ho in Ho'. injection Ho' as <-. rewrite Hh.
    split; [|split; [exact Hty|intros q x ->; discriminate Hty]].
    eapply (gn_exports _ _ _ _ i op s); eauto; [|lia]. rewrite <- Hcmd in Hi. split; eauto. }
  apply still_bind; [apply (quiet_release answering)|intros [] w1 _ [_ G1]].
  apply still_object. intros cb op' _ _ Ho' _ Hh' _ _. rewrite Ho in Ho'. injection Ho' as <-. rewrite Hh', Hh.
  destruct (status =? 0) eqn:Est; cbn [negb].
  - apply Z.eqb_eq in Est as ->.
    apply still_bind; [apply step_run_handler; discriminate|intros res w2 Hrun [_ G2]].
    apply still_bind; [apply (quiet_completionHook answering), step_issuePendingOperations|intros [] w3 _ [_ G3]]. apply step_resume.
    destruct data as [| |t a]; try discriminate Hall.
    unfold callback_allowed in Hall. cbn in Hall. rewrite orb_false_r in Hall.
    apply andb_prop in Hall as [<-%bool_decide_eq_true_1 _].
    cbn [run_handler] in Hrun. unfold bound_to, bind, lift, ret in Hrun. rewrite decide_True in Hrun by done.
    destruct (read_exports a) as [l|] eqn:El; [|discriminate].
    injection Hrun as <- _. apply Hex; [eapply grows_trans; [exact G1|eapply grows_trans; eauto]|now constructor|reflexivity].
  - apply Z.eqb_neq in Est. apply still_bind; [apply (quiet_completionHook answering), step_issuePendingOperations|intros [] w2 _ [_ G2]].
    assert (Hneg : status < 0).
    { unfold callback_allowed in Hall. cbn in Hall. rewrite (proj2 (Z.eqb_neq _ _) Est) in Hall. cbn in Hall.
      apply andb_prop in Hall as [Hm _]. apply andb_prop in Hm as [Hm _]. lia. }
    rewrite POSIXErrorCode_init_neg by lia.
    apply step_resume, Hex; [eapply grows_trans; eauto|now constructor|reflexivity].
Qed.

Lemma step_rpcOutstanding_none w : good cs ops w -> step w (upd_lib (upd_rpcOutstanding (fun _ => None)) w).
Proof.
  intros Hg. pose proof Hg as []. apply good_lib; cbn; auto; [|discriminate]. apply grows_lib; [done|cbn; lia].
Qed.

Lemma step_deliver_rpc e n w : In e (rpc_events n) -> (n < tick (lib w))%nat -> keeps w (deliver_rpc e).
Proof.
  intros He Ht. unfold deliver_rpc. apply still_gets. destruct (rpcOutstanding (lib w)) as [i|] eqn:Ei; [|apply still_ret].
  destruct (callback_allowed _ _ _) eqn:Hall; [|apply still_ret]. cbn [when].
  apply still_inv. intros Hg. destruct (gd_rpc _ _ _ Hg i Ei) as [s Hs].
  apply still_bind; [intros ? ? ? [= _ <-]; now apply step_rpcOutstanding_none|intros [] w1 _ [_ [G1 G2 _ _ _ _]]].
  destruct e as [status data]. eapply step_rpcCallback; eauto. lia.
Qed.

Lemma step_run_rpc_callbacks : inert run_rpc_callbacks.
Proof. apply step_events. intros x n w. apply step_deliver_rpc. Qed.
#[local] Hint Resolve step_run_callbacks step_run_rpc_callbacks : footprint.

(** *** Whole blocks *)

Lemma step_cleanupRpcExports : inert cleanupRpcExports.
Proof.
  unfold cleanupRpcExports, rpc_destroy_context.
  apply inert_bind; [footprint|intro]. apply inert_bind; [footprint|intros [x|]].
  - apply inert_bind; [|intro; footprint]. apply inert_bind; [footprint|intro].
    apply inert_bind; [footprint|intro]. apply inert_modify, step_rpcOutstanding_none.
  - footprint.
Qed.
#[local] Hint Resolve step_cleanupRpcExports : footprint.
Lemma step_handleRpcExportsEvent : inert handleRpcExportsEvent.
Proof. unfold handleRpcExportsEvent, rpc_service. footprint. Qed.

(** The call of the operation [i] was made longer ago than the timeout. *)
Definition overdue (i : Z) (w : World) : Prop := 0 < timeout w /\
  forall op r past, ops !! i = Some op -> cs !! call op = Some (r, past) -> now past < dispatch_sub (now w) (timeout w).

Lemma overdue_mono i w w' : grows w w' -> overdue i w -> overdue i w'.
Proof.
  intros [_ _ _ _ _ [_ Mt Mn]] [Hp Ho]. split; [lia|]. intros op r past Hi Hc. specialize (Ho op r past Hi Hc).
  pose proof (dispatch_sub_mono (now w) (now w') (timeout w) Mn). rewrite Mt. lia.
Qed.

Lemma overdue_raises i w : overdue i w -> raises w i (posix_error_plain ETIMEDOUT).
Proof. intros [Hp Ho] op r past Hi Hc. apply (oe_timeout _ _ _ _ r i op); eauto. Qed.

Lemma step_time_out i w : overdue i w -> keeps w (time_out i).
Proof.
  intros Ho. unfold time_out. apply still_gets. destruct (decide _); [|apply still_ret].
  apply still_bind; [apply (quiet_get_object answering)|intros cb w1 _ [_ G1]].
  apply still_bind; [apply (quiet_remove_continuation answering)|intros [] w2 _ [_ G2]].
  apply still_bind; [apply (quiet_recordCompletion answering)|intros [] w3 _ [_ G3]].
  apply step_resume_own, overdue_raises. eauto using overdue_mono.
Qed.

Lemma scan_overdue w i : good cs ops w -> 0 < timeout w ->
  In i (started_before (dispatch_sub (now w) (timeout w)) (reg w)) -> overdue i w.
Proof.
  intros Hg Hp [_ Hi]%List.filter_In. split; [exact Hp|]. destruct (objects (reg w) !! i) as [cb|] eqn:Ecb; [|discriminate].
  apply Z.ltb_lt in Hi. intros op r past Ho Hc.
  destruct (gd_obj _ _ _ Hg i cb Ecb) as (op' & Ho' & _ & _ & _ & _ & Hpast). rewrite Ho in Ho'. injection Ho' as <-.
  specialize (Hpast r past Hc). lia.
Qed.

Lemma step_scanForTimeouts : inert scanForTimeouts.
Proof.
  intros w. unfold scanForTimeouts. apply still_inv. intros Hg. apply still_gets.
  destruct (0 <? timeout w) eqn:Et; [apply Z.ltb_lt in Et|apply still_ret]. do 2 apply still_gets.
  apply still_bind; [|intros [] w1 _ _; apply still_inert; footprint].
  apply (still_for_each _ _ overdue); [intros *; apply overdue_mono|intros *; apply step_time_out|].
  intros i. now apply scan_overdue.
Qed.

(** Without a context. *)
Definition disconnected (w : World) : Prop := context w = None.

Lemma disconnected_raises w i d : disconnected w -> raises w i (posix_error ENOTCONN d).
Proof. intros Hc op r past _ _. now apply oe_disconnected. Qed.

Lemma step_resume_all s d w : disconnected w -> keeps w (resume_all s (posix_error ENOTCONN d)).
Proof.
  intros Hd. apply (still_for_each _ _ (fun _ => disconnected)); [|intros i w1 H1; now apply step_resume_own, disconnected_raises|done].
  intros i w1 w2 [_ _ _ _ _ [Mc _ _]]. exact Mc.
Qed.

Lemma step_clear_outstanding : inert (modify (upd_lib (upd_outstanding (fun _ => ∅)))).
Proof.
  apply inert_modify. intros w Hg. pose proof Hg as []. apply good_lib; cbn; auto.
  - apply grows_lib; [done|cbn; lia].
  - intros i c. rewrite lookup_empty. discriminate.
Qed.
#[local] Hint Resolve step_clear_outstanding : footprint.

Lemma step_destroy_context : inert destroy_context.
Proof.
  unfold destroy_context, nfs_destroy_context. apply inert_bind; [footprint|intros [c|]]; [|footprint].
  do 2 (apply inert_bind; [footprint|intro]). apply inert_bind; [apply step_clear_outstanding|intro]. footprint.
Qed.

Lemma destroy_disconnects w w' : good cs ops w -> destroy_context w = Some (tt, w') -> disconnected w'.
Proof.
  intros Hg Hr. unfold destroy_context in Hr. apply run_bind in Hr as (ctx & w1 & [= <- <-] & Hr).
  destruct (context w) as [c|] eqn:Ec; [|now injection Hr as <-].
  apply run_bind in Hr as (? & w2 & [= <- <-] & Hr).
  assert (Hk : keeps (upd_context (fun _ => None) w) nfs_destroy_context).
  { unfold nfs_destroy_context. apply still_inert. apply inert_bind; [footprint|intro].
    apply inert_bind; [apply step_clear_outstanding|intro]. footprint. }
  assert (Hs : step w (upd_context (fun _ => None) w)) by (apply step_unseen; [assumption|reflexivity|reflexivity|moves]).
  destruct (Hk (st_good _ _ Hs) tt w' Hr) as [_ [_ _ _ _ _ [Mc _ _]]]. now apply Mc.
Qed.

(** What comes after the context is destroyed. *)
Lemma step_destroyed {B} w (k : unit -> M World B) : (forall w', disconnected w' -> keeps w' (k tt)) ->
  keeps w (bind destroy_context k).
Proof.
  intros Hk. apply still_inv. intros Hg. apply still_bind; [apply step_destroy_context|intros [] w1 H1 _].
  exact (Hk w1 (destroy_disconnects w w1 Hg H1)).
Qed.

Lemma step_clear_pending : inert (modify (upd_pipe (upd_pendingOperations (fun _ => [])))).
Proof.
  apply inert_modify. intros w []. split; [|now apply grows_same]. constructor; cbn; auto.
  - intros p Hp. inversion Hp.
  - intros k o Ho. eapply genuine_mono; eauto using grows_same.
Qed.
#[local] Hint Resolve step_destroy_context : footprint.

Lemma step_shutdownWithError d : inert (shutdownWithError (posix_error ENOTCONN d)).
Proof.
  unfold shutdownWithError. do 5 (apply inert_bind; [footprint|intro]).
  apply inert_bind; [apply step_clear_pending|intros [] w]. apply step_destroyed. intros w'. apply step_resume_all.
Qed.
#[local] Hint Resolve step_shutdownWithError : footprint.

Lemma step_handleIOEvent : inert handleIOEvent.
Proof. unfold handleIOEvent, nfs_service. footprint. Qed.
Lemma step_performShutdown : inert performShutdown.
Proof.
  unfold performShutdown. do 2 (apply inert_bind; [footprint|intro]). destruct (_ || _); [|footprint].
  do 7 (apply inert_bind; [footprint|intro]). apply inert_bind; [apply step_clear_pending|intro].
  apply inert_bind; [footprint|intros [] w]. apply step_destroyed. intros w' Hd.
  apply still_bind; [now apply step_resume_all|intros [] w1 _ _]. apply still_inert. footprint.
Qed.

Lemma step_closed x : inert (modify (upd_lib (upd_closed (fun l => l ++ [x])))).
Proof.
  apply inert_modify. intros w Hg. pose proof Hg as []. apply good_lib; cbn; auto.
  apply grows_lib; [done|cbn; lia].
Qed.
#[local] Hint Resolve step_closed : footprint.

Lemma step_closeForget id : inert (closeFileFireAndForget id).
Proof.
  unfold closeFileFireAndForget, nfs_close. apply inert_bind; [footprint|intros [h|]]; [|footprint].
  do 2 (apply inert_bind; [footprint|intro]). apply inert_when.
  apply inert_bind; [apply step_closed|intro; footprint].
Qed.

(** Every event that is not a call. *)
Lemma step_event e : (forall r, e <> Call r) -> (forall q, e = FreeBuffer q -> mo_may_free mon q) -> inert (handle e).
Proof.
  intros He Hq. destruct e as [r| | | | |h|x|n|p|d]; cbn [handle].
  - now destruct (He r).
  - apply step_handleIOEvent.
  - apply step_handleRpcExportsEvent.
  - apply step_scanForTimeouts.
  - apply step_performShutdown.
  - apply step_closeForget.
  - apply (quiet_setLogHandler answering).
  - footprint.
  - now apply step_free, Hq.
  - footprint.
Qed.

(** *** The rest of a call, once its operation is known *)

Section Operation.
Context (i : Z) (op : Operation) (Hop : ops !! i = Some op) (Hq : no_query (command op)).

Lemma step_new_callback c x b : (forall q, b = Some q -> own_buffer op = Some q) ->
  inert (new_callback i c (handler op) (call op) (handler_type (handler op)) x b).
Proof.
  intros Hb w. unfold new_callback. apply still_gets. apply still_bind; [|intros [] w1 _ _; apply still_inert; footprint].
  intros [] a w' [= _ <-]. split; [|now apply grows_same]. constructor; cbn; auto.
  - intros j cb [[<- <-]|[_ Hj]]%lookup_insert_Some; [|eauto]. exists op. splits; eauto.
  - intros k o Ho. eapply genuine_mono; eauto using grows_same.
Qed.

Lemma op_linked : linked i (command op).
Proof. now exists op. Qed.

Lemma step_issueOperation t : inert (issueOperation i t (command op)).
Proof.
  intros w. unfold issueOperation. apply still_bind; [apply (quiet_pass_retained answering)|intros [] w1 _ _].
  apply still_call_async; [apply op_linked|exact Hq|]. intros w2 _ _ Hr.
  destruct (async_rc i <? 0) eqn:Erc; [|apply inert_bind; [apply (quiet_set_inFlight answering)|intro; apply (quiet_updateWriteSource answering)]].
  apply Z.ltb_lt in Erc. apply still_bind; [apply (quiet_release answering)|intros [] w3 _ [_ G3]].
  apply still_bind; [apply (quiet_remove_continuation answering)|intros [] w4 _ [_ G4]].
  apply still_call_error. intros d w5 G5 _. apply step_resume.
  eapply explains_mono; [|eapply explains_refused; eauto]. eauto using grows_trans.
Qed.

Lemma step_start_call c buf : (forall q, buf = Some q -> mo_may_free mon q) ->
  inert (start_call (call op) i c (command op) buf).
Proof.
  intros Hbuf w. unfold start_call. apply still_bind; [apply (quiet_pass_retained answering)|intros [] w1 _ _].
  apply still_call_async; [apply op_linked|exact Hq|]. intros w2 _ _ Hr.
  destruct (async_rc i <? 0) eqn:Erc; [|apply inert_bind; [apply (quiet_set_inFlight answering)|intro; apply (quiet_updateWriteSource answering)]].
  apply Z.ltb_lt in Erc.
  apply still_bind; [destruct buf; [now apply step_free, Hbuf|apply still_ret]|intros [] w3 _ [_ G3]].
  apply still_bind; [apply (quiet_release answering)|intros [] w4 _ [_ G4]].
  apply still_bind; [apply step_drop_continuation|intros [] w5 _ [_ G5]].
  apply still_call_error. intros d w6 G6 _. apply step_cont_resume.
  eapply genuine_mono; [|reflexivity|reflexivity|eapply grows_trans; [exact G3|eauto using grows_trans]].
  destruct (Hr Erc) as [_ Hm]. destruct (Hm op Hop) as [r Hm']. now apply (gn_refused _ _ _ _ i op r).
Qed.

(** A waiting operation. *)
Lemma step_wait t : inert (modify (upd_pipe (upd_pendingOperations (fun l => l ++ [mkPending i t (command op)])))).
Proof.
  apply inert_modify. intros w []. split; [|now apply grows_same]. constructor; cbn; auto.
  - intros p [Hp|Hp%list_elem_of_singleton]%elem_of_app; [auto|]. subst p. exists op. auto.
  - intros k o Ho. eapply genuine_mono; eauto using grows_same.
Qed.

End Operation.

(** The caller gets an error of the loop itself. *)
Lemma step_own k r past e w : cs !! k = Some (r, past) -> own_error ops past w k r e -> keeps w (cont_resume k (Threw e)).
Proof. intros Hk He. apply step_cont_resume. eapply gn_own; eauto. Qed.

Lemma still_call_getexports {B} i s w (k : Z -> M World B) : linked i (CGetexports s) ->
  (forall w', In (i, CGetexports s) (issued (lib w')) -> keeps w' (k (async_rc i))) ->
  keeps w (bind (call_getexports i s) k).
Proof.
  intros Hl Hk Hp b w'. unfold call_getexports, bind, modify, when, ret.
  pose proof (step_issued i _ w Hl Hp) as H1.
  assert (H2 : step w (if 0 <=? async_rc i
     then upd_lib (upd_rpcOutstanding (fun _ => Some i)) (upd_lib (upd_issued (fun l => l ++ [(i, CGetexports s)])) w)
     else upd_lib (upd_issued (fun l => l ++ [(i, CGetexports s)])) w)).
  { destruct (0 <=? async_rc i); [|exact H1]. eapply step_trans; [exact H1|].
    pose proof (st_good _ _ H1) as Hg. pose proof Hg as []. apply good_lib; cbn in *; auto.
    - apply grows_lib; [done|cbn; lia].
    - intros j [= <-]. exists s. apply in_or_app. right. now left. }
  intros Hr. eapply step_trans; [exact H2|].
  destruct (0 <=? async_rc i); (eapply Hk; [|apply H2|exact Hr]); apply in_or_app; right; now left.
Qed.

End Kept.

(** ** Calls

    A call may add one operation. *)

Section Calls.
Context (cs : Called) (k : Z) (r : Request) (past : World) (Hk : cs !! k = Some (r, past)) (Hcall : mo_call mon r past).

Definition leads {A} (ops : gmap Z Operation) (w : World) (m : M World A) : Prop :=
  good cs ops w -> forall a w', m w = Some (a, w') -> exists ops', ops ⊆ ops' /\ good cs ops' w'.

Lemma leads_kept {A} ops w (m : M World A) : fp_keeps (answering cs ops) w m -> leads ops w m.
Proof. intros H Hg a w' Hm. exists ops. split; [done|]. exact (st_good _ _ _ _ (H Hg a w' Hm)). Qed.

Lemma leads_bind {A B} ops w (m : M World A) (f : A -> M World B) : fp_keeps (answering cs ops) w m ->
  (forall a w', m w = Some (a, w') -> grows w w' -> leads ops w' (f a)) -> leads ops w (bind m f).
Proof.
  intros Hm Hf Hg b w'. unfold bind. destruct (m w) as [[a w1]|] eqn:E1; [|discriminate].
  intros Hr. destruct (Hm Hg a w1 E1) as [Hg1 G1]. exact (Hf a w1 eq_refl G1 Hg1 b w' Hr).
Qed.

Lemma leads_gets {A B} ops w (f : World -> A) (g : A -> M World B) : leads ops w (g (f w)) -> leads ops w (bind (gets f) g).
Proof. intros H Hg b w' Hr. exact (H Hg b w' Hr). Qed.

(** The identifier [i] is free for a new operation. *)
Definition vacant (ops : gmap Z Operation) (i : Z) (w : World) : Prop :=
  ops !! i = None /\ i < nextContinuationID (reg w).

Lemma vacant_mono ops i w w' : grows w w' -> vacant ops i w -> vacant ops i w'.
Proof. intros [_ _ H _ _ _] [A B]. split; [exact A|lia]. Qed.

Lemma good_id ops w i w' : good cs ops w -> next_continuation_id w = Some (i, w') ->
  i = nextContinuationID (reg w) /\ vacant ops i w' /\ good cs ops w' /\ w' = upd_reg (upd_nextContinuationID (fun n => n + 1)) w.
Proof.
  intros Hg. unfold next_continuation_id, bind, gets, modify, ret. destruct (_ <? _); [|discriminate].
  intros [= <- <-]. refine (conj eq_refl (conj _ (conj _ eq_refl))).
  - split; cbn; [|lia]. apply eq_None_not_Some. intros [op Ho]. destruct (gd_ops _ _ _ Hg _ _ Ho). lia.
  - destruct Hg. constructor; cbn; auto.
    + intros i op Ho. destruct (gd_ops0 i op Ho) as [? ?]. split; [lia|assumption].
    + intros k' o Ho. eapply genuine_mono; eauto. split; cbn; try lia; [apply incl_refl|apply mo_refl|now constructor].
Qed.

Lemma leads_id {B} ops w (f : Z -> M World B) :
  (forall i w', vacant ops i w' -> pipe w' = pipe w -> leads ops w' (f i)) -> leads ops w (bind next_continuation_id f).
Proof.
  intros H Hg b w'. unfold bind. destruct (next_continuation_id w) as [[i w1]|] eqn:Ei; [|discriminate].
  destruct (good_id ops w i w1 Hg Ei) as (_ & Hv & Hg1 & ->). exact (H i _ Hv eq_refl Hg1 b w').
Qed.

Lemma good_new ops w i h c : good cs ops w -> vacant ops i w -> serves past r h c ->
  (forall q, own_buffer (mkOperation k h c) = Some q -> held (mkOperation k h c) q (heap w)) ->
  good cs (<[i := mkOperation k h c]> ops) w.
Proof.
  intros Hg [Hv Hi] Hs Hb. set (ops' := <[i := mkOperation k h c]> ops).
  assert (Hsub : ops ⊆ ops') by now apply insert_subseteq.
  destruct Hg. constructor; auto.
  - intros j op [[<- <-]|[_ Hj]]%lookup_insert_Some; [|auto]. cbn. split; [exact Hi|]. exists r, past. auto.
  - intros j op q [[<- <-]|[_ Hj]]%lookup_insert_Some; [apply Hb|eauto].
  - intros j cb Hj. destruct (gd_obj0 j cb Hj) as (op & Ho & ?). exists op. split; [eapply lookup_weaken; eauto|done].
  - intros p Hp. destruct (gd_pend0 p Hp) as (op & Ho & ?). exists op. split; [eapply lookup_weaken; eauto|done].
  - intros j d Hj. destruct (gd_issued0 j d Hj) as (op & Ho & ?). exists op. split; [eapply lookup_weaken; eauto|done].
  - intros k' o Ho. eapply genuine_mono; eauto using grows_refl.
Qed.

Lemma leads_new_at {A} ops w i h c (m : M World A) : vacant ops i w -> serves past r h c ->
  (forall q, own_buffer (mkOperation k h c) = Some q -> held (mkOperation k h c) q (heap w)) ->
  fp_keeps (answering cs (<[i := mkOperation k h c]> ops)) w m -> leads ops w m.
Proof.
  intros Hv Hs Hb Hm Hg a w' Hr. eexists. split; [now eapply insert_subseteq, Hv|].
  exact (st_good _ _ _ _ (Hm (good_new ops w i h c Hg Hv Hs Hb) a w' Hr)).
Qed.

Lemma leads_new {A} ops w i h c (m : M World A) : vacant ops i w -> serves past r h c ->
  (forall q, own_buffer (mkOperation k h c) = Some q -> held (mkOperation k h c) q (heap w)) ->
  fp_inert (answering cs (<[i := mkOperation k h c]> ops)) m -> leads ops w m.
Proof. intros Hv Hs Hb Hm. now apply (leads_new_at ops w i h c), Hm. Qed.

#[local] Hint Resolve step_alloc step_drop_continuation step_cleanupRpcExports : footprint.
Ltac moves := constructor; cbn; solve [done | lia].
Ltac footprint := footprint_with ltac:(apply step_unseen; [assumption|reflexivity|reflexivity|moves]).

Lemma own ops e w : own_error ops past w k r e -> fp_keeps (answering cs ops) w (cont_resume k (Threw e)).
Proof. now apply step_own. Qed.

Lemma leads_own ops w e : own_error ops past w k r e -> leads ops w (cont_resume k (Threw e)).
Proof. intros H. now apply leads_kept, own. Qed.

(** Without a context nothing else happens. *)
Lemma leads_disconnected ops w d : context w = None -> leads ops w (cont_resume k (Threw (posix_error ENOTCONN d))).
Proof. intros H. now apply leads_own, oe_disconnected. Qed.

(** [new_callback] leaves the pipeline alone. *)
Lemma new_callback_pipe i c h t x b w w' : new_callback i c h k t x b w = Some (tt, w') -> pipe w' = pipe w.
Proof. intros [= <-]. reflexivity. Qed.

Lemma has_slot_false c w w' : has_slot c w = Some (false, w') ->
  exists d, Pipeline.effectiveDepth (controller c w) = Some d /\ d <= inFlight c w /\ w' = w.
Proof.
  unfold has_slot, bind, gets, lift, ret. destruct (Pipeline.effectiveDepth _) as [d|]; [|discriminate].
  intros [= H <-]. apply Z.ltb_ge in H. eauto.
Qed.

Lemma slot_frame c w w' : pipe w' = pipe w -> controller c w' = controller c w /\ inFlight c w' = inFlight c w.
Proof. intros H. unfold controller, inFlight. rewrite H. destruct c; done. Qed.

Lemma leads_submit o ops w : r = RPath o -> pipe w = pipe past -> let '(t, h, c) := path_op o in
  serves past r h c -> no_query c -> own_buffer (mkOperation k h c) = None -> leads ops w (submit k t h c).
Proof.
  intros Hr Hw. assert (Hcat : path_category o = Op.category (fst (fst (path_op o)))) by done.
  destruct (path_op o) as [[t h] c]. cbn [fst] in Hcat. intros Hs Hq Hn. unfold submit. apply leads_gets.
  destruct (context w) eqn:Ectx; [|now apply leads_disconnected].
  apply leads_id. intros i w' Hv Hpipe. cbn zeta. apply (leads_new_at ops w' i h c); [exact Hv|exact Hs|now rewrite Hn|].
  set (op := mkOperation k h c). assert (Ho : <[i:=op]> ops !! i = Some op) by apply lookup_insert_eq.
  apply still_bind; [refine (step_new_callback _ _ i op Ho _ _ _ _ _); done|intros [] w2 H2 _].
  apply new_callback_pipe in H2. apply still_bind; [apply (quiet_has_slot (answering _ _))|intros slot w3 H3 _].
  apply still_gets. destruct slot; [exact (step_issueOperation _ _ i op Ho Hq _ w3)|].
  apply has_slot_false in H3 as (d & Hd & Hle & ->).
  destruct (slot_frame (Op.category t) past w2) as [Hc Hf]; [congruence|]. rewrite Hc in Hd. rewrite Hf in Hle.
  destruct (maxPendingOperations <=? _) eqn:Hfull.
  - apply Z.leb_le in Hfull. apply still_bind; [apply step_drop_continuation|intros [] w4 _ _]. apply own. rewrite Hr.
    apply (oe_full _ _ _ _ o d); rewrite ?Hcat; [done|done|]. now rewrite <- Hw, <- Hpipe, <- H2.
  - apply still_inert. apply inert_bind; [footprint|intro]. exact (step_wait _ _ i op Ho Hq _).
Qed.

Lemma leads_submit_path o ops w : r = RPath o -> pipe w = pipe past -> leads ops w (submit_path k o).
Proof.
  intros Hr Hw. pose proof (leads_submit o ops w Hr Hw) as H. unfold submit_path.
  destruct (path_op o) as [[t h] c] eqn:Eo.
  apply H; rewrite ?Hr; destruct o; injection Eo as <- <- <-; try constructor; intros s [=].
Qed.

Lemma leads_mount s e ops w : r = RMount s e -> leads ops w (mount k s e).
Proof.
  intros Hr. unfold mount. apply leads_gets. destruct (context w) eqn:Ectx; [|now apply leads_disconnected].
  apply leads_id. intros i w' Hv Hpipe. apply (leads_new ops w' i HVoid (CMount s e)); [exact Hv|rewrite Hr; constructor|done|].
  set (op := mkOperation k HVoid (CMount s e)). assert (Ho : <[i:=op]> ops !! i = Some op) by apply lookup_insert_eq.
  apply inert_bind; [refine (step_new_callback _ _ i op Ho _ _ _ _); done|intro].
  apply inert_bind; [footprint|intro]. intros w1.
  apply still_call_async; [now exists op|intros s' [=]|]. intros w2 _ _ Hf.
  destruct (async_rc i <? 0) eqn:Erc.
  - apply Z.ltb_lt in Erc. apply still_bind; [apply quiet_release, _|intros [] w3 _ [_ G3]].
    apply still_bind; [apply step_drop_continuation|intros [] w4 _ [_ G4]].
    apply still_call_error. intros d w5 G5 _. apply step_cont_resume.
    eapply genuine_mono; [|reflexivity|reflexivity|eapply grows_trans; [exact G3|eauto using grows_trans]].
    destruct (Hf Erc) as [_ Hm]. destruct (Hm op Ho) as [r' Hm']. now apply (gn_refused _ _ _ _ i op r').
  - apply still_inert. footprint.
Qed.

Lemma leads_getexports s ops w : r = RGetexports s -> rpcx w = rpcx past -> leads ops w (getexports k s).
Proof.
  intros Hr Hw. unfold getexports. do 2 apply leads_gets.
  destruct (context w) eqn:Ectx; [|now apply leads_disconnected].
  destruct (rpcExportsCtx (rpcx w)) eqn:Erpc; [apply leads_own; rewrite Hr; apply oe_busy; rewrite <- Hw; eauto|].
  apply leads_bind; [apply quiet_ask, _|]. intros created w1 [= <- <-] _.
  destruct (rpc_init _) eqn:Einit; cbn [negb];
    [|apply leads_own; rewrite Hr; apply (oe_context _ _ _ _ s (tick (lib w)) Einit); cbn; lia].
  apply leads_id. intros i w' Hv _. apply (leads_new ops w' i HExports (CGetexports s)); [exact Hv|rewrite Hr; constructor|done|].
  set (op := mkOperation k HExports (CGetexports s)). assert (Ho : <[i:=op]> ops !! i = Some op) by apply lookup_insert_eq.
  apply inert_bind; [refine (step_new_callback _ _ i op Ho _ _ _ _); done|intro].
  do 4 (apply inert_bind; [footprint|intro]). intros w2.
  apply still_call_getexports; [now exists op|]. intros w3 Hin. destruct (async_rc i <? 0) eqn:Erc; [apply Z.ltb_lt in Erc|].
  - apply still_bind; [apply quiet_release, _|intros [] w4 _ [_ G4]].
    apply still_bind; [apply step_drop_continuation|intros [] w5 _ [_ G5]].
    apply still_bind; [apply step_cleanupRpcExports|intros [] w6 _ [_ G6]].
    apply own. rewrite Hr. apply (oe_start _ _ _ _ s i op); [exact Ho|done| |exact Erc].
    apply (gr_issued _ _ G6), (gr_issued _ _ G5), (gr_issued _ _ G4), Hin.
  - apply still_inert. footprint.
Qed.

(** Methods on a handle. *)
Lemma leads_with_handle id body ops w : token r = Some id -> table w = table past ->
  (forall fh, table past !! id = Some fh -> leads ops w (body fh)) -> leads ops w (with_handle k id body).
Proof.
  intros Ht Hh Hb. unfold with_handle. do 2 apply leads_gets. fold (table w). rewrite Hh.
  destruct (table past !! id) as [fh|] eqn:Eh; [|apply leads_own; eapply oe_bad_token; eauto].
  destruct (context w) eqn:Ectx; [now apply Hb|now apply leads_disconnected].
Qed.

Lemma leads_handle_call c h cmd ops w : serves past r h cmd -> no_query cmd ->
  own_buffer (mkOperation k h cmd) = None -> leads ops w (handle_call k c h cmd).
Proof.
  intros Hs Hq Hn. unfold handle_call. apply leads_id. intros i w' Hv _.
  apply (leads_new ops w' i h cmd); [exact Hv|exact Hs|now rewrite Hn|].
  set (op := mkOperation k h cmd). assert (Ho : <[i:=op]> ops !! i = Some op) by apply lookup_insert_eq.
  apply inert_bind; [refine (step_new_callback _ _ i op Ho _ _ _ _); done|intro].
  now apply (step_start_call _ _ i op Ho Hq).
Qed.

Lemma leads_alloc {B} ops n w (f : Z -> M World B) :
  (forall q w', fresh_block q w' -> grows w w' -> leads ops w' (f q)) -> leads ops w (bind (alloc n) f).
Proof.
  intros H Hg. refine (leads_bind ops w (alloc n) f _ _ Hg); [apply step_alloc|].
  intros q w' Ha G. apply H; [exact (alloc_fresh _ _ n w q w' Hg Ha)|exact G].
Qed.

(** An operation with a buffer of its own. *)
Lemma still_buffered ops i h cmd c q : ops !! i = Some (mkOperation k h cmd) -> no_query cmd ->
  own_buffer (mkOperation k h cmd) = Some q -> mo_may_free mon q ->
  fp_inert (answering cs ops) (new_callback i c h k (handler_type h) false (Some q) ;; start_call k i c cmd (Some q)).
Proof.
  intros Ho Hq Hb Hf. set (op := mkOperation k h cmd) in *.
  apply inert_bind; [refine (step_new_callback _ _ i op Ho _ _ _ _); now intros p [= <-]|intro].
  apply (step_start_call _ _ i op Ho Hq). now intros p [= <-].
Qed.

Lemma leads_buffered ops w i h cmd c q : vacant ops i w -> serves past r h cmd -> no_query cmd ->
  own_buffer (mkOperation k h cmd) = Some q -> held (mkOperation k h cmd) q (heap w) ->
  leads ops w (new_callback i c h k (handler_type h) false (Some q) ;; start_call k i c cmd (Some q)).
Proof.
  intros Hv Hs Hq Hb Hf. apply (leads_new ops w i h cmd); [exact Hv|exact Hs|intros p; rewrite Hb; now intros [= <-]|].
  apply still_buffered; [apply lookup_insert_eq|exact Hq|exact Hb|apply Hf].
Qed.

Lemma leads_closeFile id ops w : r = RClose id -> table w = table past -> leads ops w (closeFile k id).
Proof.
  intros Hr Hh. apply leads_with_handle; [now rewrite Hr|exact Hh|]. intros fh Hfh.
  apply leads_id. intros i w' Hv Hpipe. apply (leads_new ops w' i HVoid (CClose fh)); [exact Hv|rewrite Hr; now constructor|done|].
  set (op := mkOperation k HVoid (CClose fh)). assert (Ho : <[i:=op]> ops !! i = Some op) by apply lookup_insert_eq.
  apply inert_bind; [refine (step_new_callback _ _ i op Ho _ _ _ _); done|intro].
  apply inert_bind; [footprint|intro]. apply (step_start_call _ _ i op Ho); [intros s [=]|done].
Qed.

Lemma leads_readFile id off n ops w : r = RRead id off n -> table w = table past ->
  leads ops w (readFile k id off n).
Proof.
  intros Hr Hh. apply leads_with_handle; [now rewrite Hr|exact Hh|]. intros fh Hfh.
  apply leads_id. intros i w1 Hv _. unfold int_of_uint64. destruct (n <? 2 ^ 63); [|apply leads_kept, still_trap].
  apply leads_bind; [apply still_ret|intros ? w2 [= <- <-] G2].
  apply leads_alloc. intros p w3 Hf G3.
  apply leads_buffered; [eauto using vacant_mono|rewrite Hr; destruct off; now constructor| |done|now apply fresh_held].
  destruct off; intros s [=].
Qed.

Lemma leads_writeFile id off data ops w : r = RWrite id off data -> table w = table past ->
  leads ops w (writeFile k id off data).
Proof.
  intros Hr Hh. apply leads_with_handle; [now rewrite Hr|exact Hh|]. intros fh Hfh.
  apply leads_id. intros i w1 Hv _. cbn zeta. apply leads_alloc. intros p w2 Hf G2.
  apply leads_bind; [apply step_store, Hf|intros [] w3 _ G3].
  apply leads_buffered; [eauto using vacant_mono|rewrite Hr; destruct off; now constructor| | |].
  - destruct off; intros s [=].
  - destruct off; reflexivity.
  - apply fresh_held. destruct Hf as (? & ? & ?). pose proof (gr_ptr _ _ G3). unfold fresh_block. splits; auto. lia.
Qed.

Lemma leads_preadIntoBuffer id dest off n ops w : r = RPreadInto id dest off n -> table w = table past ->
  leads ops w (preadIntoBuffer k id dest off n).
Proof.
  intros Hr Hh. apply leads_with_handle; [now rewrite Hr|exact Hh|]. intros fh Hfh.
  apply leads_id. intros i w1 Hv _. unfold int_of_uint64.
  apply (leads_new ops w1 i HReadInto (CPread fh dest n off)); [exact Hv|rewrite Hr; now constructor|done|].
  set (op := mkOperation k HReadInto (CPread fh dest n off)).
  assert (Ho : <[i:=op]> ops !! i = Some op) by apply lookup_insert_eq.
  apply inert_bind; [refine (step_new_callback _ _ i op Ho _ _ _ _); done|intro].
  destruct (n <? 2 ^ 63); [|intros w2 _ ? w3 Hx; discriminate Hx]. intros w2. apply still_bind; [apply still_ret|intros ? w3 [= <- <-] _].
  apply (step_start_call _ _ i op Ho); [intros s [=]|done].
Qed.

Lemma leads_registerHandle p ops w : r = RRegister p -> handles w = handles past -> leads ops w (registerHandle k p).
Proof.
  intros Hr Hw. apply leads_kept. unfold registerHandle, bound_to. destruct p as [| |t a];
    [intros ? ? ? [=]..|]. destruct (decide _) as [<-|]; [|intros ? ? ? [=]].
  apply still_bind; [apply still_ret|intros ? w1 [= <- <-] _]. apply still_gets. rewrite Hw. destruct (_ <? _); [|apply still_trap].
  apply still_inert. do 2 (apply inert_bind; [footprint|intro]). intros w1. apply step_cont_resume.
  apply (gn_registered _ _ _ _ a past). now rewrite <- Hr.
Qed.

Lemma leads_readdirAll p ops w : r = RReaddir p -> leads ops w (readdirAll k p).
Proof.
  intros Hr. unfold readdirAll. apply leads_gets. destruct (context w) eqn:Ectx; [|now apply leads_disconnected].
  apply leads_kept. unfold bound_to. destruct p as [| |t a]; [intros ? ? ? [=]..|].
  destruct (decide _) as [<-|]; [|intros ? ? ? [=]].
  apply still_bind; [apply still_ret|intros ? w1 [= <- <-] _]. cbn zeta.
  destruct (forallb _ _); [|apply still_trap].
  apply still_bind; [apply step_closed|intros [] w2 _ _]. apply step_cont_resume. apply (gn_listed _ _ _ _ a past). now rewrite <- Hr.
Qed.

Lemma leads_perform q ops w : r = q -> handles w = handles past -> pipe w = pipe past -> rpcx w = rpcx past ->
  leads ops w (perform k q).
Proof.
  intros Hr Hw Hpipe Hrpc. assert (Hh : table w = table past) by (unfold table; now rewrite Hw).
  destruct q as [o|s e|s|id|id off n|id off data|id dest off n|id|id|id n|id off wh|p|p]; cbn [perform].
  - now apply (leads_submit_path o).
  - now apply leads_mount.
  - now apply leads_getexports.
  - now apply leads_closeFile.
  - now apply leads_readFile.
  - now apply leads_writeFile.
  - now apply leads_preadIntoBuffer.
  - apply leads_with_handle; [now rewrite Hr|exact Hh|]. intros fh Hf.
    apply leads_handle_call; [rewrite Hr; now constructor|intros s [=]|done].
  - apply leads_with_handle; [now rewrite Hr|exact Hh|]. intros fh Hf.
    apply leads_handle_call; [rewrite Hr; now constructor|intros s [=]|done].
  - apply leads_with_handle; [now rewrite Hr|exact Hh|]. intros fh Hf.
    apply leads_handle_call; [rewrite Hr; now constructor|intros s [=]|done].
  - apply leads_with_handle; [now rewrite Hr|exact Hh|]. intros fh Hf.
    apply leads_handle_call; [rewrite Hr; now constructor|intros s [=]|done].
  - now apply leads_registerHandle.
  - now apply leads_readdirAll.
Qed.

End Calls.

(** One more call, or something else that happens. *)
Lemma good_called cs ops w r : good cs ops w ->
  good (<[nextCall (reg w) := (r, w)]> cs) ops (upd_reg (upd_nextCall (fun n => n + 1)) w).
Proof.
  intros Hg. set (k := nextCall (reg w)).
  assert (Hfree : cs !! k = None).
  { apply eq_None_not_Some. intros Hx. pose proof (gd_call _ _ _ Hg k Hx). unfold k in *. lia. }
  assert (Hsub : cs ⊆ <[k := (r, w)]> cs) by now apply insert_subseteq.
  destruct Hg. constructor; cbn; auto.
  - intros j [x Hj]. destruct (decide (j = k)) as [->|Hne]; [unfold k; lia|].
    rewrite lookup_insert_ne in Hj by done. pose proof (gd_call0 j (ex_intro _ x Hj)). lia.
  - intros j q past [[_ [= _ <-]]|[_ Hj]]%lookup_insert_Some; [lia|eauto].
  - intros i op Ho. destruct (gd_ops0 i op Ho) as (Hi & q & t & Hq & Hs). split; [exact Hi|].
    exists q, t. split; [eapply lookup_weaken; eauto|exact Hs].
  - intros i cb Hi. destruct (gd_obj0 i cb Hi) as (op & Ho & H1 & H2 & H3 & H4 & H5). exists op. splits; auto.
    intros q' t'. destruct (gd_ops0 i op Ho) as (_ & q & t & Hq & _).
    intros [[Hx _]|[_ Hj]]%lookup_insert_Some; [congruence|eauto].
  - intros j o Ho. eapply genuine_mono; eauto using grows_same.
Qed.

Lemma good_call cs ops w r w' : good cs ops w -> mo_call mon r w ->
  handle (Call r) w = Some (tt, w') ->
  exists ops', ops ⊆ ops' /\ good (<[nextCall (reg w) := (r, w)]> cs) ops' w'.
Proof.
  intros Hg Hc Hh. cbn [handle] in Hh. apply run_bind in Hh as (k & w1 & [= <- <-] & Hh).
  refine (leads_perform _ _ r _ (lookup_insert_eq _ _ _) Hc r ops _ eq_refl _ _ _ (good_called _ _ _ _ Hg) tt w' Hh);
    reflexivity.
Qed.

Lemma good_event cs ops w e w' : good cs ops w -> (forall r, e <> Call r) ->
  (forall q, e = FreeBuffer q -> mo_may_free mon q) -> handle e w = Some (tt, w') -> good cs ops w'.
Proof.
  intros Hg He Hq Hh.
  exact (st_good _ _ _ _ (inert_run (answering cs ops) _ w tt w' (step_event cs ops e He Hq) Hg Hh)).
Qed.

End Monitored.

(** ** Runs *)

(** How the loop goes on from a state: callers may make the calls that [asks] allows, and
    give back the buffers that [spares] allows. *)
Inductive onward (asks : Request -> World -> Prop) (spares : Z -> Prop) (cs : Called) (w : World) :
    Called -> World -> Prop :=
  | on_start : onward asks spares cs w cs w
  | on_call cs1 w1 r w2 : onward asks spares cs w cs1 w1 -> asks r w1 ->
      handle (Call r) w1 = Some (tt, w2) ->
      onward asks spares cs w (<[nextCall (reg w1) := (r, w1)]> cs1) w2
  | on_event cs1 w1 e w2 : onward asks spares cs w cs1 w1 -> (forall r, e <> Call r) ->
      (forall q, e = FreeBuffer q -> spares q) -> handle e w1 = Some (tt, w2) ->
      onward asks spares cs w cs1 w2.

Lemma onward_good mon cs ops w cs' w' : good mon cs ops w ->
  onward (mo_call mon) (mo_may_free mon) cs w cs' w' -> exists ops', ops ⊆ ops' /\ good mon cs' ops' w'.
Proof.
  intros Hg. induction 1 as [|cs1 w1 r w2 _ (ops1 & Hs & IH) Hc Hh|cs1 w1 e w2 _ (ops1 & Hs & IH) He Hq Hh].
  - now exists ops.
  - destruct (good_call _ _ _ _ _ _ IH Hc Hh) as (ops2 & Hs2 & Hg2). exists ops2. split; [now transitivity ops1|exact Hg2].
  - exists ops1. split; [exact Hs|]. eapply good_event; eauto.
Qed.

(** From some state on, a monitor may watch the memory. *)
Lemma good_watch mon cs ops w m : good unwatched cs ops w -> nextPtr (heap w) <= nextPtr m ->
  mo_inv mon (issued (lib w)) m ->
  (forall q, q < nextPtr (heap w) -> mo_may_free mon q /\ mo_may_write mon q) ->
  (forall k r past, cs !! k = Some (r, past) -> mo_call mon r past) ->
  (forall op r past status, cs !! call op = Some (r, past) -> serves past r (handler op) (command op) ->
     mo_told mon (issued (lib w)) m op status) ->
  good mon cs ops (upd_heap (fun _ => m) w).
Proof.
  intros Hg Hn Hi Hb Hc Ht. destruct Hg. constructor; cbn; auto.
  - intros i op Ho. destruct (gd_ops0 i op Ho) as (Hlt & r & past & Hr & Hs & _). split; [exact Hlt|]. exists r, past. eauto.
  - intros i op q Ho Hq. destruct (gd_buffer0 i op q Ho Hq) as (_ & _ & Hlt). destruct (Hb q Hlt). unfold held.
    splits; auto. lia.
  - intros k o Ho. destruct (gd_outcome0 k o Ho) as [i op r st data bytes t o Hk Hm Hr Hlt Ha _ Hans|i op s st data t o Hk Hm|i op r d Hk Hm| | |].
    + eapply gn_reply; eauto; [destruct Hm; now constructor|]. destruct Hm as [_ (past & Hm & Hs) _]. eapply Ht; eauto.
    + eapply gn_exports with (i := i); eauto. destruct Hm; now constructor.
    + eapply gn_refused with (i := i) (r := r); eauto. destruct Hm; now constructor.
    + eapply gn_own; [eauto|]. eapply (own_error_mono unwatched); [eauto|done|].
      split; cbn; try lia; [apply incl_refl|now constructor].
    + eapply gn_registered; eauto.
    + eapply gn_listed; eauto.
Qed.

(** The states that a loop goes through, with the calls that its callers made. *)
Inductive history : Called -> World -> Prop :=
  | hist_init t c w : init true t c = inr w -> history ∅ w
  | hist_call cs w r w' : history cs w -> handle (Call r) w = Some (tt, w') ->
      history (<[nextCall (reg w) := (r, w)]> cs) w'
  | hist_event cs w e w' : history cs w -> (forall r, e <> Call r) -> handle e w = Some (tt, w') ->
      history cs w'.

Lemma history_good cs w : history cs w -> exists ops, good unwatched cs ops w.
Proof.
  induction 1 as [t c w H|cs w r w' _ [ops IH] Hh|cs w e w' _ [ops IH] He Hh].
  - exists ∅. injection H as <-. constructor; cbn; try done; intros *; rewrite ?lookup_empty; try done.
    intros H. inversion H.
  - destruct (good_call unwatched _ _ _ _ _ IH I Hh) as (ops' & _ & Hg). now exists ops'.
  - exists ops. eapply good_event; eauto. done.
Qed.

(** The monitor that remembers one call of libnfs. *)
#[program] Definition remembers (x : Z * Command) : Monitor := {|
  mo_inv := fun l _ => In x l; mo_le := fun _ _ _ _ => True; mo_told := fun _ _ _ _ => True;
  mo_may_write := fun _ => True; mo_may_free := fun _ => True; mo_call := fun _ _ => True |}.
Solve All Obligations with (cbn; intros; rewrite ?in_app_iff; auto 6).

(** What libnfs was called for stays known. *)
Lemma issued_stays cs w e w' x : history cs w -> handle e w = Some (tt, w') ->
  In x (issued (lib w)) -> In x (issued (lib w')).
Proof.
  intros H Hh Hx. destruct (history_good cs w H) as [ops Hg].
  assert (Hr : good (remembers x) cs ops w).
  { replace w with (upd_heap (fun _ => heap w) w) by now destruct w. now apply good_watch; [|apply Z.le_refl|..]. }
  destruct e as [r| | | | |h|b|n|p|d];
    try (refine (gd_watched _ _ _ _ (good_event (remembers x) cs ops w _ w' Hr _ (fun _ _ => I) Hh)); discriminate).
  destruct (good_call (remembers x) cs ops w r w' Hr I Hh) as (ops' & _ & Hg'). exact (gd_watched _ _ _ _ Hg').
Qed.

(** C5: every answer is genuine.  Whatever happens in a run, each answer that a
    caller got is one of these.  It is what libnfs replied to the one command that was made
    for this call, which asked for what the caller asked for, on the handle that the
    caller's token stood for.  It is the error of a call that libnfs refused.  It is an error
    that the loop raises itself, and then its cause is there: the context is gone (ENOTCONN), the
    call was made more than the timeout ago (ETIMEDOUT), the queue was full and no slot free when
    it was made (ENOBUFS), its token led nowhere then (EBADF), an export query was under way
    (EBUSY), or its own query could not be set up (ENOMEM, EIO).  Or it is the next number for
    a handle that is registered, or the visible entries of the directory to be listed. *)
Theorem answers_genuine cs w : history cs w ->
  exists ops, (forall i op, ops !! i = Some op ->
                 exists r past, cs !! call op = Some (r, past) /\ serves past r (handler op) (command op)) /\
    (forall i c, In (i, c) (issued (lib w)) -> exists op, ops !! i = Some op /\ command op = c) /\
    forall k o, outcomes (reg w) !! k = Some o -> genuine unwatched cs ops w k o.
Proof.
  intros H. destruct (history_good cs w H) as [ops []]. exists ops. split; [|split; assumption].
  intros i op Ho. destruct (gd_ops0 i op Ho) as (_ & r & past & Hc & Hs & _). eauto.
Qed.

End Answers.

(** ** An answer at work *)

(** Three callers; libnfs answers the second one only. *)
Definition stat_env : Env := demo 0 [Reply 2 0 (CPointer (Tstruct "nfs_stat_64") 9) []] [] 0.
Definition three_events : list Event := [Call (RPath (Unlink "/a")); Call (RPath (Stat "/b")); Call (RClose 5); SocketReady].
Definition early (n : nat) : World := @after stat_env (take n three_events) start.
Definition three_calls : World := early 4.

Definition three_called : Called :=
  <[2 := (RClose 5, early 2)]> (<[1 := (RPath (Stat "/b"), early 1)]> (<[0 := (RPath (Unlink "/a"), early 0)]> ∅)).

Lemma three_history : @history stat_env three_called three_calls.
Proof.
  apply (hist_event _ (early 3) SocketReady); [|done|vm_compute; reflexivity].
  apply (hist_call _ (early 2)); [|vm_compute; reflexivity].
  apply (hist_call _ (early 1)); [|vm_compute; reflexivity].
  apply (hist_call ∅ (early 0)); [|vm_compute; reflexivity]. now apply (hist_init 10 100).
Qed.

Lemma answers_genuine_witness :
  outcomes (reg three_calls) !! 1 = Some (Returned (VStat zero_stat)) /\
  outcomes (reg three_calls) !! 0 = None /\
  exists ops, (forall i op, ops !! i = Some op -> exists r past,
                 three_called !! call op = Some (r, past) /\ serves past r (handler op) (command op)) /\
    (forall i c, In (i, c) (issued (lib three_calls)) -> exists op, ops !! i = Some op /\ command op = c) /\
    forall k o, outcomes (reg three_calls) !! k = Some o -> @genuine stat_env unwatched three_called ops three_calls k o.
Proof.
  split; [vm_compute; reflexivity|]. split; [vm_compute; reflexivity|].
  apply (@answers_genuine stat_env three_called three_calls three_history).
Defined.

End Provenance.
