(* ===== verification/CallSpec.v ===== *)
(** * What the event loop promises its callers

    The abstract service behind the API, and the proof that the loop implements it.
    A caller sees the requests made, the outcomes given and whether the connection is over;
    identifiers, callback objects, queues, sources and timers are not visible.  The service
    answers only what was asked, once, with an outcome that it promised for the
    request; it leaves no request open once the connection is over. *)

From Stdlib Require Import Strings.Byte.
From stdpp Require Import base gmap strings list relations.
From S2P Require Import Prelude Posix PipelineController Memory CType LibnfsApi.
From S2P Require Import StateMonad DispatchSource OperationType EventLoopState EventLoop.
From S2P Require Import RegistryInv EventLoopInv EventLoopSafe EventLoopProps EventLoopRuns Walk Provenance.

Open Scope Z_scope.

Module CallSpec.
Import Provenance.

Section Spec.
Context `{E : Env}.

(** ** The abstract service *)

Record Service := mkService { asked : gmap Z Request; given : gmap Z Outcome; over : bool }.

(** What the caller of a request may be told: what the documented replies of libnfs to a
    command for this request mean, the code of a call that libnfs refuses, or one of
    the errors of the loop, ENOTCONN only when the connection is [over]. *)
Inductive promised (over : bool) : Request -> Outcome -> Prop :=
  | pr_reply past r h c i status data bytes n o : serves past r h c ->
      In (Reply i status data bytes) (lib_events n) -> reply_allowed c status data bytes = true ->
      answers r c status data o -> promised over r o
  | pr_exports s status data n o : In (status, data) (rpc_events n) ->
      callback_allowed Api.mount_getexports_async status data = true ->
      answers (RGetexports s) (CGetexports s) status data o -> promised over (RGetexports s) o
  | pr_refused r i d : async_rc i < 0 ->
      promised over r (Threw (posix_error (POSIXErrorCode_init (- async_rc i)) d))
  | pr_disconnected r d : over = true -> promised over r (Threw (posix_error ENOTCONN d))
  | pr_timeout r : promised over r (Threw (posix_error_plain ETIMEDOUT))
  | pr_full o : promised over (RPath o) (Threw ENOBUFS_error)
  | pr_bad_token r id : token r = Some id -> promised over r (Threw (posix_error EBADF "Invalid file handle"))
  | pr_busy s : promised over (RGetexports s) (Threw (posix_error EBUSY "Export query already in progress"))
  | pr_context s : promised over (RGetexports s) (Threw (posix_error ENOMEM "Failed to create RPC context"))
  | pr_start s : promised over (RGetexports s) (Threw (posix_error EIO "Failed to start export query"))
  | pr_registered a id : promised over (RRegister (CPointer (Tstruct "nfsfh") a)) (Returned (VUInt64 id))
  | pr_listed a : promised over (RReaddir (CPointer (Tstruct "nfsdir") a))
      (Returned (VEntries (List.filter visible_entry (readdir a)))).

(** One answer, to a request that has none. *)
Inductive answer_step : Service -> Service -> Prop :=
  | as_answer A G b k r o : A !! k = Some r -> G !! k = None -> promised b r o ->
      answer_step (mkService A G b) (mkService A (<[k := o]> G) b).

(** When the connection is over nobody waits. *)
Definition settled (s : Service) : Prop :=
  over s = true -> forall k, is_Some (asked s !! k) -> is_Some (given s !! k).

(** Events that callers do not notice. *)
Definition unnoticed (e : Event) : bool :=
  match e with AllocBuffer _ | FreeBuffer _ | Elapse _ | SetLogHandler _ => true | _ => false end.

(** What the event does before anything is answered: a call asks, the service of the socket
    may find the connection broken, shutting down ends it. *)
Inductive opens : Event -> Service -> Service -> Prop :=
  | op_call r k A G b : A !! k = None -> opens (Call r) (mkService A G b) (mkService (<[k := r]> A) G b)
  | op_broken A G b : opens SocketReady (mkService A G b) (mkService A G true)
  | op_shutdown A G b : opens Shutdown (mkService A G b) (mkService A G true)
  | op_goes_on e s : e <> Shutdown -> (forall r, e <> Call r) -> opens e s s.

(** One event of the service. *)
Inductive service_step (e : Event) (s s' : Service) : Prop :=
  | ss_unnoticed : unnoticed e = true -> s' = s -> service_step e s s'
  | ss_step t : unnoticed e = false -> opens e s t -> rtc answer_step t s' -> settled s' -> service_step e s s'.

(** ** The loop as such a service *)

Definition ended (w : World) : bool := bool_decide (context w = None).

(** What callers see of a loop; [cs] are the calls made. *)
Definition service (cs : Called) (w : World) : Service := mkService (fst <$> cs) (outcomes (reg w)) (ended w).

Definition called (e : Event) (w : World) (cs : Called) : Called :=
  match e with Call r => <[nextCall (reg w) := (r, w)]> cs | _ => cs end.

(** Runs from [init] on, within the documented behaviour. *)
Inductive session : Called -> World -> Prop :=
  | se_init t c w : init true t c = inr w -> session ∅ w
  | se_next cs w e w' : session cs w -> event_ok e w -> handle e w = Some (tt, w') -> session (called e w cs) w'.

Lemma session_reachable cs w : session cs w -> reachable w.
Proof. induction 1; [eapply reach_init; eauto|eapply reach_step; eauto]. Qed.

Lemma session_history cs w : session cs w -> history cs w.
Proof.
  induction 1 as [|cs w e w' _ IH _ Hh]; [eapply hist_init; eauto|].
  destruct e; try (eapply (hist_event _ _ _ _ IH); [|exact Hh]; done). cbn. now apply hist_call.
Qed.

(** ** The refinement *)

(** A genuine answer is a promised one. *)
Lemma genuine_promised cs ops w k o : genuine unwatched cs ops w k o ->
  exists r past, cs !! k = Some (r, past) /\ promised (ended w) r o.
Proof.
  destruct 1 as [i op r st data bytes n o <- [_ (past & Hr & Hs) _] Hin _ Ha _ Hans
                |i op s st data n o <- [_ (past & Hr & Hs) _] Hin _ Ha Hans
                |i op r d <- [_ (past & Hr & Hs) _] Hrc|r past e Hr Ho|a past Hr|a past Hr].
  - exists r, past. split; [exact Hr|]. eapply pr_reply; eauto.
  - exists (RGetexports s), past. split; [exact Hr|]. assert (Hc : CGetexports s = command op) by now inversion Hs.
    rewrite <- Hc in Hans. eapply pr_exports; eauto.
  - exists r, past. split; [exact Hr|]. now apply pr_refused.
  - exists r, past. split; [exact Hr|]. destruct Ho; try (now constructor).
    + apply pr_disconnected. now apply bool_decide_eq_true_2.
    + eapply pr_bad_token; eassumption.
  - eexists _, past. split; [exact Hr|constructor].
  - eexists _, past. split; [exact Hr|constructor].
Qed.

(** Promised answers can be given one by one. *)
Lemma answers_added A b d : forall G, G ##ₘ d ->
  (forall k o, d !! k = Some o -> exists r, A !! k = Some r /\ promised b r o) ->
  rtc answer_step (mkService A G b) (mkService A (d ∪ G) b).
Proof.
  induction d as [|k o d Hk IH] using map_ind; intros G Hd Hp; [now rewrite map_empty_union|].
  apply map_disjoint_insert_r in Hd as [Hm Hd]. destruct (Hp k o (lookup_insert_eq _ _ _)) as (r & Hr & Ho).
  eapply rtc_r.
  - apply IH; [exact Hd|]. intros j x Hj. apply Hp. rewrite lookup_insert_ne; [exact Hj|congruence].
  - rewrite <- insert_union_l. apply (as_answer _ _ _ _ r); [exact Hr|now rewrite lookup_union_None|exact Ho].
Qed.

Lemma answered_on A G G' b : G ⊆ G' ->
  (forall k o, G' !! k = Some o -> exists r, A !! k = Some r /\ promised b r o) ->
  rtc answer_step (mkService A G b) (mkService A G' b).
Proof.
  intros Hs Hp. rewrite <- (map_difference_union G G') by exact Hs.
  rewrite map_union_comm by now apply map_disjoint_difference_r1.
  apply answers_added; [now apply map_disjoint_difference_r1|].
  intros k o [Ho _]%lookup_difference_Some. now apply Hp.
Qed.

(** Only the socket and [shutdown()] end the connection. *)
Program Definition seen : Footprint World := {|
  fp_inv := fun _ => True;
  fp_rel := fun w w' => context w' = context w /\ outcomes (reg w') = outcomes (reg w) |}.
Solve All Obligations with (cbn; intuition congruence).

#[local] Instance seen_quiet : Quiet seen.
Proof. now intros w w' _ []. Qed.

Context (HEX : exports_listed).

Lemma context_kept e w w' : Idle w -> event_ok e w -> handle e w = Some (tt, w') ->
  e <> SocketReady -> e <> Shutdown -> context w' = context w.
Proof.
  intros [H L C] He Hh Hs Hd.
  assert (Hsafe : forall m, safe None ∅ m -> forall w1 w2, Inv None ∅ w1 -> m w1 = Some (tt, w2) -> context w2 = context w1).
  { intros m Hm w1 w2 H1 Hr. exact (ev_context _ _ (proj2 (wp_final _ _ _ _ Hr (Hm w1 H1)))). }
  destruct e as [r| | | | |h|x|n|p|d]; cbn [handle] in Hh; try done.
  - destruct He as [Hid Hr]. revert Hh. change (handle (Call r) w = Some (tt, w') -> context w' = context w). intros Hh.
    pattern w'. apply (wp_final _ _ _ _ Hh). apply (wp_call r); [now constructor|].
    intros w1 -> H1. eapply wp_mono; [exact (perform_spec HEX _ r _ H1 Hid Hr)|]. intros [] w2 [_ [_ Hc _]]. exact Hc.
  - exact (Hsafe _ (safe_handleRpcExportsEvent HEX None ∅) w w' H Hh).
  - exact (Hsafe _ (safe_scanForTimeouts HEX None ∅) w w' H Hh).
  - revert Hh. unfold closeFileFireAndForget, bind, gets, modify.
    destruct (handleRegistry (handles w) !! h) as [fh|]; [|now intros [= <-]].
    intros Hr. refine (Hsafe _ _ (upd_handles (upd_handleRegistry (delete h)) w) w' _ Hr); [|destruct H; now constructor].
    apply safe_when. apply safe_bind; [|intros _; apply safe_run_callbacks, HEX].
    intros w2 []. apply wp_modify. split; [constructor; auto|constructor; auto; reflexivity].
  - exact (proj1 (inert_run seen _ w tt w' (quiet_setLogHandler seen x) I Hh)).
  - unfold alloc, bind in Hh. destruct (allocate n (heap w)). now injection Hh as <-.
  - revert Hh. unfold free, mem_op, bind, gets. destruct (deallocate p (heap w)); [now intros [= <-]|discriminate].
  - now injection Hh as <-.
Qed.

Lemma unnoticed_same e w w' : Idle w -> event_ok e w -> handle e w = Some (tt, w') -> unnoticed e = true ->
  context w' = context w /\ outcomes (reg w') = outcomes (reg w).
Proof.
  intros Hi He Hh Hu. split; [eapply context_kept; eauto; now intros ->|].
  destruct e as [r| | | | |h|x|n|p|d]; try discriminate Hu; cbn [handle] in Hh.
  - exact (proj2 (inert_run seen _ w tt w' (quiet_setLogHandler seen x) I Hh)).
  - revert Hh. unfold bind, alloc. destruct (allocate n (heap w)). now intros [= <-].
  - revert Hh. unfold free, mem_op, bind, gets. destruct (deallocate p (heap w)); [now intros [= <-]|discriminate].
  - now injection Hh as <-.
Qed.

Lemma session_idle cs w : session cs w -> Idle w.
Proof. intros H. exact (reachable_idle HEX w (session_reachable _ _ H)). Qed.

Lemma session_calls cs w : session cs w -> 0 <= nextCall (reg w) /\ forall k, is_Some (cs !! k) -> 0 <= k < nextCall (reg w).
Proof.
  intros Hs. assert (Hlow : 0 <= nextCall (reg w) /\ forall k, is_Some (cs !! k) -> 0 <= k).
  { induction Hs as [t c w [= <-]|cs w e w' Hs [IH IHk] He Hh].
    - split; [done|]. intros k. rewrite lookup_empty. now intros [? [=]].
    - destruct (wp_final _ _ _ _ Hh (handle_spec HEX e w (session_idle _ _ Hs) He)) as [_ [_ Hn]].
      split; [lia|]. destruct e; try exact IHk. cbn [called]. intros k [x [[<- _]|[_ Hk]]%lookup_insert_Some]; [lia|]. apply IHk. eauto. }
  destruct Hlow as [H0 Hlow]. split; [exact H0|]. intros k Hk. split; [now apply Hlow|].
  destruct (history_good cs w (session_history _ _ Hs)) as [ops Hg]. exact (gd_call _ _ _ _ Hg k Hk).
Qed.

Lemma session_settled cs w : session cs w -> settled (service cs w).
Proof.
  intros Hs Ho k Hk. cbn in *. pose proof (session_idle _ _ Hs) as Hi. apply bool_decide_eq_true_1 in Ho.
  rewrite lookup_fmap, fmap_is_Some in Hk. apply (session_calls _ _ Hs) in Hk.
  destruct (ri_kept _ _ _ _ _ _ (inv_reg _ _ _ (idle_inv _ Hi)) k Hk) as [[=]|[Hx|(i & cb & Hx & _)]]; [exact Hx|].
  rewrite (idle_closed _ Hi Ho) in Hx. set_solver.
Qed.

Lemma session_promised cs w k o : session cs w -> outcomes (reg w) !! k = Some o ->
  exists r, (fst <$> cs) !! k = Some r /\ promised (ended w) r o.
Proof.
  intros Hs Ho. destruct (history_good cs w (session_history _ _ Hs)) as [ops Hg].
  destruct (genuine_promised cs ops w k o (gd_outcome _ _ _ _ Hg k o Ho)) as (r & past & Hk & Hp).
  exists r. split; [|exact Hp]. now rewrite lookup_fmap, Hk.
Qed.

(** What an event opens, before the answers. *)
Lemma opened cs w e w' : session cs w -> event_ok e w -> handle e w = Some (tt, w') ->
  opens e (service cs w) (mkService (fst <$> called e w cs) (outcomes (reg w)) (ended w')).
Proof.
  intros Hs He Hh. pose proof (session_idle _ _ Hs) as Hi.
  assert (Hkeep : ended w' = ended w -> mkService (fst <$> cs) (outcomes (reg w)) (ended w') = service cs w).
  { unfold service. now intros ->. }
  assert (Hsame : context w' = context w -> ended w' = ended w) by (unfold ended; now intros ->).
  destruct e as [r| | | | |h|x|n|p|d]; cbn [called];
    try (rewrite Hkeep; [apply op_goes_on; discriminate|apply Hsame; eapply context_kept; eauto; discriminate]).
  - rewrite fmap_insert. cbn [fst]. rewrite Hsame by (eapply context_kept; eauto; discriminate). apply op_call.
    apply eq_None_not_Some. rewrite lookup_fmap, fmap_is_Some. intros Hk%(session_calls _ _ Hs). lia.
  - destruct (ended w') eqn:Hc; [apply op_broken|]. apply bool_decide_eq_false_1 in Hc.
    rewrite Hkeep; [apply op_goes_on; discriminate|]. symmetry. apply bool_decide_eq_false_2. intros Hw. apply Hc.
    cbn [handle] in Hh. unfold handleIOEvent, bind, gets in Hh. rewrite Hw in Hh. injection Hh as <-. exact Hw.
  - destruct (wp_final _ _ _ _ Hh (performShutdown_spec HEX w Hi)) as (_ & _ & Hc & _).
    rewrite (bool_decide_eq_true_2 _ Hc : ended w' = true). apply op_shutdown.
Qed.


End Spec.

(** ** The service at work *)

(** The calls and the state after some events, as far as they are possible. *)
Fixpoint session_after `{E : Env} (es : list Event) (cs : Called) (w : World) : Called * World :=
  match es with
  | [] => (cs, w)
  | e :: es => if event_okb e w
               then match handle e w with Some (_, w') => session_after es (called e w cs) w' | None => (cs, w) end
               else (cs, w)
  end.

Lemma session_after_session `{E : Env} es : forall cs w, session cs w ->
  session (fst (session_after es cs w)) (snd (session_after es cs w)).
Proof.
  induction es as [|e es IH]; intros cs w Hs; [exact Hs|]. cbn [session_after].
  destruct (event_okb e w) eqn:He; [|exact Hs]. destruct (handle e w) as [[[] w']|] eqn:Hh; [|exact Hs].
  apply IH. eapply se_next; eauto using event_okb_ok.
Qed.

(** Three callers wait; the reply of libnfs answers the second one; a shutdown the others. *)
Definition waiting : Called * World :=
  @session_after stat_env [Call (RPath (Unlink "/a")); Call (RPath (Stat "/b")); Call (RMount "server" "/x")] ∅ start.
Definition answered_calls : Service := service (fst waiting) (@next stat_env SocketReady (snd waiting)).
Definition over_calls : Service :=
  service (fst waiting) (@next stat_env Shutdown (@next stat_env SocketReady (snd waiting))).

Example service_at_work :
  given answered_calls !! 0 = None /\ given answered_calls !! 1 = Some (Returned (VStat zero_stat)) /\
  over over_calls = true /\ given over_calls !! 0 = Some (Threw (posix_error ENOTCONN "Event loop shut down")) /\
  is_Some (given over_calls !! 2).
Proof. splits; try (vm_compute; reflexivity). vm_compute. eauto. Qed.


End CallSpec.
