(* ===== verification/Deadlines.v ===== *)
(** * Calls are answered in time

    The two loops of [scanForTimeouts] see every operation that waits longer than the
    timeout; what makes that a promise to the caller is here: an operation keeps the time
    at which its call was made, the timer of a mounted loop runs until the loop is shut
    down, and a shutdown answers everybody.  ([startTimeoutTimer] has the timer fire once a
    second.) *)

From stdpp Require Import base gmap strings list relations.
From S2P Require Import Prelude Posix Memory CType LibnfsApi.
From S2P Require Import StateMonad DispatchSource OperationType EventLoopState EventLoop Walk.
From S2P Require Import RegistryInv EventLoopInv EventLoopSafe EventLoopProps EventLoopRuns.

Open Scope Z_scope.
Open Scope monad_scope.

Module Deadlines.

(** ** The call [k], made at [t0] *)

Section Call.
Context `{E : Env} (k t0 limit : Z).

(** While the method of the call itself runs ([own]) the time is [t0]. *)
Record aged (own : bool) (w : World) : Prop := mkAged {
  ag_timeout : timeout w = limit;
  ag_call : k < nextCall (reg w);
  ag_started : forall i cb, objects (reg w) !! i = Some cb -> continuation cb = k -> startTime cb <= t0;
  ag_now : own = true -> now w = t0
}.

(** A timer that runs goes on; and a loop gets to run with its timer. *)
Record ticking (w w' : World) : Prop := mkTicking {
  tk_timer : timeoutTimer (io w) = true -> timeoutTimer (io w') = true;
  tk_running : 0 < limit -> isRunning w' = true -> isRunning w = true \/ timeoutTimer (io w') = true
}.

(** The methods of a shutdown stop the timer, and the loop. *)
Definition stopping (w w' : World) : Prop := isRunning w' = true -> isRunning w = true.

Definition ages (own stops : bool) (w w' : World) : Prop :=
  aged own w' /\ if stops then stopping w w' else ticking w w'.

Lemma ages_refl own stops w : aged own w -> ages own stops w w.
Proof. intros H. split; [exact H|]. destruct stops; [now intros Hr|constructor; auto]. Qed.

Lemma ages_trans own stops w1 w2 w3 : ages own stops w1 w2 -> ages own stops w2 w3 -> ages own stops w1 w3.
Proof.
  intros [A1 R1] [A2 R2]. split; [assumption|]. destruct stops.
  - intros H. apply R1, R2, H.
  - destruct R1 as [T1 U1], R2 as [T2 U2]. constructor; [auto|].
    intros Hl H. destruct (U2 Hl H) as [H2|]; [destruct (U1 Hl H2)|]; auto.
Qed.

Lemma ages_aged own stops w w' : ages own stops w w' -> aged own w'.
Proof. now intros [? _]. Qed.

Definition aging (own stops : bool) : Footprint World :=
  mkFootprint World (aged own) (ages own stops) (ages_refl own stops) (ages_trans own stops) (ages_aged own stops).

#[export] Instance loose_aging own stops : Loose (aging own stops).
Proof.
  intros w w' [] []. split.
  - constructor; rewrite ?to_timeout, ?to_call, ?to_now; auto.
    intros i cb' Hi Hc. destruct (to_objects i cb' Hi) as (cb & Hcb & -> & Heq). apply (ag_started0 i cb Hcb). congruence.
  - destruct stops; [intros H|constructor; [assumption|intros _ H; left]]; congruence.
Qed.

(** The part of the state that matters. *)
Definition view (w : World) :=
  (timeout w, nextCall (reg w), objects (reg w), now w, timeoutTimer (io w), isRunning w).

Lemma ages_view own stops w w' : aged own w -> view w' = view w -> ages own stops w w'.
Proof.
  intros [] Hv. injection Hv as V1 V2 V3 V4 V5 V6. split.
  - constructor; rewrite ?V1, ?V2, ?V3, ?V4; auto.
  - destruct stops; [intros H|constructor; [congruence|intros _ H; left]]; congruence.
Qed.

Abbreviation inert own stops := (fp_inert (aging own stops)).
Ltac aging := footprint_with ltac:(apply ages_view; [assumption|reflexivity]).

Section Methods.
Context (own stops : bool).

Lemma age_call_async i c : inert own stops (call_async i c).
Proof. unfold call_async. aging. Qed.
#[local] Hint Resolve age_call_async : footprint.

Lemma age_issue_one n op : inert own stops (issue_one n op).
Proof. unfold issue_one. aging. Qed.
#[local] Hint Resolve age_issue_one : footprint.

Lemma age_issue_loop fuel : forall n, inert own stops (issue_loop fuel n).
Proof. induction fuel as [|fuel IH]; intros n; cbn [issue_loop]; aging. Qed.
#[local] Hint Resolve age_issue_loop : footprint.

Lemma age_issuePendingOperations : inert own stops issuePendingOperations.
Proof. unfold issuePendingOperations. aging. Qed.

End Methods.
#[local] Hint Resolve age_call_async age_issuePendingOperations : footprint.

(** ** Calls

    The caller [k']: any other one, or [k] itself. *)

Section Caller.
Context (own : bool) (k' : Z) (Hk : own = true \/ k' <> k).
Abbreviation inert := (fp_inert (aging own false)).

(** A new object is as old as its call. *)
Lemma age_new_callback i c h t x b : inert (new_callback i c h k' t x b).
Proof.
  unfold new_callback. intros w. apply still_gets, still_bind.
  - intros Hw ? ? [= _ <-]. split; [|constructor; auto]. destruct Hw. constructor; cbn; auto.
    intros j cb [[<- <-]|[_ Hj]]%lookup_insert_Some Hc; [|eauto]. cbn in *.
    destruct Hk as [Ho|]; [rewrite (ag_now0 Ho); lia|done].
  - intros [] w1 _ _. apply still_inert. aging.
Qed.
#[local] Hint Resolve age_new_callback : footprint.

Lemma age_submit t h cmd : inert (submit k' t h cmd).
Proof. unfold submit, issueOperation. aging. Qed.
#[local] Hint Resolve age_submit : footprint.

Lemma age_start_call i c cmd b : inert (start_call k' i c cmd b).
Proof. unfold start_call, free. aging. Qed.
#[local] Hint Resolve age_start_call : footprint.

(** New sources come with a running timer. *)
Lemma setup_ticks fd w w' : 0 < limit -> aged own w -> setupSources fd w = Some (tt, w') -> timeoutTimer (io w') = true.
Proof.
  intros Hlimit Hw Hr. unfold setupSources in Hr.
  apply run_bind in Hr as ([] & w1 & H1 & Hr). apply (quiet_cancelSources (aging own false) w Hw) in H1.
  apply run_bind in Hr as ([] & w2 & [= <-] & Hr). apply run_bind in Hr as (ino & w3 & H3 & Hr).
  apply (quiet_socketIno (aging own false)) in H3; [|destruct H1 as [[] _]; now constructor].
  apply run_bind in Hr as ([] & w4 & [= <-] & Hr). apply run_bind in Hr as ([] & w5 & H5 & Hr).
  assert (H6 : aged own w5 /\ timeoutTimer (io w5) = true).
  { destruct H3 as [A3 _]. pose proof (ag_timeout _ _ A3) as Ht.
    split.
    - eapply ages_aged, (quiet_startTimeoutTimer (aging own false)); [|exact H5]. destruct A3; now constructor.
    - unfold startTimeoutTimer, bind, gets in H5. cbn in H5. rewrite Ht, (proj2 (Z.ltb_lt _ _) Hlimit), andb_true_r in H5.
      destruct (timeoutTimer (io w3)) eqn:Et; injection H5 as <-; [exact Et|reflexivity]. }
  destruct H6 as [A6 T6]. eapply tk_timer; [|exact T6].
  refine (proj2 ((_ : inert _) w5 A6 tt w' Hr)). aging.
Qed.

(** [mount] is what sets the loop running. *)
Lemma age_mount s e : inert (mount k' s e).
Proof.
  unfold mount. apply inert_bind; [aging|intros [ctx|]]; [|aging].
  do 4 (apply inert_bind; [aging|intro]). destruct (_ <? 0); [aging|].
  apply inert_bind; [aging|intro fd]. destruct (0 <=? fd); [|aging].
  intros w. apply still_inv. intros Hw. apply still_bind; [apply (quiet_setupSources (aging own false))|].
  intros [] w1 Hr [[] _]. apply still_bind; [|intros; apply still_inert; aging].
  intros _ ? ? [= _ <-]. split; [now constructor|constructor; [done|]].
  intros Hl _. right. exact (setup_ticks fd w w1 Hl Hw Hr).
Qed.
#[local] Hint Resolve age_mount : footprint.

Lemma age_perform r : inert (perform k' r).
Proof.
  destruct r; cbn [perform].
  - unfold submit_path. aging.
  - aging.
  - unfold getexports, call_getexports. aging.
  - unfold closeFile, with_handle. aging.
  - unfold readFile, with_handle, int_of_uint64. aging.
  - unfold writeFile, with_handle. aging.
  - unfold preadIntoBuffer, with_handle, int_of_uint64. aging.
  - unfold fsync, with_handle, handle_call. aging.
  - unfold fstat, with_handle, handle_call. aging.
  - unfold ftruncate, with_handle, handle_call. aging.
  - unfold lseek, with_handle, handle_call. aging.
  - unfold registerHandle, bound_to. aging.
  - unfold readdirAll, bound_to. aging.
Qed.

End Caller.

(** ** Events *)

Context (HEX : exports_listed).

Lemma age_cancelTimeoutTimer : inert false true cancelTimeoutTimer.
Proof. apply inert_modify. intros w []. split; [now constructor|now intros H]. Qed.
Lemma age_stop : inert false true (modify (upd_isRunning (fun _ => false))).
Proof. apply inert_modify. intros w []. split; [now constructor|discriminate]. Qed.
#[local] Hint Resolve age_cancelTimeoutTimer age_stop : footprint.

Lemma age_destroy_context : inert false true destroy_context.
Proof. unfold destroy_context, nfs_destroy_context. aging. Qed.
#[local] Hint Resolve age_destroy_context : footprint.

(** What a shutdown leaves: the loop does not run, and nobody waits. *)
Record stopped (w : World) : Prop := mkStopped {
  sp_aged : aged false w;
  sp_running : isRunning w = false;
  sp_active : active w = ∅
}.

Lemma stopped_run {A} (m : M World A) w a w' : inert false true m -> aged false w ->
  bind (modify (upd_isRunning (fun _ => false))) (fun _ => m) w = Some (a, w') ->
  aged false w' /\ isRunning w' = false.
Proof.
  intros Hm Hw Hr. apply run_bind in Hr as ([] & w1 & H1 & Hr).
  assert (isRunning w1 = false) by now injection H1 as <-.
  apply age_stop in H1; [|exact Hw]. apply Hm in Hr; [|apply H1]. destruct Hr as [Ha Hs]. split; [exact Ha|].
  destruct (isRunning w') eqn:Er; [|done]. rewrite (Hs Er) in *. done.
Qed.

Lemma shutdown_stops w w' : Idle w -> aged false w -> performShutdown w = Some (tt, w') ->
  w' = w /\ active w = ∅ \/ stopped w'.
Proof.
  intros I Hw Hr. destruct (wp_final _ _ _ _ Hr (performShutdown_spec HEX w I)) as (_ & _ & _ & Ha).
  unfold performShutdown in Hr.
  do 2 apply run_bind in Hr as (? & ? & [= <- <-] & Hr).
  destruct (_ || _); [right|left; injection Hr as <-; auto].
  apply stopped_run in Hr as [H1 H2]; [now constructor| |exact Hw]. aging.
Qed.

Lemma error_stops e w w' : Idle w -> context w <> None -> aged false w -> shutdownWithError e w = Some (tt, w') ->
  stopped w'.
Proof.
  intros I Hc Hw Hr. destruct (wp_final _ _ _ _ Hr (shutdownWithError_spec HEX e w I Hc)) as (_ & _ & [_ Ha _] & _).
  apply stopped_run in Hr as [H1 H2]; [now constructor| |exact Hw]. aging.
Qed.

(** An event leaves the timer of the loop running, or it is a shutdown. *)
Definition on_time (w w' : World) : Prop := ages false false w w' \/ stopped w'.

Lemma io_on_time w w' : Idle w -> aged false w -> handleIOEvent w = Some (tt, w') -> on_time w w'.
Proof.
  intros [I L] Hw Hr. unfold handleIOEvent in Hr. apply run_bind in Hr as (ctx & ? & [= <- <-] & Hr).
  destruct (context w) eqn:Ec; [|left; injection Hr as <-; now apply ages_refl].
  apply run_bind in Hr as (rc & w1 & H1 & Hr).
  destruct (wp_run _ _ _ (safe_nfs_service HEX None ∅ w I)) as (rc' & w1' & H1' & I1 & E1).
  rewrite H1 in H1'. injection H1' as <- <-.
  assert (Hc1 : context w1 <> None) by (rewrite (ev_context _ _ E1); congruence).
  assert (A1 : ages false false w w1).
  { revert H1. refine ((_ : inert false false nfs_service) w Hw rc w1). unfold nfs_service. aging. }
  destruct (rc <? 0).
  - right. apply run_bind in Hr as (d & w2 & [= _ <-] & Hr). eapply error_stops; [| | |exact Hr].
    + constructor; [now apply Inv_tick|done|intros Hx; now destruct Hc1].
    + exact Hc1.
    + destruct A1 as [[] _]; now constructor.
  - left. eapply ages_trans; [exact A1|]. destruct A1 as [A1 _].
    refine ((_ : inert false false _) w1 A1 tt w' Hr). aging.
Qed.

Lemma event_on_time e w w' : Idle w -> aged false w -> handle e w = Some (tt, w') -> on_time w w'.
Proof.
  intros I Hw Hh.
  assert (Hin : inert false false (handle e) -> on_time w w') by (intros Hi; left; exact (Hi w Hw tt w' Hh)).
  destruct e as [r| | | | |h|b|n|p|d]; cbn [handle] in *.
  - left. apply run_bind in Hh as (k' & w1 & H1 & Hh). injection H1 as <- <-.
    assert (H1 : ages false false w (upd_reg (upd_nextCall (fun n => n + 1)) w)).
    { split; [|constructor; auto]. destruct Hw. constructor; cbn; auto. lia. }
    eapply ages_trans; [exact H1|]. refine (age_perform false _ _ r _ (proj1 H1) tt w' Hh).
    right. pose proof (ag_call _ _ Hw). lia.
  - now apply io_on_time.
  - apply Hin. aging.
  - apply Hin. aging.
  - destruct (shutdown_stops w w' I Hw Hh) as [[-> _]|]; [left; now apply ages_refl|now right].
  - apply Hin. unfold closeFileFireAndForget, nfs_close. aging.
  - apply Hin. aging.
  - apply Hin. aging.
  - apply Hin. unfold free. aging.
  - left. injection Hh as <-. split; [|constructor; auto]. destruct Hw. constructor; cbn; auto. discriminate.
Qed.

(** An operation that is too old expires, so its caller hears from the timer. *)
Lemma timer_answers w w' : Idle w -> 0 < limit -> aged false w -> 0 <= k -> 0 <= t0 -> t0 + limit < now w ->
  handle TimerFired w = Some (tt, w') -> is_Some (outcomes (reg w') !! k).
Proof.
  intros I Hlimit [<- Hc Hs _] Hk Ht0 Hn Hh.
  destruct (wp_final _ _ _ _ Hh (scan_spec HEX w (idle_inv _ I) Hlimit)) as [Hx _].
  destruct (wp_final _ _ _ _ Hh (handle_spec HEX TimerFired w I Logic.I)) as (_ & Hsub & _).
  destruct (ri_kept _ _ _ _ _ _ (inv_reg _ _ _ (idle_inv _ I)) k (conj Hk Hc)) as [[=]|[[o Ho]|(i & cb & Hi & Hcb & He)]].
  - exists o. eapply lookup_weaken; eauto.
  - destruct Hi as [Hi|Hi]; [|set_solver]. rewrite <- He. eexists. apply (Hx i cb); [|exact Hcb].
    split; [exact Hi|]. exists cb. split; [exact Hcb|]. specialize (Hs i cb Hcb He).
    unfold dispatch_sub. destruct (now w <=? timeout w) eqn:El; lia.
Qed.

(** A stopped loop has answered. *)
Lemma stopped_answered w : Idle w -> stopped w -> 0 <= k -> is_Some (outcomes (reg w) !! k).
Proof.
  intros I [[_ Hc _ _] _ Ha] Hk.
  destruct (ri_kept _ _ _ _ _ _ (inv_reg _ _ _ (idle_inv _ I)) k (conj Hk Hc)) as [[=]|[Ho|(i & cb & Hi & _)]].
  - exact Ho.
  - rewrite Ha in Hi. set_solver.
Qed.

End Call.

(** ** Runs *)

Section Runs.
Context `{E : Env} (HEX : exports_listed).

(** One event that may happen. *)
Definition moves (w w' : World) : Prop := exists e, event_ok e w /\ handle e w = Some (tt, w').

Lemma moves_reachable w w' : reachable w -> rtc moves w w' -> reachable w'.
Proof. intros Hw H. induction H as [|w w1 w2 (e & He & Hh) _ IH]; eauto using reach_step. Qed.

Lemma reachable_calls w : reachable w -> 0 <= nextCall (reg w).
Proof.
  induction 1 as [t c w [= <-]|w e w' Hr IH He Hh]; [done|].
  destruct (wp_final _ _ _ _ Hh (handle_spec HEX e w (reachable_idle HEX w Hr) He)) as (_ & _ & Hn). lia.
Qed.

(** The timer of a loop that runs, runs. *)
Lemma running_ticks w : reachable w -> 0 < timeout w -> isRunning w = true -> timeoutTimer (io w) = true.
Proof.
  intros Hr.
  enough (aged (-1) 0 (timeout w) false w /\ (0 < timeout w -> isRunning w = true -> timeoutTimer (io w) = true))
    by tauto.
  induction Hr as [t c w [= <-]|w e w' Hr [IH1 IH2] He Hh].
  - split; [|discriminate]. constructor; cbn; try done.
  - destruct (event_on_time (-1) 0 (timeout w) HEX e w w' (reachable_idle HEX w Hr) IH1 Hh) as [[A [T U]]|[A R _]];
      pose proof (ag_timeout _ _ _ _ _ A) as Ht; rewrite Ht; (split; [exact A|]); [|congruence].
    intros Hl Hi. destruct (U Hl Hi) as [Hi'|]; auto.
Qed.

(** A call of [k] at [t0] that is under way. *)
Record under_way (k t0 limit : Z) (ticks : bool) (w : World) : Prop := mkUnderWay {
  uw_reachable : reachable w;
  uw_aged : aged k t0 limit false w;
  uw_timer : ticks = true -> timeoutTimer (io w) = true \/ is_Some (outcomes (reg w) !! k)
}.

Lemma under_way_moves k t0 limit ticks w w' : 0 <= k -> under_way k t0 limit ticks w -> rtc moves w w' ->
  under_way k t0 limit ticks w'.
Proof.
  intros Hk Hu H. induction H as [|w w1 w2 (e & He & Hh) _ IH]; [exact Hu|]. apply IH. clear IH.
  destruct Hu as [Hr A T]. pose proof (reachable_idle HEX w Hr) as I.
  destruct (wp_final _ _ _ _ Hh (handle_spec HEX e w I He)) as (I1 & Hsub & _).
  destruct (event_on_time k t0 limit HEX e w w1 I A Hh) as [[A1 T1]|S1]; constructor; eauto using reach_step.
  - intros Ht. destruct (T Ht) as [Hi|[o Ho]]; [left; now apply T1|right; exists o; eapply lookup_weaken; eauto].
  - apply S1.
  - intros _. right. eapply stopped_answered; eauto.
Qed.

(** Making a call. *)
Lemma call_under_way r w w1 : reachable w -> event_ok (Call r) w -> handle (Call r) w = Some (tt, w1) ->
  under_way (nextCall (reg w)) (now w) (timeout w) (timeoutTimer (io w)) w1.
Proof.
  intros Hr He Hh. pose proof (inv_reg _ _ _ (idle_inv _ (reachable_idle HEX w Hr))) as R.
  assert (Hp := Hh). cbn [handle] in Hp. apply run_bind in Hp as (k & w0 & H0 & Hp). injection H0 as <- <-.
  assert (A : aged (nextCall (reg w)) (now w) (timeout w) true (upd_reg (upd_nextCall (fun n => n + 1)) w)).
  { constructor; cbn; try done; [lia|]. intros i cb Hi Hc. pose proof (ri_call _ _ _ _ _ _ R i cb Hi). lia. }
  destruct (age_perform _ _ _ true _ (or_introl eq_refl) r _ A tt w1 Hp) as [[] [T _]].
  constructor; [eauto using reach_step|now constructor|auto].
Qed.

(** C4: a call to a loop that runs is answered in time.  At any later moment, it has been
    answered or the timeout timer is running; and once more than the timeout has passed
    since the call, the timer answers it as soon as it fires, if nothing else has: whether libnfs
    lost the command, the server never replied, or the operation still waits for a slot. *)
Theorem answered_in_time r w w1 w2 : reachable w -> isRunning w = true -> 0 < timeout w -> 0 <= now w ->
  event_ok (Call r) w -> handle (Call r) w = Some (tt, w1) -> rtc moves w1 w2 ->
  (is_Some (outcomes (reg w2) !! nextCall (reg w)) \/ timeoutTimer (io w2) = true) /\
  exists w3, handle TimerFired w2 = Some (tt, w3) /\
    (now w + timeout w < now w2 -> is_Some (outcomes (reg w3) !! nextCall (reg w))).
Proof.
  intros Hr Hrun Ht Hnow He Hh Hm. pose proof (reachable_calls w Hr) as Hk.
  destruct (under_way_moves _ _ _ _ _ _ Hk (call_under_way r w w1 Hr He Hh) Hm) as [H2 A2 T2].
  split; [destruct (T2 (running_ticks w Hr Ht Hrun)); auto|].
  pose proof (reachable_idle HEX w2 H2) as I2.
  destruct (wp_run _ _ _ (handle_spec HEX TimerFired w2 I2 I)) as ([] & w3 & H3 & _).
  exists w3. split; [exact H3|]. intros Hlate. eapply timer_answers; eauto.
Qed.

End Runs.

(** ** A server that never replies *)

Definition asked : World := @next quiet_env (Call (RPath (Stat "/x"))) mounted.
Definition too_late : World := @next quiet_env (Elapse 11) asked.

Lemma answered_in_time_witness :
  exists w3, @handle quiet_env TimerFired too_late = Some (tt, w3) /\
    is_Some (outcomes (reg w3) !! nextCall (reg mounted)).
Proof.
  destruct (@answered_in_time quiet_env (demo_exports _ _ _ _) (RPath (Stat "/x")) mounted asked too_late)
    as [_ (w3 & Hh & Hw)].
  - apply demo_reachable.
  - vm_compute. reflexivity.
  - vm_compute. reflexivity.
  - vm_compute. discriminate.
  - apply event_okb_ok. vm_compute. reflexivity.
  - vm_compute. reflexivity.
  - apply rtc_once. exists (Elapse 11). split; [exact Logic.I|vm_compute; reflexivity].
  - exists w3. split; [exact Hh|]. apply Hw. vm_compute. reflexivity.
Defined.

(** Nothing else could have answered. *)
Example silent_until_then : outcomes (reg too_late) !! nextCall (reg mounted) = None.
Proof. vm_compute. reflexivity. Qed.

(** The other way round: a loop that was never mounted has no timer, so a call that
    libnfs takes but does not answer waits until the loop is shut down. *)
Definition unmounted_call : World := @next quiet_env (Elapse 1000000) (@next quiet_env (Call (RPath (Stat "/x"))) start).

Example unmounted_waits : timeoutTimer (io unmounted_call) = false /\ isRunning unmounted_call = false /\
  outcomes (reg unmounted_call) = ∅ /\ 1 ∈ active unmounted_call.
Proof. splits; vm_compute; reflexivity. Qed.

End Deadlines.
