(* ===== verification/FileHandle.v ===== *)
(** * File handles as callers see them

    [NFSFileHandle] (Sources/NFSKit/NFSFileHandle.swift) is a token: the number of
    an entry in the event loop's table of handles.  Each of its methods is a request
    to the loop.  The table is an abstract machine, [handle_step], that the
    loop implements; a token stays good until it is closed, dropped or the loop shuts
    down, and until then its methods reach the handle it stands for. *)

From Stdlib Require Import Strings.Byte.
From stdpp Require Import base gmap strings list.
From S2P Require Import Prelude Posix Memory CType LibnfsApi.
From S2P Require Import StateMonad DispatchSource OperationType EventLoopState EventLoop Walk.
From S2P Require Import EventLoopInv EventLoopSafe EventLoopProps EventLoopRuns HandleLife.
Import HandleLife.

Open Scope Z_scope.
Open Scope monad_scope.

Module FileHandle.

Create HintDb silent.

(** The token; the event loop it refers to is the one that runs the requests. *)
Record NFSFileHandle := mkFileHandle { handleID : Z }.

Definition read (h : NFSFileHandle) (count : Z) : Request := RRead (handleID h) None count.

Definition pread (h : NFSFileHandle) (offset count : Z) : Request :=
  RRead (handleID h) (Some offset) count.

Definition preadIntoBuffer (h : NFSFileHandle) (buffer : BufPtr) (offset count : Z) : Request :=
  RPreadInto (handleID h) buffer offset count.

Definition write (h : NFSFileHandle) (data : list byte) : Request := RWrite (handleID h) None data.

Definition pwrite (h : NFSFileHandle) (data : list byte) (offset : Z) : Request :=
  RWrite (handleID h) (Some offset) data.

Definition fsync (h : NFSFileHandle) : Request := RFsync (handleID h).

Definition fstat (h : NFSFileHandle) : Request := RFstat (handleID h).

Definition ftruncate (h : NFSFileHandle) (toLength : Z) : Request := RFtruncate (handleID h) toLength.

Definition lseek (h : NFSFileHandle) (offset whence : Z) : Request := RLseek (handleID h) offset whence.

(** The end of the token. *)
Definition deinit (h : NFSFileHandle) : Event := CloseForget (handleID h).

(** The requests that the methods make, and the command of each for the handle [fh]. *)
Inductive method (h : NFSFileHandle) (fh : Z) : Request -> (Command -> Prop) -> Prop :=
  | m_read n : method h fh (read h n) (fun c => exists b, c = CRead fh b n)
  | m_pread off n : method h fh (pread h off n) (fun c => exists b, c = CPread fh b n off)
  | m_preadInto b off n : method h fh (preadIntoBuffer h b off n) (fun c => c = CPread fh b n off)
  | m_write d : method h fh (write h d) (fun c => exists b, c = CWrite fh b (Z.of_nat (length d)))
  | m_pwrite d off : method h fh (pwrite h d off) (fun c => exists b, c = CPwrite fh b (Z.of_nat (length d)) off)
  | m_fsync : method h fh (fsync h) (fun c => c = CFsync fh)
  | m_fstat : method h fh (fstat h) (fun c => c = CFstat fh)
  | m_ftruncate n : method h fh (ftruncate h n) (fun c => c = CFtruncate fh n)
  | m_lseek off wh : method h fh (lseek h off wh) (fun c => c = CLseek fh off wh).

(** ** The table of handles *)

Definition removed (id : Z) (t : Handles) : Handles := upd_handleRegistry (delete id) t.

(** One event may change the table in these ways only.  A token that is dropped
    always leaves; a handle that is registered always gets the next number. *)
Inductive handle_step (t : Handles) : Event -> Handles -> Prop :=
  | step_other e :
      match e with CloseForget _ | Call (RRegister _) => False | _ => True end -> handle_step t e t
  | step_close id fh : handleRegistry t !! id = Some fh -> handle_step t (Call (RClose id)) (removed id t)
  | step_drop id : handle_step t (CloseForget id) (removed id t)
  | step_register s fh :
      handle_step t (Call (RRegister (CPointer s fh)))
        (mkHandles (<[nextHandleID t := fh]> (handleRegistry t)) (nextHandleID t + 1))
  | step_shutdown : handle_step t Shutdown (mkHandles ∅ (nextHandleID t)).

Lemma removed_absent id t : handleRegistry t !! id = None -> removed id t = t.
Proof. intros H. destruct t as [r n]. unfold removed, upd_handleRegistry. cbn in *. now rewrite delete_id. Qed.

(** The numbers in use are below the next one, so that no token is given twice. *)
Definition numbered (t : Handles) : Prop := forall id, is_Some (handleRegistry t !! id) -> id < nextHandleID t.

Lemma step_numbered t e t' : numbered t -> handle_step t e t' -> numbered t'.
Proof.
  intros H [e0 _|id fh _|id|s fh|]; [exact H|..]; intros i; cbn.
  - intros [x [_ Hx]%lookup_delete_Some]. apply H. eauto.
  - intros [x [_ Hx]%lookup_delete_Some]. apply H. eauto.
  - intros [x [[<- _]|[_ Hx]]%lookup_insert_Some]; [lia|]. specialize (H i ltac:(eauto)). lia.
  - rewrite lookup_empty. intros [x [=]].
Qed.

(** The events that end the token [id]. *)
Definition ends (id : Z) (e : Event) : Prop :=
  match e with Call (RClose i) => i = id | CloseForget i => i = id | Shutdown => True | _ => False end.

Lemma step_keeps t e t' id fh : numbered t -> handleRegistry t !! id = Some fh -> ~ ends id e ->
  handle_step t e t' -> handleRegistry t' !! id = Some fh.
Proof.
  intros Hn Hid He H. revert He. destruct H as [e0 _|i x _|i|s x|]; cbn; intros He; [exact Hid|..].
  - now rewrite lookup_delete_ne.
  - now rewrite lookup_delete_ne.
  - rewrite lookup_insert_ne; [exact Hid|]. intros <-. specialize (Hn (nextHandleID t) ltac:(eauto)). lia.
  - now exfalso; apply He.
Qed.

Section Loop.
Context `{E : Env}.

(** ** The loop implements the table *)

Lemma closeFile_table k id w w' : plain w -> closeFile k id w = Some (tt, w') ->
  handles w' = handles w \/
  (exists fh, handleRegistry (handles w) !! id = Some fh) /\ handles w' = removed id (handles w).
Proof.
  intros Hp Hr. unfold closeFile, with_handle in Hr.
  apply run_bind in Hr as (? & ? & [= <- <-] & Hr). apply run_bind in Hr as (? & ? & [= <- <-] & Hr).
  destruct (handleRegistry (handles w) !! id) as [h|] eqn:Eh; [destruct (context w)|];
    [|left; apply (loose_cont_resume life _ _ w Hp tt w' Hr)..].
  right. split; [eauto|].
  apply run_bind in Hr as (i & w1 & H1 & Hr). apply (loose_next_id life) in H1; [|exact Hp].
  apply run_bind in Hr as (? & w2 & H2 & Hr). apply inert_new_callback in H2; [|apply H1].
  pose proof (steady_trans _ _ _ H1 H2) as [Hp2 Hh2 _ _].
  apply run_bind in Hr as (? & w3 & [= _ <-] & Hr).
  apply start_close in Hr as (_ & Hh & _); [|exact Hp2]. rewrite Hh. cbn. now rewrite Hh2.
Qed.

Lemma drop_table id w w' : plain w -> closeFileFireAndForget id w = Some (tt, w') ->
  handles w' = removed id (handles w).
Proof.
  intros Hp Hr. unfold closeFileFireAndForget in Hr. apply run_bind in Hr as (? & ? & [= <- <-] & Hr).
  destruct (handleRegistry (handles w) !! id) as [h|] eqn:Eh.
  - apply run_bind in Hr as (? & w1 & [= _ <-] & Hr). apply run_bind in Hr as (ctx & ? & [= <- <-] & Hr).
    destruct (bool_decide (is_Some (context w))); cbn [when] in Hr;
      [|now injection Hr as <-].
    unfold nfs_close in Hr. apply run_bind in Hr as (? & w2 & [= _ <-] & Hr).
    apply (loose_run_callbacks life inert_issuePendingOperations) in Hr; [|exact Hp]. now rewrite (st_handles _ _ Hr).
  - injection Hr as <-. now rewrite removed_absent.
Qed.

Lemma register_table k p w w' : plain w -> registerHandle k p w = Some (tt, w') ->
  exists s fh, p = CPointer s fh /\
  handles w' = mkHandles (<[nextHandleID (handles w) := fh]> (handleRegistry (handles w)))
                         (nextHandleID (handles w) + 1).
Proof.
  intros Hp Hr. unfold registerHandle, bound_to in Hr. destruct p as [|?|t x]; try discriminate.
  destruct (decide (Tstruct "nfsfh" = t)) as [<-|]; [|discriminate].
  apply run_bind in Hr as (? & ? & [= <- <-] & Hr). apply run_bind in Hr as (id & ? & [= <- <-] & Hr).
  destruct (_ <? _); [|discriminate].
  apply run_bind in Hr as (? & ? & [= _ <-] & Hr). apply run_bind in Hr as (? & ? & [= _ <-] & Hr).
  apply (loose_cont_resume life) in Hr; [|exact Hp]. exists (Tstruct "nfsfh"), x. split; [done|].
  now rewrite (st_handles _ _ Hr).
Qed.

(** What a term leaves of the table. *)
Definition clears {A} (m : M World A) : Prop :=
  forall w a w', plain w -> m w = Some (a, w') ->
  plain w' /\ (handles w' = handles w \/ handles w' = mkHandles ∅ (nextHandleID (handles w))).

Lemma inert_clears {A} (m : M World A) : inert m -> clears m.
Proof. intros H w a w' Hp Hm. destruct (H w Hp a w' Hm) as [Hp' Hh _ _]. auto. Qed.

Lemma clears_bind {A B} (m : M World A) (k : A -> M World B) :
  clears m -> (forall a, clears (k a)) -> clears (bind m k).
Proof.
  intros Hm Hk w b w' Hp Hr. apply run_bind in Hr as (a & w1 & H1 & Hr).
  destruct (Hm w a w1 Hp H1) as [Hp1 T1]. destruct (Hk a w1 b w' Hp1 Hr) as [Hp' T2].
  split; [exact Hp'|]. destruct T1 as [T1|T1], T2 as [T2|T2]; rewrite T2, ?T1; auto.
Qed.

Lemma performShutdown_table : clears performShutdown.
Proof.
  unfold performShutdown.
  assert (Hdrop : clears (modify (upd_handles (upd_handleRegistry (fun _ => ∅))))).
  { intros w b w' Hp [= _ <-]. split; [exact Hp|]. right. reflexivity. }
  do 2 (apply clears_bind; [apply inert_clears; footprint|intro]).
  destruct (_ || _); [|apply inert_clears; footprint].
  do 7 (apply clears_bind; [apply inert_clears; footprint|intro]).
  apply clears_bind; [apply inert_clears, inert_clear_pending|intro].
  apply clears_bind; [exact Hdrop|intro]. apply inert_clears. footprint.
Qed.

Lemma inert_step {A} (m : M World A) e w a w' :
  match e with CloseForget _ | Call (RRegister _) => False | _ => True end ->
  inert m -> plain w -> m w = Some (a, w') -> handle_step (handles w) e (handles w').
Proof. intros He Hm Hp Hr. destruct (Hm w Hp a w' Hr) as [_ -> _ _]. now constructor. Qed.

Ltac table_idle Hp Hr := eapply inert_step; [exact I| |exact Hp|exact Hr].

Lemma perform_table k r w w' : plain w -> perform k r w = Some (tt, w') ->
  handle_step (handles w) (Call r) (handles w').
Proof.
  intros Hp Hr. destruct r as [o|s e|s|id|id off n|id off d|id dst off n|id|id|id n|id off wh|p|d];
    cbn [perform] in Hr;
    try (table_idle Hp Hr; solve [auto with footprint | apply inert_with_handle; auto with footprint]).
  - destruct (closeFile_table k id w w' Hp Hr) as [->|[[fh Hfh] ->]]; [now constructor|].
    now apply (step_close _ _ fh).
  - destruct (register_table k p w w' Hp Hr) as (s & fh & -> & ->). constructor.
Qed.

Lemma event_table e w w' : plain w -> handle e w = Some (tt, w') -> handle_step (handles w) e (handles w').
Proof.
  intros Hp Hh. destruct e as [r| | | | |id|x|n|p|d]; cbn [handle] in Hh.
  - apply run_bind in Hh as (k & w1 & H1 & Hh). apply inert_new_call in H1; [|exact Hp].
    rewrite <- (st_handles _ _ H1). exact (perform_table k r w1 w' (st_plain _ _ H1) Hh).
  - table_idle Hp Hh. auto with footprint.
  - table_idle Hp Hh. auto with footprint.
  - table_idle Hp Hh. auto with footprint.
  - destruct (performShutdown_table w tt w' Hp Hh) as [_ [->| ->]]; now constructor.
  - rewrite (drop_table id w w' Hp Hh). constructor.
  - table_idle Hp Hh. auto with footprint.
  - table_idle Hp Hh. footprint.
  - table_idle Hp Hh. unfold free. footprint.
  - table_idle Hp Hh. footprint.
Qed.

Lemma trace_plain es w : trace es w -> plain w.
Proof. intros H. apply (trace_uses 0 es w H). Qed.

(** C17: the table of file handles that the event loop keeps is this machine:
    whatever happens in a run, each event changes the table by one step of it,
    which is to close one entry, to drop one, to add a handle under the next number, to
    empty the table, or nothing. *)
Theorem handle_table_refined es w e w' : trace es w -> handle e w = Some (tt, w') ->
  handle_step (handles w) e (handles w').
Proof. intros Ht. apply event_table, (trace_plain es w Ht). Qed.

Lemma trace_numbered es w : trace es w -> numbered (handles w).
Proof.
  induction 1 as [t c w H|es w e w' Ht IH Hh].
  - injection H as <-. intros id. cbn. rewrite lookup_empty. intros [x [=]].
  - exact (step_numbered _ e _ IH (event_table e w w' (trace_plain es w Ht) Hh)).
Qed.

(** The events after a state. *)
Inductive then_run (w : World) : list Event -> World -> Prop :=
  | then_nil : then_run w [] w
  | then_snoc es w1 e w2 : then_run w es w1 -> handle e w1 = Some (tt, w2) -> then_run w (es ++ [e]) w2.

Lemma then_trace es0 w es w' : trace es0 w -> then_run w es w' -> trace (es0 ++ es) w'.
Proof.
  intros H. induction 1 as [|es w1 e w2 _ IH Hh]; [now rewrite app_nil_r|].
  rewrite app_assoc. now apply (trace_step _ w1).
Qed.

(** A token stays good: an entry of the table stays as it is, and its number is
    not given to another handle, as long as it is not closed or dropped and the loop is
    not shut down. *)
Theorem token_stays_good es0 w id fh es w' : trace es0 w -> handleRegistry (handles w) !! id = Some fh ->
  then_run w es w' -> Forall (fun e => ~ ends id e) es -> handleRegistry (handles w') !! id = Some fh.
Proof.
  intros Ht Hid Hr. induction Hr as [|es w1 e w2 Hr IH Hh]; [done|].
  intros [He [Hl _]%Forall_cons]%Forall_app. pose proof (then_trace es0 w es w1 Ht Hr) as Ht1.
  exact (step_keeps _ e _ id fh (trace_numbered _ w1 Ht1) (IH He) Hl
           (event_table e w1 w2 (trace_plain _ w1 Ht1) Hh)).
Qed.

(** ** Methods reach the handle *)

(** A method that makes no call of libnfs. *)
Definition silence : Footprint World.
Proof.
  refine (mkFootprint World (fun _ => True) (fun w w' => issued (lib w') = issued (lib w)) _ _ _);
    [done|congruence|done].
Defined.
Abbreviation silent := (fp_inert silence).

#[local] Instance loose_silence : Loose silence.
Proof. intros w w' _ Ht. apply Ht. Qed.

Ltac silent := footprint_with ltac:(reflexivity).

Lemma silent_new_callback i c h k t x b : silent (new_callback i c h k t x b).
Proof. unfold new_callback. silent. Qed.
#[local] Hint Resolve silent_new_callback : footprint.

(** [m] makes exactly one call, of a command in [P]. *)
Definition calls {A} (P : Command -> Prop) (m : M World A) : Prop :=
  forall w a w', m w = Some (a, w') -> exists i c, P c /\ issued (lib w') = issued (lib w) ++ [(i, c)].

Lemma calls_after {A B} P (m : M World A) (k : A -> M World B) :
  silent m -> (forall a, calls P (k a)) -> calls P (bind m k).
Proof.
  intros Hm Hk w b w' Hr. apply run_bind in Hr as (a & w1 & H1 & Hr).
  destruct (Hk a _ _ _ Hr) as (i & c & Hc & Hi). exists i, c. split; [exact Hc|]. now rewrite Hi, (Hm _ I _ _ H1).
Qed.

Lemma calls_int {A} P n (k : Z -> M World A) : calls P (k n) -> calls P (bind (int_of_uint64 n) k).
Proof. intros Hk w b w' Hr. unfold int_of_uint64 in Hr. destruct (n <? 2 ^ 63); [exact (Hk w b w' Hr)|discriminate]. Qed.

Lemma calls_start P k i c cmd buf : P cmd -> calls P (start_call k i c cmd buf).
Proof.
  intros HP. unfold start_call. apply calls_after; [silent|intros _].
  intros w a w' Hr. exists i, cmd. split; [exact HP|]. apply run_bind in Hr as (rc & w1 & H1 & Hr).
  unfold call_async in H1. apply run_bind in H1 as (? & w2 & [= _ <-] & H1).
  assert (S1 : silent (when (0 <=? async_rc i) (modify (upd_lib (upd_outstanding <[i:=cmd]>))) ;;
                       ret (async_rc i))) by silent.
  assert (S2 : silent (if rc <? 0 then
      (match buf with Some p => free p | None => ret tt end ;; release i ;; drop_continuation i ;;
       e <- call_error rc ;; cont_resume k (Threw e))
      else set_inFlight c (fun n => n + 1) ;; updateWriteSource)) by (unfold free; silent).
  rewrite (S2 _ I _ _ Hr), (S1 _ I _ _ H1). reflexivity.
Qed.

(** The body of each method, on the handle that the token stands for. *)
Ltac calls := unfold handle_call;
  repeat first [apply calls_start; solve [eauto] | apply calls_int | apply calls_after; [solve [silent]|intro]].

Lemma perform_calls h fh r P k w w' : method h fh r P ->
  handleRegistry (handles w) !! handleID h = Some fh -> context w <> None ->
  perform k r w = Some (tt, w') -> exists i c, P c /\ issued (lib w') = issued (lib w) ++ [(i, c)].
Proof.
  intros Hm Hid Hc Hr.
  assert (Hbody : forall body, calls P (body fh) -> with_handle k (handleID h) body w = Some (tt, w') ->
                  exists i c, P c /\ issued (lib w') = issued (lib w) ++ [(i, c)]).
  { intros body Hb H. apply (Hb w tt w'). unfold with_handle, bind, gets in H. rewrite Hid in H.
    now destruct (context w). }
  destruct Hm; eapply Hbody; try exact Hr; cbn zeta beta; calls.
Qed.

Context (HEX : exports_listed).

(** C19: as long as its token is good and the loop is connected, each method of a
    file handle makes one call of libnfs, of the function that it is named
    after, for the handle that the token stands for and with the caller's offset and
    count. *)
Theorem methods_reach_handle h fh r P w : reachable w -> event_ok (Call r) w -> method h fh r P ->
  handleRegistry (handles w) !! handleID h = Some fh -> context w <> None ->
  exists w', handle (Call r) w = Some (tt, w') /\
  exists i c, P c /\ issued (lib w') = issued (lib w) ++ [(i, c)].
Proof.
  intros Hre Hok Hm Hid Hc. pose proof (handle_spec HEX (Call r) w (reachable_idle HEX w Hre) Hok) as Hs.
  apply wp_run in Hs as ([] & w' & Hh & _). exists w'. split; [exact Hh|]. cbn [handle] in Hh.
  apply run_bind in Hh as (k & w1 & [= _ <-] & Hh).
  exact (perform_calls h fh r P k (upd_reg (upd_nextCall (fun n => n + 1)) w) w' Hm Hid Hc Hh).
Qed.

End Loop.

(** ** Tokens at work *)

Definition token : NFSFileHandle := mkFileHandle 1.

(** The file is open, and a read of 16 bytes at offset 4096 is under way. *)
Definition reading_at : World := @next quiet_env (Call (pread token 4096 16)) opened.

Lemma handle_table_refined_witness :
  handle_step (handles opened) (deinit token) (handles dropped) /\ handleRegistry (handles dropped) = ∅.
Proof.
  split; [|vm_compute; reflexivity].
  apply (@handle_table_refined quiet_env _ opened (deinit token) dropped opened_trace).
  vm_compute. reflexivity.
Defined.

Lemma token_stays_good_witness : handleRegistry (handles reading_at) !! 1 = Some 77.
Proof.
  apply (@token_stays_good quiet_env _ opened 1 77 [Call (pread token 4096 16)] reading_at opened_trace);
    [vm_compute; reflexivity| |repeat constructor; intros []].
  apply (then_snoc opened [] opened); [constructor|vm_compute; reflexivity].
Defined.

Lemma methods_reach_handle_witness : exists w',
  @handle quiet_env (Call (pread token 4096 16)) opened = Some (tt, w') /\
  exists i c, (exists b, c = CPread 77 b 16 4096) /\ issued (lib w') = issued (lib opened) ++ [(i, c)].
Proof.
  apply (@methods_reach_handle quiet_env (demo_exports _ _ _ _) token 77 (pread token 4096 16));
    [| |constructor|vm_compute; reflexivity|vm_compute; discriminate].
  - exact (@demo_reachable quiet_env [Call (RRegister (CPointer (Tstruct "nfsfh") 77))]).
  - apply event_okb_ok. vm_compute. reflexivity.
Defined.

End FileHandle.
