(* ===== verification/Client.v ===== *)
(** * The client

    Sources/NFSKit/NFSClient.swift: reading and writing whole files on top of an
    open handle, and the values that connecting computes.  The calls on the
    handle are what the event loop answers them with; a Swift [Int] that would
    overflow stops the program ([None]). *)

From Stdlib Require Import Strings.Byte.
From stdpp Require Import base list gmap strings numbers pretty.
From S2P Require Import Prelude Posix Memory ReadBuffer LibnfsApi.

Open Scope string_scope.
Open Scope list_scope.
Open Scope Z_scope.

Module Client.

(** What a method throws. *)
Inductive Failure :=
  | Posix (e : POSIXError)
  | CancellationError.

Definition int64 (x : Z) : option Z := if decide (- 2 ^ 63 <= x < 2 ^ 63) then Some x else None.
Definition int32 (x : Z) : option Z := if decide (- 2 ^ 31 <= x < 2 ^ 31) then Some x else None.

Definition cancelled_by_progress : Failure :=
  Posix (posix_error ECANCELED "Cancelled by progress handler").

(** ** Reading into one buffer *)

Definition contentsBufferThreshold : Z := 67108864.

Definition shouldUsePreallocatedBuffer (fileSize : Z) : bool :=
  (0 <? fileSize) && (fileSize <=? contentsBufferThreshold).

Definition chunkSize (readMax : Z) : Z := Z.min readMax (4 * 1024 * 1024).

(** [(totalBytes + chunkSize - 1) / chunkSize]. *)
Definition totalChunks (totalBytes cs : Z) : option Z :=
  s ← int64 (totalBytes + cs); s ← int64 (s - 1);
  if cs =? 0 then None else int64 (Z.quot s cs).

(** The byte offset and the count of chunk [i]. *)
Definition chunk_slice (totalBytes cs i : Z) : Z * Z :=
  (i * cs, Z.min cs (totalBytes - i * cs)).

(** The reads that are issued: all chunks, or those before the first check that
    finds the task cancelled. *)
Fixpoint issue_chunks (cancelled : Z -> bool) (l : list Z) : list Z * bool :=
  match l with
  | [] => ([], false)
  | i :: l => if cancelled i then ([], true)
              else let '(r, c) := issue_chunks cancelled l in (i :: r, c)
  end.

(** A child task's end: the chunk, and an error or the bytes libnfs wrote. *)
Abbreviation completion := (Z * (POSIXError + list byte))%type.

(** The child task of chunk [i]: a read of its slice. *)
Definition child (pread : Z -> Z -> POSIXError + list byte) (totalBytes cs i : Z) : completion :=
  let '(byteOffset, readCount) := chunk_slice totalBytes cs i in (i, pread byteOffset readCount).

(** What libnfs does to the buffer at [p]. *)
Definition write_chunk (p cs : Z) (m : option mem) (c : completion) : option mem :=
  match m, c with
  | Some m, (i, inr bytes) => store p (i * cs) bytes m
  | _, _ => m
  end.

Definition write_chunks (p cs : Z) (l : list completion) (m : mem) : option mem :=
  fold_left (write_chunk p cs) l (Some m).

Abbreviation progress2 := (option (Z -> Z -> bool)).

(** The inner loop that drains the group: it stops after the first error, which is
    caught; these are the completions it leaves to the outer loop. *)
Fixpoint drain_inner (l : list completion) : list completion :=
  match l with
  | [] => []
  | (_, inl _) :: l => l
  | (_, inr _) :: l => drain_inner l
  end.

(** The outer loop once [cancelledByProgress] is set. *)
Fixpoint drain_cancelled (read : Z) (l : list completion) : option (Failure + unit) :=
  match l with
  | [] => Some (inl cancelled_by_progress)
  | (_, inl e) :: _ => Some (inl (Posix e))
  | (_, inr bytes) :: l =>
      match int64 (read + Z.of_nat (length bytes)) with
      | None => None
      | Some read => drain_cancelled read l
      end
  end.

(** The [for try await] loop over the completions, in their order of arrival. *)
Fixpoint drain (progress : progress2) (fileSize read : Z) (l : list completion) : option (Failure + unit) :=
  match l with
  | [] => Some (inr tt)
  | (_, inl e) :: _ => Some (inl (Posix e))
  | (_, inr bytes) :: l =>
      match int64 (read + Z.of_nat (length bytes)) with
      | None => None
      | Some read =>
          if match progress with Some f => f read fileSize | None => true end
          then drain progress fileSize read l
          else drain_cancelled read (drain_inner l)
      end
  end.

(** [readMax] is what [getReadMax()] answers or throws; [pread] is how a read of so many bytes
    at an offset ends, and [order] the order in which the children end, as far as they
    were added.  The buffer object is released when the method throws, and disowned when it
    returns. *)
Definition contentsUsingPreallocatedBuffer (readMax : POSIXError + Z) (fileSize : Z) (progress : progress2)
    (cancelled : Z -> bool) (pread : Z -> Z -> POSIXError + list byte) (order : list Z) (m : mem)
    : option ((Failure + Data) * mem) :=
  match readMax with
  | inl e => Some (inl (Posix e), m)
  | inr readMax =>
  let cs := chunkSize readMax in
  n ← totalChunks fileSize cs;
  if n <? 0 then None else
  let '(buffer, m) := Buffer.init fileSize m in
  let '(added, stopped) := issue_chunks cancelled (seqZ 0 n) in
  let completions := map (child pread fileSize cs) (filter (fun i => i ∈ added) order) in
  m ← write_chunks (Buffer.pointer buffer) cs completions m;
  outcome ← (if stopped : bool then Some (inl CancellationError)
              else drain progress fileSize 0 completions);
  match outcome with
  | inl e => m ← Buffer.deinit buffer m; Some (inl e, m)
  | inr _ => let buffer := Buffer.disown buffer in
             m ← Buffer.deinit buffer m;
             Some (inr (DataNoCopy (Buffer.pointer buffer) fileSize), m)
  end
  end.

(** ** Reading and writing chunk by chunk

    [S] is the state behind the handle; [read], [write] and [fsync] are the calls
    on it. *)

Section Sequential.
Context {S : Type}.
Variable read : Z -> S -> (POSIXError + list byte) * S.
Variable write : list byte -> S -> (POSIXError + Z) * S.
Variable fsync : S -> (POSIXError + unit) * S.

(** 1 MB. *)
Definition sequentialChunk : Z := 1048576.

(** The [while] loop of [contentsUsingLegacyChunkedRead]; [k] counts the checks
    for cancellation, [fuel] bounds the iterations. *)
Fixpoint legacy_loop (fuel k : nat) (progress : progress2) (cancelled : nat -> bool)
    (fileSize offset : Z) (data : list byte) (s : S) : option ((Failure + list byte) * S) :=
  if offset <? fileSize then
    match fuel with
    | O => None
    | Datatypes.S fuel =>
        if cancelled k then Some (inl CancellationError, s) else
        let count := Z.min sequentialChunk (fileSize - offset) in
        match read count s with
        | (inl e, s) => Some (inl (Posix e), s)
        | (inr [], s) => Some (inr data, s)
        | (inr chunk, s) =>
            match int64 (offset + Z.of_nat (length chunk)) with
            | None => None
            | Some offset =>
                if match progress with Some f => f offset fileSize | None => true end
                then legacy_loop fuel (Datatypes.S k) progress cancelled fileSize offset
                       (data ++ chunk) s
                else Some (inl cancelled_by_progress, s)
            end
        end
    end
  else Some (inr data, s).

Definition contentsUsingLegacyChunkedRead (progress : progress2) (cancelled : nat -> bool)
    (fileSize : Z) (s : S) : option ((Failure + list byte) * S) :=
  legacy_loop (Z.to_nat fileSize) 0 progress cancelled fileSize 0 [] s.

(** The [while] loop of [write(data:toPath:)]. *)
Fixpoint write_loop (fuel k : nat) (progress : option (Z -> bool)) (cancelled : nat -> bool)
    (data : list byte) (offset : Z) (s : S) : option ((Failure + unit) * S) :=
  if offset <? Z.of_nat (length data) then
    match fuel with
    | O => None
    | Datatypes.S fuel =>
        if cancelled k then Some (inl CancellationError, s) else
        let end_ := Z.min (offset + sequentialChunk) (Z.of_nat (length data)) in
        let chunk := take (Z.to_nat (end_ - offset)) (drop (Z.to_nat offset) data) in
        match write chunk s with
        | (inl e, s) => Some (inl (Posix e), s)
        | (inr _, s) =>
            if match progress with Some f => f end_ | None => true end
            then write_loop fuel (Datatypes.S k) progress cancelled data end_ s
            else Some (inl cancelled_by_progress, s)
        end
    end
  else match fsync s with
       | (inl e, s) => Some (inl (Posix e), s)
       | (inr _, s) => Some (inr tt, s)
       end.

(** [write(data:toPath:)] once the file is open. *)
Definition write_contents (progress : option (Z -> bool)) (cancelled : nat -> bool)
    (data : list byte) (s : S) : option ((Failure + unit) * S) :=
  write_loop (length data) 0 progress cancelled data 0 s.

End Sequential.

(** ** A whole file *)

Section Contents.
Context {S : Type}.
Variable openFile : S -> (POSIXError + unit) * S.
Variable fstat : S -> (POSIXError + Api.nfs_stat_64) * S.
Variable read : Z -> S -> (POSIXError + list byte) * S.

(** [contents(atPath:progress:)]: [taskCancelled] is the first check, [readMax] what
    [getReadMax()] answers or throws, [pread] and [order] how the parallel reads end. *)
Definition contents (readMax : POSIXError + Z) (progress : progress2) (taskCancelled : bool)
    (cancelledChunk : Z -> bool) (cancelledRead : nat -> bool)
    (pread : Z -> Z -> POSIXError + list byte) (order : list Z) (m : mem) (s : S) : option ((Failure + Data) * mem * S) :=
  if taskCancelled then Some (inl CancellationError, m, s) else
  match openFile s with
  | (inl e, s) => Some (inl (Posix e), m, s)
  | (inr _, s) =>
      match fstat s with
      | (inl e, s) => Some (inl (Posix e), m, s)
      | (inr stat, s) =>
          fileSize ← int64 (Api.nfs_size stat);
          if negb (0 <? fileSize) then Some (inr (DataBytes []), m, s)
          else if shouldUsePreallocatedBuffer fileSize then
            '(r, m) ← contentsUsingPreallocatedBuffer readMax fileSize progress cancelledChunk pread order m;
            Some (r, m, s)
          else
            '(r, s) ← contentsUsingLegacyChunkedRead read progress cancelledRead fileSize s;
            Some (match r with inl e => inl e | inr l => inr (DataBytes l) end, m, s)
      end
  end.

End Contents.

(** ** Connecting *)

(** The server of [connect]: "host:port", or the host alone. *)
Definition server_name (host : option string) (port : option Z) : string :=
  let host := match host with Some h => h | None => "localhost" end in
  match port with Some p => (host +:+ ":" +:+ pretty p)%string | None => host end.

(** The identity taken from the root directory: [Int32(stat.nfs_uid)] and
    [Int32(stat.nfs_gid)]. *)
Definition connect_ids (stat : Api.nfs_stat_64) : option (Z * Z) :=
  uid ← int32 (Api.nfs_uid stat); gid ← int32 (Api.nfs_gid stat); Some (uid, gid).

(** ** The chunks of a file *)

Lemma int64_some x : - 2 ^ 63 <= x < 2 ^ 63 -> int64 x = Some x.
Proof. intros H. unfold int64. now rewrite decide_True by lia. Qed.

Lemma int32_some x : - 2 ^ 31 <= x < 2 ^ 31 -> int32 x = Some x.
Proof. intros H. unfold int32. now rewrite decide_True by lia. Qed.

(** Files that take this path, read in chunks of at most 4 MB. *)
Definition fits_buffer (readMax fileSize : Z) : Prop :=
  shouldUsePreallocatedBuffer fileSize = true /\ 0 < readMax.

Lemma fits_bounds readMax fileSize : fits_buffer readMax fileSize ->
  0 < fileSize <= 2 ^ 26 /\ 0 < chunkSize readMax <= 2 ^ 22.
Proof.
  unfold fits_buffer, shouldUsePreallocatedBuffer, contentsBufferThreshold, chunkSize. intros [H ?]. lia.
Qed.

Lemma totalChunks_ceil readMax fileSize : fits_buffer readMax fileSize ->
  let cs := chunkSize readMax in
  exists n, totalChunks fileSize cs = Some n /\ 0 < n <= fileSize /\
    (n - 1) * cs < fileSize <= n * cs.
Proof.
  intros [H1 H2]%fits_bounds cs. fold cs in H2. unfold totalChunks.
  rewrite int64_some by lia. cbn [mbind option_bind]. rewrite int64_some by lia. cbn [mbind option_bind].
  rewrite (proj2 (Z.eqb_neq cs 0)) by lia. rewrite Z.quot_div_nonneg by lia.
  set (n := (fileSize + cs - 1) / cs).
  assert (Hn : (n - 1) * cs < fileSize <= n * cs).
  { pose proof (Z.div_mod (fileSize + cs - 1) cs ltac:(lia)) as Hd.
    pose proof (Z.mod_pos_bound (fileSize + cs - 1) cs ltac:(lia)). fold n in Hd. nia. }
  assert (Hb : 0 < n <= fileSize) by nia.
  exists n. rewrite int64_some by lia. auto.
Qed.

(** Where a byte lies: chunk [i] holds the positions of its slice. *)
Lemma chunk_slice_spec total cs n i j : 0 < cs -> (n - 1) * cs < total <= n * cs -> 0 <= i < n ->
  0 <= j < total ->
  (fst (chunk_slice total cs i) <= j < fst (chunk_slice total cs i) + snd (chunk_slice total cs i)
   <-> j / cs = i).
Proof.
  intros Hcs Hn Hi Hj. cbn [chunk_slice fst snd].
  pose proof (Z.div_mod j cs ltac:(lia)). pose proof (Z.mod_pos_bound j cs ltac:(lia)).
  split; [intros Hr|intros <-]; nia.
Qed.

(** The bytes that the chunks up to [k] cover. *)
Lemma chunks_prefix total cs k : 0 < cs -> 0 <= total ->
  concat (map (fun i => seqZ (fst (chunk_slice total cs i)) (snd (chunk_slice total cs i)))
              (seqZ 0 (Z.of_nat k))) = seqZ 0 (Z.min (Z.of_nat k * cs) total).
Proof.
  intros Hcs Ht. induction k as [|k IH].
  { rewrite seqZ_nil by lia. symmetry. apply seqZ_nil. lia. }
  replace (Z.of_nat (S k)) with (Z.of_nat k + 1) by lia.
  rewrite seqZ_app, map_app, concat_app, IH by lia. cbn [map seqZ Z.to_nat]. 
  rewrite (seqZ_cons _ 1), (seqZ_nil _ (Z.pred 1)) by lia. cbn [map concat chunk_slice fst snd].
  rewrite app_nil_r, Z.add_0_l.
  destruct (Z.le_gt_cases (Z.of_nat k * cs) total) as [Hle|Hgt].
  - rewrite (Z.min_l (Z.of_nat k * cs)) by lia.
    replace (Z.min ((Z.of_nat k + 1) * cs) total)
      with (Z.of_nat k * cs + Z.min cs (total - Z.of_nat k * cs)) by lia.
    rewrite seqZ_app by lia. now rewrite Z.add_0_l.
  - rewrite (seqZ_nil (Z.of_nat k * cs)) by lia. rewrite app_nil_r. f_equal. lia.
Qed.

(** The chunks tile the file: there is at least one, each is not empty and at
    most 4 MB, and in order they cover every byte position exactly once. *)
Theorem chunks_tile readMax fileSize : fits_buffer readMax fileSize ->
  let cs := chunkSize readMax in
  exists n, totalChunks fileSize cs = Some n /\ 0 < n /\
    (forall i, 0 <= i < n -> 0 < snd (chunk_slice fileSize cs i) <= 4 * 1024 * 1024) /\
    concat (map (fun i => seqZ (fst (chunk_slice fileSize cs i)) (snd (chunk_slice fileSize cs i)))
                (seqZ 0 n)) = seqZ 0 fileSize.
Proof.
  intros H cs. destruct (totalChunks_ceil _ _ H) as (n & Hn & Hp & Hb). fold cs in Hn, Hb.
  apply fits_bounds in H as [H1 H2]. fold cs in H2. exists n. splits; [exact Hn|lia| |].
  - intros i Hi. cbn [chunk_slice snd]. nia.
  - replace n with (Z.of_nat (Z.to_nat n)) at 1 by lia. rewrite chunks_prefix by lia.
    f_equal. lia.
Qed.

Lemma chunks_tile_witness : exists n, totalChunks 10000000 (chunkSize 1048576) = Some n /\ 0 < n /\
  (forall i, 0 <= i < n -> 0 < snd (chunk_slice 10000000 (chunkSize 1048576) i) <= 4 * 1024 * 1024) /\
  concat (map (fun i => seqZ (fst (chunk_slice 10000000 (chunkSize 1048576) i))
                             (snd (chunk_slice 10000000 (chunkSize 1048576) i))) (seqZ 0 n))
    = seqZ 0 10000000.
Proof. apply (chunks_tile 1048576 10000000). split; [reflexivity|lia]. Defined.

(** ** The buffer after the reads *)

Lemma lookup_splice (l : list cell) off bs j : (off + length bs <= length l)%nat ->
  splice l off bs !! j =
    if decide (off <= j < off + length bs)%nat then Some <$> bs !! (j - off)%nat else l !! j.
Proof.
  intros H. unfold splice. destruct (Nat.lt_ge_cases j off) as [Hj|Hj].
  - rewrite decide_False, lookup_app_l by (rewrite ?length_take; lia). now apply lookup_take_lt.
  - rewrite lookup_app_r by (rewrite length_take; lia). rewrite length_take, Nat.min_l by lia.
    destruct (Nat.lt_ge_cases j (off + length bs)) as [Hk|Hk].
    + rewrite decide_True by lia. rewrite lookup_app_l by (rewrite length_fmap; lia).
      apply list_lookup_fmap.
    + rewrite decide_False by lia. rewrite lookup_app_r by (rewrite length_fmap; lia).
      rewrite length_fmap, lookup_drop. f_equal. lia.
Qed.

(** The bytes of chunk [i] of a file. *)
Definition chunk_bytes (file : list byte) (cs i : Z) : list byte :=
  take (Z.to_nat cs) (drop (Z.to_nat (i * cs)) file).

(** A child task that read its whole chunk. *)
Definition full_read (file : list byte) (cs i : Z) : completion := (i, inr (chunk_bytes file cs i)).

(** A server that holds [file] and never reads short: what lies within the file comes in full. *)
Definition reads_slices (file : list byte) (pread : Z -> Z -> POSIXError + list byte) : Prop :=
  forall off n, 0 <= off -> 0 < n -> off + n <= Z.of_nat (length file) ->
    pread off n = inr (take (Z.to_nat n) (drop (Z.to_nat off) file)).

Section Full.
Variables (file : list byte) (cs n : Z).
Abbreviation total := (Z.of_nat (length file)).
Context (Hcs : 0 < cs) (Hn : (n - 1) * cs < total <= n * cs).

Lemma chunk_bytes_length i : 0 <= i < n ->
  Z.of_nat (length (chunk_bytes file cs i)) = snd (chunk_slice total cs i).
Proof.
  intros Hi. unfold chunk_bytes. cbn [chunk_slice snd]. rewrite length_take, length_drop. nia.
Qed.

Lemma chunk_bytes_lookup i j : 0 <= i < n -> (j < length file)%nat -> Z.of_nat j / cs = i ->
  chunk_bytes file cs i !! (j - Z.to_nat (i * cs))%nat = file !! j.
Proof.
  intros Hi Hj Hd.
  pose proof (Z.div_mod (Z.of_nat j) cs ltac:(lia)). pose proof (Z.mod_pos_bound (Z.of_nat j) cs ltac:(lia)).
  unfold chunk_bytes. rewrite lookup_take_lt by nia. rewrite lookup_drop. f_equal. nia.
Qed.

(** Such a server gives every child its chunk. *)
Lemma child_full pread i : reads_slices file pread -> 0 <= i < n -> child pread total cs i = full_read file cs i.
Proof.
  intros Hp Hi. unfold child, chunk_slice, full_read, chunk_bytes. rewrite Hp by nia. do 2 f_equal.
  destruct (Z.le_gt_cases cs (total - i * cs)) as [H|H]; [now rewrite Z.min_l|].
  rewrite Z.min_r by lia. rewrite !take_ge; rewrite ?length_drop; (done || nia).
Qed.

(** One whole chunk arrives: its positions are written, the others untouched. *)
Lemma write_full_chunk p i m c : blocks m !! p = Some c -> length c = length file -> 0 <= i < n ->
  exists m' c', write_chunk p cs (Some m) (full_read file cs i) = Some m' /\
    blocks m' !! p = Some c' /\ length c' = length file /\
    forall j, (j < length file)%nat ->
      c' !! j = if decide (Z.of_nat j / cs = i) then Some <$> file !! j else c !! j.
Proof.
  intros Hc Hl Hi. pose proof (chunk_bytes_length i Hi) as Hlen. cbn [chunk_slice snd] in Hlen.
  destruct (store_ok p (i * cs) (chunk_bytes file cs i) m c Hc) as (m' & Hm & Hb & _); [nia|nia|].
  exists m', (splice c (Z.to_nat (i * cs)) (chunk_bytes file cs i)). splits; [exact Hm|exact Hb| |].
  - rewrite length_splice; nia.
  - intros j Hj. rewrite lookup_splice by nia.
    pose proof (chunk_slice_spec total cs n i (Z.of_nat j) Hcs Hn Hi ltac:(lia)) as Hs.
    cbn [chunk_slice fst snd] in Hs.
    destruct (decide (Z.of_nat j / cs = i)) as [Hd|Hd].
    + apply Hs in Hd as Hr. rewrite decide_True by nia. now rewrite chunk_bytes_lookup.
    + rewrite decide_False; [done|]. intros Hr. apply Hd, Hs. nia.
Qed.

(** Whole chunks, in any order. *)
Lemma write_full_chunks p l : forall m c, blocks m !! p = Some c -> length c = length file ->
  (forall i, In i l -> 0 <= i < n) ->
  exists m' c', write_chunks p cs (map (full_read file cs) l) m = Some m' /\
    blocks m' !! p = Some c' /\ length c' = length file /\
    forall j, (j < length file)%nat ->
      c' !! j = if decide (Z.of_nat j / cs ∈ l) then Some <$> file !! j else c !! j.
Proof.
  induction l as [|i l IH]; intros m c Hc Hl Hi.
  { exists m, c. splits; auto. }
  destruct (write_full_chunk p i m c Hc Hl) as (m1 & c1 & Hm & Hc1 & Hl1 & H1); [apply Hi; now left|].
  destruct (IH m1 c1 Hc1 Hl1) as (m' & c' & Hm' & Hc' & Hl' & H'); [intros; apply Hi; now right|].
  exists m', c'. splits; [|exact Hc'|exact Hl'|].
  - unfold write_chunks. cbn [map fold_left]. rewrite Hm. exact Hm'.
  - intros j Hj. rewrite H', H1 by done. rewrite (decide_ext (Z.of_nat j / cs ∈ i :: l) (Z.of_nat j / cs = i \/ Z.of_nat j / cs ∈ l))
      by apply elem_of_cons.
    repeat case_decide; try done; intuition congruence.
Qed.

End Full.

(** The loop over completions that all succeeded. *)
Lemma drain_success progress fileSize l : forall read,
  (forall r fs, match progress with Some f => f r fs | None => true end = true) ->
  (forall c, In c l -> exists bytes, snd c = inr bytes /\ Z.of_nat (length bytes) <= 2 ^ 22) ->
  0 <= read -> read + 2 ^ 22 * Z.of_nat (length l) < 2 ^ 63 ->
  drain progress fileSize read l = Some (inr tt).
Proof.
  induction l as [|[i r] l IH]; intros read Hp Hl H0 Hr; [reflexivity|].
  destruct (Hl (i, r)) as (bytes & Hb & Hlen); [now left|]. cbn in Hb. subst r. cbn [drain].
  cbn [length] in Hr. rewrite int64_some by lia. rewrite Hp.
  apply IH; [exact Hp|intros c Hc; apply Hl; now right|lia|lia].
Qed.

Lemma filter_in (l order : list Z) : (forall i, i ∈ order -> i ∈ l) -> filter (fun i => i ∈ l) order = order.
Proof.
  intros H. induction order as [|i order IH]; [done|]. rewrite filter_cons_True by (apply H; left).
  rewrite IH; [done|]. intros j Hj. apply H. now right.
Qed.

Lemma issue_all l : issue_chunks (fun _ => false) l = (l, false).
Proof. induction l as [|i l IH]; [done|]. cbn. now rewrite IH. Qed.

Lemma preallocated_reads readMax file progress pread m order :
  fits_buffer readMax (Z.of_nat (length file)) ->
  (forall r fs, match progress with Some f => f r fs | None => true end = true) ->
  reads_slices file pread ->
  totalChunks (Z.of_nat (length file)) (chunkSize readMax) = Some (Z.of_nat (length order)) ->
  order ≡ₚ seqZ 0 (Z.of_nat (length order)) ->
  exists p m', contentsUsingPreallocatedBuffer (inr readMax) (Z.of_nat (length file)) progress
      (fun _ => false) pread order m
    = Some (inr (DataNoCopy p (Z.of_nat (length file))), m') /\
    data_cells (DataNoCopy p (Z.of_nat (length file))) m' = Some (Some <$> file).
Proof.
  intros Hfit Hp Hread Hn Hperm. destruct (totalChunks_ceil _ _ Hfit) as (n & Hn' & Hpos & Hb).
  rewrite Hn in Hn'. injection Hn' as <-. apply fits_bounds in Hfit as [H1 H2].
  set (cs := chunkSize readMax) in *. set (total := Z.of_nat (length file)) in *.
  unfold contentsUsingPreallocatedBuffer. fold cs. rewrite Hn. cbn [mbind option_bind].
  rewrite (proj2 (Z.ltb_ge _ 0)) by lia. unfold Buffer.init.
  destruct (allocate total m) as [p m1] eqn:Ea. cbn [Buffer.pointer].
  destruct (allocate_live _ _ _ _ Ea) as [Hblock _].
  assert (Hidx : forall i, In i order <-> 0 <= i < Z.of_nat (length order)).
  { intros i. rewrite <- list_elem_of_In.
    transitivity (i ∈ seqZ 0 (Z.of_nat (length order))); [now rewrite <- Hperm|rewrite elem_of_seqZ; lia]. }
  rewrite issue_all. cbn zeta iota beta.
  assert (Hchildren : map (child pread total cs) (filter (fun i => i ∈ seqZ 0 (Z.of_nat (length order))) order)
    = map (full_read file cs) order).
  { rewrite filter_in.
    - apply map_ext_in. intros i Hi. apply (child_full file cs (Z.of_nat (length order))); [lia|exact Hb|exact Hread|now apply Hidx].
    - intros i Hi. apply elem_of_seqZ. apply list_elem_of_In, Hidx in Hi. lia. }
  rewrite Hchildren. destruct (write_full_chunks file cs (Z.of_nat (length order)) ltac:(lia) Hb p order m1 _ Hblock)
    as (m2 & c & Hm2 & Hc & Hl & Hall).
  { rewrite length_replicate. unfold total. lia. }
  { intros i Hi. now apply Hidx. }
  rewrite Hm2. cbn [mbind option_bind].
  rewrite drain_success; [|exact Hp| |lia|rewrite length_map; nia].
  - cbn [mbind option_bind Buffer.disown Buffer.deinit Buffer.isOwned Buffer.pointer].
    exists p, m2. split; [reflexivity|]. cbn [data_cells]. unfold load. rewrite Hc.
    rewrite decide_True by (unfold total; lia). f_equal.
    replace (Z.to_nat total) with (length c) by (unfold total; lia). rewrite take_ge by done.
    apply list_eq. intros j. rewrite list_lookup_fmap. destruct (Nat.lt_ge_cases j (length file)) as [Hj|Hj].
    + rewrite Hall by done. rewrite decide_True; [done|]. apply list_elem_of_In, Hidx.
      split; [apply Z.div_pos; lia|]. apply Z.div_lt_upper_bound; nia.
    + rewrite !lookup_ge_None_2 by lia. done.
  - intros ci Hci. apply in_map_iff in Hci as (i & <- & Hi). eexists. split; [reflexivity|].
    unfold chunk_bytes. rewrite length_take. lia.
Qed.

(** When every chunk is read in full, in whatever order the replies arrive,
    the method returns the file: a [Data] over the buffer with exactly the file's
    bytes, and the buffer stays allocated for it. *)
Theorem preallocated_reads_file readMax file progress pread m order :
  fits_buffer readMax (Z.of_nat (length file)) ->
  (forall r fs, match progress with Some f => f r fs | None => true end = true) ->
  reads_slices file pread ->
  totalChunks (Z.of_nat (length file)) (chunkSize readMax) = Some (Z.of_nat (length order)) ->
  order ≡ₚ seqZ 0 (Z.of_nat (length order)) ->
  exists p m', contentsUsingPreallocatedBuffer (inr readMax) (Z.of_nat (length file)) progress
      (fun _ => false) pread order m
    = Some (inr (DataNoCopy p (Z.of_nat (length file))), m') /\
    data_cells (DataNoCopy p (Z.of_nat (length file))) m' = Some (Some <$> file).
Proof. apply preallocated_reads. Qed.

(** A server that serves slices of a file. *)
Definition slice_server (file : list byte) (off n : Z) : POSIXError + list byte :=
  inr (take (Z.to_nat n) (drop (Z.to_nat off) file)).

Lemma preallocated_reads_file_witness : exists p m',
  contentsUsingPreallocatedBuffer (inr 2) 5 None (fun _ => false)
      (slice_server [x61; x62; x63; x64; x65]) [2; 0; 1] mem_empty
    = Some (inr (DataNoCopy p 5), m') /\
  data_cells (DataNoCopy p 5) m' = Some (Some <$> [x61; x62; x63; x64; x65]).
Proof.
  apply (preallocated_reads_file 2 [x61; x62; x63; x64; x65] None _ mem_empty [2; 0; 1]).
  - split; [reflexivity|lia].
  - reflexivity.
  - now intros off n _ _ _.
  - reflexivity.
  - change (seqZ 0 (Z.of_nat (length [2; 0; 1]))) with [0; 1; 2].
    etransitivity; [apply Permutation_swap|]. apply perm_skip, Permutation_swap.
Defined.

(** A read may return fewer bytes than asked for; the method does not look at the
    counts.  Here two bytes of five arrive, and the caller gets a [Data] of five,
    three of which were never written. *)
Example short_read_returns_garbage :
  match contentsUsingPreallocatedBuffer (inr 8) 5 None (fun _ => false) (fun _ _ => inr [x61; x62]) [0] mem_empty with
  | Some (inr d, m) => data_count d = 5 /\
      data_cells d m = Some [Some x61; Some x62; None; None; None]
  | _ => False
  end.
Proof. vm_compute. auto. Qed.

(** The progress handler stops the read; of two reads that fail afterwards the
    inner loop swallows the first, and the second is thrown in place of ECANCELED. *)
Example cancellation_masked : exists m,
  contentsUsingPreallocatedBuffer (inr 1) 3 (Some (fun _ _ => false)) (fun _ => false)
    (fun off _ => if off =? 0 then inr [x61] else if off =? 1 then inl (posix_error_plain EIO)
                  else inl (posix_error_plain EBADF)) [0; 1; 2] mem_empty
  = Some (inl (Posix (posix_error_plain EBADF)), m).
Proof. eexists. vm_compute. reflexivity. Qed.

(** A server that reports a read size of zero: the program divides by it. *)
Example zero_read_size_traps m pread order :
  contentsUsingPreallocatedBuffer (inr 0) 5 None (fun _ => false) pread order m = None.
Proof. reflexivity. Qed.

(** *** Errors and cancellation *)

(** A child task ends with an error, or with at most the bytes of its chunk. *)
Definition completion_ok (total cs n : Z) (c : completion) : Prop :=
  0 <= fst c < n /\
  match snd c with inr bytes => Z.of_nat (length bytes) <= snd (chunk_slice total cs (fst c)) | inl _ => True end.

Lemma write_chunks_ok total cs n p l : 0 < cs -> (n - 1) * cs < total <= n * cs ->
  forall m c, blocks m !! p = Some c -> Z.of_nat (length c) = total ->
  (forall x, In x l -> completion_ok total cs n x) ->
  exists m', write_chunks p cs l m = Some m' /\ live p m' /\
    (forall q, q <> p -> blocks m' !! q = blocks m !! q).
Proof.
  intros Hcs Hn. induction l as [|[i r] l IH]; intros m c Hc Hl Hok.
  { exists m. splits; auto. eexists; eauto. }
  destruct (Hok (i, r)) as [Hi Hr]; [now left|]. cbn in Hi, Hr.
  destruct r as [e|bytes].
  - destruct (IH m c Hc Hl) as (m' & Hm & Hrest); [intros; apply Hok; now right|]. exists m'. auto.
  - destruct (store_ok p (i * cs) bytes m c Hc) as (m1 & Hm1 & Hb1 & Ho1); [nia|nia|].
    destruct (IH m1 _ Hb1) as (m' & Hm & Hlv & Ho); [rewrite length_splice; nia|intros; apply Hok; now right|].
    exists m'. splits; [|exact Hlv|intros q Hq; now rewrite Ho, Ho1].
    unfold write_chunks. cbn [fold_left write_chunk]. rewrite Hm1. exact Hm.
Qed.

Lemma drain_inner_suffix l : exists l', l = l' ++ drain_inner l.
Proof.
  induction l as [|[i [e|bytes]] l [l' IH]]; cbn; [now exists []|now exists [(i, inl e)]|].
  exists ((i, inr bytes) :: l'). cbn. now f_equal.
Qed.

Lemma drain_cancelled_total l : forall read,
  (forall i bytes, In (i, inr bytes) l -> Z.of_nat (length bytes) <= 2 ^ 22) ->
  0 <= read -> read + 2 ^ 22 * Z.of_nat (length l) < 2 ^ 63 ->
  is_Some (drain_cancelled read l).
Proof.
  induction l as [|[i [e|bytes]] l IH]; intros read Hl H0 Hr; cbn [drain_cancelled]; [eauto|eauto|].
  pose proof (Hl i bytes (or_introl eq_refl)). cbn [length] in Hr. rewrite int64_some by lia.
  apply IH; [intros j b Hj; apply (Hl j); now right|lia|lia].
Qed.

Lemma drain_total progress fileSize l : forall read,
  (forall i bytes, In (i, inr bytes) l -> Z.of_nat (length bytes) <= 2 ^ 22) ->
  0 <= read -> read + 2 ^ 22 * Z.of_nat (length l) < 2 ^ 63 ->
  is_Some (drain progress fileSize read l).
Proof.
  induction l as [|[i [e|bytes]] l IH]; intros read Hl H0 Hr; cbn [drain]; [eauto|eauto|].
  pose proof (Hl i bytes (or_introl eq_refl)). cbn [length] in Hr. rewrite int64_some by lia.
  destruct (match progress with Some f => _ | None => _ end).
  { apply IH; [intros j b Hj; apply (Hl j); now right|lia|lia]. }
  destruct (drain_inner_suffix l) as [l' E]. rewrite E, length_app in Hr.
  apply drain_cancelled_total; [intros j b Hj; apply (Hl j); right|lia|lia].
  rewrite E. apply in_or_app. now right.
Qed.

(** A child that ends without an error got at most the bytes of its slice. *)
Lemma children_ok total cs n pread order : 0 < cs -> (n - 1) * cs < total <= n * cs ->
  (forall off len, 0 < len -> match pread off len with inr bytes => Z.of_nat (length bytes) <= len | inl _ => True end) ->
  (forall i, i ∈ order -> 0 <= i < n) ->
  forall x, In x (map (child pread total cs) order) -> completion_ok total cs n x.
Proof.
  intros Hcs Hn Hp Ho x Hx. apply in_map_iff in Hx as (i & <- & Hi). apply list_elem_of_In, Ho in Hi.
  unfold child, completion_ok, chunk_slice. cbn [fst snd]. split; [exact Hi|]. apply Hp. nia.
Qed.

Lemma accounts_buffer readMax fileSize progress cancelled pread order m :
  fits_buffer readMax fileSize -> mem_ok m ->
  (forall off len, 0 < len -> match pread off len with inr bytes => Z.of_nat (length bytes) <= len | inl _ => True end) ->
  (forall n, totalChunks fileSize (chunkSize readMax) = Some n -> order ≡ₚ seqZ 0 n) ->
  exists r m', contentsUsingPreallocatedBuffer (inr readMax) fileSize progress cancelled pread order m
      = Some (r, m') /\
    match r with
    | inl _ => forall q, blocks m' !! q = blocks m !! q
    | inr d => exists p, d = DataNoCopy p fileSize /\ live p m' /\ ~ live p m /\
                 forall q, q <> p -> blocks m' !! q = blocks m !! q
    end.
Proof.
  intros Hfit Hm Hread Hperm. destruct (totalChunks_ceil _ _ Hfit) as (n & Hn & Hpos & Hb).
  apply fits_bounds in Hfit as [H1 H2]. specialize (Hperm n Hn).
  set (cs := chunkSize readMax) in *. unfold contentsUsingPreallocatedBuffer. fold cs. rewrite Hn.
  cbn [mbind option_bind]. rewrite (proj2 (Z.ltb_ge n 0)) by lia. unfold Buffer.init.
  destruct (allocate fileSize m) as [p m1] eqn:Ea. cbn [Buffer.pointer].
  destruct (allocate_live _ _ _ _ Ea) as [Hblock Hnew]. destruct (Hnew Hm) as [_ Hdead].
  assert (Hold : forall q, q <> p -> blocks m1 !! q = blocks m !! q).
  { injection Ea as <- <-. intros q Hq. cbn. now apply lookup_insert_ne. }
  destruct (issue_chunks cancelled (seqZ 0 n)) as [added stopped]. cbn zeta iota beta.
  set (completions := map (child pread fileSize cs) (filter (fun i => i ∈ added) order)).
  assert (Hok : forall x, In x completions -> completion_ok fileSize cs n x).
  { apply children_ok; [lia|exact Hb|exact Hread|]. intros i [_ Hi]%list_elem_of_filter.
    rewrite Hperm, elem_of_seqZ in Hi. lia. }
  assert (Hlen : Z.of_nat (length completions) <= n).
  { unfold completions. rewrite length_map. pose proof (length_filter (fun i => i ∈ added) order).
    rewrite (Permutation_length Hperm), length_seqZ in *. lia. }
  destruct (write_chunks_ok fileSize cs n p completions ltac:(lia) Hb m1 _ Hblock)
    as (m2 & Hm2 & Hlive & Hoth); [rewrite length_replicate; lia|exact Hok|].
  rewrite Hm2. cbn [mbind option_bind].
  assert (Hout : forall o : Failure + unit, exists r m', match o with
      | inl e => m ← Buffer.deinit (Buffer.mkReadBuffer p fileSize true) m2; Some (inl e, m)
      | inr _ => m ← Buffer.deinit (Buffer.disown (Buffer.mkReadBuffer p fileSize true)) m2;
                 Some (inr (DataNoCopy p fileSize), m)
      end = Some (r, m') /\
      match r with
      | inl _ => forall q, blocks m' !! q = blocks m !! q
      | inr d => exists p, d = DataNoCopy p fileSize /\ live p m' /\ ~ live p m /\
                   forall q, q <> p -> blocks m' !! q = blocks m !! q
      end).
  { intros [e|[]]; cbn [Buffer.deinit Buffer.disown Buffer.isOwned Buffer.pointer].
    - destruct (deallocate_live _ _ Hlive) as (m3 & Hm3 & Hgone & Hrest). rewrite Hm3.
      cbn [mbind option_bind]. eexists _, m3. split; [reflexivity|]. intros q.
      destruct (decide (q = p)) as [->|Hq]; [|now rewrite Hrest, Hoth, Hold].
      destruct (blocks m3 !! p) eqn:E3; [destruct Hgone; eexists; eauto|].
      destruct (blocks m !! p) eqn:E0; [destruct Hdead; eexists; eauto|done].
    - eexists _, m2. split; [reflexivity|]. exists p. splits; auto.
      intros q Hq. now rewrite Hoth, Hold. }
  destruct stopped; [apply (Hout (inl CancellationError))|].
  destruct (drain_total progress fileSize completions 0) as [o Ho]; [|lia|nia|].
  - intros i bytes Hi. destruct (Hok _ Hi) as [Hr Hlb]. cbn in Hlb. nia.
  - rewrite Ho. apply Hout.
Qed.


Lemma no_chunk_size total : totalChunks total (chunkSize 0) = None.
Proof.
  unfold totalChunks. destruct (int64 (total + chunkSize 0)) as [x|]; [|done]. cbn. now destruct (int64 (x - 1)).
Qed.

(** C27: the buffer of a parallel read is accounted for.  When the server announces a read
    size of zero the method stops the program (it divides by it); libnfs documents no lower
    bound.  With any other read size it ends without stopping the program, whatever the
    child tasks' results (errors, short reads), the order in which they end, the
    progress handler and the task's cancellation, provided that no read returns more bytes
    than were asked for.  Then, when the method throws, memory is as it was before the call;
    when it returns, the buffer alone was added, and the [Data] of the file's size owns it. *)
Theorem preallocated_accounts_buffer readMax fileSize progress cancelled pread order m :
  shouldUsePreallocatedBuffer fileSize = true -> 0 <= readMax -> mem_ok m ->
  (forall off len, 0 < len -> match pread off len with inr bytes => Z.of_nat (length bytes) <= len | inl _ => True end) ->
  (forall n, totalChunks fileSize (chunkSize readMax) = Some n -> order ≡ₚ seqZ 0 n) ->
  let result := contentsUsingPreallocatedBuffer (inr readMax) fileSize progress cancelled pread order m in
  (readMax = 0 -> result = None) /\
  (readMax <> 0 -> exists r m', result = Some (r, m') /\
    match r with
    | inl _ => forall q, blocks m' !! q = blocks m !! q
    | inr d => exists p, d = DataNoCopy p fileSize /\ live p m' /\ ~ live p m /\
                 forall q, q <> p -> blocks m' !! q = blocks m !! q
    end).
Proof.
  intros Hsmall Hmax Hm Hread Hperm result. split.
  { intros ->. unfold result, contentsUsingPreallocatedBuffer. now rewrite (no_chunk_size fileSize). }
  intros Hnz. apply (accounts_buffer readMax fileSize progress cancelled pread order m); auto. split; [exact Hsmall|lia].
Qed.

(** A server that times out at the start of the file and serves one byte elsewhere. *)
Definition poor_server (off n : Z) : POSIXError + list byte :=
  if off =? 0 then inl (posix_error_plain ETIMEDOUT) else inr [x61].

Lemma preallocated_accounts_buffer_witness :
  let result := contentsUsingPreallocatedBuffer (inr 2) 5 None (fun _ => false) poor_server [1; 2; 0] mem_empty in
  (2 = 0 -> result = None) /\
  (2 <> 0 -> exists r m', result = Some (r, m') /\
    match r with
    | inl _ => forall q, blocks m' !! q = blocks mem_empty !! q
    | inr d => exists p, d = DataNoCopy p 5 /\ live p m' /\ ~ live p mem_empty /\
                 forall q, q <> p -> blocks m' !! q = blocks mem_empty !! q
    end).
Proof.
  apply preallocated_accounts_buffer; [reflexivity|lia|apply mem_empty_ok| |].
  - intros off n Hn. unfold poor_server. destruct (off =? 0); [done|]. cbn [length]. lia.
  - intros n Hn. vm_compute in Hn. injection Hn as <-. change (seqZ 0 3) with [0; 1; 2].
    symmetry. apply (Permutation_middle [1; 2] [] 0).
Defined.

(** ** Whole files, chunk by chunk *)

Section Loops.
Context {S : Type}.
Variable read : Z -> S -> (POSIXError + list byte) * S.
Variable write : list byte -> S -> (POSIXError + Z) * S.
Variable fsync : S -> (POSIXError + unit) * S.

Lemma legacy_loop_total progress cancelled fileSize :
  (forall n s, 0 < n -> match fst (read n s) with inr bytes => Z.of_nat (length bytes) <= n | inl _ => True end) ->
  forall fuel k offset data s, 0 <= offset -> fileSize < 2 ^ 63 -> fileSize - offset <= Z.of_nat fuel ->
  is_Some (legacy_loop read fuel k progress cancelled fileSize offset data s).
Proof.
  intros Hread fuel. induction fuel as [|fuel IH]; intros k offset data s H0 Hmax Hf; cbn [legacy_loop].
  { rewrite (proj2 (Z.ltb_ge offset fileSize)) by lia. eauto. }
  destruct (offset <? fileSize) eqn:Hlt; [|eauto]. destruct (cancelled k); [eauto|].
  specialize (Hread (Z.min sequentialChunk (fileSize - offset)) s ltac:(unfold sequentialChunk; lia)).
  destruct (read _ s) as [[e|[|b bytes]] s']; [eauto|eauto|]. cbn [fst] in Hread.
  assert (Hlen : 0 < Z.of_nat (length (b :: bytes)) <= fileSize - offset) by (cbn [length] in *; lia).
  rewrite int64_some by lia.
  destruct (match progress with Some f => _ | None => _ end); [|eauto]. apply IH; lia.
Qed.

(** Reading chunk by chunk ends after at most as many iterations as the file
    has bytes, whatever the server answers, the progress handler says and the
    task's cancellation does, as long as a read returns at most what was asked. *)
Theorem legacy_read_terminates progress cancelled fileSize s :
  (forall n s, 0 < n -> match fst (read n s) with inr bytes => Z.of_nat (length bytes) <= n | inl _ => True end) ->
  0 <= fileSize < 2 ^ 63 ->
  is_Some (contentsUsingLegacyChunkedRead read progress cancelled fileSize s).
Proof. intros Hread H. apply legacy_loop_total; [exact Hread|lia|lia|lia]. Qed.

(** The state of a handle open on [file], with the position [pos]: a read returns
    the next bytes, at least one before the end of the file and none at it. *)
Definition reads_file (file : list byte) (at_pos : S -> nat -> Prop) : Prop :=
  forall s pos n, at_pos s pos -> 0 < n ->
    exists k s', read n s = (inr (take k (drop pos file)), s') /\ (Z.of_nat k <= n) /\
      (pos < length file -> 0 < k)%nat /\ at_pos s' (pos + k)%nat /\ (pos + k <= length file)%nat.

Lemma legacy_loop_reads file at_pos progress fileSize : reads_file file at_pos -> fileSize < 2 ^ 63 ->
  (forall r fs, match progress with Some f => f r fs | None => true end = true) ->
  forall fuel k offset s, at_pos s offset -> (offset <= length file)%nat ->
  Z.of_nat offset <= fileSize -> fileSize - Z.of_nat offset <= Z.of_nat fuel ->
  exists s', legacy_loop read fuel k progress (fun _ => false) fileSize (Z.of_nat offset) (take offset file) s
    = Some (inr (take (Z.to_nat fileSize) file), s').
Proof.
  intros Hread Hmax Hp fuel. induction fuel as [|fuel IH]; intros k offset s Hat Hle Hsz Hf; cbn [legacy_loop].
  { rewrite (proj2 (Z.ltb_ge _ fileSize)) by lia. exists s. repeat f_equal. lia. }
  destruct (Z.of_nat offset <? fileSize) eqn:Hlt; [|exists s; repeat f_equal; lia].
  destruct (Hread s offset (Z.min sequentialChunk (fileSize - Z.of_nat offset)) Hat)
    as (n & s' & Hr & Hn & Hpos & Hat' & Hle'); [unfold sequentialChunk; lia|].
  rewrite Hr. assert (Hlen : length (take n (drop offset file)) = n).
  { rewrite length_take, length_drop. lia. }
  destruct (take n (drop offset file)) as [|b bytes] eqn:Et.
  - cbn in Hlen. subst n. assert (offset = length file) as -> by lia.
    exists s'. rewrite !take_ge by lia. done.
  - rewrite Hlen, int64_some by lia. rewrite Hp, <- Et, take_take_drop, <- Nat2Z.inj_add.
    apply IH; [exact Hat'|exact Hle'|lia|cbn in Hlen; lia].
Qed.

(** Reading chunk by chunk from a server that may return short reads gives the
    caller the file's bytes up to the size it had when it was opened: all of
    them, in order, none twice. *)
Theorem legacy_reads_file file at_pos fileSize s : reads_file file at_pos -> at_pos s 0%nat ->
  0 <= fileSize < 2 ^ 63 ->
  exists s', contentsUsingLegacyChunkedRead read None (fun _ => false) fileSize s
    = Some (inr (take (Z.to_nat fileSize) file), s').
Proof.
  intros Hread Hat H. apply (legacy_loop_reads file at_pos None fileSize Hread ltac:(lia) ltac:(done) _ 0 0 s Hat); lia.
Qed.

(** A handle open for writing on a file that holds [content]: a write appends
    every byte it is given. *)
Definition accepts_all (content : S -> list byte) : Prop :=
  forall bytes s, exists s', write bytes s = (inr (Z.of_nat (length bytes)), s') /\
    content s' = content s ++ bytes.

Definition syncs (content : S -> list byte) : Prop :=
  forall s, exists s', fsync s = (inr tt, s') /\ content s' = content s.

Lemma write_loop_writes content progress data : accepts_all content -> syncs content ->
  (forall n, match progress with Some f => f n | None => true end = true) ->
  forall fuel k offset s, (offset <= length data <= offset + fuel)%nat ->
  exists s1 s', fsync s1 = (inr tt, s') /\ content s1 = content s ++ drop offset data /\
    write_loop write fsync fuel k progress (fun _ => false) data (Z.of_nat offset) s = Some (inr tt, s').
Proof.
  intros Hw Hs Hp fuel. induction fuel as [|fuel IH]; intros k offset s Ho; cbn [write_loop].
  { rewrite (proj2 (Z.ltb_ge _ _)) by lia. destruct (Hs s) as (s' & Hf & _). exists s, s'.
    rewrite Hf, drop_ge, app_nil_r by lia. auto. }
  destruct (Z.of_nat offset <? Z.of_nat (length data)) eqn:Hlt.
  - set (end_ := Z.min (Z.of_nat offset + sequentialChunk) (Z.of_nat (length data))).
    assert (He : Z.of_nat offset < end_ <= Z.of_nat (length data)) by (unfold end_, sequentialChunk; lia).
    rewrite Nat2Z.id. destruct (Hw (take (Z.to_nat (end_ - Z.of_nat offset)) (drop offset data)) s)
      as (s2 & -> & Hc2). rewrite Hp.
    destruct (IH (Datatypes.S k) (Z.to_nat end_) s2) as (s1 & s' & Hf & Hc & Hl); [lia|].
    rewrite Z2Nat.id in Hl by lia. exists s1, s'. split; [exact Hf|]. split; [|exact Hl].
    rewrite Hc, Hc2, <- app_assoc. f_equal.
    replace (Z.to_nat end_) with (offset + Z.to_nat (end_ - Z.of_nat offset))%nat by lia.
    rewrite <- drop_drop. apply take_drop.
  - destruct (Hs s) as (s' & Hf & _). exists s, s'. rewrite Hf, drop_ge, app_nil_r by lia. auto.
Qed.

(** C30: writing to a server that accepts every byte of each write ends in success.  The last
    call is a flush, made when the file holds what it held at first followed by exactly the
    data, in order; the file keeps this content.  This is for a task that is not cancelled and a
    progress handler, if there is one, that never asks to stop; the position starts at the
    end of what the file holds. *)
Theorem write_stores_data content progress data s : accepts_all content -> syncs content ->
  (forall n, match progress with Some f => f n | None => true end = true) ->
  exists s1 s', fsync s1 = (inr tt, s') /\ content s1 = content s ++ data /\ content s' = content s ++ data /\
    write_contents write fsync progress (fun _ => false) data s = Some (inr tt, s').
Proof.
  intros Hw Hs Hp. destruct (write_loop_writes content progress data Hw Hs Hp (length data) 0 0 s) as (s1 & s' & Hf & Hc & Hl); [lia|].
  exists s1, s'. change (drop 0 data) with data in Hc. splits; [exact Hf|exact Hc| |exact Hl].
  destruct (Hs s1) as (s2 & Hf2 & Hc2). congruence.
Qed.

End Loops.

(** C15: [contents(atPath:)] gives its caller exactly the bytes of the file, whatever
    its size: an empty file without reading, one of at most 64 MB through parallel reads of
    its slices, which may end in any order, a larger one chunk by chunk even when those reads
    are short.  It is assumed that the server announces a read size above zero, that the
    file can be opened and stays as it is, that no parallel read within the file fails or is
    short (the method does not look at their counts), that the task is not cancelled and that
    the progress handler, if there is one, never asks to stop. *)
Theorem contents_returns_file {S} (openFile : S -> (POSIXError + unit) * S)
    (fstat : S -> (POSIXError + Api.nfs_stat_64) * S) (read : Z -> S -> (POSIXError + list byte) * S)
    file at_pos readMax progress pread order m s s1 s2 st :
  openFile s = (inr tt, s1) -> fstat s1 = (inr st, s2) ->
  Api.nfs_size st = Z.of_nat (length file) -> Z.of_nat (length file) < 2 ^ 63 ->
  at_pos s2 0%nat -> reads_file read file at_pos -> 0 < readMax -> reads_slices file pread ->
  (forall n, totalChunks (Z.of_nat (length file)) (chunkSize readMax) = Some n -> order ≡ₚ seqZ 0 n) ->
  (forall r fs, match progress with Some f => f r fs | None => true end = true) ->
  exists d m' s', contents openFile fstat read (inr readMax) progress false (fun _ => false) (fun _ => false)
      pread order m s = Some (inr d, m', s') /\ data_cells d m' = Some (Some <$> file).
Proof.
  intros Ho Hf Hsize Hmax Hat Hread Hrm Hslices Horder Hp. unfold contents. rewrite Ho, Hf, Hsize, int64_some by lia.
  cbn [mbind option_bind]. destruct (0 <? Z.of_nat (length file)) eqn:Hpos; cbn [negb].
  - destruct (shouldUsePreallocatedBuffer _) eqn:Hs.
    + assert (Hfit : fits_buffer readMax (Z.of_nat (length file))) by (split; auto).
      destruct (totalChunks_ceil _ _ Hfit) as (n & Hn & Hn0 & _). specialize (Horder n Hn).
      assert (Hlen : n = Z.of_nat (length order)) by (rewrite (Permutation_length Horder), length_seqZ; lia).
      rewrite Hlen in Hn, Horder. destruct (preallocated_reads readMax file progress pread m order) as (p & m' & -> & Hd); auto.
      eexists _, _, _. split; [reflexivity|exact Hd].
    + destruct (legacy_loop_reads read file at_pos progress (Z.of_nat (length file)) Hread Hmax Hp
                  (Z.to_nat (Z.of_nat (length file))) 0 0 s2 Hat) as (s' & Hl); [lia|lia|lia|].
      unfold contentsUsingLegacyChunkedRead. change (Z.of_nat 0) with 0 in Hl.
      change (take 0 file) with (@nil byte) in Hl. rewrite Hl.
      eexists _, _, _. split; [reflexivity|]. cbn [data_cells].
      now rewrite Nat2Z.id, firstn_all.
  - assert (file = []) as -> by (apply length_zero_iff_nil; lia).
    eexists _, _, _. split; reflexivity.
Qed.

(** A handle that returns at most two bytes per read, and one that accepts all. *)
Definition demo_file : list byte := [x61; x62; x63; x64; x65].

Definition demo_read (n : Z) (pos : nat) : (POSIXError + list byte) * nat :=
  let k := Nat.min (Z.to_nat (Z.min n 2)) (length demo_file - pos) in
  (inr (take k (drop pos demo_file)), (pos + k)%nat).

Definition demo_stat (n : Z) : Api.nfs_stat_64 := Api.mk_nfs_stat_64 0 0 0 1 0 0 0 n 0 0 0 0 0 0 0 0 0.

Lemma demo_reads : reads_file demo_read demo_file (fun s pos => s = pos /\ (pos <= 5)%nat).
Proof.
  intros s pos n [-> Hp] Hn. eexists _, _. split; [reflexivity|].
  change (length demo_file) with 5%nat. splits; try lia.
Qed.

Lemma contents_returns_file_witness : exists d m' s',
  contents (fun _ => (inr tt, 0%nat)) (fun s => (inr (demo_stat 5), s)) demo_read (inr 2) (Some (fun _ _ => true)) false
    (fun _ => false) (fun _ => false) (slice_server demo_file) [2; 0; 1]
    mem_empty 0%nat = Some (inr d, m', s') /\ data_cells d m' = Some (Some <$> demo_file).
Proof.
  apply (contents_returns_file (fun _ => (inr tt, 0%nat)) (fun s => (inr (demo_stat 5), s)) demo_read demo_file
           (fun s pos => s = pos /\ (pos <= 5)%nat) 2 _ _ [2; 0; 1] mem_empty 0%nat 0%nat 0%nat (demo_stat 5));
    [reflexivity|reflexivity|reflexivity|cbn; lia|split; [done|lia]|exact demo_reads|lia|now intros off n _ _ _| |].
  - intros n Hn. vm_compute in Hn. injection Hn as <-. change (seqZ 0 3) with [0; 1; 2].
    etransitivity; [apply Permutation_swap|]. apply perm_skip, Permutation_swap.
  - reflexivity.
Defined.

Lemma legacy_read_terminates_witness :
  is_Some (contentsUsingLegacyChunkedRead demo_read None (fun _ => false) 5 0%nat).
Proof.
  apply legacy_read_terminates; [|lia]. intros n s Hn. cbn.
  rewrite length_take, length_drop. cbn. lia.
Defined.

Lemma legacy_reads_file_witness : exists s',
  contentsUsingLegacyChunkedRead demo_read None (fun _ => false) 5 0%nat
    = Some (inr (take (Z.to_nat 5) demo_file), s').
Proof.
  apply (legacy_reads_file demo_read demo_file (fun s pos => s = pos /\ (pos <= 5)%nat));
    [exact demo_reads|split; [reflexivity|lia]|lia].
Defined.

Definition demo_write (bytes : list byte) (s : list byte) : (POSIXError + Z) * list byte :=
  (inr (Z.of_nat (length bytes)), s ++ bytes).

Lemma write_stores_data_witness : exists s1 s',
  (inr tt : POSIXError + unit, s1) = (inr tt, s') /\ s1 = [x7a] ++ demo_file /\ s' = [x7a] ++ demo_file /\
  write_contents demo_write (fun s => (inr tt, s)) (Some (fun n => true)) (fun _ => false) demo_file [x7a] = Some (inr tt, s').
Proof.
  apply (write_stores_data demo_write (fun s => (inr tt, s)) (fun s => s)).
  - intros bytes s. eexists. split; reflexivity.
  - intros s. eexists. split; reflexivity.
  - reflexivity.
Defined.

(** A server may accept a part of a write; [write(data:toPath:)] drops the count and
    goes on with the next chunk: it reports success, and bytes are missing. *)
Definition stingy_write (bytes : list byte) (s : list byte) : (POSIXError + Z) * list byte :=
  (inr 3, s ++ take 3 bytes).

Example short_write_loses_data :
  write_contents stingy_write (fun s => (inr tt, s)) None (fun _ => false) demo_file []
    = Some (inr tt, [x61; x62; x63]).
Proof. vm_compute. reflexivity. Qed.

(** ** Connecting *)

(** The client connects when both identities fit 31 bits, and stops the program
    otherwise: a root directory that belongs to "nobody" (4294967294) does. *)
Theorem connect_ids_range stat :
  0 <= Api.nfs_uid stat < 2 ^ 64 -> 0 <= Api.nfs_gid stat < 2 ^ 64 ->
  connect_ids stat = Some (Api.nfs_uid stat, Api.nfs_gid stat) /\
    Api.nfs_uid stat < 2 ^ 31 /\ Api.nfs_gid stat < 2 ^ 31 \/
  connect_ids stat = None /\ (2 ^ 31 <= Api.nfs_uid stat \/ 2 ^ 31 <= Api.nfs_gid stat).
Proof.
  intros Hu Hg. unfold connect_ids, int32.
  destruct (decide (- 2 ^ 31 <= Api.nfs_uid stat < 2 ^ 31)); cbn [mbind option_bind];
    [|right; split; [done|lia]].
  destruct (decide (- 2 ^ 31 <= Api.nfs_gid stat < 2 ^ 31)); cbn [mbind option_bind];
    [left|right]; (split; [done|lia]).
Qed.

Lemma connect_ids_range_witness :
  let nobody := Api.mk_nfs_stat_64 0 0 0 0 4294967294 0 0 0 0 0 0 0 0 0 0 0 0 in
  connect_ids nobody = Some (4294967294, 0) /\ 4294967294 < 2 ^ 31 /\ 0 < 2 ^ 31 \/
  connect_ids nobody = None /\ (2 ^ 31 <= 4294967294 \/ 2 ^ 31 <= 0).
Proof. apply (connect_ids_range (Api.mk_nfs_stat_64 0 0 0 0 4294967294 0 0 0 0 0 0 0 0 0 0 0 0)); cbn; lia. Defined.

End Client.
