(* ===== verification/Extensions.v ===== *)
(** * Bytes, attributes and settings

    The pure helpers around the client: integers in [Data] and path trimming
    (Sources/NFSKit/Extensions.swift), the attributes of files and directory
    entries (buildAttributes of NFSClient.swift, readdirAll of
    NFSEventLoop.swift), security modes (NFSSecurity.swift) and statistics
    (NFSStats.swift, [stats] of NFSEventLoop.swift). *)

From Stdlib Require Import Strings.Byte Strings.Ascii.
From stdpp Require Import base list strings numbers.
From S2P Require Import Prelude Posix CType LibnfsApi RpcApi.

Open Scope string_scope.
Open Scope list_scope.
Open Scope Z_scope.

Module Ext.

(** ** Integers in [Data]

    A [FixedWidthInteger] type: its size in bytes and whether it is signed. *)

Record IntType := mkIntType { int_size : nat; int_signed : bool }.

Definition bits (t : IntType) : Z := 8 * Z.of_nat (int_size t).

Definition int_range (t : IntType) (v : Z) : Prop :=
  if int_signed t then - 2 ^ (bits t - 1) <= v < 2 ^ (bits t - 1) else 0 <= v < 2 ^ bits t.

Definition byte_of (v : Z) : byte :=
  match Byte.of_N (Z.to_N (v mod 256)) with Some b => b | None => x00 end.

Definition byte_value (b : byte) : Z := Z.of_N (Byte.to_N b).

(** The low bytes of a two's complement value, least significant first. *)
Fixpoint to_bytes (n : nat) (v : Z) : list byte :=
  match n with
  | O => []
  | S n => byte_of v :: to_bytes n (v / 256)
  end.

Fixpoint from_bytes (l : list byte) : Z :=
  match l with [] => 0 | b :: l => byte_value b + 256 * from_bytes l end.

(** [data.append(value:)]. *)
Definition append_value (t : IntType) (v : Z) (data : list byte) : list byte :=
  data ++ to_bytes (int_size t) v.

(** [T(littleEndian:)] of loaded bytes. *)
Definition from_little_endian (t : IntType) (l : list byte) : Z :=
  let u := from_bytes l in
  if int_signed t && (2 ^ (bits t - 1) <=? u) then u - 2 ^ bits t else u.

(** [data.scanValue(offset:as:)], for bytes stored at address [base]: nil past the
    end; [load] stops the program ([None]) at a negative or misaligned offset. *)
Definition scanValue (t : IntType) (base offset : Z) (data : list byte) : option (option Z) :=
  let size := Z.of_nat (int_size t) in
  if Z.of_nat (length data) <? offset + size then Some None
  else if (offset <? 0) || negb ((base + offset) mod size =? 0) then None
  else Some (Some (from_little_endian t (take (int_size t) (drop (Z.to_nat offset) data)))).

(** [data.append(value: uuid)]: the first three fields of a Microsoft GUID are
    little-endian. *)
Definition append_uuid (uuid data : list byte) : option (list byte) :=
  match uuid with
  | [b0; b1; b2; b3; b4; b5; b6; b7; b8; b9; b10; b11; b12; b13; b14; b15] =>
      Some (data ++ [b3; b2; b1; b0; b5; b4; b7; b6; b8; b9; b10; b11; b12; b13; b14; b15])
  | _ => None
  end.

(** ** Paths *)

Definition is_separator (c : ascii) : bool :=
  Ascii.eqb c "/"%char || Ascii.eqb c "\"%char.

Fixpoint trim_left (l : list ascii) : list ascii :=
  match l with
  | c :: l' => if is_separator c then trim_left l' else l
  | [] => []
  end.

(** [String.canonical], on the characters of the string. *)
Definition canonical (l : list ascii) : list ascii := rev (trim_left (rev (trim_left l))).

(** ** Attributes *)

Inductive FileResourceType := regular | directory | symbolicLink | unknown.

(** The entries of the attribute dictionary; a date is its seconds and nanoseconds. *)
Record Attributes := mkAttributes {
  nameKey : string;
  pathKey : string;
  fileSizeKey : Z;
  linkCountKey : Z;
  fileResourceTypeKey : FileResourceType;
  isRegularFileKey : bool;
  isDirectoryKey : bool;
  isSymbolicLinkKey : bool;
  contentModificationDateKey : Z * Z;
  contentAccessDateKey : Z * Z;
  creationDateKey : Z * Z
}.

Definition S_IFMT : Z := 0xf000.
Definition S_IFREG : Z := 0x8000.
Definition S_IFDIR : Z := 0x4000.
Definition S_IFLNK : Z := 0xa000.

(** [Int64(x)] and [Int(x)] of an unsigned 64-bit value. *)
Definition int_of (x : Z) : option Z := if x <? 2 ^ 63 then Some x else None.

Definition kind_of_mode (nfs_mode : Z) : FileResourceType * bool * bool * bool :=
  let mode := Z.land nfs_mode S_IFMT in
  if mode =? S_IFREG then (regular, true, false, false)
  else if mode =? S_IFDIR then (directory, false, true, false)
  else if mode =? S_IFLNK then (symbolicLink, false, false, true)
  else (unknown, false, false, false).

(** [buildAttributes]; [name] is the last path component. *)
Definition buildAttributes (lastPathComponent : string -> string) (stat : Api.nfs_stat_64)
    (path : string) : option Attributes :=
  size ← int_of (Api.nfs_size stat);
  let '(kind, reg, dir, link) := kind_of_mode (Api.nfs_mode stat) in
  ms ← int_of (Api.nfs_mtime stat); mn ← int_of (Api.nfs_mtime_nsec stat);
  as_ ← int_of (Api.nfs_atime stat); an ← int_of (Api.nfs_atime_nsec stat);
  cs ← int_of (Api.nfs_ctime stat); cn ← int_of (Api.nfs_ctime_nsec stat);
  Some (mkAttributes (lastPathComponent path) path size (Api.nfs_nlink stat) kind reg dir link
          (ms, mn) (as_, an) (cs, cn)).

(** NFSv3 file types. *)
Definition NF3REG : Z := 1.
Definition NF3DIR : Z := 2.
Definition NF3LNK : Z := 5.

Definition kind_of_type (type : Z) : FileResourceType * bool * bool * bool :=
  if type =? NF3REG then (regular, true, false, false)
  else if type =? NF3DIR then (directory, false, true, false)
  else if type =? NF3LNK then (symbolicLink, false, false, true)
  else (unknown, false, false, false).

(** [path.hasSuffix("/") ? path + name : path + "/" + name]. *)
Definition child_path (path name : string) : string :=
  match rev (String.list_ascii_of_string path) with
  | c :: _ => if Ascii.eqb c "/"%char then (path +:+ name)%string else (path +:+ "/" +:+ name)%string
  | [] => (path +:+ "/" +:+ name)%string
  end.

(** The dictionary that readdirAll builds for an entry called [name]. *)
Definition entry_attributes (path name : string) (ent : Api.nfsdirent) : option Attributes :=
  size ← int_of (Api.size ent);
  let '(kind, reg, dir, link) := kind_of_type (Api.type ent) in
  let date t := (Api.tv_sec t, Api.tv_usec t * 1000) in
  Some (mkAttributes name (child_path path name) size (Api.nlink ent) kind reg dir link
          (date (Api.mtime ent)) (date (Api.atime ent)) (date (Api.ctime ent))).

(** ** Security modes and statistics *)

Inductive NFSSecurity := system | kerberos5 | kerberos5i | kerberos5p.

Definition rpcSecValue (s : NFSSecurity) : Api.rpc_sec :=
  match s with
  | system => Api.RPC_SEC_UNDEFINED
  | kerberos5 => Api.RPC_SEC_KRB5
  | kerberos5i => Api.RPC_SEC_KRB5I
  | kerberos5p => Api.RPC_SEC_KRB5P
  end.

Record NFSStats := mkStats {
  requestsSent : Z;
  responsesReceived : Z;
  timedOut : Z;
  timedOutInOutqueue : Z;
  majorTimedOut : Z;
  retransmitted : Z;
  reconnects : Z
}.

(** [stats()]: [context.unwrap()], then the snapshot of the transport. *)
Definition stats (context : option Z) (rpc_get_stats : Z -> Rpc.rpc_stats) : POSIXError + NFSStats :=
  match unwrap context with
  | inl e => inl e
  | inr ctx =>
      let c := rpc_get_stats ctx in
      inr (mkStats (Rpc.num_req_sent c) (Rpc.num_resp_rcvd c) (Rpc.num_timedout c)
             (Rpc.num_timedout_in_outqueue c) (Rpc.num_major_timedout c)
             (Rpc.num_retransmitted c) (Rpc.num_reconnects c))
  end.

(** [setSecurity]: refused while there is a socket; otherwise the value handed to
    [nfs_set_security]. *)
Definition setSecurity (context : option Z) (nfs_get_fd : Z -> Z) (s : NFSSecurity)
    : POSIXError + Z :=
  match unwrap context with
  | inl e => inl e
  | inr ctx =>
      if nfs_get_fd ctx <? 0 then inr (Api.rpc_sec_value (rpcSecValue s))
      else inl (posix_error EISCONN "Cannot change security mode while connected")
  end.

(** ** Lemmas *)

Lemma byte_value_of v : byte_value (byte_of v) = v mod 256.
Proof.
  pose proof (Z.mod_pos_bound v 256 ltac:(lia)) as H. unfold byte_of, byte_value.
  destruct (Byte.of_N (Z.to_N (v mod 256))) as [b|] eqn:E.
  - apply Byte.to_of_N in E. rewrite E. lia.
  - apply Byte.of_N_None_iff in E. lia.
Qed.

Lemma length_to_bytes n : forall v, length (to_bytes n v) = n.
Proof. induction n as [|n IH]; intros v; cbn; [done|now rewrite IH]. Qed.

Lemma from_to_bytes n : forall v, from_bytes (to_bytes n v) = v mod 2 ^ (8 * Z.of_nat n).
Proof.
  induction n as [|n IH]; intros v; cbn [to_bytes from_bytes].
  { now rewrite Z.mod_1_r. }
  rewrite byte_value_of, IH.
  replace (8 * Z.of_nat (Datatypes.S n)) with (8 + 8 * Z.of_nat n) by lia.
  rewrite pow2_split by lia. change (2 ^ 8) with 256. pose proof (pow2_pos (8 * Z.of_nat n) ltac:(lia)).
  rewrite Z.rem_mul_r by lia. lia.
Qed.

Lemma from_little_endian_to_bytes t v : (0 < int_size t)%nat -> int_range t v ->
  from_little_endian t (to_bytes (int_size t) v) = v.
Proof.
  intros Hs Hv. unfold from_little_endian. rewrite from_to_bytes. fold (bits t).
  assert (Hb : 1 <= bits t) by (unfold bits; lia).
  pose proof (pow2_pos (bits t - 1) ltac:(lia)).
  assert (Hp : 2 ^ bits t = 2 * 2 ^ (bits t - 1)).
  { replace (bits t) with (1 + (bits t - 1)) at 1 by lia. now rewrite pow2_split by lia. }
  unfold int_range in Hv. rewrite Hp in *. destruct (int_signed t); cbn [andb].
  - destruct (Z.neg_nonneg_cases v) as [Hn|Hn].
    + replace (v mod (2 * 2 ^ (bits t - 1))) with (v + 2 * 2 ^ (bits t - 1))
        by (apply (Z.mod_unique_pos _ _ (-1)); lia).
      rewrite (proj2 (Z.leb_le _ _)) by lia. lia.
    + rewrite Z.mod_small by lia. now rewrite (proj2 (Z.leb_gt _ _)) by lia.
  - now rewrite Z.mod_small by lia.
Qed.

(** C36: an integer of any width and signedness that is appended to a [Data] is read
    back from where it was put, whatever follows it, provided the place is aligned
    for the type in memory; at a misaligned place the program stops. *)
Theorem append_scan_roundtrip t v base data rest : (0 < int_size t)%nat -> int_range t v ->
  scanValue t base (Z.of_nat (length data)) (append_value t v data ++ rest) =
    if (base + Z.of_nat (length data)) mod Z.of_nat (int_size t) =? 0 then Some (Some v) else None.
Proof.
  intros Hs Hv. unfold scanValue, append_value.
  rewrite (proj2 (Z.ltb_ge _ _)) by (rewrite !length_app, length_to_bytes; lia).
  rewrite (proj2 (Z.ltb_ge (Z.of_nat (length data)) 0)) by lia. cbn [orb].
  destruct (_ mod _ =? 0); cbn [negb]; [|done]. do 2 f_equal.
  rewrite Nat2Z.id, <- app_assoc, drop_app_length.
  rewrite take_app_length' by (symmetry; apply length_to_bytes). now apply from_little_endian_to_bytes.
Qed.

Lemma append_scan_roundtrip_witness :
  scanValue (mkIntType 4 true) 16 4 (append_value (mkIntType 4 true) (-2) [x00; x01; x02; x03] ++ [xff])
    = if (16 + 4) mod 4 =? 0 then Some (Some (-2)) else None.
Proof.
  apply (append_scan_roundtrip (mkIntType 4 true) (-2) 16 [x00; x01; x02; x03] [xff]); [cbn; lia|].
  unfold int_range, bits. cbn. lia.
Defined.

(** The kind of a file and its three flags always agree: a flag is set for its
    own kind only, for a path's attributes and for a directory entry's, and a
    regular file, directory or link is shown alike by both. *)
Theorem kinds_consistent :
  (forall mode k r d l, kind_of_mode mode = (k, r, d, l) ->
     (r = true <-> k = regular) /\ (d = true <-> k = directory) /\ (l = true <-> k = symbolicLink)) /\
  (forall ty k r d l, kind_of_type ty = (k, r, d, l) ->
     (r = true <-> k = regular) /\ (d = true <-> k = directory) /\ (l = true <-> k = symbolicLink)) /\
  kind_of_type NF3REG = kind_of_mode S_IFREG /\ kind_of_type NF3DIR = kind_of_mode S_IFDIR /\
  kind_of_type NF3LNK = kind_of_mode S_IFLNK.
Proof.
  assert (Hflags : forall x k r d l, In x [(regular, true, false, false); (directory, false, true, false);
      (symbolicLink, false, false, true); (unknown, false, false, false)] -> x = (k, r, d, l) ->
     (r = true <-> k = regular) /\ (d = true <-> k = directory) /\ (l = true <-> k = symbolicLink)).
  { intros x k r d l Hx ->. cbn in Hx. intuition; try congruence. }
  splits; try reflexivity; intros x k r d l; apply Hflags; unfold kind_of_mode, kind_of_type; cbv zeta;
    repeat case_match; cbn; tauto.
Qed.

Lemma trim_left_idempotent l : trim_left (trim_left l) = trim_left l.
Proof. induction l as [|c l IH]; cbn; [done|]. destruct (is_separator c) eqn:E; [exact IH|]. cbn. now rewrite E. Qed.

(** The bytes of a GUID swap back: appending the appended bytes gives the first. *)
Lemma append_uuid_involutive uuid l : append_uuid uuid [] = Some l -> append_uuid l [] = Some uuid.
Proof.
  do 16 (destruct uuid as [|? uuid]; [discriminate|]). destruct uuid; [|discriminate].
  intros [= <-]. reflexivity.
Qed.

(** Distinct modes are distinct to libnfs. *)
Lemma rpcSecValue_injective a b :
  Api.rpc_sec_value (rpcSecValue a) = Api.rpc_sec_value (rpcSecValue b) -> a = b.
Proof. destruct a, b; easy. Qed.

End Ext.
