(* ===== verification/ClientApi.v ===== *)
(** * The client's methods over the event loop

    The methods of [NFSClient] (Sources/NFSKit/NFSClient.swift) that make requests to
    the loop and look at the answers.  A method is a [prog]: the requests it makes, in
    order, each with what follows for each outcome.  [cstep] runs a method while
    the loop handles any other events: a request becomes a call of the loop, and the
    method goes on when its continuation has an outcome. *)

From Stdlib Require Import Strings.Byte.
From stdpp Require Import base gmap strings list.
From S2P Require Import Prelude Posix Memory CType LibnfsApi.
From S2P Require Import StateMonad DispatchSource OperationType EventLoopState EventLoop.
From S2P Require Import EventLoopInv EventLoopSafe EventLoopProps EventLoopRuns HandleLife FileHandle Extensions.
Import HandleLife FileHandle.

Open Scope Z_scope.
Open Scope monad_scope.

Module ClientApi.

(** What is left of a method.  [Stop]: the program stops. *)
Inductive prog (A : Type) :=
  | Done (r : POSIXError + A)
  | Stop
  | Ask (r : Request) (k : Outcome -> prog A).
Arguments Done {A} r.
Arguments Stop {A}.
Arguments Ask {A} r k.

(** [try await eventLoop.request], then [k] on its value. *)
Definition await {A} (r : Request) (k : Value -> prog A) : prog A :=
  Ask r (fun o => match o with Threw e => Done (inl e) | Returned v => k v end).

Definition done_void (v : Value) : prog unit := match v with VVoid => Done (inr tt) | _ => Stop end.

Definition disconnect : prog unit := await (RPath Unmount) done_void.

Definition listExports (host : option string) : prog (list string) :=
  await (RGetexports (default "localhost"%string host))
    (fun v => match v with VStrings l => Done (inr l) | _ => Stop end).

(** [eventLoop.openFile] opens and then registers the pointer; its value is the
    number that the token gets. *)
Definition openFile (path : string) (flags : Z) : prog NFSFileHandle :=
  await (RPath (OpenFile path flags)) (fun v =>
  match v with
  | VPointer t p =>
      await (RRegister (CPointer t p)) (fun v =>
        match v with VUInt64 handleID => Done (inr (mkFileHandle handleID)) | _ => Stop end)
  | _ => Stop
  end).

(** [readdirAll] turns the entries that the loop read into dictionaries. *)
Definition entries_attributes (path : string) (l : list Api.nfsdirent) : option (list Ext.Attributes) :=
  mapM (fun ent => name ← Api.name ent; Ext.entry_attributes path name ent) l.

Definition contentsOfDirectory (path : string) : prog (list Ext.Attributes) :=
  await (RPath (Opendir path)) (fun v =>
  match v with
  | VPointer t p =>
      await (RReaddir (CPointer t p)) (fun v =>
        match v with
        | VEntries l => match entries_attributes path l with Some items => Done (inr items) | None => Stop end
        | _ => Stop
        end)
  | _ => Stop
  end).

Definition createDirectory (path : string) : prog unit := await (RPath (Mkdir path)) done_void.

Definition removeDirectory (path : string) : prog unit := await (RPath (Rmdir path)) done_void.

Definition attributesOfItem (lastPathComponent : string -> string) (path : string) : prog Ext.Attributes :=
  await (RPath (Stat path)) (fun v =>
  match v with
  | VStat st => match Ext.buildAttributes lastPathComponent st path with
                | Some a => Done (inr a)
                | None => Stop
                end
  | _ => Stop
  end).

Definition removeFile (path : string) : prog unit := await (RPath (Unlink path)) done_void.

Definition moveItem (path toPath : string) : prog unit := await (RPath (Rename path toPath)) done_void.

Definition truncateFile (path : string) (atOffset : Z) : prog unit :=
  await (RPath (Truncate path atOffset)) done_void.

Definition readlink (path : string) : prog string :=
  await (RPath (Readlink path)) (fun v => match v with VString s => Done (inr s) | _ => Stop end).

(** ** Running a method *)

(** A method that runs, or waits for the outcome of its call [k]. *)
Inductive client (A : Type) :=
  | Running (p : prog A)
  | Waiting (k : Z) (f : Outcome -> prog A).
Arguments Running {A} p.
Arguments Waiting {A} k f.

Section Run.
Context `{E : Env} {A : Type}.

(** The events in the order in which the loop handled them, those of the method
    included. *)
Inductive csteps : client A * World -> list Event -> client A * World -> Prop :=
  | cs_refl c : csteps c [] c
  | cs_ask c es r f w w' : csteps c es (Running (Ask r f), w) -> event_ok (Call r) w ->
      handle (Call r) w = Some (tt, w') -> csteps c (es ++ [Call r]) (Waiting (nextCall (reg w)) f, w')
  | cs_resume c es k f o w : csteps c es (Waiting k f, w) -> outcomes (reg w) !! k = Some o ->
      csteps c es (Running (f o), w)
  | cs_event c es d e w w' : csteps c es (d, w) -> event_ok e w -> handle e w = Some (tt, w') ->
      csteps c (es ++ [e]) (d, w').

Lemma csteps_reachable c es d : reachable c.2 -> csteps c es d -> reachable d.2.
Proof. intros Hc H. revert Hc. induction H; cbn [snd] in *; intros Hc; [exact Hc|..]; eauto using reach_step. Qed.

End Run.

(** ** Opening a file *)

Section Open.
Context `{E : Env} (HEX : exports_listed).

Lemma reachable_trace w : reachable w -> exists es, trace es w.
Proof.
  induction 1 as [t c w H|w e w' _ [es IH] _ Hh]; [exists []; now apply (trace_init t c)|].
  exists (es ++ [e]). now apply (trace_step es w).
Qed.

Lemma outcome_stays e w w' k o : reachable w -> event_ok e w -> handle e w = Some (tt, w') ->
  outcomes (reg w) !! k = Some o -> outcomes (reg w') !! k = Some o.
Proof.
  intros Hr He Hh Ho.
  destruct (wp_final _ _ _ _ Hh (handle_spec HEX e w (reachable_idle HEX w Hr) He)) as [_ [Hsub _]].
  eapply lookup_weaken; eauto.
Qed.

(** The answer to a registration. *)
Lemma register_answer p w w' : handle (Call (RRegister p)) w = Some (tt, w') ->
  outcomes (reg w') !! nextCall (reg w) = Some (Returned (VUInt64 (nextHandleID (handles w)))).
Proof.
  intros Hh. cbn [handle perform] in Hh. apply run_bind in Hh as (k & w1 & [= <- <-] & Hr).
  unfold registerHandle, bound_to in Hr. destruct p as [|?|t x]; try discriminate.
  destruct (decide (Tstruct "nfsfh" = t)) as [<-|]; [|discriminate].
  apply run_bind in Hr as (? & ? & [= <- <-] & Hr). apply run_bind in Hr as (id & ? & [= <- <-] & Hr).
  destruct (_ <? _); [|discriminate].
  apply run_bind in Hr as (? & ? & [= _ <-] & Hr). apply run_bind in Hr as (? & ? & [= _ <-] & Hr).
  unfold cont_resume in Hr. apply run_bind in Hr as (s & ? & [= <- <-] & Hr).
  destruct (_ !! _); [discriminate|]. injection Hr as <-. cbn. now rewrite lookup_insert_eq.
Qed.

(** Where [openFile] can be, from the start at [w0] on.  Once the pointer [p] is
    registered its token is good until an event ends it. *)
Definition token_good (es : list Event) (h : NFSFileHandle) (p : Z) (w : World) : Prop :=
  Forall (fun e => ~ ends (handleID h) e) es -> handleRegistry (handles w) !! handleID h = Some p.

(** libnfs answered a call with the pointer [p]. *)
Definition delivered (p : Z) (w : World) : Prop :=
  exists k t, outcomes (reg w) !! k = Some (Returned (VPointer t p)).

Definition opened_token (v : Value) : prog NFSFileHandle :=
  match v with VUInt64 id => Done (inr (mkFileHandle id)) | _ => Stop end.

Definition after_register (o : Outcome) : prog NFSFileHandle :=
  match o with Threw e => Done (inl e) | Returned v => opened_token v end.

Definition after_open (o : Outcome) : prog NFSFileHandle :=
  match o with
  | Threw e => Done (inl e)
  | Returned (VPointer t p) => Ask (RRegister (CPointer t p)) after_register
  | Returned _ => Stop
  end.

Inductive open_phase (path : string) (flags : Z) (es : list Event) (w : World) : client NFSFileHandle -> Prop :=
  | op_start : open_phase path flags es w (Running (openFile path flags))
  | op_open k : open_phase path flags es w (Waiting k after_open)
  | op_pointer t p : delivered p w -> open_phase path flags es w (Running (Ask (RRegister (CPointer t p)) after_register))
  | op_register k h p : outcomes (reg w) !! k = Some (Returned (VUInt64 (handleID h))) ->
      delivered p w -> token_good es h p w -> open_phase path flags es w (Waiting k after_register)
  | op_token h p : delivered p w -> token_good es h p w -> open_phase path flags es w (Running (Done (inr h)))
  | op_error e : open_phase path flags es w (Running (Done (inl e)))
  | op_stop : open_phase path flags es w (Running Stop).

Lemma token_good_event es h p e w w' : reachable w -> handle e w = Some (tt, w') ->
  token_good es h p w -> token_good (es ++ [e]) h p w'.
Proof.
  intros Hr Hh Ht [Hes [He _]%Forall_cons]%Forall_app. destruct (reachable_trace w Hr) as [es0 Htr].
  exact (step_keeps _ e _ _ _ (trace_numbered es0 w Htr) (Ht Hes) He (event_table e w w' (trace_plain es0 w Htr) Hh)).
Qed.

Lemma token_good_new es w w' t p : reachable w -> handle (Call (RRegister (CPointer t p))) w = Some (tt, w') ->
  token_good es (mkFileHandle (nextHandleID (handles w))) p w'.
Proof.
  intros Hr Hh _. destruct (reachable_trace w Hr) as [es0 Htr].
  pose proof (event_table _ w w' (trace_plain es0 w Htr) Hh) as Hs. inversion Hs; subst; [done|].
  cbn. now rewrite lookup_insert_eq.
Qed.

Lemma delivered_stays p e w w' : reachable w -> event_ok e w -> handle e w = Some (tt, w') ->
  delivered p w -> delivered p w'.
Proof. intros Hr He Hh (k & t & Ho). exists k, t. exact (outcome_stays e w w' k _ Hr He Hh Ho). Qed.

Lemma open_phases path flags w0 : reachable w0 -> forall es d w,
  csteps (Running (openFile path flags), w0) es (d, w) -> open_phase path flags es w d.
Proof.
  intros H0 es d w H. remember (Running (openFile path flags), w0) as c0 eqn:Ec.
  remember (d, w) as c1 eqn:Ed. revert d w Ed.
  induction H as [c|c es r f w1 w2 Hs IH Hok Hh|c es k f o w1 Hs IH Ho|c es d1 e w1 w2 Hs IH Hok Hh];
    intros d w Ed; subst.
  - injection Ed as <- <-. constructor.
  - injection Ed as <- <-. pose proof (csteps_reachable (_, w0) _ (_, w1) H0 Hs) as Hr1. cbn in Hr1.
    pose proof (IH eq_refl _ _ eq_refl) as Hp. inversion Hp; subst; [constructor|].
    apply (op_register _ _ _ _ _ (mkFileHandle (nextHandleID (handles w1))) p);
      [exact (register_answer _ _ _ Hh)|eapply delivered_stays; eassumption|].
    eapply token_good_new; eassumption.
  - injection Ed as <- <-. pose proof (IH eq_refl _ _ eq_refl) as Hp. inversion Hp; subst.
    + destruct o as [v|e]; [destruct v|]; constructor. now exists k, t.
    + assert (Ho' : Some o = Some (Returned (VUInt64 (handleID h)))) by (etransitivity; [symmetry|]; eassumption).
      injection Ho' as ->. destruct h. cbn. eapply op_token; eassumption.
  - injection Ed as <- <-. pose proof (csteps_reachable (_, w0) _ (_, w1) H0 Hs) as Hr1. cbn in Hr1.
    pose proof (IH eq_refl _ _ eq_refl) as Hp. inversion Hp; subst; try constructor.
    + eapply delivered_stays; eassumption.
    + eapply op_register; [eapply outcome_stays; eassumption|eapply delivered_stays; eassumption|].
      eapply token_good_event; eassumption.
    + eapply op_token; [eapply delivered_stays; eassumption|]. eapply token_good_event; eassumption.
Qed.

(** C18: when [openFile] returns a file handle, it stands for a pointer that libnfs
    answered with, and from then on, as long as nobody closes or drops it or shuts the loop down,
    each method of the handle reaches libnfs, if it is still connected; whatever other
    clients do in the meantime. *)
Theorem opened_file_usable path flags w0 es h w : reachable w0 ->
  csteps (Running (openFile path flags), w0) es (Running (Done (inr h)), w) ->
  Forall (fun e => ~ ends (handleID h) e) es ->
  exists p, delivered p w /\ handleRegistry (handles w) !! handleID h = Some p /\
  forall r P, method h p r P -> event_ok (Call r) w -> context w <> None ->
  exists w' i c, handle (Call r) w = Some (tt, w') /\ P c /\ issued (lib w') = issued (lib w) ++ [(i, c)].
Proof.
  intros H0 Hs He. pose proof (csteps_reachable (_, w0) _ (_, w) H0 Hs) as Hr. cbn in Hr.
  pose proof (open_phases path flags w0 H0 es _ w Hs) as Hp. inversion Hp; subst.
  exists p. rename H2 into Ht. specialize (Ht He). split; [assumption|]. split; [exact Ht|]. intros r P Hm Hok Hc.
  pose proof (handle_spec HEX (Call r) w (reachable_idle HEX w Hr) Hok) as Hw.
  apply wp_run in Hw as ([] & w' & Hh & _). exists w'.
  pose proof Hh as Hh'. cbn [handle] in Hh'. apply run_bind in Hh' as (k & w1 & [= _ <-] & Hh').
  destruct (perform_calls h p r P k (upd_reg (upd_nextCall (fun n => n + 1)) w) w' Hm Ht Hc Hh') as (i & c & HP & Hi).
  exists i, c. auto.
Qed.

End Open.

(** ** Opening at work

    libnfs answers the open with the pointer 77. *)

Definition open_env : Env := replying_env 1 0 (CPointer (Tstruct "nfsfh") 77) [].
Definition open_asked : World := @next open_env (Call (RPath (OpenFile "/f" 0))) start.
Definition open_answered : World := @next open_env SocketReady open_asked.
Definition open_registered : World := @next open_env (Call (RRegister (CPointer (Tstruct "nfsfh") 77))) open_answered.

Lemma opening : @csteps open_env NFSFileHandle (Running (openFile "/f" 0), start)
  [Call (RPath (OpenFile "/f" 0)); SocketReady; Call (RRegister (CPointer (Tstruct "nfsfh") 77))]
  (Running (Done (inr (mkFileHandle 1))), open_registered).
Proof.
  assert (S1 : @csteps open_env _ (Running (openFile "/f" 0), start) [Call (RPath (OpenFile "/f" 0))]
                 (Waiting 0 after_open, open_asked)).
  { apply (cs_ask _ [] _ _ start); [constructor|apply event_okb_ok|]; vm_compute; reflexivity. }
  assert (S2 : @csteps open_env _ (Running (openFile "/f" 0), start) [Call (RPath (OpenFile "/f" 0)); SocketReady]
                 (Waiting 0 after_open, open_answered)).
  { apply (cs_event _ [_] _ _ open_asked); [exact S1|exact I|vm_compute; reflexivity]. }
  apply (cs_resume _ _ _ _ (Returned (VPointer (Tstruct "nfsfh") 77))) in S2; [|vm_compute; reflexivity].
  apply (cs_resume _ _ 1 after_register (Returned (VUInt64 1))); [|vm_compute; reflexivity].
  apply (cs_ask _ [_; _] _ _ open_answered); [exact S2|apply event_okb_ok|]; vm_compute; reflexivity.
Qed.

Lemma opened_file_usable_witness : exists w' i c,
  @handle open_env (Call (pread (mkFileHandle 1) 4096 16)) open_registered = Some (tt, w') /\
  (exists b, c = CPread 77 b 16 4096) /\ issued (lib w') = issued (lib open_registered) ++ [(i, c)].
Proof.
  destruct (@opened_file_usable open_env (demo_exports _ _ _ _) "/f" 0 start _ (mkFileHandle 1) open_registered
              start_reachable opening) as (p & _ & Hp & H).
  - repeat constructor; intros [].
  - assert (p = 77) as -> by (revert Hp; vm_compute; congruence).
    apply (H (pread (mkFileHandle 1) 4096 16)); [constructor|apply event_okb_ok; vm_compute; reflexivity|].
    vm_compute. discriminate.
Defined.

End ClientApi.
