(* ===== verification/ClientRuns.v ===== *)
(** * What the client's methods return

    The methods of NFSClient, run by [csteps] over the event loop while other callers
    use it, composed with the origin of answers: the result of a method is what
    follows from answers that libnfs gave to the commands made for the method's own requests. *)

From Stdlib Require Import Strings.Byte.
From stdpp Require Import base gmap strings list.
From S2P Require Import Prelude Posix Memory CType LibnfsApi.
From S2P Require Import StateMonad DispatchSource OperationType EventLoopState EventLoop.
From S2P Require Import EventLoopInv EventLoopSafe EventLoopProps EventLoopRuns HandleLife Provenance Extensions ClientApi.
Import ClientApi Provenance.

Open Scope Z_scope.
Open Scope monad_scope.

Module ClientRuns.

(** ** The answers that a method saw

    [follows G p q]: the method [p] comes to [q] when each of its requests is answered
    with an outcome that [G] allows. *)
Inductive follows {A} (G : Request -> Outcome -> Prop) (p : prog A) : prog A -> Prop :=
  | fo_start : follows G p p
  | fo_answer r k o : follows G p (Ask r k) -> G r o -> follows G p (k o).

Lemma follows_mono {A} (G G' : Request -> Outcome -> Prop) (p q : prog A) :
  (forall r o, G r o -> G' r o) -> follows G p q -> follows G' p q.
Proof. intros H. induction 1; [constructor|eapply fo_answer; eauto]. Qed.

(** A method that has made a request: what it saw, by its first request. *)
Lemma follows_inv {A} G (p q : prog A) : follows G p q -> q = p \/
  exists r k o, p = Ask r k /\ G r o /\ follows G (k o) q.
Proof.
  induction 1 as [|r k o H IH Ho]; [now left|right]. destruct IH as [<-|(r' & k' & o' & -> & Ho' & IH)].
  - exists r, k, o. split; [done|]. split; [exact Ho|constructor].
  - exists r', k', o'. split; [done|]. split; [exact Ho'|]. now apply (fo_answer G _ r k).
Qed.

Lemma follows_done {A} G (x : POSIXError + A) q : follows G (Done x) q -> q = Done x.
Proof. intros [->|(? & ? & ? & [=] & _)]%follows_inv. reflexivity. Qed.

Lemma follows_stop {A} G (q : prog A) : follows G Stop q -> q = Stop.
Proof. intros [->|(? & ? & ? & [=] & _)]%follows_inv. reflexivity. Qed.

(** Whatever the answers that [G] allows: each request satisfies [P], each result [Q], and
    [halt] if the method may stop. *)
Fixpoint always {A} (G : Request -> Outcome -> Prop) (P : Request -> Prop) (Q : POSIXError + A -> Prop) (halt : Prop)
    (p : prog A) : Prop :=
  match p with
  | Done x => Q x
  | Stop => halt
  | Ask r k => P r /\ forall o, G r o -> always G P Q halt (k o)
  end.

Lemma always_follows {A} (G : Request -> Outcome -> Prop) P Q halt (p q : prog A) :
  always G P Q halt p -> follows G p q -> always G P Q halt q.
Proof. intros Hp. induction 1 as [|r k o _ [_ IH] Ho]; auto. Qed.

Lemma always_mono {A} (G : Request -> Outcome -> Prop) P (Q Q' : POSIXError + A -> Prop) halt (p : prog A) :
  (forall x, Q x -> Q' x) -> always G P Q halt p -> always G P Q' halt p.
Proof. intros HQ. induction p as [x| |r k IH]; cbn; [apply HQ|done|]. intros [Hr Hk]. auto. Qed.

Lemma always_await {A} (G : Request -> Outcome -> Prop) P (Q : POSIXError + A -> Prop) halt r k : P r -> (forall e, Q (inl e)) ->
  (forall v, G r (Returned v) -> always G P Q halt (k v)) -> always G P Q halt (await r k).
Proof. intros Hr He Hk. split; [exact Hr|]. intros [v|e] Ho; [now apply Hk|apply He]. Qed.

(** [try await p] on another method, then [f] on its value. *)
Fixpoint await_method {A B} (p : prog A) (f : A -> prog B) : prog B :=
  match p with
  | Done (inl e) => Done (inl e)
  | Done (inr a) => f a
  | Stop => Stop
  | Ask r k => Ask r (fun o => await_method (k o) f)
  end.

(** A method does what it does in the methods that await it. *)
Lemma always_await_method {A B} (G : Request -> Outcome -> Prop) P (Q : POSIXError + B -> Prop) halt (p : prog A) f :
  always G P (fun x => match x with inl e => Q (inl e) | inr a => always G P Q halt (f a) end) halt p ->
  always G P Q halt (await_method p f).
Proof.
  induction p as [[e|a]| |r k IH]; cbn; [done..|]. intros [Hr Hk]. split; [exact Hr|]. intros o Ho. apply IH, Hk, Ho.
Qed.

(** What a method saw, in order. *)
Inductive saw {A} (p : prog A) : list (Request * Outcome) -> prog A -> Prop :=
  | saw_start : saw p [] p
  | saw_answer l r k o : saw p l (Ask r k) -> saw p (l ++ [(r, o)]) (k o).

Lemma follows_saw {A} G (p q : prog A) : follows G p q -> exists l, saw p l q /\ Forall (fun x => G x.1 x.2) l.
Proof.
  induction 1 as [|r k o _ (l & Hl & Hf) Ho]; [exists []; split; constructor|].
  exists (l ++ [(r, o)]). split; [now apply (saw_answer p l r k)|]. apply Forall_app_2; [exact Hf|]. now constructor.
Qed.

Lemma saw_inv {A} (p : prog A) l q : saw p l q -> (l = [] /\ q = p) \/
  exists r k o l', p = Ask r k /\ l = (r, o) :: l' /\ saw (k o) l' q.
Proof.
  induction 1 as [|l r k o H IH]; [now left|right]. destruct IH as [[-> <-]|(r' & k' & o' & l' & -> & -> & IH)].
  - exists r, k, o, []. split; [done|]. split; [done|constructor].
  - exists r', k', o', (l' ++ [(r, o)]). split; [done|]. split; [done|]. now apply (saw_answer _ l' r k).
Qed.

(** A method that succeeds got a value for each request that it awaits. *)
Lemma saw_await {A} r (k : Value -> prog A) l a : saw (await r k) l (Done (inr a)) ->
  exists v l', l = (r, Returned v) :: l' /\ saw (k v) l' (Done (inr a)).
Proof.
  intros [[_ [=]]|(r' & k' & o & l' & [= <- <-] & -> & H)]%saw_inv. destruct o as [v|e]; [now exists v, l'|].
  apply saw_inv in H as [[_ [=]]|(? & ? & ? & ? & [=] & _)].
Qed.

Lemma saw_done {A} (x : POSIXError + A) l q : saw (Done x) l q -> l = [] /\ q = Done x.
Proof. now intros [H|(? & ? & ? & ? & [=] & _)]%saw_inv. Qed.

Lemma saw_stop {A} l (q : prog A) : saw Stop l q -> q = Stop.
Proof. now intros [[_ H]|(? & ? & ? & ? & [=] & _)]%saw_inv. Qed.

(** A method whose requests are answered at once. *)
Section Served.
Context {T : Type} (serve : Request -> T -> Outcome * T).

Fixpoint served {A} (p : prog A) (s : T) : option ((POSIXError + A) * T) :=
  match p with
  | Done x => Some (x, s)
  | Stop => None
  | Ask r k => let '(o, s) := serve r s in served (k o) s
  end.

Lemma served_await_method {A B} (p : prog A) (f : A -> prog B) : forall s,
  served (await_method p f) s =
    match served p s with
    | Some (inr a, s') => served (f a) s'
    | Some (inl e, s') => Some (inl e, s')
    | None => None
    end.
Proof.
  induction p as [[e|a]| |r k IH]; intros s; cbn; try reflexivity. destruct (serve r s) as [o s']. apply IH.
Qed.

End Served.

Section Runs.
Context `{E : Env} (HEX : exports_listed).

(** The call of [r] was answered with [o]. *)
Definition told (cs : Called) (w : World) (r : Request) (o : Outcome) : Prop :=
  exists k past, cs !! k = Some (r, past) /\ outcomes (reg w) !! k = Some o.

(** The same, with the origin of the answer. *)
Definition explained (cs : Called) (ops : gmap Z Operation) (w : World) (r : Request) (o : Outcome) : Prop :=
  exists k past, cs !! k = Some (r, past) /\ genuine unwatched cs ops w k o.

(** Where a method is, after some steps. *)
Definition position {A} (cs : Called) (w : World) (p : prog A) (c : client A) : Prop :=
  match c with
  | Running q => follows (told cs w) p q
  | Waiting k f => exists r past, cs !! k = Some (r, past) /\ follows (told cs w) p (Ask r f)
  end.

Lemma told_event cs cs' e w w' r o : reachable w -> event_ok e w -> handle e w = Some (tt, w') ->
  cs ⊆ cs' -> told cs w r o -> told cs' w' r o.
Proof.
  intros Hr He Hh Hs (k & past & Hk & Ho). exists k, past. split; [eapply lookup_weaken; eauto|].
  eapply outcome_stays; eauto.
Qed.

Lemma position_mono {A} cs cs' w w' (p : prog A) c : cs ⊆ cs' ->
  (forall r o, told cs w r o -> told cs' w' r o) -> position cs w p c -> position cs' w' p c.
Proof.
  intros Hs Ht. destruct c as [q|k f]; cbn; [now apply follows_mono|].
  intros (r & past & Hk & Hf). exists r, past. split; [eapply lookup_weaken; eauto|eapply follows_mono; eauto].
Qed.

Lemma called_fresh cs w k : history cs w -> nextCall (reg w) <= k -> cs !! k = None.
Proof.
  intros H Hk. destruct (history_good cs w H) as [ops Hg]. apply eq_None_not_Some. intros Hx.
  pose proof (gd_call _ _ _ _ Hg k Hx). lia.
Qed.

(** How the calls grow with the events that may happen, when all of them are in [G]. *)
Inductive calls_on (G : Event -> Prop) (cs0 : Called) (w0 : World) : Called -> World -> Prop :=
  | co_start : calls_on G cs0 w0 cs0 w0
  | co_call cs w r w' : calls_on G cs0 w0 cs w -> G (Call r) -> event_ok (Call r) w -> handle (Call r) w = Some (tt, w') ->
      calls_on G cs0 w0 (<[nextCall (reg w) := (r, w)]> cs) w'
  | co_event cs w e w' : calls_on G cs0 w0 cs w -> (forall r, e <> Call r) -> G e -> event_ok e w ->
      handle e w = Some (tt, w') -> calls_on G cs0 w0 cs w'.

Lemma calls_on_trans G cs0 w0 cs1 w1 cs w : calls_on G cs0 w0 cs1 w1 -> calls_on G cs1 w1 cs w -> calls_on G cs0 w0 cs w.
Proof. intros H. induction 1; [exact H|eapply co_call; eauto|eapply co_event; eauto]. Qed.

Lemma calls_on_weaken (G G' : Event -> Prop) cs0 w0 cs w : (forall e, G e -> G' e) ->
  calls_on G cs0 w0 cs w -> calls_on G' cs0 w0 cs w.
Proof. intros HG. induction 1; [constructor|eapply co_call; eauto|eapply co_event; eauto]. Qed.

Lemma calls_on_history G cs0 w0 cs w : history cs0 w0 -> calls_on G cs0 w0 cs w -> history cs w /\ cs0 ⊆ cs.
Proof.
  intros H0. induction 1 as [|cs w r w' _ [IH Hs] _ _ Hh|cs w e w' _ [IH Hs] He _ _ Hh]; [done|..].
  - split; [now apply hist_call|]. transitivity cs; [exact Hs|]. apply insert_subseteq. eapply called_fresh; [exact IH|lia].
  - split; [|exact Hs]. now apply (hist_event cs w e).
Qed.

Lemma calls_on_event G cs0 w0 cs w e w' : calls_on G cs0 w0 cs w -> G e -> event_ok e w -> handle e w = Some (tt, w') ->
  exists cs', calls_on G cs0 w0 cs' w' /\ (history cs w -> cs ⊆ cs') /\
    forall r, e = Call r -> exists past, cs' !! nextCall (reg w) = Some (r, past).
Proof.
  intros H HG He Hh. destruct e as [r| | | | |h|x|n|p|d];
    try (exists cs; split; [eapply co_event; eauto; done|]; split; [done|]; intros ? [=]).
  eexists. split; [eapply co_call; eauto|]. split.
  - intros Hc. apply insert_subseteq. eapply called_fresh; [exact Hc|lia].
  - intros r' [= <-]. eexists. apply lookup_insert_eq.
Qed.

Lemma csteps_calls {A} G (p : prog A) cs0 w0 : reachable w0 -> history cs0 w0 -> forall es d w, Forall G es ->
  csteps (Running p, w0) es (d, w) -> exists cs, calls_on G cs0 w0 cs w /\ position cs w p d.
Proof.
  intros Hr H0 es d w HG H. revert HG. remember (Running p, w0) as c0 eqn:Ec. remember (d, w) as c1 eqn:Ed. revert d w Ed.
  induction H as [c|c es r f w1 w2 Hs IH Hok Hh|c es k f o w1 Hs IH Ho|c es d1 e w1 w2 Hs IH Hok Hh];
    intros d w Ed HG; subst.
  - injection Ed as <- <-. exists cs0. split; constructor.
  - injection Ed as <- <-. apply Forall_app in HG as [HG [He _]%Forall_cons]. destruct (IH eq_refl _ _ eq_refl HG) as (cs & Hcs & Hp).
    pose proof (csteps_reachable (_, w0) _ (_, w1) Hr Hs) as Hr1. cbn in Hr1.
    destruct (calls_on_event _ _ _ cs w1 _ w2 Hcs He Hok Hh) as (cs' & Hcs' & Hsub' & Hnew).
    destruct (Hnew r eq_refl) as [past Htbl]. exists cs'. split; [exact Hcs'|].
    exists r, past. split; [exact Htbl|]. eapply follows_mono; [|exact Hp].
    assert (Hsub : cs ⊆ cs') by (apply Hsub'; eapply calls_on_history; eauto).
    intros r' o' Ht. eapply told_event; eauto.
  - injection Ed as <- <-. destruct (IH eq_refl _ _ eq_refl HG) as (cs & Hcs & r & past & Hk & Hf).
    exists cs. split; [exact Hcs|]. apply (fo_answer _ _ r f); [exact Hf|]. now exists k, past.
  - injection Ed as <- <-. apply Forall_app in HG as [HG [He _]%Forall_cons]. destruct (IH eq_refl _ _ eq_refl HG) as (cs & Hcs & Hp).
    pose proof (csteps_reachable (_, w0) _ (_, w1) Hr Hs) as Hr1. cbn in Hr1.
    destruct (calls_on_event _ _ _ cs w1 _ w2 Hcs He Hok Hh) as (cs' & Hcs' & Hsub' & _).
    assert (Hsub : cs ⊆ cs') by (apply Hsub'; eapply calls_on_history; eauto).
    exists cs'. split; [exact Hcs'|]. eapply position_mono; [exact Hsub| |exact Hp].
    intros r' o' Ht. eapply told_event; eauto.
Qed.

Lemma method_state {A} (p : prog A) cs0 w0 es q w : reachable w0 -> history cs0 w0 ->
  csteps (Running p, w0) es (Running q, w) ->
  exists cs ops, history cs w /\ cs0 ⊆ cs /\ (forall k o, outcomes (reg w) !! k = Some o -> genuine unwatched cs ops w k o) /\
    follows (explained cs ops w) p q.
Proof.
  intros Hr H0 Hs. destruct (csteps_calls (fun _ => True) p cs0 w0 Hr H0 es _ w (Forall_true _ _ (fun _ => I)) Hs) as (cs & Hon & Hp).
  destruct (calls_on_history _ _ _ _ _ H0 Hon) as [Hcs Hsub].
  destruct (history_good cs w Hcs) as [ops Hg]. exists cs, ops. split; [exact Hcs|]. split; [exact Hsub|].
  split; [exact (gd_outcome _ _ _ _ Hg)|]. eapply follows_mono; [|exact Hp].
  intros r o (k & past & Hk & Ho). exists k, past. split; [exact Hk|]. exact (gd_outcome _ _ _ _ Hg k o Ho).
Qed.

(** Whatever other callers do meanwhile, the result of a method of the client
    is the one that follows from answers to its own requests, each of which is genuine:
    what libnfs replied to the command made for that request, or an error that the
    loop raises. *)
Theorem method_results {A} (p : prog A) cs0 w0 es res w : reachable w0 -> history cs0 w0 ->
  csteps (Running p, w0) es (Running (Done res), w) ->
  exists cs ops, history cs w /\ cs0 ⊆ cs /\ (forall k o, outcomes (reg w) !! k = Some o -> genuine unwatched cs ops w k o) /\
    follows (explained cs ops w) p (Done res).
Proof. apply method_state. Qed.

(** ** Methods *)

(** libnfs answered a command with [c] and [data]. *)
Definition libnfs_answered (w : World) (c : Command) (status : Z) (data : cdata) : Prop :=
  exists i bytes n, In (i, c) (issued (lib w)) /\ In (Reply i status data bytes) (lib_events n) /\
    reply_allowed c status data bytes = true.

(** A value comes from a reply. *)
Lemma explained_reply cs ops w r v :
  (forall s, r <> RGetexports s) -> (forall p, r <> RRegister p) -> (forall p, r <> RReaddir p) ->
  explained cs ops w r (Returned v) ->
  exists k past h c status data, cs !! k = Some (r, past) /\ serves past r h c /\ libnfs_answered w c status data /\
    answers r c status data (Returned v).
Proof.
  intros H1 H2 H3 (k & past & Hk & Hg).
  inversion Hg as [i op r' st data bytes n ? Hc [Ho (past' & Hk' & Hs) Hi] He Ht Hr _ Ha|i op s st data n ? Hc [Ho (past' & Hk' & Hs) Hi]| | |a past' Hk'|a past' Hk'];
    subst; pose proof Hk as Hk2; rewrite Hk' in Hk2; injection Hk2; intros; subst;
    try solve [now edestruct H1|now edestruct H2|now edestruct H3].
  exists (call op), past, (handler op), (command op), st, data. split; [exact Hk|]. split; [exact Hs|]. split; [|exact Ha].
  exists i, bytes, n. auto.
Qed.

Lemma explained_value cs ops w r v :
  (forall s, r <> RGetexports s) -> (forall p, r <> RRegister p) -> (forall p, r <> RReaddir p) ->
  explained cs ops w r (Returned v) ->
  exists past h c status data, serves past r h c /\ libnfs_answered w c status data /\
    answers r c status data (Returned v).
Proof.
  intros H1 H2 H3 H. destruct (explained_reply cs ops w r v H1 H2 H3 H) as (_ & past & h & c & st & d & _ & Hx). eauto 6.
Qed.

(** C10: the attributes that [attributesOfItem] returns are built from the record of
    an answer that libnfs gave to a stat of this very path. *)
Theorem attributes_from_server lpc path cs0 w0 es a w : reachable w0 -> history cs0 w0 ->
  csteps (Running (attributesOfItem lpc path), w0) es (Running (Done (inr a)), w) ->
  exists addr, libnfs_answered w (CStat path) 0 (CPointer (Tstruct "nfs_stat_64") addr) /\
    Ext.buildAttributes lpc (read_stat addr) path = Some a.
Proof.
  intros Hr H0 Hs. destruct (method_state _ cs0 w0 es _ w Hr H0 Hs) as (cs & ops & _ & _ & _ & Hf).
  apply follows_inv in Hf as [[=]|(r & f & o & [= <- <-] & Ho & Hf)]. destruct o as [v|e]; [|now apply follows_done in Hf].
  apply explained_value in Ho as (past & h & c & st & data & Hsv & Hl & Ha); [|done..].
  inversion Hsv; subst. inversion Ha; subst; [discriminate|]. exists a0. split; [exact Hl|].
  destruct (Ext.buildAttributes _ _ _); [apply follows_done in Hf|apply follows_stop in Hf]; congruence.
Qed.

(** ** Types

    The value that a request is answered with. *)
Inductive value_of : Request -> Value -> Prop :=
  | vo_void r : acts r = true -> value_of r VVoid
  | vo_stat p a : value_of (RPath (Stat p)) (VStat a)
  | vo_fstat id a : value_of (RFstat id) (VStat a)
  | vo_statvfs p a : value_of (RPath (Statvfs p)) (VStatvfs a)
  | vo_readlink p s : value_of (RPath (Readlink p)) (VString s)
  | vo_opendir p a : value_of (RPath (Opendir p)) (VPointer (Tstruct "nfsdir") a)
  | vo_open p fl a : value_of (RPath (OpenFile p fl)) (VPointer (Tstruct "nfsfh") a)
  | vo_read id off n d : value_of (RRead id off n) (VData d)
  | vo_write id off data n : value_of (RWrite id off data) (VInt n)
  | vo_into id dest off n m : value_of (RPreadInto id dest off n) (VInt m)
  | vo_lseek id off wh n : value_of (RLseek id off wh) (VUInt64 n)
  | vo_exports s l : value_of (RGetexports s) (VStrings l)
  | vo_register p n : value_of (RRegister p) (VUInt64 n)
  | vo_readdir p l : value_of (RReaddir p) (VEntries l).

Definition outcome_of (r : Request) (o : Outcome) : Prop :=
  match o with Threw _ => True | Returned v => value_of r v end.

Lemma answers_typed r c status data o : answers r c status data o -> outcome_of r o.
Proof. destruct 1; cbn; now constructor. Qed.

Lemma explained_typed cs ops w r o : explained cs ops w r o -> outcome_of r o.
Proof.
  intros (k & past & Hk & Hg).
  inversion Hg as [i op r' st data bytes n ? Hc [Ho (past' & Hk' & Hs) Hi] He Ht Hr _ Ha|i op s st data n ? Hc [Ho (past' & Hk' & Hs) Hi] He Ht Hr Ha| | |a past' Hk'|a past' Hk'];
    subst; try exact I; rewrite Hk in Hk'; injection Hk' as -> _; try constructor; eapply answers_typed; eassumption.
Qed.

(** A request whose pointer is of the right type. *)
Definition request_typed (r : Request) : Prop :=
  match r with
  | RRegister p => exists a, p = CPointer (Tstruct "nfsfh") a
  | RReaddir p => exists a, p = CPointer (Tstruct "nfsdir") a
  | _ => True
  end.

(** What holds of a method whatever values of the right types it is answered with, holds of
    every point of its runs. *)
Lemma always_run {A} P Q halt (p : prog A) cs0 w0 es q w : reachable w0 -> history cs0 w0 ->
  always outcome_of P Q halt p -> csteps (Running p, w0) es (Running q, w) -> always outcome_of P Q halt q.
Proof.
  intros Hr H0 Hp Hs. destruct (method_state p cs0 w0 es q w Hr H0 Hs) as (cs & ops & _ & _ & _ & Hf).
  eapply always_follows; [exact Hp|]. eapply follows_mono; [|exact Hf]. intros r o. apply explained_typed.
Qed.

(** The methods that only pass on what they are answered with. *)
Inductive plain_method : forall {A}, prog A -> Prop :=
  | pm_disconnect : plain_method disconnect
  | pm_listExports h : plain_method (listExports h)
  | pm_openFile p fl : plain_method (openFile p fl)
  | pm_createDirectory p : plain_method (createDirectory p)
  | pm_removeDirectory p : plain_method (removeDirectory p)
  | pm_removeFile p : plain_method (removeFile p)
  | pm_moveItem p q : plain_method (moveItem p q)
  | pm_truncateFile p n : plain_method (truncateFile p n)
  | pm_readlink p : plain_method (readlink p).

Lemma plain_typed {A} (p : prog A) : plain_method p -> always outcome_of request_typed (fun _ => True) False p.
Proof.
  destruct 1; apply always_await; try exact I; try done; intros v Hv; inversion Hv; subst; try discriminate; try exact I.
  split; [now exists a|]. intros [v|e]; [|done]. intros Hx. inversion Hx; subst; done.
Qed.

(** C9: the methods fit the loop.  The loop carries results of any type, and pointers as
    addresses.  At every point of a method that passes on what it is answered with,
    whatever other callers do, the answers are of the type that the method takes, and a
    pointer that it hands back to the loop is of the type that the loop expects. *)
Theorem methods_never_stop {A} (p : prog A) cs0 w0 es d w : plain_method p -> reachable w0 -> history cs0 w0 ->
  csteps (Running p, w0) es (d, w) ->
  d <> Running Stop /\ forall r k, d = Running (Ask r k) -> request_typed r.
Proof.
  intros Hm Hr H0 Hs. assert (Ht : forall q, d = Running q -> always outcome_of request_typed (fun _ => True) False q).
  { intros q ->. eapply always_run; eauto using plain_typed. }
  split; [intros ->; exact (Ht _ eq_refl)|]. intros r k ->. apply (Ht _ eq_refl).
Qed.

End Runs.

(** ** Runs at work

    The method asks for the attributes of "/b"; another caller's request comes between. *)

Definition last_component (path : string) : string := path.
Definition stat_reply_env : Env := demo 0 [Reply 1 0 (CPointer (Tstruct "nfs_stat_64") 9) []] [] 0.
Definition stat_events : list Event := [Call (RPath (Stat "/b")); Call (RPath (Unlink "/c")); SocketReady].
Definition stat_done : World := @after stat_reply_env stat_events start.
Definition stat_attributes : Ext.Attributes :=
  default (Ext.mkAttributes "" "" 0 0 Ext.unknown false false false (0, 0) (0, 0) (0, 0)) (Ext.buildAttributes last_component zero_stat "/b").

Lemma stat_run : @csteps stat_reply_env _ (Running (attributesOfItem last_component "/b"), start) stat_events
  (Running (Done (inr stat_attributes)), stat_done).
Proof.
  assert (S1 : @csteps stat_reply_env _ (Running (attributesOfItem last_component "/b"), start) [Call (RPath (Stat "/b"))]
    (Waiting 0 (fun o => match o with Threw e => Done (inl e) | Returned v =>
       match v with VStat st => match Ext.buildAttributes last_component st "/b" with Some a => Done (inr a) | None => Stop end
                  | _ => Stop end end),
     @after stat_reply_env [Call (RPath (Stat "/b"))] start)).
  { apply (cs_ask _ [] _ _ start); [constructor|apply event_okb_ok|]; vm_compute; reflexivity. }
  apply (cs_event _ _ _ (Call (RPath (Unlink "/c"))) _ (@after stat_reply_env (take 2 stat_events) start)) in S1;
    [|apply event_okb_ok; vm_compute; reflexivity|vm_compute; reflexivity].
  apply (cs_event _ _ _ SocketReady _ stat_done) in S1; [|exact I|vm_compute; reflexivity].
  apply (cs_resume _ _ _ _ (Returned (VStat zero_stat))) in S1; [|vm_compute; reflexivity].
  exact S1.
Qed.

Lemma start_history `{E : Env} : history ∅ start.
Proof. now apply (hist_init 10 100). Qed.

Lemma method_results_witness : exists cs ops, @history stat_reply_env cs stat_done /\ ∅ ⊆ cs /\
  (forall k o, outcomes (reg stat_done) !! k = Some o -> @genuine stat_reply_env unwatched cs ops stat_done k o) /\
  follows (@explained stat_reply_env cs ops stat_done) (attributesOfItem last_component "/b") (Done (inr stat_attributes)).
Proof.
  apply (@method_results stat_reply_env (demo_exports _ _ _ _) _ _ ∅ start stat_events);
    [apply start_reachable|apply start_history|exact stat_run].
Defined.

Lemma attributes_from_server_witness : exists addr,
  @libnfs_answered stat_reply_env stat_done (CStat "/b") 0 (CPointer (Tstruct "nfs_stat_64") addr) /\
  Ext.buildAttributes last_component (@read_stat stat_reply_env addr) "/b" = Some stat_attributes.
Proof.
  apply (@attributes_from_server stat_reply_env (demo_exports _ _ _ _) last_component "/b" ∅ start stat_events);
    [apply start_reachable|apply start_history|exact stat_run].
Defined.

(** A file has been opened, and its pointer is about to be registered. *)
Lemma open_pointer : @csteps open_env _ (Running (openFile "/f" 0), start)
  [Call (RPath (OpenFile "/f" 0)); SocketReady]
  (Running (Ask (RRegister (CPointer (Tstruct "nfsfh") 77)) after_register), open_answered).
Proof.
  assert (S1 : @csteps open_env _ (Running (openFile "/f" 0), start) [Call (RPath (OpenFile "/f" 0))]
                 (Waiting 0 after_open, open_asked)).
  { apply (cs_ask _ [] _ _ start); [constructor|apply event_okb_ok|]; vm_compute; reflexivity. }
  apply (cs_event _ _ _ SocketReady _ open_answered) in S1; [|exact I|vm_compute; reflexivity].
  apply (cs_resume _ _ _ _ (Returned (VPointer (Tstruct "nfsfh") 77))) in S1; [|vm_compute; reflexivity].
  exact S1.
Qed.

Lemma methods_never_stop_witness :
  request_typed (RRegister (CPointer (Tstruct "nfsfh") 77)) /\
  (forall r k, Running (Ask (RRegister (CPointer (Tstruct "nfsfh") 77)) after_register) = Running (Ask r k) -> request_typed r).
Proof.
  pose proof (@methods_never_stop open_env (demo_exports _ _ _ _) _ (openFile "/f" 0) ∅ start _ _ open_answered
                (pm_openFile "/f" 0) start_reachable (@start_history open_env) open_pointer) as [_ H].
  split; [exact (H _ _ eq_refl)|exact H].
Defined.

End ClientRuns.
