(* ===== verification/BufferFill.v ===== *)
(** * Parallel reads fill the buffer

    [contentsUsingPreallocatedBuffer] allocates one block and reads the chunks of a file into
    it, all at once.  Client.v has the method's arithmetic and its treatment of the
    completions.  Here its requests run over the event loop, together with those of
    other callers: when every chunk was answered with its full count, the block holds the
    file.  A monitor follows the block through every change of memory. *)

From Stdlib Require Import Strings.Byte.
From stdpp Require Import base gmap strings list.
From S2P Require Import Prelude Posix Memory CType LibnfsApi.
From S2P Require Import StateMonad DispatchSource OperationType EventLoopState EventLoop EventLoopRuns.
From S2P Require Import HandleLife Provenance Client.
Import Provenance Client.

Open Scope Z_scope.
Open Scope monad_scope.

Module BufferFill.

(** ** A block that is being filled *)

(** The cell at [j] of the block [p]: [Some None] is one that was never written. *)
Definition cell_at (p : Z) (m : mem) (j : nat) : option cell := blocks m !! p ≫= fun c => c !! j.

(** The block has the file's length, and nothing but the file's bytes at their places. *)
Definition part_of (p : Z) (file : list byte) (m : mem) : Prop :=
  exists c, blocks m !! p = Some c /\ length c = length file /\
    forall j b, c !! j = Some (Some b) -> file !! j = Some b.

(** What has been written stays. *)
Definition stays (p : Z) (m m' : mem) : Prop :=
  forall j b, cell_at p m j = Some (Some b) -> cell_at p m' j = Some (Some b).

(** The [n] cells from [off] on have been written. *)
Definition written (p : Z) (m : mem) (off n : Z) : Prop :=
  forall j : nat, off <= Z.of_nat j < off + n -> exists b, cell_at p m j = Some (Some b).

Lemma stays_same p m m' : blocks m' !! p = blocks m !! p -> stays p m m'.
Proof. intros H j b. unfold cell_at. now rewrite H. Qed.

Lemma part_of_same p file m m' : blocks m' !! p = blocks m !! p -> part_of p file m -> part_of p file m'.
Proof. unfold part_of. intros ->. auto. Qed.

Lemma written_stays p m m' off n : stays p m m' -> written p m off n -> written p m' off n.
Proof. intros Hs Hw j Hj. destruct (Hw j Hj) as [b Hb]. exists b. auto. Qed.

Lemma store_elsewhere p q off bs m m' : q <> p -> store q off bs m = Some m' ->
  blocks m' !! p = blocks m !! p /\ nextPtr m' = nextPtr m.
Proof.
  intros Hq. unfold store. destruct (blocks m !! q); [|discriminate]. case_decide; intros [= <-].
  split; [now apply lookup_insert_ne|done].
Qed.

(** A piece of the file is stored at its place. *)
Lemma store_piece p file off n m m' : part_of p file m -> 0 <= n ->
  let bs := take (Z.to_nat n) (drop (Z.to_nat off) file) in
  Z.of_nat (length bs) = n -> store p off bs m = Some m' ->
  part_of p file m' /\ stays p m m' /\ written p m' off n /\ nextPtr m' = nextPtr m.
Proof.
  intros (c & Hc & Hl & Hf) Hn bs Hbs. unfold store. rewrite Hc. case_decide as Hr; intros [= <-].
  assert (Hcell : forall j, splice c (Z.to_nat off) bs !! j =
    if decide (Z.to_nat off <= j < Z.to_nat off + length bs)%nat then Some <$> file !! j else c !! j).
  { intros j. rewrite lookup_splice by lia. case_decide as Hd; [|done].
    unfold bs in *. rewrite length_take, length_drop in Hd. rewrite lookup_take_lt by lia. rewrite lookup_drop. do 2 f_equal. lia. }
  assert (Hin : forall j, (j < length c)%nat -> exists b, file !! j = Some b).
  { intros j Hj. apply lookup_lt_is_Some. lia. }
  splits; [| | |done].
  - eexists. split; [apply lookup_insert_eq|]. split; [rewrite length_splice; lia|].
    intros j b. rewrite Hcell. case_decide; [|apply Hf]. destruct (file !! j); cbn; congruence.
  - intros j b. unfold cell_at. cbn. rewrite lookup_insert_eq, Hc. cbn. intros Hj. rewrite Hcell.
    case_decide; [|exact Hj]. now rewrite (Hf j b Hj).
  - intros j Hj. unfold cell_at. cbn. rewrite lookup_insert_eq. cbn. rewrite Hcell, decide_True by lia.
    destruct (Hin j) as [b Hb]; [lia|]. exists b. now rewrite Hb.
Qed.

(** ** Watching it

    [L] is the list of the calls that libnfs gets in the whole run: what a reply belongs to
    is read off from it. *)

Section Filling.
Context `{E : Env} (p fh : Z) (file : list byte) (L : list (Z * Command)).

(** libnfs answers a read into the block with the file's bytes from the offset on. *)
Definition reads_file : Prop := forall i d n off t status data bytes,
  In (i, CPread fh d n off) L -> bp_block d = p -> In (Reply i status data bytes) (lib_events t) ->
  0 <= status -> bytes = take (Z.to_nat status) (drop (Z.to_nat off) file).

(** Reads into the block are from the handle [fh], each to the place of its offset. *)
Definition in_place (r : Request) (past : World) : Prop :=
  forall id d off n, r = RPreadInto id d off n -> bp_block d = p -> bp_off d = off /\ table past !! id = Some fh.

Definition fill_inv (l : list (Z * Command)) (m : mem) : Prop :=
  p < nextPtr m /\ (incl l L -> part_of p file m).

Definition fill_le (l : list (Z * Command)) (m : mem) (l' : list (Z * Command)) (m' : mem) : Prop :=
  incl l l' /\ (incl l' L -> stays p m m').

Definition fill_told (l : list (Z * Command)) (m : mem) (op : Operation) (status : Z) : Prop :=
  forall d n off, handler op = HReadInto -> command op = CPread fh d n off -> bp_block d = p ->
    incl l L -> written p m off status.

Lemma fill_same l l' m m' : fill_inv l m -> incl l l' -> blocks m' !! p = blocks m !! p ->
  nextPtr m <= nextPtr m' -> fill_inv l' m' /\ fill_le l m l' m'.
Proof.
  intros [Hp Hi] Hl Hb Hn. split; (split; [assumption || lia|]).
  - intros Hl'. eapply part_of_same, Hi; eauto using incl_tran.
  - intros _. now apply stays_same.
Qed.

Context (Hfile : reads_file).

(** The reply to a read into the block. *)
Lemma fill_reply l m i d n t status data bytes m' : fill_inv l m -> bp_block d = p ->
  In (i, CPread fh d n (bp_off d)) l -> In (Reply i status data bytes) (lib_events t) ->
  0 <= status -> Z.of_nat (length bytes) = status -> store (bp_block d) (bp_off d) bytes m = Some m' ->
  fill_inv l m' /\ fill_le l m l m' /\ (incl l L -> written p m' (bp_off d) status).
Proof.
  intros [Hp Hi] Hd Hin Ht Hs Hlen Hm. rewrite Hd in Hm.
  assert (Hmain : incl l L -> part_of p file m' /\ stays p m m' /\ written p m' (bp_off d) status).
  { intros Hl. pose proof (Hfile i d n _ t status data _ (Hl _ Hin) Hd Ht Hs) as Hb. rewrite Hb in Hm, Hlen.
    destruct (store_piece p file (bp_off d) status m m' (Hi Hl) Hs Hlen Hm) as (? & ? & ? & _). auto. }
  splits; [split; [now rewrite (store_next _ _ _ _ _ Hm)|]|split; [apply incl_refl|]|]; intros Hl; apply (Hmain Hl).
Qed.

Program Definition filling : Monitor := {|
  mo_inv := fill_inv; mo_le := fill_le; mo_told := fill_told; mo_may_write := fun q => q <> p; mo_may_free := fun q => q <> p; mo_call := in_place |}.
Next Obligation. intros l m. split; [apply incl_refl|]. intros _ j b. auto. Qed.
Next Obligation.
  intros l1 m1 l2 m2 l3 m3 [I1 H1] [I2 H2]. split; [eauto using incl_tran|]. intros Hl j b Hj.
  apply H2, H1, Hj; eauto using incl_tran.
Qed.
Next Obligation.
  intros l m l' m' op status [Hi Hs] Ht d n off Hh Hc Hd Hl. eapply written_stays; [apply Hs, Hl|].
  eapply Ht; eauto using incl_tran.
Qed.
Next Obligation.
  intros l m n q m' Hi [= <- <-]. assert (nextPtr m <> p) by (destruct Hi; lia). split; [done|]. split; [done|].
  apply fill_same; [done|apply incl_refl|now apply lookup_insert_ne|cbn; lia].
Qed.
Next Obligation.
  intros l m q off bytes m' Hi Hq Hs. destruct (store_elsewhere p q off bytes m m' Hq Hs).
  apply fill_same; [done|apply incl_refl|done|lia].
Qed.
Next Obligation.
  intros l m q m' Hi Hq. unfold deallocate. destruct (blocks m !! q); intros [= <-].
  apply fill_same; [done|apply incl_refl|now apply lookup_delete_ne|cbn; lia].
Qed.
Next Obligation.
  intros l m x Hi. apply fill_same; [done|apply incl_appl, incl_refl|done|lia].
Qed.
Next Obligation.
  intros l m i op r past status data bytes t m' Hi Hs Hc Ho Hin Ht Ha Hm.
  assert (Hsame : blocks m' !! p = blocks m !! p -> nextPtr m' = nextPtr m -> fill_inv l m' /\ fill_le l m l m').
  { intros Hb Hn. apply fill_same; [done|apply incl_refl|done|lia]. }
  destruct (reply_change _ _ _ _ _ _ _ _ Hs Ha Hm)
    as [[-> Hst]|[(q & off & Hh & Hq)|(id & d & off & n & fh' & -> & Htbl & Hh & Hcmd & H0 & Hlen & Hq)]].
  - destruct Hsame; try done. splits; auto. intros d n off Hh _ _ _ j Hj. specialize (Hst Hh). lia.
  - destruct (store_elsewhere p q off bytes m m' (Ho q Hh) Hq). destruct Hsame; try done. splits; auto.
    intros d n o Hh'. congruence.
  - destruct (decide (bp_block d = p)) as [Hd|Hd].
    + destruct (Hc _ _ _ _ eq_refl Hd) as [Hoff Hfh]. rewrite Htbl in Hfh. injection Hfh as ->. subst off.
      rewrite Hcmd in Hin. destruct (fill_reply l m i d n t status data bytes m' Hi Hd Hin Ht H0 Hlen Hq) as (H1 & H2 & H3).
      splits; [exact H1|exact H2|]. intros d' n' off' _. rewrite Hcmd. intros [= <- <- <-] _. exact H3.
    + destruct (store_elsewhere p (bp_block d) (bp_off d) bytes m m' Hd Hq). destruct Hsame; try done. splits; auto.
      intros d' n' o _. rewrite Hcmd. intros [= <- <- <-] Hd'. now destruct Hd.
Qed.

End Filling.

(** ** From the allocation on *)

Section Runs.
Context `{E : Env}.

(** No call made so far reads into the block. *)
Definition unaimed (p : Z) (cs : Called) : Prop :=
  forall k id d off n past, cs !! k = Some (RPreadInto id d off n, past) -> bp_block d <> p.

Lemma alloc_heap n w w' : handle (AllocBuffer n) w = Some (tt, w') ->
  w' = upd_heap (fun _ => snd (allocate n (heap w))) w.
Proof. cbn [handle]. unfold alloc, bind, ret. destruct (allocate n (heap w)). now intros [= <-]. Qed.

Lemma good_filling p fh file L Hfile cs ops w w' : good unwatched cs ops w -> p = nextPtr (heap w) ->
  unaimed p cs -> handle (AllocBuffer (Z.of_nat (length file))) w = Some (tt, w') ->
  good (filling p fh file L Hfile) cs ops w'.
Proof.
  intros Hg Hp Hu ->%alloc_heap. apply good_watch; try exact Hg; cbn; [lia| |lia| |].
  - rewrite <- Hp. split; [cbn; lia|]. intros _. eexists. split; [apply lookup_insert_eq|].
    rewrite length_replicate, Nat2Z.id. split; [done|]. intros j b [Hb _]%lookup_replicate. discriminate.
  - intros k r past Hk id d off n -> Hd. exfalso. eapply Hu; eauto.
  - intros op r past status Hr Hs d n off Hh Hc Hd. exfalso. rewrite Hh, Hc in Hs. inversion Hs; subst.
    eapply Hu; eauto.
Qed.

(** An answered read into the block. *)
Lemma filled_chunk p fh file L Hfile cs ops w k id d off n past :
  good (filling p fh file L Hfile) cs ops w -> incl (issued (lib w)) L ->
  cs !! k = Some (RPreadInto id d off n, past) -> bp_block d = p ->
  outcomes (reg w) !! k = Some (Returned (VInt n)) -> written p (heap w) off n.
Proof.
  intros Hg Hl Hk Hd Ho. pose proof (gd_outcome _ _ _ _ Hg k _ Ho) as Hn.
  remember (Returned (VInt n)) as o eqn:Eo.
  destruct Hn as [i op r st data bytes t o Hc [Hop (past' & Hr & Hs) Hi] He Ht Ha Htold Hans|i op s st data t o Hc [Hop (past' & Hr & Hs) Hi]| | | |]; try congruence.
  subst o. rewrite Hc, Hk in Hr. injection Hr as <- <-.
  destruct (gd_ops _ _ _ _ Hg i op Hop) as (_ & r' & past' & Hr' & _ & Hcall). rewrite Hc, Hk in Hr'. injection Hr' as <- <-.
  destruct (Hcall _ _ _ _ eq_refl Hd) as [_ Hfh].
  assert (Hshape : handler op = HReadInto /\ command op = CPread fh d n off).
  { inversion Hs; subst. split; congruence. }
  inversion Hans; subst. destruct Hshape as [Hh Hcmd]. now apply (Htold d n off Hh Hcmd).
Qed.

(** C6: parallel reads fill the buffer.  A block is allocated for a file, and reads into
    it are made, each to the place of its offset, while other callers use the
    loop as they like but leave the block alone. If libnfs answers the reads with the file's bytes, then in any state in which
    each chunk of the file has been read in full, whatever the order of the replies and
    whatever else was going on, the block holds the file. *)
Theorem parallel_reads_fill_buffer readMax fh file cs0 w0 w1 cs w n :
  let total := Z.of_nat (length file) in let p := nextPtr (heap w0) in
  fits_buffer readMax total -> totalChunks total (chunkSize readMax) = Some n ->
  history cs0 w0 -> unaimed p cs0 -> handle (AllocBuffer total) w0 = Some (tt, w1) ->
  onward (in_place p fh) (fun q => q <> p) cs0 w1 cs w ->
  reads_file p fh file (issued (lib w)) ->
  (forall i, 0 <= i < n -> exists k id d past,
     cs !! k = Some (RPreadInto id d (fst (chunk_slice total (chunkSize readMax) i))
                                     (snd (chunk_slice total (chunkSize readMax) i)), past) /\
     bp_block d = p /\
     outcomes (reg w) !! k = Some (Returned (VInt (snd (chunk_slice total (chunkSize readMax) i))))) ->
  data_cells (DataNoCopy p total) (heap w) = Some (Some <$> file).
Proof.
  intros total p Hfit Hn H0 Hu Ha Hon Hfile Hall.
  destruct (history_good cs0 w0 H0) as [ops0 Hg0].
  pose proof (good_filling p fh file _ Hfile cs0 ops0 w0 w1 Hg0 eq_refl Hu Ha) as Hg1.
  destruct (onward_good (filling p fh file _ Hfile) cs0 ops0 w1 cs w Hg1 Hon) as (ops & _ & Hg).
  destruct (gd_watched _ _ _ _ Hg) as [_ Hpart]. destruct (Hpart (incl_refl _)) as (c & Hc & Hl & Hf).
  cbn [data_cells]. unfold load. rewrite Hc, decide_True by lia. f_equal.
  rewrite take_ge by lia. apply list_eq. intros j. rewrite list_lookup_fmap.
  destruct (Nat.lt_ge_cases j (length file)) as [Hj|Hj]; [|now rewrite !lookup_ge_None_2 by lia].
  destruct (totalChunks_ceil _ _ Hfit) as (n' & Hn' & Hpos & Hb). rewrite Hn in Hn'. injection Hn' as <-.
  apply fits_bounds in Hfit as [H1 H2]. set (cs' := chunkSize readMax) in *.
  assert (Hi : 0 <= Z.of_nat j / cs' < n).
  { split; [apply Z.div_pos; lia|]. apply Z.div_lt_upper_bound; nia. }
  destruct (Hall _ Hi) as (k & id & d & past & Hk & Hd & Ho).
  destruct (filled_chunk p fh file _ Hfile cs ops w k id d _ _ past Hg (incl_refl _) Hk Hd Ho j) as [b Hbj].
  { apply (chunk_slice_spec total cs' n _ (Z.of_nat j)); [lia|exact Hb|exact Hi|lia|reflexivity]. }
  unfold cell_at in Hbj. rewrite Hc in Hbj. cbn in Hbj. rewrite Hbj, (Hf j b Hbj). reflexivity.
Qed.

End Runs.

(** ** A fill at work

    Three bytes in chunks of two; the replies come in reverse order, and another caller
    asks for something in between. *)

Definition abc : list byte := [x61; x62; x63].
Definition fill_env : Env := demo 0 [Reply 3 1 CNull [x63]; Reply 1 2 CNull [x61; x62]] [] 0.
Definition stepped (e : Event) (w : World) : World :=
  match @handle fill_env e w with Some (_, w') => w' | None => w end.

Definition opened : World := stepped (Call (RRegister (CPointer (Tstruct "nfsfh") 77))) start.
Definition allocated : World := stepped (AllocBuffer 3) opened.
Definition chunk0 : Request := RPreadInto 1 (mkBufPtr 1 0) 0 2.
Definition chunk1 : Request := RPreadInto 1 (mkBufPtr 1 2) 2 1.
Definition asked1 : World := stepped (Call chunk0) allocated.
Definition asked2 : World := stepped (Call (RPath (Stat "/x"))) asked1.
Definition asked3 : World := stepped (Call chunk1) asked2.
Definition all_read : World := stepped SocketReady asked3.

Definition opened_called : Called := <[0 := (RRegister (CPointer (Tstruct "nfsfh") 77), start)]> ∅.
Definition all_called : Called :=
  <[3 := (chunk1, asked2)]> (<[2 := (RPath (Stat "/x"), asked1)]> (<[1 := (chunk0, allocated)]> opened_called)).

Lemma opened_history : @history fill_env opened_called opened.
Proof. apply (hist_call ∅ start); [now apply (hist_init 10 100)|vm_compute; reflexivity]. Qed.

Lemma filled_onward : @onward fill_env (in_place 1 77) (fun q => q <> 1) opened_called allocated all_called all_read.
Proof.
  apply (on_event _ _ _ _ _ asked3 SocketReady); [|done|done|vm_compute; reflexivity].
  apply (on_call _ _ _ _ _ asked2 chunk1); [|intros ? ? ? ? [= <- <- <- <-] _; split; vm_compute; reflexivity|vm_compute; reflexivity].
  apply (on_call _ _ _ _ _ asked1 (RPath (Stat "/x"))); [|now intros ? ? ? ? [=]|vm_compute; reflexivity].
  apply (on_call _ _ _ _ _ allocated chunk0); [|intros ? ? ? ? [= <- <- <- <-] _; split; vm_compute; reflexivity|vm_compute; reflexivity].
  constructor.
Qed.

Lemma parallel_reads_fill_buffer_witness :
  data_cells (DataNoCopy 1 3) (heap all_read) = Some [Some x61; Some x62; Some x63] /\
  data_cells (DataNoCopy 1 3) (heap all_read) = Some (Some <$> abc).
Proof.
  split; [vm_compute; reflexivity|].
  apply (@parallel_reads_fill_buffer fill_env 2 77 abc opened_called opened allocated all_called all_read 2).
  - split; [reflexivity|lia].
  - reflexivity.
  - exact opened_history.
  - unfold unaimed, opened_called. now intros ? ? ? ? ? ? [[_ [=]]|[_ [=]]]%lookup_insert_Some.
  - vm_compute. reflexivity.
  - exact filled_onward.
  - assert (Hi : issued (lib all_read) = [(1, CPread 77 (mkBufPtr 1 0) 2 0); (2, CStat "/x"); (3, CPread 77 (mkBufPtr 1 2) 1 2)])
      by (vm_compute; reflexivity).
    intros i d n off t status data bytes. rewrite Hi. cbn [lib_events fill_env demo In].
    intros [[= <- <- <- <-]|[[=]|[[= <- <- <- <-]|[]]]] _ [[= <- <- <-]|[[= <- <- <-]|[]]] _; reflexivity.
  - intros i Hi. assert (i = 0 \/ i = 1) as [-> | ->] by lia.
    + exists 1, 1, (mkBufPtr 1 0), allocated. splits; vm_compute; reflexivity.
    + exists 3, 1, (mkBufPtr 1 2), asked2. splits; vm_compute; reflexivity.
Defined.

End BufferFill.
