(* ===== verification/WriteBuffer.v ===== *)
(** * The bytes of a write

    libnfs keeps the pointer that a write passes and reads the bytes when it sends them,
    which may be long after the call has returned.  [writeFile] copies the caller's
    data into a block of its own for that reason.  Here a monitor follows the block: as long
    as libnfs has the command, the block is allocated and holds the data. *)

From Stdlib Require Import Strings.Byte.
From stdpp Require Import base gmap strings list.
From S2P Require Import Prelude Posix Memory CType LibnfsApi.
From S2P Require Import StateMonad DispatchSource OperationType EventLoopState EventLoop EventLoopSafe EventLoopProps EventLoopRuns.
From S2P Require Import BufferInv EventLoopInv Provenance BufferFill.
Import Provenance BufferFill.

Open Scope Z_scope.
Open Scope monad_scope.

Module WriteBuffer.

Section Guarding.
Context `{E : Env} (p : Z) (data : list byte).

(** Unless it has been freed, the block holds the data. *)
Definition guard_inv (l : list (Z * Command)) (m : mem) : Prop :=
  p < nextPtr m /\ forall c, blocks m !! p = Some c -> c = Some <$> data.

(** Callers read elsewhere. *)
Definition elsewhere (r : Request) (past : World) : Prop :=
  forall id d off n, r = RPreadInto id d off n -> bp_block d <> p.

Lemma guard_same l l' m m' : guard_inv l m -> blocks m' !! p = blocks m !! p -> nextPtr m <= nextPtr m' ->
  guard_inv l' m'.
Proof. intros [Hp Hi] Hb Hn. split; [lia|]. now rewrite Hb. Qed.

Lemma guard_elsewhere l q off bytes m m' : guard_inv l m -> q <> p -> store q off bytes m = Some m' -> guard_inv l m'.
Proof.
  intros Hi Hq Hs. destruct (store_elsewhere p q off bytes m m' Hq Hs). eapply guard_same; eauto. lia.
Qed.

Program Definition guarding : Monitor := {|
  mo_inv := guard_inv; mo_le := fun _ _ _ _ => True; mo_told := fun _ _ _ _ => True;
  mo_may_write := fun q => q <> p; mo_may_free := fun _ => True; mo_call := elsewhere |}.
Next Obligation. done. Qed.
Next Obligation. done. Qed.
Next Obligation. done. Qed.
Next Obligation.
  intros l m n q m' Hi [= <- <-]. assert (nextPtr m <> p) by (destruct Hi; lia). splits; try done.
  eapply guard_same; [exact Hi|now apply lookup_insert_ne|cbn; lia].
Qed.
Next Obligation. intros l m q off bytes m' Hi Hq Hs. split; [|done]. eapply guard_elsewhere; eauto. Qed.
Next Obligation.
  intros l m q m' [Hp Hi] _ Hd. split; [|done]. unfold deallocate in Hd. destruct (blocks m !! q); [|discriminate].
  injection Hd as <-. split; [exact Hp|]. cbn. intros c [_ Hc]%lookup_delete_Some. auto.
Qed.
Next Obligation. intros l m x Hi. split; [|done]. eapply guard_same; eauto. lia. Qed.
Next Obligation.
  intros l m i op r past status d bytes n m' Hi Hs Hc Ho Hin Ht Ha Hm. splits; try done.
  destruct (reply_change _ _ _ _ _ _ _ _ Hs Ha Hm)
    as [[-> _]|[(q & off & Hh & Hq)|(id & dest & off & c & fh & -> & _ & _ & _ & _ & _ & Hq)]]; [exact Hi| |].
  - eapply guard_elsewhere; eauto.
  - eapply guard_elsewhere; [exact Hi| |exact Hq]. now eapply Hc.
Qed.

End Guarding.

(** ** From the call on *)

Section Runs.
Context `{E : Env} (HEX : exports_listed).

(** The write is copied into its block. *)
Lemma good_guarding p data cs ops w m : good unwatched cs ops w -> p = nextPtr (heap w) -> unaimed p cs ->
  store p 0 data (snd (allocate (Z.of_nat (length data)) (heap w))) = Some m ->
  good (guarding p data) cs ops (upd_heap (fun _ => m) w).
Proof.
  intros Hg Hp Hu Hs. assert (Hb : blocks m !! p = Some (Some <$> data) /\ nextPtr m = p + 1).
  { subst p. revert Hs. unfold store. cbn. rewrite lookup_insert_eq, length_replicate.
    case_decide; [|lia]. intros [= <-]. cbn. rewrite lookup_insert_eq. split; [|done]. f_equal.
    unfold splice. cbn [take app]. rewrite drop_ge by (rewrite length_replicate; lia). apply app_nil_r. }
  destruct Hb as [Hb Hn]. apply good_watch; try exact Hg; cbn; [lia| |lia| |done].
  - split; [lia|]. rewrite Hb. now intros c [= <-].
  - intros k r past Hk id d off n -> Hd. eapply Hu; eauto.
Qed.

Definition write_command (fh p : Z) (off : option Z) (data : list byte) : Command :=
  match off with
  | None => CWrite fh (mkBufPtr p 0) (Z.of_nat (length data))
  | Some o => CPwrite fh (mkBufPtr p 0) (Z.of_nat (length data)) o
  end.

(** The operation of a write, and its block. *)
Lemma write_guarded id off data fh cs0 ops0 w0 w1 :
  let p := nextPtr (heap w0) in let k := nextCall (reg w0) in let i := nextContinuationID (reg w0) in
  good unwatched cs0 ops0 w0 -> unaimed p cs0 ->
  handleRegistry (handles w0) !! id = Some fh -> is_Some (context w0) ->
  handle (Call (RWrite id off data)) w0 = Some (tt, w1) ->
  exists ops, good (guarding p data) (<[k := (RWrite id off data, w0)]> cs0) ops w1 /\
    ops !! i = Some (mkOperation k HStatus (write_command fh p off data)).
Proof.
  intros p k i Hg Hu Hid [ctx Hctx] Hh. cbn [handle] in Hh. apply run_bind in Hh as (k' & w2 & [= <- <-] & Hh).
  set (r := RWrite id off data) in *. set (cs := <[k := (r, w0)]> cs0).
  assert (Hk : cs !! k = Some (r, w0)) by apply lookup_insert_eq.
  pose proof (good_called unwatched cs0 ops0 w0 r Hg) as Hg2. fold k cs in Hg2.
  cbn [perform r] in Hh. unfold writeFile, with_handle in Hh.
  apply run_bind in Hh as (t & w2 & [= <- <-] & Hh). apply run_bind in Hh as (x & w2 & [= <- <-] & Hh).
  cbn in Hh. rewrite Hid, Hctx in Hh.
  apply run_bind in Hh as (j & w3 & Hj & Hh).
  destruct (good_id unwatched cs ops0 _ j w3 Hg2 Hj) as (-> & Hv & Hg3 & Hw3). cbn in Hv.
  apply run_bind in Hh as (q & w4 & Ha & Hh). unfold alloc in Ha. cbn [allocate] in Ha. injection Ha as <- <-.
  apply run_bind in Hh as ([] & w5 & Hs & Hh). unfold mem_op, bind, gets, lift, modify in Hs.
  assert (Hheap : heap w3 = heap w0) by now rewrite Hw3. cbn [heap upd_heap] in Hs. rewrite Hheap in Hs, Hh.
  destruct (store _ 0 data _) as [m|] eqn:Em; [|discriminate]. injection Hs as <-.
  change (upd_heap (fun _ => m) _) with (upd_heap (fun _ => m) w3) in Hh.
  assert (Hu' : unaimed p cs).
  { intros k' id' d o n t [[_ [=]]|[_ Hk']]%lookup_insert_Some. eapply Hu; eauto. }
  assert (Hg5 : good (guarding p data) cs ops0 (upd_heap (fun _ => m) w3)).
  { apply good_guarding; [exact Hg3|now rewrite Hheap|exact Hu'|]. now rewrite Hheap. }
  set (op := mkOperation k HStatus (write_command fh p off data)).
  assert (Hown : own_buffer op = Some p) by (destruct off; reflexivity).
  assert (Hg6 : good (guarding p data) cs (<[i := op]> ops0) (upd_heap (fun _ => m) w3)).
  { refine (good_new _ cs k r w0 Hk _ ops0 _ i HStatus _ Hg5 Hv _ _); [intros ? ? ? ? [=]|destruct off; now constructor|].
    intros q Hq. change (own_buffer op = Some q) in Hq. rewrite Hown in Hq. injection Hq as <-. split; [done|]. split; [done|].
    apply (gd_watched _ _ _ _ Hg5). }
  exists (<[i := op]> ops0). split; [|apply lookup_insert_eq].
  refine (st_good _ _ _ _ _ (still_buffered _ cs k (<[i := op]> ops0) i HStatus (write_command fh p off data) bulk p _ _ Hown _ _ Hg6 tt w1 Hh)).
  - apply lookup_insert_eq.
  - destruct off; intros s [=].
  - done.
Qed.

(** C8: libnfs sends what the caller wrote.  A write is called on a handle: in every later
    state in which libnfs still has its command, whatever else was called and answered
    meanwhile, as long as no call names the block as its destination, the command is a write of the data's length to the handle, at the given
    offset, and the block it names is allocated and holds the caller's bytes. *)
Theorem write_buffer_intact id off data fh cs0 w0 w1 cs w c :
  let p := nextPtr (heap w0) in let k := nextCall (reg w0) in let i := nextContinuationID (reg w0) in
  history cs0 w0 -> unaimed p cs0 -> handleRegistry (handles w0) !! id = Some fh -> is_Some (context w0) ->
  handle (Call (RWrite id off data)) w0 = Some (tt, w1) ->
  onward (elsewhere p) (fun _ => True) (<[k := (RWrite id off data, w0)]> cs0) w1 cs w ->
  reachable w -> outstanding (lib w) !! i = Some c ->
  c = write_command fh p off data /\ load p (Z.of_nat (length data)) (heap w) = Some (Some <$> data).
Proof.
  intros p k i H0 Hu Hid Hctx Hh Hon Hr Hc. destruct (history_good cs0 w0 H0) as [ops0 Hg0].
  destruct (write_guarded id off data fh cs0 ops0 w0 w1 Hg0 Hu Hid Hctx Hh) as (ops1 & Hg1 & Hop).
  destruct (onward_good (guarding p data) _ ops1 w1 cs w Hg1 Hon) as (ops & Hsub & Hg).
  assert (Hcmd : c = write_command fh p off data).
  { destruct (gd_out _ _ _ _ Hg i c Hc) as [Hi _]. destruct (gd_issued _ _ _ _ Hg i c Hi) as (op & Ho & <-).
    pose proof (lookup_weaken _ _ _ _ Hop Hsub) as Ho'. fold i in Ho'. rewrite Ho in Ho'. now injection Ho' as ->. }
  split; [exact Hcmd|]. destruct (gd_watched _ _ _ _ Hg) as [_ Hw].
  assert (Hb : command_buffer c = Some (mkBufPtr p 0, Z.of_nat (length data))) by (subst c; destruct off; reflexivity).
  destruct (bi_live _ _ _ _ _ (inv_buf _ _ _ (idle_inv _ (reachable_idle HEX w Hr))) i c _ _ Hc Hb) as (l & Hl & _).
  unfold load. cbn in Hl. rewrite Hl. rewrite (Hw l Hl), length_fmap, decide_True by lia. rewrite Nat2Z.id, take_ge; [done|].
  now rewrite length_fmap.
Qed.

End Runs.

(** ** A write at work

    Another call comes after the write, and the socket gets ready twice. *)

Definition abc : list byte := [x61; x62; x63].
Definition register_77 : Event := Call (RRegister (CPointer (Tstruct "nfsfh") 77)).
Definition write_abc : Event := Call (RWrite 1 (Some 8) abc).
Definition later_events : list Event := [register_77; write_abc; SocketReady; Call (RPath (Stat "/x")); SocketReady].
Definition ahead (n : nat) : World := @after quiet_env (take n later_events) start.

Definition register_called : Called := <[0 := (RRegister (CPointer (Tstruct "nfsfh") 77), ahead 0)]> ∅.
Definition write_called : Called := <[1 := (RWrite 1 (Some 8) abc, ahead 1)]> register_called.

Lemma ahead_onward : @onward quiet_env (elsewhere 1) (fun _ => True) write_called (ahead 2)
  (<[2 := (RPath (Stat "/x"), ahead 3)]> write_called) (ahead 5).
Proof.
  apply (on_event _ _ _ _ _ (ahead 4) SocketReady); [|done|done|vm_compute; reflexivity].
  apply (on_call _ _ _ _ _ (ahead 3) (RPath (Stat "/x"))); [|now intros ? ? ? ? [=]|vm_compute; reflexivity].
  apply (on_event _ _ _ _ _ (ahead 2) SocketReady); [|done|done|vm_compute; reflexivity].
  constructor.
Qed.

Lemma write_buffer_intact_witness :
  outstanding (lib (ahead 5)) !! 1 = Some (CPwrite 77 (mkBufPtr 1 0) 3 8) /\
  CPwrite 77 (mkBufPtr 1 0) 3 8 = write_command 77 1 (Some 8) abc /\
  load 1 3 (heap (ahead 5)) = Some [Some x61; Some x62; Some x63].
Proof.
  split; [vm_compute; reflexivity|].
  apply (@write_buffer_intact quiet_env (demo_exports _ _ _ _) 1 (Some 8) abc 77 register_called (ahead 1) (ahead 2)
           (<[2 := (RPath (Stat "/x"), ahead 3)]> write_called) (ahead 5)).
  - apply (hist_call ∅ (ahead 0)); [now apply (hist_init 10 100)|vm_compute; reflexivity].
  - unfold unaimed, register_called. now intros ? ? ? ? ? ? [[_ [=]]|[_ [=]]]%lookup_insert_Some.
  - vm_compute. reflexivity.
  - vm_compute. eauto.
  - vm_compute. reflexivity.
  - exact ahead_onward.
  - apply demo_reachable.
  - vm_compute. reflexivity.
Defined.

End WriteBuffer.
