(* ===== verification/ReadData.v ===== *)
(** * The bytes of a read

    A read gives its caller a [Data] that wraps the block that libnfs filled, without a copy.
    So the block must hold the reply's bytes, and go on holding them, while the
    loop serves other callers, times operations out, handles late replies or shuts down.  Here
    one block is followed through everything that the loop does: the operation that owns it, if
    there is one, and the outcomes that lead to it. *)

From Stdlib Require Import Strings.Byte.
From stdpp Require Import base gmap strings list.
From S2P Require Import Prelude Posix Memory CType LibnfsApi.
From S2P Require Import StateMonad DispatchSource OperationType EventLoopState EventLoop Walk EventLoopRuns.
From S2P Require Import BufferInv EventLoopInv Provenance BufferFill WriteBuffer.
Import BufferFill(store_elsewhere) WriteBuffer(elsewhere).
Import Provenance(serves, table, history, hist_init, hist_call, hist_event, onward, on_start, on_call, on_event, Called, call, handler, command).

Open Scope Z_scope.
Open Scope monad_scope.

Module ReadData.

#[local] Instance DataHandler_eq : EqDecision DataHandler.
Proof. solve_decision. Defined.

Section Block.
(** [freed]: whoever was handed the block may have freed it. *)
Context `{E : Env} (p : Z) (freed : Prop).

(** ** What is known of the block *)

(** The object [i], if there is one, has no claim on the block. *)
Definition plain (i : Z) (w : World) : Prop :=
  forall cb, objects (reg w) !! i = Some cb -> cleanup cb <> Some p.

(** No command that libnfs has uses the block as its operation's own. *)
Definition at_rest (w : World) : Prop :=
  forall i cb, objects (reg w) !! i = Some cb -> cleanup cb = Some p -> outst w !! i = None.

(** The outcome hands over [n] bytes of the block. *)
Definition hands (n : Z) (o : Outcome) : Prop := o = Returned (VData (DataNoCopy p n)).

(** The block holds what libnfs replied to the read made for the call [k]. *)
Definition delivered (k n : Z) (w : World) : Prop :=
  exists i cb c m data bytes t, objects (reg w) !! i = Some cb /\ cleanup cb = Some p /\ continuation cb = k /\
    In (i, c) (issued (lib w)) /\ is_read c = true /\ command_buffer c = Some (mkBufPtr p 0, m) /\
    In (Reply i n data bytes) (lib_events t) /\ Z.of_nat (length bytes) = n /\ 0 < n <= m /\
    (load p n (heap w) = Some (Some <$> bytes) \/ freed /\ blocks (heap w) !! p = None).

Record kept (w : World) : Prop := mkKept {
  kp_ptr : forall i cb, objects (reg w) !! i = Some cb -> cleanup cb = Some p -> p < nextPtr (heap w);
  kp_id : forall i cb, objects (reg w) !! i = Some cb -> cleanup cb = Some p -> i < nextContinuationID (reg w);
  kp_read : forall i cb, objects (reg w) !! i = Some cb -> dataHandler cb = HRead p -> cleanup cb = Some p;
  kp_out : forall i c b n, outst w !! i = Some c -> command_buffer c = Some (b, n) -> bp_block b = p ->
    exists cb, objects (reg w) !! i = Some cb /\ cleanup cb = Some p;
  kp_fit : forall i c cb, outst w !! i = Some c -> objects (reg w) !! i = Some cb -> cleanup cb = Some p ->
    In (i, c) (issued (lib w)) /\ (exists n, command_buffer c = Some (mkBufPtr p 0, n)) /\
    (dataHandler cb = HRead p -> is_read c = true);
  kp_one : forall i j ci cj, objects (reg w) !! i = Some ci -> cleanup ci = Some p ->
    objects (reg w) !! j = Some cj -> cleanup cj = Some p -> i = j;
  kp_pend : forall op, op ∈ pend w -> command_buffer (execute op) = None /\ plain (id op) w;
  kp_rpc : forall i, rpcq w = Some i -> plain i w;
  kp_data : forall k n o, outcomes (reg w) !! k = Some o -> hands n o -> at_rest w /\ delivered k n w
}.

(** Objects keep what they were made with. *)
Definition alike (cb cb' : CallbackData) : Prop :=
  cleanup cb' = cleanup cb /\ continuation cb' = continuation cb /\ dataHandler cb' = dataHandler cb.

Lemma alike_refl cb : alike cb cb.
Proof. now repeat split. Qed.
#[local] Hint Resolve alike_refl : core.

(** Nobody was handed the block yet. *)
Definition handless (w : World) : Prop := forall k n o, outcomes (reg w) !! k = Some o -> ~ hands n o.

(** What may happen while the operation [i] has no claim on the block: it goes on being
    tracked, *)
Record goes (i : Z) (w w' : World) : Prop := mkGoes {
  go_kept : kept w';
  go_plain : plain i w';
  go_plains : forall j, plain j w -> plain j w';
  go_issued : incl (issued (lib w)) (issued (lib w'));
  go_ptr : nextPtr (heap w) <= nextPtr (heap w');
  go_objects : forall j cb, objects (reg w) !! j = Some cb -> cleanup cb = Some p ->
    exists cb', objects (reg w') !! j = Some cb' /\ alike cb cb'
}.

(** and once it is at rest it stays as it is.  If [b], nobody was handed it either. *)
Record stays (b : bool) (i : Z) (w w' : World) : Prop := mkStays {
  sy_goes : goes i w w';
  sy_rest : p < nextPtr (heap w) -> at_rest w -> at_rest w' /\ blocks (heap w') !! p = blocks (heap w) !! p;
  sy_hands : b = true -> handless w'
}.

Definition tracked (b : bool) (i : Z) (w : World) : Prop := kept w /\ plain i w /\ (b = true -> handless w).

Lemma goes_trans i w1 w2 w3 : goes i w1 w2 -> goes i w2 w3 -> goes i w1 w3.
Proof.
  intros [A1 A2 A3 A4 A5 A6] [B1 B2 B3 B4 B5 B6]. constructor; eauto using incl_tran; [lia|].
  intros j cb Hj Hc. destruct (A6 j cb Hj Hc) as (cb1 & H1 & C1 & C2 & C3).
  destruct (B6 j cb1 H1) as (cb2 & H2 & D1 & D2 & D3); [congruence|]. exists cb2. repeat split; congruence.
Qed.

Lemma stays_refl b i w : tracked b i w -> stays b i w w.
Proof. intros (H & Hi & Hn). constructor; auto. constructor; eauto using incl_refl. lia. Qed.

Lemma stays_trans b i w1 w2 w3 : stays b i w1 w2 -> stays b i w2 w3 -> stays b i w1 w3.
Proof.
  intros [A1 A2 _] [B1 B2 B3]. constructor; [eapply goes_trans; eauto| |exact B3].
  intros Hp Hr. destruct (A2 Hp Hr) as [H1 E1]. pose proof (go_ptr _ _ _ A1).
  destruct (B2 ltac:(lia) H1). split; [assumption|congruence].
Qed.

Lemma stays_post b i w w' : stays b i w w' -> tracked b i w'.
Proof. intros [[] _ ?]. unfold tracked. auto. Qed.

Definition block (b : bool) (i : Z) : Footprint World :=
  mkFootprint World (tracked b i) (stays b i) (stays_refl b i) (stays_trans b i) (stays_post b i).

Lemma plain_stays b i j w w' : fp_rel (block b i) w w' -> plain j w -> plain j w'.
Proof. intros [[] _ _]. auto. Qed.

Lemma delivered_mono k n w w' :
  (forall j cb, objects (reg w) !! j = Some cb -> cleanup cb = Some p ->
     exists cb', objects (reg w') !! j = Some cb' /\ alike cb cb') ->
  incl (issued (lib w)) (issued (lib w')) -> blocks (heap w') !! p = blocks (heap w) !! p ->
  delivered k n w -> delivered k n w'.
Proof.
  intros Ho Hi Hb (i & cb & c & m & data & bytes & t & H1 & H2 & H3 & H4 & H5 & H6 & H7 & H8 & H9 & H10).
  destruct (Ho i cb H1 H2) as (cb' & H1' & E1 & E2 & E3). exists i, cb', c, m, data, bytes, t.
  splits; auto; try lia; try congruence. unfold load in *. now rewrite Hb.
Qed.

(** ** Changes that leave the operation of the block alone *)

Record aside (w w' : World) : Prop := mkAside {
  as_old : forall j cb', objects (reg w') !! j = Some cb' -> cleanup cb' = Some p \/ dataHandler cb' = HRead p ->
    exists cb, objects (reg w) !! j = Some cb /\ alike cb cb';
  as_kept : forall j cb, objects (reg w) !! j = Some cb -> cleanup cb = Some p ->
    exists cb', objects (reg w') !! j = Some cb' /\ alike cb cb';
  as_id : nextContinuationID (reg w) <= nextContinuationID (reg w');
  as_ptr : nextPtr (heap w) <= nextPtr (heap w');
  as_issued : incl (issued (lib w)) (issued (lib w'));
  as_out : forall j c, outst w' !! j = Some c -> outst w !! j = Some c \/
    plain j w /\ forall b n, command_buffer c = Some (b, n) -> bp_block b <> p;
  as_pend : forall op, op ∈ pend w' -> op ∈ pend w \/ command_buffer (execute op) = None /\ plain (id op) w;
  as_rpc : forall j, rpcq w' = Some j -> rpcq w = Some j \/ plain j w;
  as_outcome : forall k o, outcomes (reg w') !! k = Some o -> outcomes (reg w) !! k = Some o \/ forall n, ~ hands n o
}.

Lemma aside_plain w w' j : aside w w' -> plain j w -> plain j w'.
Proof.
  intros H Hj cb' Hcb' Hc. destruct (as_old _ _ H j cb' Hcb' (or_introl Hc)) as (cb & Hcb & E1 & _).
  apply (Hj cb Hcb). congruence.
Qed.

Lemma aside_rest w w' : aside w w' -> at_rest w -> at_rest w'.
Proof.
  intros H Hr j cb' Hcb' Hc. destruct (as_old _ _ H j cb' Hcb' (or_introl Hc)) as (cb & Hcb & E1 & _).
  destruct (outst w' !! j) as [c|] eqn:Ec; [|done]. destruct (as_out _ _ H j c Ec) as [Ec'|[Hj _]].
  - rewrite (Hr j cb Hcb) in Ec'; congruence.
  - exfalso. apply (Hj cb Hcb). congruence.
Qed.

Lemma aside_kept w w' : kept w -> aside w w' ->
  (forall k n o, outcomes (reg w) !! k = Some o -> hands n o -> blocks (heap w') !! p = blocks (heap w) !! p) -> kept w'.
Proof.
  intros [] Ha Hblk. pose proof (aside_plain w w') as Hpl. pose proof Ha as [Hold Hkeep Hid Hptr Hiss Hout Hpend Hrpc Hoc].
  constructor.
  - intros j cb' Hcb' Hc. destruct (Hold j cb' Hcb' (or_introl Hc)) as (cb & Hcb & E1 & _).
    specialize (kp_ptr0 j cb Hcb). rewrite <- E1 in kp_ptr0. specialize (kp_ptr0 Hc). lia.
  - intros j cb' Hcb' Hc. destruct (Hold j cb' Hcb' (or_introl Hc)) as (cb & Hcb & E1 & _).
    specialize (kp_id0 j cb Hcb). rewrite <- E1 in kp_id0. specialize (kp_id0 Hc). lia.
  - intros j cb' Hcb' Hh. destruct (Hold j cb' Hcb' (or_intror Hh)) as (cb & Hcb & E1 & _ & E3).
    rewrite E1. apply (kp_read0 j cb Hcb). congruence.
  - intros j c b n Hc Hb Hp. destruct (Hout j c Hc) as [Hc'|[_ Hn]]; [|now destruct (Hn b n Hb)].
    destruct (kp_out0 j c b n Hc' Hb Hp) as (cb & Hcb & Ecb). destruct (Hkeep j cb Hcb Ecb) as (cb' & Hcb' & E1 & _).
    exists cb'. split; [exact Hcb'|congruence].
  - intros j c cb' Hc Hcb' Ecb. destruct (Hold j cb' Hcb' (or_introl Ecb)) as (cb & Hcb & E1 & _ & E3).
    destruct (Hout j c Hc) as [Hc'|[Hj _]]; [|destruct (Hj cb Hcb); congruence].
    destruct (kp_fit0 j c cb Hc' Hcb) as (F1 & F2 & F3); [congruence|]. splits; auto. intros Hh. apply F3. congruence.
  - intros j1 j2 c1 c2 H1 E1 H2 E2. destruct (Hold j1 c1 H1 (or_introl E1)) as (d1 & D1 & F1 & _).
    destruct (Hold j2 c2 H2 (or_introl E2)) as (d2 & D2 & F2 & _). eapply kp_one0; [exact D1| |exact D2|]; congruence.
  - intros op Hop. destruct (Hpend op Hop) as [Hop'|[]]; [destruct (kp_pend0 op Hop')|]; auto.
  - intros j Hj. destruct (Hrpc j Hj); auto.
  - intros k n o Ho Hn. destruct (Hoc k o Ho) as [Ho'|Hno]; [|now destruct (Hno n)].
    destruct (kp_data0 k n o Ho' Hn) as [Hr Hd]. split; [now apply (aside_rest w)|]. eapply delivered_mono; eauto.
Qed.

Lemma aside_goes i w w' : kept w -> plain i w -> aside w w' ->
  (forall k n o, outcomes (reg w) !! k = Some o -> hands n o -> blocks (heap w') !! p = blocks (heap w) !! p) -> goes i w w'.
Proof.
  intros Hk Hi Ha Hb. pose proof (aside_plain w w'). constructor; try apply Ha; auto. now apply (aside_kept w).
Qed.

Lemma moved b i w w' : tracked b i w -> aside w w' ->
  (p < nextPtr (heap w) -> at_rest w -> blocks (heap w') !! p = blocks (heap w) !! p) -> stays b i w w'.
Proof.
  intros (Hk & Hi & Hn) Ha Hb. constructor.
  - apply aside_goes; auto. destruct Hk.
    intros k n o Ho Hh. destruct (kp_data0 k n o Ho Hh) as [Hr (j & cb & ? & ? & ? & ? & ? & Hj & Hc & _)]. eauto.
  - intros Hp Hr. split; [now apply (aside_rest w)|auto].
  - intros Hb' k n o Ho Hh. destruct (as_outcome _ _ Ha k o Ho) as [Ho'|Hno]; [now apply (Hn Hb' k n o)|now apply (Hno n)].
Qed.

Ltac aside := constructor; cbn; try assumption; try (now eauto using incl_refl); try lia.
Ltac moved := apply moved; [assumption|aside|try reflexivity].

#[export] Instance quiet_block b i : Quiet (block b i).
Proof.
  intros w w' Hw []. apply moved; [exact Hw| |congruence].
  constructor; rewrite ?un_objects, ?un_outcomes, ?un_heap, ?un_issued, ?un_outstanding, ?un_rpc, ?un_pending, ?un_id;
    eauto using incl_refl; lia.
Qed.

(** ** Methods

    The operation [i] is the one that a call makes; anything else that happens leaves all
    other operations as they are. *)

Section Methods.
Context (b : bool) (i : Z).
Abbreviation inert := (fp_inert (block b i)).
Abbreviation keeps := (fp_keeps (block b i)).

Ltac steps := footprint_with ltac:(moved).

Lemma keep_alloc n : inert (alloc n).
Proof.
  intros w Hw q w'. unfold alloc, allocate. intros [= _ <-]. moved.
  intros Hp _. apply lookup_insert_ne. cbn in *. lia.
Qed.

(** Other blocks may be written to and freed. *)
Lemma keep_heap m w : tracked b i w -> nextPtr (heap w) <= nextPtr m ->
  blocks m !! p = blocks (heap w) !! p -> stays b i w (upd_heap (fun _ => m) w).
Proof. intros Hw Hn Hb. moved. now intros _ _. Qed.

Lemma keep_free q : q <> p -> inert (free q).
Proof.
  intros Hq w Hw a w'. unfold free, mem_op, bind, gets, lift, modify, deallocate.
  destruct (_ !! q) eqn:Eq; [|discriminate]. intros [= _ <-]. apply keep_heap; cbn; auto; [lia|]. now apply lookup_delete_ne.
Qed.

Lemma keep_store q off bytes : q <> p -> inert (mem_op (store q off bytes)).
Proof.
  intros Hq w Hw a w'. unfold mem_op, bind, gets, lift, modify.
  destruct (store q off bytes (heap w)) as [m|] eqn:Es; [|discriminate]. intros [= _ <-].
  destruct (store_elsewhere p q off bytes _ m Hq Es). apply keep_heap; auto. lia.
Qed.
#[local] Hint Resolve keep_alloc keep_free keep_store : footprint.

(** A result that has nothing of the block. *)
Definition clean (r : result) : Prop := forall n, r <> inr (VData (DataNoCopy p n)).

Lemma keep_drop_result r : clean r -> inert (drop_result r).
Proof.
  intros Hr. unfold drop_result. destruct r as [e|[]]; try apply still_ret. destruct d as [bs|q n].
  - intros w Hw a w' [= _ <-]. unfold mem_op, bind, gets, lift, modify. moved.
  - apply keep_free. intros ->. now apply (Hr n).
Qed.

Lemma keep_cont_resume k o : (forall n, ~ hands n o) -> inert (cont_resume k o).
Proof.
  intros Ho. unfold cont_resume. intros w. apply still_gets. destruct (_ !! k); [apply still_trap|].
  intros Hw a w' [= _ <-]. moved. intros k' o' [[<- <-]|[_ Ho']]%lookup_insert_Some; auto.
Qed.

Lemma keep_mark j cb w : tracked b i w -> objects (reg w) !! j = Some cb ->
  stays b i w (upd_reg (upd_objects <[j := mark_resumed cb]>) w).
Proof.
  intros Hw Hj. moved.
  - intros x cx [[<- <-]|[_ Hx]]%lookup_insert_Some _; [exists cb|exists cx]; split; auto. now repeat split.
  - intros x cx Hx Hc. destruct (decide (j = x)) as [<-|Hne].
    + exists (mark_resumed cb). rewrite lookup_insert_eq. split; [done|]. rewrite Hj in Hx. injection Hx as ->. now repeat split.
    + exists cx. rewrite lookup_insert_ne by done. auto.
Qed.

Lemma keep_resume j r : clean r -> inert (resume j r).
Proof.
  intros Hr w Hw a w'. unfold resume, get_object, bind, gets, lift.
  destruct (objects (reg w) !! j) as [cb|] eqn:Ej; [|discriminate].
  destruct (hasResumed cb); [apply (keep_drop_result r Hr w Hw)|]. intros H.
  pose proof (keep_mark j cb w Hw Ej) as H1. eapply stays_trans; [exact H1|].
  refine ((_ : inert (resume_typed (resultType cb) (continuation cb) r)) _ (stays_post _ _ _ _ H1) a w' H).
  unfold resume_typed. destruct r as [e|v]; [now apply keep_cont_resume|]. destruct (value_is _ v).
  - apply keep_cont_resume. intros n [= ->]. now apply (Hr n).
  - apply inert_bind; [now apply keep_drop_result|intro; now apply keep_cont_resume].
Qed.

Lemma clean_error e : clean (inl e).
Proof. now intros n. Qed.
#[local] Hint Resolve keep_cont_resume keep_resume clean_error : footprint.

Lemma keep_failureCleanup j rc : inert (failureCleanup j rc).
Proof. unfold failureCleanup. steps. Qed.

Lemma keep_drop_continuation : inert (drop_continuation i).
Proof.
  unfold drop_continuation. apply inert_bind; [eauto with footprint|intro]. apply inert_modify. intros w Hw. pose proof Hw as (_ & Hi & _). moved.
  - intros j cb [_ Hj]%lookup_delete_Some _. eauto.
  - intros j cb Hj Hc. exists cb. split; [|auto]. rewrite lookup_delete_ne; [done|]. intros <-. now apply (Hi cb).
Qed.

Lemma keep_new_callback c h k t x buf : h <> HRead p -> buf <> Some p -> inert (new_callback i c h k t x buf).
Proof.
  intros Hh Hb. unfold new_callback. apply inert_bind; [steps|intro start].
  apply inert_bind; [|intro; steps]. apply inert_modify. intros w Hw. pose proof Hw as (_ & Hi & _). moved.
  - intros j cb [[<- <-]|[_ Hj]]%lookup_insert_Some; [now intros [Hx|Hx]|eauto].
  - intros j cb Hj Hc. exists cb. split; [|auto]. rewrite lookup_insert_ne; [done|]. intros <-. now apply (Hi cb).
Qed.
#[local] Hint Resolve keep_failureCleanup keep_drop_continuation : footprint.

(** Calls of libnfs. *)
Lemma keep_call_async j c w : plain j w -> (forall x n, command_buffer c = Some (x, n) -> bp_block x <> p) ->
  keeps w (call_async j c).
Proof.
  intros Hj Hc. unfold call_async. intros Hw a w' Hr. unfold bind, modify, when, ret in Hr.
  destruct (0 <=? async_rc j); injection Hr as _ <-; moved; auto using incl_appl, incl_refl.
  intros x d [[<- <-]|[_ Hx]]%lookup_insert_Some; auto.
Qed.

Lemma keep_issue_one n op w : op ∈ pend w -> keeps w (issue_one n op).
Proof.
  intros Hop. unfold issue_one. cbn zeta. apply still_inv. intros (Hk & _).
  destruct (kp_pend _ Hk op Hop) as [Hc Hpl]. apply still_bind; [|intros [] w1 _ S1].
  - intros Hw a w' [= _ <-]. moved. intros o Ho. left. cbn in Ho.
    apply elem_of_app in Ho as [Ho|Ho]; [eapply subseteq_take|eapply subseteq_drop]; exact Ho.
  - apply still_bind; [apply (quiet_set_inFlight (block b i))|intros [] w2 _ S2].
    apply still_bind; [apply keep_call_async|intros rc w3 _ _].
    + eapply plain_stays; [exact S2|]. eapply plain_stays; eauto.
    + intros x m Hb. congruence.
    + apply still_inert. steps.
Qed.

Lemma keep_issue_loop fuel : forall n, inert (issue_loop fuel n).
Proof.
  induction fuel as [|fuel IH]; intros n w; cbn [issue_loop]; apply still_gets;
    destruct (_ !! n) as [op|] eqn:Eop; try apply still_ret; [apply still_trap|].
  apply list_elem_of_lookup_2 in Eop. apply still_bind; [apply (quiet_has_slot (block b i))|].
  intros [] w1 Hs S1; [|apply still_inert, IH].
  assert (Hop : op ∈ pend w1).
  { enough (pipe w1 = pipe w) as -> by done. clear - Hs. unfold has_slot, bind, gets, lift in Hs.
    destruct (PipelineController.Pipeline.effectiveDepth _); [|discriminate]. now injection Hs as _ <-. }
  apply still_bind; [now apply keep_issue_one|intros; apply still_inert, IH].
Qed.
#[local] Hint Resolve keep_issue_loop : footprint.

Lemma keep_issuePendingOperations : inert issuePendingOperations.
Proof. unfold issuePendingOperations. steps. Qed.
#[local] Hint Resolve keep_issuePendingOperations : footprint.

(** *** Callbacks of other operations *)

Lemma keep_run_handler h status data : h <> HRead p -> inert (run_handler h status data).
Proof.
  intros Hh. unfold run_handler, bound_to. destruct h as [| | | | |q| | | | |]; try solve [steps].
  destruct (0 <? status); [steps|]. apply inert_bind; [|intro; steps]. apply keep_free. congruence.
Qed.

Lemma handler_clean h status data w r w' : h <> HRead p -> run_handler h status data w = Some (r, w') -> clean r.
Proof.
  intros Hh Hr n ->. pose proof (Provenance.handler_owned (Provenance.mkOperation 0 h CUmount) status data w _ w' Hr p n eq_refl) as Ho.
  unfold Provenance.own_buffer in Ho. cbn in Ho. destruct h; congruence.
Qed.

Lemma still_plain_object {B} j w (k : CallbackData -> M World B) : plain j w ->
  (forall cb, cleanup cb <> Some p -> dataHandler cb <> HRead p -> keeps w (k cb)) -> keeps w (bind (get_object j) k).
Proof.
  intros Hj Hk. apply still_inv. intros [Hw _] Hp x w' Hr. unfold get_object, bind, gets, lift in Hr.
  destruct (objects (reg w) !! j) as [cb|] eqn:Ecb; [|discriminate]. pose proof (Hj cb Ecb) as Hc.
  refine (Hk cb Hc _ Hp x w' Hr). intros Hh. apply Hc. now apply (kp_read _ Hw j).
Qed.

Lemma keep_completion j cb ok r : clean r -> inert (completionHook j cb ok ;; resume j r).
Proof. intros Hr. apply inert_bind; [eauto with footprint|intro]. now apply keep_resume. Qed.

Lemma keep_nfsCallback status data j w : plain j w -> keeps w (nfsCallback status data j).
Proof.
  intros Hj. unfold nfsCallback. apply still_bind; [apply (quiet_release (block b i))|intros [] w1 _ S1].
  apply still_plain_object; [eapply plain_stays; eauto|]. intros cb Hc Hh. destruct (status <? 0).
  - apply still_inert. apply inert_bind; [destruct (cleanup cb); [apply keep_free; congruence|apply still_ret]|intro]. steps.
  - apply still_bind; [now apply keep_run_handler|]. intros r w2 Hr _. apply still_inert, keep_completion.
    eapply handler_clean; eauto.
Qed.

Lemma keep_rpcCallback status data j w : plain j w -> keeps w (rpcCallback status data j).
Proof.
  intros Hj. unfold rpcCallback. apply still_bind; [apply (quiet_release (block b i))|intros [] w1 _ S1].
  apply still_plain_object; [eapply plain_stays; eauto|]. intros cb Hc Hh. destruct (negb _).
  - apply still_inert, keep_completion, clean_error.
  - apply still_bind; [now apply keep_run_handler|]. intros r w2 Hr _. apply still_inert, keep_completion.
    eapply handler_clean; eauto.
Qed.

End Methods.

(** The hints of a section end with it. *)
#[local] Hint Resolve keep_alloc keep_cont_resume keep_resume clean_error keep_failureCleanup keep_drop_continuation
  keep_issuePendingOperations : footprint.
Ltac steps := footprint_with ltac:(moved).

(** ** The callback of the block's own operation *)

Section Own.
Context (i j : Z) (cb : CallbackData).

(** The callback has the operation in its hands. *)
Record in_hand (w : World) : Prop := mkInHand {
  ih_tracked : tracked true i w;
  ih_object : exists cb', objects (reg w) !! j = Some cb' /\ alike cb cb';
  ih_out : outst w !! j = None
}.
Context (Hcb : cleanup cb = Some p).

Lemma hand_rest w : in_hand w -> at_rest w.
Proof.
  intros [(Hk & _) (cj & Hj & E1 & _) Ho] x cx Hx Hc.
  assert (x = j) as -> by (eapply (kp_one _ Hk); eauto; congruence). exact Ho.
Qed.

Lemma hand_stays w w' : in_hand w -> stays true i w w' -> in_hand w'.
Proof.
  intros Hh Hs. pose proof (hand_rest w Hh) as Hr. destruct Hh as [Hw (cj & Hj & E1 & E2 & E3) Ho].
  assert (Hc : cleanup cj = Some p) by congruence.
  destruct (go_objects _ _ _ (sy_goes _ _ _ _ Hs) j cj Hj Hc) as (ck & Hk & F1 & F2 & F3).
  constructor.
  - exact (stays_post _ _ _ _ Hs).
  - exists ck. repeat split; congruence.
  - destruct Hw as (Hkept & _). pose proof (kp_ptr _ Hkept j cj Hj Hc) as Hp.
    destruct (sy_rest _ _ _ _ Hs Hp Hr) as [Hr' _]. apply (Hr' j ck Hk). congruence.
Qed.

(** It may free the block, *)
Lemma hand_free w a w' : in_hand w -> free p w = Some (a, w') -> goes i w w' /\ tracked true i w'.
Proof.
  intros [Hw _ _] Hr. unfold free, mem_op, bind, gets, lift, modify, deallocate in Hr.
  destruct (_ !! p) eqn:Eq; [|discriminate]. injection Hr as _ <-.
  destruct Hw as (Hk & Hi & Hn). specialize (Hn eq_refl).
  assert (G : goes i w (upd_heap (fun _ => mkMem (delete p (blocks (heap w))) (nextPtr (heap w))) w)).
  { apply aside_goes; auto; [aside|]. intros k n o Ho Hh. now destruct (Hn k n o Ho). }
  exact (conj G (conj (go_kept _ _ _ G) (conj (go_plain _ _ _ G) (fun _ => Hn)))).
Qed.

(** Or hand it over. *)
Lemma handed k n w : kept w -> at_rest w -> delivered k n w ->
  kept (upd_reg (upd_outcomes <[k := Returned (VData (DataNoCopy p n))]>) w).
Proof.
  intros [] Hr Hd. constructor; cbn; auto.
  intros k' n' o [[<- <-]|[_ Ho]]%lookup_insert_Some Hh; [|eauto]. injection Hh as <-. auto.
Qed.

Lemma hand_resume n w a w' : in_hand w -> delivered (continuation cb) n w ->
  resume j (inr (VData (DataNoCopy p n))) w = Some (a, w') -> goes i w w'.
Proof.
  intros Hh Hd Hr. pose proof Hh as [Hw (cj & Hj & E1 & E2 & E3) Ho].
  unfold resume in Hr. apply run_bind in Hr as (cj' & w1 & H1 & Hr).
  unfold get_object, bind, gets, lift in H1. rewrite Hj in H1. injection H1 as <- <-.
  destruct (hasResumed cj).
  - destruct a. exact (proj1 (hand_free w tt w' Hh Hr)).
  - apply run_bind in Hr as ([] & w1 & [= <-] & Hr).
    pose proof (keep_mark true i j cj w Hw Hj) as S1. pose proof (hand_stays _ _ Hh S1) as Hh1.
    set (w1 := upd_reg _ w) in *. eapply goes_trans; [exact (sy_goes _ _ _ _ S1)|].
    assert (Hd1 : delivered (continuation cb) n w1).
    { eapply delivered_mono; [apply S1|apply S1|reflexivity|exact Hd]. }
    rewrite E2 in Hr. unfold resume_typed in Hr. destruct (value_is _ _).
    + pose proof (hand_rest _ Hh1) as Hr1. destruct Hh1 as [(Hk1 & Hi1 & _) _ _].
      unfold cont_resume, bind, gets in Hr. destruct (_ !! continuation cb); [discriminate|]. injection Hr as _ <-.
      pose proof (handed _ _ _ Hk1 Hr1 Hd1). constructor; cbn; auto using incl_refl; [lia|eauto].
    + apply run_bind in Hr as ([] & w2 & H2 & Hr). destruct (hand_free w1 tt w2 Hh1 H2) as [G2 T2].
      eapply goes_trans; [exact G2|]. destruct a.
      exact (sy_goes _ _ _ _ (keep_cont_resume true i (continuation cb) (Threw (posix_error EIO "Internal type mismatch in callback"))
        ltac:(intros n' [=]) w2 T2 tt w' Hr)).
Qed.

(** The callback, after a reply with [bytes]. *)
Lemma own_callback c m status data bytes t w a w' : in_hand w -> In (j, c) (issued (lib w)) ->
  (dataHandler cb = HRead p -> is_read c = true) -> command_buffer c = Some (mkBufPtr p 0, m) ->
  In (Reply j status data bytes) (lib_events t) ->
  (0 < status -> is_read c = true -> Z.of_nat (length bytes) = status /\ status <= m /\
     load p status (heap w) = Some (Some <$> bytes)) ->
  nfsCallback status data j w = Some (a, w') -> goes i w w'.
Proof.
  intros Hh Hi Hread Hbuf Ht Hbytes Hr. unfold nfsCallback in Hr.
  apply run_bind in Hr as ([] & w1 & H1 & Hr).
  pose proof (quiet_release (block true i) j w (ih_tracked _ Hh) _ _ H1) as S1.
  pose proof (hand_stays _ _ Hh S1) as Hh1. pose proof (sy_goes _ _ _ _ S1) as G1.
  eapply goes_trans; [exact G1|]. pose proof (ih_tracked _ Hh1) as T1.
  apply run_bind in Hr as (cj & w2 & H2 & Hr). destruct (ih_object _ Hh1) as (cj' & Hj & E1 & E2 & E3).
  unfold get_object, bind, gets, lift in H2. rewrite Hj in H2. injection H2 as <- <-. rewrite E1, Hcb, E3 in Hr.
  assert (Hclean : forall w2 r, tracked true i w2 -> clean r ->
            (completionHook j cj' (is_success r) ;; resume j r) w2 = Some (a, w') -> goes i w2 w').
  { intros w2 r T2 Hc H. exact (sy_goes _ _ _ _ (keep_completion true i j cj' _ r Hc w2 T2 a w' H)). }
  destruct (status <? 0) eqn:Es.
  { apply run_bind in Hr as ([] & w2 & H2 & Hr). destruct (hand_free w1 tt w2 Hh1 H2) as [G2 T2].
    eapply goes_trans; [exact G2|]. refine (sy_goes _ _ _ _ ((_ : fp_inert (block true i) _) w2 T2 a w' Hr)). steps. }
  apply run_bind in Hr as (r & w2 & H2 & Hr).
  destruct (decide (dataHandler cb = HRead p)) as [Hd|Hd].
  - rewrite Hd in H2. cbn [run_handler] in H2. destruct (0 <? status) eqn:Ep.
    + injection H2 as <- <-. destruct (Hbytes ltac:(lia) (Hread Hd)) as (Hl & Hm & Hload).
      apply run_bind in Hr as ([] & w3 & H3 & Hr).
      pose proof (quiet_completionHook (block true i) j cj' true (keep_issuePendingOperations true i) w1 T1 _ _ H3) as S3.
      pose proof (hand_stays _ _ Hh1 S3) as Hh3. eapply goes_trans; [exact (sy_goes _ _ _ _ S3)|].
      pose proof (stays_trans _ _ _ _ _ S1 S3) as S13. eapply hand_resume; [exact Hh3| |exact Hr].
      destruct (ih_object _ Hh3) as (ck & Hk & F1 & F2 & F3).
      pose proof (hand_rest _ Hh) as Hrest. destruct Hh as [(Hkept & _) (c0 & H0 & D1 & _) _].
      exists j, ck, c, m, data, bytes, t. splits; auto; [congruence|now apply (go_issued _ _ _ (sy_goes _ _ _ _ S13))|lia|].
      left. rewrite <- Hload. unfold load. destruct (sy_rest _ _ _ _ S13) as [_ ->]; [|exact Hrest|done].
      apply (kp_ptr _ Hkept j c0 H0). congruence.
    + apply run_bind in H2 as ([] & w3 & H3 & [= <- <-]). destruct (hand_free w1 tt w3 Hh1 H3) as [G3 T3].
      eapply goes_trans; [exact G3|]. apply (Hclean w3 _ T3) in Hr; [exact Hr|now intros n [=]].
  - pose proof (keep_run_handler true i _ status data Hd w1 T1 _ _ H2) as S2. eapply goes_trans; [exact (sy_goes _ _ _ _ S2)|].
    apply (Hclean w2 r (stays_post _ _ _ _ S2)) in Hr; [exact Hr|]. eapply handler_clean; eauto.
Qed.

End Own.

(** ** Replies and blocks of the queue *)

Section Blocks.
Context (i : Z).
Abbreviation inert := (fp_inert (block false i)).
Abbreviation keeps := (fp_keeps (block false i)).

Lemma reply_bytes c x m status data bytes : command_buffer c = Some (x, m) ->
  reply_allowed c status data bytes = true -> is_read c = true -> 0 < status ->
  Z.of_nat (length bytes) = status /\ status <= m /\ bytes <> [].
Proof.
  unfold reply_allowed. intros Hb Ha Hr Hs. rewrite Hb, Hr, (proj2 (Z.leb_le 0 status)) in Ha by lia.
  apply andb_prop in Ha as [_ Ha]. apply andb_prop in Ha as [Hm%Z.leb_le Ha%Z.eqb_eq].
  splits; [exact Ha|exact Hm|intros ->; cbn in Ha; lia].
Qed.

(** A reply to the block's own operation. *)
Lemma deliver_own j cb c status data bytes t w a w' : tracked false i w -> objects (reg w) !! j = Some cb ->
  cleanup cb = Some p -> outst w !! j = Some c -> In (Reply j status data bytes) (lib_events t) ->
  reply_allowed c status data bytes = true ->
  (write_reply c bytes ;; modify (upd_lib (upd_outstanding (delete j))) ;; nfsCallback status data j) w = Some (a, w') ->
  stays false i w w'.
Proof.
  intros Hw Hj Hc Hout Ht Hall Hr. pose proof Hw as (Hk & Hi & _).
  destruct (kp_fit _ Hk j c cb Hout Hj Hc) as (Hiss & (m & Hbuf) & Hread).
  assert (Hno : ~ at_rest w) by (intros Hrest; specialize (Hrest j cb Hj Hc); congruence).
  assert (Hnone : handless w) by (intros k n o Ho Hh; apply Hno; now apply (kp_data _ Hk k n o)).
  apply run_bind in Hr as ([] & w1 & H1 & Hr). apply run_bind in Hr as ([] & w2 & [= <-] & Hr).
  assert (H1' : exists mm, w1 = upd_heap (fun _ => mm) w /\ nextPtr mm = nextPtr (heap w) /\
            (bytes <> [] -> load p (Z.of_nat (length bytes)) mm = Some (Some <$> bytes))).
  { unfold write_reply in H1. rewrite Hbuf in H1. destruct bytes as [|y ys].
    - injection H1 as <-. exists (heap w). split; [now destruct w|]. split; [done|]. now intros [].
    - unfold mem_op, bind, gets, lift, modify in H1. cbn [bp_block bp_off] in H1.
      destruct (store p 0 (y :: ys) (heap w)) as [mm|] eqn:Es; [|discriminate]. injection H1 as <-. exists mm.
      split; [done|]. split; [exact (Provenance.store_next _ _ _ _ _ Es)|]. intros _.
      assert (Hs := Es). unfold store in Hs. destruct (blocks (heap w) !! p) as [l|] eqn:El; [|discriminate].
      destruct (decide _) as [Hd|]; [|discriminate]. eapply load_stored; [exact El|exact Es|lia]. }
  destruct H1' as (mm & -> & Hn & Hload).
  set (w2 := upd_lib (upd_outstanding (delete j)) (upd_heap (fun _ => mm) w)) in *.
  assert (S2 : stays true i w w2).
  { apply moved; [now split|aside|intros _ Hr2; now destruct Hno]. intros x d [_ Hx]%lookup_delete_Some. auto. }
  assert (Hh : in_hand i j cb w2).
  { constructor; [exact (stays_post _ _ _ _ S2)|eauto|]. apply lookup_delete_eq. }
  constructor; [|now intros|discriminate]. eapply goes_trans; [apply S2|].
  eapply (own_callback i j cb Hc c m status data bytes t w2 a w'); eauto.
  intros Hpos Hrd. destruct (reply_bytes c _ m status data bytes Hbuf Hall Hrd Hpos) as (Hl & Hm & Hne). splits; [exact Hl|exact Hm|].
  rewrite <- Hl. now apply Hload.
Qed.

Lemma keep_deliver e t : In e (lib_events t) -> inert (deliver e).
Proof.
  intros Ht w. unfold deliver. destruct e as [j status data bytes|level msg]; [|apply still_inert; steps].
  apply still_gets. destruct (outst w !! j) as [c|] eqn:Ec; [|apply still_ret].
  destruct (reply_allowed c status data bytes) eqn:Hall; [|apply still_ret]. cbn [when].
  intros Hw a w' Hr. destruct (objects (reg w) !! j) as [cb|] eqn:Ecb; [destruct (decide (cleanup cb = Some p)) as [Hc|Hc]|].
  1: { eapply deliver_own; eauto. }
  all: assert (Hpl : plain j w) by (intros x Hx; congruence).
  all: revert Hw a w' Hr; change (keeps w (write_reply c bytes ;; modify (upd_lib (upd_outstanding (delete j))) ;; nfsCallback status data j)).
  all: apply still_inv; intros (Hk & _).
  all: apply still_bind; [|intros [] w1 _ S1; apply still_bind; [|intros [] w2 _ S2]].
  all: try (apply keep_nfsCallback; eapply plain_stays; [exact S2|]; eapply plain_stays; eauto).
  all: try (intros Hw1 ? ? [= _ <-]; moved; intros x d [_ Hx]%lookup_delete_Some; auto).
  all: unfold write_reply; destruct (command_buffer c) as [[x n]|] eqn:Eb; [destruct bytes|]; try apply still_ret.
  all: apply keep_store; intros Hx; destruct (kp_out _ Hk j c x n Ec Eb Hx) as (cx & Hcx & Hclx); now apply (Hpl cx).
Qed.

Lemma keep_run_callbacks : inert run_callbacks.
Proof.
  unfold run_callbacks. intros w. apply still_bind; [apply (quiet_ask (block false i))|].
  intros es w1 [= <- <-] _. apply still_inert, inert_for_each_in. intros e He. eapply keep_deliver, He.
Qed.
#[local] Hint Resolve keep_run_callbacks : footprint.

Lemma keep_deliver_rpc e : inert (deliver_rpc e).
Proof.
  intros w. unfold deliver_rpc. apply still_gets. destruct (rpcq w) as [j|] eqn:Ej; [|apply still_ret].
  destruct (callback_allowed _ _ _); [|apply still_ret]. cbn [when]. apply still_inv. intros (Hk & _).
  pose proof (kp_rpc _ Hk j Ej) as Hj. apply still_bind; [|intros [] w1 _ S1; apply keep_rpcCallback; eapply plain_stays; eauto].
  intros Hw ? ? [= _ <-]. moved.
Qed.
#[local] Hint Resolve keep_deliver_rpc : footprint.

Lemma keep_run_rpc_callbacks : inert run_rpc_callbacks.
Proof. unfold run_rpc_callbacks. steps. Qed.
#[local] Hint Resolve keep_run_rpc_callbacks : footprint.

Lemma keep_forget_rpc : inert (modify (upd_lib (upd_rpcOutstanding (fun _ => None)))).
Proof. apply inert_modify. intros w Hw. moved. Qed.

Lemma keep_cleanupRpcExports : inert cleanupRpcExports.
Proof.
  unfold cleanupRpcExports, rpc_destroy_context. apply inert_bind; [eauto with footprint|intro].
  apply inert_bind; [steps|intros [x|]]; [|steps].
  apply inert_bind; [|intro; steps]. do 2 (apply inert_bind; [steps|intro]). apply keep_forget_rpc.
Qed.
#[local] Hint Resolve keep_cleanupRpcExports : footprint.

Lemma keep_handleRpcExportsEvent : inert handleRpcExportsEvent.
Proof. unfold handleRpcExportsEvent, rpc_service. steps. Qed.
Lemma keep_time_out j : inert (time_out j).
Proof. unfold time_out. steps. Qed.
#[local] Hint Resolve keep_time_out : footprint.
Lemma keep_scanForTimeouts : inert scanForTimeouts.
Proof. unfold scanForTimeouts. steps. Qed.
Lemma keep_resume_all s e : inert (resume_all s e).
Proof. unfold resume_all. steps. Qed.

Lemma keep_clear_outstanding : inert (modify (upd_lib (upd_outstanding (fun _ => ∅)))).
Proof. apply inert_modify. intros w Hw. moved. Qed.
Lemma keep_clear_pending : inert (modify (upd_pipe (upd_pendingOperations (fun _ => [])))).
Proof. apply inert_modify. intros w Hw. moved. Qed.
#[local] Hint Resolve keep_resume_all keep_clear_outstanding keep_clear_pending : footprint.

Lemma keep_destroy_context : inert destroy_context.
Proof.
  unfold destroy_context, nfs_destroy_context. apply inert_bind; [steps|intros [c|]]; [|steps].
  do 2 (apply inert_bind; [steps|intro]). apply inert_bind; [apply keep_clear_outstanding|intro; steps].
Qed.
#[local] Hint Resolve keep_destroy_context : footprint.

Lemma keep_shutdownWithError e : inert (shutdownWithError e).
Proof.
  unfold shutdownWithError, cancelTimeoutTimer. do 5 (apply inert_bind; [steps|intro]).
  apply inert_bind; [apply keep_clear_pending|intro; steps].
Qed.
#[local] Hint Resolve keep_shutdownWithError : footprint.

Lemma keep_handleIOEvent : inert handleIOEvent.
Proof. unfold handleIOEvent, nfs_service. steps. Qed.

Lemma keep_performShutdown : inert performShutdown.
Proof.
  unfold performShutdown, cancelTimeoutTimer. do 2 (apply inert_bind; [steps|intro]). destruct (_ || _); [|steps].
  do 7 (apply inert_bind; [steps|intro]). apply inert_bind; [apply keep_clear_pending|intro; steps].
Qed.

Lemma keep_closeForget h : inert (closeFileFireAndForget h).
Proof. unfold closeFileFireAndForget, nfs_close. steps. Qed.

(** The owner frees the block. *)
Lemma kept_freed w m : freed -> kept w -> deallocate p (heap w) = Some m -> kept (upd_heap (fun _ => m) w).
Proof.
  intros Hf [] Hm. unfold deallocate in Hm. destruct (blocks (heap w) !! p) eqn:Ep; [|discriminate Hm]. injection Hm as <-.
  constructor; cbn; auto. intros k n o Ho Hn. destruct (kp_data0 k n o Ho Hn) as [Hr Hd]. split; [exact Hr|].
  destruct Hd as (i0 & cb & c & m0 & data & bytes & t & H1 & H2 & H3 & H4 & H5 & H6 & H7 & H8 & H9 & _).
  exists i0, cb, c, m0, data, bytes, t. splits; auto; try lia. right. split; [exact Hf|]. cbn. apply lookup_delete_eq.
Qed.

(** Everything but a call. *)
Lemma keep_event e : (forall r, e <> Call r) -> e <> FreeBuffer p -> inert (handle e).
Proof.
  intros Hcall Hfree. destruct e as [r| | | | |h|x|n|q|d]; cbn [handle].
  - now destruct (Hcall r).
  - apply keep_handleIOEvent.
  - apply keep_handleRpcExportsEvent.
  - apply keep_scanForTimeouts.
  - apply keep_performShutdown.
  - apply keep_closeForget.
  - eauto with footprint.
  - steps.
  - apply keep_free. congruence.
  - steps.
Qed.

End Blocks.

(** ** Calls

    A call makes the operation [i]; most have no claim on the block. *)

Section Calls.
Context (i : Z).
Abbreviation inert := (fp_inert (block false i)).
Abbreviation keeps := (fp_keeps (block false i)).

Lemma still_next {B} w (body : Z -> M World B) : nextContinuationID (reg w) = i -> inert (body i) ->
  keeps w (bind next_continuation_id body).
Proof.
  intros Hi Hb. apply still_bind.
  - intros Hw a w'. unfold next_continuation_id, bind, gets, modify, ret. destruct (_ <? _); [|discriminate].
    intros [= _ <-]. moved.
  - intros j w' Hr _. apply still_inert. enough (j = i) as -> by done. revert Hr.
    unfold next_continuation_id, bind, gets, modify, ret. destruct (_ <? _); [|discriminate]. now intros [= <- _].
Qed.

#[local] Hint Extern 1 (forall n, ~ hands n _) => now intros ? [=] : footprint.

(** A command that leaves the block alone. *)
Definition off_block (c : Command) : Prop := forall x n, command_buffer c = Some (x, n) -> bp_block x <> p.

Lemma off_none c : command_buffer c = None -> off_block c.
Proof. intros Hc x n. congruence. Qed.

Lemma keep_call c : off_block c -> inert (call_async i c).
Proof. intros Hc w. apply still_inv. intros (_ & Hi & _). now apply keep_call_async. Qed.

Lemma keep_start_call k c cmd buf : off_block cmd -> buf <> Some p -> inert (start_call k i c cmd buf).
Proof.
  intros Hc Hb. unfold start_call. apply inert_bind; [steps|intro]. apply inert_bind; [now apply keep_call|intro rc].
  destruct (rc <? 0); [|steps]. apply inert_bind; [destruct buf; [apply keep_free; congruence|apply still_ret]|intro]. steps.
Qed.

Lemma keep_made k c h cmd buf t : h <> HRead p -> buf <> Some p -> off_block cmd ->
  inert (new_callback i c h k t false buf ;; start_call k i c cmd buf).
Proof. intros. apply inert_bind; [now apply keep_new_callback|intro; now apply keep_start_call]. Qed.

Lemma keep_submit k t h c w : nextContinuationID (reg w) = i -> h <> HRead p -> command_buffer c = None ->
  keeps w (submit k t h c).
Proof.
  intros Hi Hh Hc. unfold submit. apply still_gets. destruct (context w); [|apply still_inert; steps].
  apply still_next; [exact Hi|]. cbn zeta. apply inert_bind; [now apply keep_new_callback|intro].
  apply inert_bind; [steps|intro slot]. apply inert_bind; [steps|intro ops]. destruct slot.
  - unfold issueOperation. apply inert_bind; [steps|intro]. apply inert_bind; [now apply keep_call, off_none|intro]. steps.
  - destruct (_ <=? _); [steps|]. apply inert_bind; [steps|intro]. apply inert_modify. intros x Hw. pose proof Hw as (_ & Hpl & _).
    moved. intros op [Hop|Hop%list_elem_of_singleton]%elem_of_app; [auto|subst]. right. cbn. auto.
Qed.

Lemma keep_mount k s e w : nextContinuationID (reg w) = i -> keeps w (mount k s e).
Proof.
  intros Hi. unfold mount. apply still_gets. destruct (context w); [|apply still_inert; steps].
  apply still_next; [exact Hi|]. apply inert_bind; [now apply keep_new_callback|intro].
  apply inert_bind; [steps|intro]. apply inert_bind; [now apply keep_call, off_none|intro]. steps.
Qed.

Lemma keep_call_getexports s : inert (call_getexports i s).
Proof.
  unfold call_getexports. apply inert_bind; [apply inert_modify|intro].
  - intros w Hw. moved; auto using incl_appl, incl_refl.
  - apply inert_bind; [|intro; steps]. apply inert_when, inert_modify. intros w Hw. pose proof Hw as (_ & Hi & _). moved.
    intros j [= <-]. auto.
Qed.
#[local] Hint Resolve keep_call_getexports keep_cleanupRpcExports : footprint.

Lemma keep_getexports k s w : nextContinuationID (reg w) = i -> keeps w (getexports k s).
Proof.
  intros Hi. unfold getexports. do 2 apply still_gets. destruct (context w); [|apply still_inert; steps].
  destruct (rpcExportsCtx (rpcx w)); [apply still_inert; steps|].
  apply still_bind; [apply (quiet_ask (block false i))|]. intros created w1 [= _ <-] _.
  destruct (negb created); [apply still_inert; steps|]. apply still_next; [exact Hi|].
  apply inert_bind; [now apply keep_new_callback|intro]. steps.
Qed.

Lemma keep_with_handle k id body w : (forall h, keeps w (body h)) -> keeps w (with_handle k id body).
Proof.
  intros Hb. unfold with_handle. do 2 apply still_gets.
  destruct (_ !! id); [destruct (context w); [apply Hb|]|]; apply still_inert; steps.
Qed.

Lemma keep_handle_call k c h cmd w : nextContinuationID (reg w) = i -> h <> HRead p -> command_buffer cmd = None ->
  keeps w (handle_call k c h cmd).
Proof. intros Hi Hh Hc. apply still_next; [exact Hi|]. apply keep_made; auto using off_none. Qed.

Lemma keep_closeFile k id w : nextContinuationID (reg w) = i -> keeps w (closeFile k id).
Proof.
  intros Hi. apply keep_with_handle. intros h. apply still_next; [exact Hi|].
  apply inert_bind; [now apply keep_new_callback|intro]. apply inert_bind; [steps|intro].
  apply keep_start_call; [now apply off_none|discriminate].
Qed.

Lemma keep_preadIntoBuffer k id d off n w : nextContinuationID (reg w) = i -> bp_block d <> p ->
  keeps w (preadIntoBuffer k id d off n).
Proof.
  intros Hi Hd. apply keep_with_handle. intros h. apply still_next; [exact Hi|].
  apply inert_bind; [now apply keep_new_callback|intro]. unfold int_of_uint64. apply inert_bind; [steps|intro].
  apply keep_start_call; [now intros x m [= <- _]|discriminate].
Qed.

Lemma keep_registerHandle k q : inert (registerHandle k q).
Proof. unfold registerHandle, bound_to. steps. Qed.
Lemma keep_readdirAll k d : inert (readdirAll k d).
Proof. unfold readdirAll, bound_to. steps. Qed.

End Calls.

(** ** The call that allocates the block *)

(** The block is nobody's, and [i] is a new identifier. *)
Definition unclaimed (w : World) : Prop := kept w /\ handless w /\ forall j, plain j w.

Definition unused_id (i : Z) (w : World) : Prop :=
  outst w !! i = None /\ (forall op, op ∈ pend w -> id op <> i) /\ rpcq w <> Some i.

Lemma not_yet w : kept w -> nextPtr (heap w) <= p -> unclaimed w.
Proof.
  intros Hk Hp. assert (Hpl : forall j, plain j w).
  { intros j cb Hj Hc. pose proof (kp_ptr _ Hk j cb Hj Hc). lia. }
  split; [exact Hk|]. split; [|exact Hpl]. intros k n o Ho Hh.
  destruct (kp_data _ Hk k n o Ho Hh) as [_ (j & cb & ? & ? & ? & ? & ? & Hj & Hc & _)]. now apply (Hpl j cb).
Qed.

Lemma unclaimed_heap m w : unclaimed w -> nextPtr (heap w) <= nextPtr m -> unclaimed (upd_heap (fun _ => m) w).
Proof.
  intros (Hk & Hn & Hp) Hm. assert (A : aside w (upd_heap (fun _ => m) w)) by aside.
  split; [|split; [exact Hn|exact Hp]]. apply (aside_kept w); auto. intros k n o Ho Hh. now destruct (Hn k n o Ho).
Qed.

Section Claim.
Context (i k : Z) (c : OperationCategory) (h : DataHandler) (t : ResultType) (cmd : Command) (n start : Z).
Context (Hbuf : command_buffer cmd = Some (mkBufPtr p 0, n)) (Hread : h = HRead p -> is_read cmd = true).

Definition claim : CallbackData := mkCallbackData c start h k t false false (Some p).

Lemma claimed w : unclaimed w -> unused_id i w -> i < nextContinuationID (reg w) -> p < nextPtr (heap w) ->
  kept (upd_reg (upd_objects <[i := claim]>) w).
Proof.
  intros ([] & Hn & Hp) (Ho & Hpe & Hr) Hi Hpt.
  assert (Hnew : forall j cb, <[i := claim]> (objects (reg w)) !! j = Some cb -> cleanup cb = Some p -> j = i).
  { intros j cb [[<- _]|[_ Hj]]%lookup_insert_Some Hc; [done|]. now destruct (Hp j cb Hj). }
  assert (Hout : forall j d b m, outst w !! j = Some d -> command_buffer d = Some (b, m) -> bp_block b <> p).
  { intros j d b m Hd Hb He. destruct (kp_out0 j d b m Hd Hb He) as (cb & Hcb & Hc). now apply (Hp j cb). }
  constructor; cbn; auto.
  - intros j cb Hj Hc. now rewrite (Hnew j cb Hj Hc).
  - intros j cb [[<- <-]|[_ Hj]]%lookup_insert_Some Hd; [done|eauto].
  - intros j d b m Hd Hb He. now destruct (Hout j d b m Hd Hb).
  - intros j d cb Hd Hj Hc. rewrite (Hnew j cb Hj Hc) in Hd. congruence.
  - intros j1 j2 c1 c2 H1 C1 H2 C2. now rewrite (Hnew j1 c1 H1 C1), (Hnew j2 c2 H2 C2).
  - intros op Hop. split; [now apply kp_pend0|]. intros cb Hcb Hc. now apply (Hpe op Hop), (Hnew _ cb).
  - intros j Hj cb Hcb Hc. apply Hr. rewrite <- (Hnew j cb Hcb Hc). exact Hj.
  - intros k' m o Hk' Hh. now destruct (Hn k' m o).
Qed.

(** Libnfs takes the command, *)
Lemma claim_queued i2 w : in_hand i2 i claim w -> In (i, cmd) (issued (lib w)) ->
  kept (upd_lib (upd_outstanding <[i := cmd]>) w).
Proof.
  intros [(Hk & Hi2 & Hn) (cb & Hcb & E1 & _ & E3) Ho] Hin. specialize (Hn eq_refl). destruct Hk. constructor; cbn; auto.
  - intros j d b m [[<- <-]|[_ Hd]]%lookup_insert_Some Hb He; [|eauto]. exists cb. split; [exact Hcb|]. now rewrite E1.
  - intros j d cj [[<- <-]|[_ Hd]]%lookup_insert_Some Hj Hc; [|eauto]. rewrite Hcb in Hj. injection Hj as <-.
    splits; eauto. rewrite E3. exact Hread.
  - intros k' m o Hk' Hh. now destruct (Hn k' m o).
Qed.

(** Or refuses it, and the object goes. *)
Lemma claim_refused i2 w : tracked true i2 w -> outst w !! i = None -> kept (upd_reg (upd_objects (delete i)) w).
Proof.
  intros (Hk & _ & Hn) Ho. specialize (Hn eq_refl). destruct Hk. constructor; cbn; auto.
  - intros j cb [_ Hj]%lookup_delete_Some. eauto.
  - intros j cb [_ Hj]%lookup_delete_Some. eauto.
  - intros j cb [_ Hj]%lookup_delete_Some. eauto.
  - intros j d b m Hd Hb He. destruct (kp_out0 j d b m Hd Hb He) as (cb & Hcb & Hc). exists cb. split; [|exact Hc].
    rewrite lookup_delete_ne; [done|]. congruence.
  - intros j d cb Hd [_ Hj]%lookup_delete_Some. eauto.
  - intros j1 j2 c1 c2 [_ H1]%lookup_delete_Some C1 [_ H2]%lookup_delete_Some. eauto.
  - intros op Hop. destruct (kp_pend0 op Hop) as [Hb Hpl]. split; [exact Hb|]. unfold plain. cbn.
    intros cb [_ Hcb]%lookup_delete_Some. now apply Hpl.
  - intros j Hj. unfold plain. cbn. intros cb [_ Hcb]%lookup_delete_Some. now apply (kp_rpc0 j Hj).
  - intros k' m o Hk' Hh. now destruct (Hn k' m o).
Qed.

Lemma claim_undone i2 rc w a w' : i2 <> i -> in_hand i2 i claim w ->
  (free p ;; release i ;; drop_continuation i ;; e <- call_error rc ;; cont_resume k (Threw e)) w = Some (a, w') ->
  kept w'.
Proof.
  intros Hne Hh Hr. pose proof (ih_out _ _ _ _ Hh) as Ho.
  apply run_bind in Hr as ([] & w1 & H1 & Hr). destruct (hand_free i2 i claim w tt w1 Hh H1) as [_ T1].
  assert (Ho1 : outst w1 !! i = None).
  { enough (lib w1 = lib w) as -> by exact Ho. unfold free, mem_op, bind, gets, lift, modify in H1.
    destruct (deallocate p _); [|discriminate]. now injection H1 as <-. }
  apply run_bind in Hr as ([] & w2 & H2 & Hr). pose proof (stays_post _ _ _ _ (quiet_release (block true i2) i w1 T1 _ _ H2)) as T2.
  assert (Ho2 : outst w2 !! i = None).
  { enough (lib w2 = lib w1) as -> by exact Ho1. unfold release, bind, gets, modify in H2.
    destruct (decide _); [|discriminate]. now injection H2 as <-. }
  apply run_bind in Hr as ([] & w3 & H3 & Hr). unfold drop_continuation in H3.
  apply run_bind in H3 as ([] & w4 & H4 & [= <-]).
  pose proof (stays_post _ _ _ _ (quiet_remove_continuation (block true i2) i w2 T2 _ _ H4)) as T4.
  assert (Ho4 : outst w4 !! i = None) by (injection H4 as <-; exact Ho2).
  pose proof (claim_refused i2 w4 T4 Ho4) as K. destruct T4 as (_ & Hp & Hn).
  assert (T5 : tracked false i2 (upd_reg (upd_objects (delete i)) w4)).
  { split; [exact K|]. split; [|discriminate]. unfold plain. cbn. intros cb [_ Hcb]%lookup_delete_Some. auto. }
  refine (go_kept _ _ _ (sy_goes _ _ _ _ ((_ : fp_inert (block false i2) _) _ T5 a w' Hr))).
  apply inert_bind; [steps|intro e]. apply keep_cont_resume. now intros m [=].
Qed.

Lemma claim_started w a w' : unclaimed w -> unused_id i w -> i < nextContinuationID (reg w) -> p < nextPtr (heap w) ->
  now w = start ->
  (new_callback i c h k t false (Some p) ;; start_call k i c cmd (Some p)) w = Some (a, w') -> kept w'.
Proof.
  intros Hu Hid Hi Hp Hst Hr. pose proof (claimed w Hu Hid Hi Hp) as K1. set (i2 := nextContinuationID (reg w)).
  assert (Hne : i2 <> i) by (unfold i2; lia).
  assert (H1 : in_hand i2 i claim (upd_reg (upd_objects <[i := claim]>) w)).
  { destruct Hu as (_ & Hn & Hpl). constructor; [split; [exact K1|split; [|auto]]|..].
    - unfold plain. cbn. intros cb [[<- _]|[_ Hcb]]%lookup_insert_Some; [done|now apply (Hpl i2)].
    - exists claim. split; [apply lookup_insert_eq|done].
    - apply Hid. }
  set (w1 := upd_reg (upd_objects <[i := claim]>) w) in *.
  apply run_bind in Hr as ([] & w2 & H2 & Hr). unfold new_callback, bind, gets, modify in H2. rewrite Hst in H2. injection H2 as H2.
  assert (S2 : stays true i2 w1 w2) by (pose proof (ih_tracked _ _ _ _ H1); subst w2; moved).
  pose proof (hand_stays i2 i claim eq_refl _ _ H1 S2) as Hh2. clear H2 S2.
  unfold start_call in Hr. apply run_bind in Hr as ([] & w3 & H3 & Hr).
  pose proof (hand_stays i2 i claim eq_refl _ _ Hh2 (quiet_pass_retained (block true i2) i w2 (ih_tracked _ _ _ _ Hh2) _ _ H3)) as Hh3.
  apply run_bind in Hr as (rc & w4 & H4 & Hr). unfold call_async in H4. apply run_bind in H4 as ([] & w5 & [= <-] & H4).
  assert (S5 : stays true i2 w3 (upd_lib (upd_issued (fun l => l ++ [(i, cmd)])) w3)).
  { pose proof (ih_tracked _ _ _ _ Hh3). moved; auto using incl_appl, incl_refl. }
  pose proof (hand_stays i2 i claim eq_refl _ _ Hh3 S5) as Hh5. set (w5 := upd_lib _ w3) in *.
  destruct (0 <=? async_rc i) eqn:Erc; cbn [when] in H4; injection H4 as <- <-.
  - rewrite (proj2 (Z.ltb_ge (async_rc i) 0)) in Hr by lia.
    assert (Hin : In (i, cmd) (issued (lib w5))) by (apply in_or_app; right; now left).
    assert (T : tracked false i2 (upd_lib (upd_outstanding <[i := cmd]>) w5)).
    { split; [now apply (claim_queued i2)|]. split; [|discriminate]. apply (ih_tracked _ _ _ _ Hh5). }
    refine (go_kept _ _ _ (sy_goes _ _ _ _ ((_ : fp_inert (block false i2) _) _ T a w' Hr))). steps.
  - rewrite (proj2 (Z.ltb_lt (async_rc i) 0)) in Hr by lia. now apply (claim_undone i2 (async_rc i) w5 a w').
Qed.
End Claim.

(** An operation with a buffer [q] of its own, which may be the block. *)
Lemma buffered_kept i k c h t cmd q n w a w' : kept w -> nextPtr (heap w) = q + 1 -> (q = p -> unclaimed w) ->
  (q <> p -> plain i w) -> unused_id i w -> i < nextContinuationID (reg w) ->
  command_buffer cmd = Some (mkBufPtr q 0, n) -> (forall x, h = HRead x -> x = q /\ is_read cmd = true) ->
  (new_callback i c h k t false (Some q) ;; start_call k i c cmd (Some q)) w = Some (a, w') -> kept w'.
Proof.
  intros Hk Hq Hu Hpl Hid Hi Hb Hh Hr. destruct (decide (q = p)) as [->|Hne].
  - eapply (claim_started i k c h t cmd n (now w)); eauto; [intros E0; now apply (Hh p)|lia].
  - assert (T : tracked false i w) by (split; [exact Hk|]; split; [auto|discriminate]).
    refine (go_kept _ _ _ (sy_goes _ _ _ _ (keep_made i k c h cmd (Some q) t _ _ _ w T a w' Hr))); [|congruence|].
    + intros E0. destruct (Hh p E0) as [Hpq _]. congruence.
    + intros x m E0. rewrite Hb in E0. now injection E0 as <- _.
Qed.

Lemma new_id_plain w : kept w -> plain (nextContinuationID (reg w)) w.
Proof. intros Hk cb Hj Hc. pose proof (kp_id _ Hk _ cb Hj Hc). lia. Qed.

Lemma fresh_tracked w : kept w -> tracked false (nextContinuationID (reg w)) w.
Proof. intros Hk. split; [exact Hk|]. split; [now apply new_id_plain|discriminate]. Qed.

(** What the next identifier and the allocation leave. *)
Lemma next_alloc n w i w1 q w2 : kept w -> next_continuation_id w = Some (i, w1) -> alloc n w1 = Some (q, w2) ->
  i = nextContinuationID (reg w) /\ kept w2 /\ nextPtr (heap w2) = q + 1 /\ plain i w2 /\ (q = p -> unclaimed w2) /\
  i < nextContinuationID (reg w2) /\ (unused_id i w -> unused_id i w2).
Proof.
  intros Hk H1 H2. pose proof (fresh_tracked w Hk) as T.
  assert (T1 : stays false (nextContinuationID (reg w)) w w1).
  { revert H1. unfold next_continuation_id, bind, gets, modify, ret. destruct (_ <? _); [|discriminate]. intros [= _ <-]. moved. }
  pose proof (keep_alloc false _ n w1 (stays_post _ _ _ _ T1) q w2 H2) as T2.
  unfold next_continuation_id, bind, gets, modify, ret in H1. destruct (_ <? _); [|discriminate]. injection H1 as <- H1.
  assert (Hu : q = p -> unclaimed w2).
  { unfold alloc, allocate in H2. injection H2 as Hq <-. intros ->. apply unclaimed_heap; [|cbn; lia].
    apply not_yet; [apply T1|lia]. }
  pose proof (stays_post _ _ _ _ T2) as (K2 & P2 & _). unfold alloc, allocate in H2. injection H2 as <- <-. subst w1.
  splits; auto. cbn. lia.
Qed.

Lemma refused_kept i k e w a w' : tracked false i w -> cont_resume k (Threw e) w = Some (a, w') -> kept w'.
Proof.
  intros T Hr. refine (go_kept _ _ _ (sy_goes _ _ _ _ (keep_cont_resume false i k (Threw e) _ w T a w' Hr))). now intros n [=].
Qed.

Lemma readFile_kept k id off n w w' : kept w -> unused_id (nextContinuationID (reg w)) w ->
  readFile k id off n w = Some (tt, w') -> kept w'.
Proof.
  intros Hk Hid Hr. pose proof (fresh_tracked w Hk) as T. unfold readFile, with_handle in Hr.
  do 2 apply run_bind in Hr as (? & ? & [= <- <-] & Hr).
  destruct (_ !! id) as [fh|]; [destruct (context w)|];
    [|exact (refused_kept _ k _ w tt w' T Hr)..].
  apply run_bind in Hr as (i & w1 & H1 & Hr). apply run_bind in Hr as (m & w1' & H1' & Hr).
  unfold int_of_uint64 in H1'. destruct (n <? 2 ^ 63); [|discriminate]. injection H1' as <- <-.
  apply run_bind in Hr as (q & w2 & H2 & Hr).
  destruct (next_alloc n w i w1 q w2 Hk H1 H2) as (-> & K2 & N2 & P2 & U2 & I2 & F2).
  eapply (buffered_kept _ k bulk (HRead q) TData _ q n w2); eauto; [destruct off; reflexivity|].
  intros x [= <-]. now destruct off.
Qed.

Lemma writeFile_kept k id off data w w' : kept w -> unused_id (nextContinuationID (reg w)) w ->
  writeFile k id off data w = Some (tt, w') -> kept w'.
Proof.
  intros Hk Hid Hr. pose proof (fresh_tracked w Hk) as T. unfold writeFile, with_handle in Hr.
  do 2 apply run_bind in Hr as (? & ? & [= <- <-] & Hr).
  destruct (_ !! id) as [fh|]; [destruct (context w)|];
    [|exact (refused_kept _ k _ w tt w' T Hr)..].
  apply run_bind in Hr as (i & w1 & H1 & Hr). cbn zeta in Hr. apply run_bind in Hr as (q & w2 & H2 & Hr).
  destruct (next_alloc _ w i w1 q w2 Hk H1 H2) as (-> & K2 & N2 & P2 & U2 & I2 & F2). set (i := nextContinuationID (reg w)) in *.
  apply run_bind in Hr as ([] & w3 & H3 & Hr).
  assert (S3 : exists m, w3 = upd_heap (fun _ => m) w2 /\ nextPtr m = nextPtr (heap w2) /\ (q <> p -> kept w3)).
  { assert (H3' := H3). unfold mem_op, bind, gets, lift, modify in H3'.
    destruct (store q 0 data (heap w2)) as [m|] eqn:Es; [|discriminate]. injection H3' as E3. exists m. split; [now subst|].
    split; [exact (Provenance.store_next _ _ _ _ _ Es)|]. intros Hq.
    assert (T2 : tracked false i w2) by (split; [exact K2|]; split; [auto|discriminate]).
    now apply (keep_store false i q 0 data Hq w2 T2) in H3 as [[] _ _]. }
  destruct S3 as (m & -> & Nm & Km).
  assert (U3 : q = p -> unclaimed (upd_heap (fun _ => m) w2)) by (intros Hq; apply unclaimed_heap; [auto|lia]).
  eapply (buffered_kept i k bulk HStatus TInt _ q (Z.of_nat (length data)) _); [..|exact Hr]; auto.
  - destruct (decide (q = p)) as [Hq|Hq]; [apply (U3 Hq)|auto].
  - cbn. lia.
  - destruct off; reflexivity.
  - discriminate.
Qed.

(** ** Any event *)

Lemma perform_kept k r w w' : kept w -> unused_id (nextContinuationID (reg w)) w ->
  elsewhere p r w -> perform k r w = Some (tt, w') -> kept w'.
Proof.
  intros Hk Hid He Hr. pose proof (fresh_tracked w Hk) as T. set (i := nextContinuationID (reg w)) in *.
  assert (Hkeep : fp_keeps (block false i) w (perform k r) -> kept w').
  { intros H. exact (go_kept _ _ _ (sy_goes _ _ _ _ (H T tt w' Hr))). }
  destruct r as [o|s e|s|id|id off n|id off data|id dest off n|id|id|id n|id off wh|q|d].
  - apply Hkeep. cbn [perform]. unfold submit_path. destruct o; now apply keep_submit.
  - apply Hkeep. now apply keep_mount.
  - apply Hkeep. now apply keep_getexports.
  - apply Hkeep. now apply keep_closeFile.
  - exact (readFile_kept k id off n w w' Hk Hid Hr).
  - exact (writeFile_kept k id off data w w' Hk Hid Hr).
  - apply Hkeep. apply keep_preadIntoBuffer; [done|]. now apply (He id dest off n).
  - apply Hkeep, keep_with_handle. intros h. now apply keep_handle_call.
  - apply Hkeep, keep_with_handle. intros h. now apply keep_handle_call.
  - apply Hkeep, keep_with_handle. intros h. now apply keep_handle_call.
  - apply Hkeep, keep_with_handle. intros h. now apply keep_handle_call.
  - apply Hkeep, still_inert, keep_registerHandle.
  - apply Hkeep, still_inert, keep_readdirAll.
Qed.

(** ** Runs *)

Lemma kept_init t c w : init true t c = inr w -> kept w.
Proof.
  intros [= <-]. constructor; cbn; try done; try (intros *; rewrite lookup_empty; done).
  intros op Hop. inversion Hop.
Qed.

Lemma good_unused_id cs ops w : Provenance.good Provenance.unwatched cs ops w ->
  unused_id (nextContinuationID (reg w)) w.
Proof.
  intros H. assert (Hi : forall i c, In (i, c) (issued (lib w)) -> i < nextContinuationID (reg w)).
  { intros i c Hin. destruct (Provenance.gd_issued _ _ _ _ H i c Hin) as (op & Ho & _).
    apply (Provenance.gd_ops _ _ _ _ H i op Ho). }
  unfold unused_id. split; [|split].
  - destruct (outst w !! nextContinuationID (reg w)) as [c|] eqn:Ec; [|done]. destruct (Provenance.gd_out _ _ _ _ H _ c Ec) as [Hin _].
    specialize (Hi _ c Hin). lia.
  - intros op Hop E0. destruct (Provenance.gd_pend _ _ _ _ H op Hop) as (o & Ho & _).
    pose proof (proj1 (Provenance.gd_ops _ _ _ _ H _ o Ho)). lia.
  - intros Hr. destruct (Provenance.gd_rpc _ _ _ _ H _ Hr) as [s Hin]. specialize (Hi _ _ Hin). lia.
Qed.

Lemma onward_history asks spares t c w0 cs w : init true t c = inr w0 -> onward asks spares ∅ w0 cs w -> history cs w.
Proof.
  intros H0. induction 1 as [|cs1 w1 r w2 _ IH _ Hh|cs1 w1 e w2 _ IH He _ Hh].
  - now apply (hist_init t c).
  - now apply hist_call.
  - now apply (hist_event cs1 w1 e).
Qed.

Lemma call_kept cs w r w' : history cs w -> kept w -> elsewhere p r w ->
  handle (Call r) w = Some (tt, w') -> kept w'.
Proof.
  intros Hh Hk He Hr. destruct (Provenance.history_good cs w Hh) as [ops Hg].
  cbn [handle] in Hr. apply run_bind in Hr as (k & w1 & [= <- <-] & Hr).
  refine (perform_kept _ r (upd_reg (upd_nextCall (fun n => n + 1)) w) w' _ (good_unused_id _ _ w Hg) He Hr).
  pose proof (fresh_tracked w Hk). assert (S : stays false (nextContinuationID (reg w)) w (upd_reg (upd_nextCall (fun n => n + 1)) w)) by moved.
  apply S.
Qed.

Lemma onward_kept spares t c w0 cs w : (forall q, spares q -> q <> p \/ freed) ->
  init true t c = inr w0 -> onward (elsewhere p) spares ∅ w0 cs w -> kept w.
Proof.
  intros Hs H0 H. induction H as [|cs1 w1 r w2 H IH He Hh|cs1 w1 e w2 H IH He Hq Hh].
  - exact (kept_init t c w0 H0).
  - exact (call_kept cs1 w1 r w2 (onward_history _ _ t c w0 cs1 w1 H0 H) IH He Hh).
  - assert (Hf : e = FreeBuffer p /\ freed \/ e <> FreeBuffer p).
    { destruct e as [| | | | | | | |q|]; try (right; discriminate). destruct (Hs q (Hq q eq_refl)); [right; congruence|].
      destruct (decide (q = p)) as [->|]; [now left|right; congruence]. }
    destruct Hf as [[-> Hf]|Hf].
    { cbn [handle] in Hh. unfold free, mem_op in Hh. apply run_bind in Hh as (m & w3 & [= <- <-] & Hh).
      apply run_bind in Hh as (m' & w3 & Hl & [= <-]). unfold lift in Hl. destruct (deallocate p _) eqn:Ed; [|discriminate Hl].
      injection Hl as <- <-. now apply kept_freed. }
    apply (go_kept _ _ _ (sy_goes _ _ _ _ (keep_event _ e He Hf w1 (fresh_tracked w1 IH) tt w2 Hh))).
Qed.

(** The command of a read. *)
Definition read_command (fh : Z) (off : option Z) (m : Z) : Command :=
  match off with None => CRead fh (mkBufPtr p 0) m | Some o => CPread fh (mkBufPtr p 0) m o end.

(** A [Data] that wraps the block stands for a reply to the read of its caller; the block has the
    bytes of the reply, or was freed. *)
Lemma data_of_read cs w k n : history cs w -> kept w -> outcomes (reg w) !! k = Some (Returned (VData (DataNoCopy p n))) ->
  exists id off m past fh i data bytes t', cs !! k = Some (RRead id off m, past) /\ table past !! id = Some fh /\
    In (i, read_command fh off m) (issued (lib w)) /\ In (Reply i n data bytes) (lib_events t') /\
    Z.of_nat (length bytes) = n /\ 0 < n <= m /\
    (data_cells (DataNoCopy p n) (heap w) = Some (Some <$> bytes) \/ freed /\ blocks (heap w) !! p = None).
Proof.
  intros Hh Hk Ho. destruct (Provenance.history_good cs w Hh) as [ops Hg].
  destruct (kp_data _ Hk k n _ Ho eq_refl)
    as (_ & i & cb & d & m & data & bytes & t' & Hcb & Hcl & Hct & Hin & Hrd & Hbuf & Hrep & Hlen & Hn & Hload).
  destruct (Provenance.gd_obj _ _ _ _ Hg i cb Hcb) as (op & Hop & Hcall & _ & _ & Hown & _). specialize (Hown p Hcl).
  destruct (Provenance.gd_issued _ _ _ _ Hg i d Hin) as (op' & Hop' & Hcmd). rewrite Hop in Hop'. injection Hop' as <-.
  destruct (Provenance.gd_ops _ _ _ _ Hg i op Hop) as (_ & r & past & Hr & Hs & _). rewrite <- Hcall, Hct in Hr.
  destruct op as [k' h c']. cbn in Hcmd. subst c'. unfold Provenance.own_buffer in Hown. cbn in Hown, Hs.
  destruct Hs; try discriminate Hrd; try discriminate Hown; injection Hown as ->.
  - exists id, None, n0, past, fh, i, data, bytes, t'. injection Hbuf as ->. splits; auto; lia.
  - exists id, (Some off), n0, past, fh, i, data, bytes, t'. injection Hbuf as ->. splits; auto; lia.
Qed.

(** Nothing is freed or used by libnfs that a caller holds: the block of a [Data] that was handed out
    is not the buffer of a command that libnfs has. *)
Lemma handed_unused w k n : kept w -> outcomes (reg w) !! k = Some (Returned (VData (DataNoCopy p n))) -> unused p (outst w).
Proof.
  intros Hk Ho. destruct (kp_data _ Hk k n _ Ho eq_refl) as [Hrest _]. intros i c b m Hc Hb Hp.
  destruct (kp_out _ Hk i c b m Hc Hb Hp) as (cb & Hcb & Hcl). rewrite (Hrest i cb Hcb Hcl) in Hc. discriminate Hc.
Qed.

(** The block is handed out once. *)
Lemma handed_once w k k' n n' : kept w -> outcomes (reg w) !! k = Some (Returned (VData (DataNoCopy p n))) ->
  outcomes (reg w) !! k' = Some (Returned (VData (DataNoCopy p n'))) -> k = k'.
Proof.
  intros Hk Ho Ho'. destruct (kp_data _ Hk k n _ Ho eq_refl) as (_ & i & cb & _ & _ & _ & _ & _ & Hi & Hc & <- & _).
  destruct (kp_data _ Hk k' n' _ Ho' eq_refl) as (_ & j & cb' & _ & _ & _ & _ & _ & Hj & Hc' & <- & _).
  rewrite (kp_one _ Hk i j cb cb' Hi Hc Hj Hc') in Hi. congruence.
Qed.

End Block.

Section Intact.
Context `{E : Env} (p : Z).

(** C7: the data of a read is intact.  When a caller was given a [Data] that wraps the block
    [p], then it asked for a read, on a good token; libnfs was called for it with the
    block, and replied with as many bytes as the [Data] has, at most those asked for; and the
    block holds these bytes.  It still does at any later time, whatever happened since, until
    its owner frees it; provided that no caller has libnfs read into the block behind
    the loop's back. *)
Theorem read_data_intact t c w0 cs w k n : init true t c = inr w0 ->
  onward (elsewhere p) (fun q => q <> p) ∅ w0 cs w ->
  outcomes (reg w) !! k = Some (Returned (VData (DataNoCopy p n))) ->
  exists id off m past fh i data bytes t', cs !! k = Some (RRead id off m, past) /\ table past !! id = Some fh /\
    In (i, read_command p fh off m) (issued (lib w)) /\ In (Reply i n data bytes) (lib_events t') /\
    Z.of_nat (length bytes) = n /\ 0 < n <= m /\ data_cells (DataNoCopy p n) (heap w) = Some (Some <$> bytes).
Proof.
  intros H0 Hon Ho.
  assert (Hk : kept p False w) by (eapply onward_kept; [|exact H0|exact Hon]; intros q Hq; now left).
  destruct (data_of_read p False cs w k n (onward_history _ _ t c w0 cs w H0 Hon) Hk Ho)
    as (id & off & m & past & fh & i & data & bytes & t' & H1 & H2 & H3 & H4 & H5 & H6 & [H7|[[] _]]).
  exists id, off, m, past, fh, i, data, bytes, t'. auto 10.
Qed.

End Intact.

(** ** A read at work

    Four bytes are asked for and two are there.  Later the same reply is repeated, another
    caller asks for something, a timer fires, and the loop is shut down. *)

Definition two_bytes : Env := replying_env 1 2 CNull [x61; x62].
Definition read_events : list Event :=
  [Call (RRegister (CPointer (Tstruct "nfsfh") 77)); Call (RRead 1 None 4); SocketReady; SocketReady;
   Call (RPath (Stat "/x")); Elapse 50; TimerFired; Shutdown].
Definition ahead (n : nat) : World := @after two_bytes (take n read_events) start.

Definition read_called : Called :=
  <[2 := (RPath (Stat "/x"), ahead 4)]> (<[1 := (RRead 1 None 4, ahead 1)]>
    (<[0 := (RRegister (CPointer (Tstruct "nfsfh") 77), ahead 0)]> ∅)).

Lemma read_onward : @onward two_bytes (elsewhere 1) (fun q => q <> 1) ∅ start read_called (ahead 8).
Proof.
  apply (on_event _ _ _ _ _ (ahead 7) Shutdown); [|done|done|vm_compute; reflexivity].
  apply (on_event _ _ _ _ _ (ahead 6) TimerFired); [|done|done|vm_compute; reflexivity].
  apply (on_event _ _ _ _ _ (ahead 5) (Elapse 50)); [|done|done|vm_compute; reflexivity].
  apply (on_call _ _ _ _ _ (ahead 4) (RPath (Stat "/x"))); [|now intros ? ? ? ? [=]|vm_compute; reflexivity].
  apply (on_event _ _ _ _ _ (ahead 3) SocketReady); [|done|done|vm_compute; reflexivity].
  apply (on_event _ _ _ _ _ (ahead 2) SocketReady); [|done|done|vm_compute; reflexivity].
  apply (on_call _ _ _ _ _ (ahead 1) (RRead 1 None 4)); [|now intros ? ? ? ? [=]|vm_compute; reflexivity].
  apply (on_call _ _ _ _ ∅ (ahead 0) (RRegister (CPointer (Tstruct "nfsfh") 77)));
    [constructor|now intros ? ? ? ? [=]|vm_compute; reflexivity].
Qed.

Lemma read_data_intact_witness :
  outcomes (reg (ahead 8)) !! 1 = Some (Returned (VData (DataNoCopy 1 2))) /\
  exists id off m past fh i data bytes t', read_called !! 1 = Some (RRead id off m, past) /\ table past !! id = Some fh /\
    In (i, read_command 1 fh off m) (issued (lib (ahead 8))) /\
    In (Reply i 2 data bytes) (@lib_events two_bytes t') /\ Z.of_nat (length bytes) = 2 /\ 0 < 2 <= m /\
    data_cells (DataNoCopy 1 2) (heap (ahead 8)) = Some (Some <$> bytes).
Proof.
  split; [vm_compute; reflexivity|].
  apply (@read_data_intact two_bytes 1 10 100 start read_called (ahead 8) 1 2); [reflexivity|exact read_onward|].
  vm_compute. reflexivity.
Defined.

(** The bytes are those of the reply. *)
Example two_bytes_read : data_cells (DataNoCopy 1 2) (heap (ahead 8)) = Some [Some x61; Some x62].
Proof. vm_compute. reflexivity. Qed.

End ReadData.
