(* ===== verification/Tokens.v ===== *)
(** * What a token stands for

    A file handle is a number, and its number is never given out again.  So in all that
    the loop does, each call on a token is made on the pointer that was registered when
    the token was given out, or on none. *)

From stdpp Require Import base gmap strings list.
From S2P Require Import Prelude Posix Memory CType LibnfsApi.
From S2P Require Import StateMonad DispatchSource OperationType EventLoopState EventLoop.
From S2P Require Import EventLoopInv EventLoopSafe EventLoopProps EventLoopRuns HandleLife Provenance CallSpec FileHandle ClientApi ClientRuns.
Import HandleLife FileHandle ClientApi ClientRuns.
Import Provenance(Called, serves, table, history, hist_init, hist_call, hist_event).

Open Scope Z_scope.

Module Tokens.

(** ** The table, one event later *)

Lemma step_next t e t' : handle_step t e t' -> nextHandleID t <= nextHandleID t'.
Proof. destruct 1; cbn; lia. Qed.

(** Old numbers lead nowhere new. *)
Lemma step_old t e t' id fh : id < nextHandleID t -> handle_step t e t' -> handleRegistry t' !! id = Some fh ->
  handleRegistry t !! id = Some fh.
Proof.
  intros Hid H. destruct H as [e0 _|i x _|i|s x|]; cbn; [done|..].
  - now intros [_ Hx]%lookup_delete_Some.
  - now intros [_ Hx]%lookup_delete_Some.
  - intros [[<- _]|[_ Hx]]%lookup_insert_Some; [lia|exact Hx].
  - rewrite lookup_empty. discriminate.
Qed.

Section Loop.
Context `{E : Env} (HEX : exports_listed).

(** The token [id] stands for [a]: now, and in every call so far, or for nothing. *)
Record means (id a : Z) (cs : Called) (w : World) : Prop := mkMeans {
  mn_given : id < nextHandleID (handles w);
  mn_now : forall fh, handleRegistry (handles w) !! id = Some fh -> fh = a;
  mn_calls : forall k r past fh, cs !! k = Some (r, past) -> table past !! id = Some fh -> fh = a
}.

Record sound (cs : Called) (w : World) : Prop := mkSound {
  sd_reachable : reachable w;
  sd_history : history cs w;
  sd_given : forall k r past id, cs !! k = Some (r, past) -> is_Some (table past !! id) -> id < nextHandleID (handles w);
  sd_tokens : forall k s a past, cs !! k = Some (RRegister (CPointer s a), past) ->
    exists id, outcomes (reg w) !! k = Some (Returned (VUInt64 id)) /\ means id a cs w
}.

Lemma means_event cs e w w' id a : handle_step (handles w) e (handles w') -> means id a cs w -> means id a cs w'.
Proof.
  intros Hs [H1 H2 H3]. constructor; [pose proof (step_next _ _ _ Hs); lia| |exact H3].
  intros fh Hfh. apply H2. eapply step_old; eauto.
Qed.

Lemma reachable_step e w w' : reachable w -> handle e w = Some (tt, w') ->
  numbered (handles w) /\ handle_step (handles w) e (handles w').
Proof.
  intros Hr Hh. destruct (reachable_trace w Hr) as [es Ht].
  split; [exact (trace_numbered es w Ht)|exact (event_table e w w' (trace_plain es w Ht) Hh)].
Qed.

Lemma sound_event cs e w w' : sound cs w -> (forall r, e <> Call r) -> event_ok e w ->
  handle e w = Some (tt, w') -> sound cs w'.
Proof.
  intros [Hr Hh Hg Ht] He Hok Hrun. destruct (reachable_step e w w' Hr Hrun) as [_ Hs]. constructor.
  - eapply reach_step; eauto.
  - now apply (hist_event cs w e).
  - intros k r past id Hk Hid. specialize (Hg k r past id Hk Hid). pose proof (step_next _ _ _ Hs). lia.
  - intros k s a past Hk. destruct (Ht k s a past Hk) as (id & Ho & Hm). exists id.
    split; [eapply outcome_stays; eauto|now apply (means_event cs e w)].
Qed.

Lemma sound_call cs r w w' : sound cs w -> event_ok (Call r) w -> handle (Call r) w = Some (tt, w') ->
  sound (<[nextCall (reg w) := (r, w)]> cs) w'.
Proof.
  intros [Hr Hh Hg Ht] Hok Hrun. destruct (reachable_step _ w w' Hr Hrun) as [Hnum Hs]. pose proof (step_next _ _ _ Hs) as Hn.
  constructor.
  - eapply reach_step; eauto.
  - now apply hist_call.
  - intros k q past id [[<- [= <- <-]]|[_ Hk]]%lookup_insert_Some Hid; [specialize (Hnum id Hid)|specialize (Hg k q past id Hk Hid)]; lia.
  - intros k s a past [[<- [= -> <-]]|[_ Hk]]%lookup_insert_Some.
    + exists (nextHandleID (handles w)). split; [exact (register_answer _ w w' Hrun)|].
      assert (Ht' : handles w' = mkHandles (<[nextHandleID (handles w) := a]> (handleRegistry (handles w)))
                                           (nextHandleID (handles w) + 1)) by (inversion Hs; now subst).
      constructor; rewrite ?Ht'; cbn; [lia|..].
      * intros fh. rewrite lookup_insert_eq. congruence.
      * intros k q past fh [[<- [= <- <-]]|[_ Hk]]%lookup_insert_Some Hfh.
        -- specialize (Hnum (nextHandleID (handles w)) ltac:(eauto)). lia.
        -- specialize (Hg k q past _ Hk ltac:(eauto)). lia.
    + destruct (Ht k s a past Hk) as (id & Ho & Hm). exists id. split; [eapply outcome_stays; eauto|].
      apply (means_event cs (Call r) w w') in Hm as [M1 M2 M3]; [|exact Hs]. constructor; [exact M1|exact M2|].
      intros k' q past' fh [[<- [= <- <-]]|[_ Hk']]%lookup_insert_Some Hfh; [|eauto].
      destruct (Ht k s a past Hk) as (id' & Ho' & [_ N2 _]). rewrite Ho in Ho'. injection Ho' as <-. now apply N2.
Qed.

(** The states of a loop with the calls made, when callers keep to the contracts and all
    events are in [G]. *)
Definition lived (G : Event -> Prop) (cs : Called) (w : World) : Prop :=
  exists t c w0, init true t c = inr w0 /\ calls_on G ∅ w0 cs w.

Lemma calls_on_sound G cs0 w0 cs w : sound cs0 w0 -> calls_on G cs0 w0 cs w -> sound cs w.
Proof.
  intros H0. induction 1 as [|cs w r w' _ IH _ Hok Hh|cs w e w' _ IH He _ Hok Hh]; [exact H0|..].
  - now apply sound_call.
  - now apply (sound_event cs e w).
Qed.

Lemma lived_sound G cs w : lived G cs w -> sound cs w.
Proof.
  intros (t & c & w0 & H0 & Hon). eapply calls_on_sound; [|exact Hon]. constructor.
  - now apply (reach_init t c).
  - now apply (hist_init t c).
  - intros k r past id. rewrite lookup_empty. discriminate.
  - intros k s a past. rewrite lookup_empty. discriminate.
Qed.

(** The answer to a registration says what the token stands for. *)
Lemma told_means cs w s a id : sound cs w -> told cs w (RRegister (CPointer s a)) (Returned (VUInt64 id)) -> means id a cs w.
Proof.
  intros H (k & past & Hk & Ho). destruct (sd_tokens _ _ H k s a past Hk) as (id' & Ho' & Hm).
  rewrite Ho in Ho'. now injection Ho' as <-.
Qed.

(** The pointer of an open file that a command works on. *)
Definition handle_of (c : Command) : option Z :=
  match c with
  | CClose fh | CRead fh _ _ | CWrite fh _ _ | CPread fh _ _ _ | CPwrite fh _ _ _ | CFsync fh | CFstat fh
  | CFtruncate fh _ | CLseek fh _ _ => Some fh
  | _ => None
  end.

Lemma serves_handle past r h c id : serves past r h c -> Provenance.token r = Some id ->
  exists fh, table past !! id = Some fh /\ handle_of c = Some fh.
Proof. destruct 1; cbn; intros [=]; subst; eauto. Qed.


Lemma session_lived cs w : CallSpec.session cs w -> lived (fun _ => True) cs w.
Proof.
  induction 1 as [t c w Hi|cs w e w' _ (t & c & wi & Hi & Hon) He Hh]; [exists t, c, w; split; [exact Hi|constructor]|].
  exists t, c, wi. split; [exact Hi|].
  destruct e; try (eapply co_event; eauto; discriminate). cbn. now apply co_call.
Qed.

End Loop.

(** Two files, one after the other. *)
Definition two_files : Called * World := @CallSpec.session_after quiet_env
  [Call (RRegister (CPointer (Tstruct "nfsfh") 77)); Call (RFsync 1); Call (RClose 1);
   Call (RRegister (CPointer (Tstruct "nfsfh") 78)); Call (RFsync 2)] ∅ start.


End Tokens.
