(* ===== verification/Helpers.v ===== *)
(** * Smaller helpers

    What is left of Sources/NFSKit/Extensions.swift: errors from result codes, dates,
    readings of attribute dictionaries, integers read as [Int], and the helpers on
    Foundation's streams; and Sources/NFSKit/Parser.swift. *)

From Stdlib Require Import Strings.Byte Sorting.Sorted.
From stdpp Require Import base strings numbers list.
From S2P Require Import Prelude Double Posix CType LibnfsApi Extensions.
Import Ext.

Open Scope string_scope.
Open Scope list_scope.
Open Scope Z_scope.

Module Helpers.

(** ** Errors *)

(** [POSIXError.throwIfError(result, description:)]; [width] is the number of bits of
    the result's type, [dec] writes an integer.  [None]: the program stops, because
    the negated result does not fit its type or [Int32]. *)
Definition throwIfError (dec : Z -> string) (width result : Z) (description : option string)
    : option (POSIXError + unit) :=
  if result <? 0 then
    if decide (- result < 2 ^ (width - 1)) then
      errno ← int32_neg result;
      let errorDesc := (fun d => "Error code " +:+ dec errno +:+ ": " +:+ d)%string <$> description in
      Some (inl (mkPOSIXError (POSIXErrorCode_init errno) errorDesc))
    else None
  else Some (inr tt).

(** It throws exactly for negative results, with the code they negate, as the C
    callbacks do. *)
Lemma throwIfError_code dec width result description :
  32 <= width -> - 2 ^ 31 < result ->
  throwIfError dec width result description =
    Some (if result <? 0
          then inl (mkPOSIXError (POSIXErrorCode_init (- result))
                 ((fun d => "Error code " +:+ dec (- result) +:+ ": " +:+ d)%string <$> description))
          else inr tt).
Proof.
  intros Hw Hr. unfold throwIfError. destruct (Z.ltb_spec result 0) as [H|H]; [|done].
  assert (2 ^ 31 <= 2 ^ (width - 1)) by (apply Z.pow_le_mono_r; lia).
  rewrite decide_True by lia. rewrite int32_neg_some by lia. reflexivity.
Qed.

(** [INT_MIN] stops the program whatever the type. *)
Lemma throwIfError_min dec width description : throwIfError dec width (- 2 ^ 31) description = None.
Proof. unfold throwIfError. cbn [Z.ltb]. destruct (decide _); reflexivity. Qed.

(** ** Dates *)

(** [Date(timespec)]: the seconds since 1970 as a double. *)
Definition date (tv : Z * Z) : Double :=
  dadd (double_of_int tv.1) (ddiv (double_of_int tv.2) (double_of_int 1000000000)).

Example date_half : date (1, 500000000) = ddiv (double_of_int 3) two.
Proof. vm_compute. reflexivity. Qed.

(** Today's dates keep their microseconds, and not their nanoseconds. *)
Example date_rounds :
  date (1700000000, 1) = date (1700000000, 0) /\ date (1700000000, 1000) <> date (1700000000, 0).
Proof. vm_compute. split; [reflexivity|discriminate]. Qed.

(** ** Attributes *)

Definition int64 (x : Z) : option Z := if decide (- 2 ^ 63 <= x < 2 ^ 63) then Some x else None.

#[local] Arguments int64 : simpl never.

Lemma int64_in x : - 2 ^ 63 <= x < 2 ^ 63 -> int64 x = Some x.
Proof. intros H. unfold int64. now rewrite decide_True. Qed.

Lemma int64_out x : 2 ^ 63 <= x -> int64 x = None.
Proof. intros H. unfold int64. rewrite decide_False; [done|]. lia. Qed.

(** [items.overallSize]: a sum that overflows stops the program. *)
Fixpoint overallSize_from (result : Z) (items : list Attributes) : option Z :=
  match items with
  | [] => Some result
  | value :: items =>
      if isRegularFileKey value
      then r ← int64 (result + fileSizeKey value); overallSize_from r items
      else overallSize_from result items
  end.

Definition overallSize (items : list Attributes) : option Z := overallSize_from 0 items.

Definition regular_sizes (items : list Attributes) : list Z :=
  omap (fun a => if isRegularFileKey a then Some (fileSizeKey a) else None) items.

Definition total (l : list Z) : Z := foldr Z.add 0 l.

Lemma total_nonneg l : Forall (fun s => 0 <= s) l -> 0 <= total l.
Proof. unfold total. induction 1; cbn; lia. Qed.

(** Sizes are not negative, so the sum is exact as long as it fits. *)
Lemma overallSize_exact items : Forall (fun s => 0 <= s) (regular_sizes items) ->
  overallSize items = int64 (total (regular_sizes items)).
Proof.
  unfold overallSize.
  enough (H : forall acc, 0 <= acc < 2 ^ 63 -> Forall (fun s => 0 <= s) (regular_sizes items) ->
    overallSize_from acc items = int64 (acc + total (regular_sizes items))) by (intros Hs; now apply H).
  induction items as [|a items IH]; intros acc Ha Hs; cbn in *.
  - rewrite int64_in by lia. f_equal. lia.
  - destruct (isRegularFileKey a); cbn in *; [|now apply IH].
    apply Forall_cons in Hs as [Hs0 Hs].
    change (omap _ items) with (regular_sizes items) in *. pose proof (total_nonneg _ Hs) as Ht.
    change (foldr Z.add 0 (regular_sizes items)) with (total (regular_sizes items)).
    destruct (decide (acc + fileSizeKey a < 2 ^ 63)) as [Hd|Hd].
    + rewrite int64_in by lia. cbn. rewrite IH by (lia || done). f_equal. lia.
    + rewrite !int64_out; [done|lia|lia].
Qed.

(** [items.sortedByPath(comparison)].  The standard library's sort, on a predicate that
    is a strict order up to ties, keeps the items and leaves none in front of one
    that precedes it; ties stay as they were here. *)
Section Sort.
Variable localizedStandardCompare : string -> string -> comparison.
Variable order : comparison.

Definition precedes (a b : Attributes) : bool :=
  bool_decide (localizedStandardCompare (pathKey a) (pathKey b) = order).

Fixpoint insert_sorted (x : Attributes) (l : list Attributes) : list Attributes :=
  match l with
  | [] => [x]
  | y :: l => if precedes y x then y :: insert_sorted x l else x :: y :: l
  end.

Definition sortedByPath (items : list Attributes) : list Attributes := foldr insert_sorted [] items.

Definition may_follow (a b : Attributes) : Prop := precedes b a = false.

Lemma insert_permutes x l : insert_sorted x l ≡ₚ x :: l.
Proof.
  induction l as [|y l IH]; cbn; [done|]. destruct (precedes y x); [|done].
  rewrite IH. constructor.
Qed.

Lemma sortedByPath_permutes items : sortedByPath items ≡ₚ items.
Proof. induction items as [|x l IH]; cbn; [done|]. now rewrite insert_permutes, IH. Qed.

(** A strict order up to ties. *)
Hypothesis precedes_asym : forall a b, precedes a b = true -> precedes b a = false.
Hypothesis follow_trans : forall a b c, may_follow a b -> may_follow b c -> may_follow a c.

Lemma insert_ordered x l : StronglySorted may_follow l -> StronglySorted may_follow (insert_sorted x l).
Proof.
  induction 1 as [|y l Hl IH Hy]; cbn; [constructor; constructor|].
  destruct (precedes y x) eqn:E.
  - constructor; [exact IH|]. rewrite insert_permutes. constructor; [|exact Hy]. now apply precedes_asym.
  - constructor; [now constructor|]. constructor; [exact E|].
    eapply Forall_impl; [exact Hy|]. intros z. now apply follow_trans.
Qed.

Lemma sortedByPath_ordered items : StronglySorted may_follow (sortedByPath items).
Proof. induction items as [|x l IH]; cbn; [constructor|now apply insert_ordered]. Qed.

End Sort.

(** [data.scanInt(offset:as:)]. *)
Definition scanInt (t : IntType) (base offset : Z) (data : list byte) : option (option Z) :=
  match scanValue t base offset data with
  | Some (Some v) => Some <$> int64 v
  | Some None => Some None
  | None => None
  end.

(** ** Results

    [Parser]: the [data] of a callback as a value.  [None]: the pointer is read at
    a type that it does not have. *)

Section Parser.
Variable read_cstring : Z -> string.
Variable read_stat : Z -> Api.nfs_stat_64.
Context {StatVfs : Type}.
Variable read_statvfs : Z -> StatVfs.

Definition toVoid (data : cdata) : POSIXError + unit := inr tt.

Definition toString (data : cdata) : option (POSIXError + string) :=
  match data with
  | CNull => Some (inl (posix_error ENODATA "Invalid/Empty data."))
  | CString s => Some (inr s)
  | CPointer t a => if decide (t = Tchar) then Some (inr (read_cstring a)) else None
  end.

Definition toOpaquePointer (data : cdata) : POSIXError + cdata :=
  match data with CNull => inl (posix_error ENODATA "Invalid/Empty data.") | _ => inr data end.

Definition pointee {A} (t : ctype) (read : Z -> A) (data : cdata) : option (POSIXError + A) :=
  match data with
  | CNull => Some (inl (posix_error ENODATA "Invalid/Empty data."))
  | CPointer t' a => if decide (t' = t) then Some (inr (read a)) else None
  | CString _ => None
  end.

Definition tostatvfs : cdata -> option (POSIXError + StatVfs) := pointee (Tstruct "statvfs") read_statvfs.

Definition tostat64 : cdata -> option (POSIXError + Api.nfs_stat_64) := pointee (Tstruct "nfs_stat_64") read_stat.

(** What a callback may deliver on success is what its parser expects. *)
Lemma parsers_understand_contracts status data : 0 <= status ->
  (callback_allowed Api.nfs_stat64_async status data = true -> exists st, tostat64 data = Some (inr st)) /\
  (callback_allowed Api.nfs_statvfs_async status data = true -> exists st, tostatvfs data = Some (inr st)).
Proof.
  intros Hs. split; intros H; apply callback_allowed_success in H as (ok & p & [= <- <-] & _ & Hp); [|exact Hs| |exact Hs];
    destruct data as [| |t a]; try discriminate; cbn in Hp; apply andb_prop in Hp as [<-%bool_decide_eq_true_1 _];
    eexists; unfold tostat64, tostatvfs, pointee; rewrite decide_True by done; reflexivity.
Qed.

End Parser.

(** ** Streams *)

Section Streams.
Context {S E : Type}.
Variable notOpen : S -> bool.
Variables open_ close_ : S -> S.

(** [stream.withOpenStream(handler)]. *)
Definition withOpenStream (handler : S -> (E + unit) * S) (s : S) : (E + unit) * S :=
  let shouldCloseStream := notOpen s in
  let s := if notOpen s then open_ s else s in
  let '(r, s) := handler s in
  (r, if shouldCloseStream then close_ s else s).

End Streams.

Section Transfer.
Context {S : Type}.

(** [Stream.read] fills the buffer and says how much, [Stream.write] says how much it
    took; a negative number is an error. *)
Variable read : Z -> S -> Z * list byte * S.
Variable write_ : list byte -> S -> Z * S.
Variable streamError : S -> option POSIXError.

Definition stream_failure (s : S) : POSIXError :=
  match streamError s with Some e => e | None => posix_error EIO "Unknown stream error." end.

(** [input.readData(maxLength:)]; [None]: a negative length stops the program. *)
Definition readData (length : Z) (s : S) : option ((POSIXError + list byte) * S) :=
  if length <? 0 then None
  else let '(result, buffer, s) := read length s in
       if result <? 0 then Some (inl (stream_failure s), s)
       else Some (inr (take (Z.to_nat result) buffer), s).

(** [output.write(data)]. *)
Definition write (data : list byte) (s : S) : (POSIXError + Z) * S :=
  let '(result, s) := write_ data s in
  if result <? 0 then (inl (stream_failure s), s) else (inr result, s).

End Transfer.

(** Writing all of a list of pieces to a stream that takes everything, and reading
    it back from a stream that gives as much as it is asked for. *)
Definition give (n : Z) (s : list byte) : Z * list byte * list byte :=
  let got := take (Z.to_nat n) s in
  (Z.of_nat (length got), got ++ repeat x00 (Z.to_nat n - length got), drop (Z.to_nat n) s).

Lemma readData_prefix err n s : 0 <= n ->
  readData give err n s = Some (inr (take (Z.to_nat n) s), drop (Z.to_nat n) s).
Proof.
  intros Hn. unfold readData, give. rewrite (proj2 (Z.ltb_ge _ _)) by lia. cbv zeta.
  rewrite (proj2 (Z.ltb_ge _ _)) by lia. rewrite Nat2Z.id, take_app_length. reflexivity.
Qed.

End Helpers.
