(* ===== verification/Removal.v ===== *)
(** * Removing a directory tree

    [removeItem], [removeDirectoryRecursive] and [contentsOfDirectory] of
    Sources/NFSKit/NFSClient.swift, over the answers of the server.  On a tree
    without symbolic links they remove what lies under the path and nothing
    else; [stat] follows symbolic links, and so does the removal. *)

From Stdlib Require Import Strings.Byte Strings.Ascii.
From stdpp Require Import base gmap strings numbers list.
From S2P Require Import Prelude Posix CType LibnfsApi Extensions.
Import Ext.

Open Scope string_scope.
Open Scope list_scope.
Open Scope Z_scope.

Module Removal.

(** [name.contains("/")]. *)
Fixpoint has_slash (s : string) : bool :=
  match s with
  | EmptyString => false
  | String c s => Ascii.eqb c "/" || has_slash s
  end.

(** The names that [removeDirectoryRecursive] does not skip. *)
Definition safe_name (name : string) : bool :=
  negb (has_slash name) && negb (name =? ".")%string && negb (name =? "..")%string.

Section Client.
Context {S : Type}.
Variable stat : string -> S -> (POSIXError + Api.nfs_stat_64) * S.
Variables unlink rmdir : string -> S -> (POSIXError + unit) * S.
Variable opendir : string -> S -> (POSIXError + Z) * S.
Variable readdirAll : Z -> string -> S -> (POSIXError + list Attributes) * S.

Abbreviation removal := (string -> S -> option ((POSIXError + unit) * S)).

Definition contentsOfDirectory (path : string) (s : S) : (POSIXError + list Attributes) * S :=
  match opendir path s with
  | (inl e, s) => (inl e, s)
  | (inr dirPtr, s) => readdirAll dirPtr path s
  end.

(** The loop of [removeDirectoryRecursive] and the final [rmdir]; [removeItem] is
    the recursive call. *)
Fixpoint remove_items (removeItem : removal) (path : string) (items : list Attributes) (s : S)
    : option ((POSIXError + unit) * S) :=
  match items with
  | [] => Some (rmdir path s)
  | item :: items =>
      if safe_name (nameKey item) then
        match removeItem (child_path path (nameKey item)) s with
        | Some (inr _, s) => remove_items removeItem path items s
        | r => r
        end
      else remove_items removeItem path items s
  end.

Definition removeDirectoryRecursive (removeItem : removal) : removal := fun path s =>
  match contentsOfDirectory path s with
  | (inl e, s) => Some (inl e, s)
  | (inr items, s) => remove_items removeItem path items s
  end.

(** [fuel] bounds the depth of the recursion. *)
Fixpoint removeItem (fuel : nat) : removal := fun path s =>
  match fuel with
  | O => None
  | Datatypes.S fuel =>
      match stat path s with
      | (inl e, s) => Some (inl e, s)
      | (inr st, s) =>
          if Z.land (Api.nfs_mode st) S_IFMT =? S_IFDIR
          then removeDirectoryRecursive (removeItem fuel) path s
          else Some (unlink path s)
      end
  end.

End Client.

(** ** Paths *)

Definition ends_slash (path : string) : bool :=
  match rev (String.list_ascii_of_string path) with c :: _ => Ascii.eqb c "/" | [] => false end.

Definition dir_prefix (path : string) : string := if ends_slash path then path else (path +:+ "/")%string.

Lemma child_path_prefix path name : child_path path name = (dir_prefix path +:+ name)%string.
Proof.
  unfold child_path, dir_prefix, ends_slash. destruct (rev _) as [|c l]; [now rewrite string_app_assoc|].
  destruct (Ascii.eqb c "/"); [done|now rewrite string_app_assoc].
Qed.

(** One component of a path that leads downwards. *)
Definition plain (name : string) : Prop :=
  (forall a b, name <> (a +:+ "/" +:+ b)%string) /\ name <> "." /\ name <> "..".

(** A name that a directory entry can have. *)
Definition entry_name (name : string) : Prop := name <> "" /\ plain name.

Lemma has_slash_spec name : has_slash name = true <-> exists a b, name = (a +:+ "/" +:+ b)%string.
Proof.
  split.
  - induction name as [|c name IH]; [done|]. intros [Hc|Hn]%orb_prop.
    + apply Ascii.eqb_eq in Hc as ->. now exists "", name.
    + destruct (IH Hn) as (a & b & ->). now exists (String c a), b.
  - intros (a & b & ->). induction a as [|c a IH]; [done|]. rewrite string_app_cons. cbn. rewrite IH.
    apply orb_true_r.
Qed.

(** The guards of the loop keep exactly these names. *)
Lemma safe_name_spec name : safe_name name = true <-> plain name.
Proof.
  unfold safe_name, plain. rewrite !andb_true_iff, !negb_true_iff, !String.eqb_neq, <- not_true_iff_false,
    has_slash_spec. naive_solver.
Qed.

Lemma entry_no_slash name : entry_name name -> has_slash name = false.
Proof. intros [_ [H _]]. apply not_true_iff_false. rewrite has_slash_spec. naive_solver. Qed.

Lemma entry_safe name : entry_name name -> safe_name name = true.
Proof. intros [_ H]. now apply safe_name_spec. Qed.

Lemma no_slash_last name : name <> "" -> has_slash name = false ->
  exists c l, rev (String.list_ascii_of_string name) = c :: l /\ Ascii.eqb c "/" = false.
Proof.
  induction name as [|x name IH]; [done|]. intros _ [Hx Hn]%orb_false_elim.
  destruct name as [|y name]; [exists x, []; auto|].
  destruct IH as (c & l & E & Hc); [done|exact Hn|]. exists c, (l ++ [x]). split; [|exact Hc].
  change (String.list_ascii_of_string (String x (String y name)))
    with (x :: String.list_ascii_of_string (String y name)). cbn [rev]. now rewrite E.
Qed.

Lemma ends_slash_name path name : entry_name name -> ends_slash (path +:+ name) = false.
Proof.
  intros H. destruct (no_slash_last name (proj1 H) (entry_no_slash name H)) as (c & l & E & Hc).
  unfold ends_slash. now rewrite list_ascii_app, rev_app_distr, E.
Qed.

Lemma child_path_inj path a b : child_path path a = child_path path b -> a = b.
Proof. rewrite !child_path_prefix. apply (inj (String.append (dir_prefix path))). Qed.

Lemma child_longer path name : entry_name name ->
  (String.length path < String.length (child_path path name))%nat.
Proof.
  intros [H _]. rewrite child_path_prefix, string_length_app. unfold dir_prefix.
  assert (0 < String.length name)%nat by (destruct name; [done|cbn; lia]).
  destruct (ends_slash path); [lia|]. rewrite string_length_app. cbn. lia.
Qed.

(** The paths of a directory tree: [path] and what lies below it. *)
Inductive under (path : string) : string -> Prop :=
  | under_refl : under path path
  | under_child q name : under path q -> entry_name name -> under path (child_path q name).

Lemma under_longer path q : under path q -> q = path \/ (String.length path < String.length q)%nat.
Proof.
  induction 1 as [|q name Hq IH Hn]; [now left|]. right.
  pose proof (child_longer q name Hn). destruct IH as [->|]; lia.
Qed.

(** Below [path] is below one of its entries. *)
Lemma under_step path q : under path q ->
  q = path \/ exists name, entry_name name /\ under (child_path path name) q.
Proof.
  induction 1 as [|q name Hq IH Hn]; [now left|]. right.
  destruct IH as [->|(m & Hm & Hu)]; [exists name; split; [done|constructor]|].
  exists m. split; [done|]. now constructor.
Qed.

Lemma under_trans a b c : under a b -> under b c -> under a c.
Proof. intros H. induction 1; [done|]. now constructor. Qed.

(** The text of a path below the entry [name]: a slash follows the name, or nothing. *)
Definition boundary (r : string) : Prop := r = "" \/ exists r', r = ("/" +:+ r')%string.

Lemma under_text path name q : entry_name name -> under (child_path path name) q ->
  exists r, q = (dir_prefix path +:+ (name +:+ r))%string /\ boundary r /\ ends_slash q = false.
Proof.
  intros Hn. induction 1 as [|q m Hq (r & -> & Hr & He) Hm].
  - exists "". rewrite child_path_prefix, string_app_nil. split; [done|]. split; [now left|].
    now apply ends_slash_name.
  - rewrite child_path_prefix. unfold dir_prefix at 1. rewrite He.
    exists (r +:+ ("/" +:+ m))%string. split; [now rewrite !string_app_assoc|]. split.
    + right. destruct Hr as [->|[r' ->]]; [now exists m|]. exists (r' +:+ ("/" +:+ m))%string. done.
    + now apply ends_slash_name.
Qed.

Lemma boundary_split a : forall b r1 r2, has_slash a = false -> has_slash b = false ->
  boundary r1 -> boundary r2 -> (a +:+ r1 = b +:+ r2)%string -> a = b.
Proof.
  induction a as [|x a IH]; intros [|y b] r1 r2 Ha Hb H1 H2 E; [done| | |].
  - rewrite string_app_cons in E. destruct H1 as [->|[r ->]]; [discriminate|].
    injection E as <- _. discriminate.
  - rewrite string_app_cons in E. destruct H2 as [->|[r ->]]; [discriminate|].
    injection E as -> _. discriminate.
  - rewrite !string_app_cons in E. injection E as -> E.
    apply orb_false_elim in Ha as [_ Ha], Hb as [_ Hb]. f_equal. exact (IH b r1 r2 Ha Hb H1 H2 E).
Qed.

(** Two entries of a directory have nothing in common below them. *)
Lemma under_disjoint path a b q : entry_name a -> entry_name b ->
  under (child_path path a) q -> under (child_path path b) q -> a = b.
Proof.
  intros Ha Hb Hqa Hqb. destruct (under_text _ _ _ Ha Hqa) as (r1 & E1 & H1 & _).
  destruct (under_text _ _ _ Hb Hqb) as (r2 & E2 & H2 & _). rewrite E1 in E2.
  apply (inj (String.append (dir_prefix path))) in E2.
  exact (boundary_split a b r1 r2 (entry_no_slash _ Ha) (entry_no_slash _ Hb) H1 H2 E2).
Qed.

(** ** The paths that a removal touches *)

(** [path], and what is reached from it downwards. *)
Inductive below (path : string) : string -> Prop :=
  | below_refl : below path path
  | below_child q name : below path q -> plain name -> below path (child_path q name).

Lemma below_prefix path q : below path q -> exists r, q = (path +:+ r)%string.
Proof.
  induction 1 as [|q name _ (r & ->) _]; [exists ""; now rewrite string_app_nil|].
  rewrite child_path_prefix. unfold dir_prefix. destruct (ends_slash _); rewrite ?string_app_assoc; eauto.
Qed.

Section Confined.
Context {S : Type}.
Variable stat : string -> S -> (POSIXError + Api.nfs_stat_64) * S.
Variables unlink rmdir : string -> S -> (POSIXError + unit) * S.
Variable opendir : string -> S -> (POSIXError + Z) * S.
Variable readdirAll : Z -> string -> S -> (POSIXError + list Attributes) * S.
Variable I : S -> Prop.

(** The operations at [q] keep [I]. *)
Record keeps_at (q : string) : Prop := mkKeeps {
  keep_stat : forall s, I s -> I (snd (stat q s));
  keep_unlink : forall s, I s -> I (snd (unlink q s));
  keep_rmdir : forall s, I s -> I (snd (rmdir q s));
  keep_opendir : forall s, I s -> I (snd (opendir q s));
  keep_readdir : forall d s, I s -> I (snd (readdirAll d q s))
}.

Definition preserves (rm : string -> S -> option ((POSIXError + unit) * S)) (q : string) : Prop :=
  forall s r, I s -> rm q s = Some r -> I (snd r).

Lemma remove_items_confined path q rm items :
  below path q -> (forall p, below path p -> keeps_at p) -> (forall p, below path p -> preserves rm p) ->
  preserves (fun p => remove_items rmdir rm p items) q.
Proof.
  intros Hq Hk Hrm. induction items as [|item items IH]; intros s r Hs; cbn [remove_items].
  - intros [= <-]. now apply (Hk q Hq).
  - destruct (safe_name (nameKey item)) eqn:En; [|now apply IH].
    pose proof (below_child _ _ _ Hq (proj1 (safe_name_spec _) En)) as Hc.
    destruct (rm (child_path q (nameKey item)) s) as [[[e|u] s1]|] eqn:Er; [| |discriminate].
    + intros [= <-]. exact (Hrm _ Hc s _ Hs Er).
    + apply IH. exact (Hrm _ Hc s _ Hs Er).
Qed.

Lemma removeItem_confined path fuel : (forall p, below path p -> keeps_at p) ->
  forall q, below path q -> preserves (removeItem stat unlink rmdir opendir readdirAll fuel) q.
Proof.
  intros Hk. induction fuel as [|fuel IH]; intros q Hq s r Hs; [discriminate|]. cbn [removeItem].
  pose proof (keep_stat q (Hk q Hq) s Hs) as H1.
  destruct (stat q s) as [[e|st] s1]; cbn in H1; [now intros [= <-]|].
  destruct (_ =? _); [|intros [= <-]; now apply (Hk q Hq)].
  unfold removeDirectoryRecursive, contentsOfDirectory.
  pose proof (keep_opendir q (Hk q Hq) s1 H1) as H2.
  destruct (opendir q s1) as [[e|d] s2]; cbn in H2; [now intros [= <-]|].
  pose proof (keep_readdir q (Hk q Hq) d s2 H2) as H3.
  destruct (readdirAll d q s2) as [[e|items] s3]; cbn in H3; [now intros [= <-]|].
  now apply (remove_items_confined path q _ items Hq Hk IH).
Qed.

(** Whatever the server answers, a removal asks it only about paths that
    extend the given one by entry names free of slashes and of "." and "..": a
    property of the server's state that the operations on those paths preserve is
    preserved by the removal, whether it succeeds or fails. *)
Theorem removal_stays_below path fuel s r :
  (forall q, below path q -> keeps_at q) -> I s ->
  removeItem stat unlink rmdir opendir readdirAll fuel path s = Some r -> I (snd r).
Proof. intros Hk Hs Hr. exact (removeItem_confined path fuel Hk path (below_refl path) s r Hs Hr). Qed.

End Confined.

(** ** The tree on the server *)

Inductive Node := File | Directory.

#[export] Instance Node_eq_dec : EqDecision Node.
Proof. solve_decision. Defined.

Abbreviation tree := (gmap string Node).

(** An entry of the directory at [path]. *)
Definition entry_of (m : tree) (path name : string) : Prop :=
  entry_name name /\ is_Some (m !! child_path path name).

(** The one way to write a path: "/", or no slash at the end. *)
Definition clean (path : string) : Prop := path = "/" \/ path <> "" /\ ends_slash path = false.

(** What exists has a clean path and lies in a directory. *)
Definition closed (m : tree) : Prop :=
  (forall path, is_Some (m !! path) -> clean path) /\
  forall path name, clean path -> entry_of m path name -> m !! path = Some Directory.

(** [m'] is [m] without what is at the paths [P]. *)
Definition without (P : string -> Prop) (m m' : tree) : Prop :=
  forall q, (P q -> m' !! q = None) /\ (~ P q -> m' !! q = m !! q).

Lemma without_some P m m' q n : without P m m' -> m' !! q = Some n -> ~ P q /\ m !! q = Some n.
Proof.
  intros H Hq. assert (~ P q) as Hn by (intros HP; rewrite (proj1 (H q) HP) in Hq; discriminate).
  split; [exact Hn|]. now rewrite <- (proj2 (H q) Hn).
Qed.

(** A tree as the server holds it; no path is longer than [n]. *)
Record tree_ok (n : nat) (m : tree) : Prop := mkTreeOk {
  tree_closed : closed m;
  tree_short : forall q, is_Some (m !! q) -> (String.length q < n)%nat
}.

Lemma clean_child path name : entry_name name -> clean (child_path path name).
Proof.
  intros Hn. right. rewrite child_path_prefix. split; [|now apply ends_slash_name].
  intros E. apply (f_equal String.length) in E. rewrite string_length_app in E.
  destruct Hn as [Hn _]. destruct name; [done|]. cbn in E. lia.
Qed.

Lemma clean_under path q : clean path -> under path q -> clean q.
Proof. intros Hp [|q' name _ Hn]; [exact Hp|now apply clean_child]. Qed.

Lemma present_clean n m path : tree_ok n m -> is_Some (m !! path) -> clean path.
Proof. intros [[Hp _] _]. apply Hp. Qed.

(** Removing whole subtrees keeps it so. *)
Lemma tree_ok_without n P m m' : tree_ok n m -> without P m m' ->
  (forall q name, P q -> entry_name name -> P (child_path q name)) -> tree_ok n m'.
Proof.
  intros [[Hp Hc] Hs] H HP.
  assert (Hsub : forall q, is_Some (m' !! q) -> is_Some (m !! q)).
  { intros q [x Hx]. destruct (without_some _ _ _ _ _ H Hx). eauto. }
  split; [split|].
  - intros q Hq. apply Hp, Hsub, Hq.
  - intros path name Hne [Hn [x Hx]]. destruct (without_some _ _ _ _ _ H Hx) as [Hnp Hs0].
    rewrite (proj2 (H path)); [|eauto]. apply (Hc path name Hne). split; [exact Hn|eauto].
  - intros q Hq. apply Hs, Hsub, Hq.
Qed.

(** Below a path without entries there is nothing. *)
Lemma nothing_below n m path q : tree_ok n m -> clean path -> (forall name, ~ entry_of m path name) ->
  under path q -> q <> path -> m !! q = None.
Proof.
  intros [[_ Hc] _] Hp He Hq Hne. destruct (m !! q) as [x|] eqn:Ex; [|done]. exfalso.
  revert x Ex Hne. induction Hq as [|q name Hq IH Hn]; intros x Ex Hne; [done|].
  assert (Hd : m !! q = Some Directory).
  { apply (Hc q name); [now apply (clean_under path)|split; eauto]. }
  destruct (decide (q = path)) as [->|Hqp]; [apply (He name); split; eauto|].
  exact (IH _ Hd Hqp).
Qed.

(** So deleting it removes its whole subtree. *)
Lemma delete_leaf n m path : tree_ok n m -> clean path -> (forall name, ~ entry_of m path name) ->
  without (under path) m (delete path m).
Proof.
  intros Hok Hp He q. destruct (decide (q = path)) as [->|Hq].
  - split; [intros _; apply lookup_delete_eq|]. intros Hu. destruct Hu. constructor.
  - rewrite lookup_delete_ne by done. split; [|done]. intros Hu. eapply nothing_below; eauto.
Qed.

(** What the client relies on: on a tree of files and directories [stat] tells
    them apart, a directory is listed with its entries, each once, [unlink]
    removes a file and [rmdir] an empty directory. *)
Class TreeServer (S : Type) := {
  stat : string -> S -> (POSIXError + Api.nfs_stat_64) * S;
  unlink : string -> S -> (POSIXError + unit) * S;
  rmdir : string -> S -> (POSIXError + unit) * S;
  opendir : string -> S -> (POSIXError + Z) * S;
  readdirAll : Z -> string -> S -> (POSIXError + list Attributes) * S;
  view : S -> tree;
  stat_ok : forall p s n, view s !! p = Some n ->
    exists st s', stat p s = (inr st, s') /\ view s' = view s /\
      (Z.land (Api.nfs_mode st) S_IFMT =? S_IFDIR) = match n with Directory => true | File => false end;
  list_ok : forall p s, view s !! p = Some Directory ->
    exists items s', contentsOfDirectory opendir readdirAll p s = (inr items, s') /\ view s' = view s /\
      NoDup (map nameKey items) /\
      forall name, name ∈ map nameKey items <-> entry_of (view s) p name;
  unlink_ok : forall p s, view s !! p = Some File ->
    exists s', unlink p s = (inr tt, s') /\ view s' = delete p (view s);
  rmdir_ok : forall p s, view s !! p = Some Directory -> (forall name, ~ entry_of (view s) p name) ->
    exists s', rmdir p s = (inr tt, s') /\ view s' = delete p (view s)
}.

Section Tree.
Context {S : Type} `{T : TreeServer S}.

Abbreviation remove := (removeItem stat unlink rmdir opendir readdirAll).

(** The specification of a removal at [path]. *)
Definition removes (n : nat) (rm : string -> S -> option ((POSIXError + unit) * S)) (path : string) : Prop :=
  forall s, tree_ok n (view s) -> is_Some (view s !! path) ->
    exists s', rm path s = Some (inr tt, s') /\ without (under path) (view s) (view s').

(** One entry of a directory is removed: the others stay. *)
Lemma entries_left n path name m m' : tree_ok n m -> m !! path = Some Directory -> entry_name name ->
  without (under (child_path path name)) m m' ->
  m' !! path = Some Directory /\ forall x, entry_of m' path x <-> entry_of m path x /\ x <> name.
Proof.
  intros Hok Hd Hn H. split.
  - rewrite (proj2 (H path)); [exact Hd|]. intros Hu. pose proof (child_longer path name Hn).
    destruct (under_longer _ _ Hu) as [E|]; [rewrite <- E in *|]; lia.
  - intros x. split.
    + intros [Hx [y Hy]]. destruct (without_some _ _ _ _ _ H Hy) as [Hnu Hy0].
      split; [split; eauto|]. intros ->. apply Hnu. constructor.
    + intros [[Hx Hy] Hne]. split; [exact Hx|]. rewrite (proj2 (H _)); [exact Hy|].
      intros Hu. apply Hne. eapply under_disjoint; eauto. constructor.
Qed.

(** The loop, when the recursive call removes each entry. *)
Lemma remove_items_spec n rm path items : forall s,
  tree_ok n (view s) -> view s !! path = Some Directory -> NoDup (map nameKey items) ->
  (forall name, name ∈ map nameKey items <-> entry_of (view s) path name) ->
  (forall name, entry_name name -> removes n rm (child_path path name)) ->
  exists s', remove_items rmdir rm path items s = Some (inr tt, s') /\
    without (under path) (view s) (view s').
Proof.
  induction items as [|item items IH]; intros s Hok Hd Hnd Hall Hrm; cbn [remove_items].
  { assert (He : forall name, ~ entry_of (view s) path name).
    { intros name Hn. apply Hall in Hn. inversion Hn. }
    destruct (rmdir_ok path s Hd He) as (s' & Hr & Hv).
    exists s'. rewrite Hr, Hv. split; [done|]. eapply delete_leaf; [exact Hok| |exact He].
    eapply present_clean; eauto. }
  cbn [map] in Hnd, Hall. apply NoDup_cons in Hnd as [Hni Hnd].
  destruct (proj1 (Hall (nameKey item)) ltac:(left)) as [Hn Hex].
  rewrite (entry_safe _ Hn). destruct (Hrm _ Hn s Hok Hex) as (s1 & -> & Hw).
  destruct (entries_left n path _ _ _ Hok Hd Hn Hw) as [Hd1 Hleft].
  assert (Hok1 : tree_ok n (view s1)).
  { eapply tree_ok_without; [exact Hok|exact Hw|]. intros; now constructor. }
  destruct (IH s1 Hok1 Hd1 Hnd) as (s' & Hr & Hw'); [|exact Hrm|].
  { intros x. rewrite Hleft, <- Hall, elem_of_cons. split; [intros Hx; split; [auto|congruence]|].
    intros [[->|] ?]; [done|auto]. }
  exists s'. split; [exact Hr|]. intros q. split; [apply Hw'|]. intros Hq.
  rewrite (proj2 (Hw' q) Hq). apply Hw. intros Hu. apply Hq.
  eapply under_trans; [|exact Hu]. apply under_child; [constructor|exact Hn].
Qed.

(** Enough fuel: the recursion only enters paths that exist, each longer than
    the one before. *)
Lemma removeItem_spec n fuel : forall path, (n <= String.length path + fuel)%nat ->
  removes n (remove fuel) path.
Proof.
  induction fuel as [|fuel IH]; intros path Hf s Hok Hex.
  { pose proof (tree_short _ _ Hok path Hex). lia. }
  destruct Hex as [node Hnode]. cbn [removeItem].
  destruct (stat_ok path s node Hnode) as (st & s1 & -> & Hv & ->). destruct node.
  - rewrite <- Hv in *. destruct (unlink_ok path s1 Hnode) as (s' & -> & Hv').
    pose proof (present_clean _ _ path Hok ltac:(eauto)) as Hne.
    exists s'. split; [done|]. rewrite Hv'. eapply delete_leaf; [exact Hok|exact Hne|].
    intros name Hn. pose proof (proj2 (tree_closed _ _ Hok) _ _ Hne Hn). congruence.
  - rewrite <- Hv in *. unfold removeDirectoryRecursive.
    destruct (list_ok path s1 Hnode) as (items & s2 & -> & Hv2 & Hnd & Hall). rewrite <- Hv2 in *.
    apply (remove_items_spec n (remove fuel)); auto. intros name Hn. apply IH.
    pose proof (child_longer path name Hn). lia.
Qed.

(** C21: removing an item on a server that holds a tree of files and directories
    succeeds and removes the item and all that lies below it, and nothing else:
    every other path holds what it held.  The recursion ends: it is no deeper than
    the longest path is long. *)
Theorem removeItem_removes_subtree fuel path s :
  tree_ok fuel (view s) -> is_Some (view s !! path) ->
  exists s', removeItem stat unlink rmdir opendir readdirAll fuel path s = Some (inr tt, s') /\
    forall q, (under path q -> view s' !! q = None) /\
              (~ under path q -> view s' !! q = view s !! q).
Proof. intros Hok Hex. apply (removeItem_spec fuel fuel path); [lia|exact Hok|exact Hex]. Qed.

End Tree.

(** ** A server that holds a tree *)

Fixpoint strip (pre s : string) : option string :=
  match pre, s with
  | EmptyString, _ => Some s
  | String a pre, String b s => if Ascii.eqb a b then strip pre s else None
  | String _ _, EmptyString => None
  end.

Lemma strip_spec pre : forall s r, strip pre s = Some r <-> s = (pre +:+ r)%string.
Proof.
  induction pre as [|a pre IH]; intros [|b s] r; cbn [strip].
  - change ("" +:+ r)%string with r. split; congruence.
  - change ("" +:+ r)%string with r. split; congruence.
  - split; [discriminate|]. rewrite string_app_cons. discriminate.
  - rewrite string_app_cons. destruct (Ascii.eqb_spec a b) as [->|Hne].
    + rewrite IH. split; [now intros ->|now intros [= ->]].
    + split; [done|]. now intros [= -> _].
Qed.

Definition is_entry_name (name : string) : bool := negb (name =? "")%string && safe_name name.

Lemma is_entry_name_spec name : is_entry_name name = true <-> entry_name name.
Proof.
  unfold is_entry_name, entry_name. rewrite <- safe_name_spec.
  destruct (String.eqb_spec name ""); cbn; intuition congruence.
Qed.

(** The names in the directory at [path]. *)
Definition names (path : string) (m : tree) : list string :=
  elements (list_to_set (List.filter is_entry_name
    (omap (strip (dir_prefix path)) (map_to_list m).*1)) : gset string).

Lemma names_spec path m name : name ∈ names path m <-> entry_of m path name.
Proof.
  unfold names. rewrite elem_of_elements, elem_of_list_to_set, list_elem_of_In, filter_In,
    is_entry_name_spec, <- list_elem_of_In, list_elem_of_omap. unfold entry_of.
  split.
  - intros [(q & Hq & Hs) Hn]. split; [exact Hn|]. apply strip_spec in Hs as ->.
    rewrite child_path_prefix. apply list_elem_of_fmap in Hq as ([q x] & E & Hx).
    cbn in E. subst q. apply elem_of_map_to_list in Hx. eauto.
  - intros [Hn [x Hx]]. split; [|exact Hn]. exists (child_path path name). split.
    + apply list_elem_of_fmap. exists (child_path path name, x). split; [done|].
      now apply elem_of_map_to_list.
    + apply strip_spec, child_path_prefix.
Qed.

Definition mode_of (n : Node) : Z := match n with File => S_IFREG | Directory => S_IFDIR end.

Definition stat_of (n : Node) : Api.nfs_stat_64 :=
  Api.mk_nfs_stat_64 0 0 (mode_of n) 1 0 0 0 0 0 0 0 0 0 0 0 0 0.

Definition entry_item (path name : string) : Attributes :=
  mkAttributes name (child_path path name) 0 1 unknown false false false (0, 0) (0, 0) (0, 0).

Definition ENOENT : POSIXError := posix_error_plain 2.
Definition ENOTDIR : POSIXError := posix_error_plain 20.
Definition EISDIR : POSIXError := posix_error_plain 21.
Definition ENOTEMPTY : POSIXError := posix_error_plain 66.

#[refine] Instance tree_server : TreeServer tree := {|
  stat p m := (match m !! p with Some n => inr (stat_of n) | None => inl ENOENT end, m);
  unlink p m := match m !! p with
                | Some File => (inr tt, delete p m)
                | Some Directory => (inl EISDIR, m)
                | None => (inl ENOENT, m)
                end;
  rmdir p m := match m !! p with
               | Some Directory => match names p m with [] => (inr tt, delete p m) | _ => (inl ENOTEMPTY, m) end
               | Some File => (inl ENOTDIR, m)
               | None => (inl ENOENT, m)
               end;
  opendir p m := match m !! p with
                 | Some Directory => (inr 0, m)
                 | Some File => (inl ENOTDIR, m)
                 | None => (inl ENOENT, m)
                 end;
  readdirAll _ p m := (inr (map (entry_item p) (names p m)), m);
  view m := m
|}.
Proof.
  - intros p m n Hn. rewrite Hn. eexists _, _. split; [reflexivity|]. split; [done|]. now destruct n.
  - intros p m Hd. unfold contentsOfDirectory. rewrite Hd. eexists _, _. split; [reflexivity|].
    split; [done|]. rewrite map_map, map_id. split; [apply NoDup_elements|]. intros name. apply names_spec.
  - intros p m Hf. rewrite Hf. eauto.
  - intros p m Hd He. rewrite Hd. destruct (names p m) as [|name l] eqn:En; [eauto|].
    destruct (He name). apply names_spec. rewrite En. left.
Defined.

(** A directory with a file, a directory and a file in that, and a neighbour. *)
Definition demo_tree : tree :=
  list_to_map [("/", Directory); ("/d", Directory); ("/d/f", File); ("/d/e", Directory); ("/d/e/g", File); ("/df", File)]%string.

Definition is_clean (p : string) : bool :=
  (p =? "/")%string || negb (p =? "")%string && negb (ends_slash p).

Lemma is_clean_spec p : is_clean p = true <-> clean p.
Proof.
  unfold is_clean, clean. destruct (String.eqb_spec p "/"), (String.eqb_spec p ""), (ends_slash p);
    cbn; intuition congruence.
Qed.

(** [closed] and the bound, checked path by path. *)
Definition parent_ok (m : tree) (q : string) : bool :=
  forallb (fun p => match strip (dir_prefix p) q with
                    | Some name => negb (is_entry_name name) || negb (is_clean p) ||
                                 bool_decide (m !! p = Some Directory)
                    | None => true
                    end) (map (fun n => String.substring 0 n q) (seq 0 (S (String.length q)))).

Definition tree_okb (n : nat) (m : tree) : bool :=
  forallb (fun q => is_clean q && ((String.length q <? n)%nat && parent_ok m q)) (map_to_list m).*1.

Lemma substring_prefix p r : String.substring 0 (String.length p) (p +:+ r) = p.
Proof. induction p as [|x p IH]; [now destruct r|]. rewrite string_app_cons. cbn. now f_equal. Qed.

Lemma tree_okb_ok n m : tree_okb n m = true -> tree_ok n m.
Proof.
  intros H.
  assert (Hq : forall q, is_Some (m !! q) -> clean q /\ (String.length q < n)%nat /\ parent_ok m q = true).
  { intros q [x Hx]. apply elem_of_map_to_list in Hx.
    apply (list_elem_of_fmap_2 fst), list_elem_of_In in Hx. cbn in Hx.
    apply (forallb_In _ _ _ H), andb_prop in Hx as [H0%is_clean_spec [H1%Nat.ltb_lt H2]%andb_prop]. auto. }
  split; [split; [intros q Hs; apply Hq, Hs|]|intros q Hs; apply Hq, Hs].
  intros path name Hne [Hn Hs]. destruct (Hq _ Hs) as (_ & _ & Hp). unfold parent_ok in Hp.
  set (q := child_path path name) in *.
  assert (Hin : In path (map (fun n => String.substring 0 n q) (seq 0 (S (String.length q))))).
  { apply in_map_iff. exists (String.length path). split.
    - unfold q. rewrite child_path_prefix. unfold dir_prefix.
      destruct (ends_slash path); [|rewrite string_app_assoc]; apply substring_prefix.
    - apply in_seq. pose proof (child_longer path name Hn). unfold q. lia. }
  apply (forallb_In _ _ _ Hp) in Hin. 
  rewrite (proj2 (strip_spec (dir_prefix path) q name) (child_path_prefix path name)) in Hin.
  rewrite (proj2 (is_entry_name_spec name) Hn), (proj2 (is_clean_spec path) Hne) in Hin.
  now apply bool_decide_eq_true in Hin.
Qed.

Lemma removeItem_removes_subtree_witness : exists m',
  removeItem stat unlink rmdir opendir readdirAll 20 "/d" demo_tree = Some (inr tt, m') /\
  forall q, (under "/d" q -> m' !! q = None) /\ (~ under "/d" q -> m' !! q = demo_tree !! q).
Proof.
  refine (removeItem_removes_subtree 20 "/d" (demo_tree : tree) _ _).
  - apply tree_okb_ok. vm_compute. reflexivity.
  - vm_compute. eauto.
Defined.

Example demo_removed :
  (map_to_list <$> (snd <$> removeItem stat unlink rmdir opendir readdirAll 20 "/d" demo_tree))
    = Some [("/df", File); ("/", Directory)].
Proof. vm_compute. reflexivity. Qed.

(** A server that answers a listing with names that lead elsewhere, and records the
    paths it is asked about. *)
Definition hostile_names : list string := ["../etc"; ".."; "x"]%string.

Definition log_ok (s : list string) : Prop := forall q, In q s -> exists r, q = ("/d" +:+ r)%string.

Definition hostile_stat (q : string) (s : list string) : (POSIXError + Api.nfs_stat_64) * list string :=
  (inr (stat_of (if (q =? "/d")%string then Directory else File)), q :: s).

Definition hostile_op {A} (x : A) (q : string) (s : list string) : (POSIXError + A) * list string :=
  (inr x, q :: s).

Definition hostile_readdir (d : Z) (q : string) (s : list string)
    : (POSIXError + list Attributes) * list string :=
  (inr (map (entry_item q) hostile_names), s).

Lemma log_ok_cons q s : below "/d" q -> log_ok s -> log_ok (q :: s).
Proof. intros Hq Hs p [<-|Hp]; [now apply below_prefix|now apply Hs]. Qed.

Lemma removal_stays_below_witness :
  removeItem hostile_stat (hostile_op tt) (hostile_op tt) (hostile_op 0) hostile_readdir 5 "/d" []
    = Some (inr tt, ["/d"; "/d/x"; "/d/x"; "/d"; "/d"]%string) /\
  log_ok ["/d"; "/d/x"; "/d/x"; "/d"; "/d"]%string.
Proof.
  split; [reflexivity|].
  apply (removal_stays_below hostile_stat (hostile_op tt) (hostile_op tt) (hostile_op 0) hostile_readdir
           log_ok "/d" 5 [] (inr tt, ["/d"; "/d/x"; "/d/x"; "/d"; "/d"]%string));
    [|intros q []|reflexivity].
  intros q Hq. split; intros; cbn; auto using log_ok_cons.
Defined.

(** [stat] and [opendir] follow symbolic links, and so does the recursion.  Here
    "/a/l" is a link to "/b": removing "/a" removes the file "/b/x", which lies
    outside, and then fails to remove the link with [rmdir]. *)
Definition follow (q : string) : string :=
  match strip "/a/l/" q with Some r => ("/b/" +:+ r)%string | None => q end.

Definition follow_last (q : string) : string := if (q =? "/a/l")%string then "/b" else follow q.

Definition linked_tree : tree :=
  list_to_map [("/a", Directory); ("/b", Directory); ("/b/x", File)]%string.

Definition linked_names (q : string) (m : tree) : list string :=
  names q m ++ if (q =? "/a")%string then ["l"%string] else [].

Example removal_follows_links :
  let stat q m := Removal.stat (follow_last q) m in
  let unlink q m := Removal.unlink (follow q) m in
  let rmdir q m := if (q =? "/a/l")%string then (inl ENOTDIR, m) else Removal.rmdir (follow q) m in
  let opendir q m := Removal.opendir (follow_last q) m in
  let readdir (_ : Z) q m :=
    (inr (map (entry_item q) (linked_names (follow_last q) m)), m) : (POSIXError + _) * tree in
  exists m, removeItem stat unlink rmdir opendir readdir 20 "/a" linked_tree = Some (inl ENOTDIR, m) /\
    linked_tree !! "/b/x"%string = Some File /\ m !! "/b/x"%string = None.
Proof. eexists. vm_compute. auto. Qed.

End Removal.
