(* ===== verification/RemovalRuns.v ===== *)
(** * The removal over the event loop

    [removeItem] and [removeDirectoryRecursive] of NFSClient.swift as programs of requests,
    which run on the event loop while other callers use it.  On a server that answers at
    once they compute what Removal.v does, so what is proved there holds of them; over the
    loop, what they ask for and what their success means is proved here. *)

From Stdlib Require Import Strings.Byte.
From stdpp Require Import base gmap strings list.
From S2P Require Import Prelude Posix Memory CType LibnfsApi.
From S2P Require Import StateMonad DispatchSource OperationType EventLoopState EventLoop.
From S2P Require Import EventLoopInv EventLoopSafe EventLoopProps EventLoopRuns HandleLife Provenance Extensions ClientApi ClientRuns Removal.
Import Ext Provenance ClientApi ClientRuns.

Open Scope Z_scope.
Open Scope monad_scope.

Module RemovalRuns.

(** ** The program *)

Fixpoint remove_items (removeItem : string -> prog unit) (path : string) (items : list Attributes) : prog unit :=
  match items with
  | [] => await (RPath (Rmdir path)) done_void
  | item :: items =>
      if Removal.safe_name (nameKey item)
      then await_method (removeItem (child_path path (nameKey item))) (fun _ => remove_items removeItem path items)
      else remove_items removeItem path items
  end.

Definition removeDirectoryRecursive (removeItem : string -> prog unit) (path : string) : prog unit :=
  await_method (contentsOfDirectory path) (remove_items removeItem path).

(** [fuel] bounds the depth of the recursion, as in Removal.v. *)
Fixpoint removeItem (fuel : nat) (path : string) : prog unit :=
  match fuel with
  | O => Stop
  | S fuel =>
      await (RPath (Stat path)) (fun v =>
        match v with
        | VStat st =>
            if Z.land (Api.nfs_mode st) S_IFMT =? S_IFDIR
            then removeDirectoryRecursive (removeItem fuel) path
            else await (RPath (Unlink path)) done_void
        | _ => Stop
        end)
  end.

(** ** On a server that answers at once *)

Section Server.
Context {T : Type}.
Variable stat : string -> T -> (POSIXError + Api.nfs_stat_64) * T.
Variables unlink rmdir : string -> T -> (POSIXError + unit) * T.
Variable opendir : string -> T -> (POSIXError + Z) * T.
Variable readdir : Z -> T -> (POSIXError + list Api.nfsdirent) * T.

Definition reply {A} (f : A -> Value) (x : (POSIXError + A) * T) : Outcome * T :=
  (match x.1 with inl e => Threw e | inr a => Returned (f a) end, x.2).

Definition serve (r : Request) (s : T) : Outcome * T :=
  match r with
  | RPath (Stat p) => reply VStat (stat p s)
  | RPath (Unlink p) => reply (fun _ => VVoid) (unlink p s)
  | RPath (Rmdir p) => reply (fun _ => VVoid) (rmdir p s)
  | RPath (Opendir p) => reply (VPointer (Tstruct "nfsdir")) (opendir p s)
  | RReaddir (CPointer _ d) => reply VEntries (readdir d s)
  | _ => (Threw (posix_error_plain EIO), s)
  end.

(** What [contentsOfDirectory] makes of a listing. *)
Definition readdirAll (d : Z) (path : string) (s : T) : (POSIXError + list Attributes) * T :=
  match readdir d s with
  | (inl e, s) => (inl e, s)
  | (inr l, s) => (inr (default [] (entries_attributes path l)), s)
  end.

(** The server's listings can be turned into attributes. *)
Definition readable : Prop :=
  forall d s l s' path, readdir d s = (inr l, s') -> is_Some (entries_attributes path l).

Context (Hread : readable).

Abbreviation served := (served serve).
Abbreviation remove := (Removal.removeItem stat unlink rmdir opendir readdirAll).

Lemma served_contents path s :
  served (contentsOfDirectory path) s = Some (Removal.contentsOfDirectory opendir readdirAll path s).
Proof.
  unfold Removal.contentsOfDirectory, readdirAll. cbn. destruct (opendir path s) as [[e|d] s1]; cbn; [done|].
  destruct (readdir d s1) as [[e|l] s2] eqn:El; cbn; [done|].
  destruct (Hread d s1 l s2 path El) as [items Hi]. now rewrite Hi.
Qed.

Lemma served_items (rm : string -> prog unit) (rm' : string -> T -> option ((POSIXError + unit) * T)) path items :
  (forall q s, served (rm q) s = rm' q s) -> forall s,
  served (remove_items rm path items) s = Removal.remove_items rmdir rm' path items s.
Proof.
  intros Hrm. induction items as [|item items IH]; intros s; cbn [remove_items Removal.remove_items].
  - cbn. destruct (rmdir path s) as [[e|[]] s1]; reflexivity.
  - destruct (Removal.safe_name _); [|apply IH]. rewrite served_await_method, Hrm.
    destruct (rm' _ s) as [[[e|u] s1]|]; [done|apply IH|done].
Qed.

Lemma served_directory rm rm' path : (forall q s, served (rm q) s = rm' q s) -> forall s,
  served (removeDirectoryRecursive rm path) s = Removal.removeDirectoryRecursive rmdir opendir readdirAll rm' path s.
Proof.
  intros Hrm s. unfold removeDirectoryRecursive, Removal.removeDirectoryRecursive.
  rewrite served_await_method, served_contents. destruct (Removal.contentsOfDirectory _ _ _ _) as [[e|items] s2]; [done|].
  now apply served_items.
Qed.

(** The removal as a program of requests and the removal as a function of the server's
    state are the same: on a server that answers each request at once, with listings whose
    entries fit the attributes, the program asks
    for the same things in the same order and returns the same result, at every depth of
    the recursion. *)
Theorem removal_programs_agree fuel path s : served (removeItem fuel path) s = remove fuel path s.
Proof.
  revert path s. induction fuel as [|fuel IH]; intros path s; [reflexivity|]. cbn.
  destruct (stat path s) as [[e|st] s1]; cbn; [done|]. destruct (_ =? _).
  - exact (served_directory _ _ path IH s1).
  - cbn. destruct (unlink path s1) as [[e|[]] s2]; reflexivity.
Qed.

End Server.

(** ** Over the loop *)

(** What a removal of [path] may ask the loop for. *)
Definition removal_request (path : string) (r : Request) : Prop :=
  match r with
  | RPath (Stat q | Opendir q | Unlink q | Rmdir q) => Removal.below path q
  | RReaddir p => exists a, p = CPointer (Tstruct "nfsdir") a
  | _ => False
  end.

Section Asks.
Context (G : Request -> Outcome -> Prop) (HG : forall r o, G r o -> outcome_of r o).
Context (path : string) (Q : POSIXError + unit -> Prop) (HQ : forall e, Q (inl e)).

Abbreviation removing := (always G (removal_request path) Q True).

Lemma removing_last q c : Removal.below path q -> c = Unlink q \/ c = Rmdir q ->
  (G (RPath c) (Returned VVoid) -> Q (inr tt)) -> removing (await (RPath c) done_void).
Proof.
  intros Hq Hc HF. apply always_await; [now destruct Hc as [-> | ->]|exact HQ|]. intros v Hv.
  destruct v; try exact I. apply HF, Hv.
Qed.

Lemma removing_items rm q items : Removal.below path q -> (G (RPath (Rmdir q)) (Returned VVoid) -> Q (inr tt)) ->
  (forall q', Removal.below path q' -> always G (removal_request path) (fun _ => True) True (rm q')) ->
  removing (remove_items rm q items).
Proof.
  intros Hq Hd Hrm. induction items as [|item items IH]; cbn [remove_items].
  - apply (removing_last q); auto.
  - destruct (Removal.safe_name (nameKey item)) eqn:En; [|exact IH]. apply always_await_method.
    eapply always_mono; [|apply Hrm; constructor; [exact Hq|now apply Removal.safe_name_spec]].
    intros [e|u] _; [apply HQ|exact IH].
Qed.

End Asks.

Lemma removing_listing {A} G path q (Q : POSIXError + A -> Prop) f : (forall r o, G r o -> outcome_of r o) ->
  Removal.below path q -> (forall e, Q (inl e)) ->
  (forall items, always G (removal_request path) Q True (f items)) ->
  always G (removal_request path) Q True (await_method (contentsOfDirectory q) f).
Proof.
  intros HG Hq HQ Hf. apply always_await_method. apply always_await; [exact Hq|exact HQ|].
  intros v Hv. apply HG in Hv. inversion Hv; subst; [discriminate|].
  apply always_await; [now exists a|exact HQ|]. intros v' _. destruct v'; try exact I.
  destruct (entries_attributes q l); [apply Hf|exact I].
Qed.

Lemma removing_item G path fuel : (forall r o, G r o -> outcome_of r o) -> forall (Q : POSIXError + unit -> Prop) q,
  (forall e, Q (inl e)) -> Removal.below path q ->
  (forall c, c = Unlink q \/ c = Rmdir q -> G (RPath c) (Returned VVoid) -> Q (inr tt)) ->
  always G (removal_request path) Q True (removeItem fuel q).
Proof.
  intros HG. induction fuel as [|fuel IH]; intros Q q HQ Hq Hd; [exact I|]. cbn [removeItem].
  apply always_await; [exact Hq|exact HQ|]. intros v _. destruct v; try exact I. destruct (_ =? _).
  - apply removing_listing; [exact HG|exact Hq|exact HQ|]. intros items.
    apply removing_items; [exact HQ|exact Hq|apply Hd; auto|]. intros q' Hq'. now apply IH.
  - apply (removing_last G path Q HQ q (Unlink q)); [exact Hq|now left|]. apply Hd. now left.
Qed.

Section Runs.
Context `{E : Env} (HEX : exports_listed).

(** C22: a removal on a shared connection.  Whatever other callers do meanwhile and whatever
    the server answers, each request that [removeItem] makes is to look at, to list or to
    remove a path that extends the given one downwards, or to read an open directory; and when it reports success, libnfs has confirmed the removal of the
    path itself. *)
Theorem removal_over_loop fuel path cs0 w0 es q w : reachable w0 -> history cs0 w0 ->
  csteps (Running (removeItem fuel path), w0) es (Running q, w) ->
  (forall r k, q = Ask r k -> removal_request path r) /\
  (q = Done (inr tt) -> exists c data, (c = CUnlink path \/ c = CRmdir path) /\ libnfs_answered w c 0 data).
Proof.
  intros Hr H0 Hs. destruct (method_state HEX _ cs0 w0 es q w Hr H0 Hs) as (cs & ops & _ & _ & _ & Hf).
  set (Q := fun x : POSIXError + unit => match x with
    | inl _ => True
    | inr _ => exists c data, (c = CUnlink path \/ c = CRmdir path) /\ libnfs_answered w c 0 data
    end).
  assert (Hq : always (explained cs ops w) (removal_request path) Q True q).
  { eapply always_follows; [|exact Hf]. apply removing_item; [apply explained_typed|done|constructor|].
    intros c Hc Ho. apply explained_value in Ho as (past & h & cmd & st & data & Hsv & Hl & Ha); [|done..].
    destruct Hc as [-> | ->]; inversion Hsv; subst; inversion Ha; subst; cbn; eauto 10. }
  split; [intros r k ->; apply Hq|intros ->; exact Hq].
Qed.

End Runs.

(** ** A removal at work

    "/f" is a file; another caller makes a directory in between. *)

Definition removal_env : Env := demo 0 [Reply 1 0 (CPointer (Tstruct "nfs_stat_64") 9) []; Reply 3 0 CNull []] [] 0.
Definition removal_events : list Event :=
  [Call (RPath (Stat "/f")); Call (RPath (Mkdir "/d")); SocketReady; Call (RPath (Unlink "/f")); SocketReady].
Definition removed (n : nat) : World := @after removal_env (take n removal_events) start.

Lemma removal_run : @csteps removal_env _ (Running (removeItem 3 "/f"), start) removal_events
  (Running (Done (inr tt)), removed 5).
Proof.
  assert (S1 : exists f, @csteps removal_env _ (Running (removeItem 3 "/f"), start) (take 1 removal_events) (Waiting 0 f, removed 1) /\
                f (Returned (VStat zero_stat)) = await (RPath (Unlink "/f")) done_void).
  { eexists. split; [apply (cs_ask _ [] _ _ start); [constructor|apply event_okb_ok|]; vm_compute; reflexivity|reflexivity]. }
  destruct S1 as (f & S1 & Hf).
  apply (cs_event _ _ _ (Call (RPath (Mkdir "/d"))) _ (removed 2)) in S1;
    [|apply event_okb_ok; vm_compute; reflexivity|vm_compute; reflexivity].
  apply (cs_event _ _ _ SocketReady _ (removed 3)) in S1; [|exact I|vm_compute; reflexivity].
  apply (cs_resume _ _ _ _ (Returned (VStat zero_stat))) in S1; [|vm_compute; reflexivity]. rewrite Hf in S1.
  eapply (cs_ask _ _ _ _ _ (removed 4)) in S1; [|apply event_okb_ok; vm_compute; reflexivity|vm_compute; reflexivity].
  apply (cs_event _ _ _ SocketReady _ (removed 5)) in S1; [|exact I|vm_compute; reflexivity].
  apply (cs_resume _ _ _ _ (Returned VVoid)) in S1; [|vm_compute; reflexivity]. exact S1.
Qed.

Lemma removal_over_loop_witness : exists c data, (c = CUnlink "/f" \/ c = CRmdir "/f") /\
  @libnfs_answered removal_env (removed 5) c 0 data.
Proof.
  apply (@removal_over_loop removal_env (demo_exports _ _ _ _) 3 "/f" ∅ start _ _ (removed 5)
           start_reachable (@start_history removal_env) removal_run). reflexivity.
Defined.

(** A server with one empty directory, while it is there. *)
Definition directory_stat : Api.nfs_stat_64 := Api.mk_nfs_stat_64 0 0 S_IFDIR 0 0 0 0 0 0 0 0 0 0 0 0 0 0.
Definition one_stat (path : string) (s : bool) : (POSIXError + Api.nfs_stat_64) * bool :=
  (if s then inr directory_stat else inl (posix_error_plain EIO), s).
Definition one_rmdir (path : string) (s : bool) : (POSIXError + unit) * bool :=
  (if s then inr tt else inl (posix_error_plain EIO), false).
Definition one_unlink (path : string) (s : bool) : (POSIXError + unit) * bool := (inl (posix_error_plain EIO), s).
Definition one_opendir (path : string) (s : bool) : (POSIXError + Z) * bool := (inr 5, s).
Definition one_readdir (d : Z) (s : bool) : (POSIXError + list Api.nfsdirent) * bool := (inr [], s).

Lemma removal_programs_agree_witness :
  served (serve one_stat one_unlink one_rmdir one_opendir one_readdir) (removeItem 2 "/d") true = Some (inr tt, false) /\
  served (serve one_stat one_unlink one_rmdir one_opendir one_readdir) (removeItem 2 "/d") true =
    Removal.removeItem one_stat one_unlink one_rmdir one_opendir (readdirAll one_readdir) 2 "/d" true.
Proof.
  split; [vm_compute; reflexivity|].
  apply (removal_programs_agree one_stat one_unlink one_rmdir one_opendir one_readdir).
  intros d s l s' path [= <- _]. exists []. reflexivity.
Defined.

End RemovalRuns.
