(* ===== verification/TransferRuns.v ===== *)
(** * Writing a file over the event loop

    [write(data:toPath:)] of NFSClient.swift as a program of requests: it opens the file,
    writes the chunks one after the other, and flushes.  On a handle that answers at once
    its loop is the one of Client.v.  Over the loop, its success says that libnfs was
    given every byte of the data, in order, and has confirmed each chunk and the flush. *)

From Stdlib Require Import Strings.Byte.
From stdpp Require Import base gmap strings list.
From S2P Require Import Prelude Posix Memory CType LibnfsApi.
From S2P Require Import StateMonad DispatchSource OperationType EventLoopState EventLoop.
From S2P Require Import EventLoopInv EventLoopSafe EventLoopProps EventLoopRuns HandleLife Provenance Client FileHandle Extensions ClientApi ClientRuns Tokens.
Import Tokens Provenance FileHandle ClientApi ClientRuns.

Open Scope Z_scope.
Open Scope monad_scope.

Module TransferRuns.

(** ** The program

    A [CancellationError] is a result of its own, since it is no [POSIXError]. *)

Abbreviation Failure := Client.Failure.

(** Darwin's open flags. *)
Definition O_WRONLY : Z := 1.
Definition O_CREAT : Z := 512.
Definition O_TRUNC : Z := 1024.

(** The [while] loop of [write], with the flush after it. *)
Fixpoint write_loop (fuel k : nat) (progress : option (Z -> bool)) (cancelled : nat -> bool)
    (handle : NFSFileHandle) (data : list byte) (offset : Z) : prog (Failure + unit) :=
  if offset <? Z.of_nat (length data) then
    match fuel with
    | O => Stop
    | S fuel =>
        if cancelled k then Done (inr (inl Client.CancellationError)) else
        let end_ := Z.min (offset + Client.sequentialChunk) (Z.of_nat (length data)) in
        let chunk := take (Z.to_nat (end_ - offset)) (drop (Z.to_nat offset) data) in
        await (FileHandle.write handle chunk) (fun _ =>
          if match progress with Some f => f end_ | None => true end
          then write_loop fuel (S k) progress cancelled handle data end_
          else Done (inr (inl Client.cancelled_by_progress)))
    end
  else await (FileHandle.fsync handle) (fun v => match v with VVoid => Done (inr (inr tt)) | _ => Stop end).

Definition write (path : string) (data : list byte) (progress : option (Z -> bool)) (taskCancelled : bool)
    (cancelled : nat -> bool) : prog (Failure + unit) :=
  if taskCancelled then Done (inr (inl Client.CancellationError))
  else await_method (openFile path (Z.lor O_WRONLY (Z.lor O_CREAT O_TRUNC)))
         (fun handle => write_loop (length data) 0 progress cancelled handle data 0).

(** ** On a handle that answers at once *)

Section Served.
Context {T : Type}.
Variable fwrite : list byte -> T -> (POSIXError + Z) * T.
Variable fsync : T -> (POSIXError + unit) * T.

Definition serve_write (r : Request) (s : T) : Outcome * T :=
  match r with
  | RWrite _ None chunk =>
      let '(x, s) := fwrite chunk s in (match x with inl e => Threw e | inr n => Returned (VInt n) end, s)
  | RFsync _ => let '(x, s) := fsync s in (match x with inl e => Threw e | inr _ => Returned VVoid end, s)
  | _ => (Threw (posix_error_plain EIO), s)
  end.

(** What [write] throws or returns. *)
Definition thrown (x : POSIXError + (Failure + unit)) : Failure + unit :=
  match x with inl e => inl (Client.Posix e) | inr r => r end.

Definition write_on_handle fuel k progress cancelled h data offset (s : T) : option ((Failure + unit) * T) :=
  match served serve_write (write_loop fuel k progress cancelled h data offset) s with
  | Some (x, s) => Some (thrown x, s)
  | None => None
  end.

(** The loop of [write] as a program of requests is the loop of the transfer on a
    handle: for every handle, progress handler, way of cancelling and data, the same chunks
    are written in the same order with the same result. *)
Theorem write_programs_agree fuel k progress cancelled h data offset s :
  write_on_handle fuel k progress cancelled h data offset s =
    Client.write_loop fwrite fsync fuel k progress cancelled data offset s.
Proof.
  unfold write_on_handle. revert k offset s.
  induction fuel as [|fuel IH]; intros k offset s; cbn [write_loop Client.write_loop]; destruct (offset <? _).
  - reflexivity.
  - cbn. destruct (fsync s) as [[e|[]] s1]; reflexivity.
  - destruct (cancelled k); [reflexivity|]. cbn. destruct (fwrite _ s) as [[e|n] s1]; [reflexivity|].
    destruct (match progress with Some f => _ | None => true end); [apply IH|reflexivity].
  - cbn. destruct (fsync s) as [[e|[]] s1]; reflexivity.
Qed.

End Served.

(** ** What a successful write did *)

(** The requests of a write, with their answers. *)
Definition opening (path : string) (p id : Z) : list (Request * Outcome) :=
  [(RPath (OpenFile path (Z.lor O_WRONLY (Z.lor O_CREAT O_TRUNC))), Returned (VPointer (Tstruct "nfsfh") p));
   (RRegister (CPointer (Tstruct "nfsfh") p), Returned (VUInt64 id))].

Definition writes (id : Z) (chunks : list (list byte * Z)) : list (Request * Outcome) :=
  map (fun c => (RWrite id None c.1, Returned (VInt c.2))) chunks.

Definition flush (id : Z) : list (Request * Outcome) := [(RFsync id, Returned VVoid)].

Lemma writes_seen fuel progress cancelled h data : forall k offset l, 0 <= offset ->
  Forall (fun x => outcome_of x.1 x.2) l ->
  saw (write_loop fuel k progress cancelled h data offset) l (Done (inr (inr tt))) ->
  exists chunks, l = writes (handleID h) chunks ++ flush (handleID h) /\
    concat (map fst chunks) = drop (Z.to_nat offset) data.
Proof.
  assert (Hflush : forall offset l, offset <? Z.of_nat (length data) = false ->
    saw (await (FileHandle.fsync h) (fun v => match v with VVoid => Done (inr (inr tt)) | _ => Stop end)) l (Done (inr (inr tt : Failure + unit))) ->
    exists chunks, l = writes (handleID h) chunks ++ flush (handleID h) /\ concat (map fst chunks) = drop (Z.to_nat offset) data).
  { intros offset l Hge (v & l' & -> & H)%saw_await. exists []. destruct v; try (now apply saw_stop in H).
    apply saw_done in H as [-> _]. split; [reflexivity|]. apply Z.ltb_ge in Hge. rewrite drop_ge by lia. reflexivity. }
  induction fuel as [|fuel IH]; intros k offset l H0 Ht; cbn [write_loop]; destruct (offset <? _) eqn:Elt.
  - now intros H%saw_stop.
  - now apply Hflush.
  - destruct (cancelled k); [now intros [_ H]%saw_done|]. cbv zeta. apply Z.ltb_lt in Elt.
    set (end_ := Z.min _ _). set (chunk := take _ _). intros (v & l' & -> & H)%saw_await.
    apply Forall_cons in Ht as [Hv Ht]. cbn in Hv. inversion Hv; subst; [discriminate|].
    destruct (match progress with Some f => f end_ | None => true end); [|now apply saw_done in H].
    assert (He : offset < end_) by (unfold end_, Client.sequentialChunk; lia).
    destruct (IH (S k) end_ l' ltac:(lia) Ht H) as (chunks & -> & Hc). exists ((chunk, n) :: chunks). split; [reflexivity|].
    cbn [map concat fst]. rewrite Hc. unfold chunk.
    replace (Z.to_nat end_) with (Z.to_nat offset + Z.to_nat (end_ - offset))%nat by lia.
    rewrite <- drop_drop. apply take_drop.
  - now apply Hflush.
Qed.

Lemma write_seen path data progress cancelled l : Forall (fun x => outcome_of x.1 x.2) l ->
  saw (write path data progress false cancelled) l (Done (inr (inr tt))) ->
  exists p id chunks, l = opening path p id ++ writes id chunks ++ flush id /\ concat (map fst chunks) = data.
Proof.
  intros Ht H. unfold write, openFile in H. cbn [await_method await] in H.
  apply saw_inv in H as [[_ [=]]|(r & k & o & l1 & [= <- <-] & -> & H)].
  apply Forall_cons in Ht as [Hv Ht]. destruct o as [v|e]; [|now apply saw_done in H].
  cbn in Hv. inversion Hv; subst; [discriminate|].
  apply saw_inv in H as [[_ [=]]|(r & k & o & l2 & [= <- <-] & -> & H)].
  apply Forall_cons in Ht as [Hv' Ht]. destruct o as [v|e]; [|now apply saw_done in H].
  cbn in Hv'. inversion Hv'; subst; [discriminate|]. cbn in H.
  destruct (writes_seen _ _ _ _ _ _ _ _ (Z.le_refl 0) Ht H) as (chunks & -> & Hc).
  exists a, n, chunks. split; [reflexivity|exact Hc].
Qed.

Section Runs.
Context `{E : Env} (HEX : exports_listed).

(** C29: a write over the event loop.  When [write] succeeds, whatever other callers did
    meanwhile, it has opened the path, written chunks that in order make up the data on the
    handle it got, and flushed that handle, and nothing else; and libnfs has answered the open
    with a file handle, and on this very handle a write command of each chunk's length, with the count
    that the method was told, and the flush. *)
Theorem write_over_loop path data progress cancelled cs0 w0 es w : lived (fun _ => True) cs0 w0 ->
  csteps (Running (write path data progress false cancelled), w0) es (Running (Done (inr (inr tt))), w) ->
  exists p id chunks, concat (map fst chunks) = data /\
    saw (write path data progress false cancelled) (opening path p id ++ writes id chunks ++ flush id) (Done (inr (inr tt))) /\
    libnfs_answered w (COpen path (Z.lor O_WRONLY (Z.lor O_CREAT O_TRUNC))) 0 (CPointer (Tstruct "nfsfh") p) /\
    Forall (fun c => exists b d, libnfs_answered w (CWrite p b (Z.of_nat (length c.1))) c.2 d /\ 0 <= c.2) chunks /\
    exists d, libnfs_answered w (CFsync p) 0 d.
Proof.
  intros H0 Hs. apply (lived_sound HEX) in H0. pose proof H0 as [Hr Hh0 _ _].
  destruct (csteps_calls HEX (fun _ => True) _ cs0 w0 Hr Hh0 es _ w (Forall_true _ _ (fun _ => I)) Hs) as (cs & Hon & Hf). apply (calls_on_sound HEX _ _ _ _ _ H0) in Hon.
  destruct (history_good cs w (sd_history _ _ Hon)) as [ops Hg].
  apply (follows_mono _ (fun r o => told cs w r o /\ explained cs ops w r o)) in Hf.
  2: { intros r o Ht. split; [exact Ht|]. destruct Ht as (k & past & Hk & Ho). exists k, past. split; [exact Hk|].
       exact (gd_outcome _ _ _ _ Hg k o Ho). }
  destruct (follows_saw _ _ _ Hf) as (l & Hl & Hex).
  assert (Ht : Forall (fun x => outcome_of x.1 x.2) l).
  { eapply Forall_impl; [exact Hex|]. intros x [_ Hx]. eapply explained_typed, Hx. }
  destruct (write_seen _ _ _ _ l Ht Hl) as (p & id & chunks & -> & Hc). exists p, id, chunks.
  apply Forall_app in Hex as [Hopen [Hw Hfl]%Forall_app].
  apply Forall_cons in Hopen as [[_ Ho] [[Hreg _] _]%Forall_cons]. cbn in Ho, Hreg.
  pose proof (told_means cs w _ _ _ Hon Hreg) as [_ _ Hm].
  split; [exact Hc|]. split; [exact Hl|]. split; [|split].
  - apply explained_value in Ho as (past & h & cmd & st & d & Hsv & Hans & Ha); [|done..].
    inversion Hsv; subst. inversion Ha; subst. exact Hans.
  - rewrite Forall_forall in Hw. apply Forall_forall. intros c Hin.
    assert (Hx : (RWrite id None c.1, Returned (VInt c.2)) ∈ writes id chunks).
    { apply list_elem_of_In. now apply (in_map (fun c => (RWrite id None c.1, Returned (VInt c.2)))), list_elem_of_In. }
    apply Hw in Hx as [_ Hx]. cbn in Hx.
    apply explained_reply in Hx as (k & past & h & cmd & st & d & Hk & Hsv & Hans & Ha); [|done..].
    inversion Hsv as [| | | | | | | | | | | | | | | |? fh q ? Hid| | | | | |]; subst. inversion Ha; subst.
    rewrite (Hm k _ past fh Hk Hid) in Hans. eauto.
  - apply Forall_cons in Hfl as [[_ Hx] _]. cbn in Hx.
    apply explained_reply in Hx as (k & past & h & cmd & st & d & Hk & Hsv & Hans & Ha); [|done..].
    inversion Hsv as [| | | | | | | | | | | | | | | | | | |? fh Hid| | |]; subst. inversion Ha; subst.
    rewrite (Hm k _ past fh Hk Hid) in Hans. eauto.
Qed.

End Runs.

(** ** A write at work

    Three bytes; another caller asks for something while the file is being opened. *)

Definition abc : list byte := [x61; x62; x63].
Definition transfer_env : Env :=
  demo 0 [Reply 1 0 (CPointer (Tstruct "nfsfh") 77) []; Reply 3 3 CNull []; Reply 4 0 CNull []] [] 0.
Definition transfer_events : list Event :=
  [Call (RPath (OpenFile "/f" 1537)); Call (RPath (Stat "/x")); SocketReady;
   Call (RRegister (CPointer (Tstruct "nfsfh") 77)); Call (RWrite 1 None abc); SocketReady; Call (RFsync 1); SocketReady].
Definition sent (n : nat) : World := @after transfer_env (take n transfer_events) start.
Definition write_abc : prog (Failure + unit) := write "/f" abc None false (fun _ => false).

Lemma write_run : @csteps transfer_env _ (Running write_abc, start) transfer_events (Running (Done (inr (inr tt))), sent 8).
Proof.
  assert (S1 : exists f, @csteps transfer_env _ (Running write_abc, start) (take 1 transfer_events) (Waiting 0 f, sent 1) /\
     exists g, f (Returned (VPointer (Tstruct "nfsfh") 77)) = Ask (RRegister (CPointer (Tstruct "nfsfh") 77)) g /\
     g (Returned (VUInt64 1)) = write_loop 3 0 None (fun _ => false) (mkFileHandle 1) abc 0).
  { eexists. split; [apply (cs_ask _ [] _ _ start); [constructor|apply event_okb_ok|]; vm_compute; reflexivity|].
    eexists. split; reflexivity. }
  destruct S1 as (f & S1 & g & Hf & Hg).
  apply (cs_event _ _ _ (Call (RPath (Stat "/x"))) _ (sent 2)) in S1;
    [|apply event_okb_ok; vm_compute; reflexivity|vm_compute; reflexivity].
  apply (cs_event _ _ _ SocketReady _ (sent 3)) in S1; [|exact I|vm_compute; reflexivity].
  apply (cs_resume _ _ _ _ (Returned (VPointer (Tstruct "nfsfh") 77))) in S1; [|vm_compute; reflexivity]. rewrite Hf in S1.
  eapply (cs_ask _ _ _ _ _ (sent 4)) in S1; [|apply event_okb_ok; vm_compute; reflexivity|vm_compute; reflexivity].
  apply (cs_resume _ _ _ _ (Returned (VUInt64 1))) in S1; [|vm_compute; reflexivity]. rewrite Hg in S1.
  eapply (cs_ask _ _ _ _ _ (sent 5)) in S1; [|apply event_okb_ok; vm_compute; reflexivity|vm_compute; reflexivity].
  apply (cs_event _ _ _ SocketReady _ (sent 6)) in S1; [|exact I|vm_compute; reflexivity].
  apply (cs_resume _ _ _ _ (Returned (VInt 3))) in S1; [|vm_compute; reflexivity].
  eapply (cs_ask _ _ _ _ _ (sent 7)) in S1; [|apply event_okb_ok; vm_compute; reflexivity|vm_compute; reflexivity].
  apply (cs_event _ _ _ SocketReady _ (sent 8)) in S1; [|exact I|vm_compute; reflexivity].
  apply (cs_resume _ _ _ _ (Returned VVoid)) in S1; [|vm_compute; reflexivity]. exact S1.
Qed.

Lemma start_lived `{E : Env} G : lived G ∅ start.
Proof. exists 10, 100, start. split; [reflexivity|constructor]. Qed.

Lemma write_over_loop_witness : exists p id chunks, concat (map fst chunks) = abc /\
  saw write_abc (opening "/f" p id ++ writes id chunks ++ flush id) (Done (inr (inr tt))) /\
  @libnfs_answered transfer_env (sent 8) (COpen "/f" 1537) 0 (CPointer (Tstruct "nfsfh") p) /\
  Forall (fun c => exists b d, @libnfs_answered transfer_env (sent 8) (CWrite p b (Z.of_nat (length c.1))) c.2 d /\ 0 <= c.2) chunks /\
  exists d, @libnfs_answered transfer_env (sent 8) (CFsync p) 0 d.
Proof.
  apply (@write_over_loop transfer_env (demo_exports _ _ _ _) "/f" abc None (fun _ => false) ∅ start _ (sent 8)
           (@start_lived transfer_env _) write_run).
Defined.

End TransferRuns.
