(* ===== verification/ReadRuns.v ===== *)
(** * Reading a file over the event loop

    [contentsUsingLegacyChunkedRead] of NFSClient.swift as a program of requests: it reads
    the chunks of a file one after the other through one token, appends each to its result and
    lets it go.  On a handle that answers at once its loop is the one of Client.v.  Over the loop,
    a chunk is a block of memory: appending copies its bytes, when the method goes on,
    and the block is freed some time later, while other callers use the loop.  The bytes
    that the method returns are those that libnfs replied to its own calls, on the pointer
    the token stands for. *)

From Stdlib Require Import Strings.Byte.
From stdpp Require Import base gmap strings list.
From S2P Require Import Prelude Posix Memory CType LibnfsApi.
From S2P Require Import StateMonad DispatchSource OperationType EventLoopState EventLoop.
From S2P Require Import BufferInv EventLoopInv EventLoopSafe EventLoopProps EventLoopRuns HandleLife Provenance Client FileHandle Extensions ClientApi ClientRuns.
From S2P Require Import WriteBuffer ReadData Tokens TransferRuns.
Import Tokens Provenance FileHandle ClientApi ClientRuns.
Import WriteBuffer(elsewhere) TransferRuns(start_lived).

Open Scope Z_scope.
Open Scope monad_scope.

Module ReadRuns.

(** ** The program

    The value of a read is its bytes: what is left of the chunk once [data.append] has
    copied it. *)

Abbreviation Failure := Client.Failure.

Fixpoint legacy_loop (fuel k : nat) (progress : option (Z -> Z -> bool)) (cancelled : nat -> bool)
    (handle : NFSFileHandle) (fileSize offset : Z) (data : list byte) : prog (Failure + list byte) :=
  if offset <? fileSize then
    match fuel with
    | O => Stop
    | S fuel =>
        if cancelled k then Done (inr (inl Client.CancellationError)) else
        let count := Z.min Client.sequentialChunk (fileSize - offset) in
        await (FileHandle.read handle count) (fun v =>
          match v with
          | VData (DataBytes chunk) =>
              if Z.of_nat (length chunk) =? 0 then Done (inr (inr data)) else
              let data := data ++ chunk in
              match Client.int64 (offset + Z.of_nat (length chunk)) with
              | None => Stop
              | Some offset =>
                  if match progress with Some f => f offset fileSize | None => true end
                  then legacy_loop fuel (S k) progress cancelled handle fileSize offset data
                  else Done (inr (inl Client.cancelled_by_progress))
              end
          | _ => Stop
          end)
    end
  else Done (inr (inr data)).

Definition contentsUsingLegacyChunkedRead (progress : option (Z -> Z -> bool)) (cancelled : nat -> bool)
    (handle : NFSFileHandle) (fileSize : Z) : prog (Failure + list byte) :=
  legacy_loop (Z.to_nat fileSize) 0 progress cancelled handle fileSize 0 [].

(** ** On a handle that answers at once *)

Section Served.
Context {T : Type}.
Variable fread : Z -> T -> (POSIXError + list byte) * T.

Definition serve_read (r : Request) (s : T) : Outcome * T :=
  match r with
  | RRead _ None n =>
      let '(x, s) := fread n s in (match x with inl e => Threw e | inr l => Returned (VData (DataBytes l)) end, s)
  | _ => (Threw (posix_error_plain EIO), s)
  end.

(** What the method throws or returns. *)
Definition joined (x : POSIXError + (Failure + list byte)) : Failure + list byte :=
  match x with inl e => inl (Client.Posix e) | inr y => y end.

(** The loop as a program of requests is the loop of the transfer on a handle. *)
Theorem read_programs_agree fuel k progress cancelled h size offset data s :
  match served serve_read (legacy_loop fuel k progress cancelled h size offset data) s with
  | Some (x, s) => Some (joined x, s)
  | None => None
  end = Client.legacy_loop fread fuel k progress cancelled size offset data s.
Proof.
  revert k offset data s. induction fuel as [|fuel IH]; intros k offset data s;
    cbn [legacy_loop Client.legacy_loop]; destruct (offset <? _); [reflexivity..| |reflexivity].
  destruct (cancelled k); [reflexivity|]. cbn. destruct (fread _ s) as [[e|[|x l]] s1]; [reflexivity..|].
  replace (Z.of_nat (length (x :: l)) =? 0) with false by (symmetry; apply Z.eqb_neq; cbn; lia).
  cbv zeta. destruct (Client.int64 _) as [o|]; [|reflexivity].
  destruct (match progress with Some f => f o size | None => true end); [apply IH|reflexivity].
Qed.

End Served.

(** ** A method that copies its data *)

(** The event neither frees the block [p] nor has libnfs read into it behind the loop's back. *)
Definition spares_block (p : Z) (e : Event) : Prop :=
  match e with
  | FreeBuffer q => q <> p
  | Call (RPreadInto _ d _ _) => bp_block d <> p
  | _ => True
  end.

(** An event of somebody else, when the blocks in [mine] are the method's. *)
Definition foreign (mine : Z -> Prop) (e : Event) : Prop := forall q, mine q -> spares_block q e.

(** The answer wraps a block of memory. *)
Definition wraps (o : Outcome) : bool := match o with Returned (VData (DataNoCopy _ _)) => true | _ => false end.

Section Copies.
Context `{E : Env} {A : Type} (mine : Z -> Prop) (c : client A * World).

(** A run: the calls that the method made, in order, and the blocks of chunks that it has copied and
    not yet freed.  The blocks that it is given are its own, [mine]: other callers
    leave them alone. *)
Inductive dsteps : list Z -> list Z -> client A * World -> Prop :=
  | ds_start : dsteps [] [] c
  | ds_ask ks held r f w w' : dsteps ks held (Running (Ask r f), w) -> event_ok (Call r) w ->
      handle (Call r) w = Some (tt, w') ->
      dsteps (ks ++ [nextCall (reg w)]) held (Waiting (nextCall (reg w)) f, w')
  | ds_event ks held d e w w' : dsteps ks held (d, w) -> foreign mine e -> event_ok e w ->
      handle e w = Some (tt, w') -> dsteps ks held (d, w')
  | ds_resume ks held k f o w : dsteps ks held (Waiting k f, w) -> outcomes (reg w) !! k = Some o ->
      wraps o = false -> dsteps ks held (Running (f o), w)
  | ds_copy ks held k f p n bytes w : dsteps ks held (Waiting k f, w) ->
      outcomes (reg w) !! k = Some (Returned (VData (DataNoCopy p n))) -> mine p ->
      data_cells (DataNoCopy p n) (heap w) = Some (Some <$> bytes) ->
      dsteps ks (p :: held) (Running (f (Returned (VData (DataBytes bytes)))), w)
  | ds_release ks held1 p held2 d w w' : dsteps ks (held1 ++ p :: held2) (d, w) ->
      handle (FreeBuffer p) w = Some (tt, w') -> dsteps ks (held1 ++ held2) (d, w').

End Copies.

(** ** What it saw *)

(** A read never delivers more than was asked for. *)
Definition fits (r : Request) (o : Outcome) : Prop :=
  match r, o with
  | RRead _ _ n, Returned v => exists bytes, v = VData (DataBytes bytes) /\ (bytes = [] \/ Z.of_nat (length bytes) <= n)
  | _, _ => True
  end.

(** How much was asked for when each chunk came. *)
Fixpoint asked (size offset : Z) (chunks : list (list byte)) : list (Z * list byte) :=
  match chunks with
  | [] => []
  | d :: chunks => (Z.min Client.sequentialChunk (size - offset), d) :: asked size (offset + Z.of_nat (length d)) chunks
  end.

Definition read_answer (id : Z) (x : Z * list byte) : Request * Outcome :=
  (RRead id None x.1, Returned (VData (DataBytes x.2))).

(** The read that finds the end of the file, when the file is shorter than [size]. *)
Definition final_read (id size len : Z) (l : list (Request * Outcome)) : Prop :=
  (len = size /\ l = []) \/
  (len < size /\ l = [read_answer id (Z.min Client.sequentialChunk (size - len), [])]).

Definition explains (h : NFSFileHandle) (size offset : Z) (data0 : list byte) (l : list (Request * Outcome)) (data : list byte) : Prop :=
  exists chunks last, data = data0 ++ concat chunks /\ Forall (fun d => d <> []) chunks /\
    offset + Z.of_nat (length (concat chunks)) <= size /\
    l = map (read_answer (handleID h)) (asked size offset chunks) ++ last /\
    final_read (handleID h) size (offset + Z.of_nat (length (concat chunks))) last.

Lemma seen_end h size offset data0 l data : 0 <= offset <= size -> offset <? size = false ->
  saw (Done (inr (inr data0 : Failure + list byte))) l (Done (inr (inr data))) -> explains h size offset data0 l data.
Proof.
  intros H0 Hge%Z.ltb_ge [-> [= ->]]%saw_done. exists [], []. cbn. rewrite app_nil_r.
  splits; auto; [lia|]. left. split; [lia|reflexivity].
Qed.

Lemma reads_seen fuel progress cancelled h size : forall k offset data0 l data, 0 <= offset <= size ->
  Forall (fun x => fits x.1 x.2) l ->
  saw (legacy_loop fuel k progress cancelled h size offset data0) l (Done (inr (inr data))) ->
  explains h size offset data0 l data.
Proof.
  induction fuel as [|fuel IH]; intros k offset data0 l data H0 Hl; cbn [legacy_loop]; destruct (offset <? size) eqn:Elt;
    [now intros H%saw_stop|now apply seen_end| |now apply seen_end].
  destruct (cancelled k); [now intros [_ H]%saw_done|]. cbv zeta. apply Z.ltb_lt in Elt.
  intros (v & l' & -> & H)%saw_await. apply Forall_cons in Hl as [(d & -> & Hd) Hl].
  destruct (Z.of_nat (length d) =? 0) eqn:Ed.
  - apply saw_done in H as [-> [= ->]]. apply Z.eqb_eq in Ed. destruct d; [|cbn in Ed; lia].
    exists [], [read_answer (handleID h) (Z.min Client.sequentialChunk (size - offset), [])].
    cbn. rewrite app_nil_r, Z.add_0_r. splits; auto; [lia|]. right. split; [lia|reflexivity].
  - apply Z.eqb_neq in Ed. unfold Client.int64 in H. case_decide; [|now apply saw_stop in H].
    destruct (match progress with Some f => _ | None => true end); [|now apply saw_done in H].
    assert (Hle : Z.of_nat (length d) <= size - offset) by (destruct Hd as [->|Hd]; [cbn; lia|lia]).
    destruct (IH (S k) (offset + Z.of_nat (length d)) _ l' data ltac:(lia) Hl H) as (chunks & last & -> & Hpos & Hsz & -> & Hf).
    exists (d :: chunks), last. rewrite <- app_assoc. cbn [concat asked map app]. rewrite length_app, Nat2Z.inj_add, Z.add_assoc.
    splits; auto. constructor; [|exact Hpos]. intros ->. now apply Ed.
Qed.

(** ** Over the loop *)

Section Runs.
Context `{E : Env} (HEX : exports_listed).

(** The method lends no memory to libnfs itself. *)
Definition no_loan (r : Request) : Prop := match r with RPreadInto _ _ _ _ => False | _ => True end.

(** What a method was answered, in its own call [k]; a chunk with what libnfs replied to the
    command that filled its block. *)
Inductive copied (cs : Called) (w : World) (k : Z) : Request * Outcome -> Prop :=
  | cp_same r o past : cs !! k = Some (r, past) -> outcomes (reg w) !! k = Some o -> wraps o = false ->
      copied cs w k (r, o)
  | cp_bytes id off m past fh p i rd bytes t : cs !! k = Some (RRead id off m, past) -> table past !! id = Some fh ->
      outcomes (reg w) !! k = Some (Returned (VData (DataNoCopy p (Z.of_nat (length bytes))))) ->
      In (i, ReadData.read_command p fh off m) (issued (lib w)) ->
      In (Reply i (Z.of_nat (length bytes)) rd bytes) (lib_events t) -> 0 < Z.of_nat (length bytes) <= m ->
      copied cs w k (RRead id off m, Returned (VData (DataBytes bytes))).

Lemma serves_read past id n h c : serves past (RRead id None n) h c ->
  exists fh b, table past !! id = Some fh /\ c = CRead fh (mkBufPtr b 0) n.
Proof. inversion 1; subst; eauto. Qed.

Lemma copied_called cs w k x : copied cs w k x -> is_Some (cs !! k).
Proof. destruct 1; eauto. Qed.

(** Where the method is: its calls so far but the one under way are answered. *)
Definition at_call {A} (cs : Called) (w : World) (p : prog A) (ks : list Z) (d : client A) : Prop :=
  match d with
  | Running q => exists l, saw p l q /\ Forall2 (copied cs w) ks l
  | Waiting k f => exists ks' r past l, ks = ks' ++ [k] /\ cs !! k = Some (r, past) /\ saw p l (Ask r f) /\
      Forall2 (copied cs w) ks' l
  end.

Definition answered {A} (d : client A) (k : Z) : Prop := match d with Running _ => True | Waiting k' _ => k <> k' end.

(** What happens in a run: others spare the method's blocks, and the method frees what it has. *)
Definition own_or_foreign (mine : Z -> Prop) (released : list Z) (e : Event) : Prop :=
  foreign mine e \/ exists q, q ∈ released /\ e = FreeBuffer q.

Record copying {A} (mine : Z -> Prop) (cs0 : Called) (w0 : World) (p : prog A) (ks held : list Z) (d : client A) (w : World)
    (cs : Called) (released : list Z) : Prop := mkCopying {
  cy_on : calls_on (own_or_foreign mine released) cs0 w0 cs w;
  cy_calls : NoDup ks;
  cy_blocks : NoDup (held ++ released);
  cy_held : forall q, q ∈ held ++ released -> exists k n, k ∈ ks /\ answered d k /\
    outcomes (reg w) !! k = Some (Returned (VData (DataNoCopy q n)));
  cy_mine : forall q, q ∈ held ++ released -> mine q;
  cy_at : at_call cs w p ks d
}.

(** What is known stays known. *)
Lemma copied_event cs cs' e w w' k x : history cs w -> reachable w -> event_ok e w -> handle e w = Some (tt, w') ->
  cs ⊆ cs' -> copied cs w k x -> copied cs' w' k x.
Proof.
  intros Hh Hr He Hrun Hs [r o past Hk Ho Hw|id off m past fh p i rd bytes t Hk Hf Ho Hi Hrep Hn].
  - eapply cp_same; [eapply lookup_weaken; eauto|eapply outcome_stays; eauto|exact Hw].
  - eapply (cp_bytes _ _ _ id off m past fh p i rd); eauto; [eapply lookup_weaken; eauto|eapply outcome_stays; eauto|].
    eapply issued_stays; eauto.
Qed.

Lemma at_call_event {A} cs cs' e w w' (p : prog A) ks d : history cs w -> reachable w -> event_ok e w ->
  handle e w = Some (tt, w') -> cs ⊆ cs' -> at_call cs w p ks d -> at_call cs' w' p ks d.
Proof.
  intros Hh Hr He Hrun Hs. assert (Hc : forall l ks, Forall2 (copied cs w) ks l -> Forall2 (copied cs' w') ks l).
  { intros l ks' H. eapply Forall2_impl; [exact H|]. intros. eapply copied_event; eauto. }
  destruct d as [q|k f]; cbn.
  - intros (l & Hl & Hf). eauto.
  - intros (ks' & r & past & l & -> & Hk & Hl & Hf). exists ks', r, past, l. splits; auto. eapply lookup_weaken; eauto.
Qed.

Lemma lived_onward G (released : list Z) cs0 w0 cs w p : lived G cs0 w0 -> (forall e, G e -> spares_block p e) ->
  calls_on (fun e => spares_block p e \/ exists q, q ∈ released /\ e = FreeBuffer q) cs0 w0 cs w ->
  exists t c wi, init true t c = inr wi /\ onward (elsewhere p) (fun q => q <> p \/ p ∈ released) ∅ wi cs w.
Proof.
  intros (t & c & wi & Hi & H0) HG Hon. exists t, c, wi. split; [exact Hi|].
  assert (Hall : calls_on (fun e => spares_block p e \/ exists q, q ∈ released /\ e = FreeBuffer q) ∅ wi cs w).
  { eapply calls_on_trans; [|exact Hon]. eapply calls_on_weaken; [|exact H0]. intros e He. left. now apply HG. }
  clear - Hall. induction Hall as [|cs w r w' _ IH He _ Hh|cs w e w' _ IH Hne He _ Hh]; [constructor|..].
  - apply on_call; [exact IH| |exact Hh]. intros id d off n ->. destruct He as [He|(q & _ & [=])]. exact He.
  - apply (on_event _ _ _ _ _ w e); [exact IH|exact Hne| |exact Hh]. intros q ->.
    destruct He as [He|(b & Hb & [= ->])]; [now left|]. destruct (decide (b = p)) as [->|]; auto.
Qed.

Section Method.
Context {A : Type} (mine : Z -> Prop) (cs0 : Called) (w0 : World) (p : prog A).
Context (Hlived : lived (foreign mine) cs0 w0).
Context (Hreads : always (fun _ _ => True) no_loan (fun _ => True) True p).

Lemma saw_follows (q r : prog A) l : saw q l r -> follows (fun _ _ => True) q r.
Proof. induction 1; [constructor|eapply fo_answer; eauto]. Qed.

Lemma copying_sound ks held d w cs released : copying mine cs0 w0 p ks held d w cs released -> sound cs w.
Proof. intros H. exact (calls_on_sound HEX _ _ _ _ _ (lived_sound HEX _ _ _ Hlived) (cy_on _ _ _ _ _ _ _ _ _ _ H)). Qed.

(** Blocks of the method are kept, until it frees them. *)
Lemma copying_kept ks held d w cs released q : copying mine cs0 w0 p ks held d w cs released -> mine q ->
  ReadData.kept q (q ∈ released) w.
Proof.
  intros H Hq. destruct (lived_onward (foreign mine) released cs0 w0 cs w q Hlived) as (t & c & wi & Hi & Hon).
  - intros e He. now apply He.
  - eapply calls_on_weaken; [|exact (cy_on _ _ _ _ _ _ _ _ _ _ H)]. intros e [He|He]; [left; now apply He|now right].
  - eapply ReadData.onward_kept; [|exact Hi|exact Hon]. now intros b Hb.
Qed.

(** A block that the method was given in an answered call is not the one of another call. *)
Lemma copying_new ks held d w cs released k q n : copying mine cs0 w0 p ks held d w cs released -> mine q ->
  outcomes (reg w) !! k = Some (Returned (VData (DataNoCopy q n))) -> ~ answered d k -> ~ q ∈ held ++ released.
Proof.
  intros H Hq Ho Hd Hin. destruct (cy_held _ _ _ _ _ _ _ _ _ _ H q Hin) as (k' & n' & _ & Ha & Ho').
  apply Hd. now rewrite (ReadData.handed_once _ _ w k k' n n' (copying_kept _ _ _ _ _ _ _ H Hq) Ho Ho').
Qed.

(** A block that the method has not freed is in memory, with what libnfs replied. *)
Lemma copying_cells ks held d w cs released k q n : copying mine cs0 w0 p ks held d w cs released -> mine q ->
  outcomes (reg w) !! k = Some (Returned (VData (DataNoCopy q n))) -> ~ q ∈ released ->
  exists id off m past fh i rd bytes t, cs !! k = Some (RRead id off m, past) /\ table past !! id = Some fh /\
    In (i, ReadData.read_command q fh off m) (issued (lib w)) /\ In (Reply i n rd bytes) (lib_events t) /\
    Z.of_nat (length bytes) = n /\ 0 < n <= m /\ data_cells (DataNoCopy q n) (heap w) = Some (Some <$> bytes).
Proof.
  intros H Hq Ho Hr. pose proof (copying_sound _ _ _ _ _ _ H) as Hs.
  destruct (ReadData.data_of_read q _ cs w k n (sd_history _ _ Hs) (copying_kept _ _ _ _ _ _ _ H Hq) Ho)
    as (id & off & m & past & fh & i & rd & bytes & t & H1 & H2 & H3 & H4 & H5 & H6 & [H7|[H7 _]]); [|done].
  exists id, off, m, past, fh, i, rd, bytes, t. auto 10.
Qed.

(** Something happened to the loop; [d'] is where the method is then. *)
Lemma copying_event ks ks' held held' d d' e w w' cs cs' released released' : copying mine cs0 w0 p ks held d w cs released ->
  event_ok e w -> handle e w = Some (tt, w') -> calls_on (own_or_foreign mine released') cs0 w0 cs' w' ->
  NoDup ks' -> held' ++ released' ≡ₚ held ++ released -> incl ks ks' ->
  (forall k, k ∈ ks -> answered d k -> answered d' k) -> at_call cs' w' p ks' d' ->
  copying mine cs0 w0 p ks' held' d' w' cs' released'.
Proof.
  intros H He Hh Hon Hnd Hp Hks Hd Hat. destruct (copying_sound _ _ _ _ _ _ H) as [Hr _ _ _]. destruct H as [H1 H2 H3 H4 H5 H6].
  constructor; auto.
  - now rewrite Hp.
  - intros q Hq. rewrite Hp in Hq. destruct (H4 q Hq) as (k & n & Hk & Ha & Ho). exists k, n.
    splits; [now apply list_elem_of_In, Hks, list_elem_of_In|auto|eapply outcome_stays; eauto].
  - intros q Hq. rewrite Hp in Hq. auto.
Qed.

Lemma copying_calls ks held d w cs released k : copying mine cs0 w0 p ks held d w cs released -> k ∈ ks -> is_Some (cs !! k).
Proof.
  intros [_ _ _ _ _ Hat] Hk. assert (Hc : forall ks l, Forall2 (copied cs w) ks l -> k ∈ ks -> is_Some (cs !! k)).
  { intros ks' l. induction 1 as [|k' x ks' l Hx _ IH]; [now intros ?%elem_of_nil|].
    intros [->|Hin]%elem_of_cons; [exact (copied_called _ _ _ _ Hx)|now apply IH]. }
  destruct d as [q|k' f]; cbn in Hat.
  - destruct Hat as (l & _ & Hl). eauto.
  - destruct Hat as (ks' & r & past & l & -> & Hr & _ & Hl). apply elem_of_app in Hk as [Hk|Hk%list_elem_of_singleton]; [eauto|].
    subst. eauto.
Qed.

Lemma copying_ask ks held r f w w' cs released : copying mine cs0 w0 p ks held (Running (Ask r f)) w cs released ->
  event_ok (Call r) w -> handle (Call r) w = Some (tt, w') ->
  exists cs', copying mine cs0 w0 p (ks ++ [nextCall (reg w)]) held (Waiting (nextCall (reg w)) f) w' cs' released.
Proof.
  intros H Hok Hh. pose proof (copying_sound _ _ _ _ _ _ H) as [Hr Hhist _ _].
  destruct (cy_at _ _ _ _ _ _ _ _ _ _ H) as (l & Hl & Hf).
  assert (Hown : own_or_foreign mine released (Call r)).
  { left. intros q _. destruct (always_follows _ _ _ _ _ _ Hreads (saw_follows _ _ _ Hl)) as [Hn _]. now destruct r. }
  set (k := nextCall (reg w)). assert (Hfree : cs !! k = None) by (eapply called_fresh; [exact Hhist|unfold k; lia]).
  exists (<[k := (r, w)]> cs). assert (Hsub : cs ⊆ <[k := (r, w)]> cs) by now apply insert_subseteq.
  assert (Hnew : forall k', k' ∈ ks -> k' <> k).
  { intros k' Hk ->. apply (copying_calls _ _ _ _ _ _ _ H) in Hk as [x Hx]. congruence. }
  eapply (copying_event ks _ held held _ _ (Call r)); eauto.
  - apply co_call; auto. exact (cy_on _ _ _ _ _ _ _ _ _ _ H).
  - apply NoDup_app. splits; [exact (cy_calls _ _ _ _ _ _ _ _ _ _ H)| |apply NoDup_singleton].
    intros k' Hk ->%list_elem_of_singleton. now apply (Hnew k).
  - intros x Hx. apply in_or_app. now left.
  - intros k' Hk _. exact (Hnew k' Hk).
  - exists ks, r, w, l. splits; [done|apply lookup_insert_eq|exact Hl|]. eapply Forall2_impl; [exact Hf|]. intros.
    eapply copied_event; eauto.
Qed.

Lemma copying_foreign ks held d e w w' cs released : copying mine cs0 w0 p ks held d w cs released ->
  foreign mine e -> event_ok e w -> handle e w = Some (tt, w') -> exists cs', copying mine cs0 w0 p ks held d w' cs' released.
Proof.
  intros H He Hok Hh. pose proof (copying_sound _ _ _ _ _ _ H) as [Hr Hhist _ _].
  destruct (calls_on_event _ _ _ cs w e w' (cy_on _ _ _ _ _ _ _ _ _ _ H) (or_introl He) Hok Hh) as (cs' & Hon & Hsub & _).
  exists cs'. eapply (copying_event ks ks held held); eauto.
  - exact (cy_calls _ _ _ _ _ _ _ _ _ _ H).
  - apply incl_refl.
  - eapply at_call_event; eauto. exact (cy_at _ _ _ _ _ _ _ _ _ _ H).
Qed.

(** The method goes on. *)
Lemma copying_resume ks held k f o o' w cs released : copying mine cs0 w0 p ks held (Waiting k f) w cs released ->
  outcomes (reg w) !! k = Some o ->
  (forall r past, cs !! k = Some (r, past) -> copied cs w k (r, o')) ->
  copying mine cs0 w0 p ks held (Running (f o')) w cs released.
Proof.
  intros [H1 H2 H3 H4 H5 (ks' & r & past & l & -> & Hk & Hl & Hf)] Ho Hc. constructor; auto.
  - intros q Hq. destruct (H4 q Hq) as (k' & n & Hk' & _ & Hx). exists k', n. now repeat split.
  - exists (l ++ [(r, o')]). split; [now apply (saw_answer p l r f)|]. apply Forall2_app; [exact Hf|]. constructor; [eauto|constructor].
Qed.

(** The copied chunk is the method's to free. *)
Lemma copying_hold ks held d k q n w cs released : copying mine cs0 w0 p ks held (Running d) w cs released -> mine q ->
  k ∈ ks -> outcomes (reg w) !! k = Some (Returned (VData (DataNoCopy q n))) -> ~ q ∈ held ++ released ->
  copying mine cs0 w0 p ks (q :: held) (Running d) w cs released.
Proof.
  intros [H1 H2 H3 H4 H5 H6] Hq Hk Ho Hn. constructor; auto.
  - cbn. now constructor.
  - intros b [->|Hb]%elem_of_cons; [exists k, n; now split|auto].
  - intros b [->|Hb]%elem_of_cons; auto.
Qed.

(** Freeing it is in order. *)
Lemma held_ok ks held1 q held2 d w cs released : copying mine cs0 w0 p ks (held1 ++ q :: held2) d w cs released ->
  event_ok (FreeBuffer q) w.
Proof.
  intros H. assert (Hin : q ∈ (held1 ++ q :: held2) ++ released) by set_solver.
  destruct (cy_held _ _ _ _ _ _ _ _ _ _ H q Hin) as (k & n & _ & _ & Ho). pose proof (cy_mine _ _ _ _ _ _ _ _ _ _ H q Hin) as Hq.
  assert (Hr : ~ q ∈ released).
  { intros Hr. pose proof (cy_blocks _ _ _ _ _ _ _ _ _ _ H) as Hnd. apply NoDup_app in Hnd as (_ & Hd & _). apply (Hd q); [set_solver|exact Hr]. }
  destruct (copying_cells _ _ _ _ _ _ k q n H Hq Ho Hr) as (_ & _ & _ & _ & _ & _ & _ & bytes & _ & _ & _ & _ & _ & _ & _ & Hcells).
  split; [|exact (ReadData.handed_unused _ _ w k n (copying_kept _ _ _ _ _ _ _ H Hq) Ho)].
  cbn in Hcells. unfold load in Hcells. unfold live. destruct (blocks (heap w) !! q); [eauto|discriminate Hcells].
Qed.

Lemma copying_release ks held1 q held2 d w w' cs released : copying mine cs0 w0 p ks (held1 ++ q :: held2) d w cs released ->
  handle (FreeBuffer q) w = Some (tt, w') -> copying mine cs0 w0 p ks (held1 ++ held2) d w' cs (q :: released).
Proof.
  intros H Hh. pose proof (held_ok _ _ _ _ _ _ _ _ H) as Hok. pose proof (copying_sound _ _ _ _ _ _ H) as [Hr Hhist _ _].
  eapply (copying_event ks ks _ _ d d (FreeBuffer q)); eauto.
  - apply (co_event _ _ _ _ w (FreeBuffer q)); auto; [|right; exists q; split; [left|done]].
    eapply calls_on_weaken; [|exact (cy_on _ _ _ _ _ _ _ _ _ _ H)]. intros e [He|(b & Hb & ->)]; [now left|right].
    exists b. split; [now right|done].
  - exact (cy_calls _ _ _ _ _ _ _ _ _ _ H).
  - rewrite <- !app_assoc. apply Permutation_app_head. cbn. symmetry. apply Permutation_middle.
  - apply incl_refl.
  - eapply at_call_event; eauto. exact (cy_at _ _ _ _ _ _ _ _ _ _ H).
Qed.

(** The invariant of a run. *)
Lemma dsteps_copying ks held d w : dsteps mine (Running p, w0) ks held (d, w) ->
  exists cs released, copying mine cs0 w0 p ks held d w cs released.
Proof.
  intros H. remember (d, w) as dw eqn:Edw. revert d w Edw.
  induction H as [|ks held r f w1 w2 H IH Hok Hh|ks held d1 e w1 w2 H IH He Hok Hh|ks held k f o w1 H IH Ho Hw
                 |ks held k f q n bytes w1 H IH Ho Hq Hcells|ks held1 q held2 d1 w1 w2 H IH Hh]; intros d w [= <- <-].
  - exists cs0, []. constructor; [constructor|constructor|constructor|now intros q Hq%elem_of_nil|now intros q Hq%elem_of_nil|].
    exists []. split; constructor.
  - destruct (IH _ _ eq_refl) as (cs & released & Hc). destruct (copying_ask _ _ _ _ _ _ _ _ Hc Hok Hh) as [cs' Hc']. eauto.
  - destruct (IH _ _ eq_refl) as (cs & released & Hc). destruct (copying_foreign _ _ _ _ _ _ _ _ Hc He Hok Hh) as [cs' Hc']. eauto.
  - destruct (IH _ _ eq_refl) as (cs & released & Hc). exists cs, released. eapply copying_resume; eauto.
    intros r past Hk. eapply cp_same; eauto.
  - destruct (IH _ _ eq_refl) as (cs & released & Hc). exists cs, released.
    assert (Hk : k ∈ ks).
    { destruct (cy_at _ _ _ _ _ _ _ _ _ _ Hc) as (ks' & _ & _ & _ & -> & _). set_solver. }
    assert (Hn : ~ q ∈ held ++ released) by (eapply copying_new; eauto; cbn; auto).
    eapply copying_hold; eauto. eapply copying_resume; eauto. intros r past Hr.
    destruct (copying_cells _ _ _ _ _ _ k q n Hc Hq Ho) as (id & off & m & past' & fh & i & rd & b & t & H1 & H2 & H3 & H4 & H5 & H6 & H7);
      [set_solver|]. rewrite Hr in H1. injection H1 as -> ->. rewrite H7 in Hcells. injection Hcells as Hb.
    apply (inj (fmap Some)) in Hb as ->. subst n. eapply cp_bytes; eauto.
  - destruct (IH _ _ eq_refl) as (cs & released & Hc). exists cs, (q :: released). eapply copying_release; eauto.
Qed.

End Method.

(** ** The file *)

Lemma copied_fits cs w k x : history cs w -> copied cs w k x -> fits x.1 x.2.
Proof.
  intros Hh Hx. destruct (history_good cs w Hh) as [ops Hg]. destruct Hx as [r o past Hk Ho Hw|id off m past fh p i rd bytes t Hk _ _ _ _ Hn].
  - cbn. destruct r as [| | | |hid off n| | | | | | | |]; try exact I. destruct o as [v|e]; [|exact I].
    assert (Hx : explained cs ops w (RRead hid off n) (Returned v)).
    { exists k, past. split; [exact Hk|]. exact (gd_outcome _ _ _ _ Hg k _ Ho). }
    apply explained_reply in Hx as (k' & past' & h & c & st & rd & _ & _ & _ & Ha); [|done..].
    inversion Ha; subst; try discriminate. exists []. split; [reflexivity|now left].
  - cbn. exists bytes. split; [reflexivity|right; lia].
Qed.

(** The method only reads. *)
Lemma loop_reads progress cancelled h size fuel : forall k offset data,
  always (fun _ _ => True) no_loan (fun _ => True) True (legacy_loop fuel k progress cancelled h size offset data).
Proof.
  induction fuel as [|fuel IH]; intros k offset data; cbn [legacy_loop]; destruct (offset <? size); try exact I.
  destruct (cancelled k); [exact I|]. cbv zeta. apply always_await; [exact I|done|]. intros v _.
  destruct v; try exact I. destruct d as [chunk|q n]; [|exact I]. destruct (_ =? 0); [exact I|].
  destruct (Client.int64 _); [|exact I]. destruct (match progress with Some f => _ | None => true end); [apply IH|exact I].
Qed.

(** Call [k] was given a block that libnfs filled with [bytes], in reply to a read of [count] bytes on the
    handle [a]. *)
Definition read_chunk (a : Z) (w : World) (k : Z) (x : Z * list byte) : Prop :=
  exists q i rd t, outcomes (reg w) !! k = Some (Returned (VData (DataNoCopy q (Z.of_nat (length x.2))))) /\
    In (i, CRead a (mkBufPtr q 0) x.1) (issued (lib w)) /\
    In (Reply i (Z.of_nat (length x.2)) rd x.2) (lib_events t) /\ 0 < Z.of_nat (length x.2) <= x.1.

(** Call [k] was told the end of the file, which libnfs replied to a read of [count] bytes on the handle [a]. *)
Definition read_eof (a : Z) (w : World) (k count : Z) : Prop :=
  outcomes (reg w) !! k = Some (Returned (VData (DataBytes []))) /\
  exists b rd, libnfs_answered w (CRead a b count) 0 rd.

Lemma copied_chunk a id cs w k n d : history cs w -> means id a cs w -> d <> [] ->
  copied cs w k (read_answer id (n, d)) -> read_chunk a w k (n, d).
Proof.
  intros Hh [_ _ Hm] Hd Hx. inversion Hx as [? ? past Hk Ho Hw|? ? ? past fh q i rd ? t Hk Hf Ho Hi Hrep Hn]; subst.
  - destruct (copied_fits cs w k _ Hh Hx) as (b & [= <-] & _). cbn in Ho. destruct (history_good cs w Hh) as [ops Hg].
    assert (He : explained cs ops w (RRead id None n) (Returned (VData (DataBytes d)))).
    { exists k, past. split; [exact Hk|]. exact (gd_outcome _ _ _ _ Hg k _ Ho). }
    apply explained_reply in He as (k' & past' & h & c & st & rd & _ & _ & _ & Ha); [|done..]. inversion Ha; subst. now destruct Hd.
  - rewrite (Hm k _ past fh Hk Hf) in Hi. exists q, i, rd, t. cbn. splits; auto; lia.
Qed.

Lemma copied_eof a id cs w k n : history cs w -> means id a cs w -> copied cs w k (read_answer id (n, [])) -> read_eof a w k n.
Proof.
  intros Hh [_ _ Hm] Hx. inversion Hx as [? ? past Hk Ho Hw|? ? ? past fh q i rd ? t Hk Hf Ho Hi Hrep Hn]; subst; [|cbn in Hn; lia].
  split; [exact Ho|]. destruct (history_good cs w Hh) as [ops Hg].
  assert (He : explained cs ops w (RRead id None n) (Returned (VData (DataBytes [])))).
  { exists k, past. split; [exact Hk|]. exact (gd_outcome _ _ _ _ Hg k _ Ho). }
  apply explained_reply in He as (k' & past' & hd & c & st & rd & Hk' & Hsv & Hans & Ha); [|done..].
  apply serves_read in Hsv as (fh & b & Hid & ->). inversion Ha; subst.
  rewrite (Hm k' _ past' fh Hk' Hid) in Hans. eauto.
Qed.

Lemma told_on G cs0 w0 cs w r o : sound cs0 w0 -> calls_on G cs0 w0 cs w -> told cs0 w0 r o -> told cs w r o.
Proof.
  intros H0 Hon Ht. induction Hon as [|cs w q w' Hon IH _ Hok Hh|cs w e w' Hon IH _ _ Hok Hh]; [exact Ht|..];
    pose proof (calls_on_sound HEX _ _ _ _ _ H0 Hon) as [Hr Hhi _ _].
  - apply (told_event HEX cs _ (Call q) w w'); auto. apply insert_subseteq. eapply called_fresh; [exact Hhi|lia].
  - now apply (told_event HEX cs _ e w w').
Qed.

(** C28: a file read chunk by chunk over the event loop.  The method copies each chunk when it goes on,
    and frees the chunk's block some time later; other callers use the loop meanwhile, and
    leave the method's blocks alone (they neither free them nor have libnfs read into them).
    When the method returns, its data is the concatenation of the chunks that its own calls were
    given, in the order of the calls and without leaving one out; each of them is what libnfs replied to a read
    command, of the length still missing or 1 MB, on the pointer for which the token was
    given out; the data is no longer than the size the method was given, and shorter only if its
    last call was told the end of the file, as libnfs replied to such a read. *)
Theorem sequential_read_over_loop mine s a h size progress cancelled cs0 w0 ks held data w : 0 <= size ->
  lived (foreign mine) cs0 w0 -> told cs0 w0 (RRegister (CPointer s a)) (Returned (VUInt64 (handleID h))) ->
  dsteps mine (Running (contentsUsingLegacyChunkedRead progress cancelled h size), w0) ks held
    (Running (Done (inr (inr data))), w) ->
  exists chunks ks1 last, data = concat chunks /\ ks = ks1 ++ last /\ Z.of_nat (length data) <= size /\
    Forall2 (read_chunk a w) ks1 (asked size 0 chunks) /\
    (Z.of_nat (length data) = size /\ last = [] \/
     Z.of_nat (length data) < size /\
     exists k, last = [k] /\ read_eof a w k (Z.min Client.sequentialChunk (size - Z.of_nat (length data)))).
Proof.
  intros H0 Hl Ht Hs. destruct (dsteps_copying mine cs0 w0 _ Hl (loop_reads progress cancelled h size _ _ _ _) _ _ _ _ Hs) as (cs & released & Hc).
  pose proof (copying_sound _ _ _ _ Hl _ _ _ _ _ _ Hc) as Hsd. pose proof (sd_history _ _ Hsd) as Hh.
  apply (told_on _ _ _ _ _ _ _ (lived_sound HEX _ _ _ Hl) (cy_on _ _ _ _ _ _ _ _ _ _ Hc)) in Ht.
  pose proof (told_means cs w _ _ _ Hsd Ht) as Hm. destruct (cy_at _ _ _ _ _ _ _ _ _ _ Hc) as (l & Hsaw & Hf).
  assert (Hfit : Forall (fun x => fits x.1 x.2) l).
  { clear - Hf Hh. induction Hf; constructor; eauto using copied_fits. }
  destruct (reads_seen _ _ _ _ _ _ _ _ l data (conj (Z.le_refl 0) H0) Hfit Hsaw) as (chunks & last & -> & Hne & Hle & -> & Hlast).
  cbn [app] in *. rewrite Z.add_0_l in Hle, Hlast. apply Forall2_app_inv_r in Hf as (ks1 & ks2 & Hf1 & Hf2 & ->).
  exists chunks, ks1, ks2. splits; auto.
  - clear - Hf1 Hm Hh Hne. revert ks1 Hf1. generalize 0 as off. induction Hne as [|d chunks Hd Hne IH]; intros off ks1 Hf1;
      cbn in Hf1; inversion Hf1; subst; constructor; [eapply copied_chunk; eauto|now apply IH].
  - destruct Hlast as [[He ->]|[Hlt ->]].
    + left. split; [exact He|]. now inversion Hf2.
    + right. split; [exact Hlt|]. inversion Hf2 as [|k ? ks' ? Hk Hnil]; subst. inversion Hnil; subst. exists k.
      split; [reflexivity|]. eapply copied_eof; eauto.
Qed.

Lemma seen_follows {A} G (p q : prog A) l : saw p l q -> Forall (fun x => G x.1 x.2) l -> follows G p q.
Proof.
  induction 1 as [|l r k o H IH]; [constructor|]. intros [Hl [Hx _]%Forall_cons]%Forall_app. eapply fo_answer; eauto.
Qed.

(** It never runs out of fuel, and nothing it is answered stops it. *)
Lemma loop_goes_on progress cancelled h size fuel : forall k offset data, 0 <= offset -> size < 2 ^ 63 ->
  (Z.to_nat (size - offset) <= fuel)%nat ->
  always fits (fun _ => True) (fun _ => True) False (legacy_loop fuel k progress cancelled h size offset data).
Proof.
  induction fuel as [|fuel IH]; intros k offset data H0 Hs Hf; cbn [legacy_loop]; destruct (offset <? size) eqn:Elt;
    [apply Z.ltb_lt in Elt; lia|exact I| |exact I].
  apply Z.ltb_lt in Elt. destruct (cancelled k); [exact I|]. cbv zeta. apply always_await; [exact I|done|].
  intros v (d & -> & Hd). destruct (Z.of_nat (length d) =? 0) eqn:Ed; [exact I|]. apply Z.eqb_neq in Ed.
  assert (Z.of_nat (length d) <= size - offset) by (destruct Hd as [->|Hd]; [cbn in *; lia|lia]).
  unfold Client.int64. rewrite decide_True by lia.
  destruct (match progress with Some f => _ | None => true end); [|exact I]. apply IH; lia.
Qed.

(** C11: the copies are safe.  At no time of such a run is the method stopped; when its call was answered it
    can go on, since a chunk's block then is in memory, filled in all its bytes; and each block
    that it has copied can be freed, without stopping the program: it is freed once, and
    libnfs does not use it any more. *)
Theorem sequential_read_goes_on mine h size progress cancelled cs0 w0 ks held d w : size < 2 ^ 63 ->
  lived (foreign mine) cs0 w0 ->
  let run := dsteps mine (Running (contentsUsingLegacyChunkedRead progress cancelled h size), w0) in
  run ks held (d, w) ->
  d <> Running Stop /\
  (forall k f o, d = Waiting k f -> outcomes (reg w) !! k = Some o ->
     (forall q n, o = Returned (VData (DataNoCopy q n)) -> mine q) -> exists held' q, run ks held' (Running q, w)) /\
  (forall q, q ∈ held -> exists held' w', held ≡ₚ q :: held' /\ handle (FreeBuffer q) w = Some (tt, w') /\
     unused q (outst w) /\ run ks held' (d, w')).
Proof.
  intros Hsz Hl run Hs.
  destruct (dsteps_copying mine cs0 w0 _ Hl (loop_reads progress cancelled h size _ _ _ _) _ _ _ _ Hs) as (cs & released & Hc).
  pose proof (copying_sound _ _ _ _ Hl _ _ _ _ _ _ Hc) as Hsd. pose proof (sd_history _ _ Hsd) as Hh. splits.
  - intros ->. destruct (cy_at _ _ _ _ _ _ _ _ _ _ Hc) as (l & Hsaw & Hf).
    assert (Hfit : Forall (fun x => fits x.1 x.2) l) by (clear - Hf Hh; induction Hf; constructor; eauto using copied_fits).
    change (always fits (fun _ => True) (fun _ => True) False (@Stop (Failure + list byte))).
    eapply always_follows; [apply (loop_goes_on progress cancelled h size (Z.to_nat size) 0 0 []); lia|].
    eapply seen_follows; eauto.
  - intros k f o -> Ho Hmine. destruct (wraps o) eqn:Ew; [|eexists _, _; eapply ds_resume; eauto].
    destruct o as [v|e]; [|discriminate Ew]. destruct v; try discriminate Ew. destruct d as [b|q n]; [discriminate Ew|].
    specialize (Hmine q n eq_refl).
    assert (Hn : ~ q ∈ held ++ released) by (eapply copying_new; eauto; cbn; auto).
    destruct (copying_cells _ _ _ _ Hl _ _ _ _ _ _ k q n Hc Hmine Ho) as (_ & _ & _ & _ & _ & _ & _ & bytes & _ & _ & _ & _ & _ & _ & _ & Hcells);
      [set_solver|]. eexists _, _. eapply ds_copy; eauto.
  - intros q (held1 & held2 & ->)%list_elem_of_split. assert (Hok : event_ok (FreeBuffer q) w) by (eapply held_ok; [exact Hl|apply loop_reads|exact Hc]).
    destruct (wp_run _ _ _ (handle_spec HEX (FreeBuffer q) w (reachable_idle HEX w (sd_reachable _ _ Hsd)) Hok)) as ([] & w' & Hrun & _).
    exists (held1 ++ held2), w'. splits; [symmetry; apply Permutation_middle|exact Hrun|apply Hok|eapply ds_release; eauto].
Qed.

End Runs.

(** ** A file read in two requests

    The file is said to have five bytes and has three; another caller asks for something
    meanwhile. *)

Definition abc : list byte := [x61; x62; x63].
Definition short_file : Env := demo 0 [Reply 1 3 CNull abc; Reply 3 0 CNull []] [] 0.
Definition read_file : prog (Failure + list byte) := contentsUsingLegacyChunkedRead None (fun _ => false) (mkFileHandle 1) 5.

(** The states: registered; reading; another caller; replied; chunk freed; reading; replied. *)
Definition transfer_events : list Event :=
  [Call (RRegister (CPointer (Tstruct "nfsfh") 77)); Call (RRead 1 None 5); Call (RPath (Stat "/x")); SocketReady].
Definition fetched (n : nat) : World := @after short_file (take n transfer_events) start.
Definition chunk_freed : World := @next short_file (FreeBuffer 1) (fetched 4).
Definition asked_again : World := @next short_file (Call (RRead 1 None 2)) chunk_freed.
Definition at_end : World := @next short_file SocketReady asked_again.

Definition mine (q : Z) : Prop := q = 1.

Lemma first_chunk : @dsteps short_file _ mine (Running read_file, fetched 1) [1] [1]
  (Running (legacy_loop 4 1 None (fun _ => false) (mkFileHandle 1) 5 3 abc), fetched 4).
Proof.
  assert (S1 : exists f, @dsteps short_file _ mine (Running read_file, fetched 1) [1] [] (Waiting 1 f, fetched 2) /\
     f (Returned (VData (DataBytes abc))) = legacy_loop 4 1 None (fun _ => false) (mkFileHandle 1) 5 3 abc).
  { eexists. split; [apply (ds_ask _ _ [] [] (RRead 1 None 5) _ (fetched 1) (fetched 2)); [constructor|apply event_okb_ok; vm_compute; reflexivity|vm_compute; reflexivity]|].
    reflexivity. }
  destruct S1 as (f & S1 & <-).
  apply (ds_event _ _ _ _ _ (Call (RPath (Stat "/x"))) _ (fetched 3)) in S1;
    [|now intros q _|apply event_okb_ok; vm_compute; reflexivity|vm_compute; reflexivity].
  apply (ds_event _ _ _ _ _ SocketReady _ (fetched 4)) in S1; [|now intros q _|exact I|vm_compute; reflexivity].
  apply (ds_copy _ _ _ _ _ _ 1 3 abc) in S1; [exact S1|vm_compute; reflexivity|reflexivity|vm_compute; reflexivity].
Qed.

Lemma read_run : @dsteps short_file _ mine (Running read_file, fetched 1) [1; 3] []
  (Running (Done (inr (inr abc))), at_end).
Proof.
  pose proof first_chunk as S1.
  apply (ds_release _ _ _ [] 1 [] _ _ chunk_freed) in S1; [|vm_compute; reflexivity].
  eapply (ds_ask _ _ _ _ _ _ _ asked_again) in S1; [|apply event_okb_ok; vm_compute; reflexivity|vm_compute; reflexivity].
  apply (ds_event _ _ _ _ _ SocketReady _ at_end) in S1; [|now intros q _|exact I|vm_compute; reflexivity].
  apply (ds_resume _ _ _ _ _ _ (Returned (VData (DataBytes [])))) in S1; [exact S1|vm_compute; reflexivity|reflexivity].
Qed.

Definition registered : Called := {[ 0 := (RRegister (CPointer (Tstruct "nfsfh") 77), start) ]}.

Lemma registered_lived G : G (Call (RRegister (CPointer (Tstruct "nfsfh") 77))) -> @lived short_file G registered (fetched 1).
Proof.
  intros HG. exists 10, 100, start. split; [reflexivity|].
  apply (co_call _ ∅ start ∅ start (RRegister (CPointer (Tstruct "nfsfh") 77)));
    [constructor|exact HG|apply event_okb_ok; vm_compute; reflexivity|vm_compute; reflexivity].
Qed.

Lemma sequential_read_over_loop_witness :
  exists chunks ks1 last, abc = concat chunks /\ [1; 3] = ks1 ++ last /\ Z.of_nat (length abc) <= 5 /\
    Forall2 (@read_chunk short_file 77 at_end) ks1 (asked 5 0 chunks) /\
    (Z.of_nat (length abc) = 5 /\ last = [] \/
     Z.of_nat (length abc) < 5 /\
     exists k, last = [k] /\ @read_eof short_file 77 at_end k (Z.min Client.sequentialChunk (5 - Z.of_nat (length abc)))).
Proof.
  apply (@sequential_read_over_loop short_file (demo_exports _ _ _ _) mine (Tstruct "nfsfh") 77 (mkFileHandle 1) 5 None (fun _ => false)
           registered (fetched 1) [1; 3] [] abc at_end); [lia|now apply registered_lived| |exact read_run].
  exists 0, start. split; vm_compute; reflexivity.
Defined.

Lemma sequential_read_goes_on_witness :
  let run := @dsteps short_file _ mine (Running read_file, fetched 1) in
  exists held' w', [1] ≡ₚ 1 :: held' /\ @handle short_file (FreeBuffer 1) (fetched 4) = Some (tt, w') /\
    unused 1 (outst (fetched 4)) /\
    run [1] held' (Running (legacy_loop 4 1 None (fun _ => false) (mkFileHandle 1) 5 3 abc), w').
Proof.
  intros run. assert (Hin : 1 ∈ [1]) by left. revert Hin.
  refine (proj2 (proj2 (@sequential_read_goes_on short_file (demo_exports _ _ _ _) mine (mkFileHandle 1) 5 None (fun _ => false)
           registered (fetched 1) [1] [1] _ (fetched 4) _ _ first_chunk)) 1); [lia|now apply registered_lived].
Defined.

End ReadRuns.
