(* ===== verification/Settings.v ===== *)
(** * Settings and connecting

    The methods of the event loop that pass one value to libnfs or read one
    (Sources/NFSKit/NFSEventLoop.swift: setReadMax .. setGID, serverAddress), and
    the methods of the client built on them (Sources/NFSKit/NFSClient.swift:
    [init], [connect], [configurePerformance]).  All of them run inside
    [queue.sync] and start with [context.unwrap()]. *)

From stdpp Require Import base strings numbers list.
From S2P Require Import Prelude Posix CType LibnfsApi Client.

Open Scope string_scope.
Open Scope list_scope.
Open Scope Z_scope.

Module Settings.

(** The calls of libnfs that change a setting of the context. *)
Inductive SettingCall :=
  | nfs_set_readmax (bytes : Z)
  | nfs_set_writemax (bytes : Z)
  | nfs_set_version (version : Z)
  | nfs_set_autoreconnect (retries : Z)
  | nfs_set_retrans (count : Z)
  | nfs_set_debug (level : Z)
  | nfs_set_timeout (milliseconds : Z)
  | nfs_set_uid (uid : Z)
  | nfs_set_gid (gid : Z).

(** The prototype of each. *)
Definition setting_fn (c : SettingCall) : api_fn :=
  match c with
  | nfs_set_readmax _ => Api.nfs_set_readmax
  | nfs_set_writemax _ => Api.nfs_set_writemax
  | nfs_set_version _ => Api.nfs_set_version
  | nfs_set_autoreconnect _ => Api.nfs_set_autoreconnect
  | nfs_set_retrans _ => Api.nfs_set_retrans
  | nfs_set_debug _ => Api.nfs_set_debug
  | nfs_set_timeout _ => Api.nfs_set_timeout
  | nfs_set_uid _ => Api.nfs_set_uid
  | nfs_set_gid _ => Api.nfs_set_gid
  end.

(** The loop's context, and the settings made on it so far. *)
Record Loop := mkLoop { context : option Z; made : list SettingCall }.

Definition outcome (A : Type) : Type := (POSIXError + A) * Loop.

(** [try queue.sync { let ctx = try context.unwrap(); ... }]. *)
Definition on_context {A} (l : Loop) (body : Z -> A * list SettingCall) : outcome A :=
  match unwrap (context l) with
  | inl e => (inl e, l)
  | inr ctx => let '(a, cs) := body ctx in (inr a, mkLoop (context l) (made l ++ cs))
  end.

Definition set_ (c : SettingCall) (l : Loop) : outcome unit := on_context l (fun _ => (tt, [c])).

Definition setReadMax (bytes : Z) : Loop -> outcome unit := set_ (nfs_set_readmax bytes).
Definition setWriteMax (bytes : Z) : Loop -> outcome unit := set_ (nfs_set_writemax bytes).
Definition setAutoReconnect (retries : Z) : Loop -> outcome unit := set_ (nfs_set_autoreconnect retries).
Definition setRetransmissions (count : Z) : Loop -> outcome unit := set_ (nfs_set_retrans count).
Definition setDebugLevel (level : Z) : Loop -> outcome unit := set_ (nfs_set_debug level).
Definition setTimeout (milliseconds : Z) : Loop -> outcome unit := set_ (nfs_set_timeout milliseconds).
Definition setUID (uid : Z) : Loop -> outcome unit := set_ (nfs_set_uid uid).
Definition setGID (gid : Z) : Loop -> outcome unit := set_ (nfs_set_gid gid).

(** What libnfs answers. *)
Section Answers.
Variable set_version_rc : Z -> Z -> Z.
Variables get_readmax get_version : Z -> Z.
Context {Address : Type}.
Variable get_server_address : Z -> option Address.

Definition setVersion (version : Z) (l : Loop) : outcome Z :=
  on_context l (fun ctx => (set_version_rc ctx version, [nfs_set_version version])).

Definition getVersion (l : Loop) : outcome Z := on_context l (fun ctx => (get_version ctx, [])).

Definition getReadMax (l : Loop) : outcome Z := on_context l (fun ctx => (get_readmax ctx, [])).

(** A copy of the address, or [nil] before a successful mount. *)
Definition serverAddress (l : Loop) : outcome (option Address) :=
  on_context l (fun ctx => (get_server_address ctx, [])).

End Answers.

(** ** The client *)

(** [if let x = x { try set(x) }], then the rest. *)
Definition and_then (r : outcome unit) (k : Loop -> outcome unit) : outcome unit :=
  match r with (inl e, l) => (inl e, l) | (inr _, l) => k l end.

Definition if_let (x : option Z) (set : Z -> Loop -> outcome unit) (l : Loop) : outcome unit :=
  match x with Some x => set x l | None => (inr tt, l) end.

Definition configurePerformance (readMax writeMax autoReconnect retransmissions timeout : option Z)
    (l : Loop) : outcome unit :=
  and_then (if_let readMax setReadMax l) (fun l =>
  and_then (if_let writeMax setWriteMax l) (fun l =>
  and_then (if_let autoReconnect setAutoReconnect l) (fun l =>
  and_then (if_let retransmissions setRetransmissions l) (fun l =>
  if_let timeout setTimeout l)))).

(** [NFSClient.init?]: [nil] without a host; otherwise the loop, or what its
    initialiser throws. *)
Definition client_init (host : option string) (eventLoop : POSIXError + Loop)
    : POSIXError + option Loop :=
  match host with
  | None => inr None
  | Some _ => match eventLoop with inl e => inl e | inr l => inr (Some l) end
  end.

(** [connect(export:)]; [mount] and [stat] are the operations of the loop, which
    other blocks of the queue may change meanwhile.  [None]: the program stops. *)
Section Connect.
Variable mount : string -> string -> Loop -> outcome unit.
Variable stat : string -> Loop -> outcome Api.nfs_stat_64.

Definition connect (host : option string) (port : option Z) (export : string) (l : Loop)
    : option (outcome unit) :=
  match mount (Client.server_name host port) export l with
  | (inl e, l) => Some (inl e, l)
  | (inr _, l) =>
      match stat "/" l with
      | (inl e, l) => Some (inl e, l)
      | (inr st, l) =>
          uid ← Client.int32 (Api.nfs_uid st);
          match setUID uid l with
          | (inl e, l) => Some (inl e, l)
          | (inr _, l) => gid ← Client.int32 (Api.nfs_gid st); Some (setGID gid l)
          end
      end
  end.

End Connect.

(** ** Properties *)

Lemma on_context_gone {A} l (body : Z -> A * list SettingCall) : context l = None ->
  on_context l body = (inl (posix_error ENODATA "Invalid/Empty data."), l).
Proof. intros H. unfold on_context. now rewrite H. Qed.

Lemma set_alive c l ctx : context l = Some ctx -> set_ c l = (inr tt, mkLoop (context l) (made l ++ [c])).
Proof. intros H. unfold set_, on_context. now rewrite H. Qed.

Lemma int32_unsigned x : 0 <= x -> Client.int32 x = if x <? 2 ^ 31 then Some x else None.
Proof.
  intros H. unfold Client.int32. destruct (x <? 2 ^ 31) eqn:E; [apply decide_True|apply decide_False]; lia.
Qed.

(** The settings that a call of [configurePerformance] names, in its order. *)
Definition requested (readMax writeMax autoReconnect retransmissions timeout : option Z) : list SettingCall :=
  option_list (nfs_set_readmax <$> readMax) ++ option_list (nfs_set_writemax <$> writeMax) ++
  option_list (nfs_set_autoreconnect <$> autoReconnect) ++ option_list (nfs_set_retrans <$> retransmissions) ++
  option_list (nfs_set_timeout <$> timeout).

Lemma if_let_alive x set c l ctx : (forall v, set v = set_ (c v)) -> context l = Some ctx ->
  if_let x set l = (inr tt, mkLoop (context l) (made l ++ option_list (c <$> x))).
Proof.
  intros Hs Hc. destruct x as [v|]; cbn; [rewrite Hs; now apply (set_alive _ _ ctx)|].
  rewrite app_nil_r. now destruct l.
Qed.

(** Configuring makes exactly the settings that were named, each once and in
    order, and none of the others; after a shutdown it makes none and throws
    ENODATA as soon as one is named. *)
Theorem configurePerformance_exact readMax writeMax autoReconnect retransmissions timeout l :
  configurePerformance readMax writeMax autoReconnect retransmissions timeout l =
  let cs := requested readMax writeMax autoReconnect retransmissions timeout in
  match context l, cs with
  | Some _, _ => (inr tt, mkLoop (context l) (made l ++ cs))
  | None, [] => (inr tt, l)
  | None, _ => (inl (posix_error ENODATA "Invalid/Empty data."), l)
  end.
Proof.
  destruct l as [[ctx|] ms]; cbn zeta.
  - unfold configurePerformance, requested, and_then.
    do 5 (erewrite (if_let_alive _ _ _ _ ctx); [|reflexivity|reflexivity]; cbn [context made]).
    now rewrite <- !app_assoc.
  - unfold configurePerformance, requested, and_then, if_let.
    destruct readMax, writeMax, autoReconnect, retransmissions, timeout; reflexivity.
Qed.

(** C38: connecting mounts the export and then takes over the owner of the root
    directory: it sets its user and then its group as the identity of the
    context, when both fit 31 bits; the program stops when one does not, as for
    the owner "nobody" (4294967294). *)
Theorem connect_takes_identity mount stat host port export l l1 l2 st ctx :
  mount (Client.server_name host port) export l = (inr tt, l1) ->
  stat "/"%string l1 = (inr st, l2) -> context l2 = Some ctx ->
  0 <= Api.nfs_uid st < 2 ^ 64 -> 0 <= Api.nfs_gid st < 2 ^ 64 ->
  connect mount stat host port export l =
    if (Api.nfs_uid st <? 2 ^ 31) && (Api.nfs_gid st <? 2 ^ 31)
    then Some (inr tt, mkLoop (context l2) (made l2 ++ [nfs_set_uid (Api.nfs_uid st); nfs_set_gid (Api.nfs_gid st)]))
    else None.
Proof.
  intros Hm Hs Hc Hu Hg. unfold connect. rewrite Hm, Hs.
  rewrite (int32_unsigned (Api.nfs_uid st)), (int32_unsigned (Api.nfs_gid st)) by lia.
  destruct (Api.nfs_uid st <? 2 ^ 31); [|reflexivity]. cbn [mbind option_bind andb].
  unfold setUID. rewrite (set_alive _ _ ctx) by exact Hc.
  destruct (Api.nfs_gid st <? 2 ^ 31); [|reflexivity]. cbn [mbind option_bind].
  unfold setGID. rewrite (set_alive _ _ ctx) by exact Hc. cbn [context made]. now rewrite <- app_assoc.
Qed.

Definition root_stat (uid gid : Z) : Api.nfs_stat_64 :=
  Api.mk_nfs_stat_64 0 0 0 0 uid gid 0 0 0 0 0 0 0 0 0 0 0.

Lemma connect_takes_identity_witness :
  connect (fun _ _ l => (inr tt, l)) (fun _ l => (inr (root_stat 501 20), l)) (Some "nas") (Some 2049)
    "/export" (mkLoop (Some 1) [])
  = Some (inr tt, mkLoop (Some 1) [nfs_set_uid 501; nfs_set_gid 20]).
Proof.
  rewrite (connect_takes_identity (fun _ _ l => (inr tt, l)) (fun _ l => (inr (root_stat 501 20), l))
             (Some "nas") (Some 2049) "/export" (mkLoop (Some 1) []) (mkLoop (Some 1) [])
             (mkLoop (Some 1) []) (root_stat 501 20) 1);
    [reflexivity|reflexivity|reflexivity|reflexivity|cbn; lia|cbn; lia].
Defined.

End Settings.
