(* ===== verification/WireTypes.v ===== *)
(** * Wire types

    How the rpcgen headers declare data: structures, unions behind a
    discriminant, counted arrays, lists linked by pointers, names for other
    types.  A declaration is data; [struct_layout] computes where the C compiler puts
    each member of a structure in the LP64 model of Apple's platforms, and
    [struct_layout_sound] shows that members never overlap, are aligned, and lie
    inside the structure.  [well_formed] reads a header as a C compiler does: each type
    is declared before it is used by value, and no name is declared twice. *)

From Stdlib Require Import Sorting.Sorted.
From stdpp Require Import base gmap strings numbers list.
From S2P Require Import Prelude CType.

Open Scope string_scope.
Open Scope list_scope.
Open Scope Z_scope.

Module Wire.

(** A member of a structure or union: a field, an array field, or a field whose
    type is an anonymous structure or union. *)
#[local] Unset Elimination Schemes.
Inductive member :=
  | Field (name : string) (t : ctype)
  | ArrayField (name : string) (t : ctype) (n : Z)
  | StructField (ms : list member) (name : string)
  | UnionField (ms : list member) (name : string).
#[local] Set Elimination Schemes.

(** A declaration at the top level of a header.  The headers follow every [struct X]
    with [typedef struct X X].  A function pointer lists the parameters in front of
    an ellipsis. *)
Inductive decl :=
  | Enum (tag : string) (values : list (string * Z))
  | Struct (tag : string) (ms : list member)
  | Typedef (name : string) (t : ctype)
  | ArrayTypedef (name : string) (t : ctype) (n : Z)
  | FunctionPointer (name : string) (ret : ctype) (params : list ctype).

(** A codec [extern uint32_t zdr_<name> (ZDR *, <arg>)]. *)
Record codec := mkCodec { codec_name : string; codec_arg : ctype }.

Record header := mkHeader {
  header_file : string;
  header_decls : list decl;
  header_codecs : list codec
}.

Definition member_name (m : member) : string :=
  match m with Field n _ | ArrayField n _ _ | StructField _ n | UnionField _ n => n end.

Definition decl_name (d : decl) : string :=
  match d with Enum n _ | Struct n _ | Typedef n _ | ArrayTypedef n _ _ | FunctionPointer n _ _ => n end.

(** ** Layout *)

(** Size and alignment. *)
Definition layout : Type := Z * Z.

(** The layouts of the types declared so far. *)
Definition env : Type := gmap string layout.

Fixpoint ctype_layout (Γ : env) (t : ctype) : option layout :=
  match t with
  | Tvoid => None
  | Tchar => Some (1, 1)
  | Tuint16 => Some (2, 2)
  | Tint | Tuint32 => Some (4, 4)
  | Tlong | Tuint64 | Tint64 | Tsize => Some (8, 8)
  | Tptr _ => Some (8, 8)
  | Tconst t => ctype_layout Γ t
  | Tstruct n | Tenum n | Ttypedef n => Γ !! n
  end.

(** [t[n]]; an array has a positive number of elements. *)
Definition array_layout (Γ : env) (t : ctype) (n : Z) : option layout :=
  '(sz, al) ← ctype_layout Γ t; if 0 <? n then Some (n * sz, al) else None.

Definition align_up (off al : Z) : Z := (off + al - 1) / al * al.

(** Where a member is: its name, offset and size. *)
Record place := mkPlace { p_name : string; p_off : Z; p_size : Z; p_align : Z }.

(** The members of a structure from offset [off] on, the end of the last one and
    the largest alignment. *)
Fixpoint place_struct (ls : list (string * layout)) (off al : Z) : list place * Z * Z :=
  match ls with
  | [] => ([], off, al)
  | (n, (sz, a)) :: ls =>
      let o := align_up off a in
      let '(ps, e, al) := place_struct ls (o + sz) (al `max` a) in
      (mkPlace n o sz a :: ps, e, al)
  end.

(** The members of a union: all at offset 0. *)
Fixpoint place_union (ls : list (string * layout)) (e al : Z) : list place * Z * Z :=
  match ls with
  | [] => ([], e, al)
  | (n, (sz, a)) :: ls =>
      let '(ps, e, al) := place_union ls (e `max` sz) (al `max` a) in (mkPlace n 0 sz a :: ps, e, al)
  end.

(** The end of the members padded to the alignment. *)
Definition padded (r : list place * Z * Z) : layout :=
  let '(_, e, al) := r in (align_up e al, al).

Fixpoint member_layout (Γ : env) (m : member) : option layout :=
  let members := fix members (ms : list member) : option (list (string * layout)) :=
    match ms with
    | [] => Some []
    | m :: ms => l ← member_layout Γ m; ls ← members ms; Some ((member_name m, l) :: ls)
    end in
  match m with
  | Field _ t => ctype_layout Γ t
  | ArrayField _ t n => array_layout Γ t n
  | StructField ms _ => ls ← members ms; Some (padded (place_struct ls 0 1))
  | UnionField ms _ => ls ← members ms; Some (padded (place_union ls 0 1))
  end.

Definition member_layouts (Γ : env) : list member -> option (list (string * layout)) :=
  fix members (ms : list member) :=
    match ms with
    | [] => Some []
    | m :: ms => l ← member_layout Γ m; ls ← members ms; Some ((member_name m, l) :: ls)
    end.

(** Where a structure has its members, and its size and alignment. *)
Definition struct_layout (Γ : env) (ms : list member) : option (list place * layout) :=
  ls ← member_layouts Γ ms;
  let r := place_struct ls 0 1 in Some (r.1.1, padded r).

Definition decl_layout (Γ : env) (d : decl) : option layout :=
  match d with
  | Enum _ _ => Some (4, 4)
  | Struct _ ms => snd <$> struct_layout Γ ms
  | Typedef _ t => ctype_layout Γ t
  | ArrayTypedef _ t n => array_layout Γ t n
  | FunctionPointer _ _ _ => Some (8, 8)
  end.

(** Reads the declarations in order; [None] when a type is used by value before it
    is complete, or a name is declared twice. *)
Fixpoint declare (Γ : env) (ds : list decl) : option env :=
  match ds with
  | [] => Some Γ
  | d :: ds =>
      match Γ !! decl_name d with
      | Some _ => None
      | None => l ← decl_layout Γ d; declare (<[decl_name d := l]> Γ) ds
      end
  end.

(** ** Soundness *)

(** The alignments of the model are powers of two, and sizes are multiples of them. *)
Definition valid (l : layout) : Prop := 0 <= l.1 /\ (l.2 | l.1) /\ l.2 ∈ [1; 2; 4; 8].

Definition env_valid (Γ : env) : Prop := map_Forall (fun _ => valid) Γ.

Definition before (p q : place) : Prop := p_off p + p_size p <= p_off q.

(** [p] is inside a structure of the given size and alignment. *)
Definition inside (size al : Z) (p : place) : Prop :=
  0 <= p_off p /\ p_off p + p_size p <= size /\ (p_align p | p_off p) /\ (p_align p | al).

(** Members come one after the other, aligned and inside, and structures can be
    put side by side in an array. *)
Definition sound (ps : list place) (l : layout) : Prop :=
  StronglySorted before ps /\ Forall (inside l.1 l.2) ps /\ valid l.

Lemma valid_align l : valid l -> 0 < l.2.
Proof. intros (_ & _ & H). repeat (apply elem_of_cons in H as [H|H]; [lia|]). now apply elem_of_nil in H. Qed.

Lemma align_up_spec off al : 0 < al -> off <= align_up off al /\ (al | align_up off al).
Proof.
  intros H. unfold align_up. split; [|apply Z.divide_factor_r].
  pose proof (Z.mod_pos_bound (off + al - 1) al H). rewrite Z.mod_eq in H0 by lia. lia.
Qed.

(** The larger of two powers of two is a multiple of both. *)
Lemma align_max a b : a ∈ [1; 2; 4; 8] -> b ∈ [1; 2; 4; 8] ->
  a `max` b ∈ [1; 2; 4; 8] /\ (a | a `max` b) /\ (b | a `max` b).
Proof.
  intros Ha Hb. assert (Hm : a `max` b ∈ [1; 2; 4; 8]) by (destruct (Z.max_spec a b) as [[_ ->]|[_ ->]]; done).
  split; [exact Hm|].
  repeat (apply elem_of_cons in Ha as [->|Ha]); [..|now apply elem_of_nil in Ha];
    (repeat (apply elem_of_cons in Hb as [->|Hb]); [..|now apply elem_of_nil in Hb]);
    split; apply Z.mod_divide; done.
Qed.

Lemma place_struct_sound ls off al ps e al' :
  Forall (valid ∘ snd) ls -> 0 <= off -> al ∈ [1; 2; 4; 8] -> place_struct ls off al = (ps, e, al') ->
  off <= e /\ al' ∈ [1; 2; 4; 8] /\ (al | al') /\ StronglySorted before ps /\
  Forall (fun p => off <= p_off p /\ inside e al' p) ps.
Proof.
  intros Hl. revert off al ps e al'. induction Hl as [|[n [sz a]] ls Hv Hl IH]; intros off al ps e al' Ho Ha H.
  - injection H as <- <- <-. splits; [done|done|reflexivity|constructor|constructor].
  - cbn in H, Hv. pose proof (valid_align _ Hv) as Hpos. destruct Hv as (Hsz & _ & Hin). cbn in *.
    destruct (align_up_spec off a Hpos) as [Hle Hd]. destruct (align_max al a Ha Hin) as (Hm & D1 & D2).
    destruct (place_struct ls _ _) as [[ps1 e1] al1] eqn:E. injection H as <- <- <-.
    destruct (IH (align_up off a + sz) _ ps1 e1 al1 ltac:(lia) Hm E) as (L1 & L2 & L3 & L4 & L5). splits.
    + lia.
    + done.
    + etrans; eassumption.
    + constructor; [exact L4|]. eapply Forall_impl; [exact L5|]. intros p [Hp _]. exact Hp.
    + constructor.
      * unfold inside. cbn. splits; [lia|lia|lia|done|]. etrans; eassumption.
      * eapply Forall_impl; [exact L5|]. cbn. intros p [Hp Hi]. split; [lia|exact Hi].
Qed.

Lemma padded_valid r : 0 <= r.1.2 -> r.2 ∈ [1; 2; 4; 8] -> valid (padded r) /\ r.1.2 <= (padded r).1.
Proof.
  destruct r as [[ps e] al]. cbn. intros He Ha.
  assert (Hp : 0 < al) by (repeat (apply elem_of_cons in Ha as [->|Ha]; [done|]); now apply elem_of_nil in Ha).
  destruct (align_up_spec e al Hp). splits; [|lia]. unfold valid. cbn. splits; [lia|done|done].
Qed.

Lemma place_union_valid ls e al r :
  Forall (valid ∘ snd) ls -> 0 <= e -> al ∈ [1; 2; 4; 8] -> place_union ls e al = r ->
  0 <= r.1.2 /\ r.2 ∈ [1; 2; 4; 8].
Proof.
  intros Hl. revert e al r. induction Hl as [|[n [sz a]] ls Hv Hl IH]; intros e al r He Ha <-; [done|].
  cbn. destruct Hv as (Hsz & _ & Hin). cbn in *.
  specialize (IH (e `max` sz) (al `max` a) _ ltac:(lia) (proj1 (align_max al a Ha Hin)) eq_refl).
  destruct (place_union ls _ _) as [[ps1 e1] al1]. exact IH.
Qed.

(** Induction over members, with the hypothesis for each nested one. *)
Section MemberInd.
Variable P : member -> Prop.
Hypothesis Hfield : forall n t, P (Field n t).
Hypothesis Harray : forall n t k, P (ArrayField n t k).
Hypothesis Hstruct : forall ms n, Forall P ms -> P (StructField ms n).
Hypothesis Hunion : forall ms n, Forall P ms -> P (UnionField ms n).

Fixpoint member_ind (m : member) : P m :=
  let all := fix all (ms : list member) : Forall P ms :=
    match ms with
    | [] => Forall_nil_2 _
    | m :: ms => Forall_cons_2 _ _ _ (member_ind m) (all ms)
    end in
  match m with
  | Field n t => Hfield n t
  | ArrayField n t k => Harray n t k
  | StructField ms n => Hstruct ms n (all ms)
  | UnionField ms n => Hunion ms n (all ms)
  end.

End MemberInd.

Lemma struct_field_layout Γ ms n :
  member_layout Γ (StructField ms n) = (ls ← member_layouts Γ ms; Some (padded (place_struct ls 0 1))).
Proof. reflexivity. Qed.

Lemma union_field_layout Γ ms n :
  member_layout Γ (UnionField ms n) = (ls ← member_layouts Γ ms; Some (padded (place_union ls 0 1))).
Proof. reflexivity. Qed.

Lemma base_valid z : z ∈ [1; 2; 4; 8] -> valid (z, z).
Proof.
  intros H. unfold valid. cbn. splits; [|done|done].
  repeat (apply elem_of_cons in H as [->|H]; [done|]). now apply elem_of_nil in H.
Qed.

Section Valid.
Context (Γ : env) (HΓ : env_valid Γ).

Lemma ctype_valid t l : ctype_layout Γ t = Some l -> valid l.
Proof.
  induction t; cbn; intros [= H]; subst; try (apply (bool_decide_unpack _); vm_compute; exact I);
    eauto using base_valid; try (eapply HΓ; eassumption); apply base_valid;
    repeat first [left | right]; done.
Qed.

Lemma array_valid t n l : array_layout Γ t n = Some l -> valid l.
Proof.
  unfold array_layout. destruct (ctype_layout Γ t) as [[sz al]|] eqn:E; [|done]. cbn.
  destruct (Z.ltb_spec 0 n); intros [= <-]. destruct (ctype_valid t _ E) as (H1 & H2 & H3). cbn in *.
  unfold valid. cbn. splits; [nia|now apply Z.divide_mul_r|done].
Qed.

Lemma layouts_valid ms ls : Forall (fun m => forall l, member_layout Γ m = Some l -> valid l) ms ->
  member_layouts Γ ms = Some ls -> Forall (valid ∘ snd) ls.
Proof.
  intros H. revert ls. induction H as [|m ms Hm _ IH]; intros ls E; [injection E as <-; constructor|].
  cbn in E. apply bind_Some in E as (l & El & E). apply bind_Some in E as (ls' & El' & [= <-]).
  constructor; [exact (Hm l El)|exact (IH ls' El')].
Qed.

Lemma struct_valid ls : Forall (valid ∘ snd) ls -> valid (padded (place_struct ls 0 1)).
Proof.
  intros H. destruct (place_struct ls 0 1) as [[ps e] al] eqn:E.
  destruct (place_struct_sound ls 0 1 ps e al H ltac:(lia) ltac:(now left) E) as (L1 & L2 & _).
  apply (padded_valid (ps, e, al)); cbn; [lia|done].
Qed.

Lemma union_valid ls : Forall (valid ∘ snd) ls -> valid (padded (place_union ls 0 1)).
Proof.
  intros H. destruct (place_union_valid ls 0 1 _ H ltac:(lia) ltac:(now left) eq_refl). now apply padded_valid.
Qed.

Lemma member_valid m l : member_layout Γ m = Some l -> valid l.
Proof.
  revert l. induction m as [n t|n t k|ms n IH|ms n IH] using member_ind; intros l H.
  - exact (ctype_valid t l H).
  - exact (array_valid t k l H).
  - rewrite struct_field_layout in H. apply bind_Some in H as (ls & El & [= <-]).
    apply struct_valid. exact (layouts_valid ms ls IH El).
  - rewrite union_field_layout in H. apply bind_Some in H as (ls & El & [= <-]).
    apply union_valid. exact (layouts_valid ms ls IH El).
Qed.

(** Structures are laid out soundly whatever their members. *)
Lemma struct_layout_sound ms ps l : struct_layout Γ ms = Some (ps, l) -> sound ps l.
Proof.
  unfold struct_layout. intros H. apply bind_Some in H as (ls & El & H).
  assert (Hv : Forall (valid ∘ snd) ls)
    by (eapply layouts_valid; [|exact El]; apply Forall_forall; intros m _; exact (member_valid m)).
  destruct (place_struct ls 0 1) as [[ps1 e] al] eqn:E. injection H as <- <-.
  destruct (place_struct_sound ls 0 1 ps1 e al Hv ltac:(lia) ltac:(now left) E) as (L1 & L2 & _ & L4 & L5).
  destruct (padded_valid (ps1, e, al) ltac:(cbn; lia) L2) as [V1 V2]. split; [exact L4|split; [|exact V1]].
  eapply Forall_impl; [exact L5|]. intros p (_ & H1 & H2 & H3 & H4). cbn in V2. unfold inside. splits; try done.
  cbn. lia.
Qed.

Lemma decl_valid d l : decl_layout Γ d = Some l -> valid l.
Proof.
  destruct d as [n vs|n ms|n t|n t k|n r ps]; cbn; intros H.
  - injection H as <-. apply base_valid. do 2 right. now left.
  - apply fmap_Some in H as ([ps l'] & E & ->). apply (struct_layout_sound ms ps l' E).
  - exact (ctype_valid t l H).
  - exact (array_valid t k l H).
  - injection H as <-. apply base_valid. do 3 right. now left.
Qed.

End Valid.

(** ** Reading a header *)

Lemma ctype_layout_mono Γ Γ' t l : Γ ⊆ Γ' -> ctype_layout Γ t = Some l -> ctype_layout Γ' t = Some l.
Proof. intros Hs. induction t; cbn; eauto using lookup_weaken. Qed.

Lemma array_layout_mono Γ Γ' t n l : Γ ⊆ Γ' -> array_layout Γ t n = Some l -> array_layout Γ' t n = Some l.
Proof.
  intros Hs. unfold array_layout. destruct (ctype_layout Γ t) as [[sz al]|] eqn:E; [|done].
  now rewrite (ctype_layout_mono Γ Γ' t _ Hs E).
Qed.

Lemma layouts_mono Γ Γ' ms ls :
  Forall (fun m => forall l, member_layout Γ m = Some l -> member_layout Γ' m = Some l) ms ->
  member_layouts Γ ms = Some ls -> member_layouts Γ' ms = Some ls.
Proof.
  intros H. revert ls. induction H as [|m ms Hm _ IH]; intros ls E; [exact E|].
  cbn in E |- *. apply bind_Some in E as (l & El & E). apply bind_Some in E as (ls' & El' & [= <-]).
  now rewrite (Hm l El), (IH ls' El').
Qed.

Lemma member_layout_mono Γ Γ' m l : Γ ⊆ Γ' -> member_layout Γ m = Some l -> member_layout Γ' m = Some l.
Proof.
  intros Hs. revert l. induction m as [n t|n t k|ms n IH|ms n IH] using member_ind; intros l H.
  - exact (ctype_layout_mono Γ Γ' t l Hs H).
  - exact (array_layout_mono Γ Γ' t k l Hs H).
  - rewrite struct_field_layout in *. apply bind_Some in H as (ls & El & [= <-]).
    now rewrite (layouts_mono Γ Γ' ms ls IH El).
  - rewrite union_field_layout in *. apply bind_Some in H as (ls & El & [= <-]).
    now rewrite (layouts_mono Γ Γ' ms ls IH El).
Qed.

Lemma struct_layout_mono Γ Γ' ms r : Γ ⊆ Γ' -> struct_layout Γ ms = Some r -> struct_layout Γ' ms = Some r.
Proof.
  intros Hs H. unfold struct_layout in *. apply bind_Some in H as (ls & El & H).
  rewrite (layouts_mono Γ Γ' ms ls); [exact H| |exact El].
  apply Forall_forall. intros m _ l. now apply member_layout_mono.
Qed.

Lemma decl_layout_mono Γ Γ' d l : Γ ⊆ Γ' -> decl_layout Γ d = Some l -> decl_layout Γ' d = Some l.
Proof.
  intros Hs. destruct d as [n vs|n ms|n t|n t k|n r ps]; cbn; eauto using ctype_layout_mono, array_layout_mono.
  intros H. apply fmap_Some in H as (r & E & ->). now rewrite (struct_layout_mono Γ Γ' ms r Hs E).
Qed.

(** A header that can be read gives every declaration one layout, which later
    declarations do not change. *)
Lemma declare_spec ds : forall Γ Γ', env_valid Γ -> declare Γ ds = Some Γ' ->
  env_valid Γ' /\ Γ ⊆ Γ' /\
  forall d, d ∈ ds -> exists l, Γ' !! decl_name d = Some l /\ decl_layout Γ' d = Some l.
Proof.
  induction ds as [|d ds IH]; intros Γ Γ' HΓ H; cbn in H.
  - injection H as <-. splits; [done|done|]. intros d Hd. now apply elem_of_nil in Hd.
  - destruct (Γ !! decl_name d) eqn:En; [done|]. apply bind_Some in H as (l & El & H).
    assert (Hs : Γ ⊆ <[decl_name d := l]> Γ) by now apply insert_subseteq.
    destruct (IH (<[decl_name d := l]> Γ) Γ') as (V & S & A); [|exact H|].
    { apply map_Forall_insert_2; [|exact HΓ]. exact (decl_valid Γ HΓ d l El). }
    splits; [exact V|now trans (<[decl_name d := l]> Γ)|].
    intros d' [->|Hd]%elem_of_cons; [|exact (A d' Hd)]. exists l. split.
    + apply (lookup_weaken _ _ _ _ (lookup_insert_eq Γ _ _) S).
    + eapply decl_layout_mono; [|exact El]. now trans (<[decl_name d := l]> Γ).
Qed.

Lemma declare_struct Γ ds Γ' tag ms : env_valid Γ -> declare Γ ds = Some Γ' -> Struct tag ms ∈ ds ->
  exists ps l, struct_layout Γ' ms = Some (ps, l) /\ sound ps l.
Proof.
  intros HΓ H Hin. destruct (declare_spec ds Γ Γ' HΓ H) as (V & _ & A).
  destruct (A _ Hin) as (l & _ & El). cbn in El. apply fmap_Some in El as ([ps l'] & E & ->).
  exists ps, l'. split; [exact E|]. exact (struct_layout_sound Γ' V ms ps l' E).
Qed.

End Wire.
