(* ===== verification/Zdr.v ===== *)
(** * The marshalling library

    nfsc/libnfs-zdr.h: the stream [ZDR], the RPC messages, and the codecs of the base
    types.  The [typedef]s of [CLIENT] and [SVCXPRT] to [void], which the header
    says are not needed, are left out. *)

From stdpp Require Import base list strings numbers.
From S2P Require Import Prelude CType WireTypes.
Import Wire.

Open Scope string_scope.
Open Scope list_scope.
Open Scope Z_scope.

Module Zdr.

(** [caddr_t] comes from [sys/types.h]. *)
Definition caddr_t : decl := Typedef "caddr_t" (Tptr Tchar).

Definition svc_req : decl :=
  Struct "svc_req" [
    Field "_dummy_" Tint].

Definition zdr_op : decl :=
  Enum "zdr_op" [
    ("ZDR_ENCODE", 0); ("ZDR_DECODE", 1)].

Definition ZDR : decl :=
  Struct "ZDR" [
    Field "x_op" (Tenum "zdr_op");
    Field "buf" (Ttypedef "caddr_t");
    Field "size" Tint;
    Field "pos" Tint;
    Field "mem" (Tptr (Tstruct "zdr_mem"))].

Definition enum_t : decl :=
  Typedef "enum_t" Tuint32.

Definition bool_t : decl :=
  Typedef "bool_t" Tuint32.

Definition zdrproc_t : decl :=
  FunctionPointer "zdrproc_t" Tuint32 [Tptr (Ttypedef "ZDR"); Tptr Tvoid].

Definition opaque_cred : decl :=
  Struct "opaque_cred" [
    Field "oa_flavor" Tuint32;
    Field "oa_base" (Ttypedef "caddr_t");
    Field "oa_length" Tuint32].

Definition opaque_verf : decl :=
  Struct "opaque_verf" [
    Field "oa_flavor" Tuint32;
    Field "oa_base" (Ttypedef "caddr_t");
    Field "oa_length" Tuint32;
    Field "gss_context" (Tptr (Tstruct "gss_ctx_id_struct"))].

Definition AUTH : decl :=
  Struct "AUTH" [
    Field "ah_cred" (Tstruct "opaque_cred");
    Field "ah_verf" (Tstruct "opaque_verf");
    Field "ah_private" (Ttypedef "caddr_t")].

Definition msg_type : decl :=
  Enum "msg_type" [
    ("CALL", 0); ("REPLY", 1)].

Definition reply_stat : decl :=
  Enum "reply_stat" [
    ("MSG_ACCEPTED", 0); ("MSG_DENIED", 1)].

Definition accept_stat : decl :=
  Enum "accept_stat" [
    ("SUCCESS", 0); ("PROG_UNAVAIL", 1); ("PROG_MISMATCH", 2); ("PROC_UNAVAIL", 3); ("GARBAGE_ARGS", 4);
   ("SYSTEM_ERR", 5)].

Definition reject_stat : decl :=
  Enum "reject_stat" [
    ("RPC_MISMATCH", 0); ("AUTH_ERROR", 1)].

Definition auth_stat : decl :=
  Enum "auth_stat" [
    ("AUTH_OK", 0); ("AUTH_BADCRED", 1); ("AUTH_REJECTEDCRED", 2); ("AUTH_BADVERF", 3);
   ("AUTH_REJECTEDVERF", 4); ("AUTH_TOOWEAK", 5); ("AUTH_INVALIDRESP", 6); ("AUTH_FAILED", 7)].

Definition call_body : decl :=
  Struct "call_body" [
    Field "rpcvers" Tuint32;
    Field "prog" Tuint32;
    Field "vers" Tuint32;
    Field "proc" Tuint32;
    Field "cred" (Tstruct "opaque_cred");
    Field "verf" (Tstruct "opaque_verf");
    Field "args" (Tptr Tvoid)].

Definition accepted_reply : decl :=
  Struct "accepted_reply" [
    Field "verf" (Tstruct "opaque_verf");
    Field "stat" Tuint32;
    UnionField [
      StructField [
        Field "where" (Ttypedef "caddr_t");
        Field "proc" (Ttypedef "zdrproc_t");
        Field "krb5i" Tuint32;
        Field "krb5p" Tuint32;
        Field "output_buffer" (Tptr Tvoid)] "results";
      StructField [
        Field "low" Tuint32;
        Field "high" Tuint32] "mismatch_info"] "reply_data"].

Definition rejected_reply : decl :=
  Struct "rejected_reply" [
    Field "stat" (Tenum "reject_stat");
    UnionField [
      StructField [
        Field "low" Tuint32;
        Field "high" Tuint32] "mismatch_info";
      Field "stat" (Tenum "auth_stat")] "reject_data"].

Definition reply_body : decl :=
  Struct "reply_body" [
    Field "stat" Tuint32;
    UnionField [
      Field "areply" (Tstruct "accepted_reply");
      Field "rreply" (Tstruct "rejected_reply")] "reply"].

Definition rpc_msg : decl :=
  Struct "rpc_msg" [
    Field "xid" Tuint32;
    Field "direction" Tuint32;
    UnionField [
      Field "cbody" (Tstruct "call_body");
      Field "rbody" (Tstruct "reply_body")] "body"].

Definition AUTH_NONE : Z := 0.
Definition AUTH_NULL : Z := 0.
Definition AUTH_SYS : Z := 1.
Definition AUTH_UNIX : Z := 1.
Definition AUTH_GSS : Z := 6.
Definition RPC_MSG_VERSION : Z := 2.

(** The types, in the order of the header. *)
Definition zdr_decls : list decl :=
  [caddr_t; svc_req; zdr_op; ZDR; enum_t; bool_t; zdrproc_t; opaque_cred; opaque_verf; AUTH; msg_type;
   reply_stat; accept_stat; reject_stat; auth_stat; call_body; accepted_reply; rejected_reply; reply_body;
   rpc_msg].

Definition libnfs_zdrmem_create : api_fn :=
  mkApi "libnfs_zdrmem_create" Tvoid [("zdrs", (Tptr (Ttypedef "ZDR")));
   ("addr", (Tconst (Ttypedef "caddr_t"))); ("size", Tuint32); ("xop", (Tenum "zdr_op"))] DocPlain.

Definition libnfs_zdr_destroy : api_fn :=
  mkApi "libnfs_zdr_destroy" Tvoid [("zdrs", (Tptr (Ttypedef "ZDR")))] DocPlain.

Definition libnfs_zdr_bytes : api_fn :=
  mkApi "libnfs_zdr_bytes" (Ttypedef "bool_t") [("zdrs", (Tptr (Ttypedef "ZDR")));
   ("bufp", (Tptr (Tptr Tchar))); ("size", (Tptr Tuint32)); ("maxsize", Tuint32)] DocPlain.

Definition libnfs_zdr_u_int : api_fn :=
  mkApi "libnfs_zdr_u_int" (Ttypedef "bool_t") [("zdrs", (Tptr (Ttypedef "ZDR")));
   ("u", (Tptr Tuint32))] DocPlain.

Definition libnfs_zdr_int : api_fn :=
  mkApi "libnfs_zdr_int" (Ttypedef "bool_t") [("zdrs", (Tptr (Ttypedef "ZDR"))); ("i", (Tptr Tint))] DocPlain.

Definition libnfs_zdr_uint64_t : api_fn :=
  mkApi "libnfs_zdr_uint64_t" (Ttypedef "bool_t") [("zdrs", (Tptr (Ttypedef "ZDR")));
   ("u", (Tptr Tuint64))] DocPlain.

Definition libnfs_zdr_int64_t : api_fn :=
  mkApi "libnfs_zdr_int64_t" (Ttypedef "bool_t") [("zdrs", (Tptr (Ttypedef "ZDR")));
   ("i", (Tptr Tint64))] DocPlain.

Definition libnfs_zdr_enum : api_fn :=
  mkApi "libnfs_zdr_enum" (Ttypedef "bool_t") [("zdrs", (Tptr (Ttypedef "ZDR")));
   ("e", (Tptr (Ttypedef "enum_t")))] DocPlain.

Definition libnfs_zdr_bool : api_fn :=
  mkApi "libnfs_zdr_bool" (Ttypedef "bool_t") [("zdrs", (Tptr (Ttypedef "ZDR")));
   ("b", (Tptr (Ttypedef "bool_t")))] DocPlain.

Definition libnfs_zdr_void : api_fn :=
  mkApi "libnfs_zdr_void" (Ttypedef "bool_t") [("zdrs", (Tptr (Ttypedef "ZDR")));
   ("arg1", (Tptr Tvoid))] DocPlain.

Definition libnfs_zdr_pointer : api_fn :=
  mkApi "libnfs_zdr_pointer" (Ttypedef "bool_t") [("zdrs", (Tptr (Ttypedef "ZDR")));
   ("objp", (Tptr (Tptr Tchar))); ("size", Tuint32); ("proc", (Ttypedef "zdrproc_t"))] DocPlain.

Definition libnfs_zdr_opaque : api_fn :=
  mkApi "libnfs_zdr_opaque" (Ttypedef "bool_t") [("zdrs", (Tptr (Ttypedef "ZDR"))); ("objp", (Tptr Tchar));
   ("size", Tuint32)] DocPlain.

Definition libnfs_zdr_string : api_fn :=
  mkApi "libnfs_zdr_string" (Ttypedef "bool_t") [("zdrs", (Tptr (Ttypedef "ZDR")));
   ("strp", (Tptr (Tptr Tchar))); ("maxsize", Tuint32)] DocPlain.

Definition libnfs_zdr_array : api_fn :=
  mkApi "libnfs_zdr_array" (Ttypedef "bool_t") [("zdrs", (Tptr (Ttypedef "ZDR")));
   ("arrp", (Tptr (Tptr Tchar))); ("size", (Tptr Tuint32)); ("maxsize", Tuint32); ("elsize", Tuint32);
   ("proc", (Ttypedef "zdrproc_t"))] DocPlain.

Definition libnfs_zdr_setpos : api_fn :=
  mkApi "libnfs_zdr_setpos" (Ttypedef "bool_t") [("zdrs", (Tptr (Ttypedef "ZDR")));
   ("pos", Tuint32)] DocPlain.

Definition libnfs_zdr_getpos : api_fn :=
  mkApi "libnfs_zdr_getpos" Tuint32 [("zdrs", (Tptr (Ttypedef "ZDR")))] DocPlain.

Definition libnfs_zdr_getsize : api_fn :=
  mkApi "libnfs_zdr_getsize" Tuint32 [("zdrs", (Tptr (Ttypedef "ZDR")))] DocPlain.

Definition libnfs_zdr_getptr : api_fn :=
  mkApi "libnfs_zdr_getptr" (Tptr Tchar) [("zdrs", (Tptr (Ttypedef "ZDR")))] DocPlain.

Definition libnfs_zdr_free : api_fn :=
  mkApi "libnfs_zdr_free" Tvoid [("proc", (Ttypedef "zdrproc_t")); ("objp", (Tptr Tchar))] DocPlain.

Definition libnfs_zdr_callmsg : api_fn :=
  mkApi "libnfs_zdr_callmsg" (Ttypedef "bool_t") [("rpc", (Tptr (Tstruct "rpc_context")));
   ("zdrs", (Tptr (Ttypedef "ZDR"))); ("msg", (Tptr (Tstruct "rpc_msg")))] DocPlain.

Definition libnfs_zdr_replymsg : api_fn :=
  mkApi "libnfs_zdr_replymsg" (Ttypedef "bool_t") [("rpc", (Tptr (Tstruct "rpc_context")));
   ("zdrs", (Tptr (Ttypedef "ZDR"))); ("msg", (Tptr (Tstruct "rpc_msg")))] DocPlain.

Definition libnfs_authnone_create : api_fn :=
  mkApi "libnfs_authnone_create" (Tptr (Tstruct "AUTH")) [] DocPlain.

Definition libnfs_authunix_create : api_fn :=
  mkApi "libnfs_authunix_create" (Tptr (Tstruct "AUTH")) [("host", (Tptr (Tconst Tchar)));
   ("uid", Tuint32); ("gid", Tuint32); ("len", Tuint32); ("groups", (Tptr Tuint32))] DocPlain.

Definition libnfs_authunix_create_default : api_fn :=
  mkApi "libnfs_authunix_create_default" (Tptr (Tstruct "AUTH")) [] DocPlain.

Definition libnfs_authgss_init : api_fn :=
  mkApi "libnfs_authgss_init" Tint [("rpc", (Tptr (Tstruct "rpc_context")))] DocPlain.

Definition libnfs_authgss_gen_creds : api_fn :=
  mkApi "libnfs_authgss_gen_creds" Tint [("rpc", (Tptr (Tstruct "rpc_context")));
   ("zdr", (Tptr (Ttypedef "ZDR"))); ("level", Tint)] DocPlain.

Definition libnfs_auth_destroy : api_fn :=
  mkApi "libnfs_auth_destroy" Tvoid [("auth", (Tptr (Tstruct "AUTH")))] DocPlain.

(** The functions. *)
Definition zdr_h : list api_fn :=
  [libnfs_zdrmem_create; libnfs_zdr_destroy; libnfs_zdr_bytes; libnfs_zdr_u_int; libnfs_zdr_int;
   libnfs_zdr_uint64_t; libnfs_zdr_int64_t; libnfs_zdr_enum; libnfs_zdr_bool; libnfs_zdr_void;
   libnfs_zdr_pointer; libnfs_zdr_opaque; libnfs_zdr_string; libnfs_zdr_array; libnfs_zdr_setpos;
   libnfs_zdr_getpos; libnfs_zdr_getsize; libnfs_zdr_getptr; libnfs_zdr_free; libnfs_zdr_callmsg;
   libnfs_zdr_replymsg; libnfs_authnone_create; libnfs_authunix_create; libnfs_authunix_create_default;
   libnfs_authgss_init; libnfs_authgss_gen_creds; libnfs_auth_destroy].

(** The names under which callers use them. *)
Definition zdr_macros : list (string * string) :=
  [("zdrmem_create", "libnfs_zdrmem_create");
   ("zdr_destroy", "libnfs_zdr_destroy");
   ("zdr_bytes", "libnfs_zdr_bytes");
   ("zdr_u_int", "libnfs_zdr_u_int");
   ("zdr_uint32_t", "libnfs_zdr_u_int");
   ("zdr_int", "libnfs_zdr_int");
   ("zdr_int32_t", "libnfs_zdr_int");
   ("zdr_uint64_t", "libnfs_zdr_uint64_t");
   ("zdr_int64_t", "libnfs_zdr_int64_t");
   ("zdr_enum", "libnfs_zdr_enum");
   ("zdr_bool", "libnfs_zdr_bool");
   ("zdr_void", "libnfs_zdr_void");
   ("zdr_pointer", "libnfs_zdr_pointer");
   ("zdr_opaque", "libnfs_zdr_opaque");
   ("zdr_string", "libnfs_zdr_string");
   ("zdr_array", "libnfs_zdr_array");
   ("zdr_setpos", "libnfs_zdr_setpos");
   ("zdr_getpos", "libnfs_zdr_getpos");
   ("zdr_getsize", "libnfs_zdr_getsize");
   ("zdr_getptr", "libnfs_zdr_getptr");
   ("zdr_free", "libnfs_zdr_free");
   ("zdr_callmsg", "libnfs_zdr_callmsg");
   ("zdr_replymsg", "libnfs_zdr_replymsg");
   ("authnone_create", "libnfs_authnone_create");
   ("authunix_create", "libnfs_authunix_create");
   ("authunix_create_default", "libnfs_authunix_create_default");
   ("auth_destroy", "libnfs_auth_destroy")].

End Zdr.
