(* ===== verification/NfsWire.v ===== *)
(** * The wire types of the port mapper, mount, NFS 2 and 3, and the lock, status and quota protocols

    The declarations of nfsc/libnfs-raw-portmap.h, -mount.h, -nfs.h, -nlm.h, -nsm.h and
    -rquota.h: constants, types in the order of the header, codecs, and the functions on access control lists. *)

From stdpp Require Import base list strings numbers.
From S2P Require Import Prelude CType RpcProcs WireTypes.
Import Wire.

Open Scope string_scope.
Open Scope list_scope.
Open Scope Z_scope.

Module NfsWire.

(** ** Port mapper: nfsc/libnfs-raw-portmap.h *)

Definition PMAP_PORT : Z := 111.

Definition pmap2_mapping : decl :=
  Struct "pmap2_mapping" [
    Field "prog" Tuint32;
    Field "vers" Tuint32;
    Field "prot" Tuint32;
    Field "port" Tuint32].

Definition pmap2_call_args : decl :=
  Struct "pmap2_call_args" [
    Field "prog" Tuint32;
    Field "vers" Tuint32;
    Field "proc" Tuint32;
    StructField [
      Field "args_len" Tuint32;
      Field "args_val" (Tptr Tchar)] "args"].

Definition pmap2_call_result : decl :=
  Struct "pmap2_call_result" [
    Field "port" Tuint32;
    StructField [
      Field "res_len" Tuint32;
      Field "res_val" (Tptr Tchar)] "res"].

Definition pmap2_mapping_list : decl :=
  Struct "pmap2_mapping_list" [
    Field "map" (Ttypedef "pmap2_mapping");
    Field "next" (Tptr (Tstruct "pmap2_mapping_list"))].

Definition pmap2_dump_result : decl :=
  Struct "pmap2_dump_result" [
    Field "list" (Tptr (Tstruct "pmap2_mapping_list"))].

Definition pmap3_string_result : decl :=
  Struct "pmap3_string_result" [
    Field "addr" (Tptr Tchar)].

Definition pmap3_mapping : decl :=
  Struct "pmap3_mapping" [
    Field "prog" Tuint32;
    Field "vers" Tuint32;
    Field "netid" (Tptr Tchar);
    Field "addr" (Tptr Tchar);
    Field "owner" (Tptr Tchar)].

Definition pmap3_mapping_list : decl :=
  Struct "pmap3_mapping_list" [
    Field "map" (Ttypedef "pmap3_mapping");
    Field "next" (Tptr (Tstruct "pmap3_mapping_list"))].

Definition pmap3_dump_result : decl :=
  Struct "pmap3_dump_result" [
    Field "list" (Tptr (Tstruct "pmap3_mapping_list"))].

Definition pmap3_call_args : decl :=
  Struct "pmap3_call_args" [
    Field "prog" Tuint32;
    Field "vers" Tuint32;
    Field "proc" Tuint32;
    StructField [
      Field "args_len" Tuint32;
      Field "args_val" (Tptr Tchar)] "args"].

Definition pmap3_call_result : decl :=
  Struct "pmap3_call_result" [
    Field "port" Tuint32;
    StructField [
      Field "res_len" Tuint32;
      Field "res_val" (Tptr Tchar)] "res"].

Definition pmap3_netbuf : decl :=
  Struct "pmap3_netbuf" [
    Field "maxlen" Tuint32;
    StructField [
      Field "buf_len" Tuint32;
      Field "buf_val" (Tptr Tchar)] "buf"].

Definition PMAP2SETargs : decl := Typedef "PMAP2SETargs" (Ttypedef "pmap2_mapping").

Definition PMAP2UNSETargs : decl := Typedef "PMAP2UNSETargs" (Ttypedef "pmap2_mapping").

Definition PMAP2GETPORTargs : decl := Typedef "PMAP2GETPORTargs" (Ttypedef "pmap2_mapping").

Definition PMAP2CALLITargs : decl := Typedef "PMAP2CALLITargs" (Ttypedef "pmap2_call_args").

Definition PMAP2CALLITres : decl := Typedef "PMAP2CALLITres" (Ttypedef "pmap2_call_result").

Definition PMAP2DUMPres : decl := Typedef "PMAP2DUMPres" (Ttypedef "pmap2_dump_result").

Definition PMAP3SETargs : decl := Typedef "PMAP3SETargs" (Ttypedef "pmap3_mapping").

Definition PMAP3UNSETargs : decl := Typedef "PMAP3UNSETargs" (Ttypedef "pmap3_mapping").

Definition PMAP3GETADDRargs : decl := Typedef "PMAP3GETADDRargs" (Ttypedef "pmap3_mapping").

Definition PMAP3GETADDRres : decl := Typedef "PMAP3GETADDRres" (Ttypedef "pmap3_string_result").

Definition PMAP3DUMPres : decl := Typedef "PMAP3DUMPres" (Ttypedef "pmap3_dump_result").

Definition PMAP3CALLITargs : decl := Typedef "PMAP3CALLITargs" (Ttypedef "pmap3_call_result").

Definition PMAP3CALLITres : decl := Typedef "PMAP3CALLITres" (Ttypedef "pmap3_call_result").

Definition PMAP3UADDR2TADDRres : decl := Typedef "PMAP3UADDR2TADDRres" (Ttypedef "pmap3_netbuf").

Definition PMAP3TADDR2UADDRargs : decl := Typedef "PMAP3TADDR2UADDRargs" (Ttypedef "pmap3_netbuf").

Definition PMAP3TADDR2UADDRres : decl := Typedef "PMAP3TADDR2UADDRres" (Ttypedef "pmap3_string_result").

Definition portmap_codecs : list codec := [
  mkCodec "pmap2_mapping" (Tptr (Ttypedef "pmap2_mapping"));
  mkCodec "pmap2_call_args" (Tptr (Ttypedef "pmap2_call_args"));
  mkCodec "pmap2_call_result" (Tptr (Ttypedef "pmap2_call_result"));
  mkCodec "pmap2_mapping_list" (Tptr (Ttypedef "pmap2_mapping_list"));
  mkCodec "pmap2_dump_result" (Tptr (Ttypedef "pmap2_dump_result"));
  mkCodec "pmap3_string_result" (Tptr (Ttypedef "pmap3_string_result"));
  mkCodec "pmap3_mapping" (Tptr (Ttypedef "pmap3_mapping"));
  mkCodec "pmap3_mapping_list" (Tptr (Ttypedef "pmap3_mapping_list"));
  mkCodec "pmap3_dump_result" (Tptr (Ttypedef "pmap3_dump_result"));
  mkCodec "pmap3_call_args" (Tptr (Ttypedef "pmap3_call_args"));
  mkCodec "pmap3_call_result" (Tptr (Ttypedef "pmap3_call_result"));
  mkCodec "pmap3_netbuf" (Tptr (Ttypedef "pmap3_netbuf"));
  mkCodec "PMAP2SETargs" (Tptr (Ttypedef "PMAP2SETargs"));
  mkCodec "PMAP2UNSETargs" (Tptr (Ttypedef "PMAP2UNSETargs"));
  mkCodec "PMAP2GETPORTargs" (Tptr (Ttypedef "PMAP2GETPORTargs"));
  mkCodec "PMAP2CALLITargs" (Tptr (Ttypedef "PMAP2CALLITargs"));
  mkCodec "PMAP2CALLITres" (Tptr (Ttypedef "PMAP2CALLITres"));
  mkCodec "PMAP2DUMPres" (Tptr (Ttypedef "PMAP2DUMPres"));
  mkCodec "PMAP3SETargs" (Tptr (Ttypedef "PMAP3SETargs"));
  mkCodec "PMAP3UNSETargs" (Tptr (Ttypedef "PMAP3UNSETargs"));
  mkCodec "PMAP3GETADDRargs" (Tptr (Ttypedef "PMAP3GETADDRargs"));
  mkCodec "PMAP3GETADDRres" (Tptr (Ttypedef "PMAP3GETADDRres"));
  mkCodec "PMAP3DUMPres" (Tptr (Ttypedef "PMAP3DUMPres"));
  mkCodec "PMAP3CALLITargs" (Tptr (Ttypedef "PMAP3CALLITargs"));
  mkCodec "PMAP3CALLITres" (Tptr (Ttypedef "PMAP3CALLITres"));
  mkCodec "PMAP3UADDR2TADDRres" (Tptr (Ttypedef "PMAP3UADDR2TADDRres"));
  mkCodec "PMAP3TADDR2UADDRargs" (Tptr (Ttypedef "PMAP3TADDR2UADDRargs"));
  mkCodec "PMAP3TADDR2UADDRres" (Tptr (Ttypedef "PMAP3TADDR2UADDRres"))].

Definition portmap_h : header :=
  mkHeader "libnfs-raw-portmap.h" [
    pmap2_mapping; pmap2_call_args; pmap2_call_result; pmap2_mapping_list; pmap2_dump_result;
    pmap3_string_result; pmap3_mapping; pmap3_mapping_list; pmap3_dump_result; pmap3_call_args;
    pmap3_call_result; pmap3_netbuf; PMAP2SETargs; PMAP2UNSETargs; PMAP2GETPORTargs; PMAP2CALLITargs;
    PMAP2CALLITres; PMAP2DUMPres; PMAP3SETargs; PMAP3UNSETargs; PMAP3GETADDRargs; PMAP3GETADDRres;
    PMAP3DUMPres; PMAP3CALLITargs; PMAP3CALLITres; PMAP3UADDR2TADDRres; PMAP3TADDR2UADDRargs;
    PMAP3TADDR2UADDRres]
    portmap_codecs.

(** ** Mount: nfsc/libnfs-raw-mount.h *)

Definition MNTPATHLEN : Z := 1024.
Definition MNTNAMLEN : Z := 255.
Definition FHSIZE3 : Z := 64.
Definition FHSIZE : Z := 32.

Definition fhandle3 : decl :=
  Struct "fhandle3" [
    Field "fhandle3_len" Tuint32;
    Field "fhandle3_val" (Tptr Tchar)].

Definition dirpath : decl := Typedef "dirpath" (Tptr Tchar).

Definition name : decl := Typedef "name" (Tptr Tchar).

Definition mountstat3 : decl :=
  Enum "mountstat3" [
    ("MNT3_OK", 0); ("MNT3ERR_PERM", 1); ("MNT3ERR_NOENT", 2); ("MNT3ERR_IO", 5); ("MNT3ERR_ACCES", 13);
    ("MNT3ERR_NOTDIR", 20); ("MNT3ERR_INVAL", 22); ("MNT3ERR_NAMETOOLONG", 63); ("MNT3ERR_NOTSUPP", 10004);
    ("MNT3ERR_SERVERFAULT", 10006)].

Definition mountlist : decl := Typedef "mountlist" (Tptr (Tstruct "mountbody")).

Definition mountbody : decl :=
  Struct "mountbody" [
    Field "ml_hostname" (Ttypedef "name");
    Field "ml_directory" (Ttypedef "dirpath");
    Field "ml_next" (Ttypedef "mountlist")].

Definition groups : decl := Typedef "groups" (Tptr (Tstruct "groupnode")).

Definition groupnode : decl :=
  Struct "groupnode" [
    Field "gr_name" (Ttypedef "name");
    Field "gr_next" (Ttypedef "groups")].

Definition exports : decl := Typedef "exports" (Tptr (Tstruct "exportnode")).

Definition exportnode : decl :=
  Struct "exportnode" [
    Field "ex_dir" (Ttypedef "dirpath");
    Field "ex_groups" (Ttypedef "groups");
    Field "ex_next" (Ttypedef "exports")].

Definition mountres3_ok : decl :=
  Struct "mountres3_ok" [
    Field "fhandle" (Ttypedef "fhandle3");
    StructField [
      Field "auth_flavors_len" Tuint32;
      Field "auth_flavors_val" (Tptr Tint)] "auth_flavors"].

Definition mountres3 : decl :=
  Struct "mountres3" [
    Field "fhs_status" (Ttypedef "mountstat3");
    UnionField [
      Field "mountinfo" (Ttypedef "mountres3_ok")] "mountres3_u"].

Definition mountstat1 : decl :=
  Enum "mountstat1" [
    ("MNT1_OK", 0); ("MNT1ERR_PERM", 1); ("MNT1ERR_NOENT", 2); ("MNT1ERR_IO", 5); ("MNT1ERR_ACCES", 13);
    ("MNT1ERR_NOTDIR", 20); ("MNT1ERR_INVAL", 22); ("MNT1ERR_NAMETOOLONG", 63); ("MNT1ERR_NOTSUPP", 10004);
    ("MNT1ERR_SERVERFAULT", 10006)].

Definition fhandle1 : decl := ArrayTypedef "fhandle1" Tchar FHSIZE.

Definition mountres1_ok : decl :=
  Struct "mountres1_ok" [
    Field "fhandle" (Ttypedef "fhandle1")].

Definition mountres1 : decl :=
  Struct "mountres1" [
    Field "fhs_status" (Ttypedef "mountstat1");
    UnionField [
      Field "mountinfo" (Ttypedef "mountres1_ok")] "mountres1_u"].

Definition mount_codecs : list codec := [
  mkCodec "fhandle3" (Tptr (Ttypedef "fhandle3")); mkCodec "dirpath" (Tptr (Ttypedef "dirpath"));
  mkCodec "name" (Tptr (Ttypedef "name")); mkCodec "mountstat3" (Tptr (Ttypedef "mountstat3"));
  mkCodec "mountlist" (Tptr (Ttypedef "mountlist")); mkCodec "mountbody" (Tptr (Ttypedef "mountbody"));
  mkCodec "groups" (Tptr (Ttypedef "groups")); mkCodec "groupnode" (Tptr (Ttypedef "groupnode"));
  mkCodec "exports" (Tptr (Ttypedef "exports")); mkCodec "exportnode" (Tptr (Ttypedef "exportnode"));
  mkCodec "mountres3_ok" (Tptr (Ttypedef "mountres3_ok"));
  mkCodec "mountres3" (Tptr (Ttypedef "mountres3")); mkCodec "mountstat1" (Tptr (Ttypedef "mountstat1"));
  mkCodec "fhandle1" (Ttypedef "fhandle1"); mkCodec "mountres1_ok" (Tptr (Ttypedef "mountres1_ok"));
  mkCodec "mountres1" (Tptr (Ttypedef "mountres1"))].

Definition mount_h : header :=
  mkHeader "libnfs-raw-mount.h" [
    fhandle3; dirpath; name; mountstat3; mountlist; mountbody; groups; groupnode; exports; exportnode;
    mountres3_ok; mountres3; mountstat1; fhandle1; mountres1_ok; mountres1]
    mount_codecs.

(** ** NFS 2 and 3: nfsc/libnfs-raw-nfs.h *)

Definition NFS3_FHSIZE : Z := 64.
Definition NFS3_WRITEVERFSIZE : Z := 8.
Definition NFS3_CREATEVERFSIZE : Z := 8.
Definition NFS3_COOKIEVERFSIZE : Z := 8.
Definition ACCESS3_READ : Z := 1.
Definition ACCESS3_LOOKUP : Z := 2.
Definition ACCESS3_MODIFY : Z := 4.
Definition ACCESS3_EXTEND : Z := 8.
Definition ACCESS3_DELETE : Z := 16.
Definition ACCESS3_EXECUTE : Z := 32.
Definition FSF3_LINK : Z := 1.
Definition FSF3_SYMLINK : Z := 2.
Definition FSF3_HOMOGENEOUS : Z := 8.
Definition FSF3_CANSETTIME : Z := 16.
Definition FHSIZE2 : Z := 32.
Definition MAXNAMLEN2 : Z := 255.
Definition MAXPATHLEN2 : Z := 1024.
Definition NFSMAXDATA2 : Z := 8192.
Definition NFSCOOKIESIZE2 : Z := 4.
Definition NFSACL_PERM_READ : Z := 4.
Definition NFSACL_PERM_WRITE : Z := 2.
Definition NFSACL_PERM_EXEC : Z := 1.
Definition NFSACL_MASK_ACL_ENTRY : Z := 1.
Definition NFSACL_MASK_ACL_COUNT : Z := 2.
Definition NFSACL_MASK_ACL_DEFAULT_ENTRY : Z := 4.
Definition NFSACL_MASK_ACL_DEFAULT_COUNT : Z := 8.

Definition cookieverf3 : decl := ArrayTypedef "cookieverf3" Tchar NFS3_COOKIEVERFSIZE.

Definition cookie3 : decl := Typedef "cookie3" Tuint64.

Definition nfs_fh3 : decl :=
  Struct "nfs_fh3" [
    StructField [
      Field "data_len" Tuint32;
      Field "data_val" (Tptr Tchar)] "data"].

Definition filename3 : decl := Typedef "filename3" (Tptr Tchar).

Definition diropargs3 : decl :=
  Struct "diropargs3" [
    Field "dir" (Ttypedef "nfs_fh3");
    Field "name" (Ttypedef "filename3")].

Definition ftype3 : decl :=
  Enum "ftype3" [
    ("NF3REG", 1); ("NF3DIR", 2); ("NF3BLK", 3); ("NF3CHR", 4); ("NF3LNK", 5); ("NF3SOCK", 6);
    ("NF3FIFO", 7)].

Definition mode3 : decl := Typedef "mode3" Tuint32.

Definition uid3 : decl := Typedef "uid3" Tuint32.

Definition gid3 : decl := Typedef "gid3" Tuint32.

Definition size3 : decl := Typedef "size3" Tuint64.

Definition fileid3 : decl := Typedef "fileid3" Tuint64.

Definition specdata3 : decl :=
  Struct "specdata3" [
    Field "specdata1" Tuint32;
    Field "specdata2" Tuint32].

Definition nfstime3 : decl :=
  Struct "nfstime3" [
    Field "seconds" Tuint32;
    Field "nseconds" Tuint32].

Definition fattr3 : decl :=
  Struct "fattr3" [
    Field "type" (Ttypedef "ftype3");
    Field "mode" (Ttypedef "mode3");
    Field "nlink" Tuint32;
    Field "uid" (Ttypedef "uid3");
    Field "gid" (Ttypedef "gid3");
    Field "size" (Ttypedef "size3");
    Field "used" (Ttypedef "size3");
    Field "rdev" (Ttypedef "specdata3");
    Field "fsid" Tuint64;
    Field "fileid" (Ttypedef "fileid3");
    Field "atime" (Ttypedef "nfstime3");
    Field "mtime" (Ttypedef "nfstime3");
    Field "ctime" (Ttypedef "nfstime3")].

Definition post_op_attr : decl :=
  Struct "post_op_attr" [
    Field "attributes_follow" Tuint32;
    UnionField [
      Field "attributes" (Ttypedef "fattr3")] "post_op_attr_u"].

Definition nfsstat3 : decl :=
  Enum "nfsstat3" [
    ("NFS3_OK", 0); ("NFS3ERR_PERM", 1); ("NFS3ERR_NOENT", 2); ("NFS3ERR_IO", 5); ("NFS3ERR_NXIO", 6);
    ("NFS3ERR_ACCES", 13); ("NFS3ERR_EXIST", 17); ("NFS3ERR_XDEV", 18); ("NFS3ERR_NODEV", 19);
    ("NFS3ERR_NOTDIR", 20); ("NFS3ERR_ISDIR", 21); ("NFS3ERR_INVAL", 22); ("NFS3ERR_FBIG", 27);
    ("NFS3ERR_NOSPC", 28); ("NFS3ERR_ROFS", 30); ("NFS3ERR_MLINK", 31); ("NFS3ERR_NAMETOOLONG", 63);
    ("NFS3ERR_NOTEMPTY", 66); ("NFS3ERR_DQUOT", 69); ("NFS3ERR_STALE", 70); ("NFS3ERR_REMOTE", 71);
    ("NFS3ERR_BADHANDLE", 10001); ("NFS3ERR_NOT_SYNC", 10002); ("NFS3ERR_BAD_COOKIE", 10003);
    ("NFS3ERR_NOTSUPP", 10004); ("NFS3ERR_TOOSMALL", 10005); ("NFS3ERR_SERVERFAULT", 10006);
    ("NFS3ERR_BADTYPE", 10007); ("NFS3ERR_JUKEBOX", 10008)].

Definition stable_how : decl :=
  Enum "stable_how" [
    ("UNSTABLE", 0); ("DATA_SYNC", 1); ("FILE_SYNC", 2)].

Definition offset3 : decl := Typedef "offset3" Tuint64.

Definition count3 : decl := Typedef "count3" Tuint32.

Definition wcc_attr : decl :=
  Struct "wcc_attr" [
    Field "size" (Ttypedef "size3");
    Field "mtime" (Ttypedef "nfstime3");
    Field "ctime" (Ttypedef "nfstime3")].

Definition pre_op_attr : decl :=
  Struct "pre_op_attr" [
    Field "attributes_follow" Tuint32;
    UnionField [
      Field "attributes" (Ttypedef "wcc_attr")] "pre_op_attr_u"].

Definition wcc_data : decl :=
  Struct "wcc_data" [
    Field "before" (Ttypedef "pre_op_attr");
    Field "after" (Ttypedef "post_op_attr")].

Definition WRITE3args : decl :=
  Struct "WRITE3args" [
    Field "file" (Ttypedef "nfs_fh3");
    Field "offset" (Ttypedef "offset3");
    Field "count" (Ttypedef "count3");
    Field "stable" (Ttypedef "stable_how");
    StructField [
      Field "data_len" Tuint32;
      Field "data_val" (Tptr Tchar)] "data"].

Definition writeverf3 : decl := ArrayTypedef "writeverf3" Tchar NFS3_WRITEVERFSIZE.

Definition WRITE3resok : decl :=
  Struct "WRITE3resok" [
    Field "file_wcc" (Ttypedef "wcc_data");
    Field "count" (Ttypedef "count3");
    Field "committed" (Ttypedef "stable_how");
    Field "verf" (Ttypedef "writeverf3")].

Definition WRITE3resfail : decl :=
  Struct "WRITE3resfail" [
    Field "file_wcc" (Ttypedef "wcc_data")].

Definition WRITE3res : decl :=
  Struct "WRITE3res" [
    Field "status" (Ttypedef "nfsstat3");
    UnionField [
      Field "resok" (Ttypedef "WRITE3resok");
      Field "resfail" (Ttypedef "WRITE3resfail")] "WRITE3res_u"].

Definition LOOKUP3args : decl :=
  Struct "LOOKUP3args" [
    Field "what" (Ttypedef "diropargs3")].

Definition LOOKUP3resok : decl :=
  Struct "LOOKUP3resok" [
    Field "object" (Ttypedef "nfs_fh3");
    Field "obj_attributes" (Ttypedef "post_op_attr");
    Field "dir_attributes" (Ttypedef "post_op_attr")].

Definition LOOKUP3resfail : decl :=
  Struct "LOOKUP3resfail" [
    Field "dir_attributes" (Ttypedef "post_op_attr")].

Definition LOOKUP3res : decl :=
  Struct "LOOKUP3res" [
    Field "status" (Ttypedef "nfsstat3");
    UnionField [
      Field "resok" (Ttypedef "LOOKUP3resok");
      Field "resfail" (Ttypedef "LOOKUP3resfail")] "LOOKUP3res_u"].

Definition COMMIT3args : decl :=
  Struct "COMMIT3args" [
    Field "file" (Ttypedef "nfs_fh3");
    Field "offset" (Ttypedef "offset3");
    Field "count" (Ttypedef "count3")].

Definition COMMIT3resok : decl :=
  Struct "COMMIT3resok" [
    Field "file_wcc" (Ttypedef "wcc_data");
    Field "verf" (Ttypedef "writeverf3")].

Definition COMMIT3resfail : decl :=
  Struct "COMMIT3resfail" [
    Field "file_wcc" (Ttypedef "wcc_data")].

Definition COMMIT3res : decl :=
  Struct "COMMIT3res" [
    Field "status" (Ttypedef "nfsstat3");
    UnionField [
      Field "resok" (Ttypedef "COMMIT3resok");
      Field "resfail" (Ttypedef "COMMIT3resfail")] "COMMIT3res_u"].

Definition ACCESS3args : decl :=
  Struct "ACCESS3args" [
    Field "object" (Ttypedef "nfs_fh3");
    Field "access" Tuint32].

Definition ACCESS3resok : decl :=
  Struct "ACCESS3resok" [
    Field "obj_attributes" (Ttypedef "post_op_attr");
    Field "access" Tuint32].

Definition ACCESS3resfail : decl :=
  Struct "ACCESS3resfail" [
    Field "obj_attributes" (Ttypedef "post_op_attr")].

Definition ACCESS3res : decl :=
  Struct "ACCESS3res" [
    Field "status" (Ttypedef "nfsstat3");
    UnionField [
      Field "resok" (Ttypedef "ACCESS3resok");
      Field "resfail" (Ttypedef "ACCESS3resfail")] "ACCESS3res_u"].

Definition GETATTR3args : decl :=
  Struct "GETATTR3args" [
    Field "object" (Ttypedef "nfs_fh3")].

Definition GETATTR3resok : decl :=
  Struct "GETATTR3resok" [
    Field "obj_attributes" (Ttypedef "fattr3")].

Definition GETATTR3res : decl :=
  Struct "GETATTR3res" [
    Field "status" (Ttypedef "nfsstat3");
    UnionField [
      Field "resok" (Ttypedef "GETATTR3resok")] "GETATTR3res_u"].

Definition time_how : decl :=
  Enum "time_how" [
    ("DONT_CHANGE", 0); ("SET_TO_SERVER_TIME", 1); ("SET_TO_CLIENT_TIME", 2)].

Definition set_mode3 : decl :=
  Struct "set_mode3" [
    Field "set_it" Tuint32;
    UnionField [
      Field "mode" (Ttypedef "mode3")] "set_mode3_u"].

Definition set_uid3 : decl :=
  Struct "set_uid3" [
    Field "set_it" Tuint32;
    UnionField [
      Field "uid" (Ttypedef "uid3")] "set_uid3_u"].

Definition set_gid3 : decl :=
  Struct "set_gid3" [
    Field "set_it" Tuint32;
    UnionField [
      Field "gid" (Ttypedef "gid3")] "set_gid3_u"].

Definition set_size3 : decl :=
  Struct "set_size3" [
    Field "set_it" Tuint32;
    UnionField [
      Field "size" (Ttypedef "size3")] "set_size3_u"].

Definition set_atime : decl :=
  Struct "set_atime" [
    Field "set_it" (Ttypedef "time_how");
    UnionField [
      Field "atime" (Ttypedef "nfstime3")] "set_atime_u"].

Definition set_mtime : decl :=
  Struct "set_mtime" [
    Field "set_it" (Ttypedef "time_how");
    UnionField [
      Field "mtime" (Ttypedef "nfstime3")] "set_mtime_u"].

Definition sattr3 : decl :=
  Struct "sattr3" [
    Field "mode" (Ttypedef "set_mode3");
    Field "uid" (Ttypedef "set_uid3");
    Field "gid" (Ttypedef "set_gid3");
    Field "size" (Ttypedef "set_size3");
    Field "atime" (Ttypedef "set_atime");
    Field "mtime" (Ttypedef "set_mtime")].

Definition createmode3 : decl :=
  Enum "createmode3" [
    ("UNCHECKED", 0); ("GUARDED", 1); ("EXCLUSIVE", 2)].

Definition createverf3 : decl := ArrayTypedef "createverf3" Tchar NFS3_CREATEVERFSIZE.

Definition createhow3 : decl :=
  Struct "createhow3" [
    Field "mode" (Ttypedef "createmode3");
    UnionField [
      Field "obj_attributes" (Ttypedef "sattr3");
      Field "g_obj_attributes" (Ttypedef "sattr3");
      Field "verf" (Ttypedef "createverf3")] "createhow3_u"].

Definition CREATE3args : decl :=
  Struct "CREATE3args" [
    Field "where" (Ttypedef "diropargs3");
    Field "how" (Ttypedef "createhow3")].

Definition post_op_fh3 : decl :=
  Struct "post_op_fh3" [
    Field "handle_follows" Tuint32;
    UnionField [
      Field "handle" (Ttypedef "nfs_fh3")] "post_op_fh3_u"].

Definition CREATE3resok : decl :=
  Struct "CREATE3resok" [
    Field "obj" (Ttypedef "post_op_fh3");
    Field "obj_attributes" (Ttypedef "post_op_attr");
    Field "dir_wcc" (Ttypedef "wcc_data")].

Definition CREATE3resfail : decl :=
  Struct "CREATE3resfail" [
    Field "dir_wcc" (Ttypedef "wcc_data")].

Definition CREATE3res : decl :=
  Struct "CREATE3res" [
    Field "status" (Ttypedef "nfsstat3");
    UnionField [
      Field "resok" (Ttypedef "CREATE3resok");
      Field "resfail" (Ttypedef "CREATE3resfail")] "CREATE3res_u"].

Definition REMOVE3args : decl :=
  Struct "REMOVE3args" [
    Field "object" (Ttypedef "diropargs3")].

Definition REMOVE3resok : decl :=
  Struct "REMOVE3resok" [
    Field "dir_wcc" (Ttypedef "wcc_data")].

Definition REMOVE3resfail : decl :=
  Struct "REMOVE3resfail" [
    Field "dir_wcc" (Ttypedef "wcc_data")].

Definition REMOVE3res : decl :=
  Struct "REMOVE3res" [
    Field "status" (Ttypedef "nfsstat3");
    UnionField [
      Field "resok" (Ttypedef "REMOVE3resok");
      Field "resfail" (Ttypedef "REMOVE3resfail")] "REMOVE3res_u"].

Definition READ3args : decl :=
  Struct "READ3args" [
    Field "file" (Ttypedef "nfs_fh3");
    Field "offset" (Ttypedef "offset3");
    Field "count" (Ttypedef "count3")].

Definition READ3resok : decl :=
  Struct "READ3resok" [
    Field "file_attributes" (Ttypedef "post_op_attr");
    Field "count" (Ttypedef "count3");
    Field "eof" Tuint32;
    StructField [
      Field "data_len" Tuint32;
      Field "data_val" (Tptr Tchar)] "data"].

Definition READ3resfail : decl :=
  Struct "READ3resfail" [
    Field "file_attributes" (Ttypedef "post_op_attr")].

Definition READ3res : decl :=
  Struct "READ3res" [
    Field "status" (Ttypedef "nfsstat3");
    UnionField [
      Field "resok" (Ttypedef "READ3resok");
      Field "resfail" (Ttypedef "READ3resfail")] "READ3res_u"].

Definition FSINFO3args : decl :=
  Struct "FSINFO3args" [
    Field "fsroot" (Ttypedef "nfs_fh3")].

Definition FSINFO3resok : decl :=
  Struct "FSINFO3resok" [
    Field "obj_attributes" (Ttypedef "post_op_attr");
    Field "rtmax" Tuint32;
    Field "rtpref" Tuint32;
    Field "rtmult" Tuint32;
    Field "wtmax" Tuint32;
    Field "wtpref" Tuint32;
    Field "wtmult" Tuint32;
    Field "dtpref" Tuint32;
    Field "maxfilesize" (Ttypedef "size3");
    Field "time_delta" (Ttypedef "nfstime3");
    Field "properties" Tuint32].

Definition FSINFO3resfail : decl :=
  Struct "FSINFO3resfail" [
    Field "obj_attributes" (Ttypedef "post_op_attr")].

Definition FSINFO3res : decl :=
  Struct "FSINFO3res" [
    Field "status" (Ttypedef "nfsstat3");
    UnionField [
      Field "resok" (Ttypedef "FSINFO3resok");
      Field "resfail" (Ttypedef "FSINFO3resfail")] "FSINFO3res_u"].

Definition FSSTAT3args : decl :=
  Struct "FSSTAT3args" [
    Field "fsroot" (Ttypedef "nfs_fh3")].

Definition FSSTAT3resok : decl :=
  Struct "FSSTAT3resok" [
    Field "obj_attributes" (Ttypedef "post_op_attr");
    Field "tbytes" (Ttypedef "size3");
    Field "fbytes" (Ttypedef "size3");
    Field "abytes" (Ttypedef "size3");
    Field "tfiles" (Ttypedef "size3");
    Field "ffiles" (Ttypedef "size3");
    Field "afiles" (Ttypedef "size3");
    Field "invarsec" Tuint32].

Definition FSSTAT3resfail : decl :=
  Struct "FSSTAT3resfail" [
    Field "obj_attributes" (Ttypedef "post_op_attr")].

Definition FSSTAT3res : decl :=
  Struct "FSSTAT3res" [
    Field "status" (Ttypedef "nfsstat3");
    UnionField [
      Field "resok" (Ttypedef "FSSTAT3resok");
      Field "resfail" (Ttypedef "FSSTAT3resfail")] "FSSTAT3res_u"].

Definition PATHCONF3args : decl :=
  Struct "PATHCONF3args" [
    Field "object" (Ttypedef "nfs_fh3")].

Definition PATHCONF3resok : decl :=
  Struct "PATHCONF3resok" [
    Field "obj_attributes" (Ttypedef "post_op_attr");
    Field "linkmax" Tuint32;
    Field "name_max" Tuint32;
    Field "no_trunc" Tuint32;
    Field "chown_restricted" Tuint32;
    Field "case_insensitive" Tuint32;
    Field "case_preserving" Tuint32].

Definition PATHCONF3resfail : decl :=
  Struct "PATHCONF3resfail" [
    Field "obj_attributes" (Ttypedef "post_op_attr")].

Definition PATHCONF3res : decl :=
  Struct "PATHCONF3res" [
    Field "status" (Ttypedef "nfsstat3");
    UnionField [
      Field "resok" (Ttypedef "PATHCONF3resok");
      Field "resfail" (Ttypedef "PATHCONF3resfail")] "PATHCONF3res_u"].

Definition nfspath3 : decl := Typedef "nfspath3" (Tptr Tchar).

Definition symlinkdata3 : decl :=
  Struct "symlinkdata3" [
    Field "symlink_attributes" (Ttypedef "sattr3");
    Field "symlink_data" (Ttypedef "nfspath3")].

Definition SYMLINK3args : decl :=
  Struct "SYMLINK3args" [
    Field "where" (Ttypedef "diropargs3");
    Field "symlink" (Ttypedef "symlinkdata3")].

Definition SYMLINK3resok : decl :=
  Struct "SYMLINK3resok" [
    Field "obj" (Ttypedef "post_op_fh3");
    Field "obj_attributes" (Ttypedef "post_op_attr");
    Field "dir_wcc" (Ttypedef "wcc_data")].

Definition SYMLINK3resfail : decl :=
  Struct "SYMLINK3resfail" [
    Field "dir_wcc" (Ttypedef "wcc_data")].

Definition SYMLINK3res : decl :=
  Struct "SYMLINK3res" [
    Field "status" (Ttypedef "nfsstat3");
    UnionField [
      Field "resok" (Ttypedef "SYMLINK3resok");
      Field "resfail" (Ttypedef "SYMLINK3resfail")] "SYMLINK3res_u"].

Definition READLINK3args : decl :=
  Struct "READLINK3args" [
    Field "symlink" (Ttypedef "nfs_fh3")].

Definition READLINK3resok : decl :=
  Struct "READLINK3resok" [
    Field "symlink_attributes" (Ttypedef "post_op_attr");
    Field "data" (Ttypedef "nfspath3")].

Definition READLINK3resfail : decl :=
  Struct "READLINK3resfail" [
    Field "symlink_attributes" (Ttypedef "post_op_attr")].

Definition READLINK3res : decl :=
  Struct "READLINK3res" [
    Field "status" (Ttypedef "nfsstat3");
    UnionField [
      Field "resok" (Ttypedef "READLINK3resok");
      Field "resfail" (Ttypedef "READLINK3resfail")] "READLINK3res_u"].

Definition devicedata3 : decl :=
  Struct "devicedata3" [
    Field "dev_attributes" (Ttypedef "sattr3");
    Field "spec" (Ttypedef "specdata3")].

Definition mknoddata3 : decl :=
  Struct "mknoddata3" [
    Field "type" (Ttypedef "ftype3");
    UnionField [
      Field "chr_device" (Ttypedef "devicedata3");
      Field "blk_device" (Ttypedef "devicedata3");
      Field "sock_attributes" (Ttypedef "sattr3");
      Field "pipe_attributes" (Ttypedef "sattr3")] "mknoddata3_u"].

Definition MKNOD3args : decl :=
  Struct "MKNOD3args" [
    Field "where" (Ttypedef "diropargs3");
    Field "what" (Ttypedef "mknoddata3")].

Definition MKNOD3resok : decl :=
  Struct "MKNOD3resok" [
    Field "obj" (Ttypedef "post_op_fh3");
    Field "obj_attributes" (Ttypedef "post_op_attr");
    Field "dir_wcc" (Ttypedef "wcc_data")].

Definition MKNOD3resfail : decl :=
  Struct "MKNOD3resfail" [
    Field "dir_wcc" (Ttypedef "wcc_data")].

Definition MKNOD3res : decl :=
  Struct "MKNOD3res" [
    Field "status" (Ttypedef "nfsstat3");
    UnionField [
      Field "resok" (Ttypedef "MKNOD3resok");
      Field "resfail" (Ttypedef "MKNOD3resfail")] "MKNOD3res_u"].

Definition MKDIR3args : decl :=
  Struct "MKDIR3args" [
    Field "where" (Ttypedef "diropargs3");
    Field "attributes" (Ttypedef "sattr3")].

Definition MKDIR3resok : decl :=
  Struct "MKDIR3resok" [
    Field "obj" (Ttypedef "post_op_fh3");
    Field "obj_attributes" (Ttypedef "post_op_attr");
    Field "dir_wcc" (Ttypedef "wcc_data")].

Definition MKDIR3resfail : decl :=
  Struct "MKDIR3resfail" [
    Field "dir_wcc" (Ttypedef "wcc_data")].

Definition MKDIR3res : decl :=
  Struct "MKDIR3res" [
    Field "status" (Ttypedef "nfsstat3");
    UnionField [
      Field "resok" (Ttypedef "MKDIR3resok");
      Field "resfail" (Ttypedef "MKDIR3resfail")] "MKDIR3res_u"].

Definition RMDIR3args : decl :=
  Struct "RMDIR3args" [
    Field "object" (Ttypedef "diropargs3")].

Definition RMDIR3resok : decl :=
  Struct "RMDIR3resok" [
    Field "dir_wcc" (Ttypedef "wcc_data")].

Definition RMDIR3resfail : decl :=
  Struct "RMDIR3resfail" [
    Field "dir_wcc" (Ttypedef "wcc_data")].

Definition RMDIR3res : decl :=
  Struct "RMDIR3res" [
    Field "status" (Ttypedef "nfsstat3");
    UnionField [
      Field "resok" (Ttypedef "RMDIR3resok");
      Field "resfail" (Ttypedef "RMDIR3resfail")] "RMDIR3res_u"].

Definition RENAME3args : decl :=
  Struct "RENAME3args" [
    Field "from" (Ttypedef "diropargs3");
    Field "to" (Ttypedef "diropargs3")].

Definition RENAME3resok : decl :=
  Struct "RENAME3resok" [
    Field "fromdir_wcc" (Ttypedef "wcc_data");
    Field "todir_wcc" (Ttypedef "wcc_data")].

Definition RENAME3resfail : decl :=
  Struct "RENAME3resfail" [
    Field "fromdir_wcc" (Ttypedef "wcc_data");
    Field "todir_wcc" (Ttypedef "wcc_data")].

Definition RENAME3res : decl :=
  Struct "RENAME3res" [
    Field "status" (Ttypedef "nfsstat3");
    UnionField [
      Field "resok" (Ttypedef "RENAME3resok");
      Field "resfail" (Ttypedef "RENAME3resfail")] "RENAME3res_u"].

Definition READDIRPLUS3args : decl :=
  Struct "READDIRPLUS3args" [
    Field "dir" (Ttypedef "nfs_fh3");
    Field "cookie" (Ttypedef "cookie3");
    Field "cookieverf" (Ttypedef "cookieverf3");
    Field "dircount" (Ttypedef "count3");
    Field "maxcount" (Ttypedef "count3")].

Definition entryplus3 : decl :=
  Struct "entryplus3" [
    Field "fileid" (Ttypedef "fileid3");
    Field "name" (Ttypedef "filename3");
    Field "cookie" (Ttypedef "cookie3");
    Field "name_attributes" (Ttypedef "post_op_attr");
    Field "name_handle" (Ttypedef "post_op_fh3");
    Field "nextentry" (Tptr (Tstruct "entryplus3"))].

Definition dirlistplus3 : decl :=
  Struct "dirlistplus3" [
    Field "entries" (Tptr (Ttypedef "entryplus3"));
    Field "eof" Tuint32].

Definition READDIRPLUS3resok : decl :=
  Struct "READDIRPLUS3resok" [
    Field "dir_attributes" (Ttypedef "post_op_attr");
    Field "cookieverf" (Ttypedef "cookieverf3");
    Field "reply" (Ttypedef "dirlistplus3")].

Definition READDIRPLUS3resfail : decl :=
  Struct "READDIRPLUS3resfail" [
    Field "dir_attributes" (Ttypedef "post_op_attr")].

Definition READDIRPLUS3res : decl :=
  Struct "READDIRPLUS3res" [
    Field "status" (Ttypedef "nfsstat3");
    UnionField [
      Field "resok" (Ttypedef "READDIRPLUS3resok");
      Field "resfail" (Ttypedef "READDIRPLUS3resfail")] "READDIRPLUS3res_u"].

Definition READDIR3args : decl :=
  Struct "READDIR3args" [
    Field "dir" (Ttypedef "nfs_fh3");
    Field "cookie" (Ttypedef "cookie3");
    Field "cookieverf" (Ttypedef "cookieverf3");
    Field "count" (Ttypedef "count3")].

Definition entry3 : decl :=
  Struct "entry3" [
    Field "fileid" (Ttypedef "fileid3");
    Field "name" (Ttypedef "filename3");
    Field "cookie" (Ttypedef "cookie3");
    Field "nextentry" (Tptr (Tstruct "entry3"))].

Definition dirlist3 : decl :=
  Struct "dirlist3" [
    Field "entries" (Tptr (Ttypedef "entry3"));
    Field "eof" Tuint32].

Definition READDIR3resok : decl :=
  Struct "READDIR3resok" [
    Field "dir_attributes" (Ttypedef "post_op_attr");
    Field "cookieverf" (Ttypedef "cookieverf3");
    Field "reply" (Ttypedef "dirlist3")].

Definition READDIR3resfail : decl :=
  Struct "READDIR3resfail" [
    Field "dir_attributes" (Ttypedef "post_op_attr")].

Definition READDIR3res : decl :=
  Struct "READDIR3res" [
    Field "status" (Ttypedef "nfsstat3");
    UnionField [
      Field "resok" (Ttypedef "READDIR3resok");
      Field "resfail" (Ttypedef "READDIR3resfail")] "READDIR3res_u"].

Definition LINK3args : decl :=
  Struct "LINK3args" [
    Field "file" (Ttypedef "nfs_fh3");
    Field "link" (Ttypedef "diropargs3")].

Definition LINK3resok : decl :=
  Struct "LINK3resok" [
    Field "file_attributes" (Ttypedef "post_op_attr");
    Field "linkdir_wcc" (Ttypedef "wcc_data")].

Definition LINK3resfail : decl :=
  Struct "LINK3resfail" [
    Field "file_attributes" (Ttypedef "post_op_attr");
    Field "linkdir_wcc" (Ttypedef "wcc_data")].

Definition LINK3res : decl :=
  Struct "LINK3res" [
    Field "status" (Ttypedef "nfsstat3");
    UnionField [
      Field "resok" (Ttypedef "LINK3resok");
      Field "resfail" (Ttypedef "LINK3resfail")] "LINK3res_u"].

Definition sattrguard3 : decl :=
  Struct "sattrguard3" [
    Field "check" Tuint32;
    UnionField [
      Field "obj_ctime" (Ttypedef "nfstime3")] "sattrguard3_u"].

Definition SETATTR3args : decl :=
  Struct "SETATTR3args" [
    Field "object" (Ttypedef "nfs_fh3");
    Field "new_attributes" (Ttypedef "sattr3");
    Field "guard" (Ttypedef "sattrguard3")].

Definition SETATTR3resok : decl :=
  Struct "SETATTR3resok" [
    Field "obj_wcc" (Ttypedef "wcc_data")].

Definition SETATTR3resfail : decl :=
  Struct "SETATTR3resfail" [
    Field "obj_wcc" (Ttypedef "wcc_data")].

Definition SETATTR3res : decl :=
  Struct "SETATTR3res" [
    Field "status" (Ttypedef "nfsstat3");
    UnionField [
      Field "resok" (Ttypedef "SETATTR3resok");
      Field "resfail" (Ttypedef "SETATTR3resfail")] "SETATTR3res_u"].

Definition fhandle2 : decl := ArrayTypedef "fhandle2" Tchar FHSIZE2.

Definition ftype2 : decl :=
  Enum "ftype2" [
    ("NF2NON", 0); ("NF2REG", 1); ("NF2DIR", 2); ("NF2BLK", 3); ("NF2CHR", 4); ("NF2LNK", 5)].

Definition fattr2 : decl :=
  Struct "fattr2" [
    Field "type" (Ttypedef "ftype2");
    Field "mode" Tuint32;
    Field "nlink" Tuint32;
    Field "uid" Tuint32;
    Field "gid" Tuint32;
    Field "size" Tuint32;
    Field "blocksize" Tuint32;
    Field "rdev" Tuint32;
    Field "blocks" Tuint32;
    Field "fsid" Tuint32;
    Field "fileid" Tuint32;
    Field "atime" (Ttypedef "nfstime3");
    Field "mtime" (Ttypedef "nfstime3");
    Field "ctime" (Ttypedef "nfstime3")].

Definition sattr2 : decl :=
  Struct "sattr2" [
    Field "mode" Tuint32;
    Field "uid" Tuint32;
    Field "gid" Tuint32;
    Field "size" Tuint32;
    Field "atime" (Ttypedef "nfstime3");
    Field "mtime" (Ttypedef "nfstime3")].

Definition filename2 : decl := Typedef "filename2" (Tptr Tchar).

Definition path2 : decl := Typedef "path2" (Tptr Tchar).

Definition nfsdata2 : decl :=
  Struct "nfsdata2" [
    Field "nfsdata2_len" Tuint32;
    Field "nfsdata2_val" (Tptr Tchar)].

Definition nfscookie2 : decl := ArrayTypedef "nfscookie2" Tchar NFSCOOKIESIZE2.

Definition entry2 : decl :=
  Struct "entry2" [
    Field "fileid" Tuint32;
    Field "name" (Ttypedef "filename2");
    Field "cookie" (Ttypedef "nfscookie2");
    Field "nextentry" (Tptr (Tstruct "entry2"))].

Definition diropargs2 : decl :=
  Struct "diropargs2" [
    Field "dir" (Ttypedef "fhandle2");
    Field "name" (Ttypedef "filename2")].

Definition GETATTR2args : decl :=
  Struct "GETATTR2args" [
    Field "fhandle" (Ttypedef "fhandle2")].

Definition GETATTR2resok : decl :=
  Struct "GETATTR2resok" [
    Field "attributes" (Ttypedef "fattr2")].

Definition GETATTR2res : decl :=
  Struct "GETATTR2res" [
    Field "status" (Ttypedef "nfsstat3");
    UnionField [
      Field "resok" (Ttypedef "GETATTR2resok")] "GETATTR2res_u"].

Definition SETATTR2args : decl :=
  Struct "SETATTR2args" [
    Field "fhandle" (Ttypedef "fhandle2");
    Field "attributes" (Ttypedef "sattr2")].

Definition SETATTR2resok : decl :=
  Struct "SETATTR2resok" [
    Field "attributes" (Ttypedef "fattr2")].

Definition SETATTR2res : decl :=
  Struct "SETATTR2res" [
    Field "status" (Ttypedef "nfsstat3");
    UnionField [
      Field "resok" (Ttypedef "SETATTR2resok")] "SETATTR2res_u"].

Definition LOOKUP2args : decl :=
  Struct "LOOKUP2args" [
    Field "what" (Ttypedef "diropargs2")].

Definition LOOKUP2resok : decl :=
  Struct "LOOKUP2resok" [
    Field "file" (Ttypedef "fhandle2");
    Field "attributes" (Ttypedef "fattr2")].

Definition LOOKUP2res : decl :=
  Struct "LOOKUP2res" [
    Field "status" (Ttypedef "nfsstat3");
    UnionField [
      Field "resok" (Ttypedef "LOOKUP2resok")] "LOOKUP2res_u"].

Definition READLINK2args : decl :=
  Struct "READLINK2args" [
    Field "file" (Ttypedef "fhandle2")].

Definition READLINK2resok : decl :=
  Struct "READLINK2resok" [
    Field "data" (Ttypedef "path2")].

Definition READLINK2res : decl :=
  Struct "READLINK2res" [
    Field "status" (Ttypedef "nfsstat3");
    UnionField [
      Field "resok" (Ttypedef "READLINK2resok")] "READLINK2res_u"].

Definition READ2args : decl :=
  Struct "READ2args" [
    Field "file" (Ttypedef "fhandle2");
    Field "offset" Tuint32;
    Field "count" Tuint32;
    Field "totalcount" Tuint32].

Definition READ2resok : decl :=
  Struct "READ2resok" [
    Field "attributes" (Ttypedef "fattr2");
    Field "data" (Ttypedef "nfsdata2")].

Definition READ2res : decl :=
  Struct "READ2res" [
    Field "status" (Ttypedef "nfsstat3");
    UnionField [
      Field "resok" (Ttypedef "READ2resok")] "READ2res_u"].

Definition WRITE2args : decl :=
  Struct "WRITE2args" [
    Field "file" (Ttypedef "fhandle2");
    Field "beginoffset" Tuint32;
    Field "offset" Tuint32;
    Field "totalcount" Tuint32;
    Field "data" (Ttypedef "nfsdata2")].

Definition WRITE2resok : decl :=
  Struct "WRITE2resok" [
    Field "attributes" (Ttypedef "fattr2")].

Definition WRITE2res : decl :=
  Struct "WRITE2res" [
    Field "status" (Ttypedef "nfsstat3");
    UnionField [
      Field "resok" (Ttypedef "WRITE2resok")] "WRITE2res_u"].

Definition CREATE2args : decl :=
  Struct "CREATE2args" [
    Field "where" (Ttypedef "diropargs2");
    Field "attributes" (Ttypedef "sattr2")].

Definition CREATE2resok : decl :=
  Struct "CREATE2resok" [
    Field "file" (Ttypedef "fhandle2");
    Field "attributes" (Ttypedef "fattr2")].

Definition CREATE2res : decl :=
  Struct "CREATE2res" [
    Field "status" (Ttypedef "nfsstat3");
    UnionField [
      Field "resok" (Ttypedef "CREATE2resok")] "CREATE2res_u"].

Definition REMOVE2args : decl :=
  Struct "REMOVE2args" [
    Field "what" (Ttypedef "diropargs2")].

Definition REMOVE2res : decl :=
  Struct "REMOVE2res" [
    Field "status" (Ttypedef "nfsstat3")].

Definition RENAME2args : decl :=
  Struct "RENAME2args" [
    Field "from" (Ttypedef "diropargs2");
    Field "to" (Ttypedef "diropargs2")].

Definition RENAME2res : decl :=
  Struct "RENAME2res" [
    Field "status" (Ttypedef "nfsstat3")].

Definition LINK2args : decl :=
  Struct "LINK2args" [
    Field "from" (Ttypedef "fhandle2");
    Field "to" (Ttypedef "diropargs2")].

Definition LINK2res : decl :=
  Struct "LINK2res" [
    Field "status" (Ttypedef "nfsstat3")].

Definition SYMLINK2args : decl :=
  Struct "SYMLINK2args" [
    Field "from" (Ttypedef "diropargs2");
    Field "to" (Ttypedef "path2");
    Field "attributes" (Ttypedef "sattr2")].

Definition SYMLINK2res : decl :=
  Struct "SYMLINK2res" [
    Field "status" (Ttypedef "nfsstat3")].

Definition MKDIR2args : decl :=
  Struct "MKDIR2args" [
    Field "where" (Ttypedef "diropargs2");
    Field "attributes" (Ttypedef "sattr2")].

Definition MKDIR2resok : decl :=
  Struct "MKDIR2resok" [
    Field "file" (Ttypedef "fhandle2");
    Field "attributes" (Ttypedef "fattr2")].

Definition MKDIR2res : decl :=
  Struct "MKDIR2res" [
    Field "status" (Ttypedef "nfsstat3");
    UnionField [
      Field "resok" (Ttypedef "MKDIR2resok")] "MKDIR2res_u"].

Definition RMDIR2args : decl :=
  Struct "RMDIR2args" [
    Field "what" (Ttypedef "diropargs2")].

Definition RMDIR2res : decl :=
  Struct "RMDIR2res" [
    Field "status" (Ttypedef "nfsstat3")].

Definition READDIR2args : decl :=
  Struct "READDIR2args" [
    Field "dir" (Ttypedef "fhandle2");
    Field "cookie" (Ttypedef "nfscookie2");
    Field "count" Tuint32].

Definition READDIR2resok : decl :=
  Struct "READDIR2resok" [
    Field "entries" (Tptr (Ttypedef "entry2"));
    Field "eof" Tuint32].

Definition READDIR2res : decl :=
  Struct "READDIR2res" [
    Field "status" (Ttypedef "nfsstat3");
    UnionField [
      Field "resok" (Ttypedef "READDIR2resok")] "READDIR2res_u"].

Definition STATFS2args : decl :=
  Struct "STATFS2args" [
    Field "dir" (Ttypedef "fhandle2")].

Definition STATFS2resok : decl :=
  Struct "STATFS2resok" [
    Field "tsize" Tuint32;
    Field "bsize" Tuint32;
    Field "blocks" Tuint32;
    Field "bfree" Tuint32;
    Field "bavail" Tuint32].

Definition STATFS2res : decl :=
  Struct "STATFS2res" [
    Field "status" (Ttypedef "nfsstat3");
    UnionField [
      Field "resok" (Ttypedef "STATFS2resok")] "STATFS2res_u"].

Definition nfsacl_type : decl :=
  Enum "nfsacl_type" [
    ("NFSACL_TYPE_USER_OBJ", 1); ("NFSACL_TYPE_USER", 2); ("NFSACL_TYPE_GROUP_OBJ", 4);
    ("NFSACL_TYPE_GROUP", 8); ("NFSACL_TYPE_CLASS_OBJ", 16); ("NFSACL_TYPE_CLASS", 32);
    ("NFSACL_TYPE_DEFAULT", 4096); ("NFSACL_TYPE_DEFAULT_USER_OBJ", 4097);
    ("NFSACL_TYPE_DEFAULT_USER", 4098); ("NFSACL_TYPE_DEFAULT_GROUP_OBJ", 4100);
    ("NFSACL_TYPE_DEFAULT_GROUP", 4104); ("NFSACL_TYPE_DEFAULT_CLASS_OBJ", 4112);
    ("NFSACL_TYPE_DEFAULT_OTHER_OBJ", 4128)].

Definition nfsacl_ace : decl :=
  Struct "nfsacl_ace" [
    Field "type" (Tenum "nfsacl_type");
    Field "id" Tuint32;
    Field "perm" Tuint32].

Definition GETACL3args : decl :=
  Struct "GETACL3args" [
    Field "dir" (Ttypedef "nfs_fh3");
    Field "mask" Tuint32].

Definition GETACL3resok : decl :=
  Struct "GETACL3resok" [
    Field "attr" (Ttypedef "post_op_attr");
    Field "mask" Tuint32;
    Field "ace_count" Tuint32;
    StructField [
      Field "ace_len" Tuint32;
      Field "ace_val" (Tptr (Tstruct "nfsacl_ace"))] "ace";
    Field "default_ace_count" Tuint32;
    StructField [
      Field "default_ace_len" Tuint32;
      Field "default_ace_val" (Tptr (Tstruct "nfsacl_ace"))] "default_ace"].

Definition GETACL3res : decl :=
  Struct "GETACL3res" [
    Field "status" (Ttypedef "nfsstat3");
    UnionField [
      Field "resok" (Ttypedef "GETACL3resok")] "GETACL3res_u"].

Definition SETACL3args : decl :=
  Struct "SETACL3args" [
    Field "dir" (Ttypedef "nfs_fh3");
    Field "mask" Tuint32;
    Field "ace_count" Tuint32;
    StructField [
      Field "ace_len" Tuint32;
      Field "ace_val" (Tptr (Tstruct "nfsacl_ace"))] "ace";
    Field "default_ace_count" Tuint32;
    StructField [
      Field "default_ace_len" Tuint32;
      Field "default_ace_val" (Tptr (Tstruct "nfsacl_ace"))] "default_ace"].

Definition SETACL3resok : decl :=
  Struct "SETACL3resok" [
    Field "attr" (Ttypedef "post_op_attr")].

Definition SETACL3res : decl :=
  Struct "SETACL3res" [
    Field "status" (Ttypedef "nfsstat3");
    UnionField [
      Field "resok" (Ttypedef "SETACL3resok")] "SETACL3res_u"].

Definition fattr3_acl : decl :=
  Struct "fattr3_acl" [
    Field "ace_count" Tuint32;
    Field "ace" (Tptr (Tstruct "nfsacl_ace"));
    Field "default_ace_count" Tuint32;
    Field "default_ace" (Tptr (Tstruct "nfsacl_ace"))].

Definition nfs_codecs_1 : list codec := [
  mkCodec "cookieverf3" (Ttypedef "cookieverf3"); mkCodec "cookie3" (Tptr (Ttypedef "cookie3"));
  mkCodec "nfs_fh3" (Tptr (Ttypedef "nfs_fh3")); mkCodec "filename3" (Tptr (Ttypedef "filename3"));
  mkCodec "diropargs3" (Tptr (Ttypedef "diropargs3")); mkCodec "ftype3" (Tptr (Ttypedef "ftype3"));
  mkCodec "mode3" (Tptr (Ttypedef "mode3")); mkCodec "uid3" (Tptr (Ttypedef "uid3"));
  mkCodec "gid3" (Tptr (Ttypedef "gid3")); mkCodec "size3" (Tptr (Ttypedef "size3"));
  mkCodec "fileid3" (Tptr (Ttypedef "fileid3")); mkCodec "specdata3" (Tptr (Ttypedef "specdata3"));
  mkCodec "nfstime3" (Tptr (Ttypedef "nfstime3")); mkCodec "fattr3" (Tptr (Ttypedef "fattr3"));
  mkCodec "post_op_attr" (Tptr (Ttypedef "post_op_attr")); mkCodec "nfsstat3" (Tptr (Ttypedef "nfsstat3"));
  mkCodec "stable_how" (Tptr (Ttypedef "stable_how")); mkCodec "offset3" (Tptr (Ttypedef "offset3"));
  mkCodec "count3" (Tptr (Ttypedef "count3")); mkCodec "wcc_attr" (Tptr (Ttypedef "wcc_attr"));
  mkCodec "pre_op_attr" (Tptr (Ttypedef "pre_op_attr")); mkCodec "wcc_data" (Tptr (Ttypedef "wcc_data"));
  mkCodec "WRITE3args" (Tptr (Ttypedef "WRITE3args")); mkCodec "writeverf3" (Ttypedef "writeverf3");
  mkCodec "WRITE3resok" (Tptr (Ttypedef "WRITE3resok"));
  mkCodec "WRITE3resfail" (Tptr (Ttypedef "WRITE3resfail"));
  mkCodec "WRITE3res" (Tptr (Ttypedef "WRITE3res")); mkCodec "LOOKUP3args" (Tptr (Ttypedef "LOOKUP3args"));
  mkCodec "LOOKUP3resok" (Tptr (Ttypedef "LOOKUP3resok"));
  mkCodec "LOOKUP3resfail" (Tptr (Ttypedef "LOOKUP3resfail"));
  mkCodec "LOOKUP3res" (Tptr (Ttypedef "LOOKUP3res"));
  mkCodec "COMMIT3args" (Tptr (Ttypedef "COMMIT3args"));
  mkCodec "COMMIT3resok" (Tptr (Ttypedef "COMMIT3resok"));
  mkCodec "COMMIT3resfail" (Tptr (Ttypedef "COMMIT3resfail"));
  mkCodec "COMMIT3res" (Tptr (Ttypedef "COMMIT3res"));
  mkCodec "ACCESS3args" (Tptr (Ttypedef "ACCESS3args"));
  mkCodec "ACCESS3resok" (Tptr (Ttypedef "ACCESS3resok"));
  mkCodec "ACCESS3resfail" (Tptr (Ttypedef "ACCESS3resfail"));
  mkCodec "ACCESS3res" (Tptr (Ttypedef "ACCESS3res"));
  mkCodec "GETATTR3args" (Tptr (Ttypedef "GETATTR3args"));
  mkCodec "GETATTR3resok" (Tptr (Ttypedef "GETATTR3resok"));
  mkCodec "GETATTR3res" (Tptr (Ttypedef "GETATTR3res")); mkCodec "time_how" (Tptr (Ttypedef "time_how"));
  mkCodec "set_mode3" (Tptr (Ttypedef "set_mode3")); mkCodec "set_uid3" (Tptr (Ttypedef "set_uid3"));
  mkCodec "set_gid3" (Tptr (Ttypedef "set_gid3")); mkCodec "set_size3" (Tptr (Ttypedef "set_size3"));
  mkCodec "set_atime" (Tptr (Ttypedef "set_atime")); mkCodec "set_mtime" (Tptr (Ttypedef "set_mtime"));
  mkCodec "sattr3" (Tptr (Ttypedef "sattr3")); mkCodec "createmode3" (Tptr (Ttypedef "createmode3"));
  mkCodec "createverf3" (Ttypedef "createverf3"); mkCodec "createhow3" (Tptr (Ttypedef "createhow3"));
  mkCodec "CREATE3args" (Tptr (Ttypedef "CREATE3args"));
  mkCodec "post_op_fh3" (Tptr (Ttypedef "post_op_fh3"));
  mkCodec "CREATE3resok" (Tptr (Ttypedef "CREATE3resok"));
  mkCodec "CREATE3resfail" (Tptr (Ttypedef "CREATE3resfail"));
  mkCodec "CREATE3res" (Tptr (Ttypedef "CREATE3res"));
  mkCodec "REMOVE3args" (Tptr (Ttypedef "REMOVE3args"));
  mkCodec "REMOVE3resok" (Tptr (Ttypedef "REMOVE3resok"));
  mkCodec "REMOVE3resfail" (Tptr (Ttypedef "REMOVE3resfail"));
  mkCodec "REMOVE3res" (Tptr (Ttypedef "REMOVE3res")); mkCodec "READ3args" (Tptr (Ttypedef "READ3args"));
  mkCodec "READ3resok" (Tptr (Ttypedef "READ3resok"));
  mkCodec "READ3resfail" (Tptr (Ttypedef "READ3resfail")); mkCodec "READ3res" (Tptr (Ttypedef "READ3res"));
  mkCodec "FSINFO3args" (Tptr (Ttypedef "FSINFO3args"));
  mkCodec "FSINFO3resok" (Tptr (Ttypedef "FSINFO3resok"));
  mkCodec "FSINFO3resfail" (Tptr (Ttypedef "FSINFO3resfail"));
  mkCodec "FSINFO3res" (Tptr (Ttypedef "FSINFO3res"));
  mkCodec "FSSTAT3args" (Tptr (Ttypedef "FSSTAT3args"));
  mkCodec "FSSTAT3resok" (Tptr (Ttypedef "FSSTAT3resok"));
  mkCodec "FSSTAT3resfail" (Tptr (Ttypedef "FSSTAT3resfail"));
  mkCodec "FSSTAT3res" (Tptr (Ttypedef "FSSTAT3res"));
  mkCodec "PATHCONF3args" (Tptr (Ttypedef "PATHCONF3args"));
  mkCodec "PATHCONF3resok" (Tptr (Ttypedef "PATHCONF3resok"));
  mkCodec "PATHCONF3resfail" (Tptr (Ttypedef "PATHCONF3resfail"));
  mkCodec "PATHCONF3res" (Tptr (Ttypedef "PATHCONF3res")); mkCodec "nfspath3" (Tptr (Ttypedef "nfspath3"));
  mkCodec "symlinkdata3" (Tptr (Ttypedef "symlinkdata3"));
  mkCodec "SYMLINK3args" (Tptr (Ttypedef "SYMLINK3args"));
  mkCodec "SYMLINK3resok" (Tptr (Ttypedef "SYMLINK3resok"));
  mkCodec "SYMLINK3resfail" (Tptr (Ttypedef "SYMLINK3resfail"));
  mkCodec "SYMLINK3res" (Tptr (Ttypedef "SYMLINK3res"));
  mkCodec "READLINK3args" (Tptr (Ttypedef "READLINK3args"));
  mkCodec "READLINK3resok" (Tptr (Ttypedef "READLINK3resok"));
  mkCodec "READLINK3resfail" (Tptr (Ttypedef "READLINK3resfail"));
  mkCodec "READLINK3res" (Tptr (Ttypedef "READLINK3res"));
  mkCodec "devicedata3" (Tptr (Ttypedef "devicedata3"));
  mkCodec "mknoddata3" (Tptr (Ttypedef "mknoddata3")); mkCodec "MKNOD3args" (Tptr (Ttypedef "MKNOD3args"));
  mkCodec "MKNOD3resok" (Tptr (Ttypedef "MKNOD3resok"));
  mkCodec "MKNOD3resfail" (Tptr (Ttypedef "MKNOD3resfail"));
  mkCodec "MKNOD3res" (Tptr (Ttypedef "MKNOD3res")); mkCodec "MKDIR3args" (Tptr (Ttypedef "MKDIR3args"));
  mkCodec "MKDIR3resok" (Tptr (Ttypedef "MKDIR3resok"));
  mkCodec "MKDIR3resfail" (Tptr (Ttypedef "MKDIR3resfail"));
  mkCodec "MKDIR3res" (Tptr (Ttypedef "MKDIR3res")); mkCodec "RMDIR3args" (Tptr (Ttypedef "RMDIR3args"));
  mkCodec "RMDIR3resok" (Tptr (Ttypedef "RMDIR3resok"))].

Definition nfs_codecs_2 : list codec := [
  mkCodec "RMDIR3resfail" (Tptr (Ttypedef "RMDIR3resfail"));
  mkCodec "RMDIR3res" (Tptr (Ttypedef "RMDIR3res")); mkCodec "RENAME3args" (Tptr (Ttypedef "RENAME3args"));
  mkCodec "RENAME3resok" (Tptr (Ttypedef "RENAME3resok"));
  mkCodec "RENAME3resfail" (Tptr (Ttypedef "RENAME3resfail"));
  mkCodec "RENAME3res" (Tptr (Ttypedef "RENAME3res"));
  mkCodec "READDIRPLUS3args" (Tptr (Ttypedef "READDIRPLUS3args"));
  mkCodec "entryplus3" (Tptr (Ttypedef "entryplus3"));
  mkCodec "dirlistplus3" (Tptr (Ttypedef "dirlistplus3"));
  mkCodec "READDIRPLUS3resok" (Tptr (Ttypedef "READDIRPLUS3resok"));
  mkCodec "READDIRPLUS3resfail" (Tptr (Ttypedef "READDIRPLUS3resfail"));
  mkCodec "READDIRPLUS3res" (Tptr (Ttypedef "READDIRPLUS3res"));
  mkCodec "READDIR3args" (Tptr (Ttypedef "READDIR3args")); mkCodec "entry3" (Tptr (Ttypedef "entry3"));
  mkCodec "dirlist3" (Tptr (Ttypedef "dirlist3"));
  mkCodec "READDIR3resok" (Tptr (Ttypedef "READDIR3resok"));
  mkCodec "READDIR3resfail" (Tptr (Ttypedef "READDIR3resfail"));
  mkCodec "READDIR3res" (Tptr (Ttypedef "READDIR3res")); mkCodec "LINK3args" (Tptr (Ttypedef "LINK3args"));
  mkCodec "LINK3resok" (Tptr (Ttypedef "LINK3resok"));
  mkCodec "LINK3resfail" (Tptr (Ttypedef "LINK3resfail")); mkCodec "LINK3res" (Tptr (Ttypedef "LINK3res"));
  mkCodec "sattrguard3" (Tptr (Ttypedef "sattrguard3"));
  mkCodec "SETATTR3args" (Tptr (Ttypedef "SETATTR3args"));
  mkCodec "SETATTR3resok" (Tptr (Ttypedef "SETATTR3resok"));
  mkCodec "SETATTR3resfail" (Tptr (Ttypedef "SETATTR3resfail"));
  mkCodec "SETATTR3res" (Tptr (Ttypedef "SETATTR3res")); mkCodec "fhandle2" (Ttypedef "fhandle2");
  mkCodec "ftype2" (Tptr (Ttypedef "ftype2")); mkCodec "fattr2" (Tptr (Ttypedef "fattr2"));
  mkCodec "sattr2" (Tptr (Ttypedef "sattr2")); mkCodec "filename2" (Tptr (Ttypedef "filename2"));
  mkCodec "path2" (Tptr (Ttypedef "path2")); mkCodec "nfsdata2" (Tptr (Ttypedef "nfsdata2"));
  mkCodec "nfscookie2" (Ttypedef "nfscookie2"); mkCodec "entry2" (Tptr (Ttypedef "entry2"));
  mkCodec "diropargs2" (Tptr (Ttypedef "diropargs2"));
  mkCodec "GETATTR2args" (Tptr (Ttypedef "GETATTR2args"));
  mkCodec "GETATTR2resok" (Tptr (Ttypedef "GETATTR2resok"));
  mkCodec "GETATTR2res" (Tptr (Ttypedef "GETATTR2res"));
  mkCodec "SETATTR2args" (Tptr (Ttypedef "SETATTR2args"));
  mkCodec "SETATTR2resok" (Tptr (Ttypedef "SETATTR2resok"));
  mkCodec "SETATTR2res" (Tptr (Ttypedef "SETATTR2res"));
  mkCodec "LOOKUP2args" (Tptr (Ttypedef "LOOKUP2args"));
  mkCodec "LOOKUP2resok" (Tptr (Ttypedef "LOOKUP2resok"));
  mkCodec "LOOKUP2res" (Tptr (Ttypedef "LOOKUP2res"));
  mkCodec "READLINK2args" (Tptr (Ttypedef "READLINK2args"));
  mkCodec "READLINK2resok" (Tptr (Ttypedef "READLINK2resok"));
  mkCodec "READLINK2res" (Tptr (Ttypedef "READLINK2res"));
  mkCodec "READ2args" (Tptr (Ttypedef "READ2args")); mkCodec "READ2resok" (Tptr (Ttypedef "READ2resok"));
  mkCodec "READ2res" (Tptr (Ttypedef "READ2res")); mkCodec "WRITE2args" (Tptr (Ttypedef "WRITE2args"));
  mkCodec "WRITE2resok" (Tptr (Ttypedef "WRITE2resok")); mkCodec "WRITE2res" (Tptr (Ttypedef "WRITE2res"));
  mkCodec "CREATE2args" (Tptr (Ttypedef "CREATE2args"));
  mkCodec "CREATE2resok" (Tptr (Ttypedef "CREATE2resok"));
  mkCodec "CREATE2res" (Tptr (Ttypedef "CREATE2res"));
  mkCodec "REMOVE2args" (Tptr (Ttypedef "REMOVE2args"));
  mkCodec "REMOVE2res" (Tptr (Ttypedef "REMOVE2res"));
  mkCodec "RENAME2args" (Tptr (Ttypedef "RENAME2args"));
  mkCodec "RENAME2res" (Tptr (Ttypedef "RENAME2res")); mkCodec "LINK2args" (Tptr (Ttypedef "LINK2args"));
  mkCodec "LINK2res" (Tptr (Ttypedef "LINK2res")); mkCodec "SYMLINK2args" (Tptr (Ttypedef "SYMLINK2args"));
  mkCodec "SYMLINK2res" (Tptr (Ttypedef "SYMLINK2res"));
  mkCodec "MKDIR2args" (Tptr (Ttypedef "MKDIR2args"));
  mkCodec "MKDIR2resok" (Tptr (Ttypedef "MKDIR2resok")); mkCodec "MKDIR2res" (Tptr (Ttypedef "MKDIR2res"));
  mkCodec "RMDIR2args" (Tptr (Ttypedef "RMDIR2args")); mkCodec "RMDIR2res" (Tptr (Ttypedef "RMDIR2res"));
  mkCodec "READDIR2args" (Tptr (Ttypedef "READDIR2args"));
  mkCodec "READDIR2resok" (Tptr (Ttypedef "READDIR2resok"));
  mkCodec "READDIR2res" (Tptr (Ttypedef "READDIR2res"));
  mkCodec "STATFS2args" (Tptr (Ttypedef "STATFS2args"));
  mkCodec "STATFS2resok" (Tptr (Ttypedef "STATFS2resok"));
  mkCodec "STATFS2res" (Tptr (Ttypedef "STATFS2res"));
  mkCodec "nfsacl_type" (Tptr (Ttypedef "nfsacl_type"));
  mkCodec "nfsacl_ace" (Tptr (Ttypedef "nfsacl_ace"));
  mkCodec "GETACL3args" (Tptr (Ttypedef "GETACL3args"));
  mkCodec "GETACL3resok" (Tptr (Ttypedef "GETACL3resok"));
  mkCodec "GETACL3res" (Tptr (Ttypedef "GETACL3res"));
  mkCodec "SETACL3args" (Tptr (Ttypedef "SETACL3args"));
  mkCodec "SETACL3resok" (Tptr (Ttypedef "SETACL3resok"));
  mkCodec "SETACL3res" (Tptr (Ttypedef "SETACL3res"))].

Definition nfs_h : header :=
  mkHeader "libnfs-raw-nfs.h" [
    cookieverf3; cookie3; nfs_fh3; filename3; diropargs3; ftype3; mode3; uid3; gid3; size3; fileid3;
    specdata3; nfstime3; fattr3; post_op_attr; nfsstat3; stable_how; offset3; count3; wcc_attr; pre_op_attr;
    wcc_data; WRITE3args; writeverf3; WRITE3resok; WRITE3resfail; WRITE3res; LOOKUP3args; LOOKUP3resok;
    LOOKUP3resfail; LOOKUP3res; COMMIT3args; COMMIT3resok; COMMIT3resfail; COMMIT3res; ACCESS3args;
    ACCESS3resok; ACCESS3resfail; ACCESS3res; GETATTR3args; GETATTR3resok; GETATTR3res; time_how; set_mode3;
    set_uid3; set_gid3; set_size3; set_atime; set_mtime; sattr3; createmode3; createverf3; createhow3;
    CREATE3args; post_op_fh3; CREATE3resok; CREATE3resfail; CREATE3res; REMOVE3args; REMOVE3resok;
    REMOVE3resfail; REMOVE3res; READ3args; READ3resok; READ3resfail; READ3res; FSINFO3args; FSINFO3resok;
    FSINFO3resfail; FSINFO3res; FSSTAT3args; FSSTAT3resok; FSSTAT3resfail; FSSTAT3res; PATHCONF3args;
    PATHCONF3resok; PATHCONF3resfail; PATHCONF3res; nfspath3; symlinkdata3; SYMLINK3args; SYMLINK3resok;
    SYMLINK3resfail; SYMLINK3res; READLINK3args; READLINK3resok; READLINK3resfail; READLINK3res;
    devicedata3; mknoddata3; MKNOD3args; MKNOD3resok; MKNOD3resfail; MKNOD3res; MKDIR3args; MKDIR3resok;
    MKDIR3resfail; MKDIR3res; RMDIR3args; RMDIR3resok; RMDIR3resfail; RMDIR3res; RENAME3args; RENAME3resok;
    RENAME3resfail; RENAME3res; READDIRPLUS3args; entryplus3; dirlistplus3; READDIRPLUS3resok;
    READDIRPLUS3resfail; READDIRPLUS3res; READDIR3args; entry3; dirlist3; READDIR3resok; READDIR3resfail;
    READDIR3res; LINK3args; LINK3resok; LINK3resfail; LINK3res; sattrguard3; SETATTR3args; SETATTR3resok;
    SETATTR3resfail; SETATTR3res; fhandle2; ftype2; fattr2; sattr2; filename2; path2; nfsdata2; nfscookie2;
    entry2; diropargs2; GETATTR2args; GETATTR2resok; GETATTR2res; SETATTR2args; SETATTR2resok; SETATTR2res;
    LOOKUP2args; LOOKUP2resok; LOOKUP2res; READLINK2args; READLINK2resok; READLINK2res; READ2args;
    READ2resok; READ2res; WRITE2args; WRITE2resok; WRITE2res; CREATE2args; CREATE2resok; CREATE2res;
    REMOVE2args; REMOVE2res; RENAME2args; RENAME2res; LINK2args; LINK2res; SYMLINK2args; SYMLINK2res;
    MKDIR2args; MKDIR2resok; MKDIR2res; RMDIR2args; RMDIR2res; READDIR2args; READDIR2resok; READDIR2res;
    STATFS2args; STATFS2resok; STATFS2res; nfsacl_type; nfsacl_ace; GETACL3args; GETACL3resok; GETACL3res;
    SETACL3args; SETACL3resok; SETACL3res; fattr3_acl]
    (nfs_codecs_1 ++ nfs_codecs_2).

(** ** Lock manager: nfsc/libnfs-raw-nlm.h *)

Definition NLM_MAXNAME : Z := 256.

Definition nlm_fh4 : decl :=
  Struct "nlm_fh4" [
    StructField [
      Field "data_len" Tuint32;
      Field "data_val" (Tptr Tchar)] "data"].

Definition nlm4_oh : decl := Typedef "nlm4_oh" (Tptr Tchar).

Definition nlm_cookie : decl :=
  Struct "nlm_cookie" [
    StructField [
      Field "data_len" Tuint32;
      Field "data_val" (Tptr Tchar)] "data"].

Definition nlmstat4 : decl :=
  Enum "nlmstat4" [
    ("NLM4_GRANTED", 0); ("NLM4_DENIED", 1); ("NLM4_DENIED_NOLOCKS", 2); ("NLM4_BLOCKED", 3);
    ("NLM4_DENIED_GRACE_PERIOD", 4); ("NLM4_DEADLCK", 5); ("NLM4_ROFS", 6); ("NLM4_STALE_FH", 7);
    ("NLM4_FBIG", 8); ("NLM4_FAILED", 9)].

Definition nlm4_holder : decl :=
  Struct "nlm4_holder" [
    Field "exclusive" Tuint32;
    Field "svid" Tuint32;
    Field "oh" (Ttypedef "nlm4_oh");
    Field "l_offset" Tuint64;
    Field "l_len" Tuint64].

Definition nlm4_lock : decl :=
  Struct "nlm4_lock" [
    Field "caller_name" (Tptr Tchar);
    Field "fh" (Tstruct "nlm_fh4");
    Field "oh" (Ttypedef "nlm4_oh");
    Field "svid" Tuint32;
    Field "l_offset" Tuint64;
    Field "l_len" Tuint64].

Definition nlm4_share : decl :=
  Struct "nlm4_share" [
    Field "caller_name" (Tptr Tchar);
    Field "fh" (Tstruct "nlm_fh4");
    Field "oh" (Ttypedef "nlm4_oh");
    Field "mode" Tuint32;
    Field "access" Tuint32].

Definition nlm4_testres_denied : decl :=
  Struct "nlm4_testres_denied" [
    Field "holder" (Ttypedef "nlm4_holder")].

Definition nlm4_testreply : decl :=
  Struct "nlm4_testreply" [
    Field "status" (Ttypedef "nlmstat4");
    UnionField [
      Field "lock" (Ttypedef "nlm4_testres_denied")] "nlm4_testreply_u"].

Definition NLM4_TESTres : decl :=
  Struct "NLM4_TESTres" [
    Field "cookie" (Ttypedef "nlm_cookie");
    Field "reply" (Ttypedef "nlm4_testreply")].

Definition NLM4_TESTargs : decl :=
  Struct "NLM4_TESTargs" [
    Field "cookie" (Ttypedef "nlm_cookie");
    Field "exclusive" Tuint32;
    Field "lock" (Ttypedef "nlm4_lock")].

Definition NLM4_CANCres : decl :=
  Struct "NLM4_CANCres" [
    Field "cookie" (Ttypedef "nlm_cookie");
    Field "status" (Ttypedef "nlmstat4")].

Definition NLM4_CANCargs : decl :=
  Struct "NLM4_CANCargs" [
    Field "cookie" (Ttypedef "nlm_cookie");
    Field "block" Tuint32;
    Field "exclusive" Tuint32;
    Field "lock" (Ttypedef "nlm4_lock")].

Definition NLM4_UNLOCKres : decl :=
  Struct "NLM4_UNLOCKres" [
    Field "cookie" (Ttypedef "nlm_cookie");
    Field "status" (Ttypedef "nlmstat4")].

Definition NLM4_UNLOCKargs : decl :=
  Struct "NLM4_UNLOCKargs" [
    Field "cookie" (Ttypedef "nlm_cookie");
    Field "lock" (Ttypedef "nlm4_lock")].

Definition NLM4_LOCKres : decl :=
  Struct "NLM4_LOCKres" [
    Field "cookie" (Ttypedef "nlm_cookie");
    Field "status" (Ttypedef "nlmstat4")].

Definition NLM4_LOCKargs : decl :=
  Struct "NLM4_LOCKargs" [
    Field "cookie" (Ttypedef "nlm_cookie");
    Field "block" Tuint32;
    Field "exclusive" Tuint32;
    Field "lock" (Ttypedef "nlm4_lock");
    Field "reclaim" Tuint32;
    Field "state" Tint].

Definition NLM4_GRANTEDargs : decl :=
  Struct "NLM4_GRANTEDargs" [
    Field "cookie" (Ttypedef "nlm_cookie");
    Field "exclusive" Tuint32;
    Field "lock" (Ttypedef "nlm4_lock")].

Definition NLM4_GRANTEDres : decl :=
  Struct "NLM4_GRANTEDres" [
    Field "cookie" (Ttypedef "nlm_cookie");
    Field "status" (Ttypedef "nlmstat4")].

Definition NLM4_SHAREargs : decl :=
  Struct "NLM4_SHAREargs" [
    Field "cookie" (Ttypedef "nlm_cookie");
    Field "share" (Ttypedef "nlm4_share");
    Field "reclaim" (Ttypedef "bool_t")].

Definition NLM4_SHAREres : decl :=
  Struct "NLM4_SHAREres" [
    Field "cookie" (Ttypedef "nlm_cookie");
    Field "status" (Ttypedef "nlmstat4");
    Field "sequence" Tint].

Definition NLM4_UNSHAREres : decl :=
  Struct "NLM4_UNSHAREres" [
    Field "cookie" (Ttypedef "nlm_cookie");
    Field "status" (Ttypedef "nlmstat4");
    Field "sequence" Tint].

Definition nlm_codecs : list codec := [
  mkCodec "nlm_fh4" (Tptr (Ttypedef "nlm_fh4")); mkCodec "nlm4_oh" (Tptr (Ttypedef "nlm4_oh"));
  mkCodec "nlm_cookie" (Tptr (Ttypedef "nlm_cookie")); mkCodec "nlmstat4" (Tptr (Ttypedef "nlmstat4"));
  mkCodec "nlm4_holder" (Tptr (Ttypedef "nlm4_holder")); mkCodec "nlm4_lock" (Tptr (Ttypedef "nlm4_lock"));
  mkCodec "nlm4_share" (Tptr (Ttypedef "nlm4_share"));
  mkCodec "nlm4_testres_denied" (Tptr (Ttypedef "nlm4_testres_denied"));
  mkCodec "nlm4_testreply" (Tptr (Ttypedef "nlm4_testreply"));
  mkCodec "NLM4_TESTres" (Tptr (Ttypedef "NLM4_TESTres"));
  mkCodec "NLM4_TESTargs" (Tptr (Ttypedef "NLM4_TESTargs"));
  mkCodec "NLM4_CANCres" (Tptr (Ttypedef "NLM4_CANCres"));
  mkCodec "NLM4_CANCargs" (Tptr (Ttypedef "NLM4_CANCargs"));
  mkCodec "NLM4_UNLOCKres" (Tptr (Ttypedef "NLM4_UNLOCKres"));
  mkCodec "NLM4_UNLOCKargs" (Tptr (Ttypedef "NLM4_UNLOCKargs"));
  mkCodec "NLM4_LOCKres" (Tptr (Ttypedef "NLM4_LOCKres"));
  mkCodec "NLM4_LOCKargs" (Tptr (Ttypedef "NLM4_LOCKargs"));
  mkCodec "NLM4_GRANTEDargs" (Tptr (Ttypedef "NLM4_GRANTEDargs"));
  mkCodec "NLM4_GRANTEDres" (Tptr (Ttypedef "NLM4_GRANTEDres"));
  mkCodec "NLM4_SHAREres" (Tptr (Ttypedef "NLM4_SHAREres"));
  mkCodec "NLM4_SHAREargs" (Tptr (Ttypedef "NLM4_SHAREargs"));
  mkCodec "NLM4_UNSHAREres" (Tptr (Ttypedef "NLM4_UNSHAREres"));
  mkCodec "NLM4_UNSHAREargs" (Tptr (Ttypedef "NLM4_SHAREargs"))].

Definition nlm_h : header :=
  mkHeader "libnfs-raw-nlm.h" [
    nlm_fh4; nlm4_oh; nlm_cookie; nlmstat4; nlm4_holder; nlm4_lock; nlm4_share; nlm4_testres_denied;
    nlm4_testreply; NLM4_TESTres; NLM4_TESTargs; NLM4_CANCres; NLM4_CANCargs; NLM4_UNLOCKres;
    NLM4_UNLOCKargs; NLM4_LOCKres; NLM4_LOCKargs; NLM4_GRANTEDargs; NLM4_GRANTEDres; NLM4_SHAREargs;
    NLM4_SHAREres; NLM4_UNSHAREres]
    nlm_codecs.

(** ** Status monitor: nfsc/libnfs-raw-nsm.h *)

Definition NSM_MAXSTRLEN : Z := 1024.

Definition nsmstat1 : decl :=
  Enum "nsmstat1" [
    ("NSM_STAT_SUCC", 0); ("NSM_STAT_FAIL", 1)].

Definition nsm_my_id : decl :=
  Struct "nsm_my_id" [
    Field "my_name" (Tptr Tchar);
    Field "my_prog" Tint;
    Field "my_vers" Tint;
    Field "my_proc" Tint].

Definition nsm_mon_id : decl :=
  Struct "nsm_mon_id" [
    Field "mon_name" (Tptr Tchar);
    Field "my_id" (Tstruct "nsm_my_id")].

Definition NSM1_STATres : decl :=
  Struct "NSM1_STATres" [
    Field "res" (Ttypedef "nsmstat1");
    Field "state" Tint].

Definition NSM1_STATargs : decl :=
  Struct "NSM1_STATargs" [
    Field "mon_name" (Tptr Tchar)].

Definition NSM1_MONres : decl :=
  Struct "NSM1_MONres" [
    Field "res" (Ttypedef "nsmstat1");
    Field "state" Tint].

Definition NSM1_MONargs : decl :=
  Struct "NSM1_MONargs" [
    Field "mon_id" (Tstruct "nsm_mon_id");
    ArrayField "priv" Tchar 16].

Definition NSM1_UNMONres : decl :=
  Struct "NSM1_UNMONres" [
    Field "state" Tint].

Definition NSM1_UNMONargs : decl :=
  Struct "NSM1_UNMONargs" [
    Field "mon_id" (Tstruct "nsm_mon_id")].

Definition NSM1_UNMONALLres : decl :=
  Struct "NSM1_UNMONALLres" [
    Field "state" Tint].

Definition NSM1_UNMONALLargs : decl :=
  Struct "NSM1_UNMONALLargs" [
    Field "my_id" (Tstruct "nsm_my_id")].

Definition NSM1_NOTIFYargs : decl :=
  Struct "NSM1_NOTIFYargs" [
    Field "mon_name" (Tptr Tchar);
    Field "state" Tint].

Definition nsm_codecs : list codec := [
  mkCodec "nsmstat1" (Tptr (Ttypedef "nsmstat1")); mkCodec "nsm_my_id" (Tptr (Ttypedef "nsm_my_id"));
  mkCodec "nsm_mon_id" (Tptr (Ttypedef "nsm_mon_id"));
  mkCodec "NSM1_STATres" (Tptr (Ttypedef "NSM1_STATres"));
  mkCodec "NSM1_STATargs" (Tptr (Ttypedef "NSM1_STATargs"));
  mkCodec "NSM1_MONres" (Tptr (Ttypedef "NSM1_MONres"));
  mkCodec "NSM1_MONargs" (Tptr (Ttypedef "NSM1_MONargs"));
  mkCodec "NSM1_UNMONres" (Tptr (Ttypedef "NSM1_UNMONres"));
  mkCodec "NSM1_UNMONargs" (Tptr (Ttypedef "NSM1_UNMONargs"));
  mkCodec "NSM1_UNMONALLres" (Tptr (Ttypedef "NSM1_UNMONALLres"));
  mkCodec "NSM1_UNMONALLargs" (Tptr (Ttypedef "NSM1_UNMONALLargs"));
  mkCodec "NSM1_NOTIFYargs" (Tptr (Ttypedef "NSM1_NOTIFYargs"))].

Definition nsm_h : header :=
  mkHeader "libnfs-raw-nsm.h" [
    nsmstat1; nsm_my_id; nsm_mon_id; NSM1_STATres; NSM1_STATargs; NSM1_MONres; NSM1_MONargs; NSM1_UNMONres;
    NSM1_UNMONargs; NSM1_UNMONALLres; NSM1_UNMONALLargs; NSM1_NOTIFYargs]
    nsm_codecs.

(** ** Quotas: nfsc/libnfs-raw-rquota.h *)

Definition RQUOTAPATHLEN : Z := 1024.

Definition rquotastat : decl :=
  Enum "rquotastat" [
    ("RQUOTA_OK", 1); ("RQUOTA_NOQUOTA", 2); ("RQUOTA_EPERM", 3)].

Definition exportpath : decl := Typedef "exportpath" (Tptr Tchar).

Definition GETQUOTA1args : decl :=
  Struct "GETQUOTA1args" [
    Field "export" (Ttypedef "exportpath");
    Field "uid" Tint].

Definition quotatype : decl :=
  Enum "quotatype" [
    ("RQUOTA_TYPE_UID", 0); ("RQUOTA_TYPE_GID", 1)].

Definition GETQUOTA2args : decl :=
  Struct "GETQUOTA2args" [
    Field "export" (Ttypedef "exportpath");
    Field "type" (Ttypedef "quotatype");
    Field "uid" Tint].

Definition GETQUOTA1res_ok : decl :=
  Struct "GETQUOTA1res_ok" [
    Field "bsize" Tint;
    Field "active" Tint;
    Field "bhardlimit" Tint;
    Field "bsoftlimit" Tint;
    Field "curblocks" Tint;
    Field "fhardlimit" Tint;
    Field "fsoftlimit" Tint;
    Field "curfiles" Tint;
    Field "btimeleft" Tint;
    Field "ftimeleft" Tint].

Definition GETQUOTA1res : decl :=
  Struct "GETQUOTA1res" [
    Field "status" (Ttypedef "rquotastat");
    UnionField [
      Field "quota" (Ttypedef "GETQUOTA1res_ok")] "GETQUOTA1res_u"].

Definition rquota_codecs : list codec := [
  mkCodec "rquotastat" (Tptr (Ttypedef "rquotastat")); mkCodec "exportpath" (Tptr (Ttypedef "exportpath"));
  mkCodec "GETQUOTA1args" (Tptr (Ttypedef "GETQUOTA1args"));
  mkCodec "quotatype" (Tptr (Ttypedef "quotatype"));
  mkCodec "GETQUOTA2args" (Tptr (Ttypedef "GETQUOTA2args"));
  mkCodec "GETQUOTA1res_ok" (Tptr (Ttypedef "GETQUOTA1res_ok"));
  mkCodec "GETQUOTA1res" (Tptr (Ttypedef "GETQUOTA1res"))].

Definition rquota_h : header :=
  mkHeader "libnfs-raw-rquota.h" [
    rquotastat; exportpath; GETQUOTA1args; quotatype; GETQUOTA2args; GETQUOTA1res_ok; GETQUOTA1res]
    rquota_codecs.

(** ** Access control lists

    The client functions at the end of the header. *)

Definition nfs3_getacl_async : api_fn :=
  mkApi "nfs3_getacl_async" Tint
    [("nfs", Tptr (Tstruct "nfs_context")); ("nfsfh", Tptr (Tstruct "nfsfh"));
     ("cb", Ttypedef "nfs_cb"); ("private_data", Tptr Tvoid)]
    (DocAsync StatusZero (Points (Ttypedef "fattr3_acl"))).

Definition nfs3_getacl : api_fn :=
  mkApi "nfs3_getacl" Tint
    [("nfs", Tptr (Tstruct "nfs_context")); ("nfsfh", Tptr (Tstruct "nfsfh"));
     ("nfs3acl", Tptr (Ttypedef "fattr3_acl"))]
    (DocSync StatusZero).

Definition nfs3_acl_free : api_fn :=
  mkApi "nfs3_acl_free" Tvoid [("nfs3acl", Tptr (Ttypedef "fattr3_acl"))] DocPlain.

End NfsWire.
