(* ===== verification/Nfs4Wire.v ===== *)
(** * The wire types of NFS 4

    The declarations of nfsc/libnfs-raw-nfs4.h: constants, types in the order of the
    header, codecs, and the functions on access control lists. *)

From stdpp Require Import base list strings numbers.
From S2P Require Import Prelude CType RpcProcs WireTypes.
Import Wire.

Open Scope string_scope.
Open Scope list_scope.
Open Scope Z_scope.

Module Nfs4Wire.

(** ** NFS 4: nfsc/libnfs-raw-nfs4.h *)

Definition NFS4_FHSIZE : Z := 128.
Definition NFS4_VERIFIER_SIZE : Z := 8.
Definition NFS4_OPAQUE_LIMIT : Z := 1024.
Definition NFS4_SESSIONID_SIZE : Z := 16.
Definition NFS4_DEVICEID4_SIZE : Z := 16.
Definition ACL4_SUPPORT_ALLOW_ACL : Z := 1.
Definition ACL4_SUPPORT_DENY_ACL : Z := 2.
Definition ACL4_SUPPORT_AUDIT_ACL : Z := 4.
Definition ACL4_SUPPORT_ALARM_ACL : Z := 8.
Definition ACE4_ACCESS_ALLOWED_ACE_TYPE : Z := 0.
Definition ACE4_ACCESS_DENIED_ACE_TYPE : Z := 1.
Definition ACE4_SYSTEM_AUDIT_ACE_TYPE : Z := 2.
Definition ACE4_SYSTEM_ALARM_ACE_TYPE : Z := 3.
Definition ACE4_FILE_INHERIT_ACE : Z := 1.
Definition ACE4_DIRECTORY_INHERIT_ACE : Z := 2.
Definition ACE4_NO_PROPAGATE_INHERIT_ACE : Z := 4.
Definition ACE4_INHERIT_ONLY_ACE : Z := 8.
Definition ACE4_SUCCESSFUL_ACCESS_ACE_FLAG : Z := 16.
Definition ACE4_FAILED_ACCESS_ACE_FLAG : Z := 32.
Definition ACE4_IDENTIFIER_GROUP : Z := 64.
Definition ACE4_READ_DATA : Z := 1.
Definition ACE4_LIST_DIRECTORY : Z := 1.
Definition ACE4_WRITE_DATA : Z := 2.
Definition ACE4_ADD_FILE : Z := 2.
Definition ACE4_APPEND_DATA : Z := 4.
Definition ACE4_ADD_SUBDIRECTORY : Z := 4.
Definition ACE4_READ_NAMED_ATTRS : Z := 8.
Definition ACE4_WRITE_NAMED_ATTRS : Z := 16.
Definition ACE4_EXECUTE : Z := 32.
Definition ACE4_DELETE_CHILD : Z := 64.
Definition ACE4_READ_ATTRIBUTES : Z := 128.
Definition ACE4_WRITE_ATTRIBUTES : Z := 256.
Definition ACE4_DELETE : Z := 65536.
Definition ACE4_READ_ACL : Z := 131072.
Definition ACE4_WRITE_ACL : Z := 262144.
Definition ACE4_WRITE_OWNER : Z := 524288.
Definition ACE4_SYNCHRONIZE : Z := 1048576.
Definition ACE4_GENERIC_READ : Z := 1179777.
Definition ACE4_GENERIC_WRITE : Z := 1442054.
Definition ACE4_GENERIC_EXECUTE : Z := 1179808.
Definition MODE4_SUID : Z := 2048.
Definition MODE4_SGID : Z := 1024.
Definition MODE4_SVTX : Z := 512.
Definition MODE4_RUSR : Z := 256.
Definition MODE4_WUSR : Z := 128.
Definition MODE4_XUSR : Z := 64.
Definition MODE4_RGRP : Z := 32.
Definition MODE4_WGRP : Z := 16.
Definition MODE4_XGRP : Z := 8.
Definition MODE4_ROTH : Z := 4.
Definition MODE4_WOTH : Z := 2.
Definition MODE4_XOTH : Z := 1.
Definition FH4_PERSISTENT : Z := 0.
Definition FH4_NOEXPIRE_WITH_OPEN : Z := 1.
Definition FH4_VOLATILE_ANY : Z := 2.
Definition FH4_VOL_MIGRATION : Z := 4.
Definition FH4_VOL_RENAME : Z := 8.
Definition FATTR4_SUPPORTED_ATTRS : Z := 0.
Definition FATTR4_TYPE : Z := 1.
Definition FATTR4_FH_EXPIRE_TYPE : Z := 2.
Definition FATTR4_CHANGE : Z := 3.
Definition FATTR4_SIZE : Z := 4.
Definition FATTR4_LINK_SUPPORT : Z := 5.
Definition FATTR4_SYMLINK_SUPPORT : Z := 6.
Definition FATTR4_NAMED_ATTR : Z := 7.
Definition FATTR4_FSID : Z := 8.
Definition FATTR4_UNIQUE_HANDLES : Z := 9.
Definition FATTR4_LEASE_TIME : Z := 10.
Definition FATTR4_RDATTR_ERROR : Z := 11.
Definition FATTR4_FILEHANDLE : Z := 19.
Definition FATTR4_ACL : Z := 12.
Definition FATTR4_ACLSUPPORT : Z := 13.
Definition FATTR4_ARCHIVE : Z := 14.
Definition FATTR4_CANSETTIME : Z := 15.
Definition FATTR4_CASE_INSENSITIVE : Z := 16.
Definition FATTR4_CASE_PRESERVING : Z := 17.
Definition FATTR4_CHOWN_RESTRICTED : Z := 18.
Definition FATTR4_FILEID : Z := 20.
Definition FATTR4_FILES_AVAIL : Z := 21.
Definition FATTR4_FILES_FREE : Z := 22.
Definition FATTR4_FILES_TOTAL : Z := 23.
Definition FATTR4_FS_LOCATIONS : Z := 24.
Definition FATTR4_HIDDEN : Z := 25.
Definition FATTR4_HOMOGENEOUS : Z := 26.
Definition FATTR4_MAXFILESIZE : Z := 27.
Definition FATTR4_MAXLINK : Z := 28.
Definition FATTR4_MAXNAME : Z := 29.
Definition FATTR4_MAXREAD : Z := 30.
Definition FATTR4_MAXWRITE : Z := 31.
Definition FATTR4_MIMETYPE : Z := 32.
Definition FATTR4_MODE : Z := 33.
Definition FATTR4_NO_TRUNC : Z := 34.
Definition FATTR4_NUMLINKS : Z := 35.
Definition FATTR4_OWNER : Z := 36.
Definition FATTR4_OWNER_GROUP : Z := 37.
Definition FATTR4_QUOTA_AVAIL_HARD : Z := 38.
Definition FATTR4_QUOTA_AVAIL_SOFT : Z := 39.
Definition FATTR4_QUOTA_USED : Z := 40.
Definition FATTR4_RAWDEV : Z := 41.
Definition FATTR4_SPACE_AVAIL : Z := 42.
Definition FATTR4_SPACE_FREE : Z := 43.
Definition FATTR4_SPACE_TOTAL : Z := 44.
Definition FATTR4_SPACE_USED : Z := 45.
Definition FATTR4_SYSTEM : Z := 46.
Definition FATTR4_TIME_ACCESS : Z := 47.
Definition FATTR4_TIME_ACCESS_SET : Z := 48.
Definition FATTR4_TIME_BACKUP : Z := 49.
Definition FATTR4_TIME_CREATE : Z := 50.
Definition FATTR4_TIME_DELTA : Z := 51.
Definition FATTR4_TIME_METADATA : Z := 52.
Definition FATTR4_TIME_MODIFY : Z := 53.
Definition FATTR4_TIME_MODIFY_SET : Z := 54.
Definition FATTR4_MOUNTED_ON_FILEID : Z := 55.
Definition ACCESS4_READ : Z := 1.
Definition ACCESS4_LOOKUP : Z := 2.
Definition ACCESS4_MODIFY : Z := 4.
Definition ACCESS4_EXTEND : Z := 8.
Definition ACCESS4_DELETE : Z := 16.
Definition ACCESS4_EXECUTE : Z := 32.
Definition OPEN4_SHARE_ACCESS_READ : Z := 1.
Definition OPEN4_SHARE_ACCESS_WRITE : Z := 2.
Definition OPEN4_SHARE_ACCESS_BOTH : Z := 3.
Definition OPEN4_SHARE_DENY_NONE : Z := 0.
Definition OPEN4_SHARE_DENY_READ : Z := 1.
Definition OPEN4_SHARE_DENY_WRITE : Z := 2.
Definition OPEN4_SHARE_DENY_BOTH : Z := 3.
Definition OPEN4_RESULT_CONFIRM : Z := 2.
Definition OPEN4_RESULT_LOCKTYPE_POSIX : Z := 4.
Definition RPCSEC_GSS : Z := 6.
Definition EXCHGID4_FLAG_SUPP_MOVED_REFER : Z := 1.
Definition EXCHGID4_FLAG_SUPP_MOVED_MIGR : Z := 2.
Definition EXCHGID4_FLAG_BIND_PRINC_STATEID : Z := 256.
Definition EXCHGID4_FLAG_USE_NON_PNFS : Z := 65536.
Definition EXCHGID4_FLAG_USE_PNFS_MDS : Z := 131072.
Definition EXCHGID4_FLAG_USE_PNFS_DS : Z := 262144.
Definition EXCHGID4_FLAG_MASK_PNFS : Z := 458752.
Definition EXCHGID4_FLAG_UPD_CONFIRMED_REC_A : Z := 1073741824.
Definition EXCHGID4_FLAG_CONFIRMED_R : Z := 2147483648.
Definition CREATE_SESSION4_FLAG_PERSIST : Z := 1.
Definition CREATE_SESSION4_FLAG_CONN_BACK_CHAN : Z := 2.
Definition CREATE_SESSION4_FLAG_CONN_RDMA : Z := 4.
Definition LAYOUT4_RET_REC_FILE : Z := 1.
Definition LAYOUT4_RET_REC_FSID : Z := 2.
Definition LAYOUT4_RET_REC_ALL : Z := 3.
Definition SEQ4_STATUS_CB_PATH_DOWN : Z := 1.
Definition SEQ4_STATUS_CB_GSS_CONTEXTS_EXPIRING : Z := 2.
Definition SEQ4_STATUS_CB_GSS_CONTEXTS_EXPIRED : Z := 4.
Definition SEQ4_STATUS_EXPIRED_ALL_STATE_REVOKED : Z := 8.
Definition SEQ4_STATUS_EXPIRED_SOME_STATE_REVOKED : Z := 16.
Definition SEQ4_STATUS_ADMIN_STATE_REVOKED : Z := 32.
Definition SEQ4_STATUS_RECALLABLE_STATE_REVOKED : Z := 64.
Definition SEQ4_STATUS_LEASE_MOVED : Z := 128.
Definition SEQ4_STATUS_RESTART_RECLAIM_NEEDED : Z := 256.
Definition SEQ4_STATUS_CB_PATH_DOWN_SESSION : Z := 512.
Definition SEQ4_STATUS_BACKCHANNEL_FAULT : Z := 1024.
Definition SEQ4_STATUS_DEVID_CHANGED : Z := 2048.
Definition SEQ4_STATUS_DEVID_DELETED : Z := 4096.
Definition RPCSEC_GSS_VERS_1 : Z := 1.

Definition nfs_ftype4 : decl :=
  Enum "nfs_ftype4" [
    ("NF4REG", 1); ("NF4DIR", 2); ("NF4BLK", 3); ("NF4CHR", 4); ("NF4LNK", 5); ("NF4SOCK", 6);
    ("NF4FIFO", 7); ("NF4ATTRDIR", 8); ("NF4NAMEDATTR", 9)].

Definition nfsstat4 : decl :=
  Enum "nfsstat4" [
    ("NFS4_OK", 0); ("NFS4ERR_PERM", 1); ("NFS4ERR_NOENT", 2); ("NFS4ERR_IO", 5); ("NFS4ERR_NXIO", 6);
    ("NFS4ERR_ACCESS", 13); ("NFS4ERR_EXIST", 17); ("NFS4ERR_XDEV", 18); ("NFS4ERR_NOTDIR", 20);
    ("NFS4ERR_ISDIR", 21); ("NFS4ERR_INVAL", 22); ("NFS4ERR_FBIG", 27); ("NFS4ERR_NOSPC", 28);
    ("NFS4ERR_ROFS", 30); ("NFS4ERR_MLINK", 31); ("NFS4ERR_NAMETOOLONG", 63); ("NFS4ERR_NOTEMPTY", 66);
    ("NFS4ERR_DQUOT", 69); ("NFS4ERR_STALE", 70); ("NFS4ERR_BADHANDLE", 10001);
    ("NFS4ERR_BAD_COOKIE", 10003); ("NFS4ERR_NOTSUPP", 10004); ("NFS4ERR_TOOSMALL", 10005);
    ("NFS4ERR_SERVERFAULT", 10006); ("NFS4ERR_BADTYPE", 10007); ("NFS4ERR_DELAY", 10008);
    ("NFS4ERR_SAME", 10009); ("NFS4ERR_DENIED", 10010); ("NFS4ERR_EXPIRED", 10011);
    ("NFS4ERR_LOCKED", 10012); ("NFS4ERR_GRACE", 10013); ("NFS4ERR_FHEXPIRED", 10014);
    ("NFS4ERR_SHARE_DENIED", 10015); ("NFS4ERR_WRONGSEC", 10016); ("NFS4ERR_CLID_INUSE", 10017);
    ("NFS4ERR_RESOURCE", 10018); ("NFS4ERR_MOVED", 10019); ("NFS4ERR_NOFILEHANDLE", 10020);
    ("NFS4ERR_MINOR_VERS_MISMATCH", 10021); ("NFS4ERR_STALE_CLIENTID", 10022);
    ("NFS4ERR_STALE_STATEID", 10023); ("NFS4ERR_OLD_STATEID", 10024); ("NFS4ERR_BAD_STATEID", 10025);
    ("NFS4ERR_BAD_SEQID", 10026); ("NFS4ERR_NOT_SAME", 10027); ("NFS4ERR_LOCK_RANGE", 10028);
    ("NFS4ERR_SYMLINK", 10029); ("NFS4ERR_RESTOREFH", 10030); ("NFS4ERR_LEASE_MOVED", 10031);
    ("NFS4ERR_ATTRNOTSUPP", 10032); ("NFS4ERR_NO_GRACE", 10033); ("NFS4ERR_RECLAIM_BAD", 10034);
    ("NFS4ERR_RECLAIM_CONFLICT", 10035); ("NFS4ERR_BADZDR", 10036); ("NFS4ERR_LOCKS_HELD", 10037);
    ("NFS4ERR_OPENMODE", 10038); ("NFS4ERR_BADOWNER", 10039); ("NFS4ERR_BADCHAR", 10040);
    ("NFS4ERR_BADNAME", 10041); ("NFS4ERR_BAD_RANGE", 10042); ("NFS4ERR_LOCK_NOTSUPP", 10043);
    ("NFS4ERR_OP_ILLEGAL", 10044); ("NFS4ERR_DEADLOCK", 10045); ("NFS4ERR_FILE_OPEN", 10046);
    ("NFS4ERR_ADMIN_REVOKED", 10047); ("NFS4ERR_CB_PATH_DOWN", 10048); ("NFS4ERR_BADIOMODE", 10049);
    ("NFS4ERR_BADLAYOUT", 10050); ("NFS4ERR_BAD_SESSION_DIGEST", 10051); ("NFS4ERR_BADSESSION", 10052);
    ("NFS4ERR_BADSLOT", 10053); ("NFS4ERR_COMPLETE_ALREADY", 10054);
    ("NFS4ERR_CONN_NOT_BOUND_TO_SESSION", 10055); ("NFS4ERR_DELEG_ALREADY_WANTED", 10056);
    ("NFS4ERR_BACK_CHAN_BUSY", 10057); ("NFS4ERR_LAYOUTTRYLATER", 10058);
    ("NFS4ERR_LAYOUTUNAVAILABLE", 10059); ("NFS4ERR_NOMATCHING_LAYOUT", 10060);
    ("NFS4ERR_RECALLCONFLICT", 10061)].

Definition bitmap4 : decl :=
  Struct "bitmap4" [
    Field "bitmap4_len" Tuint32;
    Field "bitmap4_val" (Tptr Tuint32)].

Definition offset4 : decl := Typedef "offset4" Tuint64.

Definition count4 : decl := Typedef "count4" Tuint32.

Definition length4 : decl := Typedef "length4" Tuint64.

Definition clientid4 : decl := Typedef "clientid4" Tuint64.

Definition sequenceid4 : decl := Typedef "sequenceid4" Tuint32.

Definition seqid4 : decl := Typedef "seqid4" Tuint32.

Definition slotid4 : decl := Typedef "slotid4" Tuint32.

Definition utf8string : decl :=
  Struct "utf8string" [
    Field "utf8string_len" Tuint32;
    Field "utf8string_val" (Tptr Tchar)].

Definition utf8str_cis : decl := Typedef "utf8str_cis" (Ttypedef "utf8string").

Definition utf8str_cs : decl := Typedef "utf8str_cs" (Ttypedef "utf8string").

Definition utf8str_mixed : decl := Typedef "utf8str_mixed" (Ttypedef "utf8string").

Definition component4 : decl := Typedef "component4" (Ttypedef "utf8str_cs").

Definition pathname4 : decl :=
  Struct "pathname4" [
    Field "pathname4_len" Tuint32;
    Field "pathname4_val" (Tptr (Ttypedef "component4"))].

Definition nfs_lockid4 : decl := Typedef "nfs_lockid4" Tuint64.

Definition nfs_cookie4 : decl := Typedef "nfs_cookie4" Tuint64.

Definition linktext4 : decl := Typedef "linktext4" (Ttypedef "utf8str_cs").

Definition sec_oid4 : decl :=
  Struct "sec_oid4" [
    Field "sec_oid4_len" Tuint32;
    Field "sec_oid4_val" (Tptr Tchar)].

Definition qop4 : decl := Typedef "qop4" Tuint32.

Definition mode4 : decl := Typedef "mode4" Tuint32.

Definition changeid4 : decl := Typedef "changeid4" Tuint64.

Definition verifier4 : decl := ArrayTypedef "verifier4" Tchar NFS4_VERIFIER_SIZE.

Definition sessionid4 : decl := ArrayTypedef "sessionid4" Tchar NFS4_SESSIONID_SIZE.

Definition authsys_parms : decl :=
  Struct "authsys_parms" [
    Field "stamp" Tuint32;
    Field "machinename" (Tptr Tchar);
    Field "uid" Tuint32;
    Field "gid" Tuint32;
    StructField [
      Field "gids_len" Tuint32;
      Field "gids_val" (Tptr Tuint32)] "gids"].

Definition deviceid4 : decl := ArrayTypedef "deviceid4" Tchar NFS4_DEVICEID4_SIZE.

Definition layouttype4 : decl :=
  Enum "layouttype4" [
    ("LAYOUT4_NFSV4_1_FILES", 1); ("LAYOUT4_OSD2_OBJECTS", 2); ("LAYOUT4_BLOCK_VOLUME", 3)].

Definition layoutupdate4 : decl :=
  Struct "layoutupdate4" [
    Field "lou_type" (Ttypedef "layouttype4");
    StructField [
      Field "lou_body_len" Tuint32;
      Field "lou_body_val" (Tptr Tchar)] "lou_body"].

Definition device_addr4 : decl :=
  Struct "device_addr4" [
    Field "da_layout_type" (Ttypedef "layouttype4");
    StructField [
      Field "da_addr_body_len" Tuint32;
      Field "da_addr_body_val" (Tptr Tchar)] "da_addr_body"].

Definition nfstime4 : decl :=
  Struct "nfstime4" [
    Field "seconds" Tint64;
    Field "nseconds" Tuint32].

Definition time_how4 : decl :=
  Enum "time_how4" [
    ("SET_TO_SERVER_TIME4", 0); ("SET_TO_CLIENT_TIME4", 1)].

Definition layoutiomode4 : decl :=
  Enum "layoutiomode4" [
    ("LAYOUTIOMODE4_READ", 1); ("LAYOUTIOMODE4_RW", 2); ("LAYOUTIOMODE4_ANY", 3)].

Definition layout_content4 : decl :=
  Struct "layout_content4" [
    Field "loc_type" (Ttypedef "layouttype4");
    StructField [
      Field "loc_body_len" Tuint32;
      Field "loc_body_val" (Tptr Tchar)] "loc_body"].

Definition layout4 : decl :=
  Struct "layout4" [
    Field "lo_offset" (Ttypedef "offset4");
    Field "lo_length" (Ttypedef "length4");
    Field "lo_iomode" (Ttypedef "layoutiomode4");
    Field "lo_content" (Ttypedef "layout_content4")].

Definition settime4 : decl :=
  Struct "settime4" [
    Field "set_it" (Ttypedef "time_how4");
    UnionField [
      Field "time" (Ttypedef "nfstime4")] "settime4_u"].

Definition nfs_fh4 : decl :=
  Struct "nfs_fh4" [
    Field "nfs_fh4_len" Tuint32;
    Field "nfs_fh4_val" (Tptr Tchar)].

Definition fsid4 : decl :=
  Struct "fsid4" [
    Field "major" Tuint64;
    Field "minor" Tuint64].

Definition fs_location4 : decl :=
  Struct "fs_location4" [
    StructField [
      Field "server_len" Tuint32;
      Field "server_val" (Tptr (Ttypedef "utf8str_cis"))] "server";
    Field "rootpath" (Ttypedef "pathname4")].

Definition fs_locations4 : decl :=
  Struct "fs_locations4" [
    Field "fs_root" (Ttypedef "pathname4");
    StructField [
      Field "locations_len" Tuint32;
      Field "locations_val" (Tptr (Ttypedef "fs_location4"))] "locations"].

Definition acetype4 : decl := Typedef "acetype4" Tuint32.

Definition aceflag4 : decl := Typedef "aceflag4" Tuint32.

Definition acemask4 : decl := Typedef "acemask4" Tuint32.

Definition nfsace4 : decl :=
  Struct "nfsace4" [
    Field "type" (Ttypedef "acetype4");
    Field "flag" (Ttypedef "aceflag4");
    Field "access_mask" (Ttypedef "acemask4");
    Field "who" (Ttypedef "utf8str_mixed")].

Definition specdata4 : decl :=
  Struct "specdata4" [
    Field "specdata1" Tuint32;
    Field "specdata2" Tuint32].

Definition fattr4_supported_attrs : decl := Typedef "fattr4_supported_attrs" (Ttypedef "bitmap4").

Definition fattr4_type : decl := Typedef "fattr4_type" (Ttypedef "nfs_ftype4").

Definition fattr4_fh_expire_type : decl := Typedef "fattr4_fh_expire_type" Tuint32.

Definition fattr4_change : decl := Typedef "fattr4_change" (Ttypedef "changeid4").

Definition fattr4_size : decl := Typedef "fattr4_size" Tuint64.

Definition fattr4_link_support : decl := Typedef "fattr4_link_support" Tuint32.

Definition fattr4_symlink_support : decl := Typedef "fattr4_symlink_support" Tuint32.

Definition fattr4_named_attr : decl := Typedef "fattr4_named_attr" Tuint32.

Definition fattr4_fsid : decl := Typedef "fattr4_fsid" (Ttypedef "fsid4").

Definition fattr4_unique_handles : decl := Typedef "fattr4_unique_handles" Tuint32.

Definition fattr4_lease_time : decl := Typedef "fattr4_lease_time" Tuint32.

Definition fattr4_rdattr_error : decl := Typedef "fattr4_rdattr_error" (Ttypedef "nfsstat4").

Definition fattr4_acl : decl :=
  Struct "fattr4_acl" [
    Field "fattr4_acl_len" Tuint32;
    Field "fattr4_acl_val" (Tptr (Ttypedef "nfsace4"))].

Definition fattr4_aclsupport : decl := Typedef "fattr4_aclsupport" Tuint32.

Definition fattr4_archive : decl := Typedef "fattr4_archive" Tuint32.

Definition fattr4_cansettime : decl := Typedef "fattr4_cansettime" Tuint32.

Definition fattr4_case_insensitive : decl := Typedef "fattr4_case_insensitive" Tuint32.

Definition fattr4_case_preserving : decl := Typedef "fattr4_case_preserving" Tuint32.

Definition fattr4_chown_restricted : decl := Typedef "fattr4_chown_restricted" Tuint32.

Definition fattr4_fileid : decl := Typedef "fattr4_fileid" Tuint64.

Definition fattr4_files_avail : decl := Typedef "fattr4_files_avail" Tuint64.

Definition fattr4_filehandle : decl := Typedef "fattr4_filehandle" (Ttypedef "nfs_fh4").

Definition fattr4_files_free : decl := Typedef "fattr4_files_free" Tuint64.

Definition fattr4_files_total : decl := Typedef "fattr4_files_total" Tuint64.

Definition fattr4_fs_locations : decl := Typedef "fattr4_fs_locations" (Ttypedef "fs_locations4").

Definition fattr4_hidden : decl := Typedef "fattr4_hidden" Tuint32.

Definition fattr4_homogeneous : decl := Typedef "fattr4_homogeneous" Tuint32.

Definition fattr4_maxfilesize : decl := Typedef "fattr4_maxfilesize" Tuint64.

Definition fattr4_maxlink : decl := Typedef "fattr4_maxlink" Tuint32.

Definition fattr4_maxname : decl := Typedef "fattr4_maxname" Tuint32.

Definition fattr4_maxread : decl := Typedef "fattr4_maxread" Tuint64.

Definition fattr4_maxwrite : decl := Typedef "fattr4_maxwrite" Tuint64.

Definition fattr4_mimetype : decl := Typedef "fattr4_mimetype" (Ttypedef "utf8str_cs").

Definition fattr4_mode : decl := Typedef "fattr4_mode" (Ttypedef "mode4").

Definition fattr4_mounted_on_fileid : decl := Typedef "fattr4_mounted_on_fileid" Tuint64.

Definition fattr4_no_trunc : decl := Typedef "fattr4_no_trunc" Tuint32.

Definition fattr4_numlinks : decl := Typedef "fattr4_numlinks" Tuint32.

Definition fattr4_owner : decl := Typedef "fattr4_owner" (Ttypedef "utf8str_mixed").

Definition fattr4_owner_group : decl := Typedef "fattr4_owner_group" (Ttypedef "utf8str_mixed").

Definition fattr4_quota_avail_hard : decl := Typedef "fattr4_quota_avail_hard" Tuint64.

Definition fattr4_quota_avail_soft : decl := Typedef "fattr4_quota_avail_soft" Tuint64.

Definition fattr4_quota_used : decl := Typedef "fattr4_quota_used" Tuint64.

Definition fattr4_rawdev : decl := Typedef "fattr4_rawdev" (Ttypedef "specdata4").

Definition fattr4_space_avail : decl := Typedef "fattr4_space_avail" Tuint64.

Definition fattr4_space_free : decl := Typedef "fattr4_space_free" Tuint64.

Definition fattr4_space_total : decl := Typedef "fattr4_space_total" Tuint64.

Definition fattr4_space_used : decl := Typedef "fattr4_space_used" Tuint64.

Definition fattr4_system : decl := Typedef "fattr4_system" Tuint32.

Definition fattr4_time_access : decl := Typedef "fattr4_time_access" (Ttypedef "nfstime4").

Definition fattr4_time_access_set : decl := Typedef "fattr4_time_access_set" (Ttypedef "settime4").

Definition fattr4_time_backup : decl := Typedef "fattr4_time_backup" (Ttypedef "nfstime4").

Definition fattr4_time_create : decl := Typedef "fattr4_time_create" (Ttypedef "nfstime4").

Definition fattr4_time_delta : decl := Typedef "fattr4_time_delta" (Ttypedef "nfstime4").

Definition fattr4_time_metadata : decl := Typedef "fattr4_time_metadata" (Ttypedef "nfstime4").

Definition fattr4_time_modify : decl := Typedef "fattr4_time_modify" (Ttypedef "nfstime4").

Definition fattr4_time_modify_set : decl := Typedef "fattr4_time_modify_set" (Ttypedef "settime4").

Definition attrlist4 : decl :=
  Struct "attrlist4" [
    Field "attrlist4_len" Tuint32;
    Field "attrlist4_val" (Tptr Tchar)].

Definition fattr4 : decl :=
  Struct "fattr4" [
    Field "attrmask" (Ttypedef "bitmap4");
    Field "attr_vals" (Ttypedef "attrlist4")].

Definition change_info4 : decl :=
  Struct "change_info4" [
    Field "atomic" Tuint32;
    Field "before" (Ttypedef "changeid4");
    Field "after" (Ttypedef "changeid4")].

Definition clientaddr4 : decl :=
  Struct "clientaddr4" [
    Field "r_netid" (Tptr Tchar);
    Field "r_addr" (Tptr Tchar)].

Definition cb_client4 : decl :=
  Struct "cb_client4" [
    Field "cb_program" Tuint32;
    Field "cb_location" (Ttypedef "clientaddr4")].

Definition stateid4 : decl :=
  Struct "stateid4" [
    Field "seqid" Tuint32;
    ArrayField "other" Tchar 12].

Definition nfs_client_id4 : decl :=
  Struct "nfs_client_id4" [
    Field "verifier" (Ttypedef "verifier4");
    StructField [
      Field "id_len" Tuint32;
      Field "id_val" (Tptr Tchar)] "id"].

Definition open_owner4 : decl :=
  Struct "open_owner4" [
    Field "clientid" (Ttypedef "clientid4");
    StructField [
      Field "owner_len" Tuint32;
      Field "owner_val" (Tptr Tchar)] "owner"].

Definition lock_owner4 : decl :=
  Struct "lock_owner4" [
    Field "clientid" (Ttypedef "clientid4");
    StructField [
      Field "owner_len" Tuint32;
      Field "owner_val" (Tptr Tchar)] "owner"].

Definition nfs_lock_type4 : decl :=
  Enum "nfs_lock_type4" [
    ("READ_LT", 1); ("WRITE_LT", 2); ("READW_LT", 3); ("WRITEW_LT", 4)].

Definition client_owner4 : decl :=
  Struct "client_owner4" [
    Field "co_verifier" (Ttypedef "verifier4");
    StructField [
      Field "co_ownerid_len" Tuint32;
      Field "co_ownerid_val" (Tptr Tchar)] "co_ownerid"].

Definition server_owner4 : decl :=
  Struct "server_owner4" [
    Field "so_minor_id" Tuint64;
    StructField [
      Field "so_major_id_len" Tuint32;
      Field "so_major_id_val" (Tptr Tchar)] "so_major_id"].

Definition nfs_impl_id4 : decl :=
  Struct "nfs_impl_id4" [
    Field "nii_domain" (Ttypedef "utf8str_cis");
    Field "nii_name" (Ttypedef "utf8str_cs");
    Field "nii_date" (Ttypedef "nfstime4")].

Definition ACCESS4args : decl :=
  Struct "ACCESS4args" [
    Field "access" Tuint32].

Definition ACCESS4resok : decl :=
  Struct "ACCESS4resok" [
    Field "supported" Tuint32;
    Field "access" Tuint32].

Definition ACCESS4res : decl :=
  Struct "ACCESS4res" [
    Field "status" (Ttypedef "nfsstat4");
    UnionField [
      Field "resok4" (Ttypedef "ACCESS4resok")] "ACCESS4res_u"].

Definition CLOSE4args : decl :=
  Struct "CLOSE4args" [
    Field "seqid" (Ttypedef "seqid4");
    Field "open_stateid" (Ttypedef "stateid4")].

Definition CLOSE4res : decl :=
  Struct "CLOSE4res" [
    Field "status" (Ttypedef "nfsstat4");
    UnionField [
      Field "open_stateid" (Ttypedef "stateid4")] "CLOSE4res_u"].

Definition COMMIT4args : decl :=
  Struct "COMMIT4args" [
    Field "offset" (Ttypedef "offset4");
    Field "count" (Ttypedef "count4")].

Definition COMMIT4resok : decl :=
  Struct "COMMIT4resok" [
    Field "writeverf" (Ttypedef "verifier4")].

Definition COMMIT4res : decl :=
  Struct "COMMIT4res" [
    Field "status" (Ttypedef "nfsstat4");
    UnionField [
      Field "resok4" (Ttypedef "COMMIT4resok")] "COMMIT4res_u"].

Definition createtype4 : decl :=
  Struct "createtype4" [
    Field "type" (Ttypedef "nfs_ftype4");
    UnionField [
      Field "linkdata" (Ttypedef "linktext4");
      Field "devdata" (Ttypedef "specdata4")] "createtype4_u"].

Definition CREATE4args : decl :=
  Struct "CREATE4args" [
    Field "objtype" (Ttypedef "createtype4");
    Field "objname" (Ttypedef "component4");
    Field "createattrs" (Ttypedef "fattr4")].

Definition CREATE4resok : decl :=
  Struct "CREATE4resok" [
    Field "cinfo" (Ttypedef "change_info4");
    Field "attrset" (Ttypedef "bitmap4")].

Definition CREATE4res : decl :=
  Struct "CREATE4res" [
    Field "status" (Ttypedef "nfsstat4");
    UnionField [
      Field "resok4" (Ttypedef "CREATE4resok")] "CREATE4res_u"].

Definition DELEGPURGE4args : decl :=
  Struct "DELEGPURGE4args" [
    Field "clientid" (Ttypedef "clientid4")].

Definition DELEGPURGE4res : decl :=
  Struct "DELEGPURGE4res" [
    Field "status" (Ttypedef "nfsstat4")].

Definition DELEGRETURN4args : decl :=
  Struct "DELEGRETURN4args" [
    Field "deleg_stateid" (Ttypedef "stateid4")].

Definition DELEGRETURN4res : decl :=
  Struct "DELEGRETURN4res" [
    Field "status" (Ttypedef "nfsstat4")].

Definition GETATTR4args : decl :=
  Struct "GETATTR4args" [
    Field "attr_request" (Ttypedef "bitmap4")].

Definition GETATTR4resok : decl :=
  Struct "GETATTR4resok" [
    Field "obj_attributes" (Ttypedef "fattr4")].

Definition GETATTR4res : decl :=
  Struct "GETATTR4res" [
    Field "status" (Ttypedef "nfsstat4");
    UnionField [
      Field "resok4" (Ttypedef "GETATTR4resok")] "GETATTR4res_u"].

Definition GETFH4resok : decl :=
  Struct "GETFH4resok" [
    Field "object" (Ttypedef "nfs_fh4")].

Definition GETFH4res : decl :=
  Struct "GETFH4res" [
    Field "status" (Ttypedef "nfsstat4");
    UnionField [
      Field "resok4" (Ttypedef "GETFH4resok")] "GETFH4res_u"].

Definition LINK4args : decl :=
  Struct "LINK4args" [
    Field "newname" (Ttypedef "component4")].

Definition LINK4resok : decl :=
  Struct "LINK4resok" [
    Field "cinfo" (Ttypedef "change_info4")].

Definition LINK4res : decl :=
  Struct "LINK4res" [
    Field "status" (Ttypedef "nfsstat4");
    UnionField [
      Field "resok4" (Ttypedef "LINK4resok")] "LINK4res_u"].

Definition open_to_lock_owner4 : decl :=
  Struct "open_to_lock_owner4" [
    Field "open_seqid" (Ttypedef "seqid4");
    Field "open_stateid" (Ttypedef "stateid4");
    Field "lock_seqid" (Ttypedef "seqid4");
    Field "lock_owner" (Ttypedef "lock_owner4")].

Definition exist_lock_owner4 : decl :=
  Struct "exist_lock_owner4" [
    Field "lock_stateid" (Ttypedef "stateid4");
    Field "lock_seqid" (Ttypedef "seqid4")].

Definition locker4 : decl :=
  Struct "locker4" [
    Field "new_lock_owner" Tuint32;
    UnionField [
      Field "open_owner" (Ttypedef "open_to_lock_owner4");
      Field "lock_owner" (Ttypedef "exist_lock_owner4")] "locker4_u"].

Definition LOCK4args : decl :=
  Struct "LOCK4args" [
    Field "locktype" (Ttypedef "nfs_lock_type4");
    Field "reclaim" Tuint32;
    Field "offset" (Ttypedef "offset4");
    Field "length" (Ttypedef "length4");
    Field "locker" (Ttypedef "locker4")].

Definition LOCK4denied : decl :=
  Struct "LOCK4denied" [
    Field "offset" (Ttypedef "offset4");
    Field "length" (Ttypedef "length4");
    Field "locktype" (Ttypedef "nfs_lock_type4");
    Field "owner" (Ttypedef "lock_owner4")].

Definition LOCK4resok : decl :=
  Struct "LOCK4resok" [
    Field "lock_stateid" (Ttypedef "stateid4")].

Definition LOCK4res : decl :=
  Struct "LOCK4res" [
    Field "status" (Ttypedef "nfsstat4");
    UnionField [
      Field "resok4" (Ttypedef "LOCK4resok");
      Field "denied" (Ttypedef "LOCK4denied")] "LOCK4res_u"].

Definition LOCKT4args : decl :=
  Struct "LOCKT4args" [
    Field "locktype" (Ttypedef "nfs_lock_type4");
    Field "offset" (Ttypedef "offset4");
    Field "length" (Ttypedef "length4");
    Field "owner" (Ttypedef "lock_owner4")].

Definition LOCKT4res : decl :=
  Struct "LOCKT4res" [
    Field "status" (Ttypedef "nfsstat4");
    UnionField [
      Field "denied" (Ttypedef "LOCK4denied")] "LOCKT4res_u"].

Definition LOCKU4args : decl :=
  Struct "LOCKU4args" [
    Field "locktype" (Ttypedef "nfs_lock_type4");
    Field "seqid" (Ttypedef "seqid4");
    Field "lock_stateid" (Ttypedef "stateid4");
    Field "offset" (Ttypedef "offset4");
    Field "length" (Ttypedef "length4")].

Definition LOCKU4res : decl :=
  Struct "LOCKU4res" [
    Field "status" (Ttypedef "nfsstat4");
    UnionField [
      Field "lock_stateid" (Ttypedef "stateid4")] "LOCKU4res_u"].

Definition LOOKUP4args : decl :=
  Struct "LOOKUP4args" [
    Field "objname" (Ttypedef "component4")].

Definition LOOKUP4res : decl :=
  Struct "LOOKUP4res" [
    Field "status" (Ttypedef "nfsstat4")].

Definition LOOKUPP4res : decl :=
  Struct "LOOKUPP4res" [
    Field "status" (Ttypedef "nfsstat4")].

Definition NVERIFY4args : decl :=
  Struct "NVERIFY4args" [
    Field "obj_attributes" (Ttypedef "fattr4")].

Definition NVERIFY4res : decl :=
  Struct "NVERIFY4res" [
    Field "status" (Ttypedef "nfsstat4")].

Definition createmode4 : decl :=
  Enum "createmode4" [
    ("UNCHECKED4", 0); ("GUARDED4", 1); ("EXCLUSIVE4", 2)].

Definition createhow4 : decl :=
  Struct "createhow4" [
    Field "mode" (Ttypedef "createmode4");
    UnionField [
      Field "createattrs" (Ttypedef "fattr4");
      Field "createverf" (Ttypedef "verifier4")] "createhow4_u"].

Definition opentype4 : decl :=
  Enum "opentype4" [
    ("OPEN4_NOCREATE", 0); ("OPEN4_CREATE", 1)].

Definition openflag4 : decl :=
  Struct "openflag4" [
    Field "opentype" (Ttypedef "opentype4");
    UnionField [
      Field "how" (Ttypedef "createhow4")] "openflag4_u"].

Definition limit_by4 : decl :=
  Enum "limit_by4" [
    ("NFS_LIMIT_SIZE", 1); ("NFS_LIMIT_BLOCKS", 2)].

Definition nfs_modified_limit4 : decl :=
  Struct "nfs_modified_limit4" [
    Field "num_blocks" Tuint32;
    Field "bytes_per_block" Tuint32].

Definition nfs_space_limit4 : decl :=
  Struct "nfs_space_limit4" [
    Field "limitby" (Ttypedef "limit_by4");
    UnionField [
      Field "filesize" Tuint64;
      Field "mod_blocks" (Ttypedef "nfs_modified_limit4")] "nfs_space_limit4_u"].

Definition open_delegation_type4 : decl :=
  Enum "open_delegation_type4" [
    ("OPEN_DELEGATE_NONE", 0); ("OPEN_DELEGATE_READ", 1); ("OPEN_DELEGATE_WRITE", 2)].

Definition open_claim_type4 : decl :=
  Enum "open_claim_type4" [
    ("CLAIM_NULL", 0); ("CLAIM_PREVIOUS", 1); ("CLAIM_DELEGATE_CUR", 2); ("CLAIM_DELEGATE_PREV", 3);
    ("CLAIM_FH", 4); ("CLAIM_DELEG_CUR_FH", 5); ("CLAIM_DELEG_PREV_FH", 6)].

Definition open_claim_delegate_cur4 : decl :=
  Struct "open_claim_delegate_cur4" [
    Field "delegate_stateid" (Ttypedef "stateid4");
    Field "file" (Ttypedef "component4")].

Definition open_claim4 : decl :=
  Struct "open_claim4" [
    Field "claim" (Ttypedef "open_claim_type4");
    UnionField [
      Field "file" (Ttypedef "component4");
      Field "delegate_type" (Ttypedef "open_delegation_type4");
      Field "delegate_cur_info" (Ttypedef "open_claim_delegate_cur4");
      Field "file_delegate_prev" (Ttypedef "component4");
      Field "oc_delegate_stateid" (Ttypedef "stateid4")] "open_claim4_u"].

Definition OPEN4args : decl :=
  Struct "OPEN4args" [
    Field "seqid" (Ttypedef "seqid4");
    Field "share_access" Tuint32;
    Field "share_deny" Tuint32;
    Field "owner" (Ttypedef "open_owner4");
    Field "openhow" (Ttypedef "openflag4");
    Field "claim" (Ttypedef "open_claim4")].

Definition open_read_delegation4 : decl :=
  Struct "open_read_delegation4" [
    Field "stateid" (Ttypedef "stateid4");
    Field "recall" Tuint32;
    Field "permissions" (Ttypedef "nfsace4")].

Definition open_write_delegation4 : decl :=
  Struct "open_write_delegation4" [
    Field "stateid" (Ttypedef "stateid4");
    Field "recall" Tuint32;
    Field "space_limit" (Ttypedef "nfs_space_limit4");
    Field "permissions" (Ttypedef "nfsace4")].

Definition open_delegation4 : decl :=
  Struct "open_delegation4" [
    Field "delegation_type" (Ttypedef "open_delegation_type4");
    UnionField [
      Field "read" (Ttypedef "open_read_delegation4");
      Field "write" (Ttypedef "open_write_delegation4")] "open_delegation4_u"].

Definition OPEN4resok : decl :=
  Struct "OPEN4resok" [
    Field "stateid" (Ttypedef "stateid4");
    Field "cinfo" (Ttypedef "change_info4");
    Field "rflags" Tuint32;
    Field "attrset" (Ttypedef "bitmap4");
    Field "delegation" (Ttypedef "open_delegation4")].

Definition OPEN4res : decl :=
  Struct "OPEN4res" [
    Field "status" (Ttypedef "nfsstat4");
    UnionField [
      Field "resok4" (Ttypedef "OPEN4resok")] "OPEN4res_u"].

Definition OPENATTR4args : decl :=
  Struct "OPENATTR4args" [
    Field "createdir" Tuint32].

Definition OPENATTR4res : decl :=
  Struct "OPENATTR4res" [
    Field "status" (Ttypedef "nfsstat4")].

Definition OPEN_CONFIRM4args : decl :=
  Struct "OPEN_CONFIRM4args" [
    Field "open_stateid" (Ttypedef "stateid4");
    Field "seqid" (Ttypedef "seqid4")].

Definition OPEN_CONFIRM4resok : decl :=
  Struct "OPEN_CONFIRM4resok" [
    Field "open_stateid" (Ttypedef "stateid4")].

Definition OPEN_CONFIRM4res : decl :=
  Struct "OPEN_CONFIRM4res" [
    Field "status" (Ttypedef "nfsstat4");
    UnionField [
      Field "resok4" (Ttypedef "OPEN_CONFIRM4resok")] "OPEN_CONFIRM4res_u"].

Definition OPEN_DOWNGRADE4args : decl :=
  Struct "OPEN_DOWNGRADE4args" [
    Field "open_stateid" (Ttypedef "stateid4");
    Field "seqid" (Ttypedef "seqid4");
    Field "share_access" Tuint32;
    Field "share_deny" Tuint32].

Definition OPEN_DOWNGRADE4resok : decl :=
  Struct "OPEN_DOWNGRADE4resok" [
    Field "open_stateid" (Ttypedef "stateid4")].

Definition OPEN_DOWNGRADE4res : decl :=
  Struct "OPEN_DOWNGRADE4res" [
    Field "status" (Ttypedef "nfsstat4");
    UnionField [
      Field "resok4" (Ttypedef "OPEN_DOWNGRADE4resok")] "OPEN_DOWNGRADE4res_u"].

Definition PUTFH4args : decl :=
  Struct "PUTFH4args" [
    Field "object" (Ttypedef "nfs_fh4")].

Definition PUTFH4res : decl :=
  Struct "PUTFH4res" [
    Field "status" (Ttypedef "nfsstat4")].

Definition PUTPUBFH4res : decl :=
  Struct "PUTPUBFH4res" [
    Field "status" (Ttypedef "nfsstat4")].

Definition PUTROOTFH4res : decl :=
  Struct "PUTROOTFH4res" [
    Field "status" (Ttypedef "nfsstat4")].

Definition READ4args : decl :=
  Struct "READ4args" [
    Field "stateid" (Ttypedef "stateid4");
    Field "offset" (Ttypedef "offset4");
    Field "count" (Ttypedef "count4")].

Definition READ4resok : decl :=
  Struct "READ4resok" [
    Field "eof" Tuint32;
    StructField [
      Field "data_len" Tuint32;
      Field "data_val" (Tptr Tchar)] "data"].

Definition READ4res : decl :=
  Struct "READ4res" [
    Field "status" (Ttypedef "nfsstat4");
    UnionField [
      Field "resok4" (Ttypedef "READ4resok")] "READ4res_u"].

Definition READDIR4args : decl :=
  Struct "READDIR4args" [
    Field "cookie" (Ttypedef "nfs_cookie4");
    Field "cookieverf" (Ttypedef "verifier4");
    Field "dircount" (Ttypedef "count4");
    Field "maxcount" (Ttypedef "count4");
    Field "attr_request" (Ttypedef "bitmap4")].

Definition entry4 : decl :=
  Struct "entry4" [
    Field "cookie" (Ttypedef "nfs_cookie4");
    Field "name" (Ttypedef "component4");
    Field "attrs" (Ttypedef "fattr4");
    Field "nextentry" (Tptr (Tstruct "entry4"))].

Definition dirlist4 : decl :=
  Struct "dirlist4" [
    Field "entries" (Tptr (Ttypedef "entry4"));
    Field "eof" Tuint32].

Definition READDIR4resok : decl :=
  Struct "READDIR4resok" [
    Field "cookieverf" (Ttypedef "verifier4");
    Field "reply" (Ttypedef "dirlist4")].

Definition READDIR4res : decl :=
  Struct "READDIR4res" [
    Field "status" (Ttypedef "nfsstat4");
    UnionField [
      Field "resok4" (Ttypedef "READDIR4resok")] "READDIR4res_u"].

Definition READLINK4resok : decl :=
  Struct "READLINK4resok" [
    Field "link" (Ttypedef "linktext4")].

Definition READLINK4res : decl :=
  Struct "READLINK4res" [
    Field "status" (Ttypedef "nfsstat4");
    UnionField [
      Field "resok4" (Ttypedef "READLINK4resok")] "READLINK4res_u"].

Definition REMOVE4args : decl :=
  Struct "REMOVE4args" [
    Field "target" (Ttypedef "component4")].

Definition REMOVE4resok : decl :=
  Struct "REMOVE4resok" [
    Field "cinfo" (Ttypedef "change_info4")].

Definition REMOVE4res : decl :=
  Struct "REMOVE4res" [
    Field "status" (Ttypedef "nfsstat4");
    UnionField [
      Field "resok4" (Ttypedef "REMOVE4resok")] "REMOVE4res_u"].

Definition RENAME4args : decl :=
  Struct "RENAME4args" [
    Field "oldname" (Ttypedef "component4");
    Field "newname" (Ttypedef "component4")].

Definition RENAME4resok : decl :=
  Struct "RENAME4resok" [
    Field "source_cinfo" (Ttypedef "change_info4");
    Field "target_cinfo" (Ttypedef "change_info4")].

Definition RENAME4res : decl :=
  Struct "RENAME4res" [
    Field "status" (Ttypedef "nfsstat4");
    UnionField [
      Field "resok4" (Ttypedef "RENAME4resok")] "RENAME4res_u"].

Definition RENEW4args : decl :=
  Struct "RENEW4args" [
    Field "clientid" (Ttypedef "clientid4")].

Definition RENEW4res : decl :=
  Struct "RENEW4res" [
    Field "status" (Ttypedef "nfsstat4")].

Definition RESTOREFH4res : decl :=
  Struct "RESTOREFH4res" [
    Field "status" (Ttypedef "nfsstat4")].

Definition SAVEFH4res : decl :=
  Struct "SAVEFH4res" [
    Field "status" (Ttypedef "nfsstat4")].

Definition SECINFO4args : decl :=
  Struct "SECINFO4args" [
    Field "name" (Ttypedef "component4")].

Definition rpc_gss_svc_t : decl :=
  Enum "rpc_gss_svc_t" [
    ("RPC_GSS_SVC_NONE", 1); ("RPC_GSS_SVC_INTEGRITY", 2); ("RPC_GSS_SVC_PRIVACY", 3)].

Definition rpcsec_gss_info : decl :=
  Struct "rpcsec_gss_info" [
    Field "oid" (Ttypedef "sec_oid4");
    Field "qop" (Ttypedef "qop4");
    Field "service" (Ttypedef "rpc_gss_svc_t")].

Definition secinfo4 : decl :=
  Struct "secinfo4" [
    Field "flavor" Tuint32;
    UnionField [
      Field "flavor_info" (Ttypedef "rpcsec_gss_info")] "secinfo4_u"].

Definition SECINFO4resok : decl :=
  Struct "SECINFO4resok" [
    Field "SECINFO4resok_len" Tuint32;
    Field "SECINFO4resok_val" (Tptr (Ttypedef "secinfo4"))].

Definition SECINFO4res : decl :=
  Struct "SECINFO4res" [
    Field "status" (Ttypedef "nfsstat4");
    UnionField [
      Field "resok4" (Ttypedef "SECINFO4resok")] "SECINFO4res_u"].

Definition SETATTR4args : decl :=
  Struct "SETATTR4args" [
    Field "stateid" (Ttypedef "stateid4");
    Field "obj_attributes" (Ttypedef "fattr4")].

Definition SETATTR4res : decl :=
  Struct "SETATTR4res" [
    Field "status" (Ttypedef "nfsstat4");
    Field "attrsset" (Ttypedef "bitmap4")].

Definition SETCLIENTID4args : decl :=
  Struct "SETCLIENTID4args" [
    Field "client" (Ttypedef "nfs_client_id4");
    Field "callback" (Ttypedef "cb_client4");
    Field "callback_ident" Tuint32].

Definition SETCLIENTID4resok : decl :=
  Struct "SETCLIENTID4resok" [
    Field "clientid" (Ttypedef "clientid4");
    Field "setclientid_confirm" (Ttypedef "verifier4")].

Definition SETCLIENTID4res : decl :=
  Struct "SETCLIENTID4res" [
    Field "status" (Ttypedef "nfsstat4");
    UnionField [
      Field "resok4" (Ttypedef "SETCLIENTID4resok");
      Field "client_using" (Ttypedef "clientaddr4")] "SETCLIENTID4res_u"].

Definition SETCLIENTID_CONFIRM4args : decl :=
  Struct "SETCLIENTID_CONFIRM4args" [
    Field "clientid" (Ttypedef "clientid4");
    Field "setclientid_confirm" (Ttypedef "verifier4")].

Definition SETCLIENTID_CONFIRM4res : decl :=
  Struct "SETCLIENTID_CONFIRM4res" [
    Field "status" (Ttypedef "nfsstat4")].

Definition VERIFY4args : decl :=
  Struct "VERIFY4args" [
    Field "obj_attributes" (Ttypedef "fattr4")].

Definition VERIFY4res : decl :=
  Struct "VERIFY4res" [
    Field "status" (Ttypedef "nfsstat4")].

Definition stable_how4 : decl :=
  Enum "stable_how4" [
    ("UNSTABLE4", 0); ("DATA_SYNC4", 1); ("FILE_SYNC4", 2)].

Definition WRITE4args : decl :=
  Struct "WRITE4args" [
    Field "stateid" (Ttypedef "stateid4");
    Field "offset" (Ttypedef "offset4");
    Field "stable" (Ttypedef "stable_how4");
    StructField [
      Field "data_len" Tuint32;
      Field "data_val" (Tptr Tchar)] "data"].

Definition WRITE4resok : decl :=
  Struct "WRITE4resok" [
    Field "count" (Ttypedef "count4");
    Field "committed" (Ttypedef "stable_how4");
    Field "writeverf" (Ttypedef "verifier4")].

Definition WRITE4res : decl :=
  Struct "WRITE4res" [
    Field "status" (Ttypedef "nfsstat4");
    UnionField [
      Field "resok4" (Ttypedef "WRITE4resok")] "WRITE4res_u"].

Definition RELEASE_LOCKOWNER4args : decl :=
  Struct "RELEASE_LOCKOWNER4args" [
    Field "lock_owner" (Ttypedef "lock_owner4")].

Definition RELEASE_LOCKOWNER4res : decl :=
  Struct "RELEASE_LOCKOWNER4res" [
    Field "status" (Ttypedef "nfsstat4")].

Definition gsshandle4_t : decl :=
  Struct "gsshandle4_t" [
    Field "gsshandle4_t_len" Tuint32;
    Field "gsshandle4_t_val" (Tptr Tchar)].

Definition callback_sec_parms4 : decl :=
  Struct "callback_sec_parms4" [
    Field "cb_secflavor" Tuint32;
    UnionField [
      Field "cbsp_sys_cred" (Ttypedef "authsys_parms")] "callback_sec_parms4_u"].

Definition channel_dir_from_client4 : decl :=
  Enum "channel_dir_from_client4" [
    ("CDFC4_FORE", 1); ("CDFC4_BACK", 2); ("CDFC4_FORE_OR_BOTH", 3); ("CDFC4_BACK_OR_BOTH", 7)].

Definition BIND_CONN_TO_SESSION4args : decl :=
  Struct "BIND_CONN_TO_SESSION4args" [
    Field "bctsa_sessid" (Ttypedef "sessionid4");
    Field "bctsa_dir" (Ttypedef "channel_dir_from_client4");
    Field "bctsa_use_conn_in_rdma_mode" Tuint32].

Definition channel_dir_from_server4 : decl :=
  Enum "channel_dir_from_server4" [
    ("CDFS4_FORE", 1); ("CDFS4_BACK", 2); ("CDFS4_BOTH", 3)].

Definition BIND_CONN_TO_SESSION4resok : decl :=
  Struct "BIND_CONN_TO_SESSION4resok" [
    Field "bctsr_sessid" (Ttypedef "sessionid4");
    Field "bctsr_dir" (Ttypedef "channel_dir_from_server4");
    Field "bctsr_use_conn_in_rdma_mode" Tuint32].

Definition BIND_CONN_TO_SESSION4res : decl :=
  Struct "BIND_CONN_TO_SESSION4res" [
    Field "bctsr_status" (Ttypedef "nfsstat4");
    UnionField [
      Field "bctsr_resok4" (Ttypedef "BIND_CONN_TO_SESSION4resok")] "BIND_CONN_TO_SESSION4res_u"].

Definition state_protect_ops4 : decl :=
  Struct "state_protect_ops4" [
    Field "spo_must_enforce" (Ttypedef "bitmap4");
    Field "spo_must_allow" (Ttypedef "bitmap4")].

Definition ssv_sp_parms4 : decl :=
  Struct "ssv_sp_parms4" [
    Field "ssp_ops" (Ttypedef "state_protect_ops4");
    StructField [
      Field "ssp_hash_algs_len" Tuint32;
      Field "ssp_hash_algs_val" (Tptr (Ttypedef "sec_oid4"))] "ssp_hash_algs";
    StructField [
      Field "ssp_encr_algs_len" Tuint32;
      Field "ssp_encr_algs_val" (Tptr (Ttypedef "sec_oid4"))] "ssp_encr_algs";
    Field "ssp_window" Tuint32;
    Field "ssp_num_gss_handles" Tuint32].

Definition state_protect_how4 : decl :=
  Enum "state_protect_how4" [
    ("SP4_NONE", 0); ("SP4_MACH_CRED", 1); ("SP4_SSV", 2)].

Definition state_protect4_a : decl :=
  Struct "state_protect4_a" [
    Field "spa_how" (Ttypedef "state_protect_how4");
    UnionField [
      Field "spa_mach_ops" (Ttypedef "state_protect_ops4");
      Field "spa_ssv_parms" (Ttypedef "ssv_sp_parms4")] "state_protect4_a_u"].

Definition EXCHANGE_ID4args : decl :=
  Struct "EXCHANGE_ID4args" [
    Field "eia_clientowner" (Ttypedef "client_owner4");
    Field "eia_flags" Tuint32;
    Field "eia_state_protect" (Ttypedef "state_protect4_a");
    StructField [
      Field "eia_client_impl_id_len" Tuint32;
      Field "eia_client_impl_id_val" (Tptr (Ttypedef "nfs_impl_id4"))] "eia_client_impl_id"].

Definition ssv_prot_info4 : decl :=
  Struct "ssv_prot_info4" [
    Field "spi_ops" (Ttypedef "state_protect_ops4");
    Field "spi_hash_alg" Tuint32;
    Field "spi_encr_alg" Tuint32;
    Field "spi_ssv_len" Tuint32;
    Field "spi_window" Tuint32;
    StructField [
      Field "spi_handles_len" Tuint32;
      Field "spi_handles_val" (Tptr (Ttypedef "gsshandle4_t"))] "spi_handles"].

Definition state_protect4_r : decl :=
  Struct "state_protect4_r" [
    Field "spr_how" (Ttypedef "state_protect_how4");
    UnionField [
      Field "spr_mach_ops" (Ttypedef "state_protect_ops4");
      Field "spr_ssv_info" (Ttypedef "ssv_prot_info4")] "state_protect4_r_u"].

Definition EXCHANGE_ID4resok : decl :=
  Struct "EXCHANGE_ID4resok" [
    Field "eir_clientid" (Ttypedef "clientid4");
    Field "eir_sequenceid" (Ttypedef "sequenceid4");
    Field "eir_flags" Tuint32;
    Field "eir_state_protect" (Ttypedef "state_protect4_r");
    Field "eir_server_owner" (Ttypedef "server_owner4");
    StructField [
      Field "eir_server_scope_len" Tuint32;
      Field "eir_server_scope_val" (Tptr Tchar)] "eir_server_scope";
    StructField [
      Field "eir_server_impl_id_len" Tuint32;
      Field "eir_server_impl_id_val" (Tptr (Ttypedef "nfs_impl_id4"))] "eir_server_impl_id"].

Definition EXCHANGE_ID4res : decl :=
  Struct "EXCHANGE_ID4res" [
    Field "eir_status" (Ttypedef "nfsstat4");
    UnionField [
      Field "eir_resok4" (Ttypedef "EXCHANGE_ID4resok")] "EXCHANGE_ID4res_u"].

Definition channel_attrs4 : decl :=
  Struct "channel_attrs4" [
    Field "ca_headerpadsize" (Ttypedef "count4");
    Field "ca_maxrequestsize" (Ttypedef "count4");
    Field "ca_maxresponsesize" (Ttypedef "count4");
    Field "ca_maxresponsesize_cached" (Ttypedef "count4");
    Field "ca_maxoperations" (Ttypedef "count4");
    Field "ca_maxrequests" (Ttypedef "count4");
    StructField [
      Field "ca_rdma_ird_len" Tuint32;
      Field "ca_rdma_ird_val" (Tptr Tuint32)] "ca_rdma_ird"].

Definition CREATE_SESSION4args : decl :=
  Struct "CREATE_SESSION4args" [
    Field "csa_clientid" (Ttypedef "clientid4");
    Field "csa_sequence" (Ttypedef "sequenceid4");
    Field "csa_flags" Tuint32;
    Field "csa_fore_chan_attrs" (Ttypedef "channel_attrs4");
    Field "csa_back_chan_attrs" (Ttypedef "channel_attrs4");
    Field "csa_cb_program" Tuint32;
    StructField [
      Field "csa_sec_parms_len" Tuint32;
      Field "csa_sec_parms_val" (Tptr (Ttypedef "callback_sec_parms4"))] "csa_sec_parms"].

Definition CREATE_SESSION4resok : decl :=
  Struct "CREATE_SESSION4resok" [
    Field "csr_sessionid" (Ttypedef "sessionid4");
    Field "csr_sequence" (Ttypedef "sequenceid4");
    Field "csr_flags" Tuint32;
    Field "csr_fore_chan_attrs" (Ttypedef "channel_attrs4");
    Field "csr_back_chan_attrs" (Ttypedef "channel_attrs4")].

Definition CREATE_SESSION4res : decl :=
  Struct "CREATE_SESSION4res" [
    Field "csr_status" (Ttypedef "nfsstat4");
    UnionField [
      Field "csr_resok4" (Ttypedef "CREATE_SESSION4resok")] "CREATE_SESSION4res_u"].

Definition DESTROY_SESSION4args : decl :=
  Struct "DESTROY_SESSION4args" [
    Field "dsa_sessionid" (Ttypedef "sessionid4")].

Definition DESTROY_SESSION4res : decl :=
  Struct "DESTROY_SESSION4res" [
    Field "dsr_status" (Ttypedef "nfsstat4")].

Definition FREE_STATEID4args : decl :=
  Struct "FREE_STATEID4args" [
    Field "fsa_stateid" (Ttypedef "stateid4")].

Definition FREE_STATEID4res : decl :=
  Struct "FREE_STATEID4res" [
    Field "fsr_status" (Ttypedef "nfsstat4")].

Definition attr_notice4 : decl := Typedef "attr_notice4" (Ttypedef "nfstime4").

Definition GET_DIR_DELEGATION4args : decl :=
  Struct "GET_DIR_DELEGATION4args" [
    Field "gdda_signal_deleg_avail" Tuint32;
    Field "gdda_notification_types" (Ttypedef "bitmap4");
    Field "gdda_child_attr_delay" (Ttypedef "attr_notice4");
    Field "gdda_dir_attr_delay" (Ttypedef "attr_notice4");
    Field "gdda_child_attributes" (Ttypedef "bitmap4");
    Field "gdda_dir_attributes" (Ttypedef "bitmap4")].

Definition GET_DIR_DELEGATION4resok : decl :=
  Struct "GET_DIR_DELEGATION4resok" [
    Field "gddr_cookieverf" (Ttypedef "verifier4");
    Field "gddr_stateid" (Ttypedef "stateid4");
    Field "gddr_notification" (Ttypedef "bitmap4");
    Field "gddr_child_attributes" (Ttypedef "bitmap4");
    Field "gddr_dir_attributes" (Ttypedef "bitmap4")].

Definition gddrnf4_status : decl :=
  Enum "gddrnf4_status" [
    ("GDD4_OK", 0); ("GDD4_UNAVAIL", 1)].

Definition GET_DIR_DELEGATION4res_non_fatal : decl :=
  Struct "GET_DIR_DELEGATION4res_non_fatal" [
    Field "gddrnf_status" (Ttypedef "gddrnf4_status");
    UnionField [
      Field "gddrnf_resok4" (Ttypedef "GET_DIR_DELEGATION4resok");
      Field "gddrnf_will_signal_deleg_avail" Tuint32] "GET_DIR_DELEGATION4res_non_fatal_u"].

Definition GET_DIR_DELEGATION4res : decl :=
  Struct "GET_DIR_DELEGATION4res" [
    Field "gddr_status" (Ttypedef "nfsstat4");
    UnionField [
      Field "gddr_res_non_fatal4" (Ttypedef "GET_DIR_DELEGATION4res_non_fatal")] "GET_DIR_DELEGATION4res_u"].

Definition GETDEVICEINFO4args : decl :=
  Struct "GETDEVICEINFO4args" [
    Field "gdia_device_id" (Ttypedef "deviceid4");
    Field "gdia_layout_type" (Ttypedef "layouttype4");
    Field "gdia_maxcount" (Ttypedef "count4");
    Field "gdia_notify_types" (Ttypedef "bitmap4")].

Definition GETDEVICEINFO4resok : decl :=
  Struct "GETDEVICEINFO4resok" [
    Field "gdir_device_addr" (Ttypedef "device_addr4");
    Field "gdir_notification" (Ttypedef "bitmap4")].

Definition GETDEVICEINFO4res : decl :=
  Struct "GETDEVICEINFO4res" [
    Field "gdir_status" (Ttypedef "nfsstat4");
    UnionField [
      Field "gdir_resok4" (Ttypedef "GETDEVICEINFO4resok");
      Field "gdir_mincount" (Ttypedef "count4")] "GETDEVICEINFO4res_u"].

Definition GETDEVICELIST4args : decl :=
  Struct "GETDEVICELIST4args" [
    Field "gdla_layout_type" (Ttypedef "layouttype4");
    Field "gdla_maxdevices" (Ttypedef "count4");
    Field "gdla_cookie" (Ttypedef "nfs_cookie4");
    Field "gdla_cookieverf" (Ttypedef "verifier4")].

Definition GETDEVICELIST4resok : decl :=
  Struct "GETDEVICELIST4resok" [
    Field "gdlr_cookie" (Ttypedef "nfs_cookie4");
    Field "gdlr_cookieverf" (Ttypedef "verifier4");
    StructField [
      Field "gdlr_deviceid_list_len" Tuint32;
      Field "gdlr_deviceid_list_val" (Tptr (Ttypedef "deviceid4"))] "gdlr_deviceid_list";
    Field "gdlr_eof" Tuint32].

Definition GETDEVICELIST4res : decl :=
  Struct "GETDEVICELIST4res" [
    Field "gdlr_status" (Ttypedef "nfsstat4");
    UnionField [
      Field "gdlr_resok4" (Ttypedef "GETDEVICELIST4resok")] "GETDEVICELIST4res_u"].

Definition newtime4 : decl :=
  Struct "newtime4" [
    Field "nt_timechanged" Tuint32;
    UnionField [
      Field "nt_time" (Ttypedef "nfstime4")] "newtime4_u"].

Definition newoffset4 : decl :=
  Struct "newoffset4" [
    Field "no_newoffset" Tuint32;
    UnionField [
      Field "no_offset" (Ttypedef "offset4")] "newoffset4_u"].

Definition LAYOUTCOMMIT4args : decl :=
  Struct "LAYOUTCOMMIT4args" [
    Field "loca_offset" (Ttypedef "offset4");
    Field "loca_length" (Ttypedef "length4");
    Field "loca_reclaim" Tuint32;
    Field "loca_stateid" (Ttypedef "stateid4");
    Field "loca_last_write_offset" (Ttypedef "newoffset4");
    Field "loca_time_modify" (Ttypedef "newtime4");
    Field "loca_layoutupdate" (Ttypedef "layoutupdate4")].

Definition newsize4 : decl :=
  Struct "newsize4" [
    Field "ns_sizechanged" Tuint32;
    UnionField [
      Field "ns_size" (Ttypedef "length4")] "newsize4_u"].

Definition LAYOUTCOMMIT4resok : decl :=
  Struct "LAYOUTCOMMIT4resok" [
    Field "locr_newsize" (Ttypedef "newsize4")].

Definition LAYOUTCOMMIT4res : decl :=
  Struct "LAYOUTCOMMIT4res" [
    Field "locr_status" (Ttypedef "nfsstat4");
    UnionField [
      Field "locr_resok4" (Ttypedef "LAYOUTCOMMIT4resok")] "LAYOUTCOMMIT4res_u"].

Definition LAYOUTGET4args : decl :=
  Struct "LAYOUTGET4args" [
    Field "loga_signal_layout_avail" Tuint32;
    Field "loga_layout_type" (Ttypedef "layouttype4");
    Field "loga_iomode" (Ttypedef "layoutiomode4");
    Field "loga_offset" (Ttypedef "offset4");
    Field "loga_length" (Ttypedef "length4");
    Field "loga_minlength" (Ttypedef "length4");
    Field "loga_stateid" (Ttypedef "stateid4");
    Field "loga_maxcount" (Ttypedef "count4")].

Definition LAYOUTGET4resok : decl :=
  Struct "LAYOUTGET4resok" [
    Field "logr_return_on_close" Tuint32;
    Field "logr_stateid" (Ttypedef "stateid4");
    StructField [
      Field "logr_layout_len" Tuint32;
      Field "logr_layout_val" (Tptr (Ttypedef "layout4"))] "logr_layout"].

Definition LAYOUTGET4res : decl :=
  Struct "LAYOUTGET4res" [
    Field "logr_status" (Ttypedef "nfsstat4");
    UnionField [
      Field "logr_resok4" (Ttypedef "LAYOUTGET4resok");
      Field "logr_will_signal_layout_avail" Tuint32] "LAYOUTGET4res_u"].

Definition layoutreturn_type4 : decl :=
  Enum "layoutreturn_type4" [
    ("LAYOUTRETURN4_FILE", LAYOUT4_RET_REC_FILE); ("LAYOUTRETURN4_FSID", LAYOUT4_RET_REC_FSID);
    ("LAYOUTRETURN4_ALL", LAYOUT4_RET_REC_ALL)].

Definition layoutreturn_file4 : decl :=
  Struct "layoutreturn_file4" [
    Field "lrf_offset" (Ttypedef "offset4");
    Field "lrf_length" (Ttypedef "length4");
    Field "lrf_stateid" (Ttypedef "stateid4");
    StructField [
      Field "lrf_body_len" Tuint32;
      Field "lrf_body_val" (Tptr Tchar)] "lrf_body"].

Definition layoutreturn4 : decl :=
  Struct "layoutreturn4" [
    Field "lr_returntype" (Ttypedef "layoutreturn_type4");
    UnionField [
      Field "lr_layout" (Ttypedef "layoutreturn_file4")] "layoutreturn4_u"].

Definition LAYOUTRETURN4args : decl :=
  Struct "LAYOUTRETURN4args" [
    Field "lora_reclaim" Tuint32;
    Field "lora_layout_type" (Ttypedef "layouttype4");
    Field "lora_iomode" (Ttypedef "layoutiomode4");
    Field "lora_layoutreturn" (Ttypedef "layoutreturn4")].

Definition layoutreturn_stateid : decl :=
  Struct "layoutreturn_stateid" [
    Field "lrs_present" Tuint32;
    UnionField [
      Field "lrs_stateid" (Ttypedef "stateid4")] "layoutreturn_stateid_u"].

Definition LAYOUTRETURN4res : decl :=
  Struct "LAYOUTRETURN4res" [
    Field "lorr_status" (Ttypedef "nfsstat4");
    UnionField [
      Field "lorr_stateid" (Ttypedef "layoutreturn_stateid")] "LAYOUTRETURN4res_u"].

Definition secinfo_style4 : decl :=
  Enum "secinfo_style4" [
    ("SECINFO_STYLE4_CURRENT_FH", 0); ("SECINFO_STYLE4_PARENT", 1)].

Definition SECINFO_NO_NAME4args : decl := Typedef "SECINFO_NO_NAME4args" (Ttypedef "secinfo_style4").

Definition SECINFO_NO_NAME4res : decl := Typedef "SECINFO_NO_NAME4res" (Ttypedef "SECINFO4res").

Definition SEQUENCE4args : decl :=
  Struct "SEQUENCE4args" [
    Field "sa_sessionid" (Ttypedef "sessionid4");
    Field "sa_sequenceid" (Ttypedef "sequenceid4");
    Field "sa_slotid" (Ttypedef "slotid4");
    Field "sa_highest_slotid" (Ttypedef "slotid4");
    Field "sa_cachethis" Tuint32].

Definition SEQUENCE4resok : decl :=
  Struct "SEQUENCE4resok" [
    Field "sr_sessionid" (Ttypedef "sessionid4");
    Field "sr_sequenceid" (Ttypedef "sequenceid4");
    Field "sr_slotid" (Ttypedef "slotid4");
    Field "sr_highest_slotid" (Ttypedef "slotid4");
    Field "sr_target_highest_slotid" (Ttypedef "slotid4");
    Field "sr_status_flags" Tuint32].

Definition SEQUENCE4res : decl :=
  Struct "SEQUENCE4res" [
    Field "sr_status" (Ttypedef "nfsstat4");
    UnionField [
      Field "sr_resok4" (Ttypedef "SEQUENCE4resok")] "SEQUENCE4res_u"].

Definition ssa_digest_input4 : decl :=
  Struct "ssa_digest_input4" [
    Field "sdi_seqargs" (Ttypedef "SEQUENCE4args")].

Definition SET_SSV4args : decl :=
  Struct "SET_SSV4args" [
    StructField [
      Field "ssa_ssv_len" Tuint32;
      Field "ssa_ssv_val" (Tptr Tchar)] "ssa_ssv";
    StructField [
      Field "ssa_digest_len" Tuint32;
      Field "ssa_digest_val" (Tptr Tchar)] "ssa_digest"].

Definition ssr_digest_input4 : decl :=
  Struct "ssr_digest_input4" [
    Field "sdi_seqres" (Ttypedef "SEQUENCE4res")].

Definition SET_SSV4resok : decl :=
  Struct "SET_SSV4resok" [
    StructField [
      Field "ssr_digest_len" Tuint32;
      Field "ssr_digest_val" (Tptr Tchar)] "ssr_digest"].

Definition SET_SSV4res : decl :=
  Struct "SET_SSV4res" [
    Field "ssr_status" (Ttypedef "nfsstat4");
    UnionField [
      Field "ssr_resok4" (Ttypedef "SET_SSV4resok")] "SET_SSV4res_u"].

Definition TEST_STATEID4args : decl :=
  Struct "TEST_STATEID4args" [
    StructField [
      Field "ts_stateids_len" Tuint32;
      Field "ts_stateids_val" (Tptr (Ttypedef "stateid4"))] "ts_stateids"].

Definition TEST_STATEID4resok : decl :=
  Struct "TEST_STATEID4resok" [
    StructField [
      Field "tsr_status_codes_len" Tuint32;
      Field "tsr_status_codes_val" (Tptr (Ttypedef "nfsstat4"))] "tsr_status_codes"].

Definition TEST_STATEID4res : decl :=
  Struct "TEST_STATEID4res" [
    Field "tsr_status" (Ttypedef "nfsstat4");
    UnionField [
      Field "tsr_resok4" (Ttypedef "TEST_STATEID4resok")] "TEST_STATEID4res_u"].

Definition deleg_claim4 : decl :=
  Struct "deleg_claim4" [
    Field "dc_claim" (Ttypedef "open_claim_type4");
    UnionField [
      Field "dc_delegate_type" (Ttypedef "open_delegation_type4")] "deleg_claim4_u"].

Definition WANT_DELEGATION4args : decl :=
  Struct "WANT_DELEGATION4args" [
    Field "wda_want" Tuint32;
    Field "wda_claim" (Ttypedef "deleg_claim4")].

Definition WANT_DELEGATION4res : decl :=
  Struct "WANT_DELEGATION4res" [
    Field "wdr_status" (Ttypedef "nfsstat4");
    UnionField [
      Field "wdr_resok4" (Ttypedef "open_delegation4")] "WANT_DELEGATION4res_u"].

Definition DESTROY_CLIENTID4args : decl :=
  Struct "DESTROY_CLIENTID4args" [
    Field "dca_clientid" (Ttypedef "clientid4")].

Definition DESTROY_CLIENTID4res : decl :=
  Struct "DESTROY_CLIENTID4res" [
    Field "dcr_status" (Ttypedef "nfsstat4")].

Definition RECLAIM_COMPLETE4args : decl :=
  Struct "RECLAIM_COMPLETE4args" [
    Field "rca_one_fs" Tuint32].

Definition RECLAIM_COMPLETE4res : decl :=
  Struct "RECLAIM_COMPLETE4res" [
    Field "rcr_status" (Ttypedef "nfsstat4")].

Definition ILLEGAL4res : decl :=
  Struct "ILLEGAL4res" [
    Field "status" (Ttypedef "nfsstat4")].

Definition nfs_opnum4 : decl :=
  Enum "nfs_opnum4" [
    ("OP_ACCESS", 3); ("OP_CLOSE", 4); ("OP_COMMIT", 5); ("OP_CREATE", 6); ("OP_DELEGPURGE", 7);
    ("OP_DELEGRETURN", 8); ("OP_GETATTR", 9); ("OP_GETFH", 10); ("OP_LINK", 11); ("OP_LOCK", 12);
    ("OP_LOCKT", 13); ("OP_LOCKU", 14); ("OP_LOOKUP", 15); ("OP_LOOKUPP", 16); ("OP_NVERIFY", 17);
    ("OP_OPEN", 18); ("OP_OPENATTR", 19); ("OP_OPEN_CONFIRM", 20); ("OP_OPEN_DOWNGRADE", 21);
    ("OP_PUTFH", 22); ("OP_PUTPUBFH", 23); ("OP_PUTROOTFH", 24); ("OP_READ", 25); ("OP_READDIR", 26);
    ("OP_READLINK", 27); ("OP_REMOVE", 28); ("OP_RENAME", 29); ("OP_RENEW", 30); ("OP_RESTOREFH", 31);
    ("OP_SAVEFH", 32); ("OP_SECINFO", 33); ("OP_SETATTR", 34); ("OP_SETCLIENTID", 35);
    ("OP_SETCLIENTID_CONFIRM", 36); ("OP_VERIFY", 37); ("OP_WRITE", 38); ("OP_RELEASE_LOCKOWNER", 39);
    ("OP_BIND_CONN_TO_SESSION", 41); ("OP_EXCHANGE_ID", 42); ("OP_CREATE_SESSION", 43);
    ("OP_DESTROY_SESSION", 44); ("OP_FREE_STATEID", 45); ("OP_GET_DIR_DELEGATION", 46);
    ("OP_GETDEVICEINFO", 47); ("OP_GETDEVICELIST", 48); ("OP_LAYOUTCOMMIT", 49); ("OP_LAYOUTGET", 50);
    ("OP_LAYOUTRETURN", 51); ("OP_SECINFO_NO_NAME", 52); ("OP_SEQUENCE", 53); ("OP_SET_SSV", 54);
    ("OP_TEST_STATEID", 55); ("OP_WANT_DELEGATION", 56); ("OP_DESTROY_CLIENTID", 57);
    ("OP_RECLAIM_COMPLETE", 58); ("OP_ILLEGAL", 10044)].

Definition nfs_argop4 : decl :=
  Struct "nfs_argop4" [
    Field "argop" (Ttypedef "nfs_opnum4");
    UnionField [
      Field "opaccess" (Ttypedef "ACCESS4args");
      Field "opclose" (Ttypedef "CLOSE4args");
      Field "opcommit" (Ttypedef "COMMIT4args");
      Field "opcreate" (Ttypedef "CREATE4args");
      Field "opdelegpurge" (Ttypedef "DELEGPURGE4args");
      Field "opdelegreturn" (Ttypedef "DELEGRETURN4args");
      Field "opgetattr" (Ttypedef "GETATTR4args");
      Field "oplink" (Ttypedef "LINK4args");
      Field "oplock" (Ttypedef "LOCK4args");
      Field "oplockt" (Ttypedef "LOCKT4args");
      Field "oplocku" (Ttypedef "LOCKU4args");
      Field "oplookup" (Ttypedef "LOOKUP4args");
      Field "opnverify" (Ttypedef "NVERIFY4args");
      Field "opopen" (Ttypedef "OPEN4args");
      Field "opopenattr" (Ttypedef "OPENATTR4args");
      Field "opopen_confirm" (Ttypedef "OPEN_CONFIRM4args");
      Field "opopen_downgrade" (Ttypedef "OPEN_DOWNGRADE4args");
      Field "opputfh" (Ttypedef "PUTFH4args");
      Field "opread" (Ttypedef "READ4args");
      Field "opreaddir" (Ttypedef "READDIR4args");
      Field "opremove" (Ttypedef "REMOVE4args");
      Field "oprename" (Ttypedef "RENAME4args");
      Field "oprenew" (Ttypedef "RENEW4args");
      Field "opsecinfo" (Ttypedef "SECINFO4args");
      Field "opsetattr" (Ttypedef "SETATTR4args");
      Field "opsetclientid" (Ttypedef "SETCLIENTID4args");
      Field "opsetclientid_confirm" (Ttypedef "SETCLIENTID_CONFIRM4args");
      Field "opverify" (Ttypedef "VERIFY4args");
      Field "opwrite" (Ttypedef "WRITE4args");
      Field "oprelease_lockowner" (Ttypedef "RELEASE_LOCKOWNER4args");
      Field "opbindconntosession" (Ttypedef "BIND_CONN_TO_SESSION4args");
      Field "opexchangeid" (Ttypedef "EXCHANGE_ID4args");
      Field "opcreatesession" (Ttypedef "CREATE_SESSION4args");
      Field "opdestroysession" (Ttypedef "DESTROY_SESSION4args");
      Field "opfreestateid" (Ttypedef "FREE_STATEID4args");
      Field "opgetdirdelegation" (Ttypedef "GET_DIR_DELEGATION4args");
      Field "opgetdeviceinfo" (Ttypedef "GETDEVICEINFO4args");
      Field "opgetdevicelist" (Ttypedef "GETDEVICELIST4args");
      Field "oplayoutcommit" (Ttypedef "LAYOUTCOMMIT4args");
      Field "oplayoutget" (Ttypedef "LAYOUTGET4args");
      Field "oplayoutreturn" (Ttypedef "LAYOUTRETURN4args");
      Field "opsecinfononame" (Ttypedef "SECINFO_NO_NAME4args");
      Field "opsequence" (Ttypedef "SEQUENCE4args");
      Field "opsetssv" (Ttypedef "SET_SSV4args");
      Field "opteststateid" (Ttypedef "TEST_STATEID4args");
      Field "opwantdelegation" (Ttypedef "WANT_DELEGATION4args");
      Field "opdestroyclientid" (Ttypedef "DESTROY_CLIENTID4args");
      Field "opreclaimcomplete" (Ttypedef "RECLAIM_COMPLETE4args")] "nfs_argop4_u"].

Definition nfs_resop4 : decl :=
  Struct "nfs_resop4" [
    Field "resop" (Ttypedef "nfs_opnum4");
    UnionField [
      Field "opaccess" (Ttypedef "ACCESS4res");
      Field "opclose" (Ttypedef "CLOSE4res");
      Field "opcommit" (Ttypedef "COMMIT4res");
      Field "opcreate" (Ttypedef "CREATE4res");
      Field "opdelegpurge" (Ttypedef "DELEGPURGE4res");
      Field "opdelegreturn" (Ttypedef "DELEGRETURN4res");
      Field "opgetattr" (Ttypedef "GETATTR4res");
      Field "opgetfh" (Ttypedef "GETFH4res");
      Field "oplink" (Ttypedef "LINK4res");
      Field "oplock" (Ttypedef "LOCK4res");
      Field "oplockt" (Ttypedef "LOCKT4res");
      Field "oplocku" (Ttypedef "LOCKU4res");
      Field "oplookup" (Ttypedef "LOOKUP4res");
      Field "oplookupp" (Ttypedef "LOOKUPP4res");
      Field "opnverify" (Ttypedef "NVERIFY4res");
      Field "opopen" (Ttypedef "OPEN4res");
      Field "opopenattr" (Ttypedef "OPENATTR4res");
      Field "opopen_confirm" (Ttypedef "OPEN_CONFIRM4res");
      Field "opopen_downgrade" (Ttypedef "OPEN_DOWNGRADE4res");
      Field "opputfh" (Ttypedef "PUTFH4res");
      Field "opputpubfh" (Ttypedef "PUTPUBFH4res");
      Field "opputrootfh" (Ttypedef "PUTROOTFH4res");
      Field "opread" (Ttypedef "READ4res");
      Field "opreaddir" (Ttypedef "READDIR4res");
      Field "opreadlink" (Ttypedef "READLINK4res");
      Field "opremove" (Ttypedef "REMOVE4res");
      Field "oprename" (Ttypedef "RENAME4res");
      Field "oprenew" (Ttypedef "RENEW4res");
      Field "oprestorefh" (Ttypedef "RESTOREFH4res");
      Field "opsavefh" (Ttypedef "SAVEFH4res");
      Field "opsecinfo" (Ttypedef "SECINFO4res");
      Field "opsetattr" (Ttypedef "SETATTR4res");
      Field "opsetclientid" (Ttypedef "SETCLIENTID4res");
      Field "opsetclientid_confirm" (Ttypedef "SETCLIENTID_CONFIRM4res");
      Field "opverify" (Ttypedef "VERIFY4res");
      Field "opwrite" (Ttypedef "WRITE4res");
      Field "oprelease_lockowner" (Ttypedef "RELEASE_LOCKOWNER4res");
      Field "opbindconntosession" (Ttypedef "BIND_CONN_TO_SESSION4res");
      Field "opexchangeid" (Ttypedef "EXCHANGE_ID4res");
      Field "opcreatesession" (Ttypedef "CREATE_SESSION4res");
      Field "opdestroysession" (Ttypedef "DESTROY_SESSION4res");
      Field "opfreestateid" (Ttypedef "FREE_STATEID4res");
      Field "opgetdirdelegation" (Ttypedef "GET_DIR_DELEGATION4res");
      Field "opgetdeviceinfo" (Ttypedef "GETDEVICEINFO4res");
      Field "opgetdevicelist" (Ttypedef "GETDEVICELIST4res");
      Field "oplayoutcommit" (Ttypedef "LAYOUTCOMMIT4res");
      Field "oplayoutget" (Ttypedef "LAYOUTGET4res");
      Field "oplayoutreturn" (Ttypedef "LAYOUTRETURN4res");
      Field "opsecinfononame" (Ttypedef "SECINFO_NO_NAME4res");
      Field "opsequence" (Ttypedef "SEQUENCE4res");
      Field "opsetssv" (Ttypedef "SET_SSV4res");
      Field "opteststateid" (Ttypedef "TEST_STATEID4res");
      Field "opwantdelegation" (Ttypedef "WANT_DELEGATION4res");
      Field "opdestroyclientid" (Ttypedef "DESTROY_CLIENTID4res");
      Field "opreclaimcomplete" (Ttypedef "RECLAIM_COMPLETE4res");
      Field "opillegal" (Ttypedef "ILLEGAL4res")] "nfs_resop4_u"].

Definition COMPOUND4args : decl :=
  Struct "COMPOUND4args" [
    Field "tag" (Ttypedef "utf8str_cs");
    Field "minorversion" Tuint32;
    StructField [
      Field "argarray_len" Tuint32;
      Field "argarray_val" (Tptr (Ttypedef "nfs_argop4"))] "argarray"].

Definition COMPOUND4res : decl :=
  Struct "COMPOUND4res" [
    Field "status" (Ttypedef "nfsstat4");
    Field "tag" (Ttypedef "utf8str_cs");
    StructField [
      Field "resarray_len" Tuint32;
      Field "resarray_val" (Tptr (Ttypedef "nfs_resop4"))] "resarray"].

Definition CB_GETATTR4args : decl :=
  Struct "CB_GETATTR4args" [
    Field "fh" (Ttypedef "nfs_fh4");
    Field "attr_request" (Ttypedef "bitmap4")].

Definition CB_GETATTR4resok : decl :=
  Struct "CB_GETATTR4resok" [
    Field "obj_attributes" (Ttypedef "fattr4")].

Definition CB_GETATTR4res : decl :=
  Struct "CB_GETATTR4res" [
    Field "status" (Ttypedef "nfsstat4");
    UnionField [
      Field "resok4" (Ttypedef "CB_GETATTR4resok")] "CB_GETATTR4res_u"].

Definition CB_RECALL4args : decl :=
  Struct "CB_RECALL4args" [
    Field "stateid" (Ttypedef "stateid4");
    Field "truncate" Tuint32;
    Field "fh" (Ttypedef "nfs_fh4")].

Definition CB_RECALL4res : decl :=
  Struct "CB_RECALL4res" [
    Field "status" (Ttypedef "nfsstat4")].

Definition CB_ILLEGAL4res : decl :=
  Struct "CB_ILLEGAL4res" [
    Field "status" (Ttypedef "nfsstat4")].

Definition nfs_cb_opnum4 : decl :=
  Enum "nfs_cb_opnum4" [
    ("OP_CB_GETATTR", 3); ("OP_CB_RECALL", 4); ("OP_CB_ILLEGAL", 10044)].

Definition nfs_cb_argop4 : decl :=
  Struct "nfs_cb_argop4" [
    Field "argop" Tuint32;
    UnionField [
      Field "opcbgetattr" (Ttypedef "CB_GETATTR4args");
      Field "opcbrecall" (Ttypedef "CB_RECALL4args")] "nfs_cb_argop4_u"].

Definition nfs_cb_resop4 : decl :=
  Struct "nfs_cb_resop4" [
    Field "resop" Tuint32;
    UnionField [
      Field "opcbgetattr" (Ttypedef "CB_GETATTR4res");
      Field "opcbrecall" (Ttypedef "CB_RECALL4res");
      Field "opcbillegal" (Ttypedef "CB_ILLEGAL4res")] "nfs_cb_resop4_u"].

Definition CB_COMPOUND4args : decl :=
  Struct "CB_COMPOUND4args" [
    Field "tag" (Ttypedef "utf8str_cs");
    Field "minorversion" Tuint32;
    Field "callback_ident" Tuint32;
    StructField [
      Field "argarray_len" Tuint32;
      Field "argarray_val" (Tptr (Ttypedef "nfs_cb_argop4"))] "argarray"].

Definition CB_COMPOUND4res : decl :=
  Struct "CB_COMPOUND4res" [
    Field "status" (Ttypedef "nfsstat4");
    Field "tag" (Ttypedef "utf8str_cs");
    StructField [
      Field "resarray_len" Tuint32;
      Field "resarray_val" (Tptr (Ttypedef "nfs_cb_resop4"))] "resarray"].

Definition rpc_gss_proc_t : decl :=
  Enum "rpc_gss_proc_t" [
    ("RPCSEC_GSS_DATA", 0); ("RPCSEC_GSS_INIT", 1); ("RPCSEC_GSS_CONTINUE_INIT", 2);
    ("RPCSEC_GSS_DESTROY", 3)].

Definition rpc_gss_cred_vers_1_t : decl :=
  Struct "rpc_gss_cred_vers_1_t" [
    Field "gss_proc" (Ttypedef "rpc_gss_proc_t");
    Field "seq_num" Tuint32;
    Field "service" (Ttypedef "rpc_gss_svc_t");
    StructField [
      Field "handle_len" Tuint32;
      Field "handle_val" (Tptr Tchar)] "handle"].

Definition rpc_gss_cred_t : decl :=
  Struct "rpc_gss_cred_t" [
    Field "vers" Tuint32;
    UnionField [
      Field "rpc_gss_cred_vers_1_t" (Ttypedef "rpc_gss_cred_vers_1_t")] "rpc_gss_cred_t_u"].

Definition rpc_gss_init_arg : decl :=
  Struct "rpc_gss_init_arg" [
    StructField [
      Field "gss_token_len" Tuint32;
      Field "gss_token_val" (Tptr Tchar)] "gss_token"].

Definition rpc_gss_init_res : decl :=
  Struct "rpc_gss_init_res" [
    StructField [
      Field "handle_len" Tuint32;
      Field "handle_val" (Tptr Tchar)] "handle";
    Field "gss_major" Tuint32;
    Field "gss_minor" Tuint32;
    Field "seq_window" Tuint32;
    StructField [
      Field "gss_token_len" Tuint32;
      Field "gss_token_val" (Tptr Tchar)] "gss_token"].

Definition rpc_gss_integ_data : decl :=
  Struct "rpc_gss_integ_data" [
    StructField [
      Field "databody_integ_len" Tuint32;
      Field "databody_integ_val" (Tptr Tchar)] "databody_integ";
    StructField [
      Field "checksum_len" Tuint32;
      Field "checksum_val" (Tptr Tchar)] "checksum"].

Definition nfs4_codecs_1 : list codec := [
  mkCodec "nfs_ftype4" (Tptr (Ttypedef "nfs_ftype4")); mkCodec "nfsstat4" (Tptr (Ttypedef "nfsstat4"));
  mkCodec "bitmap4" (Tptr (Ttypedef "bitmap4")); mkCodec "offset4" (Tptr (Ttypedef "offset4"));
  mkCodec "count4" (Tptr (Ttypedef "count4")); mkCodec "length4" (Tptr (Ttypedef "length4"));
  mkCodec "clientid4" (Tptr (Ttypedef "clientid4")); mkCodec "sequenceid4" (Tptr (Ttypedef "sequenceid4"));
  mkCodec "seqid4" (Tptr (Ttypedef "seqid4")); mkCodec "slotid4" (Tptr (Ttypedef "slotid4"));
  mkCodec "utf8string" (Tptr (Ttypedef "utf8string"));
  mkCodec "utf8str_cis" (Tptr (Ttypedef "utf8str_cis"));
  mkCodec "utf8str_cs" (Tptr (Ttypedef "utf8str_cs"));
  mkCodec "utf8str_mixed" (Tptr (Ttypedef "utf8str_mixed"));
  mkCodec "component4" (Tptr (Ttypedef "component4")); mkCodec "pathname4" (Tptr (Ttypedef "pathname4"));
  mkCodec "nfs_lockid4" (Tptr (Ttypedef "nfs_lockid4"));
  mkCodec "nfs_cookie4" (Tptr (Ttypedef "nfs_cookie4")); mkCodec "linktext4" (Tptr (Ttypedef "linktext4"));
  mkCodec "sec_oid4" (Tptr (Ttypedef "sec_oid4")); mkCodec "qop4" (Tptr (Ttypedef "qop4"));
  mkCodec "mode4" (Tptr (Ttypedef "mode4")); mkCodec "changeid4" (Tptr (Ttypedef "changeid4"));
  mkCodec "verifier4" (Ttypedef "verifier4"); mkCodec "sessionid4" (Ttypedef "sessionid4");
  mkCodec "authsys_parms" (Tptr (Ttypedef "authsys_parms")); mkCodec "deviceid4" (Ttypedef "deviceid4");
  mkCodec "layouttype4" (Tptr (Ttypedef "layouttype4"));
  mkCodec "layoutupdate4" (Tptr (Ttypedef "layoutupdate4"));
  mkCodec "device_addr4" (Tptr (Ttypedef "device_addr4")); mkCodec "nfstime4" (Tptr (Ttypedef "nfstime4"));
  mkCodec "time_how4" (Tptr (Ttypedef "time_how4"));
  mkCodec "layoutiomode4" (Tptr (Ttypedef "layoutiomode4"));
  mkCodec "layout_content4" (Tptr (Ttypedef "layout_content4"));
  mkCodec "layout4" (Tptr (Ttypedef "layout4")); mkCodec "settime4" (Tptr (Ttypedef "settime4"));
  mkCodec "nfs_fh4" (Tptr (Ttypedef "nfs_fh4")); mkCodec "fsid4" (Tptr (Ttypedef "fsid4"));
  mkCodec "fs_location4" (Tptr (Ttypedef "fs_location4"));
  mkCodec "fs_locations4" (Tptr (Ttypedef "fs_locations4"));
  mkCodec "acetype4" (Tptr (Ttypedef "acetype4")); mkCodec "aceflag4" (Tptr (Ttypedef "aceflag4"));
  mkCodec "acemask4" (Tptr (Ttypedef "acemask4")); mkCodec "nfsace4" (Tptr (Ttypedef "nfsace4"));
  mkCodec "specdata4" (Tptr (Ttypedef "specdata4"));
  mkCodec "fattr4_supported_attrs" (Tptr (Ttypedef "fattr4_supported_attrs"));
  mkCodec "fattr4_type" (Tptr (Ttypedef "fattr4_type"));
  mkCodec "fattr4_fh_expire_type" (Tptr (Ttypedef "fattr4_fh_expire_type"));
  mkCodec "fattr4_change" (Tptr (Ttypedef "fattr4_change"));
  mkCodec "fattr4_size" (Tptr (Ttypedef "fattr4_size"));
  mkCodec "fattr4_link_support" (Tptr (Ttypedef "fattr4_link_support"));
  mkCodec "fattr4_symlink_support" (Tptr (Ttypedef "fattr4_symlink_support"));
  mkCodec "fattr4_named_attr" (Tptr (Ttypedef "fattr4_named_attr"));
  mkCodec "fattr4_fsid" (Tptr (Ttypedef "fattr4_fsid"));
  mkCodec "fattr4_unique_handles" (Tptr (Ttypedef "fattr4_unique_handles"));
  mkCodec "fattr4_lease_time" (Tptr (Ttypedef "fattr4_lease_time"));
  mkCodec "fattr4_rdattr_error" (Tptr (Ttypedef "fattr4_rdattr_error"));
  mkCodec "fattr4_acl" (Tptr (Ttypedef "fattr4_acl"));
  mkCodec "fattr4_aclsupport" (Tptr (Ttypedef "fattr4_aclsupport"));
  mkCodec "fattr4_archive" (Tptr (Ttypedef "fattr4_archive"));
  mkCodec "fattr4_cansettime" (Tptr (Ttypedef "fattr4_cansettime"));
  mkCodec "fattr4_case_insensitive" (Tptr (Ttypedef "fattr4_case_insensitive"));
  mkCodec "fattr4_case_preserving" (Tptr (Ttypedef "fattr4_case_preserving"));
  mkCodec "fattr4_chown_restricted" (Tptr (Ttypedef "fattr4_chown_restricted"));
  mkCodec "fattr4_fileid" (Tptr (Ttypedef "fattr4_fileid"));
  mkCodec "fattr4_files_avail" (Tptr (Ttypedef "fattr4_files_avail"));
  mkCodec "fattr4_filehandle" (Tptr (Ttypedef "fattr4_filehandle"));
  mkCodec "fattr4_files_free" (Tptr (Ttypedef "fattr4_files_free"));
  mkCodec "fattr4_files_total" (Tptr (Ttypedef "fattr4_files_total"));
  mkCodec "fattr4_fs_locations" (Tptr (Ttypedef "fattr4_fs_locations"));
  mkCodec "fattr4_hidden" (Tptr (Ttypedef "fattr4_hidden"));
  mkCodec "fattr4_homogeneous" (Tptr (Ttypedef "fattr4_homogeneous"));
  mkCodec "fattr4_maxfilesize" (Tptr (Ttypedef "fattr4_maxfilesize"));
  mkCodec "fattr4_maxlink" (Tptr (Ttypedef "fattr4_maxlink"));
  mkCodec "fattr4_maxname" (Tptr (Ttypedef "fattr4_maxname"));
  mkCodec "fattr4_maxread" (Tptr (Ttypedef "fattr4_maxread"));
  mkCodec "fattr4_maxwrite" (Tptr (Ttypedef "fattr4_maxwrite"));
  mkCodec "fattr4_mimetype" (Tptr (Ttypedef "fattr4_mimetype"));
  mkCodec "fattr4_mode" (Tptr (Ttypedef "fattr4_mode"));
  mkCodec "fattr4_mounted_on_fileid" (Tptr (Ttypedef "fattr4_mounted_on_fileid"));
  mkCodec "fattr4_no_trunc" (Tptr (Ttypedef "fattr4_no_trunc"));
  mkCodec "fattr4_numlinks" (Tptr (Ttypedef "fattr4_numlinks"));
  mkCodec "fattr4_owner" (Tptr (Ttypedef "fattr4_owner"));
  mkCodec "fattr4_owner_group" (Tptr (Ttypedef "fattr4_owner_group"));
  mkCodec "fattr4_quota_avail_hard" (Tptr (Ttypedef "fattr4_quota_avail_hard"));
  mkCodec "fattr4_quota_avail_soft" (Tptr (Ttypedef "fattr4_quota_avail_soft"));
  mkCodec "fattr4_quota_used" (Tptr (Ttypedef "fattr4_quota_used"));
  mkCodec "fattr4_rawdev" (Tptr (Ttypedef "fattr4_rawdev"));
  mkCodec "fattr4_space_avail" (Tptr (Ttypedef "fattr4_space_avail"));
  mkCodec "fattr4_space_free" (Tptr (Ttypedef "fattr4_space_free"));
  mkCodec "fattr4_space_total" (Tptr (Ttypedef "fattr4_space_total"));
  mkCodec "fattr4_space_used" (Tptr (Ttypedef "fattr4_space_used"));
  mkCodec "fattr4_system" (Tptr (Ttypedef "fattr4_system"));
  mkCodec "fattr4_time_access" (Tptr (Ttypedef "fattr4_time_access"));
  mkCodec "fattr4_time_access_set" (Tptr (Ttypedef "fattr4_time_access_set"));
  mkCodec "fattr4_time_backup" (Tptr (Ttypedef "fattr4_time_backup"));
  mkCodec "fattr4_time_create" (Tptr (Ttypedef "fattr4_time_create"));
  mkCodec "fattr4_time_delta" (Tptr (Ttypedef "fattr4_time_delta"));
  mkCodec "fattr4_time_metadata" (Tptr (Ttypedef "fattr4_time_metadata"));
  mkCodec "fattr4_time_modify" (Tptr (Ttypedef "fattr4_time_modify"))].

Definition nfs4_codecs_2 : list codec := [
  mkCodec "fattr4_time_modify_set" (Tptr (Ttypedef "fattr4_time_modify_set"));
  mkCodec "attrlist4" (Tptr (Ttypedef "attrlist4")); mkCodec "fattr4" (Tptr (Ttypedef "fattr4"));
  mkCodec "change_info4" (Tptr (Ttypedef "change_info4"));
  mkCodec "clientaddr4" (Tptr (Ttypedef "clientaddr4"));
  mkCodec "cb_client4" (Tptr (Ttypedef "cb_client4")); mkCodec "stateid4" (Tptr (Ttypedef "stateid4"));
  mkCodec "nfs_client_id4" (Tptr (Ttypedef "nfs_client_id4"));
  mkCodec "open_owner4" (Tptr (Ttypedef "open_owner4"));
  mkCodec "lock_owner4" (Tptr (Ttypedef "lock_owner4"));
  mkCodec "nfs_lock_type4" (Tptr (Ttypedef "nfs_lock_type4"));
  mkCodec "client_owner4" (Tptr (Ttypedef "client_owner4"));
  mkCodec "server_owner4" (Tptr (Ttypedef "server_owner4"));
  mkCodec "nfs_impl_id4" (Tptr (Ttypedef "nfs_impl_id4"));
  mkCodec "ACCESS4args" (Tptr (Ttypedef "ACCESS4args"));
  mkCodec "ACCESS4resok" (Tptr (Ttypedef "ACCESS4resok"));
  mkCodec "ACCESS4res" (Tptr (Ttypedef "ACCESS4res")); mkCodec "CLOSE4args" (Tptr (Ttypedef "CLOSE4args"));
  mkCodec "CLOSE4res" (Tptr (Ttypedef "CLOSE4res")); mkCodec "COMMIT4args" (Tptr (Ttypedef "COMMIT4args"));
  mkCodec "COMMIT4resok" (Tptr (Ttypedef "COMMIT4resok"));
  mkCodec "COMMIT4res" (Tptr (Ttypedef "COMMIT4res"));
  mkCodec "createtype4" (Tptr (Ttypedef "createtype4"));
  mkCodec "CREATE4args" (Tptr (Ttypedef "CREATE4args"));
  mkCodec "CREATE4resok" (Tptr (Ttypedef "CREATE4resok"));
  mkCodec "CREATE4res" (Tptr (Ttypedef "CREATE4res"));
  mkCodec "DELEGPURGE4args" (Tptr (Ttypedef "DELEGPURGE4args"));
  mkCodec "DELEGPURGE4res" (Tptr (Ttypedef "DELEGPURGE4res"));
  mkCodec "DELEGRETURN4args" (Tptr (Ttypedef "DELEGRETURN4args"));
  mkCodec "DELEGRETURN4res" (Tptr (Ttypedef "DELEGRETURN4res"));
  mkCodec "GETATTR4args" (Tptr (Ttypedef "GETATTR4args"));
  mkCodec "GETATTR4resok" (Tptr (Ttypedef "GETATTR4resok"));
  mkCodec "GETATTR4res" (Tptr (Ttypedef "GETATTR4res"));
  mkCodec "GETFH4resok" (Tptr (Ttypedef "GETFH4resok")); mkCodec "GETFH4res" (Tptr (Ttypedef "GETFH4res"));
  mkCodec "LINK4args" (Tptr (Ttypedef "LINK4args")); mkCodec "LINK4resok" (Tptr (Ttypedef "LINK4resok"));
  mkCodec "LINK4res" (Tptr (Ttypedef "LINK4res"));
  mkCodec "open_to_lock_owner4" (Tptr (Ttypedef "open_to_lock_owner4"));
  mkCodec "exist_lock_owner4" (Tptr (Ttypedef "exist_lock_owner4"));
  mkCodec "locker4" (Tptr (Ttypedef "locker4")); mkCodec "LOCK4args" (Tptr (Ttypedef "LOCK4args"));
  mkCodec "LOCK4denied" (Tptr (Ttypedef "LOCK4denied"));
  mkCodec "LOCK4resok" (Tptr (Ttypedef "LOCK4resok")); mkCodec "LOCK4res" (Tptr (Ttypedef "LOCK4res"));
  mkCodec "LOCKT4args" (Tptr (Ttypedef "LOCKT4args")); mkCodec "LOCKT4res" (Tptr (Ttypedef "LOCKT4res"));
  mkCodec "LOCKU4args" (Tptr (Ttypedef "LOCKU4args")); mkCodec "LOCKU4res" (Tptr (Ttypedef "LOCKU4res"));
  mkCodec "LOOKUP4args" (Tptr (Ttypedef "LOOKUP4args"));
  mkCodec "LOOKUP4res" (Tptr (Ttypedef "LOOKUP4res"));
  mkCodec "LOOKUPP4res" (Tptr (Ttypedef "LOOKUPP4res"));
  mkCodec "NVERIFY4args" (Tptr (Ttypedef "NVERIFY4args"));
  mkCodec "NVERIFY4res" (Tptr (Ttypedef "NVERIFY4res"));
  mkCodec "createmode4" (Tptr (Ttypedef "createmode4"));
  mkCodec "createhow4" (Tptr (Ttypedef "createhow4")); mkCodec "opentype4" (Tptr (Ttypedef "opentype4"));
  mkCodec "openflag4" (Tptr (Ttypedef "openflag4")); mkCodec "limit_by4" (Tptr (Ttypedef "limit_by4"));
  mkCodec "nfs_modified_limit4" (Tptr (Ttypedef "nfs_modified_limit4"));
  mkCodec "nfs_space_limit4" (Tptr (Ttypedef "nfs_space_limit4"));
  mkCodec "open_delegation_type4" (Tptr (Ttypedef "open_delegation_type4"));
  mkCodec "open_claim_type4" (Tptr (Ttypedef "open_claim_type4"));
  mkCodec "open_claim_delegate_cur4" (Tptr (Ttypedef "open_claim_delegate_cur4"));
  mkCodec "open_claim4" (Tptr (Ttypedef "open_claim4")); mkCodec "OPEN4args" (Tptr (Ttypedef "OPEN4args"));
  mkCodec "open_read_delegation4" (Tptr (Ttypedef "open_read_delegation4"));
  mkCodec "open_write_delegation4" (Tptr (Ttypedef "open_write_delegation4"));
  mkCodec "open_delegation4" (Tptr (Ttypedef "open_delegation4"));
  mkCodec "OPEN4resok" (Tptr (Ttypedef "OPEN4resok")); mkCodec "OPEN4res" (Tptr (Ttypedef "OPEN4res"));
  mkCodec "OPENATTR4args" (Tptr (Ttypedef "OPENATTR4args"));
  mkCodec "OPENATTR4res" (Tptr (Ttypedef "OPENATTR4res"));
  mkCodec "OPEN_CONFIRM4args" (Tptr (Ttypedef "OPEN_CONFIRM4args"));
  mkCodec "OPEN_CONFIRM4resok" (Tptr (Ttypedef "OPEN_CONFIRM4resok"));
  mkCodec "OPEN_CONFIRM4res" (Tptr (Ttypedef "OPEN_CONFIRM4res"));
  mkCodec "OPEN_DOWNGRADE4args" (Tptr (Ttypedef "OPEN_DOWNGRADE4args"));
  mkCodec "OPEN_DOWNGRADE4resok" (Tptr (Ttypedef "OPEN_DOWNGRADE4resok"));
  mkCodec "OPEN_DOWNGRADE4res" (Tptr (Ttypedef "OPEN_DOWNGRADE4res"));
  mkCodec "PUTFH4args" (Tptr (Ttypedef "PUTFH4args")); mkCodec "PUTFH4res" (Tptr (Ttypedef "PUTFH4res"));
  mkCodec "PUTPUBFH4res" (Tptr (Ttypedef "PUTPUBFH4res"));
  mkCodec "PUTROOTFH4res" (Tptr (Ttypedef "PUTROOTFH4res"));
  mkCodec "READ4args" (Tptr (Ttypedef "READ4args")); mkCodec "READ4resok" (Tptr (Ttypedef "READ4resok"));
  mkCodec "READ4res" (Tptr (Ttypedef "READ4res")); mkCodec "READDIR4args" (Tptr (Ttypedef "READDIR4args"));
  mkCodec "entry4" (Tptr (Ttypedef "entry4")); mkCodec "dirlist4" (Tptr (Ttypedef "dirlist4"));
  mkCodec "READDIR4resok" (Tptr (Ttypedef "READDIR4resok"));
  mkCodec "READDIR4res" (Tptr (Ttypedef "READDIR4res"));
  mkCodec "READLINK4resok" (Tptr (Ttypedef "READLINK4resok"));
  mkCodec "READLINK4res" (Tptr (Ttypedef "READLINK4res"));
  mkCodec "REMOVE4args" (Tptr (Ttypedef "REMOVE4args"));
  mkCodec "REMOVE4resok" (Tptr (Ttypedef "REMOVE4resok"));
  mkCodec "REMOVE4res" (Tptr (Ttypedef "REMOVE4res"));
  mkCodec "RENAME4args" (Tptr (Ttypedef "RENAME4args"));
  mkCodec "RENAME4resok" (Tptr (Ttypedef "RENAME4resok"));
  mkCodec "RENAME4res" (Tptr (Ttypedef "RENAME4res")); mkCodec "RENEW4args" (Tptr (Ttypedef "RENEW4args"))].

Definition nfs4_codecs_3 : list codec := [
  mkCodec "RENEW4res" (Tptr (Ttypedef "RENEW4res"));
  mkCodec "RESTOREFH4res" (Tptr (Ttypedef "RESTOREFH4res"));
  mkCodec "SAVEFH4res" (Tptr (Ttypedef "SAVEFH4res"));
  mkCodec "SECINFO4args" (Tptr (Ttypedef "SECINFO4args"));
  mkCodec "rpc_gss_svc_t" (Tptr (Ttypedef "rpc_gss_svc_t"));
  mkCodec "rpcsec_gss_info" (Tptr (Ttypedef "rpcsec_gss_info"));
  mkCodec "secinfo4" (Tptr (Ttypedef "secinfo4"));
  mkCodec "SECINFO4resok" (Tptr (Ttypedef "SECINFO4resok"));
  mkCodec "SECINFO4res" (Tptr (Ttypedef "SECINFO4res"));
  mkCodec "SETATTR4args" (Tptr (Ttypedef "SETATTR4args"));
  mkCodec "SETATTR4res" (Tptr (Ttypedef "SETATTR4res"));
  mkCodec "SETCLIENTID4args" (Tptr (Ttypedef "SETCLIENTID4args"));
  mkCodec "SETCLIENTID4resok" (Tptr (Ttypedef "SETCLIENTID4resok"));
  mkCodec "SETCLIENTID4res" (Tptr (Ttypedef "SETCLIENTID4res"));
  mkCodec "SETCLIENTID_CONFIRM4args" (Tptr (Ttypedef "SETCLIENTID_CONFIRM4args"));
  mkCodec "SETCLIENTID_CONFIRM4res" (Tptr (Ttypedef "SETCLIENTID_CONFIRM4res"));
  mkCodec "VERIFY4args" (Tptr (Ttypedef "VERIFY4args"));
  mkCodec "VERIFY4res" (Tptr (Ttypedef "VERIFY4res"));
  mkCodec "stable_how4" (Tptr (Ttypedef "stable_how4"));
  mkCodec "WRITE4args" (Tptr (Ttypedef "WRITE4args"));
  mkCodec "WRITE4resok" (Tptr (Ttypedef "WRITE4resok")); mkCodec "WRITE4res" (Tptr (Ttypedef "WRITE4res"));
  mkCodec "RELEASE_LOCKOWNER4args" (Tptr (Ttypedef "RELEASE_LOCKOWNER4args"));
  mkCodec "RELEASE_LOCKOWNER4res" (Tptr (Ttypedef "RELEASE_LOCKOWNER4res"));
  mkCodec "gsshandle4_t" (Tptr (Ttypedef "gsshandle4_t"));
  mkCodec "callback_sec_parms4" (Tptr (Ttypedef "callback_sec_parms4"));
  mkCodec "channel_dir_from_client4" (Tptr (Ttypedef "channel_dir_from_client4"));
  mkCodec "BIND_CONN_TO_SESSION4args" (Tptr (Ttypedef "BIND_CONN_TO_SESSION4args"));
  mkCodec "channel_dir_from_server4" (Tptr (Ttypedef "channel_dir_from_server4"));
  mkCodec "BIND_CONN_TO_SESSION4resok" (Tptr (Ttypedef "BIND_CONN_TO_SESSION4resok"));
  mkCodec "BIND_CONN_TO_SESSION4res" (Tptr (Ttypedef "BIND_CONN_TO_SESSION4res"));
  mkCodec "state_protect_ops4" (Tptr (Ttypedef "state_protect_ops4"));
  mkCodec "ssv_sp_parms4" (Tptr (Ttypedef "ssv_sp_parms4"));
  mkCodec "state_protect_how4" (Tptr (Ttypedef "state_protect_how4"));
  mkCodec "state_protect4_a" (Tptr (Ttypedef "state_protect4_a"));
  mkCodec "EXCHANGE_ID4args" (Tptr (Ttypedef "EXCHANGE_ID4args"));
  mkCodec "ssv_prot_info4" (Tptr (Ttypedef "ssv_prot_info4"));
  mkCodec "state_protect4_r" (Tptr (Ttypedef "state_protect4_r"));
  mkCodec "EXCHANGE_ID4resok" (Tptr (Ttypedef "EXCHANGE_ID4resok"));
  mkCodec "EXCHANGE_ID4res" (Tptr (Ttypedef "EXCHANGE_ID4res"));
  mkCodec "channel_attrs4" (Tptr (Ttypedef "channel_attrs4"));
  mkCodec "CREATE_SESSION4args" (Tptr (Ttypedef "CREATE_SESSION4args"));
  mkCodec "CREATE_SESSION4resok" (Tptr (Ttypedef "CREATE_SESSION4resok"));
  mkCodec "CREATE_SESSION4res" (Tptr (Ttypedef "CREATE_SESSION4res"));
  mkCodec "DESTROY_SESSION4args" (Tptr (Ttypedef "DESTROY_SESSION4args"));
  mkCodec "DESTROY_SESSION4res" (Tptr (Ttypedef "DESTROY_SESSION4res"));
  mkCodec "FREE_STATEID4args" (Tptr (Ttypedef "FREE_STATEID4args"));
  mkCodec "FREE_STATEID4res" (Tptr (Ttypedef "FREE_STATEID4res"));
  mkCodec "attr_notice4" (Tptr (Ttypedef "attr_notice4"));
  mkCodec "GET_DIR_DELEGATION4args" (Tptr (Ttypedef "GET_DIR_DELEGATION4args"));
  mkCodec "GET_DIR_DELEGATION4resok" (Tptr (Ttypedef "GET_DIR_DELEGATION4resok"));
  mkCodec "gddrnf4_status" (Tptr (Ttypedef "gddrnf4_status"));
  mkCodec "GET_DIR_DELEGATION4res_non_fatal" (Tptr (Ttypedef "GET_DIR_DELEGATION4res_non_fatal"));
  mkCodec "GET_DIR_DELEGATION4res" (Tptr (Ttypedef "GET_DIR_DELEGATION4res"));
  mkCodec "GETDEVICEINFO4args" (Tptr (Ttypedef "GETDEVICEINFO4args"));
  mkCodec "GETDEVICEINFO4resok" (Tptr (Ttypedef "GETDEVICEINFO4resok"));
  mkCodec "GETDEVICEINFO4res" (Tptr (Ttypedef "GETDEVICEINFO4res"));
  mkCodec "GETDEVICELIST4args" (Tptr (Ttypedef "GETDEVICELIST4args"));
  mkCodec "GETDEVICELIST4resok" (Tptr (Ttypedef "GETDEVICELIST4resok"));
  mkCodec "GETDEVICELIST4res" (Tptr (Ttypedef "GETDEVICELIST4res"));
  mkCodec "newtime4" (Tptr (Ttypedef "newtime4")); mkCodec "newoffset4" (Tptr (Ttypedef "newoffset4"));
  mkCodec "LAYOUTCOMMIT4args" (Tptr (Ttypedef "LAYOUTCOMMIT4args"));
  mkCodec "newsize4" (Tptr (Ttypedef "newsize4"));
  mkCodec "LAYOUTCOMMIT4resok" (Tptr (Ttypedef "LAYOUTCOMMIT4resok"));
  mkCodec "LAYOUTCOMMIT4res" (Tptr (Ttypedef "LAYOUTCOMMIT4res"));
  mkCodec "LAYOUTGET4args" (Tptr (Ttypedef "LAYOUTGET4args"));
  mkCodec "LAYOUTGET4resok" (Tptr (Ttypedef "LAYOUTGET4resok"));
  mkCodec "LAYOUTGET4res" (Tptr (Ttypedef "LAYOUTGET4res"));
  mkCodec "layoutreturn_type4" (Tptr (Ttypedef "layoutreturn_type4"));
  mkCodec "layoutreturn_file4" (Tptr (Ttypedef "layoutreturn_file4"));
  mkCodec "layoutreturn4" (Tptr (Ttypedef "layoutreturn4"));
  mkCodec "LAYOUTRETURN4args" (Tptr (Ttypedef "LAYOUTRETURN4args"));
  mkCodec "layoutreturn_stateid" (Tptr (Ttypedef "layoutreturn_stateid"));
  mkCodec "LAYOUTRETURN4res" (Tptr (Ttypedef "LAYOUTRETURN4res"));
  mkCodec "secinfo_style4" (Tptr (Ttypedef "secinfo_style4"));
  mkCodec "SECINFO_NO_NAME4args" (Tptr (Ttypedef "SECINFO_NO_NAME4args"));
  mkCodec "SECINFO_NO_NAME4res" (Tptr (Ttypedef "SECINFO_NO_NAME4res"));
  mkCodec "SEQUENCE4args" (Tptr (Ttypedef "SEQUENCE4args"));
  mkCodec "SEQUENCE4resok" (Tptr (Ttypedef "SEQUENCE4resok"));
  mkCodec "SEQUENCE4res" (Tptr (Ttypedef "SEQUENCE4res"));
  mkCodec "ssa_digest_input4" (Tptr (Ttypedef "ssa_digest_input4"));
  mkCodec "SET_SSV4args" (Tptr (Ttypedef "SET_SSV4args"));
  mkCodec "ssr_digest_input4" (Tptr (Ttypedef "ssr_digest_input4"));
  mkCodec "SET_SSV4resok" (Tptr (Ttypedef "SET_SSV4resok"));
  mkCodec "SET_SSV4res" (Tptr (Ttypedef "SET_SSV4res"));
  mkCodec "TEST_STATEID4args" (Tptr (Ttypedef "TEST_STATEID4args"));
  mkCodec "TEST_STATEID4resok" (Tptr (Ttypedef "TEST_STATEID4resok"));
  mkCodec "TEST_STATEID4res" (Tptr (Ttypedef "TEST_STATEID4res"));
  mkCodec "deleg_claim4" (Tptr (Ttypedef "deleg_claim4"));
  mkCodec "WANT_DELEGATION4args" (Tptr (Ttypedef "WANT_DELEGATION4args"));
  mkCodec "WANT_DELEGATION4res" (Tptr (Ttypedef "WANT_DELEGATION4res"));
  mkCodec "DESTROY_CLIENTID4args" (Tptr (Ttypedef "DESTROY_CLIENTID4args"));
  mkCodec "DESTROY_CLIENTID4res" (Tptr (Ttypedef "DESTROY_CLIENTID4res"));
  mkCodec "RECLAIM_COMPLETE4args" (Tptr (Ttypedef "RECLAIM_COMPLETE4args"));
  mkCodec "RECLAIM_COMPLETE4res" (Tptr (Ttypedef "RECLAIM_COMPLETE4res"));
  mkCodec "ILLEGAL4res" (Tptr (Ttypedef "ILLEGAL4res"));
  mkCodec "nfs_opnum4" (Tptr (Ttypedef "nfs_opnum4")); mkCodec "nfs_argop4" (Tptr (Ttypedef "nfs_argop4"));
  mkCodec "nfs_resop4" (Tptr (Ttypedef "nfs_resop4"))].

Definition nfs4_codecs_4 : list codec := [
  mkCodec "COMPOUND4args" (Tptr (Ttypedef "COMPOUND4args"));
  mkCodec "COMPOUND4res" (Tptr (Ttypedef "COMPOUND4res"));
  mkCodec "CB_GETATTR4args" (Tptr (Ttypedef "CB_GETATTR4args"));
  mkCodec "CB_GETATTR4resok" (Tptr (Ttypedef "CB_GETATTR4resok"));
  mkCodec "CB_GETATTR4res" (Tptr (Ttypedef "CB_GETATTR4res"));
  mkCodec "CB_RECALL4args" (Tptr (Ttypedef "CB_RECALL4args"));
  mkCodec "CB_RECALL4res" (Tptr (Ttypedef "CB_RECALL4res"));
  mkCodec "CB_ILLEGAL4res" (Tptr (Ttypedef "CB_ILLEGAL4res"));
  mkCodec "nfs_cb_opnum4" (Tptr (Ttypedef "nfs_cb_opnum4"));
  mkCodec "nfs_cb_argop4" (Tptr (Ttypedef "nfs_cb_argop4"));
  mkCodec "nfs_cb_resop4" (Tptr (Ttypedef "nfs_cb_resop4"));
  mkCodec "CB_COMPOUND4args" (Tptr (Ttypedef "CB_COMPOUND4args"));
  mkCodec "CB_COMPOUND4res" (Tptr (Ttypedef "CB_COMPOUND4res"));
  mkCodec "rpc_gss_proc_t" (Tptr (Ttypedef "rpc_gss_proc_t"));
  mkCodec "rpc_gss_cred_vers_1_t" (Tptr (Ttypedef "rpc_gss_cred_vers_1_t"));
  mkCodec "rpc_gss_cred_t" (Tptr (Ttypedef "rpc_gss_cred_t"));
  mkCodec "rpc_gss_init_arg" (Tptr (Ttypedef "rpc_gss_init_arg"));
  mkCodec "rpc_gss_init_res" (Tptr (Ttypedef "rpc_gss_init_res"));
  mkCodec "rpc_gss_integ_data" (Tptr (Ttypedef "rpc_gss_integ_data"))].

Definition nfs4_h : header :=
  mkHeader "libnfs-raw-nfs4.h" [
    nfs_ftype4; nfsstat4; bitmap4; offset4; count4; length4; clientid4; sequenceid4; seqid4; slotid4;
    utf8string; utf8str_cis; utf8str_cs; utf8str_mixed; component4; pathname4; nfs_lockid4; nfs_cookie4;
    linktext4; sec_oid4; qop4; mode4; changeid4; verifier4; sessionid4; authsys_parms; deviceid4;
    layouttype4; layoutupdate4; device_addr4; nfstime4; time_how4; layoutiomode4; layout_content4; layout4;
    settime4; nfs_fh4; fsid4; fs_location4; fs_locations4; acetype4; aceflag4; acemask4; nfsace4; specdata4;
    fattr4_supported_attrs; fattr4_type; fattr4_fh_expire_type; fattr4_change; fattr4_size;
    fattr4_link_support; fattr4_symlink_support; fattr4_named_attr; fattr4_fsid; fattr4_unique_handles;
    fattr4_lease_time; fattr4_rdattr_error; fattr4_acl; fattr4_aclsupport; fattr4_archive;
    fattr4_cansettime; fattr4_case_insensitive; fattr4_case_preserving; fattr4_chown_restricted;
    fattr4_fileid; fattr4_files_avail; fattr4_filehandle; fattr4_files_free; fattr4_files_total;
    fattr4_fs_locations; fattr4_hidden; fattr4_homogeneous; fattr4_maxfilesize; fattr4_maxlink;
    fattr4_maxname; fattr4_maxread; fattr4_maxwrite; fattr4_mimetype; fattr4_mode; fattr4_mounted_on_fileid;
    fattr4_no_trunc; fattr4_numlinks; fattr4_owner; fattr4_owner_group; fattr4_quota_avail_hard;
    fattr4_quota_avail_soft; fattr4_quota_used; fattr4_rawdev; fattr4_space_avail; fattr4_space_free;
    fattr4_space_total; fattr4_space_used; fattr4_system; fattr4_time_access; fattr4_time_access_set;
    fattr4_time_backup; fattr4_time_create; fattr4_time_delta; fattr4_time_metadata; fattr4_time_modify;
    fattr4_time_modify_set; attrlist4; fattr4; change_info4; clientaddr4; cb_client4; stateid4;
    nfs_client_id4; open_owner4; lock_owner4; nfs_lock_type4; client_owner4; server_owner4; nfs_impl_id4;
    ACCESS4args; ACCESS4resok; ACCESS4res; CLOSE4args; CLOSE4res; COMMIT4args; COMMIT4resok; COMMIT4res;
    createtype4; CREATE4args; CREATE4resok; CREATE4res; DELEGPURGE4args; DELEGPURGE4res; DELEGRETURN4args;
    DELEGRETURN4res; GETATTR4args; GETATTR4resok; GETATTR4res; GETFH4resok; GETFH4res; LINK4args;
    LINK4resok; LINK4res; open_to_lock_owner4; exist_lock_owner4; locker4; LOCK4args; LOCK4denied;
    LOCK4resok; LOCK4res; LOCKT4args; LOCKT4res; LOCKU4args; LOCKU4res; LOOKUP4args; LOOKUP4res;
    LOOKUPP4res; NVERIFY4args; NVERIFY4res; createmode4; createhow4; opentype4; openflag4; limit_by4;
    nfs_modified_limit4; nfs_space_limit4; open_delegation_type4; open_claim_type4;
    open_claim_delegate_cur4; open_claim4; OPEN4args; open_read_delegation4; open_write_delegation4;
    open_delegation4; OPEN4resok; OPEN4res; OPENATTR4args; OPENATTR4res; OPEN_CONFIRM4args;
    OPEN_CONFIRM4resok; OPEN_CONFIRM4res; OPEN_DOWNGRADE4args; OPEN_DOWNGRADE4resok; OPEN_DOWNGRADE4res;
    PUTFH4args; PUTFH4res; PUTPUBFH4res; PUTROOTFH4res; READ4args; READ4resok; READ4res; READDIR4args;
    entry4; dirlist4; READDIR4resok; READDIR4res; READLINK4resok; READLINK4res; REMOVE4args; REMOVE4resok;
    REMOVE4res; RENAME4args; RENAME4resok; RENAME4res; RENEW4args; RENEW4res; RESTOREFH4res; SAVEFH4res;
    SECINFO4args; rpc_gss_svc_t; rpcsec_gss_info; secinfo4; SECINFO4resok; SECINFO4res; SETATTR4args;
    SETATTR4res; SETCLIENTID4args; SETCLIENTID4resok; SETCLIENTID4res; SETCLIENTID_CONFIRM4args;
    SETCLIENTID_CONFIRM4res; VERIFY4args; VERIFY4res; stable_how4; WRITE4args; WRITE4resok; WRITE4res;
    RELEASE_LOCKOWNER4args; RELEASE_LOCKOWNER4res; gsshandle4_t; callback_sec_parms4;
    channel_dir_from_client4; BIND_CONN_TO_SESSION4args; channel_dir_from_server4;
    BIND_CONN_TO_SESSION4resok; BIND_CONN_TO_SESSION4res; state_protect_ops4; ssv_sp_parms4;
    state_protect_how4; state_protect4_a; EXCHANGE_ID4args; ssv_prot_info4; state_protect4_r;
    EXCHANGE_ID4resok; EXCHANGE_ID4res; channel_attrs4; CREATE_SESSION4args; CREATE_SESSION4resok;
    CREATE_SESSION4res; DESTROY_SESSION4args; DESTROY_SESSION4res; FREE_STATEID4args; FREE_STATEID4res;
    attr_notice4; GET_DIR_DELEGATION4args; GET_DIR_DELEGATION4resok; gddrnf4_status;
    GET_DIR_DELEGATION4res_non_fatal; GET_DIR_DELEGATION4res; GETDEVICEINFO4args; GETDEVICEINFO4resok;
    GETDEVICEINFO4res; GETDEVICELIST4args; GETDEVICELIST4resok; GETDEVICELIST4res; newtime4; newoffset4;
    LAYOUTCOMMIT4args; newsize4; LAYOUTCOMMIT4resok; LAYOUTCOMMIT4res; LAYOUTGET4args; LAYOUTGET4resok;
    LAYOUTGET4res; layoutreturn_type4; layoutreturn_file4; layoutreturn4; LAYOUTRETURN4args;
    layoutreturn_stateid; LAYOUTRETURN4res; secinfo_style4; SECINFO_NO_NAME4args; SECINFO_NO_NAME4res;
    SEQUENCE4args; SEQUENCE4resok; SEQUENCE4res; ssa_digest_input4; SET_SSV4args; ssr_digest_input4;
    SET_SSV4resok; SET_SSV4res; TEST_STATEID4args; TEST_STATEID4resok; TEST_STATEID4res; deleg_claim4;
    WANT_DELEGATION4args; WANT_DELEGATION4res; DESTROY_CLIENTID4args; DESTROY_CLIENTID4res;
    RECLAIM_COMPLETE4args; RECLAIM_COMPLETE4res; ILLEGAL4res; nfs_opnum4; nfs_argop4; nfs_resop4;
    COMPOUND4args; COMPOUND4res; CB_GETATTR4args; CB_GETATTR4resok; CB_GETATTR4res; CB_RECALL4args;
    CB_RECALL4res; CB_ILLEGAL4res; nfs_cb_opnum4; nfs_cb_argop4; nfs_cb_resop4; CB_COMPOUND4args;
    CB_COMPOUND4res; rpc_gss_proc_t; rpc_gss_cred_vers_1_t; rpc_gss_cred_t; rpc_gss_init_arg;
    rpc_gss_init_res; rpc_gss_integ_data]
    (nfs4_codecs_1 ++ nfs4_codecs_2 ++ nfs4_codecs_3 ++ nfs4_codecs_4).

(** ** Access control lists

    The client functions at the end of the header. *)

Definition nfs4_getacl_async : api_fn :=
  mkApi "nfs4_getacl_async" Tint
    [("nfs", Tptr (Tstruct "nfs_context")); ("nfsfh", Tptr (Tstruct "nfsfh"));
     ("cb", Ttypedef "nfs_cb"); ("private_data", Tptr Tvoid)]
    (DocAsync StatusZero (Points (Ttypedef "fattr4_acl"))).

Definition nfs4_getacl : api_fn :=
  mkApi "nfs4_getacl" Tint
    [("nfs", Tptr (Tstruct "nfs_context")); ("nfsfh", Tptr (Tstruct "nfsfh"));
     ("nfs4acl", Tptr (Ttypedef "fattr4_acl"))]
    (DocSync StatusZero).

Definition nfs4_acl_free : api_fn :=
  mkApi "nfs4_acl_free" Tvoid [("nfs4acl", Tptr (Ttypedef "fattr4_acl"))] DocPlain.

End Nfs4Wire.
