(* ===== verification/WireProps.v ===== *)
(** * The rpcgen headers as a whole

    What the declarations of Zdr, NfsWire and Nfs4Wire promise together: they can be
    read by a C compiler and lay out every structure soundly; their enumerations
    can be decoded; every procedure of RpcProcs has codecs for what it sends and
    receives; and the two unions of an NFS 4 compound follow its operation codes. *)

From stdpp Require Import base gmap strings numbers list.
From S2P Require Import Prelude CType RpcProcs Extensions WireTypes Zdr NfsWire Nfs4Wire.
Import Wire Zdr NfsWire Nfs4Wire Procs.

Open Scope string_scope.
Open Scope list_scope.
Open Scope Z_scope.

Module WireProps.

(** The headers, each of which includes nfsc/libnfs-zdr.h. *)
Definition wire_headers : list header :=
  [portmap_h; mount_h; nfs_h; nlm_h; nsm_h; rquota_h; nfs4_h].

(** Reads one of them after the header it includes. *)
Definition read_header (h : header) : option env := declare ∅ (zdr_decls ++ header_decls h).

(** ** Layout *)

Lemma headers_readable : Forall (fun h => is_Some (read_header h)) wire_headers.
Proof. apply (bool_decide_unpack _). vm_compute. exact I. Qed.

(** Each of the wire headers declares every type before it uses it by value
    and no name twice, and each structure it declares, unions and nested structures
    included, has its members at increasing, aligned offsets that do not
    overlap and stay inside its size, so that arrays of it are aligned too. *)
Theorem wire_layouts_sound h : h ∈ wire_headers ->
  exists Γ, read_header h = Some Γ /\
  forall tag ms, Struct tag ms ∈ zdr_decls ++ header_decls h ->
  exists ps l, struct_layout Γ ms = Some (ps, l) /\ sound ps l.
Proof.
  intros Hin. destruct (proj1 (Forall_forall _ _) headers_readable h Hin) as [Γ E].
  exists Γ. split; [exact E|]. intros tag ms. apply (declare_struct ∅ _ Γ); [|exact E].
  apply map_Forall_empty.
Qed.

(** The list of exports that [getexports] walks: [ex_dir] comes first, [ex_next] last. *)
Example exportnode_layout :
  (Γ ← read_header mount_h;
   struct_layout Γ [Field "ex_dir" (Ttypedef "dirpath"); Field "ex_groups" (Ttypedef "groups");
                    Field "ex_next" (Ttypedef "exports")])
  = Some ([mkPlace "ex_dir" 0 8 8; mkPlace "ex_groups" 8 8 8; mkPlace "ex_next" 16 8 8], (24, 8)).
Proof. vm_compute. reflexivity. Qed.

Lemma wire_layouts_sound_witness : exists Γ, read_header mount_h = Some Γ /\
  exists ps l, struct_layout Γ [Field "ex_dir" (Ttypedef "dirpath"); Field "ex_groups" (Ttypedef "groups");
                                Field "ex_next" (Ttypedef "exports")] = Some (ps, l) /\ sound ps l.
Proof.
  destruct (wire_layouts_sound mount_h) as (Γ & E & H); [right; left|].
  exists Γ. split; [exact E|]. apply (H "exportnode").
  apply elem_of_app. right. refine (proj2 (list_elem_of_In (header_decls mount_h) exportnode) _). cbn. auto 20.
Defined.

(** ** Enumerations *)

Definition enums (ds : list decl) : list (string * list (string * Z)) :=
  omap (fun d => match d with Enum tag vs => Some (tag, vs) | _ => None end) ds.

(** The constant that a value on the wire stands for. *)
Definition constant_of (vs : list (string * Z)) (v : Z) : option string :=
  fst <$> List.find (fun p => p.2 =? v) vs.

Definition value_of (vs : list (string * Z)) (n : string) : option Z :=
  snd <$> List.find (fun p => bool_decide (p.1 = n)) vs.

(** An enumeration is decoded without ambiguity, from 31 bits. *)
Definition enum_decodes (vs : list (string * Z)) : Prop :=
  Forall (fun p => constant_of vs p.2 = Some p.1 /\ value_of vs p.1 = Some p.2 /\ 0 <= p.2 < 2 ^ 31) vs.

(** Every enumeration of the headers decodes the value of each of its constants
    to that constant and the other way round. *)
Theorem wire_enums_decode :
  Forall (fun e => enum_decodes e.2) (enums zdr_decls ++ flat_map (fun h => enums (header_decls h)) wire_headers).
Proof. unfold enum_decodes. apply (bool_decide_unpack _). vm_compute. exact I. Qed.

(** The file types that the client compares directory entries with are the
    values of the protocol. *)
Example entry_types :
  match ftype3 with
  | Enum _ vs => map (constant_of vs) [Ext.NF3REG; Ext.NF3DIR; Ext.NF3LNK]
                 = [Some "NF3REG"; Some "NF3DIR"; Some "NF3LNK"]
  | _ => False
  end.
Proof. reflexivity. Qed.

(** ** Codecs *)

Definition all_codecs : list codec := flat_map header_codecs wire_headers.

(** What a codec of [t] takes: a pointer to it, or, for an array type, the array itself,
    which C passes as a pointer. *)
Definition codec_takes (ds : list decl) (n : string) : list ctype :=
  if existsb (fun d => match d with ArrayTypedef n' _ _ => bool_decide (n = n') | _ => false end) ds
  then [Ttypedef n] else [Tptr (Ttypedef n)].

(** The codec of a type: [zdr_<name>], or one of the marshalling library for the base
    types that procedures use. *)
Definition codec_of (t : ctype) : option string :=
  match t with
  | Tuint32 => Some (fn_name libnfs_zdr_u_int)
  | Tptr Tchar => Some (fn_name libnfs_zdr_string)
  | Ttypedef n | Tstruct n =>
      c ← List.find (fun c => bool_decide (codec_name c = n) &&
                       bool_decide (codec_arg c ∈ codec_takes (flat_map header_decls wire_headers) n)) all_codecs;
      Some ("zdr_" +:+ codec_name c)%string
  | _ => None
  end.

Definition codec_of_payload (p : payload) : option string :=
  match p with
  | Null => Some (fn_name libnfs_zdr_void)
  | Points t => codec_of t
  | Unspecified => None
  end.

(** For every remote procedure that the headers declare there is a codec for
    its arguments and one for its result, of exactly the types that the procedure's
    stubs have. *)
Theorem procedures_coded p : p ∈ procedures ->
  is_Some (codec_of_payload (rp_args p)) /\ is_Some (codec_of_payload (rp_result p)).
Proof.
  revert p. apply (proj1 (Forall_forall _ _)). apply (bool_decide_unpack _). vm_compute. exact I.
Qed.

Lemma procedures_coded_witness :
  codec_of_payload (rp_args NFS3_READ) = Some "zdr_READ3args" /\
  is_Some (codec_of_payload (rp_result NFS3_READ)).
Proof.
  split; [vm_compute; reflexivity|]. apply (procedures_coded NFS3_READ).
  apply list_elem_of_In, (List.find_some (fun p => bool_decide (rp_macro p = "NFS3_READ"))).
  vm_compute. reflexivity.
Defined.

(** The types of the headers have one codec each, and the codecs are those of the
    types, up to two: [fattr3_acl] is never sent, and [NLM4_UNSHAREargs] has a codec
    although there is no such type. *)
Theorem codecs_complete :
  map decl_name (flat_map header_decls wire_headers)
    ≡ₚ "fattr3_acl" :: filter (fun n => n <> "NLM4_UNSHAREargs") (map codec_name all_codecs).
Proof. apply (bool_decide_unpack _). vm_compute. exact I. Qed.

(** ** Compounds *)

(** The arms of the union that ends a structure: their names and types. *)
Definition arms (d : decl) : list (string * ctype) :=
  match d with
  | Struct _ [_; UnionField ms _] => omap (fun m => match m with Field n t => Some (n, t) | _ => None end) ms
  | _ => []
  end.

Definition operations (d : decl) : list string := match d with Enum _ vs => map fst vs | _ => [] end.

(** [OP_READ] without its prefix. *)
Definition operation_stem (op : string) : string := String.substring 3 (String.length op - 3) op.

(** The operations that carry no arguments. *)
Definition no_arguments : list string :=
  ["OP_GETFH"; "OP_LOOKUPP"; "OP_PUTPUBFH"; "OP_PUTROOTFH"; "OP_READLINK"; "OP_RESTOREFH"; "OP_SAVEFH";
   "OP_ILLEGAL"; "OP_CB_ILLEGAL"].

Definition args_type (op : string) : ctype := Ttypedef (operation_stem op +:+ "4args").

Definition result_type (op : string) : ctype := Ttypedef (operation_stem op +:+ "4res").

(** The unions of a compound's operations and results follow the operation codes:
    the results have one arm for each code, and the operations have an arm
    of the same name for each code that carries arguments. *)
Definition follows (ops args results : decl) : Prop :=
  map snd (arms results) = map result_type (operations ops) /\
  arms args = map (fun p => (p.2.1, args_type p.1))
                  (filter (fun p => p.1 ∉ no_arguments) (zip (operations ops) (arms results))).

(** An NFS 4 compound has, for each operation code, one arm with the result
    type of that operation, in the order of the codes, and one arm of the same name with
    the type of its arguments unless it carries none; the compounds of the
    callback program do too. *)
Theorem compound_arms :
  follows nfs_opnum4 nfs_argop4 nfs_resop4 /\ follows nfs_cb_opnum4 nfs_cb_argop4 nfs_cb_resop4.
Proof. split; split; vm_compute; reflexivity. Qed.

End WireProps.
